(* ===== verification/_CoqProject ===== *)
-Q . S2P
Prelude.v
Enums.v
Errors.v
Link.v
Apdu.v
Tags.v
Text.v
DataTypes.v
Values.v
Options.v
Services.v
Metrics.v
Transport.v
Device.v
Client.v
Calls.v
EndToEnd.v
ReadExample.v
Concurrency.v
Interleaving.v
Lifecycle.v
Schedules.v
Refinement.v
