(* ===== verification/Prelude.v ===== *)
(** * A verification library for the BACnet/IP client

    This development models the Go package [bacnet] under [src/], a client for
    BACnet over UDP, as executable definitions, and proves what makes its parts
    correct, or states exactly where they are not.

    ** The program

    A request goes down through these layers, and a packet comes up through
    them: the services of [client.go] (ReadProperty, WriteProperty,
    ReadPropertyMultiple, COV subscriptions, discovery) build and read service
    payloads; [protocol.go] puts tags, APDU, NPDU and BVLC headers around them;
    [internal/transport/udp.go] sends and receives datagrams.  One receiver
    goroutine per connection starts a handler goroutine per packet; a handler
    enters devices that announce themselves into a table and hands responses to
    the waiting calls through one channel per request, found by its 8-bit
    invoke id.

    ** The files

    - [Prelude.v]: Go values and outcomes (return, error, panic, out of fuel),
      the monad notation [let! x := m in k], bounds-checked indexing and
      slicing, [encoding/binary], and the lemmas and tactics of all files:
      [len_lia] for lengths, [go_safe] (with the hint database of the same
      name) for the absence of panics, cursors ([rest_is]) for decoders that
      walk a buffer.
    - [Enums.v]: the enumerations of [types.go] and [errors.go], every constant
      and name table, the [String] methods and the name parsers.
    - [Errors.v]: the error values of [errors.go], wrapping, [errors.Is] and
      [errors.As], and the [IsXxx] helpers.
    - [Link.v], [Apdu.v], [Tags.v], [Text.v]: the codecs of [protocol.go] and the
      object identifiers of [types.go], a definition per function.
    - [DataTypes.v]: [bitstring.go], [datetime.go] and the status flags, a
      module per type.
    - [Values.v]: [decodePropertyValue] and [encodePropertyValue] over a type of
      dynamic values; the class [TagCodec] is the interface between them and
      the primitive codecs, with an instance per application tag.
    - [Options.v]: [options.go] and [version.go].
    - [Services.v]: request payloads, and the decoders of acknowledgements and
      error responses.
    - [Metrics.v]: [metrics.go].
    - [Transport.v]: [internal/transport/udp.go].
    - [Device.v]: [device.go] and the addresses of devices.
    - [Client.v]: the client state and [handlePacket] with everything it calls.
    - [Calls.v]: [sendRequest] and the services on top of it, [Connect], [Close]
      and the receiver loop's decisions, as sequential functions.
    - [EndToEnd.v]: the services from the request on the wire to the value the
      caller gets.
    - [ReadExample.v]: the program [examples/read/main.go], a session from
      [Connect] to [Close].
    - [Concurrency.v]: the goroutines of the client (calls, packet handlers,
      receivers, [Close], [Connect]) as program counters with step functions
      over a shared world; the steps of one goroutine alone are the sequential
      functions of [Client.v] and [Calls.v].
    - [Interleaving.v]: the invariant of all interleavings of these steps.
    - [Lifecycle.v]: the invariant when [Connect] and [Close] do not overlap,
      the properties of all interleavings, and concrete schedules.
    - [Schedules.v]: progress of [Close] and of calls, and the races.
    - [Refinement.v]: an abstract specification of a request, which every
      interleaving of the goroutines implements.

    ** What the theorems show

    Safety: no packet, whatever its octets, makes the packet handler panic or
    fail or change more of the client than it may ([handlePacket_total]); the
    response decoders terminate on every input without a panic
    ([response_decoders_total]); in no interleaving does a goroutine panic or a
    response meet a closed channel, as long as the user lets [Connect] and
    [Close] not overlap ([interleavings_safe]), and every result of a call has a
    cause in a packet with its own invoke id, its context or a [Close]
    ([results_explained]).

    Invariants: pending entries, channels and the gauge of active requests
    belong to calls under way, and the counters of requests and outcomes differ
    by the calls that wait or that a [Close] ended ([requests_accounted]);
    decoded values have the type and range of their tag
    ([decoded_values_typed]).

    Progress: a response wakes the call it answers ([response_wakes_call]), a
    call returns within seven of its own steps once its context has ended
    ([calls_return]), [Close] can always be brought to its end
    ([Close_can_return]) and wakes every waiting call ([Close_wakes_all]).

    Refinement: every step of the goroutines has, on the calls, the effect of the
    event that it is in the specification of a request
    ([goroutines_refine_requests]).  That the goroutines alone are the sequential
    functions ([sequential_runs]) relates two models and supports no claim by
    itself.

    Exactness: the APDU decoder accepts exactly the wire formats given as
    specifications, and returns their fields ([DecodeAPDU_exact],
    [DecodeBitString_exact]); the NPDU decoder accepts exactly the standard
    headers without both specifiers, and with both exactly the headers in its own
    order of fields ([DecodeNPDU_exact]), so that it misreads a standard one
    ([DecodeNPDU_forwarded]).

    Round trips: headers, tags, integers, reals, strings, dates, object
    identifiers, property values and names come back as they were sent, on
    stated ranges that are shown to be the largest where the code loses
    information ([EncodeTag_roundtrip], [application_values_roundtrip],
    [encodePropertyValue_roundtrip], [write_then_read] and others).

    Services end to end: a call gets the first response with its invoke id out
    of any sequence of packets, or a timeout, and leaves the client as it found
    it ([sendRequest_first_response]); reads return the value a device answers
    with ([ReadProperty_end_to_end]), after finding an unknown device
    ([ReadProperty_discovers], [handleIAm_registers]); a whole session of the
    example program prints what the devices announce and answer
    ([main_session]); an object list is read completely
    ([GetObjectList_complete], [GetObjectList_terminates]); many properties come
    back one for each request, whatever the iteration order of a map, as long as
    no value ends in a boolean TRUE, and exactly as [observed] says if one does
    ([ReadPropertyMultiple_end_to_end], [ReadPropertyMultiple_decodes]);
    subscriptions follow their acknowledgements ([subscriptions_follow_acks]).

    Where the code deviates from what it means to do, a theorem says exactly
    how: a boolean TRUE swallows the results of a ReadPropertyMultiple after it,
    up to the next value that is not TRUE ([ReadPropertyMultiple_true_swallows],
    [ReadPropertyMultiple_decodes]); a client or transport that was
    closed cannot be used again ([reconnect_is_dead],
    [transport_reopen_is_dead]); extended tags lose their length
    ([EncodeTag_extended_loses_length]); headers with a destination and a source are
    misread ([DecodeNPDU_forwarded]); a subscription without options is a
    cancellation ([SubscribeCOV_default_is_cancellation]); a [Connect] during a
    [Close] can end the process, hang the [Close] or make a handler send on a
    closed channel ([overlap_crashes], [overlap_hangs_Close],
    [overlap_sends_on_closed]); an invoke id that comes round while in use loses
    a response ([reused_id_loses_response]); a call can register after [Close]
    has drained ([Close_misses_late_call]).

    ** Modelling decisions

    - Octets, words and Go's [int] are integers of [Z]; conversions to a width
      wrap ([uint], [sint]).  Every [int] that the code computes from a packet is
      below 2^33, far from the bounds of a 64-bit [int]; on a 32-bit platform
      a length word of 2^31 or more would be negative instead.
    - A slice is the list of its octets.  An index or slice out of the bounds
      of its length is a panic; Go bounds a slice expression by the capacity,
      so the model panics at least as often.
    - A [float32] or [float64] is its bit pattern: the code only moves it.
    - A function with fuel is started with more fuel than its input has octets,
      and the [_safe] lemmas show that this is enough; only [GetObjectList] takes
      its fuel from outside, because it need not end.
    - A function that returns a value together with an error, whose callers use
      the value, returns both.
    - The packages [net], [time], [context] and the operating system are
      arguments: the results of resolving, listening, reading, writing and
      closing, the clock, and, for a call that blocks, what the other
      goroutines do to the client meanwhile ([Env]), given the datagrams the
      call has sent.
    - In [Concurrency.v] a step is what a goroutine does between two points
      where another one may come in: an access to the state, to the invoke id,
      to [pending] under its mutex, to a channel, to the fields of the receiver
      or to the socket; counters belong to the step next to them.  The device
      and subscription tables, unconfirmed requests and counters are changed by
      steps [Elsewhere] ([elsewhere_covers] shows which operations these are).
      Resetting the metrics while a request is under way is not such a step:
      the reset of the gauge of active requests and of the counters breaks
      their accounts.
    - A misuse of [sync.WaitGroup] that a [Connect] during a [Close] might cause
      is not modelled; the theorems that need it exclude the overlap.
    - A Go map is a [gmap]; where the code ranges over one, the order is an
      argument or the statement holds for every order.

    ** Not modelled

    Logging, the formatting of what the example program prints (package [fmt]),
    the tests, and memory: [GetObjectList] allocates the capacity that the device
    claims, up to 2^32 - 1 elements, before it reads an element, and the model
    does not run out of memory there. *)

From stdpp Require Export base list strings gmap pretty.
From Stdlib Require Export ZArith Lia.

#[global] Open Scope Z_scope.
#[global] Set Default Proof Using "Type".
#[global] Set Warnings "-clear-no-such-hyp".

(** ** Go values *)

(** A Go [[]byte]: every element is meant to be in [0, 256); see [wf_bytes]. *)
Abbreviation bytes := (list Z).

Definition len {A : Type} (l : list A) : Z := Z.of_nat (length l).

Definition is_byte (b : Z) : Prop := 0 <= b < 256.
Definition wf_bytes (bs : bytes) : Prop := Forall is_byte bs.

(** Conversions to fixed-width integers wrap. *)
Definition uint (w z : Z) : Z := z mod 2 ^ w.
Definition sint (w z : Z) : Z := (z + 2 ^ (w - 1)) mod 2 ^ w - 2 ^ (w - 1).
Abbreviation u8 := (uint 8).
Abbreviation u16 := (uint 16).
Abbreviation u32 := (uint 32).
Abbreviation u64 := (uint 64).
Abbreviation s8 := (sint 8).
Abbreviation s16 := (sint 16).
Abbreviation s32 := (sint 32).
Abbreviation s64 := (sint 64).

(** [flag c m] is the Go test [c & m != 0]. *)
Definition flag (c m : Z) : bool := negb (Z.land c m =? 0).

(** ** Outcomes of a Go call

    [Ret] is a normal return with a nil error, [Err] a return with a non-nil
    error, [Panic] a run-time panic (index or slice out of range, send on a
    closed channel) and [NoFuel] marks a loop whose fuel ran out, so a theorem
    that excludes it is a termination theorem. *)
Inductive outcome (E A : Type) : Type :=
  | Ret (a : A)
  | Err (e : E)
  | Panic
  | NoFuel.
Arguments Ret {E A} a.
Arguments Err {E A} e.
Arguments Panic {E A}.
Arguments NoFuel {E A}.

Definition obind {E A B : Type} (m : outcome E A) (k : A -> outcome E B) : outcome E B :=
  match m with
  | Ret a => k a
  | Err e => Err e
  | Panic => Panic
  | NoFuel => NoFuel
  end.

(** [v, err := f()] where the caller inspects [err] itself. *)
Definition try {E A : Type} (m : outcome E A) : outcome E (A + E) :=
  match m with
  | Ret a => Ret (inl a)
  | Err e => Ret (inr e)
  | Panic => Panic
  | NoFuel => NoFuel
  end.

Declare Scope go_scope.
Delimit Scope go_scope with go.
#[global] Open Scope go_scope.
Notation "'let!' x := m 'in' k" := (obind m (fun x => k))
  (at level 10, x name, m at level 100, k at level 200,
   format "'[v' 'let!'  x  :=  m  'in' '/' k ']'") : go_scope.
Notation "'let!' ' x := m 'in' k" := (obind m (fun x => k))
  (at level 10, x strict pattern, m at level 100, k at level 200,
   format "'[v' 'let!'  ' x  :=  m  'in' '/' k ']'") : go_scope.

(** ** Slices

    Every index and slice expression of the source is one of these: out of
    range is a panic.  Go bounds [s[lo:hi]] by the capacity of [s]; the model
    uses the length, which panics on more inputs. *)
Definition idx {E : Type} (d : bytes) (i : Z) : outcome E Z :=
  if (0 <=? i) && (i <? len d) then Ret (nth (Z.to_nat i) d 0) else Panic.

Definition slice_from {E : Type} (d : bytes) (lo : Z) : outcome E bytes :=
  if (0 <=? lo) && (lo <=? len d) then Ret (drop (Z.to_nat lo) d) else Panic.

Definition slice {E : Type} (d : bytes) (lo hi : Z) : outcome E bytes :=
  if (0 <=? lo) && (lo <=? hi) && (hi <=? len d)
  then Ret (take (Z.to_nat (hi - lo)) (drop (Z.to_nat lo) d)) else Panic.

(** ** encoding/binary, big endian *)
Definition be16 {E : Type} (d : bytes) : outcome E Z :=
  let! b1 := idx d 1 in
  let! b0 := idx d 0 in
  Ret (Z.lor b1 (Z.shiftl b0 8)).

Definition be32 {E : Type} (d : bytes) : outcome E Z :=
  let! b3 := idx d 3 in
  let! b2 := idx d 2 in
  let! b1 := idx d 1 in
  let! b0 := idx d 0 in
  Ret (Z.lor (Z.lor (Z.lor b3 (Z.shiftl b2 8)) (Z.shiftl b1 16)) (Z.shiftl b0 24)).

Definition be64 {E : Type} (d : bytes) : outcome E Z :=
  let! b7 := idx d 7 in
  let! b6 := idx d 6 in
  let! b5 := idx d 5 in
  let! b4 := idx d 4 in
  let! b3 := idx d 3 in
  let! b2 := idx d 2 in
  let! b1 := idx d 1 in
  let! b0 := idx d 0 in
  Ret (Z.lor (Z.lor (Z.lor (Z.lor (Z.lor (Z.lor (Z.lor b7 (Z.shiftl b6 8))
        (Z.shiftl b5 16)) (Z.shiftl b4 24)) (Z.shiftl b3 32)) (Z.shiftl b2 40))
        (Z.shiftl b1 48)) (Z.shiftl b0 56)).

Definition put_be16 (v : Z) : bytes := [u8 (Z.shiftr v 8); u8 v].

Definition put_be64 (v : Z) : bytes :=
  [u8 (Z.shiftr v 56); u8 (Z.shiftr v 48); u8 (Z.shiftr v 40); u8 (Z.shiftr v 32);
   u8 (Z.shiftr v 24); u8 (Z.shiftr v 16); u8 (Z.shiftr v 8); u8 v].

(** [for i := range out { out[i] = f(i) }], from index [i] on. *)
Fixpoint for_range {E A : Type} (f : Z -> outcome E A) (n : nat) (i : Z) : outcome E (list A) :=
  match n with
  | O => Ret []
  | S n =>
      let! a := f i in
      let! l := for_range f n (i + 1) in
      Ret (a :: l)
  end.

(** Lookup in a Go map literal, [m[k]] with its [ok]. *)
Fixpoint assoc {K V : Type} `{EqDecision K} (k : K) (m : list (K * V)) : option V :=
  match m with
  | [] => None
  | (k', v) :: m => if decide (k = k') then Some v else assoc k m
  end.

(** [fmt]'s [%d] of an integer. *)
Definition dec (n : Z) : string := pretty n.

(** [fmt]'s [%02x] of a byte. *)
Definition hex_digit (n : Z) : string :=
  String (Ascii.ascii_of_nat (Z.to_nat (if n <? 10 then 48 + n else 87 + n))) EmptyString.
Definition hex2 (b : Z) : string := hex_digit (b / 16) +:+ hex_digit (b mod 16).

(** The [String] methods: the name in the table, else [prefix]d[)]. *)
Definition named (names : list (Z * string)) (prefix : string) (v : Z) : string :=
  match assoc v names with
  | Some name => name
  | None => prefix +:+ dec v +:+ ")"
  end.

(** ** Association lists and names *)

Lemma assoc_elem_of {K V} `{EqDecision K} (k : K) (m : list (K * V)) v :
  assoc k m = Some v -> (k, v) ∈ m.
Proof.
  induction m as [|[k' v'] m IH]; cbn; [done|].
  case_decide; [intros [= ->]; subst; left|]. intros; right; auto.
Qed.

(** The tables of the [String] methods give distinct values distinct texts
    when the names are distinct and none of them looks like the fallback. *)
Definition names_ok (names : list (Z * string)) (prefix : string) : bool :=
  bool_decide (NoDup names.*2) && forallb (fun '(_, n) => negb (String.prefix prefix n)) names.

Lemma prefix_app p s : String.prefix p (p +:+ s) = true.
Proof.
  induction p as [|c p IH]; [by destruct s|].
  change (String c p +:+ s) with (String c (p +:+ s)). cbn.
  destruct (Ascii.ascii_dec c c); [exact IH|congruence].
Qed.

Lemma append_length s t : String.length (s +:+ t) = (String.length s + String.length t)%nat.
Proof.
  induction s as [|c s IH]; [done|].
  change (String c s +:+ t) with (String c (s +:+ t)). cbn. by rewrite IH.
Qed.

Lemma append_inv_r s t u : s +:+ u = t +:+ u -> s = t.
Proof.
  revert t. induction s as [|c s IH]; intros [|c' t] E;
    try change (EmptyString +:+ u) with u in E;
    try change (String c s +:+ u) with (String c (s +:+ u)) in E;
    try change (String c' t +:+ u) with (String c' (t +:+ u)) in E.
  - done.
  - exfalso. apply (f_equal String.length) in E. cbn in E. rewrite append_length in E. lia.
  - exfalso. apply (f_equal String.length) in E. cbn in E. rewrite append_length in E. lia.
  - injection E as -> E. f_equal. by apply IH.
Qed.

Lemma assoc_snd_inj {K V} `{EqDecision K} (k k' : K) (m : list (K * V)) v :
  NoDup m.*2 -> assoc k m = Some v -> assoc k' m = Some v -> k = k'.
Proof.
  intros ND [i H1]%assoc_elem_of%list_elem_of_lookup [j H2]%assoc_elem_of%list_elem_of_lookup.
  assert (i = j) as ->; [|congruence].
  apply (NoDup_lookup m.*2 i j v); [done|..]; by rewrite list_lookup_fmap, ?H1, ?H2.
Qed.

Lemma named_inj names prefix v w :
  names_ok names prefix = true -> named names prefix v = named names prefix w -> v = w.
Proof.
  unfold names_ok, named. rewrite andb_true_iff, bool_decide_eq_true, forallb_forall.
  intros [ND HP] E.
  assert (forall u n, assoc u names = Some n -> forall t, n <> prefix +:+ t) as Hne.
  { intros u n Hu%assoc_elem_of%list_elem_of_In t ->. specialize (HP _ Hu). cbn in HP.
    by rewrite prefix_app in HP. }
  destruct (assoc v names) as [n|] eqn:Hv, (assoc w names) as [m|] eqn:Hw; subst.
  - eauto using assoc_snd_inj.
  - by destruct (Hne v _ Hv (dec w +:+ ")")).
  - by destruct (Hne w _ Hw (dec v +:+ ")")).
  - apply (inj (String.append prefix)), append_inv_r in E. by apply (inj pretty).
Qed.

(** ** Lists and lengths *)

Lemma len_nonneg {A} (l : list A) : 0 <= len l.
Proof. unfold len. lia. Qed.

Lemma len_nil {A} : len (@nil A) = 0.
Proof. reflexivity. Qed.

Lemma len_cons {A} (x : A) l : len (x :: l) = 1 + len l.
Proof. unfold len. cbn [length]. lia. Qed.

Lemma len_app {A} (l k : list A) : len (l ++ k) = len l + len k.
Proof. unfold len. rewrite length_app. lia. Qed.

Lemma len_take {A} n (l : list A) : 0 <= n <= len l -> len (take (Z.to_nat n) l) = n.
Proof. unfold len. rewrite length_take. lia. Qed.

Lemma len_drop {A} n (l : list A) : 0 <= n <= len l -> len (drop (Z.to_nat n) l) = len l - n.
Proof. unfold len. rewrite length_drop. lia. Qed.

Lemma len_replicate {A} n (x : A) : len (replicate n x) = Z.of_nat n.
Proof. unfold len. by rewrite length_replicate. Qed.

Lemma len_zero_nil {A} (l : list A) : len l = 0 -> l = [].
Proof. destruct l; [done|]. rewrite len_cons. pose proof (len_nonneg l). lia. Qed.

Create Rewrite HintDb len.
#[export] Hint Rewrite @len_nil @len_cons @len_app @len_replicate : len.

(** Every length in sight is non-negative. *)
Ltac lens :=
  repeat match goal with
  | |- context [len ?l] =>
      lazymatch goal with H : 0 <= len l |- _ => fail | _ => pose proof (len_nonneg l) end
  | _ : context [len ?l] |- _ =>
      lazymatch goal with H : 0 <= len l |- _ => fail | _ => pose proof (len_nonneg l) end
  end.

(** Linear arithmetic over lengths, the boolean guards of the code included. *)
Ltac len_lia := autorewrite with len in *; lens; lia.

(** Division and remainder by constants, on top of [lia]. *)
Ltac div_lia := Z.to_euclidean_division_equations; lia.

Lemma take_app_len {A} (l k : list A) : take (Z.to_nat (len l)) (l ++ k) = l.
Proof. unfold len. rewrite Nat2Z.id. by rewrite take_app_length. Qed.

Lemma drop_app_len {A} (l k : list A) : drop (Z.to_nat (len l)) (l ++ k) = k.
Proof. unfold len. rewrite Nat2Z.id. by rewrite drop_app_length. Qed.

(** ** Bytes *)

Create HintDb wf.
#[export] Hint Unfold wf_bytes : wf.
#[export] Hint Constructors Forall : wf.

Lemma wf_app bs cs : wf_bytes (bs ++ cs) <-> wf_bytes bs /\ wf_bytes cs.
Proof. apply Forall_app. Qed.

Lemma wf_take n bs : wf_bytes bs -> wf_bytes (take n bs).
Proof. apply Forall_take. Qed.

Lemma wf_drop n bs : wf_bytes bs -> wf_bytes (drop n bs).
Proof. apply Forall_drop. Qed.

Lemma wf_nth bs i : wf_bytes bs -> is_byte (nth i bs 0).
Proof.
  intros H. revert i. induction H as [|b bs Hb _ IH]; intros [|i]; cbn; auto; unfold is_byte in *; lia.
Qed.

Lemma u8_byte z : is_byte (u8 z).
Proof. unfold is_byte, uint. apply Z.mod_pos_bound. lia. Qed.

#[export] Hint Resolve wf_take wf_drop wf_nth u8_byte : wf.

(** ** Bits *)

Lemma uint_range w z : 0 <= w -> 0 <= uint w z < 2 ^ w.
Proof. intros. unfold uint. apply Z.mod_pos_bound. lia. Qed.

Lemma uint_small w z : 0 <= z < 2 ^ w -> uint w z = z.
Proof. apply Z.mod_small. Qed.

Lemma sint_small w z : 0 < w -> - 2 ^ (w - 1) <= z < 2 ^ (w - 1) -> sint w z = z.
Proof.
  intros Hw Hz. unfold sint.
  assert (2 ^ w = 2 * 2 ^ (w - 1)) as -> by (rewrite <- Z.pow_succ_r by lia; f_equal; lia).
  rewrite Z.mod_small; lia.
Qed.

Lemma sint_range w z : 0 < w -> - 2 ^ (w - 1) <= sint w z < 2 ^ (w - 1).
Proof.
  intros Hw. unfold sint.
  assert (2 ^ w = 2 * 2 ^ (w - 1)) as E by (rewrite <- Z.pow_succ_r by lia; f_equal; lia).
  pose proof (Z.mod_pos_bound (z + 2 ^ (w - 1)) (2 ^ w)). lia.
Qed.

Lemma testbit_above b n i : 0 <= b < 2 ^ n -> n <= i -> Z.testbit b i = false.
Proof.
  intros Hb Hi. rewrite <- (Z.mod_small b (2 ^ n)) by done.
  apply Z.mod_pow2_bits_high. split; [|done].
  destruct (Z.neg_nonneg_cases n); [|done]. rewrite Z.pow_neg_r in Hb by done. lia.
Qed.

Lemma land_shiftl_disjoint a b n : 0 <= n -> 0 <= b < 2 ^ n -> Z.land (Z.shiftl a n) b = 0.
Proof.
  intros Hn Hb. apply Z.bits_inj'. intros i Hi. rewrite Z.land_spec, Z.bits_0.
  destruct (Z.lt_ge_cases i n).
  - by rewrite Z.shiftl_spec_low.
  - rewrite (testbit_above b n) by lia. apply andb_false_r.
Qed.

(** Disjoint bit fields: or is addition. *)
Lemma lor_shiftl a b n : 0 <= n -> 0 <= b < 2 ^ n -> Z.lor (Z.shiftl a n) b = a * 2 ^ n + b.
Proof.
  intros Hn Hb. pose proof (land_shiftl_disjoint a b n Hn Hb) as E.
  rewrite <- Z.shiftl_mul_pow2 by lia.
  rewrite <- Z.lxor_lor by done. symmetry. by apply Z.add_nocarry_lxor.
Qed.

Lemma lor_shiftl' a b n : 0 <= n -> 0 <= b < 2 ^ n -> Z.lor b (Z.shiftl a n) = a * 2 ^ n + b.
Proof. intros. rewrite Z.lor_comm. by apply lor_shiftl. Qed.

(** Exhaustive reasoning on a small range: [P] holds of every [0 <= i < n]
    when the boolean check evaluates to [true]. *)
Lemma forall_range (n : nat) (P : Z -> bool) :
  forallb (fun i => P (Z.of_nat i)) (seq 0 n) = true -> forall i, 0 <= i < Z.of_nat n -> P i = true.
Proof.
  intros H i Hi. rewrite forallb_forall in H.
  specialize (H (Z.to_nat i)). rewrite Z2Nat.id in H by lia. apply H, in_seq. lia.
Qed.

(** ** Slices of concatenations *)

Lemma idx_in {E} d i : 0 <= i < len d -> @idx E d i = Ret (nth (Z.to_nat i) d 0).
Proof. intros. unfold idx. by replace ((0 <=? i) && (i <? len d)) with true by lia. Qed.

Lemma idx_app_r {E} l k i : 0 <= i -> @idx E (l ++ k) (len l + i) = idx k i.
Proof.
  intros. unfold idx. rewrite len_app. pose proof (len_nonneg l).
  destruct (Z.ltb_spec i (len k)).
  - replace ((0 <=? len l + i) && (len l + i <? len l + len k)) with true by lia.
    replace ((0 <=? i) && true) with true by lia. f_equal.
    rewrite app_nth2; unfold len; [f_equal|]; lia.
  - replace ((0 <=? len l + i) && (len l + i <? len l + len k)) with false by lia.
    by replace ((0 <=? i) && false) with false by lia.
Qed.

Lemma idx_app_l {E} l k i : i < len l -> @idx E (l ++ k) i = idx l i.
Proof.
  intros. unfold idx. rewrite len_app. pose proof (len_nonneg k).
  destruct (Z.leb_spec 0 i); [|done].
  replace (i <? len l) with true by lia. replace (i <? len l + len k) with true by lia.
  cbn. f_equal. apply app_nth1. unfold len in *. lia.
Qed.

Lemma idx_cons_0 {E} x l : @idx E (x :: l) 0 = Ret x.
Proof. by rewrite idx_in by len_lia. Qed.

Lemma idx_cons_S {E} x l i : 0 < i -> @idx E (x :: l) i = idx l (i - 1).
Proof.
  intros. change (x :: l) with ([x] ++ l).
  replace i with (len [x] + (i - 1)) at 1 by (rewrite len_cons, len_nil; lia).
  apply idx_app_r. lia.
Qed.

Lemma slice_from_in {E} d lo : 0 <= lo <= len d -> @slice_from E d lo = Ret (drop (Z.to_nat lo) d).
Proof. intros. unfold slice_from. by replace ((0 <=? lo) && (lo <=? len d)) with true by lia. Qed.

Lemma slice_from_0 {E} d : @slice_from E d 0 = Ret d.
Proof. rewrite slice_from_in by len_lia. done. Qed.

Lemma slice_from_app {E} l k : @slice_from E (l ++ k) (len l) = Ret k.
Proof. rewrite slice_from_in by len_lia. by rewrite drop_app_len. Qed.

Lemma slice_from_app_r {E} l k i : 0 <= i -> @slice_from E (l ++ k) (len l + i) = slice_from k i.
Proof.
  intros. unfold slice_from. rewrite len_app. lens.
  replace ((0 <=? len l + i) && (len l + i <=? len l + len k)) with ((0 <=? i) && (i <=? len k)) by lia.
  destruct ((0 <=? i) && (i <=? len k)); [|done].
  rewrite Z2Nat.inj_add by lia. unfold len. rewrite Nat2Z.id.
  by rewrite <- drop_drop, drop_app_length.
Qed.

Lemma slice_in {E} d lo hi :
  0 <= lo <= hi -> hi <= len d ->
  @slice E d lo hi = Ret (take (Z.to_nat (hi - lo)) (drop (Z.to_nat lo) d)).
Proof.
  intros. unfold slice. by replace ((0 <=? lo) && (lo <=? hi) && (hi <=? len d)) with true by lia.
Qed.

Lemma slice_mid {E} l m k : @slice E (l ++ m ++ k) (len l) (len l + len m) = Ret m.
Proof.
  rewrite slice_in by len_lia. rewrite drop_app_len.
  replace (len l + len m - len l) with (len m) by lia. by rewrite take_app_len.
Qed.

Lemma slice_mid' {E} d l m k lo hi :
  d = l ++ m ++ k -> lo = len l -> hi = len l + len m -> @slice E d lo hi = Ret m.
Proof. intros -> -> ->. apply slice_mid. Qed.

Lemma slice_app_r {E} l k i j : 0 <= i -> @slice E (l ++ k) (len l + i) (len l + j) = slice k i j.
Proof.
  intros. unfold slice. rewrite len_app. lens.
  replace ((0 <=? len l + i) && (len l + i <=? len l + j) && (len l + j <=? len l + len k))
    with ((0 <=? i) && (i <=? j) && (j <=? len k)) by lia.
  destruct ((0 <=? i) && (i <=? j) && (j <=? len k)); [|done].
  replace (len l + j - (len l + i)) with (j - i) by lia.
  rewrite Z2Nat.inj_add by lia. unfold len. rewrite Nat2Z.id.
  by rewrite <- drop_drop, drop_app_length.
Qed.

(** ** Cursors

    [rest_is d o x]: the octets of [d] from offset [o] on are [x].  A decoder
    that walks a buffer with an offset is specified against the remaining
    octets, and advances with [rest_app]. *)
Definition rest_is (d : bytes) (o : Z) (x : bytes) : Prop :=
  exists pre, d = pre ++ x /\ o = len pre.

Lemma rest_start d : rest_is d 0 d.
Proof. by exists []. Qed.

Lemma rest_len d o x : rest_is d o x -> 0 <= o /\ len d = o + len x.
Proof. intros (pre & -> & ->). len_lia. Qed.

Lemma rest_app d o o' a x : rest_is d o (a ++ x) -> o' = o + len a -> rest_is d o' x.
Proof. intros (pre & -> & ->) ->. exists (pre ++ a). by rewrite <- app_assoc, len_app. Qed.

Lemma rest_slice_from {E} d o x : rest_is d o x -> @slice_from E d o = Ret x.
Proof. intros (pre & -> & ->). apply slice_from_app. Qed.

Lemma rest_slice {E} d o a b x lo hi :
  rest_is d o (a ++ b ++ x) -> lo = o + len a -> hi = lo + len b -> @slice E d lo hi = Ret b.
Proof.
  intros (pre & -> & ->) -> ->. apply (slice_mid' _ (pre ++ a) b x).
  - by rewrite <- app_assoc.
  - by rewrite len_app.
  - by rewrite len_app.
Qed.

(** Evaluate index expressions at literal positions of a list with a literal
    prefix. *)
Ltac nat_literals :=
  repeat match goal with
  | |- context [Z.to_nat (Zpos ?p)] =>
      let n := eval vm_compute in (Z.to_nat (Zpos p)) in change (Z.to_nat (Zpos p)) with n
  | |- context [Z.to_nat 0] => change (Z.to_nat 0) with 0%nat
  end.

Ltac idx_eval := repeat (rewrite idx_in by len_lia); nat_literals; cbn [obind nth].

(** ** Big-endian words *)

Lemma be16_eq {E} a b r : is_byte a -> is_byte b -> @be16 E (a :: b :: r) = Ret (a * 256 + b).
Proof. unfold is_byte, be16. intros. idx_eval. by rewrite lor_shiftl' by lia. Qed.

Lemma be32_eq {E} a b c d r :
  is_byte a -> is_byte b -> is_byte c -> is_byte d ->
  @be32 E (a :: b :: c :: d :: r) = Ret (((a * 256 + b) * 256 + c) * 256 + d).
Proof.
  unfold is_byte, be32. intros. idx_eval.
  rewrite (lor_shiftl' c d), (lor_shiftl' b _), (lor_shiftl' a _) by lia. f_equal. lia.
Qed.

Lemma be64_eq {E} a b c d e f g h r :
  is_byte a -> is_byte b -> is_byte c -> is_byte d ->
  is_byte e -> is_byte f -> is_byte g -> is_byte h ->
  @be64 E (a :: b :: c :: d :: e :: f :: g :: h :: r) =
  Ret (((((((a * 256 + b) * 256 + c) * 256 + d) * 256 + e) * 256 + f) * 256 + g) * 256 + h).
Proof.
  unfold is_byte, be64. intros. idx_eval.
  rewrite (lor_shiftl' g h), (lor_shiftl' f _), (lor_shiftl' e _), (lor_shiftl' d _),
    (lor_shiftl' c _), (lor_shiftl' b _), (lor_shiftl' a _) by lia. f_equal. lia.
Qed.

Lemma u8_shiftr v n : 0 <= n -> u8 (Z.shiftr v n) = (v / 2 ^ n) mod 256.
Proof. intros. unfold uint. by rewrite Z.shiftr_div_pow2. Qed.

Lemma be16_put {E} v r : 0 <= v < 65536 -> @be16 E (put_be16 v ++ r) = Ret v.
Proof.
  intros. unfold put_be16. cbn [app].
  rewrite be16_eq by auto with wf. f_equal. rewrite u8_shiftr by lia. unfold uint. div_lia.
Qed.

Lemma len_put_be16 v : len (put_be16 v) = 2.
Proof. reflexivity. Qed.

Lemma len_put_be64 v : len (put_be64 v) = 8.
Proof. reflexivity. Qed.

#[export] Hint Rewrite len_put_be16 len_put_be64 : len.

Lemma be64_put {E} v r : 0 <= v < 2 ^ 64 -> @be64 E (put_be64 v ++ r) = Ret v.
Proof.
  intros. unfold put_be64. cbn [app].
  rewrite be64_eq by auto with wf. f_equal. rewrite !u8_shiftr by lia. unfold uint. div_lia.
Qed.

(** A list of at least [n] elements starts with [n] of them. *)
Lemma len_ge_cons {A} (l : list A) n : 0 < n -> n <= len l -> exists x k, l = x :: k /\ n - 1 <= len k.
Proof. destruct l as [|x k]; intros Hn H; [rewrite len_nil in H; lia|]. rewrite len_cons in H. exists x, k. split; [done|lia]. Qed.

(** ** Total correctness of a call

    [safely m Q]: the call [m] does not panic and does not run out of fuel,
    and if it returns without an error the result satisfies [Q]. *)
Definition safely {E A} (m : outcome E A) (Q : A -> Prop) : Prop :=
  match m with
  | Ret a => Q a
  | Err _ => True
  | Panic | NoFuel => False
  end.

Definition no_panic {E A} (m : outcome E A) : Prop := m <> Panic /\ m <> NoFuel.

Lemma safely_no_panic {E A} (m : outcome E A) Q : safely m Q -> no_panic m.
Proof. by destruct m. Qed.

Lemma no_panic_safely {E A} (m : outcome E A) : no_panic m -> safely m (fun _ => True).
Proof. unfold no_panic. destruct m; cbn; tauto. Qed.

Lemma safely_weaken {E A} (m : outcome E A) (P Q : A -> Prop) :
  safely m P -> (forall a, P a -> Q a) -> safely m Q.
Proof. destruct m; cbn; auto. Qed.

Lemma safely_bind {E A B} (m : outcome E A) (k : A -> outcome E B) P Q :
  safely m P -> (forall a, P a -> safely (k a) Q) -> safely (obind m k) Q.
Proof. destruct m; cbn; auto. Qed.

Lemma safely_try {E A} (m : outcome E A) (Q : A -> Prop) :
  safely m Q -> safely (try (E:=E) m) (fun r => match r with inl a => Q a | inr _ => True end).
Proof. destruct m; cbn; auto. Qed.

Lemma safely_ret_inv {E A} (m : outcome E A) Q a : safely m Q -> m = Ret a -> Q a.
Proof. by intros H ->. Qed.

Lemma safely_idx {E} d i : 0 <= i < len d -> safely (@idx E d i) (fun b => wf_bytes d -> is_byte b).
Proof. intros. rewrite idx_in by done. cbn. intros. by apply wf_nth. Qed.

Lemma safely_slice_from {E} d lo :
  0 <= lo <= len d ->
  safely (@slice_from E d lo) (fun r => len r = len d - lo /\ (wf_bytes d -> wf_bytes r)).
Proof. intros. rewrite slice_from_in by done. cbn. split; [by apply len_drop|auto with wf]. Qed.

Lemma safely_slice {E} d lo hi :
  0 <= lo <= hi -> hi <= len d ->
  safely (@slice E d lo hi) (fun r => len r = hi - lo /\ (wf_bytes d -> wf_bytes r)).
Proof.
  intros. rewrite slice_in by done. cbn. split; [|auto with wf].
  rewrite len_take; [done|]. rewrite len_drop by lia. lia.
Qed.

Lemma safely_be16 {E} d : 2 <= len d -> safely (@be16 E d) (fun v => wf_bytes d -> 0 <= v < 2 ^ 16).
Proof.
  intros (a & l & -> & (b & r & -> & _)%len_ge_cons)%len_ge_cons; [|lia..].
  unfold be16. idx_eval. intros [Ha [Hb _]%Forall_cons]%Forall_cons. unfold is_byte in *.
  rewrite lor_shiftl' by lia. lia.
Qed.

Lemma safely_be32 {E} d : 4 <= len d -> safely (@be32 E d) (fun v => wf_bytes d -> 0 <= v < 2 ^ 32).
Proof.
  intros (a & l & -> & (b & r & -> & (c & r' & -> & (e & r'' & -> & _)%len_ge_cons)
    %len_ge_cons)%len_ge_cons)%len_ge_cons; [|lia..].
  unfold be32. idx_eval.
  intros [Ha [Hb [Hc [He _]%Forall_cons]%Forall_cons]%Forall_cons]%Forall_cons. unfold is_byte in *.
  rewrite (lor_shiftl' c e), (lor_shiftl' b _), (lor_shiftl' a _) by lia. lia.
Qed.

(** One lemma per Go construct, applied by [go_safe]; components add the
    contracts of their operations to the same database. *)
Create HintDb go_safe.
#[export] Hint Extern 1 (safely (idx _ _) _) => apply safely_idx; len_lia : go_safe.
#[export] Hint Extern 1 (safely (slice_from _ _) _) => apply safely_slice_from; len_lia : go_safe.
#[export] Hint Extern 1 (safely (slice _ _ _) _) => apply safely_slice; len_lia : go_safe.
#[export] Hint Extern 1 (safely (be16 _) _) => apply safely_be16; len_lia : go_safe.
#[export] Hint Extern 1 (safely (be32 _) _) => apply safely_be32; len_lia : go_safe.
#[export] Hint Extern 1 (safely (try _) _) => eapply safely_try : go_safe.

(** Use what the contract of a call says about its result. *)
Ltac go_facts :=
  repeat match goal with
  | H : ?P -> _, HP : ?P |- _ =>
      lazymatch type of P with Prop => specialize (H HP) end
  | H : _ /\ _ |- _ => destruct H
  end;
  unfold is_byte in *.

Ltac go_step :=
  match goal with
  | |- safely (Ret _) _ => cbn [safely]
  | |- safely (Err _) _ => exact I
  | |- safely (obind _ _) _ =>
      eapply safely_bind; [solve [eauto 3 with go_safe]|cbn beta; intros; go_facts]
  | |- safely (if ?c then _ else _) _ => destruct c eqn:?
  | |- safely (match ?x with _ => _ end) _ =>
      first [is_var x; destruct x | destruct x eqn:?]; cbn [fst snd] in *
  end.

Ltac go_safe := repeat go_step.

(** ** Calls that return no error *)

(** The call does not return an error. *)
Definition no_err {E A} (m : outcome E A) : Prop := forall e, m <> Err e.

Lemma no_err_bind {E A B} (m : outcome E A) (k : A -> outcome E B) :
  no_err m -> (forall a, no_err (k a)) -> no_err (obind m k).
Proof. intros Hm Hk e. destruct m as [a|e'| |]; cbn; try done; [apply Hk|by intros _; apply (Hm e')]. Qed.

Lemma no_err_try {E A} (m : outcome E A) : no_err (try (E:=E) m).
Proof. by destruct m. Qed.

Lemma no_err_slice {E} d i j : no_err (@slice E d i j).
Proof. intros e. unfold slice. by destruct (_ && _). Qed.
Lemma no_err_slice_from {E} d i : no_err (@slice_from E d i).
Proof. intros e. unfold slice_from. by destruct (_ && _). Qed.
Lemma no_err_idx {E} d i : no_err (@idx E d i).
Proof. intros e. unfold idx. by destruct (_ && _). Qed.

Create HintDb no_err.
#[export] Hint Resolve no_err_bind no_err_try no_err_slice no_err_slice_from no_err_idx : no_err.

Ltac no_err :=
  repeat match goal with
  | |- no_err (Ret _) => done
  | |- no_err Panic => done
  | |- no_err NoFuel => done
  | |- no_err (obind _ _) => apply no_err_bind; [|intros]
  | |- no_err (if ?c then _ else _) => destruct c
  | |- no_err (match ?x with _ => _ end) => destruct x
  | |- no_err _ => solve [auto with no_err]
  end.

Lemma no_err_be16 {E} d : no_err (@be16 E d).
Proof. unfold be16. no_err. Qed.
Lemma no_err_be32 {E} d : no_err (@be32 E d).
Proof. unfold be32. no_err. Qed.
Lemma no_err_be64 {E} d : no_err (@be64 E d).
Proof. unfold be64. no_err. Qed.
#[export] Hint Resolve no_err_be16 no_err_be32 no_err_be64 : no_err.

Lemma no_err_for_range {E A} (f : Z -> outcome E A) n i : (forall j, no_err (f j)) -> no_err (for_range f n i).
Proof. intros Hf. revert i. induction n as [|n IH]; intros i; cbn; [done|]. no_err; auto. Qed.

Lemma safely_no_err {E A} (m : outcome E A) Q : safely m Q -> no_err m -> exists a, m = Ret a /\ Q a.
Proof. destruct m as [a|e| |]; cbn; intros HQ Hne; [by exists a|by destruct (Hne e)|done|done]. Qed.
