(* ===== verification/Enums.v ===== *)
(** * Enumerations of [types.go] and [errors.go]

    Go's enumerations are open: any value of the underlying unsigned type is a
    value of the enumeration, and the constants name some of them.  Each is a
    [Z] here, one definition per constant, with the tables behind the [String]
    methods and the [Parse] functions.  A table is the association list of the
    map literal; [Sprintf] of an unnamed value falls back to its number. *)

From S2P Require Import Prelude.
#[local] Open Scope string_scope.
#[local] Open Scope list_scope.
#[local] Open Scope Z_scope.

(** ** Package constants *)

Definition DefaultPort : Z := 47808.
Definition MaxAPDULength : Z := 1476.
Definition ArrayAll : Z := 0xFFFFFFFF.

(** ** [BVLCType]: link-layer type *)

Definition BVLCTypeBACnetIP : Z := 0x81.

(** ** [BVLCFunction] *)

Definition BVLCResult : Z := 0x00.
Definition BVLCWriteBroadcastDistributionTable : Z := 0x01.
Definition BVLCReadBroadcastDistributionTable : Z := 0x02.
Definition BVLCReadBroadcastDistributionTableAck : Z := 0x03.
Definition BVLCForwardedNPDU : Z := 0x04.
Definition BVLCRegisterForeignDevice : Z := 0x05.
Definition BVLCReadForeignDeviceTable : Z := 0x06.
Definition BVLCReadForeignDeviceTableAck : Z := 0x07.
Definition BVLCDeleteForeignDeviceTableEntry : Z := 0x08.
Definition BVLCDistributeBroadcastToNetwork : Z := 0x09.
Definition BVLCOriginalUnicastNPDU : Z := 0x0A.
Definition BVLCOriginalBroadcastNPDU : Z := 0x0B.
Definition BVLCSecureBVLL : Z := 0x0C.

(** ** [NPDUControl]: bits of the network control octet *)

Definition NPDUControlNetworkLayerMessage : Z := 0x80.
Definition NPDUControlDestSpecifier : Z := 0x20.
Definition NPDUControlSourceSpecifier : Z := 0x08.
Definition NPDUControlExpectingReply : Z := 0x04.
Definition NPDUControlPriorityNormal : Z := 0x00.
Definition NPDUControlPriorityUrgent : Z := 0x01.
Definition NPDUControlPriorityCritical : Z := 0x02.
Definition NPDUControlPriorityLifeSafety : Z := 0x03.

(** ** [NetworkMessageType] *)

Definition NetworkMessageWhoIsRouterToNetwork : Z := 0x00.
Definition NetworkMessageIAmRouterToNetwork : Z := 0x01.
Definition NetworkMessageICouldBeRouterToNetwork : Z := 0x02.
Definition NetworkMessageRejectMessageToNetwork : Z := 0x03.
Definition NetworkMessageRouterBusyToNetwork : Z := 0x04.
Definition NetworkMessageRouterAvailableToNetwork : Z := 0x05.
Definition NetworkMessageInitializeRoutingTable : Z := 0x06.
Definition NetworkMessageInitializeRoutingTableAck : Z := 0x07.
Definition NetworkMessageEstablishConnectionToNetwork : Z := 0x08.
Definition NetworkMessageDisconnectConnectionToNetwork : Z := 0x09.
Definition NetworkMessageWhatIsNetworkNumber : Z := 0x12.
Definition NetworkMessageNetworkNumberIs : Z := 0x13.

(** ** [PDUType]: high nibble of the first APDU octet *)

Definition PDUTypeConfirmedRequest : Z := 0x00.
Definition PDUTypeUnconfirmedRequest : Z := 0x10.
Definition PDUTypeSimpleAck : Z := 0x20.
Definition PDUTypeComplexAck : Z := 0x30.
Definition PDUTypeSegmentAck : Z := 0x40.
Definition PDUTypeError : Z := 0x50.
Definition PDUTypeReject : Z := 0x60.
Definition PDUTypeAbort : Z := 0x70.

(** ** [ConfirmedServiceChoice] *)

Definition ServiceAcknowledgeAlarm : Z := 0.
Definition ServiceConfirmedCOVNotification : Z := 1.
Definition ServiceConfirmedEventNotification : Z := 2.
Definition ServiceGetAlarmSummary : Z := 3.
Definition ServiceGetEnrollmentSummary : Z := 4.
Definition ServiceSubscribeCOV : Z := 5.
Definition ServiceAtomicReadFile : Z := 6.
Definition ServiceAtomicWriteFile : Z := 7.
Definition ServiceAddListElement : Z := 8.
Definition ServiceRemoveListElement : Z := 9.
Definition ServiceCreateObject : Z := 10.
Definition ServiceDeleteObject : Z := 11.
Definition ServiceReadProperty : Z := 12.
Definition ServiceReadPropertyConditional : Z := 13.
Definition ServiceReadPropertyMultiple : Z := 14.
Definition ServiceWriteProperty : Z := 15.
Definition ServiceWritePropertyMultiple : Z := 16.
Definition ServiceDeviceCommunicationControl : Z := 17.
Definition ServiceConfirmedPrivateTransfer : Z := 18.
Definition ServiceConfirmedTextMessage : Z := 19.
Definition ServiceReinitializeDevice : Z := 20.
Definition ServiceVTOpen : Z := 21.
Definition ServiceVTClose : Z := 22.
Definition ServiceVTData : Z := 23.
Definition ServiceAuthenticate : Z := 24.
Definition ServiceRequestKey : Z := 25.
Definition ServiceReadRange : Z := 26.
Definition ServiceLifeSafetyOperation : Z := 27.
Definition ServiceSubscribeCOVProperty : Z := 28.
Definition ServiceGetEventInformation : Z := 29.

(** [ConfirmedServiceChoice.String] *)
Definition ConfirmedServiceChoice_names : list (Z * string) := [
  (ServiceAcknowledgeAlarm, "AcknowledgeAlarm");
  (ServiceConfirmedCOVNotification, "ConfirmedCOVNotification");
  (ServiceConfirmedEventNotification, "ConfirmedEventNotification");
  (ServiceGetAlarmSummary, "GetAlarmSummary");
  (ServiceGetEnrollmentSummary, "GetEnrollmentSummary");
  (ServiceSubscribeCOV, "SubscribeCOV");
  (ServiceAtomicReadFile, "AtomicReadFile");
  (ServiceAtomicWriteFile, "AtomicWriteFile");
  (ServiceAddListElement, "AddListElement");
  (ServiceRemoveListElement, "RemoveListElement");
  (ServiceCreateObject, "CreateObject");
  (ServiceDeleteObject, "DeleteObject");
  (ServiceReadProperty, "ReadProperty");
  (ServiceReadPropertyConditional, "ReadPropertyConditional");
  (ServiceReadPropertyMultiple, "ReadPropertyMultiple");
  (ServiceWriteProperty, "WriteProperty");
  (ServiceWritePropertyMultiple, "WritePropertyMultiple");
  (ServiceDeviceCommunicationControl, "DeviceCommunicationControl");
  (ServiceConfirmedPrivateTransfer, "ConfirmedPrivateTransfer");
  (ServiceConfirmedTextMessage, "ConfirmedTextMessage");
  (ServiceReinitializeDevice, "ReinitializeDevice");
  (ServiceVTOpen, "VTOpen");
  (ServiceVTClose, "VTClose");
  (ServiceVTData, "VTData");
  (ServiceAuthenticate, "Authenticate");
  (ServiceRequestKey, "RequestKey");
  (ServiceReadRange, "ReadRange");
  (ServiceLifeSafetyOperation, "LifeSafetyOperation");
  (ServiceSubscribeCOVProperty, "SubscribeCOVProperty");
  (ServiceGetEventInformation, "GetEventInformation")
].

Definition ConfirmedServiceChoice_String (s : Z) : string := named ConfirmedServiceChoice_names "Unknown(" s.

(** ** [UnconfirmedServiceChoice] *)

Definition ServiceIAm : Z := 0.
Definition ServiceIHave : Z := 1.
Definition ServiceUnconfirmedCOVNotification : Z := 2.
Definition ServiceUnconfirmedEventNotification : Z := 3.
Definition ServiceUnconfirmedPrivateTransfer : Z := 4.
Definition ServiceUnconfirmedTextMessage : Z := 5.
Definition ServiceTimeSynchronization : Z := 6.
Definition ServiceWhoHas : Z := 7.
Definition ServiceWhoIs : Z := 8.
Definition ServiceUTCTimeSynchronization : Z := 9.
Definition ServiceWriteGroup : Z := 10.

(** [UnconfirmedServiceChoice.String] *)
Definition UnconfirmedServiceChoice_names : list (Z * string) := [
  (ServiceIAm, "I-Am");
  (ServiceIHave, "I-Have");
  (ServiceUnconfirmedCOVNotification, "UnconfirmedCOVNotification");
  (ServiceUnconfirmedEventNotification, "UnconfirmedEventNotification");
  (ServiceUnconfirmedPrivateTransfer, "UnconfirmedPrivateTransfer");
  (ServiceUnconfirmedTextMessage, "UnconfirmedTextMessage");
  (ServiceTimeSynchronization, "TimeSynchronization");
  (ServiceWhoHas, "Who-Has");
  (ServiceWhoIs, "Who-Is");
  (ServiceUTCTimeSynchronization, "UTCTimeSynchronization");
  (ServiceWriteGroup, "WriteGroup")
].

Definition UnconfirmedServiceChoice_String (s : Z) : string := named UnconfirmedServiceChoice_names "Unknown(" s.

(** ** [ObjectType] *)

Definition ObjectTypeAnalogInput : Z := 0.
Definition ObjectTypeAnalogOutput : Z := 1.
Definition ObjectTypeAnalogValue : Z := 2.
Definition ObjectTypeBinaryInput : Z := 3.
Definition ObjectTypeBinaryOutput : Z := 4.
Definition ObjectTypeBinaryValue : Z := 5.
Definition ObjectTypeCalendar : Z := 6.
Definition ObjectTypeCommand : Z := 7.
Definition ObjectTypeDevice : Z := 8.
Definition ObjectTypeEventEnrollment : Z := 9.
Definition ObjectTypeFile : Z := 10.
Definition ObjectTypeGroup : Z := 11.
Definition ObjectTypeLoop : Z := 12.
Definition ObjectTypeMultiStateInput : Z := 13.
Definition ObjectTypeMultiStateOutput : Z := 14.
Definition ObjectTypeNotificationClass : Z := 15.
Definition ObjectTypeProgram : Z := 16.
Definition ObjectTypeSchedule : Z := 17.
Definition ObjectTypeAveraging : Z := 18.
Definition ObjectTypeMultiStateValue : Z := 19.
Definition ObjectTypeTrendLog : Z := 20.
Definition ObjectTypeLifeSafetyPoint : Z := 21.
Definition ObjectTypeLifeSafetyZone : Z := 22.
Definition ObjectTypeAccumulator : Z := 23.
Definition ObjectTypePulseConverter : Z := 24.
Definition ObjectTypeEventLog : Z := 25.
Definition ObjectTypeGlobalGroup : Z := 26.
Definition ObjectTypeTrendLogMultiple : Z := 27.
Definition ObjectTypeLoadControl : Z := 28.
Definition ObjectTypeStructuredView : Z := 29.
Definition ObjectTypeAccessDoor : Z := 30.
Definition ObjectTypeTimer : Z := 31.
Definition ObjectTypeAccessCredential : Z := 32.
Definition ObjectTypeAccessPoint : Z := 33.
Definition ObjectTypeAccessRights : Z := 34.
Definition ObjectTypeAccessUser : Z := 35.
Definition ObjectTypeAccessZone : Z := 36.
Definition ObjectTypeCredentialDataInput : Z := 37.
Definition ObjectTypeNetworkSecurity : Z := 38.
Definition ObjectTypeBitStringValue : Z := 39.
Definition ObjectTypeCharacterStringValue : Z := 40.
Definition ObjectTypeDatePatternValue : Z := 41.
Definition ObjectTypeDateValue : Z := 42.
Definition ObjectTypeDateTimePatternValue : Z := 43.
Definition ObjectTypeDateTimeValue : Z := 44.
Definition ObjectTypeIntegerValue : Z := 45.
Definition ObjectTypeLargeAnalogValue : Z := 46.
Definition ObjectTypeOctetStringValue : Z := 47.
Definition ObjectTypePositiveIntegerValue : Z := 48.
Definition ObjectTypeTimePatternValue : Z := 49.
Definition ObjectTypeTimeValue : Z := 50.
Definition ObjectTypeNotificationForwarder : Z := 51.
Definition ObjectTypeAlertEnrollment : Z := 52.
Definition ObjectTypeChannel : Z := 53.
Definition ObjectTypeLightingOutput : Z := 54.
Definition ObjectTypeBinaryLightingOutput : Z := 55.
Definition ObjectTypeNetworkPort : Z := 56.
Definition ObjectTypeElevatorGroup : Z := 57.
Definition ObjectTypeEscalator : Z := 58.
Definition ObjectTypeLift : Z := 59.

(** [ObjectType.String] *)
Definition ObjectType_names : list (Z * string) := [
  (ObjectTypeAnalogInput, "analog-input");
  (ObjectTypeAnalogOutput, "analog-output");
  (ObjectTypeAnalogValue, "analog-value");
  (ObjectTypeBinaryInput, "binary-input");
  (ObjectTypeBinaryOutput, "binary-output");
  (ObjectTypeBinaryValue, "binary-value");
  (ObjectTypeCalendar, "calendar");
  (ObjectTypeCommand, "command");
  (ObjectTypeDevice, "device");
  (ObjectTypeEventEnrollment, "event-enrollment");
  (ObjectTypeFile, "file");
  (ObjectTypeGroup, "group");
  (ObjectTypeLoop, "loop");
  (ObjectTypeMultiStateInput, "multi-state-input");
  (ObjectTypeMultiStateOutput, "multi-state-output");
  (ObjectTypeNotificationClass, "notification-class");
  (ObjectTypeProgram, "program");
  (ObjectTypeSchedule, "schedule");
  (ObjectTypeAveraging, "averaging");
  (ObjectTypeMultiStateValue, "multi-state-value");
  (ObjectTypeTrendLog, "trend-log");
  (ObjectTypeLifeSafetyPoint, "life-safety-point");
  (ObjectTypeLifeSafetyZone, "life-safety-zone");
  (ObjectTypeAccumulator, "accumulator");
  (ObjectTypePulseConverter, "pulse-converter");
  (ObjectTypeEventLog, "event-log");
  (ObjectTypeGlobalGroup, "global-group");
  (ObjectTypeTrendLogMultiple, "trend-log-multiple");
  (ObjectTypeLoadControl, "load-control");
  (ObjectTypeStructuredView, "structured-view");
  (ObjectTypeAccessDoor, "access-door");
  (ObjectTypeTimer, "timer");
  (ObjectTypeAccessCredential, "access-credential");
  (ObjectTypeAccessPoint, "access-point");
  (ObjectTypeAccessRights, "access-rights");
  (ObjectTypeAccessUser, "access-user");
  (ObjectTypeAccessZone, "access-zone");
  (ObjectTypeCredentialDataInput, "credential-data-input");
  (ObjectTypeNetworkSecurity, "network-security");
  (ObjectTypeBitStringValue, "bitstring-value");
  (ObjectTypeCharacterStringValue, "characterstring-value");
  (ObjectTypeDatePatternValue, "date-pattern-value");
  (ObjectTypeDateValue, "date-value");
  (ObjectTypeDateTimePatternValue, "datetime-pattern-value");
  (ObjectTypeDateTimeValue, "datetime-value");
  (ObjectTypeIntegerValue, "integer-value");
  (ObjectTypeLargeAnalogValue, "large-analog-value");
  (ObjectTypeOctetStringValue, "octetstring-value");
  (ObjectTypePositiveIntegerValue, "positive-integer-value");
  (ObjectTypeTimePatternValue, "time-pattern-value");
  (ObjectTypeTimeValue, "time-value");
  (ObjectTypeNotificationForwarder, "notification-forwarder");
  (ObjectTypeAlertEnrollment, "alert-enrollment");
  (ObjectTypeChannel, "channel");
  (ObjectTypeLightingOutput, "lighting-output");
  (ObjectTypeBinaryLightingOutput, "binary-lighting-output");
  (ObjectTypeNetworkPort, "network-port");
  (ObjectTypeElevatorGroup, "elevator-group");
  (ObjectTypeEscalator, "escalator");
  (ObjectTypeLift, "lift")
].

Definition ObjectType_String (o : Z) : string := named ObjectType_names "vendor-specific(" o.

(** [ParseObjectType]: full names and abbreviations *)
Definition ParseObjectType_types : list (string * Z) := [
  ("analog-input", ObjectTypeAnalogInput);
  ("ai", ObjectTypeAnalogInput);
  ("analog-output", ObjectTypeAnalogOutput);
  ("ao", ObjectTypeAnalogOutput);
  ("analog-value", ObjectTypeAnalogValue);
  ("av", ObjectTypeAnalogValue);
  ("binary-input", ObjectTypeBinaryInput);
  ("bi", ObjectTypeBinaryInput);
  ("binary-output", ObjectTypeBinaryOutput);
  ("bo", ObjectTypeBinaryOutput);
  ("binary-value", ObjectTypeBinaryValue);
  ("bv", ObjectTypeBinaryValue);
  ("device", ObjectTypeDevice);
  ("dev", ObjectTypeDevice);
  ("multi-state-input", ObjectTypeMultiStateInput);
  ("msi", ObjectTypeMultiStateInput);
  ("multi-state-output", ObjectTypeMultiStateOutput);
  ("mso", ObjectTypeMultiStateOutput);
  ("multi-state-value", ObjectTypeMultiStateValue);
  ("msv", ObjectTypeMultiStateValue);
  ("schedule", ObjectTypeSchedule);
  ("sch", ObjectTypeSchedule);
  ("trend-log", ObjectTypeTrendLog);
  ("tl", ObjectTypeTrendLog);
  ("calendar", ObjectTypeCalendar);
  ("cal", ObjectTypeCalendar);
  ("notification-class", ObjectTypeNotificationClass);
  ("nc", ObjectTypeNotificationClass);
  ("file", ObjectTypeFile);
  ("loop", ObjectTypeLoop);
  ("program", ObjectTypeProgram);
  ("prg", ObjectTypeProgram)
].

Definition ParseObjectType (s : string) : option Z := assoc s ParseObjectType_types.

(** ** [PropertyIdentifier] *)

Definition PropertyAckedTransitions : Z := 0.
Definition PropertyAckRequired : Z := 1.
Definition PropertyAction : Z := 2.
Definition PropertyActionText : Z := 3.
Definition PropertyActiveText : Z := 4.
Definition PropertyActiveVtSessions : Z := 5.
Definition PropertyAlarmValue : Z := 6.
Definition PropertyAlarmValues : Z := 7.
Definition PropertyAll : Z := 8.
Definition PropertyAllWritesSuccessful : Z := 9.
Definition PropertyApduSegmentTimeout : Z := 10.
Definition PropertyApduTimeout : Z := 11.
Definition PropertyApplicationSoftwareVersion : Z := 12.
Definition PropertyArchive : Z := 13.
Definition PropertyBias : Z := 14.
Definition PropertyChangeOfStateCount : Z := 15.
Definition PropertyChangeOfStateTime : Z := 16.
Definition PropertyNotificationClass : Z := 17.
Definition PropertyControlledVariableReference : Z := 19.
Definition PropertyControlledVariableUnits : Z := 20.
Definition PropertyControlledVariableValue : Z := 21.
Definition PropertyCOVIncrement : Z := 22.
Definition PropertyDateList : Z := 23.
Definition PropertyDaylightSavingsStatus : Z := 24.
Definition PropertyDeadband : Z := 25.
Definition PropertyDerivativeConstant : Z := 26.
Definition PropertyDerivativeConstantUnits : Z := 27.
Definition PropertyDescription : Z := 28.
Definition PropertyDescriptionOfHalt : Z := 29.
Definition PropertyDeviceAddressBinding : Z := 30.
Definition PropertyDeviceType : Z := 31.
Definition PropertyEffectivePeriod : Z := 32.
Definition PropertyElapsedActiveTime : Z := 33.
Definition PropertyErrorLimit : Z := 34.
Definition PropertyEventEnable : Z := 35.
Definition PropertyEventState : Z := 36.
Definition PropertyEventType : Z := 37.
Definition PropertyExceptionSchedule : Z := 38.
Definition PropertyFaultValues : Z := 39.
Definition PropertyFeedbackValue : Z := 40.
Definition PropertyFileAccessMethod : Z := 41.
Definition PropertyFileSize : Z := 42.
Definition PropertyFileType : Z := 43.
Definition PropertyFirmwareRevision : Z := 44.
Definition PropertyHighLimit : Z := 45.
Definition PropertyInactiveText : Z := 46.
Definition PropertyInProcess : Z := 47.
Definition PropertyInstanceOf : Z := 48.
Definition PropertyIntegralConstant : Z := 49.
Definition PropertyIntegralConstantUnits : Z := 50.
Definition PropertyLimitEnable : Z := 52.
Definition PropertyListOfGroupMembers : Z := 53.
Definition PropertyListOfObjectPropertyReferences : Z := 54.
Definition PropertyLocalDate : Z := 56.
Definition PropertyLocalTime : Z := 57.
Definition PropertyLocation : Z := 58.
Definition PropertyLowLimit : Z := 59.
Definition PropertyManipulatedVariableReference : Z := 60.
Definition PropertyMaximumOutput : Z := 61.
Definition PropertyMaxApduLengthAccepted : Z := 62.
Definition PropertyMaxInfoFrames : Z := 63.
Definition PropertyMaxMaster : Z := 64.
Definition PropertyMaxPresValue : Z := 65.
Definition PropertyMinimumOffTime : Z := 66.
Definition PropertyMinimumOnTime : Z := 67.
Definition PropertyMinimumOutput : Z := 68.
Definition PropertyMinPresValue : Z := 69.
Definition PropertyModelName : Z := 70.
Definition PropertyModificationDate : Z := 71.
Definition PropertyNotifyType : Z := 72.
Definition PropertyNumberOfApduRetries : Z := 73.
Definition PropertyNumberOfStates : Z := 74.
Definition PropertyObjectIdentifier : Z := 75.
Definition PropertyObjectList : Z := 76.
Definition PropertyObjectName : Z := 77.
Definition PropertyObjectPropertyReference : Z := 78.
Definition PropertyObjectType : Z := 79.
Definition PropertyOptional : Z := 80.
Definition PropertyOutOfService : Z := 81.
Definition PropertyOutputUnits : Z := 82.
Definition PropertyEventParameters : Z := 83.
Definition PropertyPolarity : Z := 84.
Definition PropertyPresentValue : Z := 85.
Definition PropertyPriority : Z := 86.
Definition PropertyPriorityArray : Z := 87.
Definition PropertyPriorityForWriting : Z := 88.
Definition PropertyProcessIdentifier : Z := 89.
Definition PropertyProgramChange : Z := 90.
Definition PropertyProgramLocation : Z := 91.
Definition PropertyProgramState : Z := 92.
Definition PropertyProportionalConstant : Z := 93.
Definition PropertyProportionalConstantUnits : Z := 94.
Definition PropertyProtocolObjectTypesSupported : Z := 96.
Definition PropertyProtocolServicesSupported : Z := 97.
Definition PropertyProtocolVersion : Z := 98.
Definition PropertyReadOnly : Z := 99.
Definition PropertyReasonForHalt : Z := 100.
Definition PropertyRecipientList : Z := 102.
Definition PropertyReliability : Z := 103.
Definition PropertyRelinquishDefault : Z := 104.
Definition PropertyRequired : Z := 105.
Definition PropertyResolution : Z := 106.
Definition PropertySegmentationSupported : Z := 107.
Definition PropertySetpoint : Z := 108.
Definition PropertySetpointReference : Z := 109.
Definition PropertyStateText : Z := 110.
Definition PropertyStatusFlags : Z := 111.
Definition PropertySystemStatus : Z := 112.
Definition PropertyTimeDelay : Z := 113.
Definition PropertyTimeOfActiveTimeReset : Z := 114.
Definition PropertyTimeOfStateCountReset : Z := 115.
Definition PropertyTimeSynchronizationRecipients : Z := 116.
Definition PropertyUnits : Z := 117.
Definition PropertyUpdateInterval : Z := 118.
Definition PropertyUtcOffset : Z := 119.
Definition PropertyVendorIdentifier : Z := 120.
Definition PropertyVendorName : Z := 121.
Definition PropertyVtClassesSupported : Z := 122.
Definition PropertyWeeklySchedule : Z := 123.
Definition PropertyAttemptedSamples : Z := 124.
Definition PropertyAverageValue : Z := 125.
Definition PropertyBufferSize : Z := 126.
Definition PropertyClientCovIncrement : Z := 127.
Definition PropertyCOVResubscriptionInterval : Z := 128.
Definition PropertyEventTimeStamps : Z := 130.
Definition PropertyLogBuffer : Z := 131.
Definition PropertyLogDeviceObjectProperty : Z := 132.
Definition PropertyLogEnable : Z := 133.
Definition PropertyLogInterval : Z := 134.
Definition PropertyMaximumValue : Z := 135.
Definition PropertyMinimumValue : Z := 136.
Definition PropertyNotificationThreshold : Z := 137.
Definition PropertyPreviousNotifyRecord : Z := 138.
Definition PropertyProtocolRevision : Z := 139.
Definition PropertyRecordsSinceNotification : Z := 140.
Definition PropertyRecordCount : Z := 141.
Definition PropertyStartTime : Z := 142.
Definition PropertyStopTime : Z := 143.
Definition PropertyStopWhenFull : Z := 144.
Definition PropertyTotalRecordCount : Z := 145.
Definition PropertyValidSamples : Z := 146.
Definition PropertyWindowInterval : Z := 147.
Definition PropertyWindowSamples : Z := 148.
Definition PropertyMaximumValueTimestamp : Z := 149.
Definition PropertyMinimumValueTimestamp : Z := 150.
Definition PropertyVarianceValue : Z := 151.
Definition PropertyActiveCOVSubscriptions : Z := 152.
Definition PropertyBackupFailureTimeout : Z := 153.
Definition PropertyConfigurationFiles : Z := 154.
Definition PropertyDatabaseRevision : Z := 155.
Definition PropertyDirectReading : Z := 156.
Definition PropertyLastRestoreTime : Z := 157.
Definition PropertyMaintenanceRequired : Z := 158.
Definition PropertyMemberOf : Z := 159.
Definition PropertyMode : Z := 160.
Definition PropertyOperationExpected : Z := 161.
Definition PropertySetting : Z := 162.
Definition PropertySilenced : Z := 163.
Definition PropertyTrackingValue : Z := 164.
Definition PropertyZoneMembers : Z := 165.
Definition PropertyLifeSafetyAlarmValues : Z := 166.
Definition PropertyMaxSegmentsAccepted : Z := 167.
Definition PropertyProfileName : Z := 168.

(** [PropertyIdentifier.String] *)
Definition PropertyIdentifier_names : list (Z * string) := [
  (PropertyObjectIdentifier, "object-identifier");
  (PropertyObjectName, "object-name");
  (PropertyObjectType, "object-type");
  (PropertyPresentValue, "present-value");
  (PropertyDescription, "description");
  (PropertyDeviceType, "device-type");
  (PropertyStatusFlags, "status-flags");
  (PropertyEventState, "event-state");
  (PropertyReliability, "reliability");
  (PropertyOutOfService, "out-of-service");
  (PropertyUnits, "units");
  (PropertyPriorityArray, "priority-array");
  (PropertyRelinquishDefault, "relinquish-default");
  (PropertyCOVIncrement, "cov-increment");
  (PropertyHighLimit, "high-limit");
  (PropertyLowLimit, "low-limit");
  (PropertyDeadband, "deadband");
  (PropertyVendorName, "vendor-name");
  (PropertyVendorIdentifier, "vendor-identifier");
  (PropertyModelName, "model-name");
  (PropertyFirmwareRevision, "firmware-revision");
  (PropertyApplicationSoftwareVersion, "application-software-version");
  (PropertyProtocolVersion, "protocol-version");
  (PropertyProtocolRevision, "protocol-revision");
  (PropertySystemStatus, "system-status");
  (PropertyMaxApduLengthAccepted, "max-apdu-length-accepted");
  (PropertySegmentationSupported, "segmentation-supported");
  (PropertyObjectList, "object-list");
  (PropertyDatabaseRevision, "database-revision");
  (PropertyAll, "all");
  (PropertyRequired, "required");
  (PropertyOptional, "optional")
].

Definition PropertyIdentifier_String (p : Z) : string := named PropertyIdentifier_names "property(" p.

(** [ParsePropertyIdentifier]: full names and abbreviations *)
Definition ParsePropertyIdentifier_props : list (string * Z) := [
  ("object-identifier", PropertyObjectIdentifier);
  ("oid", PropertyObjectIdentifier);
  ("object-name", PropertyObjectName);
  ("name", PropertyObjectName);
  ("object-type", PropertyObjectType);
  ("type", PropertyObjectType);
  ("present-value", PropertyPresentValue);
  ("pv", PropertyPresentValue);
  ("description", PropertyDescription);
  ("desc", PropertyDescription);
  ("status-flags", PropertyStatusFlags);
  ("sf", PropertyStatusFlags);
  ("event-state", PropertyEventState);
  ("reliability", PropertyReliability);
  ("out-of-service", PropertyOutOfService);
  ("oos", PropertyOutOfService);
  ("units", PropertyUnits);
  ("priority-array", PropertyPriorityArray);
  ("pa", PropertyPriorityArray);
  ("relinquish-default", PropertyRelinquishDefault);
  ("rd", PropertyRelinquishDefault);
  ("cov-increment", PropertyCOVIncrement);
  ("vendor-name", PropertyVendorName);
  ("vendor-identifier", PropertyVendorIdentifier);
  ("model-name", PropertyModelName);
  ("firmware-revision", PropertyFirmwareRevision);
  ("application-software-version", PropertyApplicationSoftwareVersion);
  ("protocol-version", PropertyProtocolVersion);
  ("protocol-revision", PropertyProtocolRevision);
  ("system-status", PropertySystemStatus);
  ("object-list", PropertyObjectList);
  ("database-revision", PropertyDatabaseRevision);
  ("all", PropertyAll)
].

Definition ParsePropertyIdentifier (s : string) : option Z := assoc s ParsePropertyIdentifier_props.

(** ** [EventState] *)

Definition EventStateNormal : Z := 0.
Definition EventStateFault : Z := 1.
Definition EventStateOffNormal : Z := 2.
Definition EventStateHighLimit : Z := 3.
Definition EventStateLowLimit : Z := 4.
Definition EventStateLifeSafetyAlarm : Z := 5.

(** [EventState.String] *)
Definition EventState_names : list (Z * string) := [
  (EventStateNormal, "normal");
  (EventStateFault, "fault");
  (EventStateOffNormal, "off-normal");
  (EventStateHighLimit, "high-limit");
  (EventStateLowLimit, "low-limit");
  (EventStateLifeSafetyAlarm, "life-safety-alarm")
].

Definition EventState_String (e : Z) : string := named EventState_names "event-state(" e.

(** ** [Reliability] *)

Definition ReliabilityNoFaultDetected : Z := 0.
Definition ReliabilityNoSensor : Z := 1.
Definition ReliabilityOverRange : Z := 2.
Definition ReliabilityUnderRange : Z := 3.
Definition ReliabilityOpenLoop : Z := 4.
Definition ReliabilityShortedLoop : Z := 5.
Definition ReliabilityNoOutput : Z := 6.
Definition ReliabilityUnreliableOther : Z := 7.
Definition ReliabilityProcessError : Z := 8.
Definition ReliabilityMultiStateFault : Z := 9.
Definition ReliabilityConfigurationError : Z := 10.
Definition ReliabilityCommunicationFailure : Z := 12.
Definition ReliabilityMemberFault : Z := 13.
Definition ReliabilityMonitoredObjectFault : Z := 14.
Definition ReliabilityTripped : Z := 15.
Definition ReliabilityLampFailure : Z := 16.
Definition ReliabilityActivationFailure : Z := 17.
Definition ReliabilityRenewDhcpFailure : Z := 18.
Definition ReliabilityRenewFdRegistrationFailure : Z := 19.
Definition ReliabilityRestartAutoNegotiationFailure : Z := 20.
Definition ReliabilityRestartFailure : Z := 21.
Definition ReliabilityProprietaryCommandFailure : Z := 22.
Definition ReliabilityFaultsListed : Z := 23.
Definition ReliabilityReferencedObjectFault : Z := 24.

(** [Reliability.String] *)
Definition Reliability_names : list (Z * string) := [
  (ReliabilityNoFaultDetected, "no-fault-detected");
  (ReliabilityNoSensor, "no-sensor");
  (ReliabilityOverRange, "over-range");
  (ReliabilityUnderRange, "under-range");
  (ReliabilityOpenLoop, "open-loop");
  (ReliabilityShortedLoop, "shorted-loop");
  (ReliabilityNoOutput, "no-output");
  (ReliabilityUnreliableOther, "unreliable-other");
  (ReliabilityProcessError, "process-error");
  (ReliabilityMultiStateFault, "multi-state-fault");
  (ReliabilityConfigurationError, "configuration-error");
  (ReliabilityCommunicationFailure, "communication-failure")
].

Definition Reliability_String (r : Z) : string := named Reliability_names "reliability(" r.

(** ** [EngineeringUnits] *)

Definition UnitsSquareMeters : Z := 0.
Definition UnitsSquareFeet : Z := 1.
Definition UnitsMilliamperes : Z := 2.
Definition UnitsAmperes : Z := 3.
Definition UnitsOhms : Z := 4.
Definition UnitsVolts : Z := 5.
Definition UnitsKilovolts : Z := 6.
Definition UnitsMegavolts : Z := 7.
Definition UnitsVoltAmperes : Z := 8.
Definition UnitsKilovoltAmperes : Z := 9.
Definition UnitsMegavoltAmperes : Z := 10.
Definition UnitsVoltAmperesReactive : Z := 11.
Definition UnitsKilovoltAmperesReactive : Z := 12.
Definition UnitsMegavoltAmperesReactive : Z := 13.
Definition UnitsDegreesPhase : Z := 14.
Definition UnitsPowerFactor : Z := 15.
Definition UnitsJoules : Z := 16.
Definition UnitsKilojoules : Z := 17.
Definition UnitsWattHours : Z := 18.
Definition UnitsKilowattHours : Z := 19.
Definition UnitsBtus : Z := 20.
Definition UnitsTherms : Z := 21.
Definition UnitsTonHours : Z := 22.
Definition UnitsJoulesPerKilogramDryAir : Z := 23.
Definition UnitsBtusPerPoundDryAir : Z := 24.
Definition UnitsCyclesPerHour : Z := 25.
Definition UnitsCyclesPerMinute : Z := 26.
Definition UnitsHertz : Z := 27.
Definition UnitsGramsOfWaterPerKilogramDryAir : Z := 28.
Definition UnitsPercentRelativeHumidity : Z := 29.
Definition UnitsMillimeters : Z := 30.
Definition UnitsMeters : Z := 31.
Definition UnitsInches : Z := 32.
Definition UnitsFeet : Z := 33.
Definition UnitsWattsPerSquareFoot : Z := 34.
Definition UnitsWattsPerSquareMeter : Z := 35.
Definition UnitsLumens : Z := 36.
Definition UnitsLuxes : Z := 37.
Definition UnitsFootCandles : Z := 38.
Definition UnitsKilograms : Z := 39.
Definition UnitsPounds : Z := 40.
Definition UnitsWatts : Z := 41.
Definition UnitsKilowatts : Z := 42.
Definition UnitsMegawatts : Z := 43.
Definition UnitsBtusPerHour : Z := 44.
Definition UnitsHorsepower : Z := 45.
Definition UnitsTonsRefrigeration : Z := 46.
Definition UnitsPascals : Z := 47.
Definition UnitsKilopascals : Z := 48.
Definition UnitsBars : Z := 49.
Definition UnitsPoundsForcePerSquareInch : Z := 50.
Definition UnitsCentimetersOfWater : Z := 51.
Definition UnitsInchesOfWater : Z := 52.
Definition UnitsMillimetersOfMercury : Z := 53.
Definition UnitsCentimetersOfMercury : Z := 54.
Definition UnitsInchesOfMercury : Z := 55.
Definition UnitsDegreesCelsius : Z := 62.
Definition UnitsDegreesKelvin : Z := 63.
Definition UnitsDegreesFahrenheit : Z := 64.
Definition UnitsDegreeDaysCelsius : Z := 65.
Definition UnitsDegreeDaysFahrenheit : Z := 66.
Definition UnitsYears : Z := 67.
Definition UnitsMonths : Z := 68.
Definition UnitsWeeks : Z := 69.
Definition UnitsDays : Z := 70.
Definition UnitsHours : Z := 71.
Definition UnitsMinutes : Z := 72.
Definition UnitsSeconds : Z := 73.
Definition UnitsMetersPerSecond : Z := 74.
Definition UnitsKilometersPerHour : Z := 75.
Definition UnitsFeetPerSecond : Z := 76.
Definition UnitsFeetPerMinute : Z := 77.
Definition UnitsMilesPerHour : Z := 78.
Definition UnitsCubicFeet : Z := 79.
Definition UnitsCubicMeters : Z := 80.
Definition UnitsImperialGallons : Z := 81.
Definition UnitsLiters : Z := 82.
Definition UnitsUsGallons : Z := 83.
Definition UnitsCubicFeetPerMinute : Z := 84.
Definition UnitsCubicMetersPerSecond : Z := 85.
Definition UnitsImperialGallonsPerMinute : Z := 86.
Definition UnitsLitersPerSecond : Z := 87.
Definition UnitsLitersPerMinute : Z := 88.
Definition UnitsUsGallonsPerMinute : Z := 89.
Definition UnitsDegreesAngular : Z := 90.
Definition UnitsDegreesCelsiusPerHour : Z := 91.
Definition UnitsDegreesCelsiusPerMinute : Z := 92.
Definition UnitsDegreesFahrenheitPerHour : Z := 93.
Definition UnitsDegreesFahrenheitPerMinute : Z := 94.
Definition UnitsNoUnits : Z := 95.
Definition UnitsPartsPerMillion : Z := 96.
Definition UnitsPartsPerBillion : Z := 97.
Definition UnitsPercent : Z := 98.
Definition UnitsPercentPerSecond : Z := 99.
Definition UnitsPerMinute : Z := 100.
Definition UnitsPerSecond : Z := 101.
Definition UnitsPsiPerDegreeFahrenheit : Z := 102.
Definition UnitsRadians : Z := 103.
Definition UnitsRevolutionsPerMinute : Z := 104.

(** [EngineeringUnits.String]; the symbols are UTF-8 *)
Definition EngineeringUnits_names : list (Z * string) := [
  (UnitsDegreesCelsius, "°C");
  (UnitsDegreesFahrenheit, "°F");
  (UnitsDegreesKelvin, "K");
  (UnitsPercent, "%");
  (UnitsPercentRelativeHumidity, "%RH");
  (UnitsMeters, "m");
  (UnitsFeet, "ft");
  (UnitsMillimeters, "mm");
  (UnitsInches, "in");
  (UnitsVolts, "V");
  (UnitsAmperes, "A");
  (UnitsMilliamperes, "mA");
  (UnitsWatts, "W");
  (UnitsKilowatts, "kW");
  (UnitsMegawatts, "MW");
  (UnitsKilowattHours, "kWh");
  (UnitsHertz, "Hz");
  (UnitsPascals, "Pa");
  (UnitsKilopascals, "kPa");
  (UnitsBars, "bar");
  (UnitsLiters, "L");
  (UnitsCubicMeters, "m³");
  (UnitsLitersPerSecond, "L/s");
  (UnitsLitersPerMinute, "L/min");
  (UnitsMetersPerSecond, "m/s");
  (UnitsSeconds, "s");
  (UnitsMinutes, "min");
  (UnitsHours, "h");
  (UnitsDays, "d");
  (UnitsNoUnits, EmptyString)
].

Definition EngineeringUnits_String (u : Z) : string := named EngineeringUnits_names "units(" u.

(** ** [Segmentation] *)

Definition SegmentationBoth : Z := 0.
Definition SegmentationTransmit : Z := 1.
Definition SegmentationReceive : Z := 2.
Definition SegmentationNone : Z := 3.

(** [Segmentation.String] *)
Definition Segmentation_names : list (Z * string) := [
  (SegmentationBoth, "segmented-both");
  (SegmentationTransmit, "segmented-transmit");
  (SegmentationReceive, "segmented-receive");
  (SegmentationNone, "no-segmentation")
].

Definition Segmentation_String (s : Z) : string := named Segmentation_names "segmentation(" s.

(** ** [DeviceStatus] *)

Definition DeviceStatusOperational : Z := 0.
Definition DeviceStatusOperationalReadOnly : Z := 1.
Definition DeviceStatusDownloadRequired : Z := 2.
Definition DeviceStatusDownloadInProgress : Z := 3.
Definition DeviceStatusNonOperational : Z := 4.
Definition DeviceStatusBackupInProgress : Z := 5.

(** [DeviceStatus.String] *)
Definition DeviceStatus_names : list (Z * string) := [
  (DeviceStatusOperational, "operational");
  (DeviceStatusOperationalReadOnly, "operational-read-only");
  (DeviceStatusDownloadRequired, "download-required");
  (DeviceStatusDownloadInProgress, "download-in-progress");
  (DeviceStatusNonOperational, "non-operational");
  (DeviceStatusBackupInProgress, "backup-in-progress")
].

Definition DeviceStatus_String (d : Z) : string := named DeviceStatus_names "device-status(" d.

(** ** [TagClass] *)

Definition TagClassApplication : Z := 0.
Definition TagClassContext : Z := 1.

(** ** [ApplicationTag] *)

Definition TagNull : Z := 0.
Definition TagBoolean : Z := 1.
Definition TagUnsignedInt : Z := 2.
Definition TagSignedInt : Z := 3.
Definition TagReal : Z := 4.
Definition TagDouble : Z := 5.
Definition TagOctetString : Z := 6.
Definition TagCharacterString : Z := 7.
Definition TagBitString : Z := 8.
Definition TagEnumerated : Z := 9.
Definition TagDate : Z := 10.
Definition TagTime : Z := 11.
Definition TagObjectID : Z := 12.

(** ** [ErrorClass] *)

Definition ErrorClassDevice : Z := 0.
Definition ErrorClassObject : Z := 1.
Definition ErrorClassProperty : Z := 2.
Definition ErrorClassResources : Z := 3.
Definition ErrorClassSecurity : Z := 4.
Definition ErrorClassServices : Z := 5.
Definition ErrorClassVT : Z := 6.
Definition ErrorClassCommunication : Z := 7.

(** [ErrorClass.String] *)
Definition ErrorClass_names : list (Z * string) := [
  (ErrorClassDevice, "device");
  (ErrorClassObject, "object");
  (ErrorClassProperty, "property");
  (ErrorClassResources, "resources");
  (ErrorClassSecurity, "security");
  (ErrorClassServices, "services");
  (ErrorClassVT, "vt");
  (ErrorClassCommunication, "communication")
].

Definition ErrorClass_String (e : Z) : string := named ErrorClass_names "error-class(" e.

(** ** [ErrorCode] *)

Definition ErrorCodeOther : Z := 0.
Definition ErrorCodeConfigurationInProgress : Z := 2.
Definition ErrorCodeDeviceBusy : Z := 3.
Definition ErrorCodeDynamicCreationNotSupported : Z := 4.
Definition ErrorCodeNoObjectsOfSpecifiedType : Z := 17.
Definition ErrorCodeObjectDeletionNotPermitted : Z := 23.
Definition ErrorCodeObjectIdentifierAlreadyExists : Z := 24.
Definition ErrorCodeUnknownObject : Z := 31.
Definition ErrorCodeCharacterSetNotSupported : Z := 41.
Definition ErrorCodeDatatypeNotSupported : Z := 47.
Definition ErrorCodeInconsistentParameters : Z := 7.
Definition ErrorCodeInvalidArrayIndex : Z := 42.
Definition ErrorCodeInvalidDataType : Z := 9.
Definition ErrorCodeNotCovProperty : Z := 44.
Definition ErrorCodeOptionalFunctionalityNotSupported : Z := 45.
Definition ErrorCodePropertyIsNotAList : Z := 22.
Definition ErrorCodePropertyIsNotAnArray : Z := 50.
Definition ErrorCodeReadAccessDenied : Z := 27.
Definition ErrorCodeUnknownProperty : Z := 32.
Definition ErrorCodeValueOutOfRange : Z := 37.
Definition ErrorCodeWriteAccessDenied : Z := 40.
Definition ErrorCodeNoSpaceForObject : Z := 18.
Definition ErrorCodeNoSpaceToAddListElement : Z := 19.
Definition ErrorCodeNoSpaceToWriteProperty : Z := 20.
Definition ErrorCodeAuthenticationFailed : Z := 1.
Definition ErrorCodeIncompatibleSecurityLevels : Z := 6.
Definition ErrorCodeInvalidOperatorName : Z := 12.
Definition ErrorCodeKeyGenerationError : Z := 15.
Definition ErrorCodePasswordFailure : Z := 26.
Definition ErrorCodeSecurityNotSupported : Z := 28.
Definition ErrorCodeCovSubscriptionFailed : Z := 43.
Definition ErrorCodeDuplicateName : Z := 48.
Definition ErrorCodeDuplicateObjectId : Z := 49.
Definition ErrorCodeFileAccessDenied : Z := 5.
Definition ErrorCodeInconsistentSelectionCriterion : Z := 8.
Definition ErrorCodeInvalidConfigurationData : Z := 46.
Definition ErrorCodeInvalidFileAccessMethod : Z := 10.
Definition ErrorCodeInvalidFileStartPosition : Z := 11.
Definition ErrorCodeInvalidParameterDataType : Z := 13.
Definition ErrorCodeInvalidTimeStamp : Z := 14.
Definition ErrorCodeMissingRequiredParameter : Z := 16.
Definition ErrorCodeNoAlarmsOfSpecifiedType : Z := 51.
Definition ErrorCodeNotConfiguredForTriggeredLogging : Z := 21.
Definition ErrorCodeServiceRequestDenied : Z := 29.
Definition ErrorCodeUnknownSubscription : Z := 33.
Definition ErrorCodeUnknownVtClass : Z := 34.
Definition ErrorCodeUnknownVtSession : Z := 35.
Definition ErrorCodeAbortBufferOverflow : Z := 51.
Definition ErrorCodeAbortInvalidApduInThisState : Z := 52.
Definition ErrorCodeAbortPreemptedByHigherPriorityTask : Z := 53.
Definition ErrorCodeAbortSegmentationNotSupported : Z := 54.
Definition ErrorCodeAbortProprietary : Z := 55.
Definition ErrorCodeAbortOther : Z := 56.
Definition ErrorCodeInvalidTag : Z := 57.
Definition ErrorCodeNetworkDown : Z := 58.
Definition ErrorCodeRejectBufferOverflow : Z := 59.
Definition ErrorCodeRejectInconsistentParameters : Z := 60.
Definition ErrorCodeRejectInvalidParameterDataType : Z := 61.
Definition ErrorCodeRejectInvalidTag : Z := 62.
Definition ErrorCodeRejectMissingRequiredParameter : Z := 63.
Definition ErrorCodeRejectParameterOutOfRange : Z := 64.
Definition ErrorCodeRejectTooManyArguments : Z := 65.
Definition ErrorCodeRejectUndefinedEnumeration : Z := 66.
Definition ErrorCodeRejectUnrecognizedService : Z := 67.
Definition ErrorCodeRejectProprietary : Z := 68.
Definition ErrorCodeRejectOther : Z := 69.
Definition ErrorCodeUnknownDevice : Z := 70.
Definition ErrorCodeUnknownRoute : Z := 71.
Definition ErrorCodeValueTooLong : Z := 72.
Definition ErrorCodeAbortApduTooLong : Z := 73.
Definition ErrorCodeAbortApplicationExceededReplyTime : Z := 74.
Definition ErrorCodeAbortOutOfResources : Z := 75.
Definition ErrorCodeAbortTsmTimeout : Z := 76.
Definition ErrorCodeAbortWindowSizeOutOfRange : Z := 77.
Definition ErrorCodeListItemNotNumbered : Z := 123.

(** [ErrorCode.String] *)
Definition ErrorCode_names : list (Z * string) := [
  (ErrorCodeOther, "other");
  (ErrorCodeConfigurationInProgress, "configuration-in-progress");
  (ErrorCodeDeviceBusy, "device-busy");
  (ErrorCodeDynamicCreationNotSupported, "dynamic-creation-not-supported");
  (ErrorCodeNoObjectsOfSpecifiedType, "no-objects-of-specified-type");
  (ErrorCodeObjectDeletionNotPermitted, "object-deletion-not-permitted");
  (ErrorCodeObjectIdentifierAlreadyExists, "object-identifier-already-exists");
  (ErrorCodeUnknownObject, "unknown-object");
  (ErrorCodeCharacterSetNotSupported, "character-set-not-supported");
  (ErrorCodeDatatypeNotSupported, "datatype-not-supported");
  (ErrorCodeInconsistentParameters, "inconsistent-parameters");
  (ErrorCodeInvalidArrayIndex, "invalid-array-index");
  (ErrorCodeInvalidDataType, "invalid-data-type");
  (ErrorCodeNotCovProperty, "not-cov-property");
  (ErrorCodeOptionalFunctionalityNotSupported, "optional-functionality-not-supported");
  (ErrorCodePropertyIsNotAList, "property-is-not-a-list");
  (ErrorCodePropertyIsNotAnArray, "property-is-not-an-array");
  (ErrorCodeReadAccessDenied, "read-access-denied");
  (ErrorCodeUnknownProperty, "unknown-property");
  (ErrorCodeValueOutOfRange, "value-out-of-range");
  (ErrorCodeWriteAccessDenied, "write-access-denied");
  (ErrorCodeNoSpaceForObject, "no-space-for-object");
  (ErrorCodeNoSpaceToAddListElement, "no-space-to-add-list-element");
  (ErrorCodeNoSpaceToWriteProperty, "no-space-to-write-property");
  (ErrorCodeAuthenticationFailed, "authentication-failed");
  (ErrorCodePasswordFailure, "password-failure");
  (ErrorCodeSecurityNotSupported, "security-not-supported");
  (ErrorCodeServiceRequestDenied, "service-request-denied");
  (ErrorCodeUnknownDevice, "unknown-device");
  (ErrorCodeUnknownRoute, "unknown-route")
].

Definition ErrorCode_String (e : Z) : string := named ErrorCode_names "error-code(" e.

(** ** [RejectReason] *)

Definition RejectReasonOther : Z := 0.
Definition RejectReasonBufferOverflow : Z := 1.
Definition RejectReasonInconsistentParameters : Z := 2.
Definition RejectReasonInvalidParameterDataType : Z := 3.
Definition RejectReasonInvalidTag : Z := 4.
Definition RejectReasonMissingRequiredParameter : Z := 5.
Definition RejectReasonParameterOutOfRange : Z := 6.
Definition RejectReasonTooManyArguments : Z := 7.
Definition RejectReasonUndefinedEnumeration : Z := 8.
Definition RejectReasonUnrecognizedService : Z := 9.

(** [RejectReason.String] *)
Definition RejectReason_names : list (Z * string) := [
  (RejectReasonOther, "other");
  (RejectReasonBufferOverflow, "buffer-overflow");
  (RejectReasonInconsistentParameters, "inconsistent-parameters");
  (RejectReasonInvalidParameterDataType, "invalid-parameter-data-type");
  (RejectReasonInvalidTag, "invalid-tag");
  (RejectReasonMissingRequiredParameter, "missing-required-parameter");
  (RejectReasonParameterOutOfRange, "parameter-out-of-range");
  (RejectReasonTooManyArguments, "too-many-arguments");
  (RejectReasonUndefinedEnumeration, "undefined-enumeration");
  (RejectReasonUnrecognizedService, "unrecognized-service")
].

Definition RejectReason_String (r : Z) : string := named RejectReason_names "reject-reason(" r.

(** ** [AbortReason] *)

Definition AbortReasonOther : Z := 0.
Definition AbortReasonBufferOverflow : Z := 1.
Definition AbortReasonInvalidApduInThisState : Z := 2.
Definition AbortReasonPreemptedByHigherPriorityTask : Z := 3.
Definition AbortReasonSegmentationNotSupported : Z := 4.
Definition AbortReasonSecurityError : Z := 5.
Definition AbortReasonInsufficientSecurity : Z := 6.
Definition AbortReasonWindowSizeOutOfRange : Z := 7.
Definition AbortReasonApplicationExceededReplyTime : Z := 8.
Definition AbortReasonOutOfResources : Z := 9.
Definition AbortReasonTsmTimeout : Z := 10.
Definition AbortReasonApduTooLong : Z := 11.

(** [AbortReason.String] *)
Definition AbortReason_names : list (Z * string) := [
  (AbortReasonOther, "other");
  (AbortReasonBufferOverflow, "buffer-overflow");
  (AbortReasonInvalidApduInThisState, "invalid-apdu-in-this-state");
  (AbortReasonPreemptedByHigherPriorityTask, "preempted-by-higher-priority-task");
  (AbortReasonSegmentationNotSupported, "segmentation-not-supported");
  (AbortReasonSecurityError, "security-error");
  (AbortReasonInsufficientSecurity, "insufficient-security");
  (AbortReasonWindowSizeOutOfRange, "window-size-out-of-range");
  (AbortReasonApplicationExceededReplyTime, "application-exceeded-reply-time");
  (AbortReasonOutOfResources, "out-of-resources");
  (AbortReasonTsmTimeout, "tsm-timeout");
  (AbortReasonApduTooLong, "apdu-too-long")
].

Definition AbortReason_String (a : Z) : string := named AbortReason_names "abort-reason(" a.

(** ** Properties *)

(** The [String] methods with their tables and fallbacks. *)
Definition string_tables : list (list (Z * string) * string) := [
  (ConfirmedServiceChoice_names, "Unknown("); (UnconfirmedServiceChoice_names, "Unknown(");
  (ObjectType_names, "vendor-specific("); (PropertyIdentifier_names, "property(");
  (EventState_names, "event-state("); (Reliability_names, "reliability(");
  (EngineeringUnits_names, "units("); (Segmentation_names, "segmentation(");
  (DeviceStatus_names, "device-status("); (ErrorClass_names, "error-class(");
  (ErrorCode_names, "error-code("); (RejectReason_names, "reject-reason(");
  (AbortReason_names, "abort-reason(")
].

Lemma string_tables_ok : forallb (fun '(t, p) => names_ok t p) string_tables = true.
Proof. vm_compute. reflexivity. Qed.

(** The [String] methods lose nothing: for each of the thirteen
    enumerations, two values (of the whole underlying integer type, named or
    not) that print alike are equal. *)
Theorem String_injective t p v w :
  (t, p) ∈ string_tables -> named t p v = named t p w -> v = w.
Proof.
  intros Hin%list_elem_of_In. apply named_inj.
  exact (proj1 (forallb_forall _ _) string_tables_ok _ Hin).
Qed.

Lemma String_injective_witness :
  ObjectTypeDevice = 8 /\ (ObjectType_String 8 = ObjectType_String ObjectTypeDevice -> 8 = ObjectTypeDevice).
Proof.
  split; [reflexivity|].
  apply (String_injective ObjectType_names "vendor-specific(").
  apply list_elem_of_In. vm_compute. tauto.
Defined.

(** A table of accepted names that contains the canonical name of each value. *)
Definition parses_names (props : list (string * Z)) (show : Z -> string) : bool :=
  forallb (fun '(_, v) => bool_decide (assoc (show v) props = Some v)) props.

Lemma parse_show props show s v :
  parses_names props show = true -> assoc s props = Some v -> assoc (show v) props = Some v.
Proof.
  unfold parses_names. rewrite forallb_forall.
  intros H Hs%assoc_elem_of%list_elem_of_In. specialize (H _ Hs). cbn in H.
  by apply bool_decide_eq_true in H.
Qed.

(** C40. Round trip of the name parsers: whatever spelling (full name or
    abbreviation) an object type or a property was parsed from, printing the
    value gives its full name and parsing that again gives the same value. *)
Theorem Parse_String_roundtrip s t s' p :
  ParseObjectType s = Some t -> ParsePropertyIdentifier s' = Some p ->
  ParseObjectType (ObjectType_String t) = Some t /\
  ParsePropertyIdentifier (PropertyIdentifier_String p) = Some p.
Proof.
  unfold ParseObjectType, ParsePropertyIdentifier. intros H1 H2. split.
  - apply parse_show with s; [vm_compute; reflexivity|done].
  - apply parse_show with s'; [vm_compute; reflexivity|done].
Qed.

Lemma Parse_String_roundtrip_witness :
  ParseObjectType (ObjectType_String ObjectTypeAnalogInput) = Some ObjectTypeAnalogInput /\
  ParsePropertyIdentifier (PropertyIdentifier_String PropertyPresentValue) = Some PropertyPresentValue.
Proof. apply (Parse_String_roundtrip "ai" _ "pv" _); vm_compute; reflexivity. Defined.
