(* ===== verification/Errors.v ===== *)
(** * Errors of [errors.go]

    The sentinel errors, the three protocol error types, Go's error wrapping
    with [errors.Is] / [errors.As], the [Error] texts and the [IsXxx] helpers.
    [fmt.Errorf] with one [%w] is [EWrap before inner after]; without [%w] it
    is [EText].  [EOS timeout msg] stands for an error made by package [net] or
    the operating system; all of these are a [net.Error], and [timeout] is
    their [Timeout()]. *)

From S2P Require Import Prelude Enums.
#[local] Open Scope string_scope.
#[local] Open Scope list_scope.
#[local] Open Scope Z_scope.

(** [BACnetError] *)
Record BACnetError := { BE_Class : Z; BE_Code : Z }.

(** [RejectError] *)
Record RejectError := { RE_InvokeID : Z; RE_Reason : Z }.

(** [AbortError] *)
Record AbortError := { AE_InvokeID : Z; AE_Server : bool; AE_Reason : Z }.

Inductive error : Type :=
  | ErrTimeout
  | ErrConnectionClosed
  | ErrInvalidResponse
  | ErrInvalidAPDU
  | ErrInvalidNPDU
  | ErrInvalidBVLC
  | ErrSegmentationNotSupported
  | ErrDeviceNotFound
  | ErrPropertyNotFound
  | ErrWriteFailed
  | ErrNotConnected
  | ErrAlreadyConnected
  | EBACnet (e : BACnetError)
  | EReject (e : RejectError)
  | EAbort (e : AbortError)
  | EWrap (before : string) (inner : error) (after : string)
  | EText (msg : string)
  | EOS (timeout : bool) (msg : string).

#[export] Instance BACnetError_eq_dec : EqDecision BACnetError.
Proof. solve_decision. Defined.
#[export] Instance RejectError_eq_dec : EqDecision RejectError.
Proof. solve_decision. Defined.
#[export] Instance AbortError_eq_dec : EqDecision AbortError.
Proof. solve_decision. Defined.
#[export] Instance error_eq_dec : EqDecision error.
Proof. solve_decision. Defined.

(** Calls that can fail with one of these errors. *)
Abbreviation go := (outcome error).

Definition NewBACnetError (class code : Z) : error :=
  EBACnet {| BE_Class := class; BE_Code := code |}.

(** [BACnetError.Error] *)
Definition BACnetError_Error (e : BACnetError) : string :=
  "bacnet error: class=" +:+ ErrorClass_String (BE_Class e) +:+
  ", code=" +:+ ErrorCode_String (BE_Code e).

(** [RejectError.Error] *)
Definition RejectError_Error (e : RejectError) : string :=
  "bacnet reject: invoke-id=" +:+ dec (RE_InvokeID e) +:+
  ", reason=" +:+ RejectReason_String (RE_Reason e).

(** [AbortError.Error] *)
Definition AbortError_Error (e : AbortError) : string :=
  let origin := if AE_Server e then "server" else "client" in
  "bacnet abort: invoke-id=" +:+ dec (AE_InvokeID e) +:+
  ", origin=" +:+ origin +:+ ", reason=" +:+ AbortReason_String (AE_Reason e).

(** [err.Error()] *)
Fixpoint Error (e : error) : string :=
  match e with
  | ErrTimeout => "bacnet: request timeout"
  | ErrConnectionClosed => "bacnet: connection closed"
  | ErrInvalidResponse => "bacnet: invalid response"
  | ErrInvalidAPDU => "bacnet: invalid APDU"
  | ErrInvalidNPDU => "bacnet: invalid NPDU"
  | ErrInvalidBVLC => "bacnet: invalid BVLC header"
  | ErrSegmentationNotSupported => "bacnet: segmentation not supported"
  | ErrDeviceNotFound => "bacnet: device not found"
  | ErrPropertyNotFound => "bacnet: property not found"
  | ErrWriteFailed => "bacnet: write failed"
  | ErrNotConnected => "bacnet: not connected"
  | ErrAlreadyConnected => "bacnet: already connected"
  | EBACnet b => BACnetError_Error b
  | EReject r => RejectError_Error r
  | EAbort a => AbortError_Error a
  | EWrap before inner after => before +:+ Error inner +:+ after
  | EText msg => msg
  | EOS _ msg => msg
  end.

(** [errors.Unwrap] *)
Definition Unwrap (e : error) : option error :=
  match e with
  | EWrap _ inner _ => Some inner
  | _ => None
  end.

(** [BACnetError.Is] *)
Definition BACnetError_Is (e : BACnetError) (target : error) : bool :=
  match target with
  | EBACnet t => (BE_Class e =? BE_Class t) && (BE_Code e =? BE_Code t)
  | _ => false
  end.

(** One link of [errors.Is]: the same sentinel, or the error's own [Is]. *)
Definition Is_here (e target : error) : bool :=
  match e with
  | EBACnet b => BACnetError_Is b target
  | _ => bool_decide (e = target)
  end.

(** [errors.Is], for a target that is a sentinel or a [BACnetError] pointer. *)
Fixpoint errors_Is (e target : error) : bool :=
  Is_here e target ||
  match e with
  | EWrap _ inner _ => errors_Is inner target
  | _ => false
  end.

(** [errors.As(err, &bacnetErr)] *)
Fixpoint errors_As_BACnetError (e : error) : option BACnetError :=
  match e with
  | EBACnet b => Some b
  | EWrap _ inner _ => errors_As_BACnetError inner
  | _ => None
  end.

Definition IsTimeout (e : error) : bool := errors_Is e ErrTimeout.

Definition IsDeviceNotFound (e : error) : bool :=
  if errors_Is e ErrDeviceNotFound then true
  else match errors_As_BACnetError e with
       | Some b => (BE_Code b =? ErrorCodeUnknownDevice) || (BE_Code b =? ErrorCodeUnknownObject)
       | None => false
       end.

Definition IsPropertyNotFound (e : error) : bool :=
  if errors_Is e ErrPropertyNotFound then true
  else match errors_As_BACnetError e with
       | Some b => BE_Code b =? ErrorCodeUnknownProperty
       | None => false
       end.

Definition IsAccessDenied (e : error) : bool :=
  match errors_As_BACnetError e with
  | Some b => (BE_Code b =? ErrorCodeReadAccessDenied) || (BE_Code b =? ErrorCodeWriteAccessDenied)
  | None => false
  end.

(** [netErr, ok := err.(net.Error); ok && netErr.Timeout()] *)
Definition is_net_timeout (e : error) : bool :=
  match e with
  | EOS timeout _ => timeout
  | _ => false
  end.

(** ** Properties *)

(** The error at the end of the [%w] chain. *)
Fixpoint root_cause (e : error) : error :=
  match e with
  | EWrap _ inner _ => root_cause inner
  | _ => e
  end.

Lemma errors_Is_root e t :
  (forall b i a, t <> EWrap b i a) -> (forall b, t <> EBACnet b) -> errors_Is e t = bool_decide (root_cause e = t).
Proof.
  intros Hw Hb. induction e; cbn [errors_Is Is_here root_cause]; rewrite ?orb_false_r; try done.
  - unfold BACnetError_Is. destruct t; try done. by destruct (Hb e0).
  - rewrite IHe. by rewrite bool_decide_eq_false_2 by (intros <-; by eapply Hw).
Qed.

Lemma errors_As_root e b : errors_As_BACnetError e = Some b <-> root_cause e = EBACnet b.
Proof. induction e; cbn; try done. by split; intros [= ->]. Qed.

(** A BACnet error response with one of the given codes. *)
Definition bacnet_code_in (codes : list Z) (e : error) : Prop :=
  exists b, e = EBACnet b /\ BE_Code b ∈ codes.

Lemma as_code_in e codes (test : Z -> bool) :
  (forall c, test c = true <-> c ∈ codes) ->
  match errors_As_BACnetError e with Some b => test (BE_Code b) | None => false end = true <->
  bacnet_code_in codes (root_cause e).
Proof.
  intros Ht. unfold bacnet_code_in. destruct (errors_As_BACnetError e) as [b|] eqn:E.
  - apply errors_As_root in E. rewrite Ht, E. naive_solver.
  - split; [done|]. intros (b & Hb%errors_As_root & ?). congruence.
Qed.

Lemma two_codes a b c : (c =? a) || (c =? b) = true <-> c ∈ [a; b].
Proof. rewrite orb_true_iff, !Z.eqb_eq. set_solver. Qed.

Lemma one_code a c : (c =? a) = true <-> c ∈ [a].
Proof. rewrite Z.eqb_eq. set_solver. Qed.

(** The [IsXxx] helpers classify an error by the root cause of its [%w]
    chain, however deep it is wrapped: a timeout is exactly [ErrTimeout]; a
    missing device or property is the sentinel or an error response with one
    of the codes unknown-device, unknown-object, resp. unknown-property; access
    denied is an error response with one of the two access codes. *)
Theorem Is_helpers_spec e :
  (IsTimeout e = true <-> root_cause e = ErrTimeout) /\
  (IsDeviceNotFound e = true <->
     root_cause e = ErrDeviceNotFound \/
     bacnet_code_in [ErrorCodeUnknownDevice; ErrorCodeUnknownObject] (root_cause e)) /\
  (IsPropertyNotFound e = true <->
     root_cause e = ErrPropertyNotFound \/ bacnet_code_in [ErrorCodeUnknownProperty] (root_cause e)) /\
  (IsAccessDenied e = true <->
     bacnet_code_in [ErrorCodeReadAccessDenied; ErrorCodeWriteAccessDenied] (root_cause e)).
Proof.
  unfold IsTimeout, IsDeviceNotFound, IsPropertyNotFound, IsAccessDenied.
  rewrite !errors_Is_root by done.
  pose proof (as_code_in e _ _ (two_codes ErrorCodeUnknownDevice ErrorCodeUnknownObject)) as H1.
  pose proof (as_code_in e _ _ (two_codes ErrorCodeReadAccessDenied ErrorCodeWriteAccessDenied)) as H2.
  pose proof (as_code_in e _ _ (one_code ErrorCodeUnknownProperty)) as H3.
  cbn beta in *. rewrite <- H1, <- H2, <- H3. split_and!; repeat case_bool_decide; intuition congruence.
Qed.
