(* ===== verification/Link.v ===== *)
(** * BVLC and NPDU headers ([protocol.go])

    The BACnet/IP link header and the network header.  [DecodeNPDU] is cut
    into its four stages (fixed part, destination, source, network message),
    each with its own bounds checks, and composed as in the code. *)

From S2P Require Import Prelude Enums Errors.
#[local] Open Scope string_scope.
#[local] Open Scope list_scope.
#[local] Open Scope Z_scope.

(** ** BVLC *)

(** [BVLCHeader] *)
Record BVLCHeader := { BVLC_Type : Z; BVLC_Function : Z; BVLC_Length : Z }.

Definition EncodeBVLC (function npduLength : Z) : bytes :=
  let totalLength := 4 + npduLength in
  [u8 BVLCTypeBACnetIP; u8 function] ++ put_be16 (u16 totalLength).

Definition DecodeBVLC (data : bytes) : go BVLCHeader :=
  if len data <? 4 then Err ErrInvalidBVLC
  else
    let! t := idx data 0 in
    let! f := idx data 1 in
    let! s := slice data 2 4 in
    let! l := be16 s in
    Ret {| BVLC_Type := t; BVLC_Function := f; BVLC_Length := l |}.

(** ** NPDU *)

(** [NPDU]; an unset slice field is [[]] *)
Record NPDU := {
  Version : Z;
  Control : Z;
  DestNet : Z;
  DestAddr : bytes;
  DestHopCount : Z;
  SrcNet : Z;
  SrcAddr : bytes;
  MessageType : Z;
  VendorID : Z;
  NPDU_Data : bytes
}.

Definition EncodeNPDU (expectingReply : bool) (priority : Z) : bytes :=
  let control :=
    if expectingReply then Z.lor priority NPDUControlExpectingReply else priority in
  [0x01; u8 control].

Definition EncodeNPDUWithDest (destNet : Z) (destAddr : bytes) (hopCount : Z)
    (expectingReply : bool) (priority : Z) : bytes :=
  let control := Z.lor priority NPDUControlDestSpecifier in
  let control :=
    if expectingReply then Z.lor control NPDUControlExpectingReply else control in
  [0x01] ++ [u8 control] ++ [u8 (Z.shiftr destNet 8); u8 destNet] ++
  [u8 (len destAddr)] ++ destAddr ++ [hopCount].

(** Destination specifier: network, address, hop count, next offset. *)
Definition DecodeNPDU_dest (data : bytes) (control offset : Z) : go (Z * bytes * Z * Z) :=
  if flag control NPDUControlDestSpecifier then
    if len data <? offset + 3 then Err ErrInvalidNPDU
    else
      let! s := slice_from data offset in
      let! net := be16 s in
      let offset := offset + 2 in
      let! addrLen := idx data offset in
      let offset := offset + 1 in
      if len data <? offset + addrLen + 1 then Err ErrInvalidNPDU
      else
        let! addr := slice data offset (offset + addrLen) in
        let offset := offset + addrLen in
        let! hop := idx data offset in
        Ret (net, addr, hop, offset + 1)
  else Ret (0, [], 0, offset).

(** Source specifier: network, address, next offset. *)
Definition DecodeNPDU_src (data : bytes) (control offset : Z) : go (Z * bytes * Z) :=
  if flag control NPDUControlSourceSpecifier then
    if len data <? offset + 3 then Err ErrInvalidNPDU
    else
      let! s := slice_from data offset in
      let! net := be16 s in
      let offset := offset + 2 in
      let! addrLen := idx data offset in
      let offset := offset + 1 in
      if len data <? offset + addrLen then Err ErrInvalidNPDU
      else
        let! addr := slice data offset (offset + addrLen) in
        Ret (net, addr, offset + addrLen)
  else Ret (0, [], offset).

(** Network layer message: message type, vendor id, next offset. *)
Definition DecodeNPDU_msg (data : bytes) (control offset : Z) : go (Z * Z * Z) :=
  if flag control NPDUControlNetworkLayerMessage then
    if len data <? offset + 1 then Err ErrInvalidNPDU
    else
      let! mt := idx data offset in
      let offset := offset + 1 in
      if 0x80 <=? mt then
        if len data <? offset + 2 then Err ErrInvalidNPDU
        else
          let! s := slice_from data offset in
          let! vendor := be16 s in
          Ret (mt, vendor, offset + 2)
      else Ret (mt, 0, offset)
  else Ret (0, 0, offset).

Definition DecodeNPDU (data : bytes) : go (NPDU * Z) :=
  if len data <? 2 then Err ErrInvalidNPDU
  else
    let! version := idx data 0 in
    let! control := idx data 1 in
    if negb (version =? 0x01)
    then Err (EWrap EmptyString ErrInvalidNPDU (": unsupported version " +:+ dec version))
    else
      let! '(dnet, daddr, hop, offset) := DecodeNPDU_dest data control 2 in
      let! '(snet, saddr, offset) := DecodeNPDU_src data control offset in
      let! '(mt, vendor, offset) := DecodeNPDU_msg data control offset in
      let! rest := slice_from data offset in
      Ret ({| Version := version; Control := control;
              DestNet := dnet; DestAddr := daddr; DestHopCount := hop;
              SrcNet := snet; SrcAddr := saddr;
              MessageType := mt; VendorID := vendor; NPDU_Data := rest |}, offset).

(** ** The wire format of a network header

    [npdu_wire] is the layout of ASHRAE 135, clause 6.2: version, control octet,
    and then the fields the control octet announces: destination network and
    address, source network and address, the hop count if there is a
    destination, message type and vendor id.  [DecodeNPDU] reads
    [misordered_wire], with the hop count before the source; the two differ
    only for headers with both specifiers. *)

Definition addr_wire (net : Z) (addr : bytes) : bytes := put_be16 net ++ [len addr] ++ addr.

Definition hop_wire (c hop : Z) : bytes := if flag c NPDUControlDestSpecifier then [hop] else [].

Definition dest_wire (c net : Z) (addr : bytes) (hop : Z) : bytes :=
  if flag c NPDUControlDestSpecifier then put_be16 net ++ [len addr] ++ addr ++ [hop] else [].

Definition src_wire (c net : Z) (addr : bytes) : bytes :=
  if flag c NPDUControlSourceSpecifier then put_be16 net ++ [len addr] ++ addr else [].

Definition msg_wire (c mt vendor : Z) : bytes :=
  if flag c NPDUControlNetworkLayerMessage
  then [mt] ++ (if 0x80 <=? mt then put_be16 vendor else []) else [].

Definition npdu_wire (n : NPDU) : bytes :=
  [Version n; Control n] ++
  (if flag (Control n) NPDUControlDestSpecifier then addr_wire (DestNet n) (DestAddr n) else []) ++
  (if flag (Control n) NPDUControlSourceSpecifier then addr_wire (SrcNet n) (SrcAddr n) else []) ++
  hop_wire (Control n) (DestHopCount n) ++
  msg_wire (Control n) (MessageType n) (VendorID n) ++
  NPDU_Data n.

Definition misordered_wire (n : NPDU) : bytes :=
  [Version n; Control n] ++
  dest_wire (Control n) (DestNet n) (DestAddr n) (DestHopCount n) ++
  src_wire (Control n) (SrcNet n) (SrcAddr n) ++
  msg_wire (Control n) (MessageType n) (VendorID n) ++
  NPDU_Data n.

(** A header with a destination and a source. *)
Definition both_specifiers (c : Z) : bool :=
  flag c NPDUControlDestSpecifier && flag c NPDUControlSourceSpecifier.

Lemma misordered_standard n : both_specifiers (Control n) = false -> misordered_wire n = npdu_wire n.
Proof.
  unfold both_specifiers, misordered_wire, npdu_wire, dest_wire, src_wire, hop_wire, addr_wire.
  destruct (flag _ NPDUControlDestSpecifier), (flag _ NPDUControlSourceSpecifier); try done; intros _;
    by rewrite <- ?app_assoc.
Qed.

Definition dest_wf (c net : Z) (addr : bytes) (hop : Z) : Prop :=
  if flag c NPDUControlDestSpecifier
  then 0 <= net < 65536 /\ len addr < 256 /\ wf_bytes addr /\ is_byte hop
  else net = 0 /\ addr = [] /\ hop = 0.

Definition src_wf (c net : Z) (addr : bytes) : Prop :=
  if flag c NPDUControlSourceSpecifier
  then 0 <= net < 65536 /\ len addr < 256 /\ wf_bytes addr
  else net = 0 /\ addr = [].

Definition msg_wf (c mt vendor : Z) : Prop :=
  if flag c NPDUControlNetworkLayerMessage
  then is_byte mt /\ (if 0x80 <=? mt then 0 <= vendor < 65536 else vendor = 0)
  else mt = 0 /\ vendor = 0.

Definition npdu_wf (n : NPDU) : Prop :=
  Version n = 1 /\ is_byte (Control n) /\
  dest_wf (Control n) (DestNet n) (DestAddr n) (DestHopCount n) /\
  src_wf (Control n) (SrcNet n) (SrcAddr n) /\
  msg_wf (Control n) (MessageType n) (VendorID n) /\
  wf_bytes (NPDU_Data n).

(** ** Each stage accepts exactly its wire format *)

Lemma put_be16_cons v r : 0 <= v < 65536 -> exists a b,
  put_be16 v ++ r = a :: b :: r /\ is_byte a /\ is_byte b /\ a * 256 + b = v.
Proof.
  intros. exists (u8 (Z.shiftr v 8)), (u8 v). split_and!; try apply u8_byte; [done|].
  rewrite u8_shiftr by lia. unfold uint. div_lia.
Qed.

Lemma put_be16_of_bytes a b : is_byte a -> is_byte b -> put_be16 (a * 256 + b) = [a; b].
Proof.
  unfold is_byte, put_be16. intros. rewrite u8_shiftr by lia. unfold uint.
  repeat f_equal; div_lia.
Qed.

(** Both stages start with a network number and a counted address. *)
Lemma counted_addr_split a b n (q : bytes) :
  0 <= n <= len q -> a :: b :: n :: q = [a; b; n] ++ take (Z.to_nat n) q ++ drop (Z.to_nat n) q.
Proof. intros. cbn. by rewrite take_drop. Qed.

Lemma DecodeNPDU_src_complete p c net addr r :
  src_wf c net addr ->
  DecodeNPDU_src (p ++ src_wire c net addr ++ r) c (len p) =
  Ret (net, addr, len p + len (src_wire c net addr)).
Proof.
  unfold src_wf, src_wire, DecodeNPDU_src. destruct flag; cycle 1.
  { intros [-> ->]. do 2 f_equal. len_lia. }
  intros (Hn & Ha & Hwf). rewrite <- !app_assoc.
  destruct (put_be16_cons net ([len addr] ++ addr ++ r) Hn) as (a & b & -> & ? & ? & Hab).
  replace (len (put_be16 net ++ [len addr] ++ addr)) with (3 + len addr) by len_lia.
  replace (len (p ++ _) <? len p + 3) with false by len_lia.
  rewrite slice_from_app. cbn [obind]. rewrite be16_eq by done. cbn [obind].
  rewrite idx_app_r by lia. rewrite idx_in by len_lia. nat_literals. cbn [nth obind app].
  replace (len (p ++ _) <? len p + 2 + 1 + len addr) with false by len_lia.
  rewrite (slice_mid' _ (p ++ [a; b; len addr]) addr r).
  - cbn [obind]. rewrite Hab. do 2 f_equal. len_lia.
  - by rewrite <- app_assoc.
  - len_lia.
  - len_lia.
Qed.

Lemma DecodeNPDU_src_sound p q c net addr off :
  wf_bytes q -> DecodeNPDU_src (p ++ q) c (len p) = Ret (net, addr, off) ->
  src_wf c net addr /\ exists r, q = src_wire c net addr ++ r /\ off = len p + len (src_wire c net addr).
Proof.
  unfold src_wf, src_wire, DecodeNPDU_src. intros Hwf. destruct flag; cycle 1.
  { intros [= <- <- <-]. split; [done|]. exists q. split; [done|]. len_lia. }
  destruct (Z.ltb_spec (len (p ++ q)) (len p + 3)) as [|Hlen]; [done|].
  assert (3 <= len q) as (a & q1 & -> & (b & q2 & -> & (n & q3 & -> & _)%len_ge_cons)
    %len_ge_cons)%len_ge_cons by len_lia; [|lia..].
  apply Forall_cons in Hwf as [Ha [Hb [Hn Hwf]%Forall_cons]%Forall_cons].
  rewrite slice_from_app. cbn [obind]. rewrite be16_eq by done. cbn [obind].
  rewrite idx_app_r by lia. rewrite idx_in by len_lia. nat_literals. cbn [nth obind].
  destruct (Z.ltb_spec (len (p ++ a :: b :: n :: q3)) (len p + 2 + 1 + n)) as [|Hn']; [done|].
  unfold is_byte in *.
  rewrite (counted_addr_split a b n q3) by len_lia.
  rewrite (slice_mid' _ (p ++ [a; b; n]) (take (Z.to_nat n) q3) (drop (Z.to_nat n) q3)).
  - cbn [obind]. intros [= <- <- <-]. rewrite len_take by len_lia.
    split; [split_and!; [lia..|by apply wf_take]|].
    exists (drop (Z.to_nat n) q3). rewrite put_be16_of_bytes, len_app, len_app, len_take by (done || len_lia).
    split; [by rewrite <- !app_assoc|]. len_lia.
  - by rewrite <- app_assoc.
  - len_lia.
  - rewrite len_take by len_lia. len_lia.
Qed.

Lemma DecodeNPDU_dest_complete p c net addr hop r :
  dest_wf c net addr hop ->
  DecodeNPDU_dest (p ++ dest_wire c net addr hop ++ r) c (len p) =
  Ret (net, addr, hop, len p + len (dest_wire c net addr hop)).
Proof.
  unfold dest_wf, dest_wire, DecodeNPDU_dest. destruct flag; cycle 1.
  { intros (-> & -> & ->). do 2 f_equal. len_lia. }
  intros (Hn & Ha & Hwf & Hh). rewrite <- !app_assoc.
  destruct (put_be16_cons net ([len addr] ++ addr ++ [hop] ++ r) Hn) as (a & b & -> & ? & ? & Hab).
  replace (len (put_be16 net ++ [len addr] ++ addr ++ [hop])) with (4 + len addr) by len_lia.
  replace (len (p ++ _) <? len p + 3) with false by len_lia.
  rewrite slice_from_app. cbn [obind]. rewrite be16_eq by done. cbn [obind].
  rewrite idx_app_r by lia. rewrite idx_in by len_lia. nat_literals. cbn [nth obind app].
  replace (len (p ++ _) <? len p + 2 + 1 + len addr + 1) with false by len_lia.
  rewrite (slice_mid' _ (p ++ [a; b; len addr]) addr (hop :: r)).
  - cbn [obind]. replace (p ++ a :: b :: len addr :: addr ++ hop :: r)
      with ((p ++ [a; b; len addr] ++ addr) ++ hop :: r) by (by rewrite <- !app_assoc).
    replace (len p + 2 + 1 + len addr) with (len (p ++ [a; b; len addr] ++ addr) + 0) by len_lia.
    rewrite idx_app_r, idx_cons_0 by lia. cbn [obind]. rewrite Hab. do 2 f_equal. len_lia.
  - by rewrite <- app_assoc.
  - len_lia.
  - len_lia.
Qed.

(** A counted address followed by one more octet. *)
Lemma counted_addr_hop_split a b n (q : bytes) :
  0 <= n < len q ->
  a :: b :: n :: q =
  ([a; b; n] ++ take (Z.to_nat n) q) ++ nth (Z.to_nat n) q 0 :: drop (Z.to_nat (n + 1)) q.
Proof.
  intros Hn. rewrite <- app_assoc. cbn. do 3 f_equal.
  replace (Z.to_nat (n + 1)) with (S (Z.to_nat n)) by lia.
  symmetry. apply take_drop_middle.
  destruct (nth_lookup_or_length q (Z.to_nat n) 0) as [|Hge]; [done|]. unfold len in Hn. lia.
Qed.

Lemma DecodeNPDU_dest_sound p q c net addr hop off :
  wf_bytes q -> DecodeNPDU_dest (p ++ q) c (len p) = Ret (net, addr, hop, off) ->
  dest_wf c net addr hop /\
  exists r, q = dest_wire c net addr hop ++ r /\ off = len p + len (dest_wire c net addr hop).
Proof.
  unfold dest_wf, dest_wire, DecodeNPDU_dest. intros Hwf. destruct flag; cycle 1.
  { intros [= <- <- <- <-]. split; [done|]. exists q. split; [done|]. len_lia. }
  destruct (Z.ltb_spec (len (p ++ q)) (len p + 3)) as [|Hlen]; [done|].
  assert (3 <= len q) as (a & q1 & -> & (b & q2 & -> & (n & q3 & -> & _)%len_ge_cons)
    %len_ge_cons)%len_ge_cons by len_lia; [|lia..].
  apply Forall_cons in Hwf as [Ha [Hb [Hn Hwf]%Forall_cons]%Forall_cons].
  rewrite slice_from_app. cbn [obind]. rewrite be16_eq by done. cbn [obind].
  rewrite idx_app_r by lia. rewrite idx_in by len_lia. nat_literals. cbn [nth obind].
  destruct (Z.ltb_spec (len (p ++ a :: b :: n :: q3)) (len p + 2 + 1 + n + 1)) as [|Hn']; [done|].
  unfold is_byte in *. assert (0 <= n < len q3) as Hq by len_lia.
  pose proof (wf_nth q3 (Z.to_nat n) Hwf) as Hhop.
  rewrite (counted_addr_hop_split a b n q3 Hq).
  set (q' := drop _ q3). set (h := nth _ q3 0) in *.
  rewrite (slice_mid' _ (p ++ [a; b; n]) (take (Z.to_nat n) q3) (h :: q')); cycle 1.
  { by rewrite <- !app_assoc. } { len_lia. } { rewrite len_take by lia. len_lia. }
  cbn [obind]. rewrite app_assoc.
  replace (len p + 2 + 1 + n) with (len (p ++ [a; b; n] ++ take (Z.to_nat n) q3) + 0)
    by (autorewrite with len; rewrite len_take by lia; lia).
  rewrite idx_app_r, idx_cons_0 by lia. cbn [obind]. intros [= <- <- <- <-].
  rewrite len_take by lia. split; [unfold is_byte in Hhop; split_and!; try lia; by apply wf_take|].
  exists q'. rewrite put_be16_of_bytes by done. split; [by rewrite <- !app_assoc|].
  autorewrite with len. rewrite len_take by lia. lia.
Qed.

Lemma DecodeNPDU_msg_complete p c mt vendor r :
  msg_wf c mt vendor ->
  DecodeNPDU_msg (p ++ msg_wire c mt vendor ++ r) c (len p) =
  Ret (mt, vendor, len p + len (msg_wire c mt vendor)).
Proof.
  unfold msg_wf, msg_wire, DecodeNPDU_msg. destruct flag; cycle 1.
  { intros [-> ->]. do 2 f_equal. len_lia. }
  intros [Hmt Hv]. replace (len (p ++ _) <? len p + 1) with false by len_lia.
  replace (len p) with (len p + 0) at 1 by lia. rewrite idx_app_r by lia.
  rewrite <- app_assoc. cbn [app]. rewrite idx_cons_0. cbn [obind].
  destruct (0x80 <=? mt); cycle 1.
  { rewrite Hv. do 2 f_equal; len_lia. }
  destruct (put_be16_cons vendor r Hv) as (a & b & E & ? & ? & Hab).
  replace (len p + 1) with (len (p ++ [mt])) by len_lia.
  replace (p ++ mt :: put_be16 vendor ++ r) with ((p ++ [mt]) ++ put_be16 vendor ++ r)
    by by rewrite <- app_assoc.
  rewrite E. replace (len (_ ++ _) <? _) with false by len_lia.
  rewrite slice_from_app. cbn [obind]. rewrite be16_eq by done. cbn [obind].
  rewrite Hab. do 2 f_equal; len_lia.
Qed.

Lemma DecodeNPDU_msg_sound p q c mt vendor off :
  wf_bytes q -> DecodeNPDU_msg (p ++ q) c (len p) = Ret (mt, vendor, off) ->
  msg_wf c mt vendor /\
  exists r, q = msg_wire c mt vendor ++ r /\ off = len p + len (msg_wire c mt vendor).
Proof.
  unfold msg_wf, msg_wire, DecodeNPDU_msg. intros Hwf. destruct flag; cycle 1.
  { intros [= <- <- <-]. split; [done|]. exists q. split; [done|]. len_lia. }
  destruct (Z.ltb_spec (len (p ++ q)) (len p + 1)) as [|Hlen]; [done|].
  destruct q as [|m q]; [len_lia|]. apply Forall_cons in Hwf as [Hm Hwf].
  replace (len p) with (len p + 0) at 1 by lia. rewrite idx_app_r, idx_cons_0 by lia. cbn [obind].
  destruct (0x80 <=? m) eqn:Hm8; cycle 1.
  { intros [= <- <- <-]. rewrite Hm8. split; [done|]. exists q. split; [done|]. len_lia. }
  replace (len p + 1) with (len (p ++ [m])) by len_lia.
  replace (p ++ m :: q) with ((p ++ [m]) ++ q) by by rewrite <- app_assoc.
  destruct (Z.ltb_spec (len ((p ++ [m]) ++ q)) (len (p ++ [m]) + 2)) as [|Hlen']; [done|].
  assert (2 <= len q) as (a & q1 & -> & (b & r & -> & _)%len_ge_cons)%len_ge_cons by len_lia; [|lia..].
  apply Forall_cons in Hwf as [Ha [Hb Hwf]%Forall_cons].
  rewrite slice_from_app. cbn [obind]. rewrite be16_eq by done. cbn [obind].
  intros [= <- <- <-]. rewrite Hm8, put_be16_of_bytes by done.
  split; [split; [done|unfold is_byte in *; lia]|]. exists r. split; [done|]. len_lia.
Qed.

Lemma DecodeNPDU_sound d n off :
  wf_bytes d -> DecodeNPDU d = Ret (n, off) ->
  npdu_wf n /\ d = misordered_wire n /\ off = len d - len (NPDU_Data n).
Proof.
  intros Hwf. unfold npdu_wf, misordered_wire, DecodeNPDU.
  destruct (Z.ltb_spec (len d) 2) as [|Hlen]; [done|].
  apply len_ge_cons in Hlen as (v & d1 & -> & (c & q & -> & _)%len_ge_cons); [|lia..].
  apply Forall_cons in Hwf as [Hv [Hc Hwf]%Forall_cons].
  idx_eval. destruct (Z.eqb_spec v 1) as [->|]; [cbn [negb]|done].
  change (1 :: c :: q) with ([1; c] ++ q). change 2 with (len [1; c]).
  destruct DecodeNPDU_dest as [[[[dnet daddr] hop] o1]|?| |] eqn:E1; [|done..].
  apply DecodeNPDU_dest_sound in E1 as (Hd & q1 & -> & ->); [cbn [obind]|done].
  rewrite <- len_app. rewrite (app_assoc [1; c]). apply wf_app in Hwf as [_ Hwf].
  destruct DecodeNPDU_src as [[[snet saddr] o2]|?| |] eqn:E2; [|done..].
  apply DecodeNPDU_src_sound in E2 as (Hs & q2 & -> & ->); [cbn [obind]|done].
  rewrite <- len_app. rewrite (app_assoc ([1; c] ++ _)). apply wf_app in Hwf as [_ Hwf].
  destruct DecodeNPDU_msg as [[[mt vendor] o3]|?| |] eqn:E3; [|done..].
  apply DecodeNPDU_msg_sound in E3 as (Hm & r & -> & ->); [cbn [obind]|done].
  rewrite <- len_app. rewrite (app_assoc (([1; c] ++ _) ++ _)). apply wf_app in Hwf as [_ Hwf].
  rewrite slice_from_app. cbn [obind]. intros [= <- <-]. cbn.
  split_and!; try done. { by rewrite <- !app_assoc. } len_lia.
Qed.

Lemma DecodeNPDU_complete n :
  npdu_wf n -> DecodeNPDU (misordered_wire n) = Ret (n, len (misordered_wire n) - len (NPDU_Data n)).
Proof.
  unfold npdu_wf, misordered_wire, DecodeNPDU.
  destruct n as [v c dnet daddr hop snet saddr mt vendor r]. cbn.
  intros (-> & Hc & Hd & Hs & Hm & Hr).
  replace (len _ <? 2) with false by len_lia. idx_eval. cbn [Z.eqb Pos.eqb negb].
  match goal with |- context [DecodeNPDU_dest (1 :: c :: ?q)] =>
    change (1 :: c :: q) with ([1; c] ++ q) end.
  change 2 with (len [1; c]).
  rewrite DecodeNPDU_dest_complete by done. cbn [obind].
  rewrite <- len_app, (app_assoc [1; c]). rewrite DecodeNPDU_src_complete by done. cbn [obind].
  rewrite <- len_app, (app_assoc ([1; c] ++ _)). rewrite DecodeNPDU_msg_complete by done. cbn [obind].
  rewrite <- len_app, (app_assoc (([1; c] ++ _) ++ _)). rewrite slice_from_app. cbn [obind].
  do 2 f_equal. len_lia.
Qed.

Lemma DecodeNPDU_intro d n off :
  npdu_wf n /\ d = misordered_wire n /\ off = len d - len (NPDU_Data n) -> DecodeNPDU d = Ret (n, off).
Proof. intros (Hn & -> & ->). by apply DecodeNPDU_complete. Qed.

(** C20. What [DecodeNPDU] accepts: on a byte string it returns [n] with offset
    [off] if and only if every field of [n] is in range and absent fields are
    zero, [off] is the length of the header, and the bytes have the standard
    layout of [n], unless the control octet announces both a destination and a
    source: then they have a layout with the hop count before the source, which
    is not the standard one.  Nothing else is accepted. *)
Theorem DecodeNPDU_exact d n off :
  wf_bytes d ->
  DecodeNPDU d = Ret (n, off) <->
    npdu_wf n /\ d = (if both_specifiers (Control n) then misordered_wire n else npdu_wire n) /\
    off = len d - len (NPDU_Data n).
Proof.
  intros Hwf. assert ((if both_specifiers (Control n) then misordered_wire n else npdu_wire n) = misordered_wire n) as ->.
  { destruct (both_specifiers (Control n)) eqn:E; [done|]. by rewrite misordered_standard. }
  split; [by apply DecodeNPDU_sound|apply DecodeNPDU_intro].
Qed.

Lemma DecodeNPDU_exact_witness :
  DecodeNPDU [1; 0x28; 0; 5; 1; 9; 255; 0; 7; 0; 0x10; 8] =
  Ret ({| Version := 1; Control := 0x28; DestNet := 5; DestAddr := [9]; DestHopCount := 255;
          SrcNet := 7; SrcAddr := []; MessageType := 0; VendorID := 0;
          NPDU_Data := [0x10; 8] |}, 10).
Proof.
  apply (DecodeNPDU_exact [1; 0x28; 0; 5; 1; 9; 255; 0; 7; 0; 0x10; 8]).
  - repeat constructor; cbn; lia.
  - vm_compute. repeat constructor; intros ?; discriminate.
Defined.

(** ** Safety *)

Lemma DecodeBVLC_safe data : safely (DecodeBVLC data) (fun _ => 4 <= len data).
Proof. unfold DecodeBVLC. go_safe. lia. Qed.

Lemma DecodeNPDU_dest_safe d c o :
  wf_bytes d -> 0 <= o <= len d -> safely (DecodeNPDU_dest d c o) (fun r => o <= r.2 <= len d).
Proof. unfold DecodeNPDU_dest. intros Hwf Ho. go_safe; cbn in *; lia. Qed.

Lemma DecodeNPDU_src_safe d c o :
  wf_bytes d -> 0 <= o <= len d -> safely (DecodeNPDU_src d c o) (fun r => o <= r.2 <= len d).
Proof. unfold DecodeNPDU_src. intros Hwf Ho. go_safe; cbn in *; lia. Qed.

Lemma DecodeNPDU_msg_safe d c o :
  wf_bytes d -> 0 <= o <= len d -> safely (DecodeNPDU_msg d c o) (fun r => o <= r.2 <= len d).
Proof. unfold DecodeNPDU_msg. intros Hwf Ho. go_safe; cbn in *; lia. Qed.

#[local] Hint Extern 1 (safely (DecodeNPDU_dest _ _ _) _) => apply DecodeNPDU_dest_safe; [done|len_lia] : go_safe.
#[local] Hint Extern 1 (safely (DecodeNPDU_src _ _ _) _) => apply DecodeNPDU_src_safe; [done|len_lia] : go_safe.
#[local] Hint Extern 1 (safely (DecodeNPDU_msg _ _ _) _) => apply DecodeNPDU_msg_safe; [done|len_lia] : go_safe.

Lemma DecodeNPDU_safe d :
  wf_bytes d -> safely (DecodeNPDU d) (fun r => 0 <= r.2 <= len d).
Proof. unfold DecodeNPDU. intros Hwf. go_safe; cbn in *; lia. Qed.

(** ** Round trips of the encoders *)

(** The control octet the encoders build from a priority. *)
Definition request_control (dest expectingReply : bool) (priority : Z) : Z :=
  let control := if dest then Z.lor priority NPDUControlDestSpecifier else priority in
  if expectingReply then Z.lor control NPDUControlExpectingReply else control.

Lemma request_control_flags dest reply priority :
  0 <= priority <= 3 ->
  let c := request_control dest reply priority in
  u8 c = c /\ is_byte c /\ flag c NPDUControlDestSpecifier = dest /\
  flag c NPDUControlSourceSpecifier = false /\ flag c NPDUControlNetworkLayerMessage = false.
Proof.
  intros Hp. assert (priority = 0 \/ priority = 1 \/ priority = 2 \/ priority = 3) as H by lia.
  destruct H as [->|[->|[->| ->]]], dest, reply; vm_compute; intuition discriminate.
Qed.

Lemma DecodeNPDU_EncodeNPDU reply priority rest :
  0 <= priority <= 3 -> wf_bytes rest ->
  DecodeNPDU (EncodeNPDU reply priority ++ rest) =
    Ret ({| Version := 1; Control := request_control false reply priority;
            DestNet := 0; DestAddr := []; DestHopCount := 0; SrcNet := 0; SrcAddr := [];
            MessageType := 0; VendorID := 0; NPDU_Data := rest |}, 2).
Proof.
  intros Hp Hr. destruct (request_control_flags false reply priority Hp) as (U1 & B1 & D1 & S1 & N1).
  apply DecodeNPDU_intro.
  unfold npdu_wf, misordered_wire, dest_wf, src_wf, msg_wf, dest_wire, src_wire, msg_wire.
  cbn [Version Control DestNet DestAddr DestHopCount SrcNet SrcAddr MessageType VendorID NPDU_Data].
  rewrite D1, S1, N1. unfold EncodeNPDU. split_and!; try done; [|len_lia].
  change (if reply then _ else _) with (request_control false reply priority).
  by rewrite U1.
Qed.

(** What the client sends as network header decodes to what was meant: a
    unicast header has the control octet of its priority and reply flag, and a
    routed header carries in addition its destination network, address (at
    most 255 bytes) and hop count; the rest of the packet is the NPDU data. *)
Theorem EncodeNPDU_roundtrip reply priority net addr hop rest :
  0 <= priority <= 3 -> 0 <= net < 65536 -> len addr < 256 -> wf_bytes addr -> is_byte hop ->
  wf_bytes rest ->
  DecodeNPDU (EncodeNPDU reply priority ++ rest) =
    Ret ({| Version := 1; Control := request_control false reply priority;
            DestNet := 0; DestAddr := []; DestHopCount := 0; SrcNet := 0; SrcAddr := [];
            MessageType := 0; VendorID := 0; NPDU_Data := rest |}, 2) /\
  DecodeNPDU (EncodeNPDUWithDest net addr hop reply priority ++ rest) =
    Ret ({| Version := 1; Control := request_control true reply priority;
            DestNet := net; DestAddr := addr; DestHopCount := hop; SrcNet := 0; SrcAddr := [];
            MessageType := 0; VendorID := 0; NPDU_Data := rest |}, 6 + len addr).
Proof.
  intros Hp Hn Ha Hwa Hh Hr. split; [by apply DecodeNPDU_EncodeNPDU|].
  destruct (request_control_flags true reply priority Hp) as (U2 & B2 & D2 & S2 & N2).
  assert (u8 (len addr) = len addr) as Hlen by (apply uint_small; len_lia).
  apply DecodeNPDU_intro.
  unfold npdu_wf, misordered_wire, dest_wf, src_wf, msg_wf, dest_wire, src_wire, msg_wire.
  cbn [Version Control DestNet DestAddr DestHopCount SrcNet SrcAddr MessageType VendorID NPDU_Data].
  rewrite D2, S2, N2. unfold EncodeNPDUWithDest. rewrite Hlen.
  change (if reply then _ else _) with (request_control true reply priority).
  split_and!; try done; try lia; [|len_lia].
  rewrite U2. cbn. by rewrite <- !app_assoc.
Qed.

Lemma EncodeNPDU_roundtrip_witness :
  DecodeNPDU (EncodeNPDUWithDest 5 [10; 0] 255 true NPDUControlPriorityUrgent ++ [0x10; 8]) =
    Ret ({| Version := 1; Control := 0x25; DestNet := 5; DestAddr := [10; 0]; DestHopCount := 255;
            SrcNet := 0; SrcAddr := []; MessageType := 0; VendorID := 0;
            NPDU_Data := [0x10; 8] |}, 8).
Proof.
  apply (EncodeNPDU_roundtrip true 1 5 [10; 0] 255 [0x10; 8]);
    try lia; try reflexivity; repeat constructor; unfold is_byte; lia.
Defined.

Lemma DecodeBVLC_EncodeBVLC f n rest :
  is_byte f -> 0 <= n ->
  DecodeBVLC (EncodeBVLC f n ++ rest) =
  Ret {| BVLC_Type := BVLCTypeBACnetIP; BVLC_Function := f; BVLC_Length := (4 + n) mod 65536 |}.
Proof.
  intros Hf Hn. unfold EncodeBVLC, DecodeBVLC.
  replace (len _ <? 4) with false by len_lia.
  assert (u8 f = f) as -> by (apply uint_small; unfold is_byte in Hf; lia).
  rewrite <- app_assoc. cbn [app]. idx_eval.
  rewrite (slice_mid' _ [u8 BVLCTypeBACnetIP; f] (put_be16 (u16 (4 + n))) rest) by done.
  cbn [obind]. rewrite <- (app_nil_r (put_be16 _)), be16_put by (unfold uint; div_lia). done.
Qed.

#[export] Hint Resolve DecodeBVLC_safe : go_safe.
#[export] Hint Extern 1 (safely (DecodeNPDU _) _) => apply DecodeNPDU_safe; auto with wf : go_safe.

(** ** Headers with both a destination and a source

    A router sends such a header when it forwards a broadcast (DNET 0xFFFF, DLEN
    0) or a request from another network. *)

(** The source specifier is read in place of what the decoder takes for it. *)
Lemma DecodeNPDU_src_counted p c x y a q :
  flag c NPDUControlSourceSpecifier = true -> is_byte x -> is_byte y -> is_byte a -> wf_bytes q ->
  DecodeNPDU_src (p ++ x :: y :: a :: q) c (len p) =
    if len q <? a then Err ErrInvalidNPDU
    else Ret (x * 256 + y, take (Z.to_nat a) q, len p + 3 + a).
Proof.
  intros Hf Hx Hy Ha Hq. unfold is_byte in *. destruct (Z.ltb_spec (len q) a) as [Hlt|Hge].
  - unfold DecodeNPDU_src. rewrite Hf. replace (len (p ++ _) <? len p + 3) with false by len_lia.
    rewrite slice_from_app. cbn [obind]. rewrite be16_eq by done. cbn [obind].
    rewrite idx_app_r by lia. rewrite idx_in by len_lia. nat_literals. cbn [nth obind].
    by replace (len (p ++ _) <? len p + 2 + 1 + a) with true by len_lia.
  - pose proof (DecodeNPDU_src_complete p c (x * 256 + y) (take (Z.to_nat a) q) (drop (Z.to_nat a) q)) as H.
    unfold src_wf, src_wire in H. rewrite Hf, put_be16_of_bytes, len_take in H by (done || lia).
    rewrite <- !app_assoc in H. cbn [app] in H. rewrite take_drop in H. rewrite H.
    + do 2 f_equal. autorewrite with len. rewrite len_take by lia. lia.
    + split; [lia|]. split; [lia|by apply wf_take].
Qed.

(** C21. A header with both a destination and a source is misread, if it carries an
    APDU and, as the standard demands, a source address of some octets.  In the
    standard layout the hop count follows the source; [DecodeNPDU] takes the
    octet after the destination for it, which is the high octet of the source
    network.  The source network it reports is the low octet followed by the
    address length, and the first octet [a] of the source address is taken for
    the length, so that the rest of the address, the hop count and the data are
    cut after [a] octets: what is before is the source address, what is after is
    the data; if there are fewer, the packet is rejected. *)
Theorem DecodeNPDU_forwarded n a saddr :
  npdu_wf n -> both_specifiers (Control n) = true -> flag (Control n) NPDUControlNetworkLayerMessage = false ->
  SrcAddr n = a :: saddr ->
  let rest := saddr ++ [DestHopCount n] ++ NPDU_Data n in
  DecodeNPDU (npdu_wire n) =
    if len rest <? a then Err ErrInvalidNPDU
    else Ret ({| Version := 1; Control := Control n; DestNet := DestNet n; DestAddr := DestAddr n;
                 DestHopCount := SrcNet n / 256; SrcNet := SrcNet n mod 256 * 256 + len (SrcAddr n);
                 SrcAddr := take (Z.to_nat a) rest; MessageType := 0; VendorID := 0;
                 NPDU_Data := drop (Z.to_nat a) rest |}, 9 + len (DestAddr n) + a).
Proof.
  destruct n as [v c dnet daddr hop snet sa mt vendor r]. unfold both_specifiers, npdu_wf, npdu_wire, hop_wire, msg_wire, src_wf.
  cbn [Version Control DestNet DestAddr DestHopCount SrcNet SrcAddr MessageType VendorID NPDU_Data]. intros (-> & Hc & Hd & Hs & Hm & Hr) [Hfd Hfs]%andb_true_iff Hfm ->.
  set (rest := saddr ++ [hop] ++ r). rewrite Hfd, Hfs, Hfm in *.
  destruct Hs as (Hsn & Hsl & [Ha Hsa]%Forall_cons).
  assert (dest_wf c dnet daddr (snet / 256)) as Hd'.
  { unfold dest_wf in *. rewrite Hfd in *. destruct Hd as (? & ? & ? & _). split_and!; try done; unfold is_byte; div_lia. }
  assert (wf_bytes rest) as Hrest.
  { unfold rest. rewrite !wf_app. unfold dest_wf in Hd. rewrite Hfd in Hd. split_and!; [done| |done].
    constructor; [apply Hd|exact (List.Forall_nil _)]. }
  assert (addr_wire dnet daddr ++ addr_wire snet (a :: saddr) ++ [hop] ++ [] ++ r =
    dest_wire c dnet daddr (snet / 256) ++ (snet mod 256) :: len (a :: saddr) :: a :: rest) as ->.
  { unfold addr_wire, dest_wire. rewrite Hfd, <- !app_assoc. unfold put_be16 at 2. rewrite u8_shiftr by lia.
    change (2 ^ 8) with 256. change (u8 snet) with (snet mod 256).
    by replace ((snet / 256) mod 256) with (snet / 256) by div_lia. }
  cbn [app]. unfold DecodeNPDU. replace (len _ <? 2) with false by len_lia. idx_eval. cbn [Z.eqb Pos.eqb negb].
  match goal with |- context [DecodeNPDU_dest (1 :: c :: ?q)] => change (1 :: c :: q) with ([1; c] ++ q) end.
  change 2 with (len [1; c]). rewrite DecodeNPDU_dest_complete by done. cbn [obind].
  rewrite <- len_app, (app_assoc [1; c]). rewrite DecodeNPDU_src_counted; try done; try (unfold is_byte; div_lia).
  destruct (Z.ltb_spec (len rest) a) as [|Hge]; [done|]. cbn [obind].
  unfold DecodeNPDU_msg. rewrite Hfm. cbn [obind].
  replace (([1; c] ++ dest_wire c dnet daddr (snet / 256)) ++ snet mod 256 :: len (a :: saddr) :: a :: rest)
    with ((([1; c] ++ dest_wire c dnet daddr (snet / 256)) ++ snet mod 256 :: len (a :: saddr) :: a :: take (Z.to_nat a) rest)
          ++ drop (Z.to_nat a) rest) by (rewrite <- !app_assoc; cbn [app]; by rewrite take_drop).
  unfold is_byte in Ha. assert (len (take (Z.to_nat a) rest) = a) as Ht by (by rewrite len_take by lia).
  assert (len (([1; c] ++ dest_wire c dnet daddr (snet / 256)) ++
               snet mod 256 :: len (a :: saddr) :: a :: take (Z.to_nat a) rest) = 9 + len daddr + a) as Hlen.
  { unfold dest_wire. rewrite Hfd. autorewrite with len. rewrite Ht. len_lia. }
  match goal with |- context [slice_from (?p ++ ?q) ?o] => replace o with (len p) by (rewrite Hlen; len_lia) end.
  rewrite slice_from_app. cbn [obind]. by rewrite Hlen.
Qed.

(** A broadcast from device 2 on network 5: most of its header ends up as
    source address, and the APDU loses its first octet. *)
Lemma DecodeNPDU_forwarded_witness :
  let sent := {| Version := 1; Control := 0x28; DestNet := 0xFFFF; DestAddr := []; DestHopCount := 255;
                 SrcNet := 5; SrcAddr := [2]; MessageType := 0; VendorID := 0; NPDU_Data := [0x10; 0] |} in
  DecodeNPDU (npdu_wire sent) =
  Ret ({| Version := 1; Control := 0x28; DestNet := 0xFFFF; DestAddr := []; DestHopCount := 0;
          SrcNet := 0x0501; SrcAddr := [255; 0x10]; MessageType := 0; VendorID := 0; NPDU_Data := [0] |}, 11).
Proof.
  intros sent. refine (DecodeNPDU_forwarded sent 2 [] _ _ _ _); [|reflexivity..].
  unfold npdu_wf. vm_compute. repeat constructor; intros ?; discriminate.
Defined.
