(* ===== verification/Apdu.v ===== *)
(** * Application PDUs ([protocol.go])

    The application layer header: the two request encoders and the decoder of
    all PDU types, one definition per function. *)

From S2P Require Import Prelude Enums Errors.
#[local] Open Scope string_scope.
#[local] Open Scope list_scope.
#[local] Open Scope Z_scope.

(** [APDU]; an unset [Data] is [[]] *)
Record APDU := {
  APDU_Type : Z;
  Segmented : bool;
  MoreFollows : bool;
  MaxSegments : Z;
  MaxAPDU : Z;
  InvokeID : Z;
  SequenceNum : Z;
  WindowSize : Z;
  Service : Z;
  APDU_Data : bytes
}.

#[export] Instance APDU_eq_dec : EqDecision APDU.
Proof. solve_decision. Defined.

Definition EncodeConfirmedRequest (invokeID service : Z) (data : bytes) (maxSegments maxAPDU : Z) : bytes :=
  [u8 PDUTypeConfirmedRequest] ++
  [Z.lor (u8 (Z.shiftl maxSegments 4)) maxAPDU] ++
  [invokeID] ++
  [u8 service] ++
  data.

Definition EncodeUnconfirmedRequest (service : Z) (data : bytes) : bytes :=
  [u8 PDUTypeUnconfirmedRequest] ++ [u8 service] ++ data.

Definition decodeConfirmedRequest (data : bytes) : go APDU :=
  if len data <? 4 then Err ErrInvalidAPDU
  else
    let! b0 := idx data 0 in
    let! b1 := idx data 1 in
    let! invokeID := idx data 2 in
    let! service := idx data 3 in
    let! rest := slice_from data 4 in
    let apdu := {|
      APDU_Type := PDUTypeConfirmedRequest;
      Segmented := flag b0 0x08;
      MoreFollows := flag b0 0x04;
      MaxSegments := Z.land (Z.shiftr b1 4) 0x07;
      MaxAPDU := Z.land b1 0x0F;
      InvokeID := invokeID; SequenceNum := 0; WindowSize := 0;
      Service := service; APDU_Data := rest |} in
    if Segmented apdu then
      if len data <? 6 then Err ErrInvalidAPDU
      else
        let! sequence := idx data 4 in
        let! window := idx data 5 in
        let! rest := slice_from data 6 in
        Ret {| APDU_Type := APDU_Type apdu;
               Segmented := Segmented apdu; MoreFollows := MoreFollows apdu;
               MaxSegments := MaxSegments apdu; MaxAPDU := MaxAPDU apdu;
               InvokeID := InvokeID apdu; SequenceNum := sequence; WindowSize := window;
               Service := Service apdu; APDU_Data := rest |}
    else Ret apdu.

(** The PDUs without flags share the shape of their literals. *)
Definition plain_apdu (type invokeID service : Z) (data : bytes) : APDU := {|
  APDU_Type := type; Segmented := false; MoreFollows := false; MaxSegments := 0; MaxAPDU := 0;
  InvokeID := invokeID; SequenceNum := 0; WindowSize := 0; Service := service; APDU_Data := data |}.

Definition decodeUnconfirmedRequest (data : bytes) : go APDU :=
  if len data <? 2 then Err ErrInvalidAPDU
  else
    let! service := idx data 1 in
    let! rest := slice_from data 2 in
    Ret (plain_apdu PDUTypeUnconfirmedRequest 0 service rest).

Definition decodeSimpleAck (data : bytes) : go APDU :=
  if len data <? 3 then Err ErrInvalidAPDU
  else
    let! invokeID := idx data 1 in
    let! service := idx data 2 in
    Ret (plain_apdu PDUTypeSimpleAck invokeID service []).

Definition decodeComplexAck (data : bytes) : go APDU :=
  if len data <? 3 then Err ErrInvalidAPDU
  else
    let! b0 := idx data 0 in
    let! invokeID := idx data 1 in
    let! service := idx data 2 in
    let! rest := slice_from data 3 in
    let apdu := {|
      APDU_Type := PDUTypeComplexAck;
      Segmented := flag b0 0x08;
      MoreFollows := flag b0 0x04;
      MaxSegments := 0; MaxAPDU := 0;
      InvokeID := invokeID; SequenceNum := 0; WindowSize := 0;
      Service := service; APDU_Data := rest |} in
    if Segmented apdu then
      if len data <? 5 then Err ErrInvalidAPDU
      else
        let! sequence := idx data 3 in
        let! window := idx data 4 in
        let! rest := slice_from data 5 in
        Ret {| APDU_Type := APDU_Type apdu;
               Segmented := Segmented apdu; MoreFollows := MoreFollows apdu;
               MaxSegments := MaxSegments apdu; MaxAPDU := MaxAPDU apdu;
               InvokeID := InvokeID apdu; SequenceNum := sequence; WindowSize := window;
               Service := Service apdu; APDU_Data := rest |}
    else Ret apdu.

Definition decodeErrorAPDU (data : bytes) : go APDU :=
  if len data <? 3 then Err ErrInvalidAPDU
  else
    let! invokeID := idx data 1 in
    let! service := idx data 2 in
    let! rest := slice_from data 3 in
    Ret (plain_apdu PDUTypeError invokeID service rest).

(** The reject reason is in the service field. *)
Definition decodeRejectAPDU (data : bytes) : go APDU :=
  if len data <? 3 then Err ErrInvalidAPDU
  else
    let! invokeID := idx data 1 in
    let! service := idx data 2 in
    Ret (plain_apdu PDUTypeReject invokeID service []).

(** The abort reason is in the service field. *)
Definition decodeAbortAPDU (data : bytes) : go APDU :=
  if len data <? 3 then Err ErrInvalidAPDU
  else
    let! invokeID := idx data 1 in
    let! service := idx data 2 in
    Ret (plain_apdu PDUTypeAbort invokeID service []).

Definition DecodeAPDU (data : bytes) : go APDU :=
  if len data <? 1 then Err ErrInvalidAPDU
  else
    let! b0 := idx data 0 in
    let type := Z.land b0 0xF0 in
    if type =? PDUTypeConfirmedRequest then decodeConfirmedRequest data
    else if type =? PDUTypeUnconfirmedRequest then decodeUnconfirmedRequest data
    else if type =? PDUTypeSimpleAck then decodeSimpleAck data
    else if type =? PDUTypeComplexAck then decodeComplexAck data
    else if type =? PDUTypeError then decodeErrorAPDU data
    else if type =? PDUTypeReject then decodeRejectAPDU data
    else if type =? PDUTypeAbort then decodeAbortAPDU data
    else Err (EWrap EmptyString ErrInvalidAPDU (": unknown PDU type " +:+ hex2 type)).

(** ** Safety *)

(** The data of a PDU are octets when the packet is. *)
Definition wf_apdu (a : APDU) : Prop := wf_bytes (APDU_Data a).

Lemma decodeConfirmedRequest_safe d : wf_bytes d -> safely (decodeConfirmedRequest d) wf_apdu.
Proof. intros Hwf. unfold decodeConfirmedRequest, wf_apdu. go_safe; cbn; auto with wf. Qed.
Lemma decodeUnconfirmedRequest_safe d : wf_bytes d -> safely (decodeUnconfirmedRequest d) wf_apdu.
Proof. intros Hwf. unfold decodeUnconfirmedRequest, wf_apdu. go_safe; cbn; auto with wf. Qed.
Lemma decodeSimpleAck_safe d : wf_bytes d -> safely (decodeSimpleAck d) wf_apdu.
Proof. intros Hwf. unfold decodeSimpleAck, wf_apdu. go_safe; cbn; auto with wf. Qed.
Lemma decodeComplexAck_safe d : wf_bytes d -> safely (decodeComplexAck d) wf_apdu.
Proof. intros Hwf. unfold decodeComplexAck, wf_apdu. go_safe; cbn; auto with wf. Qed.

#[local] Hint Resolve decodeConfirmedRequest_safe decodeUnconfirmedRequest_safe
  decodeSimpleAck_safe decodeComplexAck_safe : go_safe.

Lemma DecodeAPDU_safe d : wf_bytes d -> safely (DecodeAPDU d) wf_apdu.
Proof.
  intros Hwf. unfold DecodeAPDU, decodeErrorAPDU, decodeRejectAPDU, decodeAbortAPDU.
  go_safe; unfold wf_apdu; cbn; auto with wf; fold wf_apdu; auto with go_safe.
Qed.

#[export] Hint Extern 1 (safely (DecodeAPDU _) _) => apply DecodeAPDU_safe; auto with wf : go_safe.

(** ** The wire format of the PDUs

    One constructor per accepted shape.  [b0] is the first octet, its high
    nibble the PDU type and its bits 8 and 4 the segmentation flags. *)
Inductive apdu_wire : bytes -> APDU -> Prop :=
  | W_ConfirmedRequest b0 b1 id svc data :
      Z.land b0 0xF0 = PDUTypeConfirmedRequest -> flag b0 0x08 = false ->
      apdu_wire (b0 :: b1 :: id :: svc :: data)
        {| APDU_Type := PDUTypeConfirmedRequest; Segmented := false; MoreFollows := flag b0 0x04;
           MaxSegments := Z.land (Z.shiftr b1 4) 0x07; MaxAPDU := Z.land b1 0x0F;
           InvokeID := id; SequenceNum := 0; WindowSize := 0; Service := svc; APDU_Data := data |}
  | W_ConfirmedRequestSegment b0 b1 id svc sequence window data :
      Z.land b0 0xF0 = PDUTypeConfirmedRequest -> flag b0 0x08 = true ->
      apdu_wire (b0 :: b1 :: id :: svc :: sequence :: window :: data)
        {| APDU_Type := PDUTypeConfirmedRequest; Segmented := true; MoreFollows := flag b0 0x04;
           MaxSegments := Z.land (Z.shiftr b1 4) 0x07; MaxAPDU := Z.land b1 0x0F;
           InvokeID := id; SequenceNum := sequence; WindowSize := window; Service := svc;
           APDU_Data := data |}
  | W_UnconfirmedRequest b0 svc data :
      Z.land b0 0xF0 = PDUTypeUnconfirmedRequest ->
      apdu_wire (b0 :: svc :: data) (plain_apdu PDUTypeUnconfirmedRequest 0 svc data)
  | W_SimpleAck b0 id svc trailing :
      Z.land b0 0xF0 = PDUTypeSimpleAck ->
      apdu_wire (b0 :: id :: svc :: trailing) (plain_apdu PDUTypeSimpleAck id svc [])
  | W_ComplexAck b0 id svc data :
      Z.land b0 0xF0 = PDUTypeComplexAck -> flag b0 0x08 = false ->
      apdu_wire (b0 :: id :: svc :: data)
        {| APDU_Type := PDUTypeComplexAck; Segmented := false; MoreFollows := flag b0 0x04;
           MaxSegments := 0; MaxAPDU := 0; InvokeID := id; SequenceNum := 0; WindowSize := 0;
           Service := svc; APDU_Data := data |}
  | W_ComplexAckSegment b0 id svc sequence window data :
      Z.land b0 0xF0 = PDUTypeComplexAck -> flag b0 0x08 = true ->
      apdu_wire (b0 :: id :: svc :: sequence :: window :: data)
        {| APDU_Type := PDUTypeComplexAck; Segmented := true; MoreFollows := flag b0 0x04;
           MaxSegments := 0; MaxAPDU := 0; InvokeID := id; SequenceNum := sequence;
           WindowSize := window; Service := svc; APDU_Data := data |}
  | W_Error b0 id svc data :
      Z.land b0 0xF0 = PDUTypeError ->
      apdu_wire (b0 :: id :: svc :: data) (plain_apdu PDUTypeError id svc data)
  | W_Reject b0 id reason trailing :
      Z.land b0 0xF0 = PDUTypeReject ->
      apdu_wire (b0 :: id :: reason :: trailing) (plain_apdu PDUTypeReject id reason [])
  | W_Abort b0 id reason trailing :
      Z.land b0 0xF0 = PDUTypeAbort ->
      apdu_wire (b0 :: id :: reason :: trailing) (plain_apdu PDUTypeAbort id reason []).

(** Evaluate a decoder on an input with enough literal octets in front. *)
Ltac wire_eval :=
  repeat match goal with
  | |- context [len ?d <? ?n] => replace (len d <? n) with false by len_lia
  | |- context [idx _ _] => progress idx_eval
  | |- context [slice_from ?d ?n] =>
      rewrite (slice_from_in d n) by len_lia; nat_literals; cbn [drop obind]
  end.

Lemma decodeConfirmedRequest_exact d a b0 r :
  d = b0 :: r -> Z.land b0 0xF0 = PDUTypeConfirmedRequest ->
  decodeConfirmedRequest d = Ret a -> apdu_wire d a.
Proof.
  unfold decodeConfirmedRequest. intros -> Hb0.
  destruct r as [|b1 [|id [|svc r]]]; [discriminate..|]. wire_eval. cbn [Segmented].
  destruct (flag b0 0x08) eqn:Hseg; [|intros [= <-]; by constructor].
  destruct r as [|sequence [|window r]]; [discriminate..|]. wire_eval.
  intros [= <-]. by constructor.
Qed.

Lemma decodeComplexAck_exact d a b0 r :
  d = b0 :: r -> Z.land b0 0xF0 = PDUTypeComplexAck ->
  decodeComplexAck d = Ret a -> apdu_wire d a.
Proof.
  unfold decodeComplexAck. intros -> Hb0.
  destruct r as [|id [|svc r]]; [discriminate..|]. wire_eval. cbn [Segmented].
  destruct (flag b0 0x08) eqn:Hseg; [|intros [= <-]; by constructor].
  destruct r as [|sequence [|window r]]; [discriminate..|]. wire_eval.
  intros [= <-]. by constructor.
Qed.

Lemma DecodeAPDU_sound d a : DecodeAPDU d = Ret a -> apdu_wire d a.
Proof.
  unfold DecodeAPDU. destruct d as [|b0 r]; [discriminate|]. wire_eval.
  destruct (Z.eqb_spec (Z.land b0 0xF0) PDUTypeConfirmedRequest);
    [by eapply decodeConfirmedRequest_exact|].
  destruct (Z.eqb_spec (Z.land b0 0xF0) PDUTypeUnconfirmedRequest).
  { unfold decodeUnconfirmedRequest. destruct r as [|svc r]; [discriminate|].
    wire_eval. intros [= <-]. by constructor. }
  destruct (Z.eqb_spec (Z.land b0 0xF0) PDUTypeSimpleAck).
  { unfold decodeSimpleAck. destruct r as [|id [|svc r]]; [discriminate..|].
    wire_eval. intros [= <-]. by constructor. }
  destruct (Z.eqb_spec (Z.land b0 0xF0) PDUTypeComplexAck);
    [by eapply decodeComplexAck_exact|].
  unfold decodeErrorAPDU, decodeRejectAPDU, decodeAbortAPDU.
  destruct (Z.eqb_spec (Z.land b0 0xF0) PDUTypeError);
    [|destruct (Z.eqb_spec (Z.land b0 0xF0) PDUTypeReject);
    [|destruct (Z.eqb_spec (Z.land b0 0xF0) PDUTypeAbort); [|discriminate]]];
    (destruct r as [|id [|svc r]]; [discriminate..|]); wire_eval; intros [= <-]; by constructor.
Qed.

Lemma DecodeAPDU_complete d a : apdu_wire d a -> DecodeAPDU d = Ret a.
Proof.
  intros H. destruct H; unfold DecodeAPDU; wire_eval;
    match goal with Ht : Z.land ?b 0xF0 = _ |- _ => rewrite Ht end;
    cbn [Z.eqb Pos.eqb PDUTypeConfirmedRequest PDUTypeUnconfirmedRequest PDUTypeSimpleAck
         PDUTypeComplexAck PDUTypeError PDUTypeReject PDUTypeAbort];
    unfold decodeConfirmedRequest, decodeUnconfirmedRequest, decodeSimpleAck, decodeComplexAck,
      decodeErrorAPDU, decodeRejectAPDU, decodeAbortAPDU; wire_eval; try done;
    match goal with Hf : flag ?b 0x08 = _ |- _ => cbn [Segmented]; rewrite Hf end; wire_eval; done.
Qed.


(** C35. A request the client encodes decodes to the same request: invoke id,
    service, parameters and data survive, for every 3-bit segment code and
    4-bit APDU-size code; the PDU is never marked segmented. *)
Theorem EncodeRequest_roundtrip id svc data maxSegments maxAPDU :
  is_byte id -> is_byte svc -> 0 <= maxSegments < 8 -> 0 <= maxAPDU < 16 ->
  DecodeAPDU (EncodeConfirmedRequest id svc data maxSegments maxAPDU) =
    Ret {| APDU_Type := PDUTypeConfirmedRequest; Segmented := false; MoreFollows := false;
           MaxSegments := maxSegments; MaxAPDU := maxAPDU; InvokeID := id;
           SequenceNum := 0; WindowSize := 0; Service := svc; APDU_Data := data |} /\
  DecodeAPDU (EncodeUnconfirmedRequest svc data) =
    Ret (plain_apdu PDUTypeUnconfirmedRequest 0 svc data).
Proof.
  unfold is_byte. intros Hid Hsvc Hs Ha. split; apply DecodeAPDU_complete.
  - unfold EncodeConfirmedRequest. cbn [app].
    assert (u8 (Z.shiftl maxSegments 4) = Z.shiftl maxSegments 4) as ->
      by (apply uint_small; rewrite Z.shiftl_mul_pow2; lia).
    rewrite (uint_small 8 svc) by lia. rewrite lor_shiftl by lia.
    set (b1 := maxSegments * 2 ^ 4 + maxAPDU).
    assert (maxSegments = Z.land (Z.shiftr b1 4) 0x07) as E1.
    { change 0x07 with (Z.ones 3). rewrite Z.land_ones, Z.shiftr_div_pow2 by lia. subst b1. div_lia. }
    assert (maxAPDU = Z.land b1 0x0F) as E2.
    { change 0x0F with (Z.ones 4). rewrite Z.land_ones by lia. subst b1. div_lia. }
    rewrite E1, E2 at 1. by constructor.
  - unfold EncodeUnconfirmedRequest. cbn [app]. rewrite (uint_small 8 svc) by lia. by constructor.
Qed.

Lemma EncodeRequest_roundtrip_witness :
  DecodeAPDU (EncodeConfirmedRequest 7 ServiceReadProperty [0x0C; 0; 0; 0; 1; 0x19; 85] 0 5) =
    Ret {| APDU_Type := PDUTypeConfirmedRequest; Segmented := false; MoreFollows := false;
           MaxSegments := 0; MaxAPDU := 5; InvokeID := 7;
           SequenceNum := 0; WindowSize := 0; Service := ServiceReadProperty;
           APDU_Data := [0x0C; 0; 0; 0; 1; 0x19; 85] |}.
Proof. apply (EncodeRequest_roundtrip 7 ServiceReadProperty); vm_compute; intuition discriminate. Defined.
