(* ===== verification/Tags.v ===== *)
(** * Tags and scalar encodings ([protocol.go], [types.go])

    The tag header codec, the encoders of the primitive types with their
    application and context tagged forms, and the primitive decoders.  A
    [float32] / [float64] is its IEEE-754 bit pattern, which is what
    [math.Float32bits] and [math.Float32frombits] convert to and from.  Go's
    [int] is 64 bits wide; every [int] of this file stays far below that
    ([DecodeTagNumber_safe]). *)

From S2P Require Import Prelude Enums Errors.

(** ** Object identifiers *)

(** [ObjectIdentifier] *)
Record ObjectIdentifier := { OID_Type : Z; OID_Instance : Z }.

#[export] Instance ObjectIdentifier_eq_dec : EqDecision ObjectIdentifier.
Proof. solve_decision. Defined.
#[export] Instance ObjectIdentifier_countable : Countable ObjectIdentifier.
Proof.
  refine (inj_countable' (fun o => (OID_Type o, OID_Instance o))
    (fun p => {| OID_Type := p.1; OID_Instance := p.2 |}) _). by intros [].
Defined.

Definition NewObjectIdentifier (objectType instance : Z) : ObjectIdentifier :=
  {| OID_Type := objectType; OID_Instance := instance |}.

(** [ObjectIdentifier.Encode] *)
Definition OID_Encode (o : ObjectIdentifier) : Z :=
  Z.lor (u32 (Z.shiftl (u32 (OID_Type o)) 22)) (Z.land (OID_Instance o) 0x3FFFFF).

Definition DecodeObjectIdentifier (value : Z) : ObjectIdentifier :=
  {| OID_Type := u16 (Z.land (Z.shiftr value 22) 0x3FF);
     OID_Instance := Z.land value 0x3FFFFF |}.

(** [ObjectIdentifier.String] *)
Definition OID_String (o : ObjectIdentifier) : string :=
  ObjectType_String (OID_Type o) +:+ ":" +:+ dec (OID_Instance o).

(** ** Tag headers *)

Definition EncodeTag (tagNum class length : Z) : bytes :=
  if (length <? 5) && (tagNum <? 15) then
    [Z.lor (Z.lor (u8 (Z.shiftl tagNum 4)) (u8 (Z.shiftl (u8 class) 3))) (u8 length)]
  else
    (if 15 <=? tagNum
     then [Z.lor 0xF0 (u8 (Z.shiftl (u8 class) 3))] ++ [tagNum]
     else [Z.lor (Z.lor (u8 (Z.shiftl tagNum 4)) (u8 (Z.shiftl (u8 class) 3))) 0x05]) ++
    (if 5 <=? length then
       if length <? 254 then [u8 length]
       else if length <? 65536 then [254] ++ [u8 (Z.shiftr length 8); u8 length]
       else [255] ++ [u8 (Z.shiftr length 24); u8 (Z.shiftr length 16);
                      u8 (Z.shiftr length 8); u8 length]
     else []).

Definition EncodeContextTag (tagNum : Z) (data : bytes) : bytes :=
  EncodeTag tagNum TagClassContext (len data) ++ data.

Definition EncodeOpeningTag (tagNum : Z) : bytes :=
  if tagNum <? 15 then [Z.lor (u8 (Z.shiftl tagNum 4)) 0x0E] else [0xFE; tagNum].

Definition EncodeClosingTag (tagNum : Z) : bytes :=
  if tagNum <? 15 then [Z.lor (u8 (Z.shiftl tagNum 4)) 0x0F] else [0xFF; tagNum].

(** The results of [DecodeTagNumber]; [Length] is -1 for an opening and -2 for
    a closing tag. *)
Record TagHeader := { TagNum : Z; Class : Z; Length : Z; HeaderLen : Z }.

Definition DecodeTagNumber (data : bytes) : go TagHeader :=
  if len data <? 1 then Err ErrInvalidAPDU
  else
    let! b0 := idx data 0 in
    let tagNum := Z.land (Z.shiftr b0 4) 0x0F in
    let class := Z.land (Z.shiftr b0 3) 0x01 in
    let length := Z.land b0 0x07 in
    let! '(tagNum, headerLen) :=
      (if tagNum =? 0x0F then
         if len data <? 2 then Err ErrInvalidAPDU
         else let! t := idx data 1 in Ret (t, 2)
       else Ret (tagNum, 1)) in
    if (class =? TagClassContext) && (Z.land b0 0x07 =? 0x06) then
      Ret {| TagNum := tagNum; Class := class; Length := -1; HeaderLen := headerLen |}
    else if (class =? TagClassContext) && (Z.land b0 0x07 =? 0x07) then
      Ret {| TagNum := tagNum; Class := class; Length := -2; HeaderLen := headerLen |}
    else if length =? 5 then
      if len data <? headerLen + 1 then Err ErrInvalidAPDU
      else
        let! e := idx data headerLen in
        if e <? 254 then
          Ret {| TagNum := tagNum; Class := class; Length := e; HeaderLen := headerLen + 1 |}
        else if e =? 254 then
          if len data <? headerLen + 3 then Err ErrInvalidAPDU
          else
            let! s := slice_from data (headerLen + 1) in
            let! l := be16 s in
            Ret {| TagNum := tagNum; Class := class; Length := l; HeaderLen := headerLen + 3 |}
        else
          if len data <? headerLen + 5 then Err ErrInvalidAPDU
          else
            let! s := slice_from data (headerLen + 1) in
            let! l := be32 s in
            Ret {| TagNum := tagNum; Class := class; Length := l; HeaderLen := headerLen + 5 |}
    else Ret {| TagNum := tagNum; Class := class; Length := length; HeaderLen := headerLen |}.

(** ** Encoders of the primitive types *)

Definition EncodeUnsigned (value : Z) : bytes :=
  if value <? 0x100 then [u8 value]
  else if value <? 0x10000 then [u8 (Z.shiftr value 8); u8 value]
  else if value <? 0x1000000 then [u8 (Z.shiftr value 16); u8 (Z.shiftr value 8); u8 value]
  else [u8 (Z.shiftr value 24); u8 (Z.shiftr value 16); u8 (Z.shiftr value 8); u8 value].

Definition EncodeUnsignedTag (value : Z) : bytes :=
  let data := EncodeUnsigned value in
  EncodeTag TagUnsignedInt TagClassApplication (len data) ++ data.

Definition EncodeContextUnsigned (tagNum value : Z) : bytes :=
  EncodeContextTag tagNum (EncodeUnsigned value).

Definition EncodeSigned (value : Z) : bytes :=
  if (-128 <=? value) && (value <? 128) then [u8 value]
  else if (-32768 <=? value) && (value <? 32768) then [u8 (Z.shiftr value 8); u8 value]
  else if (-8388608 <=? value) && (value <? 8388608)
  then [u8 (Z.shiftr value 16); u8 (Z.shiftr value 8); u8 value]
  else [u8 (Z.shiftr value 24); u8 (Z.shiftr value 16); u8 (Z.shiftr value 8); u8 value].

Definition EncodeReal (bits : Z) : bytes :=
  [u8 (Z.shiftr bits 24); u8 (Z.shiftr bits 16); u8 (Z.shiftr bits 8); u8 bits].

Definition EncodeRealTag (bits : Z) : bytes :=
  EncodeTag TagReal TagClassApplication 4 ++ EncodeReal bits.

Definition EncodeDouble (bits : Z) : bytes := put_be64 bits.

Definition EncodeBooleanTag (value : bool) : bytes := if value then [0x11] else [0x10].

Definition EncodeContextBoolean (tagNum : Z) (value : bool) : bytes :=
  EncodeContextTag tagNum [if value then 1 else 0].

Definition EncodeEnumerated (value : Z) : bytes := EncodeUnsigned value.

Definition EncodeEnumeratedTag (value : Z) : bytes :=
  let data := EncodeEnumerated value in
  EncodeTag TagEnumerated TagClassApplication (len data) ++ data.

Definition EncodeContextEnumerated (tagNum value : Z) : bytes :=
  EncodeContextTag tagNum (EncodeEnumerated value).

Definition EncodeObjectIdentifier (oid : ObjectIdentifier) : bytes :=
  let value := OID_Encode oid in
  [u8 (Z.shiftr value 24); u8 (Z.shiftr value 16); u8 (Z.shiftr value 8); u8 value].

Definition EncodeObjectIdentifierTag (oid : ObjectIdentifier) : bytes :=
  EncodeTag TagObjectID TagClassApplication 4 ++ EncodeObjectIdentifier oid.

Definition EncodeContextObjectIdentifier (tagNum : Z) (oid : ObjectIdentifier) : bytes :=
  EncodeContextTag tagNum (EncodeObjectIdentifier oid).

(** A Go string is its bytes. *)
Definition EncodeCharacterString (s : bytes) : bytes := [0] ++ s.

Definition EncodeCharacterStringTag (s : bytes) : bytes :=
  let data := EncodeCharacterString s in
  EncodeTag TagCharacterString TagClassApplication (len data) ++ data.

(** ** Decoders of the primitive types *)

Definition DecodeUnsigned (data : bytes) : go Z :=
  if len data =? 1 then let! b0 := idx data 0 in Ret b0
  else if len data =? 2 then be16 data
  else if len data =? 3 then
    let! b0 := idx data 0 in
    let! b1 := idx data 1 in
    let! b2 := idx data 2 in
    Ret (Z.lor (Z.lor (Z.shiftl b0 16) (Z.shiftl b1 8)) b2)
  else if len data =? 4 then be32 data
  else Ret 0.

Definition DecodeSigned (data : bytes) : go Z :=
  if len data =? 1 then let! b0 := idx data 0 in Ret (s8 b0)
  else if len data =? 2 then let! v := be16 data in Ret (s16 v)
  else if len data =? 3 then
    let! b0 := idx data 0 in
    let! b1 := idx data 1 in
    let! b2 := idx data 2 in
    let v := Z.lor (Z.lor (Z.shiftl b0 16) (Z.shiftl b1 8)) b2 in
    let v := if flag b0 0x80 then Z.lor v 0xFF000000 else v in
    Ret (s32 v)
  else if len data =? 4 then let! v := be32 data in Ret (s32 v)
  else Ret 0.

(** The result is a bit pattern; 0 is the float 0. *)
Definition DecodeReal (data : bytes) : go Z := if negb (len data =? 4) then Ret 0 else be32 data.

Definition DecodeDouble (data : bytes) : go Z := if negb (len data =? 8) then Ret 0 else be64 data.

Definition DecodeObjectIdentifierFromBytes (data : bytes) : go ObjectIdentifier :=
  if negb (len data =? 4) then Ret {| OID_Type := 0; OID_Instance := 0 |}
  else let! value := be32 data in Ret (DecodeObjectIdentifier value).

(** The unexported helpers of [types.go]: writing needs room in the buffer. *)
Definition encodeUint16 (buf : bytes) (v : Z) : go bytes :=
  let! _ := idx buf 1 in Ret (put_be16 v ++ drop 2 buf).

Definition encodeUint32 (buf : bytes) (v : Z) : go bytes :=
  let! _ := idx buf 3 in
  Ret ([u8 (Z.shiftr v 24); u8 (Z.shiftr v 16); u8 (Z.shiftr v 8); u8 v] ++ drop 4 buf).

Definition decodeUint16 (buf : bytes) : go Z := be16 buf.
Definition decodeUint32 (buf : bytes) : go Z := be32 buf.

(** ** Bounds of the tag decoder *)

Lemma land_ones_range a n : 0 <= n -> 0 <= Z.land a (Z.ones n) < 2 ^ n.
Proof. intros. rewrite Z.land_ones by done. apply Z.mod_pos_bound. lia. Qed.

Definition header_ok (d : bytes) (h : TagHeader) : Prop :=
  1 <= HeaderLen h <= len d /\ HeaderLen h <= 7 /\ -2 <= Length h < 2 ^ 32 /\
  is_byte (TagNum h) /\ (Class h = TagClassApplication \/ Class h = TagClassContext) /\
  (Length h < 0 -> Class h = TagClassContext).

Lemma DecodeTagNumber_safe d : wf_bytes d -> safely (DecodeTagNumber d) (header_ok d).
Proof.
  intros Hwf. unfold DecodeTagNumber. go_step; [done|]. go_step.
  match goal with b : Z |- _ => rename b into b0 end.
  assert (0 <= Z.land (Z.shiftr b0 4) 0x0F < 16) by (apply (land_ones_range _ 4); lia).
  assert (0 <= Z.land (Z.shiftr b0 3) 0x01 < 2) by (apply (land_ones_range _ 1); lia).
  assert (0 <= Z.land b0 0x07 < 8) by (apply (land_ones_range _ 3); lia).
  eapply safely_bind with (P := fun r : Z * Z => 1 <= r.2 <= 2 /\ r.2 <= len d /\ is_byte r.1).
  { go_safe; unfold is_byte in *; cbn [fst snd]; lia. }
  intros [t hl]; cbn [fst snd]; intros (Hhl & Hd & Ht).
  unfold header_ok, TagClassApplication, TagClassContext, is_byte in *.
  go_safe; cbn [TagNum Class Length HeaderLen]; lia.
Qed.

#[export] Hint Extern 1 (safely (DecodeTagNumber _) _) =>
  apply DecodeTagNumber_safe; auto with wf : go_safe.

(** ** Round trip of the tag header *)

(** The fields of a first octet. *)
Definition octet_fields (b : Z) : Z * Z * Z :=
  (Z.land (Z.shiftr b 4) 0x0F, Z.land (Z.shiftr b 3) 0x01, Z.land b 0x07).

Definition tag_octet (t c k : Z) : Z :=
  Z.lor (Z.lor (u8 (Z.shiftl t 4)) (u8 (Z.shiftl (u8 c) 3))) k.

Lemma tag_octet_fields t c k :
  0 <= t < 16 -> 0 <= c < 2 -> 0 <= k < 8 ->
  octet_fields (tag_octet t c k) = (t, c, k) /\ is_byte (tag_octet t c k).
Proof.
  intros Ht Hc Hk.
  pose (ok t c k := bool_decide (octet_fields (tag_octet t c k) = (t, c, k)) &&
                    (0 <=? tag_octet t c k) && (tag_octet t c k <? 256)).
  assert (forallb (fun c => forallb (fun k => ok t (Z.of_nat c) (Z.of_nat k)) (seq 0 8)) (seq 0 2) = true)
    as H by (revert t Ht; apply (forall_range 16); vm_compute; reflexivity).
  pose proof (forall_range 2 (fun c => forallb (fun k => ok t c (Z.of_nat k)) (seq 0 8)) H c Hc) as H'.
  pose proof (forall_range 8 (ok t c) H' k Hk) as H''. unfold ok, is_byte in *.
  rewrite !andb_true_iff, bool_decide_eq_true in H''. destruct H'' as [[? ?] ?]. split; [done|lia].
Qed.

(** The octets that announce a length. *)
Definition length_octets (n : Z) : bytes :=
  if 5 <=? n then
    if n <? 254 then [u8 n]
    else if n <? 65536 then [254] ++ [u8 (Z.shiftr n 8); u8 n]
    else [255] ++ [u8 (Z.shiftr n 24); u8 (Z.shiftr n 16); u8 (Z.shiftr n 8); u8 n]
  else [].

Lemma EncodeTag_short t c n :
  0 <= t < 15 -> 0 <= n -> EncodeTag t c n = tag_octet t c (Z.min n 5) :: length_octets n.
Proof.
  intros Ht Hn. unfold EncodeTag, length_octets, tag_octet.
  replace (t <? 15) with true by lia. replace (15 <=? t) with false by lia.
  rewrite andb_true_r. destruct (Z.ltb_spec n 5).
  - replace (5 <=? n) with false by lia. rewrite Z.min_l by lia.
    by rewrite (uint_small 8 n) by lia.
  - replace (5 <=? n) with true by lia. by rewrite Z.min_r by lia.
Qed.

Lemma wf_length_octets n : wf_bytes (length_octets n).
Proof.
  unfold length_octets. repeat case_match; cbn [app]; repeat first
    [apply List.Forall_nil | apply Forall_cons; split]; try apply u8_byte; unfold is_byte; lia.
Qed.

Lemma wf_EncodeTag t c n : 0 <= t < 15 -> 0 <= c < 2 -> 0 <= n -> wf_bytes (EncodeTag t c n).
Proof.
  intros Ht Hc Hn. rewrite EncodeTag_short by done. constructor; [|apply wf_length_octets].
  apply tag_octet_fields; lia.
Qed.

Lemma EncodeTag_long t c n :
  15 <= t -> EncodeTag t c n = tag_octet 15 c 0 :: t :: length_octets n.
Proof.
  intros Ht. unfold EncodeTag, length_octets, tag_octet.
  replace (t <? 15) with false by lia. replace (15 <=? t) with true by lia.
  rewrite andb_false_r, Z.lor_0_r. done.
Qed.

Lemma be32_octets {E} n r :
  0 <= n < 2 ^ 32 ->
  @be32 E ([u8 (Z.shiftr n 24); u8 (Z.shiftr n 16); u8 (Z.shiftr n 8); u8 n] ++ r) = Ret n.
Proof.
  intros. cbn [app]. rewrite be32_eq by apply u8_byte. f_equal.
  rewrite !u8_shiftr by lia. unfold uint. div_lia.
Qed.

Definition is_class (c : Z) : Prop := c = TagClassApplication \/ c = TagClassContext.

Lemma DecodeTagNumber_EncodeTag t c n r :
  0 <= t < 15 -> is_class c -> 0 <= n < 2 ^ 32 ->
  DecodeTagNumber (EncodeTag t c n ++ r) =
  Ret {| TagNum := t; Class := c; Length := n; HeaderLen := len (EncodeTag t c n) |}.
Proof.
  intros Ht Hc Hn. rewrite EncodeTag_short by lia.
  assert (0 <= c < 2) as Hc' by (unfold is_class, TagClassApplication, TagClassContext in Hc; lia).
  destruct (tag_octet_fields t c (Z.min n 5)) as [[= E1 E2 E3] _]; [lia..|].
  unfold DecodeTagNumber. rewrite <- app_comm_cons.
  replace (len _ <? 1) with false by len_lia. rewrite idx_cons_0. cbn [obind].
  rewrite E1, E2, E3. replace (t =? 0x0F) with false by lia. cbn [obind].
  replace (Z.min n 5 =? 6) with false by lia. replace (Z.min n 5 =? 7) with false by lia.
  rewrite !andb_false_r. unfold length_octets.
  destruct (Z.eqb_spec (Z.min n 5) 5) as [H5|H5]; cycle 1.
  { replace (5 <=? n) with false by lia. do 2 f_equal; len_lia. }
  replace (5 <=? n) with true by lia.
  destruct (Z.ltb_spec n 254); [|destruct (Z.ltb_spec n 65536)].
  - replace (len _ <? _) with false by len_lia. rewrite idx_in by len_lia. nat_literals. cbn [nth app obind].
    rewrite uint_small by lia. by replace (n <? 254) with true by lia.
  - replace (len _ <? _) with false by len_lia. rewrite idx_in by len_lia. nat_literals. cbn [nth app obind].
    cbn [Z.ltb Z.eqb Z.compare Pos.compare Pos.compare_cont Pos.eqb].
    replace (len _ <? _) with false by len_lia.
    rewrite slice_from_in by len_lia. change (Z.to_nat (1 + 1)) with 2%nat. cbn [drop obind].
    change (u8 (Z.shiftr n 8) :: u8 n :: r) with (put_be16 n ++ r). by rewrite be16_put by lia.
  - replace (len _ <? _) with false by len_lia. rewrite idx_in by len_lia. nat_literals. cbn [nth app obind].
    cbn [Z.ltb Z.eqb Z.compare Pos.compare Pos.compare_cont Pos.eqb].
    replace (len _ <? _) with false by len_lia.
    rewrite slice_from_in by len_lia. change (Z.to_nat (1 + 1)) with 2%nat. cbn [drop obind].
    pose proof (be32_octets (E:=error) n r ltac:(lia)) as Hb. cbn [app] in Hb. by rewrite Hb.
Qed.

Lemma DecodeTagNumber_EncodeOpeningTag t r :
  is_byte t ->
  DecodeTagNumber (EncodeOpeningTag t ++ r) =
  Ret {| TagNum := t; Class := TagClassContext; Length := -1; HeaderLen := len (EncodeOpeningTag t) |}.
Proof.
  unfold is_byte, EncodeOpeningTag. intros Ht. destruct (Z.ltb_spec t 15).
  - assert (Z.lor (u8 (Z.shiftl t 4)) 0x0E = tag_octet t 1 6) as E
      by (unfold tag_octet; rewrite <- Z.lor_assoc; reflexivity).
    rewrite E. destruct (tag_octet_fields t 1 6) as [[= E1 E2 E3] _]; [lia..|].
    unfold DecodeTagNumber. cbn [app]. replace (len _ <? 1) with false by len_lia.
    rewrite idx_cons_0. cbn [obind]. rewrite E1, E2, E3.
    by replace (t =? 0x0F) with false by lia.
  - unfold DecodeTagNumber. cbn [app]. replace (len _ <? 1) with false by len_lia.
    rewrite idx_cons_0. cbn -[len idx]. replace (len _ <? 2) with false by len_lia.
    rewrite idx_in by len_lia. done.
Qed.

Lemma DecodeTagNumber_EncodeClosingTag t r :
  is_byte t ->
  DecodeTagNumber (EncodeClosingTag t ++ r) =
  Ret {| TagNum := t; Class := TagClassContext; Length := -2; HeaderLen := len (EncodeClosingTag t) |}.
Proof.
  unfold is_byte, EncodeClosingTag. intros Ht. destruct (Z.ltb_spec t 15).
  - assert (Z.lor (u8 (Z.shiftl t 4)) 0x0F = tag_octet t 1 7) as E
      by (unfold tag_octet; rewrite <- Z.lor_assoc; reflexivity).
    rewrite E. destruct (tag_octet_fields t 1 7) as [[= E1 E2 E3] _]; [lia..|].
    unfold DecodeTagNumber. cbn [app]. replace (len _ <? 1) with false by len_lia.
    rewrite idx_cons_0. cbn [obind]. rewrite E1, E2, E3.
    by replace (t =? 0x0F) with false by lia.
  - unfold DecodeTagNumber. cbn [app]. replace (len _ <? 1) with false by len_lia.
    rewrite idx_cons_0. cbn -[len idx]. replace (len _ <? 2) with false by len_lia.
    rewrite idx_in by len_lia. done.
Qed.

(** C28. Tag headers round trip: for every tag number below 15, both classes
    and every 32-bit length, in each of the four length forms, decoding what
    [EncodeTag] wrote gives tag, class, length and the exact header length
    whatever follows; opening and closing tags do so for all 256 tag numbers. *)
Theorem EncodeTag_roundtrip t c n u r :
  0 <= t < 15 -> is_class c -> 0 <= n < 2 ^ 32 -> is_byte u ->
  DecodeTagNumber (EncodeTag t c n ++ r) =
    Ret {| TagNum := t; Class := c; Length := n; HeaderLen := len (EncodeTag t c n) |} /\
  DecodeTagNumber (EncodeOpeningTag u ++ r) =
    Ret {| TagNum := u; Class := TagClassContext; Length := -1; HeaderLen := len (EncodeOpeningTag u) |} /\
  DecodeTagNumber (EncodeClosingTag u ++ r) =
    Ret {| TagNum := u; Class := TagClassContext; Length := -2; HeaderLen := len (EncodeClosingTag u) |}.
Proof.
  intros. split_and!;
    [by apply DecodeTagNumber_EncodeTag|by apply DecodeTagNumber_EncodeOpeningTag|
     by apply DecodeTagNumber_EncodeClosingTag].
Qed.

Lemma EncodeTag_roundtrip_witness :
  DecodeTagNumber (EncodeTag 7 TagClassApplication 300 ++ [1; 2]) =
    Ret {| TagNum := 7; Class := TagClassApplication; Length := 300; HeaderLen := 4 |}.
Proof.
  apply (EncodeTag_roundtrip 7 TagClassApplication 300 200 [1; 2]);
    unfold is_class, is_byte; try lia; by left.
Defined.

(** The extended tag form loses the length: for tag numbers 15 and above
    [EncodeTag] leaves the length nibble of the first octet 0, so the header
    decodes as the tag with length 0 and a two-octet header, whatever length
    was given; any length octets are left in front of the payload. *)
Theorem EncodeTag_extended_loses_length t c n r :
  15 <= t < 256 -> is_class c -> 0 <= n ->
  DecodeTagNumber (EncodeTag t c n ++ r) =
  Ret {| TagNum := t; Class := c; Length := 0; HeaderLen := 2 |}.
Proof.
  intros Ht Hc Hn. rewrite EncodeTag_long by lia.
  assert (0 <= c < 2) as Hc' by (unfold is_class, TagClassApplication, TagClassContext in Hc; lia).
  destruct (tag_octet_fields 15 c 0) as [[= E1 E2 E3] _]; [lia..|].
  unfold DecodeTagNumber. cbn [app]. replace (len _ <? 1) with false by len_lia.
  rewrite idx_cons_0. cbn [obind]. rewrite E1, E2, E3.
  cbn [Z.eqb Pos.eqb]. replace (len _ <? 2) with false by len_lia.
  rewrite idx_in by len_lia. nat_literals. cbn [nth obind].
  by rewrite !andb_false_r.
Qed.

Lemma EncodeTag_extended_loses_length_witness :
  EncodeTag 20 TagClassContext 3 = [0xF8; 20] /\
  DecodeTagNumber (EncodeTag 20 TagClassContext 3 ++ [1; 2; 3]) =
    Ret {| TagNum := 20; Class := TagClassContext; Length := 0; HeaderLen := 2 |}.
Proof.
  split; [reflexivity|].
  apply (EncodeTag_extended_loses_length 20 TagClassContext 3); [lia|by right|lia].
Defined.

(** ** Round trips of the primitive types *)

Lemma three_octets a b c :
  is_byte a -> is_byte b -> is_byte c ->
  Z.lor (Z.lor (Z.shiftl a 16) (Z.shiftl b 8)) c = (a * 256 + b) * 256 + c.
Proof.
  unfold is_byte. intros. rewrite <- Z.lor_assoc, (lor_shiftl b c), lor_shiftl by lia. lia.
Qed.

Lemma DecodeUnsigned_EncodeUnsigned v : 0 <= v < 2 ^ 32 -> DecodeUnsigned (EncodeUnsigned v) = Ret v.
Proof.
  intros Hv. unfold EncodeUnsigned, DecodeUnsigned.
  destruct (Z.ltb_spec v 0x100); [|destruct (Z.ltb_spec v 0x10000); [|destruct (Z.ltb_spec v 0x1000000)]];
    [change (len _) with 1|change (len _) with 2|change (len _) with 3|change (len _) with 4];
    cbn [Z.eqb Pos.eqb].
  - rewrite idx_cons_0. cbn [obind]. by rewrite uint_small by lia.
  - change [u8 (Z.shiftr v 8); u8 v] with (put_be16 v). rewrite <- (app_nil_r (put_be16 v)).
    by rewrite be16_put by lia.
  - idx_eval. rewrite three_octets by apply u8_byte.
    rewrite !u8_shiftr by lia. unfold uint. f_equal. div_lia.
  - rewrite <- (app_nil_r [_; _; _; _]). apply be32_octets. lia.
Qed.

(** The number of octets [EncodeUnsigned] uses. *)
Lemma len_EncodeUnsigned v :
  0 <= v < 2 ^ 32 -> 1 <= len (EncodeUnsigned v) <= 4 /\ v < 256 ^ len (EncodeUnsigned v) /\
  (forall n, 1 <= n < len (EncodeUnsigned v) -> 256 ^ n <= v).
Proof.
  intros Hv. unfold EncodeUnsigned.
  destruct (Z.ltb_spec v 0x100); [|destruct (Z.ltb_spec v 0x10000); [|destruct (Z.ltb_spec v 0x1000000)]];
    [change (len _) with 1|change (len _) with 2|change (len _) with 3|change (len _) with 4].
  - split_and!; try lia.
  - split_and!; try lia. intros n Hn. assert (n = 1) as -> by lia. lia.
  - split_and!; try lia. intros n Hn. assert (n = 1 \/ n = 2) as [-> | ->] by lia; lia.
  - split_and!; try lia. intros n Hn. assert (n = 1 \/ n = 2 \/ n = 3) as [->|[->| ->]] by lia; lia.
Qed.

Lemma wf_EncodeUnsigned v : wf_bytes (EncodeUnsigned v).
Proof. unfold EncodeUnsigned. repeat case_match; repeat constructor; apply u8_byte. Qed.

(** Unsigned integers round trip on all of [uint32] (an enumerated value
    is encoded the same way), and the encoding is the shortest: it fits the
    octets used and would not fit fewer. *)
Theorem EncodeUnsigned_roundtrip v :
  0 <= v < 2 ^ 32 ->
  DecodeUnsigned (EncodeUnsigned v) = Ret v /\
  1 <= len (EncodeUnsigned v) <= 4 /\ v < 256 ^ len (EncodeUnsigned v) /\
  (forall n, 1 <= n < len (EncodeUnsigned v) -> 256 ^ n <= v).
Proof. intros. split; [by apply DecodeUnsigned_EncodeUnsigned|by apply len_EncodeUnsigned]. Qed.

Lemma EncodeUnsigned_roundtrip_witness :
  DecodeUnsigned (EncodeUnsigned 47808) = Ret 47808 /\ len (EncodeUnsigned 47808) = 2.
Proof. split; [apply EncodeUnsigned_roundtrip; lia|reflexivity]. Defined.

Lemma u8_eq v : u8 v = v mod 256.
Proof. reflexivity. Qed.

Lemma flag_sign b : is_byte b -> flag b 0x80 = (128 <=? b).
Proof.
  intros Hb. apply (forall_range 256 (fun b => bool_decide (flag b 0x80 = (128 <=? b)))) in Hb.
  - by apply bool_decide_eq_true in Hb.
  - vm_compute. reflexivity.
Qed.

Lemma DecodeSigned_EncodeSigned v :
  - 2 ^ 31 <= v < 2 ^ 31 -> DecodeSigned (EncodeSigned v) = Ret v.
Proof.
  intros Hv. unfold EncodeSigned, DecodeSigned.
  destruct ((-128 <=? v) && (v <? 128)) eqn:H1;
    [|destruct ((-32768 <=? v) && (v <? 32768)) eqn:H2;
    [|destruct ((-8388608 <=? v) && (v <? 8388608)) eqn:H3]];
    [change (len _) with 1|change (len _) with 2|change (len _) with 3|change (len _) with 4];
    cbn [Z.eqb Pos.eqb].
  - rewrite idx_cons_0. cbn [obind]. f_equal. unfold sint, uint. div_lia.
  - rewrite be16_eq by apply u8_byte. cbn [obind]. f_equal.
    rewrite u8_shiftr by lia. unfold sint, uint. div_lia.
  - idx_eval. rewrite flag_sign by apply u8_byte.
    rewrite !three_octets by apply u8_byte.
    pose proof (u8_byte (Z.shiftr v 16)) as Ha. pose proof (u8_byte (Z.shiftr v 8)) as Hb.
    pose proof (u8_byte v) as Hc. unfold is_byte in *.
    change 0xFF000000 with (Z.shiftl 255 24). rewrite lor_shiftl' by lia.
    rewrite !u8_shiftr in * by lia. rewrite u8_eq in *.
    destruct (Z.leb_spec 128 ((v / 2 ^ 16) mod 256)); f_equal; unfold sint; div_lia.
  - rewrite be32_eq by apply u8_byte. cbn [obind]. f_equal.
    rewrite !u8_shiftr by lia. unfold sint, uint. div_lia.
Qed.

(** Signed integers round trip on all of [int32], sign included, and the
    encoding is the shortest two's complement one: the value fits the octets
    used and would not fit fewer. *)
Theorem EncodeSigned_roundtrip v :
  - 2 ^ 31 <= v < 2 ^ 31 ->
  DecodeSigned (EncodeSigned v) = Ret v /\
  1 <= len (EncodeSigned v) <= 4 /\
  - 256 ^ len (EncodeSigned v) <= 2 * v < 256 ^ len (EncodeSigned v) /\
  (forall n, 1 <= n < len (EncodeSigned v) -> ~ - 256 ^ n <= 2 * v < 256 ^ n).
Proof.
  intros Hv. split; [by apply DecodeSigned_EncodeSigned|]. unfold EncodeSigned.
  destruct ((-128 <=? v) && (v <? 128)) eqn:H1;
    [|destruct ((-32768 <=? v) && (v <? 32768)) eqn:H2;
    [|destruct ((-8388608 <=? v) && (v <? 8388608)) eqn:H3]];
    [change (len _) with 1|change (len _) with 2|change (len _) with 3|change (len _) with 4].
  - split_and!; lia.
  - split_and!; try lia. intros n Hn. assert (n = 1) as -> by lia. lia.
  - split_and!; try lia. intros n Hn. assert (n = 1 \/ n = 2) as [-> | ->] by lia; lia.
  - split_and!; try lia. intros n Hn. assert (n = 1 \/ n = 2 \/ n = 3) as [->|[->| ->]] by lia; lia.
Qed.

Lemma EncodeSigned_roundtrip_witness :
  DecodeSigned (EncodeSigned (-129)) = Ret (-129) /\ EncodeSigned (-129) = [255; 127].
Proof. split; [apply EncodeSigned_roundtrip; lia|reflexivity]. Defined.

(** ** Object identifiers *)

Definition oid_ok (o : ObjectIdentifier) : Prop :=
  0 <= OID_Type o < 2 ^ 10 /\ 0 <= OID_Instance o < 2 ^ 22.

Lemma OID_Encode_eq o :
  0 <= OID_Type o < 2 ^ 16 ->
  OID_Encode o = (OID_Type o mod 2 ^ 10) * 2 ^ 22 + OID_Instance o mod 2 ^ 22.
Proof.
  intros Ht. unfold OID_Encode. rewrite (uint_small 32 (OID_Type o)) by lia.
  change 0x3FFFFF with (Z.ones 22). rewrite Z.land_ones by lia.
  assert (u32 (Z.shiftl (OID_Type o) 22) = Z.shiftl (OID_Type o mod 2 ^ 10) 22) as ->.
  { rewrite !Z.shiftl_mul_pow2 by lia. unfold uint. div_lia. }
  apply lor_shiftl; [lia|]. apply Z.mod_pos_bound. lia.
Qed.

Lemma DecodeObjectIdentifier_eq v :
  0 <= v < 2 ^ 32 ->
  DecodeObjectIdentifier v = {| OID_Type := v / 2 ^ 22; OID_Instance := v mod 2 ^ 22 |}.
Proof.
  intros Hv. unfold DecodeObjectIdentifier.
  change 0x3FF with (Z.ones 10). change 0x3FFFFF with (Z.ones 22).
  rewrite !Z.land_ones, Z.shiftr_div_pow2 by lia. f_equal. unfold uint. div_lia.
Qed.

Lemma OID_Encode_range o : 0 <= OID_Type o < 2 ^ 16 -> 0 <= OID_Encode o < 2 ^ 32.
Proof. intros. rewrite OID_Encode_eq by done. div_lia. Qed.

Lemma OID_Decode_Encode_mod o :
  0 <= OID_Type o < 2 ^ 16 ->
  DecodeObjectIdentifier (OID_Encode o) =
    {| OID_Type := OID_Type o mod 2 ^ 10; OID_Instance := OID_Instance o mod 2 ^ 22 |}.
Proof.
  intros Ht. rewrite DecodeObjectIdentifier_eq by by apply OID_Encode_range.
  rewrite OID_Encode_eq by done. f_equal; div_lia.
Qed.

Lemma OID_Decode_Encode o : oid_ok o -> DecodeObjectIdentifier (OID_Encode o) = o.
Proof.
  intros [Ht Hi]. rewrite OID_Decode_Encode_mod by lia. rewrite !Z.mod_small by done. by destruct o.
Qed.

Lemma DecodeObjectIdentifier_ok v : 0 <= v < 2 ^ 32 -> oid_ok (DecodeObjectIdentifier v).
Proof. intros. rewrite DecodeObjectIdentifier_eq by done. unfold oid_ok. cbn. div_lia. Qed.

Lemma OID_Encode_Decode v : 0 <= v < 2 ^ 32 -> OID_Encode (DecodeObjectIdentifier v) = v.
Proof.
  intros Hv. pose proof (DecodeObjectIdentifier_ok v Hv) as [Ht Hi].
  rewrite DecodeObjectIdentifier_eq in * by done. cbn in *.
  rewrite OID_Encode_eq by (cbn; lia). cbn. div_lia.
Qed.

(** C36. Object identifiers are packed without loss: encoding and decoding are
    inverse to each other between the identifiers with a 10-bit type and a
    22-bit instance and the 32-bit words.  Outside that range [Encode] keeps
    the low 10 bits of the type and the low 22 of the instance. *)
Theorem ObjectIdentifier_bijection o v :
  0 <= OID_Type o < 2 ^ 16 -> 0 <= OID_Instance o < 2 ^ 32 -> 0 <= v < 2 ^ 32 ->
  (oid_ok o -> DecodeObjectIdentifier (OID_Encode o) = o) /\
  (oid_ok (DecodeObjectIdentifier v) /\ OID_Encode (DecodeObjectIdentifier v) = v) /\
  0 <= OID_Encode o < 2 ^ 32 /\
  DecodeObjectIdentifier (OID_Encode o) =
    {| OID_Type := OID_Type o mod 2 ^ 10; OID_Instance := OID_Instance o mod 2 ^ 22 |}.
Proof.
  intros. split_and!; auto using OID_Decode_Encode, OID_Encode_Decode, OID_Decode_Encode_mod;
    try apply DecodeObjectIdentifier_ok; try apply OID_Encode_range; done.
Qed.

Lemma ObjectIdentifier_bijection_witness :
  OID_Encode {| OID_Type := 8; OID_Instance := 1234 |} = 0x020004D2 /\
  DecodeObjectIdentifier (OID_Encode {| OID_Type := 8; OID_Instance := 1234 |}) =
    {| OID_Type := 8; OID_Instance := 1234 |}.
Proof.
  split; [reflexivity|].
  apply (ObjectIdentifier_bijection {| OID_Type := 8; OID_Instance := 1234 |} 0);
    unfold oid_ok; cbn; lia.
Defined.
