(* ===== verification/Text.v ===== *)
(** * Character strings ([DecodeCharacterString] of [protocol.go])

    The character set switch, with the parts of Go's standard library it
    relies on: the conversion [string(runes)] (UTF-8, U+FFFD for an invalid
    rune) and [utf16.Decode] (U+FFFD for an unpaired surrogate).  A rune is an
    [int32]. *)

From S2P Require Import Prelude Enums Errors Tags.

Definition CharSetUTF8 : Z := 0.
Definition CharSetMSDBCS : Z := 1.
Definition CharSetJIS : Z := 2.
Definition CharSetUCS4 : Z := 3.
Definition CharSetUCS2 : Z := 4.
Definition CharSetISO88591 : Z := 5.

(** ** Go's text conversions *)

Definition replacementChar : Z := 0xFFFD.

(** A Unicode scalar value: what UTF-8 can encode. *)
Definition is_scalar (r : Z) : bool :=
  ((0 <=? r) && (r <? 0xD800)) || ((0xE000 <=? r) && (r <=? 0x10FFFF)).

(** UTF-8 of a scalar value. *)
Definition utf8_scalar (r : Z) : bytes :=
  if r <? 0x80 then [r]
  else if r <? 0x800 then [0xC0 + r / 64; 0x80 + r mod 64]
  else if r <? 0x10000 then [0xE0 + r / 4096; 0x80 + (r / 64) mod 64; 0x80 + r mod 64]
  else [0xF0 + r / 262144; 0x80 + (r / 4096) mod 64; 0x80 + (r / 64) mod 64; 0x80 + r mod 64].

Definition utf8_rune (r : Z) : bytes := utf8_scalar (if is_scalar r then r else replacementChar).

(** [string(runes)] *)
Definition utf8 (runes : list Z) : bytes := flat_map utf8_rune runes.

Definition is_high_surrogate (u : Z) : bool := (0xD800 <=? u) && (u <? 0xDC00).
Definition is_low_surrogate (u : Z) : bool := (0xDC00 <=? u) && (u <? 0xE000).

(** [utf16.Decode] *)
Fixpoint utf16_Decode (us : list Z) : list Z :=
  match us with
  | [] => []
  | u :: us' =>
      if (u <? 0xD800) || (0xE000 <=? u) then u :: utf16_Decode us'
      else
        match us' with
        | v :: us'' =>
            if is_high_surrogate u && is_low_surrogate v
            then ((u - 0xD800) * 1024 + (v - 0xDC00) + 0x10000) :: utf16_Decode us''
            else replacementChar :: utf16_Decode us'
        | [] => [replacementChar]
        end
  end.

(** ** The decoder *)

Definition DecodeCharacterString (data : bytes) : go bytes :=
  if len data <? 1 then Ret []
  else
    let! encoding := idx data 0 in
    let! payload := slice_from data 1 in
    if encoding =? CharSetUTF8 then Ret payload
    else if encoding =? CharSetUCS2 then
      let! payload :=
        (if Z.rem (len payload) 2 =? 1 then slice payload 0 (len payload - 1) else Ret payload) in
      let! u16s := for_range (fun i => let! s := slice_from payload (i * 2) in be16 s)
                     (Z.to_nat (len payload / 2)) 0 in
      Ret (utf8 (utf16_Decode u16s))
    else if encoding =? CharSetUCS4 then
      let! trimmed := slice payload 0 (len payload - Z.rem (len payload) 4) in
      let! runes := for_range (fun i => let! s := slice_from trimmed (i * 4) in
                                        let! v := be32 s in Ret (s32 v))
                      (Z.to_nat (len trimmed / 4)) 0 in
      Ret (utf8 runes)
    else if encoding =? CharSetISO88591 then Ret (utf8 payload)
    else Ret payload.

(** ** The loops read the payload in chunks *)

Fixpoint chunks16 (p : bytes) : list Z :=
  match p with
  | a :: b :: r => (a * 256 + b) :: chunks16 r
  | _ => []
  end.

Fixpoint chunks32 (p : bytes) : list Z :=
  match p with
  | a :: b :: c :: d :: r => (((a * 256 + b) * 256 + c) * 256 + d) :: chunks32 r
  | _ => []
  end.

Lemma for_range_16 {E} n : forall i pre q,
  len pre = i * 2 -> len q = 2 * Z.of_nat n -> wf_bytes q ->
  @for_range E _ (fun i => let! s := slice_from (pre ++ q) (i * 2) in be16 s) n i = Ret (chunks16 q).
Proof.
  induction n as [|n IH]; intros i pre q Hp Hq Hwf.
  { rewrite (len_zero_nil q) by lia. done. }
  assert (2 <= len q) as (a & q1 & -> & (b & r & -> & _)%len_ge_cons)%len_ge_cons by lia; [|lia..].
  apply Forall_cons in Hwf as [Ha [Hb Hwf]%Forall_cons]. cbn [for_range chunks16].
  rewrite <- Hp, slice_from_app. cbn [obind]. rewrite be16_eq by done. cbn [obind].
  replace (pre ++ a :: b :: r) with ((pre ++ [a; b]) ++ r) by by rewrite <- app_assoc.
  rewrite IH; [done|len_lia|len_lia|done].
Qed.

Lemma for_range_32 {E} n : forall i pre q,
  len pre = i * 4 -> len q = 4 * Z.of_nat n -> wf_bytes q ->
  @for_range E _ (fun i => let! s := slice_from (pre ++ q) (i * 4) in
                           let! v := be32 s in Ret (s32 v)) n i = Ret (s32 <$> chunks32 q).
Proof.
  induction n as [|n IH]; intros i pre q Hp Hq Hwf.
  { rewrite (len_zero_nil q) by lia. done. }
  assert (4 <= len q) as (a & q1 & -> & (b & q2 & -> & (c & q3 & -> & (d & r & -> & _)
    %len_ge_cons)%len_ge_cons)%len_ge_cons)%len_ge_cons by lia; [|lia..].
  apply Forall_cons in Hwf as [Ha [Hb [Hc [Hd Hwf]%Forall_cons]%Forall_cons]%Forall_cons].
  cbn [for_range chunks32].
  rewrite <- Hp, slice_from_app. cbn [obind]. rewrite be32_eq by done. cbn [obind].
  replace (pre ++ a :: b :: c :: d :: r) with ((pre ++ [a; b; c; d]) ++ r) by by rewrite <- app_assoc.
  rewrite IH; [done|len_lia|len_lia|done].
Qed.

(** What the decoder computes, without its loops and slices. *)
Definition decoded_text (encoding : Z) (payload : bytes) : bytes :=
  if encoding =? CharSetUCS2 then
    utf8 (utf16_Decode (chunks16 (take (Z.to_nat (len payload - len payload mod 2)) payload)))
  else if encoding =? CharSetUCS4 then
    utf8 (s32 <$> chunks32 (take (Z.to_nat (len payload - len payload mod 4)) payload))
  else if encoding =? CharSetISO88591 then utf8 payload
  else payload.

Lemma slice_0 {E} d n : 0 <= n <= len d -> @slice E d 0 n = Ret (take (Z.to_nat n) d).
Proof. intros. rewrite slice_in by lia. rewrite Z.sub_0_r. done. Qed.

Lemma DecodeCharacterString_eq encoding payload :
  wf_bytes payload ->
  DecodeCharacterString (encoding :: payload) = Ret (decoded_text encoding payload).
Proof.
  intros Hwf. unfold DecodeCharacterString, decoded_text.
  replace (len _ <? 1) with false by len_lia. rewrite idx_cons_0. cbn [obind].
  change (encoding :: payload) with ([encoding] ++ payload) at 1.
  change 1 with (len [encoding]) at 1. rewrite slice_from_app. cbn [obind].
  pose proof (len_nonneg payload) as Hl.
  rewrite !Z.rem_mod_nonneg by lia.
  destruct (Z.eqb_spec encoding CharSetUTF8) as [->|]; [done|].
  destruct (Z.eqb_spec encoding CharSetUCS2).
  { set (m := len payload mod 2).
    assert ((if m =? 1 then slice payload 0 (len payload - 1) else Ret payload : go bytes) =
            Ret (take (Z.to_nat (len payload - m)) payload)) as ->.
    { destruct (Z.eqb_spec m 1) as [Hm|Hm].
      - rewrite Hm. apply slice_0. subst m. div_lia.
      - f_equal. symmetry. apply take_ge. unfold len, m in *. div_lia. }
    cbn [obind]. set (p := take _ payload).
    assert (len p = len payload - m) as Hp by (apply len_take; subst m; div_lia).
    rewrite (for_range_16 _ 0 [] p); [done|done| |by apply wf_take].
    rewrite Hp. subst m. div_lia. }
  destruct (Z.eqb_spec encoding CharSetUCS4); [|by destruct (encoding =? CharSetISO88591)].
  set (m := len payload mod 4). rewrite slice_0 by (subst m; div_lia).
  cbn [obind]. set (p := take _ payload).
  assert (len p = len payload - m) as Hp by (apply len_take; subst m; div_lia).
  rewrite (for_range_32 _ 0 [] p); [done|done| |by apply wf_take].
  rewrite Hp. subst m. div_lia.
Qed.

(** ** Properties *)

(** The UTF-8 encoding of a sequence of Unicode scalar values. *)
Definition valid_utf8 (s : bytes) : Prop :=
  exists cps, Forall (fun cp => is_scalar cp = true) cps /\ s = flat_map utf8_scalar cps.

Lemma utf8_valid runes : valid_utf8 (utf8 runes).
Proof.
  exists ((fun r => if is_scalar r then r else replacementChar) <$> runes). split.
  - apply Forall_fmap, Forall_true. intros r. cbn. by destruct (is_scalar r) eqn:E.
  - unfold utf8. induction runes as [|r runes IH]; [done|]. cbn. by rewrite IH.
Qed.

Lemma utf8_scalars cps :
  Forall (fun cp => is_scalar cp = true) cps -> utf8 cps = flat_map utf8_scalar cps.
Proof.
  unfold utf8. induction 1 as [|cp cps Hcp _ IH]; [done|]. cbn. rewrite IH. unfold utf8_rune. by rewrite Hcp.
Qed.

(** Encoders of the wide sets: UTF-16 big endian and UCS-4 big endian. *)
Definition utf16_units (cp : Z) : list Z :=
  if cp <? 0x10000 then [cp]
  else [0xD800 + (cp - 0x10000) / 1024; 0xDC00 + (cp - 0x10000) mod 1024].

Definition utf16be (cps : list Z) : bytes := flat_map put_be16 (flat_map utf16_units cps).

Definition ucs4be (cps : list Z) : bytes :=
  flat_map (fun cp => [u8 (Z.shiftr cp 24); u8 (Z.shiftr cp 16); u8 (Z.shiftr cp 8); u8 cp]) cps.

Lemma utf16_Decode_units cp us :
  is_scalar cp = true -> utf16_Decode (utf16_units cp ++ us) = cp :: utf16_Decode us.
Proof.
  unfold is_scalar, utf16_units. intros Hcp. destruct (Z.ltb_spec cp 0x10000).
  - cbn [app utf16_Decode]. by replace ((cp <? 0xD800) || (0xE000 <=? cp)) with true by lia.
  - cbn [app utf16_Decode]. set (q := (cp - 0x10000) / 1024). set (m := (cp - 0x10000) mod 1024).
    assert (cp = q * 1024 + m + 0x10000 /\ 0 <= q < 1024 /\ 0 <= m < 1024) as (E & ? & ?)
      by (subst q m; div_lia).
    replace ((0xD800 + q <? 0xD800) || (0xE000 <=? 0xD800 + q)) with false by lia.
    unfold is_high_surrogate, is_low_surrogate.
    replace (_ && _ && _) with true by lia. f_equal. lia.
Qed.

Lemma utf16_Decode_inv cps :
  Forall (fun cp => is_scalar cp = true) cps -> utf16_Decode (flat_map utf16_units cps) = cps.
Proof.
  induction 1 as [|cp cps Hcp _ IH]; [done|]. cbn [flat_map]. by rewrite utf16_Decode_units, IH.
Qed.

Lemma utf16_units_range cp :
  is_scalar cp = true -> Forall (fun u => 0 <= u < 65536) (utf16_units cp).
Proof.
  unfold is_scalar, utf16_units. intros Hcp. case_match; repeat constructor; div_lia.
Qed.

Lemma len_flat_map_const {A} (f : A -> bytes) k l :
  (forall a, len (f a) = k) -> len (flat_map f l) = k * len l.
Proof.
  intros Hk. induction l as [|a l IH]; [cbn [flat_map]; len_lia|]. cbn [flat_map].
  rewrite len_app, len_cons, Hk, IH. lia.
Qed.

Lemma chunks16_inv us r :
  Forall (fun u => 0 <= u < 65536) us -> chunks16 (flat_map put_be16 us ++ r) = us ++ chunks16 r.
Proof.
  induction 1 as [|u us Hu _ IH]; [done|]. unfold put_be16 in *. cbn [flat_map app chunks16]. rewrite IH.
  cbn [app]. f_equal. rewrite u8_shiftr by lia. unfold uint. div_lia.
Qed.

Lemma chunks32_inv cps r :
  Forall (fun cp => 0 <= cp < 2 ^ 32) cps -> chunks32 (ucs4be cps ++ r) = cps ++ chunks32 r.
Proof.
  unfold ucs4be. induction 1 as [|u us Hu _ IH]; [done|]. cbn [flat_map app chunks32]. rewrite IH.
  cbn [app]. f_equal. rewrite !u8_shiftr by lia. unfold uint. div_lia.
Qed.

Lemma take_chunk (p r : bytes) k :
  0 < k -> len p mod k = 0 -> len r < k -> take (Z.to_nat (len (p ++ r) - len (p ++ r) mod k)) (p ++ r) = p.
Proof.
  intros Hk Hp Hr. rewrite len_app.
  rewrite Z.add_mod, Hp by lia. rewrite Z.add_0_l, Z.mod_mod by lia.
  rewrite (Z.mod_small (len r)) by (split; [apply len_nonneg|lia]).
  replace (len p + len r - len r) with (len p) by lia. apply take_app_len.
Qed.

Lemma wf_flat_map {A} (f : A -> bytes) l : (forall a, wf_bytes (f a)) -> wf_bytes (flat_map f l).
Proof. intros Hf. induction l as [|a l IH]; [constructor|]. cbn. apply wf_app; auto. Qed.

(** C37. Text survives the wire in every character set with full conversion.
    For any Unicode text [cps]: its UTF-16 and UCS-4 forms decode to its UTF-8
    form, with a trailing partial character cut off; a Latin-1 byte string
    decodes to the UTF-8 of the characters it names; and a UTF-8 string the
    client encodes comes back unchanged. *)
Theorem CharacterString_roundtrip cps s partial2 partial4 :
  Forall (fun cp => is_scalar cp = true) cps -> wf_bytes s ->
  wf_bytes partial2 -> len partial2 < 2 -> wf_bytes partial4 -> len partial4 < 4 ->
  DecodeCharacterString (EncodeCharacterString s) = Ret s /\
  DecodeCharacterString (CharSetUCS2 :: utf16be cps ++ partial2) = Ret (flat_map utf8_scalar cps) /\
  DecodeCharacterString (CharSetUCS4 :: ucs4be cps ++ partial4) = Ret (flat_map utf8_scalar cps) /\
  DecodeCharacterString (CharSetISO88591 :: s) = Ret (flat_map utf8_scalar s).
Proof.
  intros Hcps Hs Hp2 Hl2 Hp4 Hl4.
  assert (Forall (fun u => 0 <= u < 65536) (flat_map utf16_units cps)) as Hu.
  { induction Hcps; cbn; [done|]. apply Forall_app. auto using utf16_units_range. }
  assert (Forall (fun cp => 0 <= cp < 2 ^ 32) cps) as Hcps'
    by (eapply Forall_impl; [done|]; cbn; unfold is_scalar; lia).
  rewrite <- !utf8_scalars; try done; cycle 1.
  { eapply Forall_impl; [done|]. unfold is_byte, is_scalar. lia. }
  unfold EncodeCharacterString. cbn [app].
  assert (wf_bytes (utf16be cps)) as W2 by (apply wf_flat_map; repeat constructor; apply u8_byte).
  assert (wf_bytes (ucs4be cps)) as W4 by (apply wf_flat_map; repeat constructor; apply u8_byte).
  rewrite !DecodeCharacterString_eq by (try apply wf_app; done).
  unfold decoded_text. cbn [Z.eqb Pos.eqb CharSetUCS2 CharSetUCS4 CharSetISO88591].
  rewrite take_chunk; [|lia| |done]; cycle 1.
  { unfold utf16be. rewrite (len_flat_map_const _ 2) by done. rewrite Z.mul_comm. apply Z.mod_mul. lia. }
  rewrite take_chunk; [|lia| |done]; cycle 1.
  { unfold ucs4be. rewrite (len_flat_map_const _ 4) by done. rewrite Z.mul_comm. apply Z.mod_mul. lia. }
  rewrite <- (app_nil_r (utf16be cps)), <- (app_nil_r (ucs4be cps)).
  unfold utf16be. rewrite chunks16_inv, chunks32_inv, !app_nil_r, utf16_Decode_inv by done.
  assert (s32 <$> cps = cps) as ->; [|done].
  rewrite <- (list_fmap_id cps) at 2. apply list_fmap_ext. intros i cp Hi.
  unfold id. apply sint_small; [lia|]. rewrite Forall_lookup in Hcps. specialize (Hcps _ _ Hi).
  cbn beta in Hcps. unfold is_scalar in Hcps. lia.
Qed.

Lemma CharacterString_roundtrip_witness :
  DecodeCharacterString (CharSetUCS2 :: utf16be [0x63; 0xE9; 0x1F321] ++ [0]) =
    Ret [0x63; 0xC3; 0xA9; 0xF0; 0x9F; 0x8C; 0xA1].
Proof.
  apply (CharacterString_roundtrip [0x63; 0xE9; 0x1F321] [0x41] [0] []);
    repeat constructor; unfold is_byte; lia.
Defined.

(** Whatever a device sends, a text in one of the sets UCS-4, UCS-2 or
    ISO 8859-1 decodes without an error to well-formed UTF-8: unpaired
    surrogates, out-of-range and negative code points and truncated characters
    included. *)
Theorem DecodeCharacterString_valid_utf8 encoding payload :
  wf_bytes payload ->
  encoding ∈ [CharSetUCS4; CharSetUCS2; CharSetISO88591] ->
  exists s, DecodeCharacterString (encoding :: payload) = Ret s /\ valid_utf8 s.
Proof.
  intros Hwf He. exists (decoded_text encoding payload). split; [by apply DecodeCharacterString_eq|].
  rewrite !elem_of_cons, elem_of_nil in He. unfold decoded_text.
  destruct He as [->|[->|[->|[]]]]; apply utf8_valid.
Qed.

Lemma DecodeCharacterString_valid_utf8_witness :
  exists s, DecodeCharacterString (CharSetUCS2 :: [0xD8; 0; 0; 0x41]) = Ret s /\ valid_utf8 s.
Proof.
  apply (DecodeCharacterString_valid_utf8 CharSetUCS2 [0xD8; 0; 0; 0x41]).
  - repeat constructor; unfold is_byte; lia.
  - right. left.
Defined.

Lemma DecodeCharacterString_safe d :
  wf_bytes d -> safely (DecodeCharacterString d) (fun _ => True).
Proof.
  destruct d as [|e p]; [done|]. intros [_ Hp]%Forall_cons. by rewrite DecodeCharacterString_eq.
Qed.

#[export] Hint Extern 1 (safely (DecodeCharacterString _) _) =>
  apply DecodeCharacterString_safe; auto with wf : go_safe.
