(* ===== verification/DataTypes.v ===== *)
(** * Structured data types ([bitstring.go], [datetime.go], [types.go])

    Bit strings, status flags, dates and times: the records, their codecs and
    their texts. *)

From S2P Require Import Prelude Enums Errors Tags.
#[local] Open Scope string_scope.
#[local] Open Scope list_scope.
#[local] Open Scope Z_scope.

(** ** Status flags *)

(** [StatusFlags] *)
Record StatusFlags := { InAlarm : bool; Fault : bool; Overridden : bool; OutOfService : bool }.

Definition DecodeStatusFlags (b : Z) : StatusFlags :=
  {| InAlarm := flag b 0x08; Fault := flag b 0x04; Overridden := flag b 0x02; OutOfService := flag b 0x01 |}.

(** [%v] of a bool *)
Definition bool_text (b : bool) : string := if b then "true" else "false".

(** [StatusFlags.String] *)
Definition StatusFlags_String (s : StatusFlags) : string :=
  "{in-alarm:" +:+ bool_text (InAlarm s) +:+ ", fault:" +:+ bool_text (Fault s) +:+
  ", overridden:" +:+ bool_text (Overridden s) +:+ ", out-of-service:" +:+
  bool_text (OutOfService s) +:+ "}".

(** ** Bit strings *)

Module BitString.

(** [BitString] *)
Record t := { UnusedBits : Z; Bytes : bytes }.

#[global] Instance t_eq_dec : EqDecision t.
Proof. solve_decision. Defined.

Definition Len (b : t) : Z :=
  if len (Bytes b) =? 0 then 0 else len (Bytes b) * 8 - UnusedBits b.

Definition Bit (b : t) (i : Z) : go bool :=
  if (i <? 0) || (Len b <=? i) then Ret false
  else let! v := idx (Bytes b) (i / 8) in Ret (flag v (Z.shiftr 0x80 (i mod 8))).

(** The loop of [BitString.String], from bit [i] on. *)
Definition String_bits (b : t) : go (list bool) := for_range (Bit b) (Z.to_nat (Len b)) 0.

Definition bit_text (b : bool) : string := if b then "1" else "0".

(** [BitString.String] *)
Definition String (b : t) : go string :=
  if Len b =? 0 then Ret "{}"
  else
    let! bits := String_bits b in
    Ret ("{" +:+ String.concat "," (bit_text <$> bits) +:+ "}").

(** [BitString.StatusFlags] *)
Definition StatusFlags (b : t) : go StatusFlags :=
  let! b0 := Bit b 0 in
  let! b1 := Bit b 1 in
  let! b2 := Bit b 2 in
  let! b3 := Bit b 3 in
  Ret {| InAlarm := b0; Fault := b1; Overridden := b2; OutOfService := b3 |}.

Definition DecodeBitString (payload : bytes) : go t :=
  if len payload =? 0 then Err ErrInvalidResponse
  else
    let! unused := idx payload 0 in
    if 7 <? unused then Err ErrInvalidResponse
    else if (len payload =? 1) && negb (unused =? 0) then Err ErrInvalidResponse
    else
      let! rest := slice_from payload 1 in
      Ret {| UnusedBits := unused; Bytes := rest |}.

Definition EncodeBitString (b : t) : bytes := [UnusedBits b] ++ Bytes b.

Definition EncodeBitStringTag (b : t) : bytes :=
  let data := EncodeBitString b in
  EncodeTag TagBitString TagClassApplication (len data) ++ data.

(** [out.Bytes[i/8] |= 0x80 >> uint(i%8)] *)
Definition set_bit (bs : bytes) (i : Z) : go bytes :=
  let! v := idx bs (i / 8) in
  Ret (<[Z.to_nat (i / 8) := Z.lor v (Z.shiftr 0x80 (i mod 8))]> bs).

(** [for i, v := range bits] *)
Fixpoint fill (bits : list bool) (i : Z) (bs : bytes) : go bytes :=
  match bits with
  | [] => Ret bs
  | v :: bits =>
      let! bs := (if v then set_bit bs i else Ret bs) in
      fill bits (i + 1) bs
  end.

Definition NewBitStringFromBits (bits : list bool) : go t :=
  if len bits =? 0 then Ret {| UnusedBits := 0; Bytes := [] |}
  else
    let nBytes := (len bits + 7) / 8 in
    let! bs := fill bits 0 (replicate (Z.to_nat nBytes) 0) in
    Ret {| UnusedBits := u8 (nBytes * 8 - len bits); Bytes := bs |}.

(** *** Well-formed bit strings *)

Definition ok (b : t) : Prop :=
  0 <= UnusedBits b <= 7 /\ wf_bytes (Bytes b) /\ (Bytes b = [] -> UnusedBits b = 0).

Lemma Len_range b : ok b -> 0 <= Len b <= 8 * len (Bytes b).
Proof.
  unfold ok, Len. intros (Hu & _ & He). destruct (Z.eqb_spec (len (Bytes b)) 0); len_lia.
Qed.

Lemma Len_le b : 0 <= UnusedBits b -> Len b <= 8 * len (Bytes b).
Proof. unfold Len. intros. destruct (Z.eqb_spec (len (Bytes b)) 0); len_lia. Qed.

(** Bit [j] of a byte array, most significant first. *)
Definition bit_at (bs : bytes) (j : Z) : bool := Z.testbit (nth (Z.to_nat (j / 8)) bs 0) (7 - j mod 8).

Lemma flag_mask v k : 0 <= k < 8 -> flag v (Z.shiftr 0x80 k) = Z.testbit v (7 - k).
Proof.
  intros Hk. unfold flag.
  assert (Z.shiftr 0x80 k = 2 ^ (7 - k)) as ->.
  { assert (k = 0 \/ k = 1 \/ k = 2 \/ k = 3 \/ k = 4 \/ k = 5 \/ k = 6 \/ k = 7) as H by lia.
    by destruct H as [->|[->|[->|[->|[->|[->|[->| ->]]]]]]]. }
  destruct (Z.eqb_spec (Z.land v (2 ^ (7 - k))) 0) as [E|E]; cbn.
  - symmetry. apply (f_equal (fun x => Z.testbit x (7 - k))) in E.
    rewrite Z.land_spec, Z.bits_0, Z.pow2_bits_true, andb_true_r in E by lia. done.
  - symmetry. apply not_false_iff_true. intros Hf. apply E. apply Z.bits_inj'. intros j Hj.
    rewrite Z.land_spec, Z.bits_0. destruct (decide (j = 7 - k)) as [->|].
    + by rewrite Hf.
    + rewrite Z.pow2_bits_false by lia. apply andb_false_r.
Qed.

Lemma Bit_eq b i :
  0 <= UnusedBits b ->
  Bit b i = Ret (if (i <? 0) || (Len b <=? i) then false else bit_at (Bytes b) i).
Proof.
  intros Hu. pose proof (Len_le b Hu). unfold Bit.
  destruct ((i <? 0) || (Len b <=? i)) eqn:Hi; [done|].
  rewrite idx_in by div_lia. cbn [obind]. rewrite flag_mask by div_lia. done.
Qed.

(** *** Packing bits *)

Lemma nth_insert (l : bytes) n k x :
  (n < length l)%nat -> nth k (<[n:=x]> l) 0 = if decide (k = n) then x else nth k l 0.
Proof.
  intros Hn. rewrite !nth_lookup. case_decide; subst.
  - by rewrite list_lookup_insert_eq.
  - by rewrite list_lookup_insert_ne.
Qed.

Lemma set_bit_spec bs i :
  0 <= i < 8 * len bs -> wf_bytes bs ->
  exists bs', set_bit bs i = Ret bs' /\ len bs' = len bs /\ wf_bytes bs' /\
    forall j, 0 <= j -> bit_at bs' j = bit_at bs j || (j =? i).
Proof.
  intros Hi Hwf. unfold set_bit. rewrite idx_in by div_lia. cbn [obind]. eexists. split; [done|].
  assert (0 <= i / 8 < len bs) as Hd by div_lia. assert (0 <= i mod 8 < 8) as Hm by div_lia.
  set (v := nth (Z.to_nat (i / 8)) bs 0).
  assert (Z.shiftr 0x80 (i mod 8) = 2 ^ (7 - i mod 8)) as E.
  { assert (forallb (fun k => Z.shiftr 0x80 (Z.of_nat k) =? 2 ^ (7 - Z.of_nat k)) (seq 0 8) = true)
      as H by (vm_compute; reflexivity).
    apply (forall_range 8 (fun k => Z.shiftr 0x80 k =? 2 ^ (7 - k)) H) in Hm. by apply Z.eqb_eq in Hm. }
  assert (is_byte v) as Hv by by apply wf_nth.
  split; [unfold len; by rewrite length_insert|]. split.
  { apply Forall_insert; [done|]. rewrite E.
    pose proof (forall_range 256 (fun v => forallb (fun k => Z.lor v (2 ^ Z.of_nat k) <? 256) (seq 0 8)))
      as Hlt. specialize (Hlt ltac:(vm_compute; reflexivity) v Hv).
    pose proof (forall_range 8 (fun k => Z.lor v (2 ^ k) <? 256) Hlt (7 - i mod 8) ltac:(lia)) as H.
    unfold is_byte in *. split; [apply Z.lor_nonneg; split; [lia|apply Z.pow_nonneg; lia]|]. lia. }
  intros j Hj. unfold bit_at. rewrite nth_insert by (unfold len in Hd; lia).
  case_decide as Hjd.
  - rewrite Hjd. fold v. rewrite Z.lor_spec, E. f_equal.
    assert (j / 8 = i / 8) as Hq by div_lia.
    destruct (Z.eqb_spec j i) as [->|Hne]; [apply Z.pow2_bits_true; lia|].
    apply Z.pow2_bits_false. div_lia.
  - replace (j =? i) with false by div_lia. by rewrite orb_false_r.
Qed.

Lemma fill_spec bits : forall i bs,
  0 <= i -> i + len bits <= 8 * len bs -> wf_bytes bs ->
  exists bs', fill bits i bs = Ret bs' /\ len bs' = len bs /\ wf_bytes bs' /\
    forall j, 0 <= j ->
      bit_at bs' j = bit_at bs j || ((i <=? j) && nth (Z.to_nat (j - i)) bits false).
Proof.
  induction bits as [|v bits IH]; intros i bs Hi Hle Hwf; cbn [fill].
  { exists bs. split_and!; try done. intros j Hj. destruct (Z.to_nat (j - i)); cbn;
      by rewrite andb_false_r, orb_false_r. }
  rewrite len_cons in Hle. pose proof (len_nonneg bits).
  assert (exists bs1, (if v then set_bit bs i else Ret bs) = Ret bs1 /\ len bs1 = len bs /\
            wf_bytes bs1 /\ forall j, 0 <= j -> bit_at bs1 j = bit_at bs j || (v && (j =? i)))
    as (bs1 & -> & Hl1 & Hw1 & Hb1).
  { destruct v; [by apply set_bit_spec; [lia|]|].
    exists bs. split_and!; try done. intros. by rewrite orb_false_r. }
  cbn [obind]. destruct (IH (i + 1) bs1) as (bs2 & -> & Hl2 & Hw2 & Hb2); [lia|lia|done|].
  exists bs2. split_and!; [done|lia|done|]. intros j Hj. rewrite Hb2, Hb1 by done.
  rewrite <- orb_assoc. f_equal.
  destruct (Z.compare_spec j i) as [->|Hlt|Hgt].
  - rewrite Z.eqb_refl, Z.leb_refl, Z.sub_diag, andb_true_r. cbn.
    replace (i + 1 <=? i) with false by lia. by rewrite orb_false_r.
  - replace (j =? i) with false by lia. replace (i + 1 <=? j) with false by lia.
    replace (i <=? j) with false by lia. by rewrite andb_false_r.
  - replace (j =? i) with false by lia. replace (i + 1 <=? j) with true by lia.
    replace (i <=? j) with true by lia. rewrite andb_false_r. cbn.
    replace (Z.to_nat (j - i)) with (S (Z.to_nat (j - (i + 1)))) by lia. done.
Qed.

Lemma bit_at_zeros n j : bit_at (replicate n 0) j = false.
Proof.
  unfold bit_at. rewrite nth_lookup. destruct (replicate n 0 !! _) eqn:E; cbn.
  - apply lookup_replicate in E as [-> _]. apply Z.bits_0.
  - apply Z.bits_0.
Qed.

Lemma DecodeBitString_EncodeBitString b : ok b -> DecodeBitString (EncodeBitString b) = Ret b.
Proof.
  destruct b as [u bs]. unfold ok, EncodeBitString, DecodeBitString. cbn [UnusedBits Bytes app].
  intros (Hu & Hwf & He). replace (len (u :: bs) =? 0) with false by len_lia.
  rewrite idx_cons_0. cbn [obind]. replace (7 <? u) with false by lia.
  replace ((len (u :: bs) =? 1) && negb (u =? 0)) with false; cycle 1.
  { destruct (Z.eqb_spec u 0) as [->|Hne]; [by rewrite andb_false_r|].
    destruct bs; [by destruct Hne, He|]. len_lia. }
  change (u :: bs) with ([u] ++ bs). change 1 with (len [u]). by rewrite slice_from_app.
Qed.

Lemma Bit_packed bits b i :
  0 <= UnusedBits b -> Len b = len bits ->
  (forall j, 0 <= j -> bit_at (Bytes b) j = nth (Z.to_nat j) bits false) ->
  Bit b i = Ret ((0 <=? i) && nth (Z.to_nat i) bits false).
Proof.
  intros Hu Hl Hb. rewrite Bit_eq by done. rewrite Hl. f_equal.
  destruct (Z.ltb_spec i 0); cbn; [by replace (0 <=? i) with false by lia|].
  replace (0 <=? i) with true by lia. cbn.
  destruct (Z.leb_spec (len bits) i); [|by apply Hb].
  symmetry. apply nth_overflow. unfold len in *. lia.
Qed.

Lemma NewBitStringFromBits_packed bits :
  exists b, NewBitStringFromBits bits = Ret b /\ ok b /\ Len b = len bits /\
    (forall j, 0 <= j -> bit_at (Bytes b) j = nth (Z.to_nat j) bits false).
Proof.
  unfold NewBitStringFromBits. destruct (Z.eqb_spec (len bits) 0) as [He|He].
  { eexists. split; [done|]. apply len_zero_nil in He as ->.
    split; [split; [cbn; lia|split; [constructor|done]]|split; [done|]].
    intros j _. unfold bit_at. cbn. destruct (Z.to_nat (j / 8)), (Z.to_nat j); by rewrite Z.bits_0. }
  pose proof (len_nonneg bits). set (n := (len bits + 7) / 8).
  assert (0 < n /\ 8 * n - 7 <= len bits <= 8 * n) as [Hn Hln] by (subst n; div_lia).
  assert (wf_bytes (replicate (Z.to_nat n) 0)) as Hw by (apply Forall_replicate; unfold is_byte; lia).
  destruct (fill_spec bits 0 (replicate (Z.to_nat n) 0)) as (bs & -> & Hlen & Hwf & Hb);
    [lia|len_lia|done|]. cbn [obind].
  rewrite len_replicate, Z2Nat.id in Hlen by lia. eexists. split; [done|].
  assert (u8 (n * 8 - len bits) = n * 8 - len bits) as Hu by (apply uint_small; lia).
  split; [|split].
  - unfold ok. cbn. rewrite Hu. split; [lia|]. split; [done|]. intros ->. rewrite len_nil in Hlen. lia.
  - unfold Len. cbn. rewrite Hu, Hlen. replace (n =? 0) with false by lia. lia.
  - cbn. intros j Hj. rewrite Hb, bit_at_zeros by done. cbn.
    replace (0 <=? j) with true by lia. by rewrite Z.sub_0_r.
Qed.

(** Packing booleans into a bit string and reading them back: for every
    list of bits the constructor returns (no panic) a well-formed bit string of
    exactly that length whose bit [i] is the [i]-th boolean, and false out of
    range; encoding it as a payload and decoding gives the same bit string. *)
Theorem NewBitStringFromBits_spec bits :
  exists b, NewBitStringFromBits bits = Ret b /\ ok b /\ Len b = len bits /\
    (forall i, Bit b i = Ret ((0 <=? i) && nth (Z.to_nat i) bits false)) /\
    DecodeBitString (EncodeBitString b) = Ret b.
Proof.
  destruct (NewBitStringFromBits_packed bits) as (b & H1 & H2 & H3 & H4). exists b.
  split_and!; try done; [intros i; apply Bit_packed; try done; apply H2|].
  by apply DecodeBitString_EncodeBitString.
Qed.

Lemma DecodeBitString_ok p b : wf_bytes p -> DecodeBitString p = Ret b -> ok b /\ p = EncodeBitString b.
Proof.
  unfold DecodeBitString. destruct p as [|u bs]; [done|]. intros [Hu Hwf]%Forall_cons.
  replace (len (u :: bs) =? 0) with false by len_lia. rewrite idx_cons_0. cbn [obind].
  destruct (Z.ltb_spec 7 u); [done|]. destruct (_ && _) eqn:E; [done|].
  change (u :: bs) with ([u] ++ bs). change 1 with (len [u]). rewrite slice_from_app.
  intros [= <-]. split; [|done]. unfold ok. cbn. split; [unfold is_byte in Hu; lia|]. split; [done|].
  intros ->. change (len [u]) with 1 in E. lia.
Qed.

(** C38. [DecodeBitString] accepts exactly the well-formed payloads, a count of
    0 to 7 unused bits that is 0 when no byte follows, and is then the inverse
    of [EncodeBitString]; everything else is [ErrInvalidResponse]. *)
Theorem DecodeBitString_exact p :
  wf_bytes p ->
  (forall b, DecodeBitString p = Ret b <-> ok b /\ p = EncodeBitString b) /\
  ((forall b, ~ (ok b /\ p = EncodeBitString b)) -> DecodeBitString p = Err ErrInvalidResponse).
Proof.
  intros Hwf. assert (forall b, DecodeBitString p = Ret b <-> ok b /\ p = EncodeBitString b) as Hiff.
  { intros b. split; [by apply DecodeBitString_ok|intros [Hok ->]; by apply DecodeBitString_EncodeBitString]. }
  split; [done|]. intros Hno.
  enough (DecodeBitString p = Err ErrInvalidResponse \/ exists b, DecodeBitString p = Ret b)
    as [?|[b H]]; [done|by destruct (Hno b), (Hiff b); auto|].
  unfold DecodeBitString. destruct p as [|u bs]; [by left|].
  replace (len (u :: bs) =? 0) with false by len_lia. rewrite idx_cons_0. cbn [obind].
  destruct (7 <? u); [by left|]. destruct (_ && _); [by left|].
  rewrite slice_from_in by len_lia. right. by eexists.
Qed.

Lemma DecodeBitString_exact_witness :
  DecodeBitString [4; 0xC0] = Ret {| UnusedBits := 4; Bytes := [0xC0] |}.
Proof.
  apply (DecodeBitString_exact [4; 0xC0]).
  - repeat constructor; unfold is_byte; lia.
  - split; [|reflexivity]. unfold ok. cbn. split; [lia|]. split; [|done].
    repeat constructor; unfold is_byte; lia.
Defined.

(** The texts of a bit string never panic either. *)
Lemma String_bits_eq b :
  ok b -> String_bits b = Ret ((fun j => bit_at (Bytes b) (Z.of_nat j)) <$> seq 0 (Z.to_nat (Len b))).
Proof.
  intros Hok. pose proof (Len_range b Hok). destruct Hok as [Hu _]. unfold String_bits.
  enough (forall n i, (i + n <= Z.to_nat (Len b))%nat ->
    for_range (Bit b) n (Z.of_nat i) = Ret ((fun j => bit_at (Bytes b) (Z.of_nat j)) <$> seq i n)) as Hgen
    by (apply (Hgen (Z.to_nat (Len b)) 0%nat); lia).
  induction n as [|n IH]; intros i Hi; [done|]. cbn [for_range seq fmap list_fmap].
  rewrite Bit_eq by lia. cbn [obind].
  replace ((Z.of_nat i <? 0) || (Len b <=? Z.of_nat i)) with false by lia.
  replace (Z.of_nat i + 1) with (Z.of_nat (S i)) by lia. rewrite IH by lia. done.
Qed.

(** Status flags: the [StatusFlags] method of a bit string that starts
    with the four flags returns them in order; and on the octet [v] a device
    sends for the four-bit property it agrees with the package-level
    [DecodeStatusFlags] applied to the high nibble. *)
Theorem StatusFlags_spec a f o s rest v :
  is_byte v ->
  (exists b, NewBitStringFromBits (a :: f :: o :: s :: rest) = Ret b /\
     StatusFlags b = Ret {| InAlarm := a; Fault := f; Overridden := o; OutOfService := s |}) /\
  StatusFlags {| UnusedBits := 4; Bytes := [v] |} = Ret (DecodeStatusFlags (Z.shiftr v 4)).
Proof.
  intros Hv. split.
  - destruct (NewBitStringFromBits_packed (a :: f :: o :: s :: rest)) as (b & Hb & [Hu _] & Hl & Hbit).
    exists b. split; [done|]. unfold StatusFlags. by rewrite !(Bit_packed _ b _ (proj1 Hu) Hl Hbit).
  - apply (forall_range 256 (fun v => match StatusFlags {| UnusedBits := 4; Bytes := [v] |} with
      | Ret {| InAlarm := a; Fault := f; Overridden := o; OutOfService := s |} =>
          let w := DecodeStatusFlags (Z.shiftr v 4) in
          eqb a (InAlarm w) && eqb f (Fault w) && eqb o (Overridden w) && eqb s (OutOfService w)
      | _ => false end)) in Hv; [|vm_compute; reflexivity].
    destruct (StatusFlags _) as [[]|?| |]; try done. rewrite !andb_true_iff, !eqb_true_iff in Hv.
    destruct Hv as [[[-> ->] ->] ->]. reflexivity.
Qed.

Lemma StatusFlags_spec_witness :
  StatusFlags {| UnusedBits := 4; Bytes := [0xC0] |} =
    Ret {| InAlarm := true; Fault := true; Overridden := false; OutOfService := false |}.
Proof. apply (StatusFlags_spec true true false false [] 0xC0). unfold is_byte. lia. Defined.

End BitString.

(** ** Dates and times *)

(** [%0wd] *)
Fixpoint zeros (n : nat) : string := match n with O => EmptyString | S n => "0" +:+ zeros n end.
Definition dec_pad (w : nat) (n : Z) : string :=
  let s := dec n in zeros (w - String.length s) +:+ s.

Module Date.

(** [Date] *)
Record t := { Year : Z; Month : Z; Day : Z; DayOfWeek : Z }.

#[global] Instance t_eq_dec : EqDecision t.
Proof. solve_decision. Defined.

Definition DateWildcardYear : Z := 0xFFFF.
Definition DateWildcardField : Z := 0xFF.

(** The caller is responsible for the length of the payload. *)
Definition DecodeDate (payload : bytes) : go t :=
  let! month := idx payload 1 in
  let! day := idx payload 2 in
  let! dow := idx payload 3 in
  let! y := idx payload 0 in
  let year := if y =? 0xFF then DateWildcardYear else u16 (y + 1900) in
  Ret {| Year := year; Month := month; Day := day; DayOfWeek := dow |}.

Definition EncodeDate (d : t) : bytes :=
  let yearByte := if Year d =? DateWildcardYear then 0xFF else u8 (u16 (Year d - 1900)) in
  [yearByte; Month d; Day d; DayOfWeek d].

Definition EncodeDateTag (d : t) : bytes :=
  let data := EncodeDate d in
  EncodeTag TagDate TagClassApplication (len data) ++ data.

(** [Date.String] *)
Definition String (d : t) : string :=
  let yr := if negb (Year d =? DateWildcardYear) then dec_pad 4 (Year d) else "?" in
  let mo := if negb (Month d =? DateWildcardField) then dec_pad 2 (Month d) else "?" in
  let dy := if negb (Day d =? DateWildcardField) then dec_pad 2 (Day d) else "?" in
  yr +:+ "-" +:+ mo +:+ "-" +:+ dy.

(** The fields have the widths of the Go struct. *)
Definition in_range (d : t) : Prop :=
  0 <= Year d < 2 ^ 16 /\ is_byte (Month d) /\ is_byte (Day d) /\ is_byte (DayOfWeek d).

(** A year the one-octet wire format can carry. *)
Definition wire_year (y : Z) : Prop := 1900 <= y <= 2154 \/ y = DateWildcardYear.

Lemma DecodeDate_eq y m d w r :
  DecodeDate (y :: m :: d :: w :: r) =
  Ret {| Year := if y =? 0xFF then DateWildcardYear else u16 (y + 1900);
         Month := m; Day := d; DayOfWeek := w |}.
Proof. unfold DecodeDate. by idx_eval. Qed.

Lemma DecodeDate_EncodeDate date :
  in_range date -> DecodeDate (EncodeDate date) = Ret date <-> wire_year (Year date).
Proof.
  intros (Hyr & _). unfold wire_year, EncodeDate. rewrite DecodeDate_eq.
  destruct date as [yr mo dy dw]; cbn in *. unfold DateWildcardYear.
  destruct (Z.eqb_spec yr 65535) as [->|Hne]; cbn; [split; [by right|done]|].
  destruct (Z.eqb_spec (u8 (u16 (yr - 1900))) 255) as [E|E].
  - split; [intros [= Hyear]; lia|]. unfold uint in E. intros. div_lia.
  - split.
    + intros [= Hyear]. unfold uint in *. left. div_lia.
    + intros Hw. do 2 f_equal. unfold uint in *. div_lia.
Qed.

(** Dates on the wire: every four octets decode to a date that encodes
    back to them, and a date survives encoding and decoding if and only if its
    year is 1900 to 2154 or the wildcard; other years come back changed. *)
Theorem Date_roundtrip y m d w date :
  wf_bytes [y; m; d; w] -> in_range date ->
  (exists dt, DecodeDate [y; m; d; w] = Ret dt /\ EncodeDate dt = [y; m; d; w] /\ wire_year (Year dt)) /\
  (DecodeDate (EncodeDate date) = Ret date <-> wire_year (Year date)).
Proof.
  intros [Hy _]%Forall_cons Hdate. split; [|by apply DecodeDate_EncodeDate].
  unfold is_byte, wire_year, DateWildcardYear in *.
  eexists. split; [apply DecodeDate_eq|]. unfold EncodeDate, DateWildcardYear. cbn.
  destruct (Z.eqb_spec y 255) as [->|]; cbn; [split; [done|by right]|].
  rewrite (uint_small 16 (y + 1900)) by lia. replace (y + 1900 =? 65535) with false by lia.
  split; [|lia]. f_equal. unfold uint. div_lia.
Qed.

Lemma Date_roundtrip_witness :
  DecodeDate (EncodeDate {| Year := 2026; Month := 5; Day := 15; DayOfWeek := 5 |}) =
    Ret {| Year := 2026; Month := 5; Day := 15; DayOfWeek := 5 |}.
Proof.
  apply (Date_roundtrip 126 5 15 5 {| Year := 2026; Month := 5; Day := 15; DayOfWeek := 5 |}).
  - repeat constructor; unfold is_byte; lia.
  - unfold in_range, is_byte; cbn; lia.
  - left; cbn; lia.
Defined.

Example String_date : String {| Year := 2026; Month := 5; Day := 15; DayOfWeek := 5 |} = "2026-05-15".
Proof. vm_compute. reflexivity. Qed.

End Date.

Module Time.

(** [Time] *)
Record t := { Hour : Z; Minute : Z; Second : Z; Hundredths : Z }.

#[global] Instance t_eq_dec : EqDecision t.
Proof. solve_decision. Defined.

Definition TimeWildcardField : Z := 0xFF.

Definition DecodeTime (payload : bytes) : go t :=
  let! h := idx payload 0 in
  let! m := idx payload 1 in
  let! s := idx payload 2 in
  let! hs := idx payload 3 in
  Ret {| Hour := h; Minute := m; Second := s; Hundredths := hs |}.

Definition EncodeTime (t : t) : bytes := [Hour t; Minute t; Second t; Hundredths t].

Definition EncodeTimeTag (t : t) : bytes :=
  let data := EncodeTime t in
  EncodeTag TagTime TagClassApplication (len data) ++ data.

(** The [field] closure of [Time.String]. *)
Definition field (v : Z) (width : nat) : string :=
  if v =? TimeWildcardField then "?" else dec_pad width v.

(** [Time.String] *)
Definition String (t : t) : string :=
  field (Hour t) 2 +:+ ":" +:+ field (Minute t) 2 +:+ ":" +:+ field (Second t) 2 +:+ "." +:+
  field (Hundredths t) 2.

Lemma DecodeTime_eq h m s hs r :
  DecodeTime (h :: m :: s :: hs :: r) = Ret {| Hour := h; Minute := m; Second := s; Hundredths := hs |}.
Proof. unfold DecodeTime. by idx_eval. Qed.

Example String_wildcard :
  String {| Hour := 14; Minute := 255; Second := 30; Hundredths := 255 |} = "14:?:30.?".
Proof. vm_compute. reflexivity. Qed.

End Time.
