(* ===== verification/Values.v ===== *)
(** * Property values ([decodePropertyValue], [encodePropertyValue] of [client.go])

    The dynamically typed values of the API and their wire codec.  A Go call
    that returns [(interface{}, error)] is modelled with both results, because
    callers use the value of a failed call.  [TagCodec] is the interface
    between the value decoder and the primitive codecs: an application tag, an
    encoder for its payload, and the law that the decoder's switch inverts it. *)

From S2P Require Import Prelude Enums Errors Tags Text DataTypes.
#[local] Open Scope string_scope.
#[local] Open Scope list_scope.
#[local] Open Scope Z_scope.

(** ** Values

    The dynamic types the client produces or accepts; [VOther] is a value of
    any other type, by the name [%T] prints.  [VInt] is Go's [int]. *)
Inductive Value : Type :=
  | VNil
  | VBool (b : bool)
  | VInt (v : Z)
  | VInt32 (v : Z)
  | VUint32 (v : Z)
  | VFloat32 (bits : Z)
  | VFloat64 (bits : Z)
  | VBytes (bs : bytes)
  | VString (s : bytes)
  | VBitString (b : BitString.t)
  | VDate (d : Date.t)
  | VTime (t : Time.t)
  | VObjectID (o : ObjectIdentifier)
  | VOther (type_name : string).

#[export] Instance Value_eq_dec : EqDecision Value.
Proof. solve_decision. Defined.

(** [%T] *)
Definition type_name (v : Value) : string :=
  match v with
  | VNil => "<nil>"
  | VBool _ => "bool"
  | VInt _ => "int"
  | VInt32 _ => "int32"
  | VUint32 _ => "uint32"
  | VFloat32 _ => "float32"
  | VFloat64 _ => "float64"
  | VBytes _ => "[]uint8"
  | VString _ => "string"
  | VBitString _ => "bacnet.BitString"
  | VDate _ => "bacnet.Date"
  | VTime _ => "bacnet.Time"
  | VObjectID _ => "bacnet.ObjectIdentifier"
  | VOther t => t
  end.

(** The results of a call that returns [(interface{}, error)]. *)
Definition value_result : Type := Value * option error.

(** ** Decoding *)

(** The second switch of [decodePropertyValue]: the payload of an application
    tag other than Null and Boolean. *)
Definition decodeApplicationValue (tagNum : Z) (valueData : bytes) : go value_result :=
  if tagNum =? TagUnsignedInt then let! v := DecodeUnsigned valueData in Ret (VUint32 v, None)
  else if tagNum =? TagSignedInt then let! v := DecodeSigned valueData in Ret (VInt32 v, None)
  else if tagNum =? TagReal then
    if negb (len valueData =? 4) then Ret (VNil, Some ErrInvalidResponse)
    else let! v := DecodeReal valueData in Ret (VFloat32 v, None)
  else if tagNum =? TagDouble then
    if negb (len valueData =? 8) then Ret (VNil, Some ErrInvalidResponse)
    else let! v := DecodeDouble valueData in Ret (VFloat64 v, None)
  else if tagNum =? TagOctetString then Ret (VBytes valueData, None)
  else if tagNum =? TagCharacterString then
    let! s := DecodeCharacterString valueData in Ret (VString s, None)
  else if tagNum =? TagBitString then
    let! r := try (BitString.DecodeBitString valueData) in
    match r with
    | inl b => Ret (VBitString b, None)
    | inr err => Ret (VBitString {| BitString.UnusedBits := 0; BitString.Bytes := [] |}, Some err)
    end
  else if tagNum =? TagEnumerated then let! v := DecodeUnsigned valueData in Ret (VUint32 v, None)
  else if tagNum =? TagDate then
    if negb (len valueData =? 4) then Ret (VNil, Some ErrInvalidResponse)
    else let! d := Date.DecodeDate valueData in Ret (VDate d, None)
  else if tagNum =? TagTime then
    if negb (len valueData =? 4) then Ret (VNil, Some ErrInvalidResponse)
    else let! t := Time.DecodeTime valueData in Ret (VTime t, None)
  else if tagNum =? TagObjectID then
    if negb (len valueData =? 4) then Ret (VNil, Some ErrInvalidResponse)
    else let! oidValue := be32 valueData in Ret (VObjectID (DecodeObjectIdentifier oidValue), None)
  else Ret (VBytes valueData, None).

Definition decodePropertyValue (data : bytes) : go value_result :=
  if len data <? 1 then Ret (VNil, Some ErrInvalidResponse)
  else
    let! r := try (DecodeTagNumber data) in
    match r with
    | inr err => Ret (VNil, Some err)
    | inl h =>
        if Length h =? -2 then Ret (VNil, None)
        else if Class h =? TagClassApplication then
          if TagNum h =? TagNull then Ret (VNil, None)
          else if TagNum h =? TagBoolean then Ret (VBool (Length h =? 1), None)
          else if len data <? HeaderLen h + Length h then Ret (VNil, Some ErrInvalidResponse)
          else
            let! valueData := slice data (HeaderLen h) (HeaderLen h + Length h) in
            decodeApplicationValue (TagNum h) valueData
        else if (Length h <? 0) || (len data <? HeaderLen h + Length h)
        then Ret (VNil, Some ErrInvalidResponse)
        else
          let! out := slice data (HeaderLen h) (HeaderLen h + Length h) in
          Ret (VBytes out, None)
    end.

(** ** Encoding *)

Definition encodePropertyValue (value : Value) : go bytes :=
  match value with
  | VNil => Ret [0x00]
  | VBool v => Ret (EncodeBooleanTag v)
  | VInt v =>
      if 0 <=? v then Ret (EncodeUnsignedTag (u32 v))
      else
        let data := EncodeSigned (s32 v) in
        Ret (EncodeTag TagSignedInt TagClassApplication (len data) ++ data)
  | VInt32 v =>
      if 0 <=? v then Ret (EncodeUnsignedTag (u32 v))
      else
        let data := EncodeSigned v in
        Ret (EncodeTag TagSignedInt TagClassApplication (len data) ++ data)
  | VUint32 v => Ret (EncodeUnsignedTag v)
  | VFloat32 v => Ret (EncodeRealTag v)
  | VFloat64 v =>
      let data := EncodeDouble v in
      Ret (EncodeTag TagDouble TagClassApplication (len data) ++ data)
  | VString v => Ret (EncodeCharacterStringTag v)
  | VObjectID v => Ret (EncodeObjectIdentifierTag v)
  | VBytes _ | VBitString _ | VDate _ | VTime _ | VOther _ =>
      Err (EText ("unsupported value type: " +:+ type_name value))
  end.

(** ** Safety of the decoder *)

Lemma safely_be64 {E} d : 8 <= len d -> safely (@be64 E d) (fun _ => True).
Proof. unfold be64. intros. go_safe; done. Qed.

Lemma DecodeUnsigned_safe d : wf_bytes d -> safely (DecodeUnsigned d) (fun v => 0 <= v < 2 ^ 32).
Proof.
  intros Hwf. unfold DecodeUnsigned.
  destruct (Z.eqb_spec (len d) 1); [go_safe; lia|].
  destruct (Z.eqb_spec (len d) 2).
  { eapply safely_weaken; [apply safely_be16; lia|]. cbn. intros a Ha. specialize (Ha Hwf). lia. }
  destruct (Z.eqb_spec (len d) 3).
  { go_safe. rewrite three_octets by done. lia. }
  destruct (Z.eqb_spec (len d) 4); [|by go_safe].
  eapply safely_weaken; [apply safely_be32; lia|]. cbn. auto.
Qed.

Lemma DecodeSigned_safe d : wf_bytes d -> safely (DecodeSigned d) (fun v => - 2 ^ 31 <= v < 2 ^ 31).
Proof.
  intros Hwf. unfold DecodeSigned.
  go_safe; try apply (sint_range 32); try lia.
  - pose proof (sint_range 8 a). lia.
  - pose proof (sint_range 16 a). lia.
Qed.

#[export] Hint Extern 1 (safely (be64 _) _) => apply safely_be64; len_lia : go_safe.
#[export] Hint Extern 1 (safely (DecodeUnsigned _) _) => apply DecodeUnsigned_safe; auto with wf : go_safe.
#[export] Hint Extern 1 (safely (DecodeSigned _) _) => apply DecodeSigned_safe; auto with wf : go_safe.

Lemma DecodeBitString_safe d : safely (BitString.DecodeBitString d) (fun _ => True).
Proof. unfold BitString.DecodeBitString. go_safe; done. Qed.
Lemma DecodeDate_safe d : 4 <= len d -> safely (Date.DecodeDate d) (fun _ => True).
Proof. intros. unfold Date.DecodeDate. go_safe; done. Qed.

Lemma DecodeTime_safe d : 4 <= len d -> safely (Time.DecodeTime d) (fun _ => True).
Proof. intros. unfold Time.DecodeTime. go_safe; done. Qed.

#[export] Hint Resolve DecodeBitString_safe : go_safe.
#[export] Hint Extern 1 (safely (Date.DecodeDate _) _) => apply DecodeDate_safe; len_lia : go_safe.
#[export] Hint Extern 1 (safely (Time.DecodeTime _) _) => apply DecodeTime_safe; len_lia : go_safe.

Lemma decodeApplicationValue_safe t d :
  wf_bytes d -> safely (decodeApplicationValue t d) (fun _ => True).
Proof.
  intros Hwf. unfold decodeApplicationValue, DecodeReal, DecodeDouble.
  destruct (t =? TagUnsignedInt); [by go_safe|].
  destruct (t =? TagSignedInt); [by go_safe|].
  go_safe; done.
Qed.


#[local] Hint Extern 1 (safely (decodeApplicationValue _ _) _) =>
  apply decodeApplicationValue_safe; auto with wf : go_safe.

(** The value decoder never panics, whatever the bytes. *)
Lemma decodePropertyValue_safe d : wf_bytes d -> safely (decodePropertyValue d) (fun _ => True).
Proof.
  intros Hwf. unfold decodePropertyValue. go_step; [done|].
  eapply safely_bind; [apply safely_try, DecodeTagNumber_safe, Hwf|].
  intros [h|err]; [|done]. unfold header_ok. intros (H1 & H2 & H3 & H4 & H5 & H6).
  destruct (Z.eqb_spec (Length h) (-2)); [done|].
  destruct (Z.eqb_spec (Class h) TagClassApplication) as [Hc|Hc]; [|go_safe; done].
  assert (0 <= Length h) by (unfold TagClassApplication, TagClassContext in *; lia).
  go_safe; try done. eapply safely_weaken; [eauto with go_safe|done].
Qed.

#[export] Hint Extern 1 (safely (decodePropertyValue _) _) =>
  apply decodePropertyValue_safe; auto with wf : go_safe.

(** ** The interface of a primitive codec

    An application tag (not Null or Boolean, which have no payload), an encoder
    of payloads, the dynamic value a payload decodes to, and the law. *)
Class TagCodec (tag : Z) (A : Type) := {
  codec_ok : A -> Prop;
  codec_encode : A -> bytes;
  codec_value : A -> Value;
  codec_tag_range : 2 <= tag < 15;
  codec_len : forall a, codec_ok a -> len (codec_encode a) < 2 ^ 32;
  codec_law : forall a, codec_ok a ->
    decodeApplicationValue tag (codec_encode a) = Ret (codec_value a, None);
}.
Arguments codec_ok tag {A _} a.
Arguments codec_encode tag {A _} a.
Arguments codec_value tag {A _} a.

(** What the [EncodeXxxTag] functions write. *)
Definition app_tagged (tag : Z) (data : bytes) : bytes :=
  EncodeTag tag TagClassApplication (len data) ++ data.

(** Every primitive codec round trips through the value decoder, whatever
    follows in the packet. *)
Lemma decode_app_tagged tag {A} `{TagCodec tag A} a rest :
  codec_ok tag a ->
  decodePropertyValue (app_tagged tag (codec_encode tag a) ++ rest) = Ret (codec_value tag a, None).
Proof.
  intros Ha. pose proof codec_tag_range as Ht. pose proof (codec_len a Ha) as Hl.
  unfold app_tagged. set (d := codec_encode tag a) in *. unfold decodePropertyValue.
  assert (1 <= len (EncodeTag tag TagClassApplication (len d))) as Hh.
  { rewrite EncodeTag_short by len_lia. len_lia. }
  replace (len _ <? 1) with false by len_lia. rewrite <- app_assoc.
  rewrite DecodeTagNumber_EncodeTag; [|lia|by left|split; [apply len_nonneg|done]].
  cbn [try obind TagNum Class Length HeaderLen].
  replace (len d =? -2) with false by len_lia.
  change (TagClassApplication =? TagClassApplication) with true. cbn match.
  replace (tag =? TagNull) with false by (unfold TagNull; lia).
  replace (tag =? TagBoolean) with false by (unfold TagBoolean; lia).
  replace (len _ <? _) with false by len_lia.
  rewrite slice_mid. cbn [obind]. by apply codec_law.
Qed.

#[export, refine] Instance unsigned_codec : TagCodec TagUnsignedInt Z := {|
  codec_ok v := 0 <= v < 2 ^ 32; codec_encode := EncodeUnsigned; codec_value := VUint32;
  codec_tag_range := _; codec_len := _; codec_law := _ |}.
Proof.
  - vm_compute. by split.
  - intros v Hv. pose proof (len_EncodeUnsigned v Hv). lia.
  - intros v Hv. cbn. by rewrite DecodeUnsigned_EncodeUnsigned.
Defined.

#[export, refine] Instance enumerated_codec : TagCodec TagEnumerated Z := {|
  codec_ok v := 0 <= v < 2 ^ 32; codec_encode := EncodeEnumerated; codec_value := VUint32;
  codec_tag_range := _; codec_len := _; codec_law := _ |}.
Proof.
  - vm_compute. by split.
  - intros v Hv. pose proof (len_EncodeUnsigned v Hv). unfold EncodeEnumerated. lia.
  - intros v Hv. cbn. unfold EncodeEnumerated. by rewrite DecodeUnsigned_EncodeUnsigned.
Defined.

#[export, refine] Instance signed_codec : TagCodec TagSignedInt Z := {|
  codec_ok v := - 2 ^ 31 <= v < 2 ^ 31; codec_encode := EncodeSigned; codec_value := VInt32;
  codec_tag_range := _; codec_len := _; codec_law := _ |}.
Proof.
  - vm_compute. by split.
  - intros v Hv. unfold EncodeSigned. repeat case_match; len_lia.
  - intros v Hv. cbn. by rewrite DecodeSigned_EncodeSigned.
Defined.

#[export, refine] Instance real_codec : TagCodec TagReal Z := {|
  codec_ok v := 0 <= v < 2 ^ 32; codec_encode := EncodeReal; codec_value := VFloat32;
  codec_tag_range := _; codec_len := _; codec_law := _ |}.
Proof.
  - vm_compute. by split.
  - intros v Hv. unfold EncodeReal. len_lia.
  - intros v Hv. unfold decodeApplicationValue, EncodeReal, DecodeReal.
    pose proof (be32_octets (E:=error) v [] Hv) as Hb. cbn [app] in Hb. cbn -[be32]. by rewrite Hb.
Defined.

#[export, refine] Instance double_codec : TagCodec TagDouble Z := {|
  codec_ok v := 0 <= v < 2 ^ 64; codec_encode := EncodeDouble; codec_value := VFloat64;
  codec_tag_range := _; codec_len := _; codec_law := _ |}.
Proof.
  - vm_compute. by split.
  - intros v Hv. unfold EncodeDouble. len_lia.
  - intros v Hv. unfold decodeApplicationValue, EncodeDouble, DecodeDouble.
    pose proof (be64_put (E:=error) v [] Hv) as Hb. rewrite app_nil_r in Hb.
    change (len (put_be64 v)) with 8. cbn -[be64 put_be64]. by rewrite Hb.
Defined.

#[export, refine] Instance octet_string_codec : TagCodec TagOctetString bytes := {|
  codec_ok bs := len bs < 2 ^ 32; codec_encode bs := bs; codec_value := VBytes;
  codec_tag_range := _; codec_len := _; codec_law := _ |}.
Proof. - vm_compute. by split. - done. - done. Defined.

#[export, refine] Instance character_string_codec : TagCodec TagCharacterString bytes := {|
  codec_ok s := len s < 2 ^ 32 - 1 /\ wf_bytes s; codec_encode := EncodeCharacterString;
  codec_value := VString;
  codec_tag_range := _; codec_len := _; codec_law := _ |}.
Proof.
  - vm_compute. by split.
  - intros s [Hl _]. unfold EncodeCharacterString. len_lia.
  - intros s [_ Hs]. unfold EncodeCharacterString. cbn [app].
    unfold decodeApplicationValue. cbn -[DecodeCharacterString]. by rewrite DecodeCharacterString_eq.
Defined.

#[export, refine] Instance bit_string_codec : TagCodec TagBitString BitString.t := {|
  codec_ok b := BitString.ok b /\ len (BitString.Bytes b) < 2 ^ 32 - 1;
  codec_encode := BitString.EncodeBitString; codec_value := VBitString;
  codec_tag_range := _; codec_len := _; codec_law := _ |}.
Proof.
  - vm_compute. by split.
  - intros b [_ Hl]. unfold BitString.EncodeBitString. len_lia.
  - intros b [Hb _]. unfold decodeApplicationValue. cbn -[BitString.DecodeBitString BitString.EncodeBitString].
    by rewrite BitString.DecodeBitString_EncodeBitString.
Defined.

#[export, refine] Instance date_codec : TagCodec TagDate Date.t := {|
  codec_ok d := Date.in_range d /\ Date.wire_year (Date.Year d);
  codec_encode := Date.EncodeDate; codec_value := VDate;
  codec_tag_range := _; codec_len := _; codec_law := _ |}.
Proof.
  - vm_compute. by split.
  - intros d _. unfold Date.EncodeDate. len_lia.
  - intros d [Hd Hy]. apply Date.DecodeDate_EncodeDate in Hy; [|done].
    unfold decodeApplicationValue. change (len (Date.EncodeDate d)) with 4.
    cbn -[Date.DecodeDate Date.EncodeDate]. by rewrite Hy.
Defined.

#[export, refine] Instance time_codec : TagCodec TagTime Time.t := {|
  codec_ok t := True; codec_encode := Time.EncodeTime; codec_value := VTime;
  codec_tag_range := _; codec_len := _; codec_law := _ |}.
Proof.
  - vm_compute. by split.
  - intros t _. unfold Time.EncodeTime. len_lia.
  - intros [h m s hs] _. unfold decodeApplicationValue, Time.EncodeTime. cbn -[Time.DecodeTime].
    by rewrite Time.DecodeTime_eq.
Defined.

(** An identifier out of range is decoded as the identifier its word names. *)
#[export, refine] Instance object_id_codec : TagCodec TagObjectID ObjectIdentifier := {|
  codec_ok o := 0 <= OID_Type o < 2 ^ 16; codec_encode := EncodeObjectIdentifier;
  codec_value o := VObjectID (DecodeObjectIdentifier (OID_Encode o));
  codec_tag_range := _; codec_len := _; codec_law := _ |}.
Proof.
  - vm_compute. by split.
  - intros o _. unfold EncodeObjectIdentifier. len_lia.
  - intros o Ho. unfold decodeApplicationValue, EncodeObjectIdentifier.
    assert (0 <= OID_Encode o < 2 ^ 32) as Hr by (rewrite OID_Encode_eq by done; div_lia).
    pose proof (be32_octets (E:=error) (OID_Encode o) [] Hr) as Hb. cbn [app] in Hb.
    cbn -[be32 OID_Encode DecodeObjectIdentifier]. by rewrite Hb.
Defined.

(** ** Round trips of values *)

Lemma decode_null rest : decodePropertyValue (0x00 :: rest) = Ret (VNil, None).
Proof.
  unfold decodePropertyValue, DecodeTagNumber.
  replace (len _ <? 1) with false by len_lia. by rewrite idx_cons_0.
Qed.

Lemma decode_boolean b rest : decodePropertyValue (EncodeBooleanTag b ++ rest) = Ret (VBool b, None).
Proof.
  destruct b; unfold EncodeBooleanTag, decodePropertyValue, DecodeTagNumber; cbn [app];
    (replace (len _ <? 1) with false by len_lia); by rewrite idx_cons_0.
Qed.

Lemma decode_object_id o rest :
  oid_ok o -> decodePropertyValue (EncodeObjectIdentifierTag o ++ rest) = Ret (VObjectID o, None).
Proof.
  intros Ho. assert (codec_ok TagObjectID o) as Hc by (destruct Ho; cbn; lia).
  pose proof (decode_app_tagged TagObjectID o rest Hc) as H.
  cbn [codec_value object_id_codec] in H. by rewrite OID_Decode_Encode in H.
Qed.

(** C23. Every standard application tag decodes to its typed value: for null,
    booleans, unsigned, signed and enumerated integers, reals and doubles (bit
    for bit, NaNs included), octet and character strings, bit strings, dates,
    times and object identifiers, decoding the tagged encoding of a value in
    range, followed by anything, returns the value without an error. *)
Theorem application_values_roundtrip b u e i f g bs s bits d t o rest :
  0 <= u < 2 ^ 32 -> 0 <= e < 2 ^ 32 -> - 2 ^ 31 <= i < 2 ^ 31 ->
  0 <= f < 2 ^ 32 -> 0 <= g < 2 ^ 64 -> len bs < 2 ^ 32 ->
  len s < 2 ^ 32 - 1 -> wf_bytes s ->
  BitString.ok bits -> len (BitString.Bytes bits) < 2 ^ 32 - 1 ->
  Date.in_range d -> Date.wire_year (Date.Year d) -> oid_ok o ->
  decodePropertyValue (app_tagged TagNull [] ++ rest) = Ret (VNil, None) /\
  decodePropertyValue (EncodeBooleanTag b ++ rest) = Ret (VBool b, None) /\
  decodePropertyValue (EncodeUnsignedTag u ++ rest) = Ret (VUint32 u, None) /\
  decodePropertyValue (EncodeEnumeratedTag e ++ rest) = Ret (VUint32 e, None) /\
  decodePropertyValue (app_tagged TagSignedInt (EncodeSigned i) ++ rest) = Ret (VInt32 i, None) /\
  decodePropertyValue (EncodeRealTag f ++ rest) = Ret (VFloat32 f, None) /\
  decodePropertyValue (app_tagged TagDouble (EncodeDouble g) ++ rest) = Ret (VFloat64 g, None) /\
  decodePropertyValue (app_tagged TagOctetString bs ++ rest) = Ret (VBytes bs, None) /\
  decodePropertyValue (EncodeCharacterStringTag s ++ rest) = Ret (VString s, None) /\
  decodePropertyValue (BitString.EncodeBitStringTag bits ++ rest) = Ret (VBitString bits, None) /\
  decodePropertyValue (Date.EncodeDateTag d ++ rest) = Ret (VDate d, None) /\
  decodePropertyValue (Time.EncodeTimeTag t ++ rest) = Ret (VTime t, None) /\
  decodePropertyValue (EncodeObjectIdentifierTag o ++ rest) = Ret (VObjectID o, None).
Proof.
  intros Hu He Hi Hf Hg Hbs Hs Hws Hbits Hlbits Hd Hy Ho.
  split; [exact (decode_null rest)|].
  split; [apply decode_boolean|].
  split; [exact (decode_app_tagged TagUnsignedInt u rest Hu)|].
  split; [exact (decode_app_tagged TagEnumerated e rest He)|].
  split; [exact (decode_app_tagged TagSignedInt i rest Hi)|].
  split; [exact (decode_app_tagged TagReal f rest Hf)|].
  split; [exact (decode_app_tagged TagDouble g rest Hg)|].
  split; [exact (decode_app_tagged TagOctetString bs rest Hbs)|].
  split; [exact (decode_app_tagged TagCharacterString s rest (conj Hs Hws))|].
  split; [exact (decode_app_tagged TagBitString bits rest (conj Hbits Hlbits))|].
  split; [exact (decode_app_tagged TagDate d rest (conj Hd Hy))|].
  split; [exact (decode_app_tagged TagTime t rest I)|].
  by apply decode_object_id.
Qed.

Lemma application_values_roundtrip_witness :
  decodePropertyValue (EncodeRealTag 0x42C80000 ++ [0x3F]) = Ret (VFloat32 0x42C80000, None) /\
  decodePropertyValue (EncodeUnsignedTag 47808 ++ [0x3F]) = Ret (VUint32 47808, None).
Proof.
  pose (b := {| BitString.UnusedBits := 4; BitString.Bytes := [0xF0] |}).
  pose (d := {| Date.Year := 2025; Date.Month := 1; Date.Day := 31; Date.DayOfWeek := 5 |}).
  pose (t := {| Time.Hour := 1; Time.Minute := 2; Time.Second := 3; Time.Hundredths := 4 |}).
  pose (o := {| OID_Type := 8; OID_Instance := 1234 |}).
  refine ((fun H => conj (proj1 (proj2 (proj2 (proj2 (proj2 (proj2 H)))))) (proj1 (proj2 (proj2 H))))
    (application_values_roundtrip true 47808 1 (-5) 0x42C80000 0x3FF0000000000000 [1; 2] [65] b d t o
       [0x3F] _ _ _ _ _ _ _ _ _ _ _ _ _));
    unfold wf_bytes, is_byte, BitString.ok, Date.in_range, Date.wire_year, oid_ok;
    cbn; repeat constructor; try lia; done.
Defined.

(** ** Writing *)

(** The Go types hold only these values. *)
Definition value_in_width (v : Value) : Prop :=
  match v with
  | VInt i => - 2 ^ 63 <= i < 2 ^ 63
  | VInt32 i => - 2 ^ 31 <= i < 2 ^ 31
  | VUint32 u | VFloat32 u => 0 <= u < 2 ^ 32
  | VFloat64 u => 0 <= u < 2 ^ 64
  | VString s => wf_bytes s /\ len s < 2 ^ 32 - 1
  | VObjectID o => 0 <= OID_Type o < 2 ^ 16 /\ 0 <= OID_Instance o < 2 ^ 32
  | _ => True
  end.

Definition writable (v : Value) : bool :=
  match v with
  | VBytes _ | VBitString _ | VDate _ | VTime _ | VOther _ => false
  | _ => true
  end.

(** What a device that echoes a written value answers to a read. *)
Definition read_back (v : Value) : Value :=
  match v with
  | VInt i => if 0 <=? i then VUint32 (i mod 2 ^ 32) else VInt32 (s32 i)
  | VInt32 i => if 0 <=? i then VUint32 i else VInt32 i
  | VObjectID o =>
      VObjectID {| OID_Type := OID_Type o mod 2 ^ 10; OID_Instance := OID_Instance o mod 2 ^ 22 |}
  | v => v
  end.

Lemma encode_decode_writable v rest :
  value_in_width v -> writable v = true ->
  exists bs, encodePropertyValue v = Ret bs /\
    decodePropertyValue (bs ++ rest) = Ret (read_back v, None).
Proof.
  destruct v as [|b|i|i|u|f|g|bs|s|bits|d|t|o|n]; cbn [value_in_width writable]; intros Hw Hr;
    try done; cbn [encodePropertyValue read_back].
  - eexists. split; [done|]. apply decode_null.
  - eexists. split; [done|]. apply decode_boolean.
  - destruct (Z.leb_spec 0 i); eexists; (split; [done|]).
    + exact (decode_app_tagged TagUnsignedInt (u32 i) rest (uint_range 32 i ltac:(lia))).
    + exact (decode_app_tagged TagSignedInt (s32 i) rest (sint_range 32 i ltac:(lia))).
  - destruct (Z.leb_spec 0 i); eexists; (split; [done|]).
    + assert (0 <= i < 2 ^ 32) as Hu by lia. rewrite uint_small by done.
      exact (decode_app_tagged TagUnsignedInt i rest Hu).
    + exact (decode_app_tagged TagSignedInt i rest Hw).
  - eexists. split; [done|]. exact (decode_app_tagged TagUnsignedInt u rest Hw).
  - eexists. split; [done|]. exact (decode_app_tagged TagReal f rest Hw).
  - eexists. split; [done|]. exact (decode_app_tagged TagDouble g rest Hw).
  - eexists. split; [done|]. exact (decode_app_tagged TagCharacterString s rest (conj (proj2 Hw) (proj1 Hw))).
  - eexists. split; [done|]. rewrite <- OID_Decode_Encode_mod by apply Hw.
    exact (decode_app_tagged TagObjectID o rest (proj1 Hw)).
Qed.

(** C24. What [WriteProperty] encodes, [ReadProperty] decodes: a writable
    value is encoded, and decoding the encoding yields it back, with a
    non-negative signed integer read back as an unsigned one, an [int] outside
    the 32-bit range reduced to it without an error, and an object identifier
    cut to its 10-bit type and 22-bit instance; every other type of value,
    among them the bit strings, dates, times and octet strings that
    [ReadProperty] returns, is refused with an error that names the type. *)
Theorem encodePropertyValue_roundtrip v rest :
  value_in_width v ->
  if writable v
  then exists bs, encodePropertyValue v = Ret bs /\
         decodePropertyValue (bs ++ rest) = Ret (read_back v, None)
  else encodePropertyValue v = Err (EText ("unsupported value type: " +:+ type_name v)).
Proof.
  intros Hv. destruct (writable v) eqn:Hw; [by apply encode_decode_writable|]. by destruct v.
Qed.

Lemma encodePropertyValue_roundtrip_witness :
  exists bs, encodePropertyValue (VInt (-129)) = Ret bs /\
    decodePropertyValue (bs ++ []) = Ret (VInt32 (-129), None).
Proof. apply (encodePropertyValue_roundtrip (VInt (-129)) []). cbn. lia. Defined.

(** ** The types of decoded values *)

(** The Go type and the range of the values an application tag stands for. *)
Definition typed (tag : Z) (v : Value) : Prop :=
  match v with
  | VNil => tag = TagNull
  | VBool _ => tag = TagBoolean
  | VUint32 u => (tag = TagUnsignedInt \/ tag = TagEnumerated) /\ 0 <= u < 2 ^ 32
  | VInt32 i => tag = TagSignedInt /\ - 2 ^ 31 <= i < 2 ^ 31
  | VFloat32 f => tag = TagReal /\ 0 <= f < 2 ^ 32
  | VFloat64 g => tag = TagDouble /\ 0 <= g < 2 ^ 64
  | VString s => tag = TagCharacterString /\ wf_bytes s
  | VBitString b => tag = TagBitString /\ BitString.ok b
  | VDate d => tag = TagDate /\ Date.in_range d /\ Date.wire_year (Date.Year d)
  | VTime t => tag = TagTime /\ wf_bytes (Time.EncodeTime t)
  | VObjectID o => tag = TagObjectID /\ oid_ok o
  | VBytes bs => (tag = TagOctetString \/ 13 <= tag) /\ wf_bytes bs
  | VInt _ | VOther _ => False
  end.

(** What comes with an error. *)
Definition no_value (v : Value) : Prop :=
  v = VNil \/ v = VBitString {| BitString.UnusedBits := 0; BitString.Bytes := [] |}.

Lemma four_octets d : wf_bytes d -> len d = 4 ->
  exists a b c e, d = [a; b; c; e] /\ is_byte a /\ is_byte b /\ is_byte c /\ is_byte e.
Proof.
  intros Hwf Hl. destruct d as [|a [|b [|c [|e [|]]]]]; try (exfalso; len_lia).
  unfold wf_bytes in Hwf. repeat (apply Forall_cons in Hwf as [? Hwf]). by exists a, b, c, e.
Qed.

Lemma DecodeDouble_range d : wf_bytes d -> len d = 8 -> safely (DecodeDouble d) (fun g => 0 <= g < 2 ^ 64).
Proof.
  intros Hwf Hl. destruct d as [|a [|b [|c [|e [|f [|g [|h [|i [|]]]]]]]]]; try (exfalso; len_lia).
  unfold wf_bytes in Hwf. repeat (apply Forall_cons in Hwf as [? Hwf]).
  unfold DecodeDouble. change (len _ =? 8) with true. cbn match. rewrite be64_eq by done.
  unfold is_byte in *. cbn. lia.
Qed.

Lemma utf8_wf runes : wf_bytes (utf8 runes).
Proof.
  apply wf_flat_map. intros r. unfold utf8_rune.
  assert (0 <= (if is_scalar r then r else replacementChar) < 1114112) as Hr.
  { destruct (is_scalar r) eqn:E; [unfold is_scalar in E; lia|unfold replacementChar; lia]. }
  revert Hr. generalize (if is_scalar r then r else replacementChar). clear r. intros r Hr.
  unfold utf8_scalar, wf_bytes, is_byte. repeat case_match; repeat apply Forall_cons_2; try apply Forall_nil_2; div_lia.
Qed.

Lemma DecodeCharacterString_wf d : wf_bytes d -> safely (DecodeCharacterString d) wf_bytes.
Proof.
  destruct d as [|e p]; [intros _; apply Forall_nil_2|]. intros [_ Hp]%Forall_cons.
  rewrite DecodeCharacterString_eq by done. cbn. unfold decoded_text. repeat case_match; auto using utf8_wf.
Qed.

(** The result for a payload with tag [t]. *)
Definition result_typed (t : Z) (r : value_result) : Prop :=
  match r.2 with None => typed t r.1 | Some _ => no_value r.1 end.

Lemma decodeApplicationValue_typed t d :
  wf_bytes d -> 2 <= t -> safely (decodeApplicationValue t d) (result_typed t).
Proof.
  intros Hwf Ht. unfold decodeApplicationValue.
  destruct (Z.eqb_spec t TagUnsignedInt) as [Et|N1].
  { eapply safely_bind; [by apply DecodeUnsigned_safe|]. cbn. auto. }
  destruct (Z.eqb_spec t TagSignedInt) as [Et|N2].
  { eapply safely_bind; [by apply DecodeSigned_safe|]. cbn. auto. }
  destruct (Z.eqb_spec t TagReal) as [Et|N3].
  { destruct (Z.eqb_spec (len d) 4) as [Hl|]; [|by left]. unfold DecodeReal. rewrite Hl. cbn [negb Z.eqb Pos.eqb].
    eapply safely_bind; [apply safely_be32; lia|]. cbn. auto. }
  destruct (Z.eqb_spec t TagDouble) as [Et|N4].
  { destruct (Z.eqb_spec (len d) 8) as [Hl|]; [|by left]. cbn [negb].
    eapply safely_bind; [by apply DecodeDouble_range|]. cbn. auto. }
  destruct (Z.eqb_spec t TagOctetString) as [Et|N5]; [cbn; auto|].
  destruct (Z.eqb_spec t TagCharacterString) as [Et|N6].
  { eapply safely_bind; [by apply DecodeCharacterString_wf|]. cbn. auto. }
  destruct (Z.eqb_spec t TagBitString) as [Et|N7].
  { destruct (BitString.DecodeBitString d) as [b|e| |] eqn:E; cbn; [|by right|..].
    - split; [done|]. by eapply BitString.DecodeBitString_ok.
    - pose proof (DecodeBitString_safe d) as H. by rewrite E in H.
    - pose proof (DecodeBitString_safe d) as H. by rewrite E in H. }
  destruct (Z.eqb_spec t TagEnumerated) as [Et|N8].
  { eapply safely_bind; [by apply DecodeUnsigned_safe|]. cbn. auto. }
  destruct (Z.eqb_spec t TagDate) as [Et|N9].
  { destruct (Z.eqb_spec (len d) 4) as [Hl|]; [|by left]. cbn [negb].
    destruct (four_octets d Hwf Hl) as (a & b & c & e & -> & Ha & Hb & Hc & He).
    rewrite Date.DecodeDate_eq. cbn -[Date.DateWildcardYear]. split; [done|].
    unfold Date.in_range, Date.wire_year, Date.DateWildcardYear, is_byte in *. cbn.
    destruct (Z.eqb_spec a 0xFF); [lia|]. unfold uint. div_lia. }
  destruct (Z.eqb_spec t TagTime) as [Et|N10].
  { destruct (Z.eqb_spec (len d) 4) as [Hl|]; [|by left]. cbn [negb].
    destruct (four_octets d Hwf Hl) as (a & b & c & e & -> & Ha & Hb & Hc & He).
    rewrite Time.DecodeTime_eq. by split. }
  destruct (Z.eqb_spec t TagObjectID) as [Et|N11].
  { destruct (Z.eqb_spec (len d) 4) as [Hl|]; [|by left]. cbn [negb].
    eapply safely_bind; [apply safely_be32; lia|]. cbn. intros v Hv. split; [done|]. apply DecodeObjectIdentifier_ok. auto. }
  cbn. split; [|done]. right.
  unfold TagUnsignedInt, TagSignedInt, TagReal, TagDouble, TagOctetString, TagCharacterString, TagBitString,
    TagEnumerated, TagDate, TagTime, TagObjectID in *. lia.
Qed.

Lemma no_err_DecodeUnsigned d : no_err (DecodeUnsigned d).
Proof. unfold DecodeUnsigned. no_err. Qed.
#[export] Hint Resolve no_err_DecodeUnsigned : no_err.

Lemma no_err_decodePropertyValue d : no_err (decodePropertyValue d).
Proof.
  unfold decodePropertyValue, decodeApplicationValue, DecodeSigned, DecodeReal, DecodeDouble,
    Date.DecodeDate, Time.DecodeTime, DecodeCharacterString.
  no_err. all: try (apply no_err_for_range; intros; no_err).
Qed.
#[export] Hint Resolve no_err_decodePropertyValue : no_err.

(** C19. The dynamic type of a decoded value follows from its tag.  Every byte
    string decodes; without an error, a closing tag gives nil, a context tag the
    raw octets, and an application tag a value of the Go type that belongs to
    it, in the range of that type: text and octets are octets, a bit string has
    at most seven unused bits, a date a year the wire can carry, an object
    identifier a 10-bit type and a 22-bit instance.  With an error the value is
    nil or the zero bit string. *)
Theorem decoded_values_typed d :
  wf_bytes d ->
  exists v err, decodePropertyValue d = Ret (v, err) /\
    match err with
    | Some _ => no_value v
    | None => exists h, DecodeTagNumber d = Ret h /\
        if Length h =? -2 then v = VNil
        else if Class h =? TagClassApplication then typed (TagNum h) v
        else exists bs, v = VBytes bs /\ wf_bytes bs
    end.
Proof.
  intros Hwf.
  assert (safely (decodePropertyValue d) (fun r => match r.2 with
    | Some _ => no_value r.1
    | None => exists h, DecodeTagNumber d = Ret h /\
        if Length h =? -2 then r.1 = VNil
        else if Class h =? TagClassApplication then typed (TagNum h) r.1
        else exists bs, r.1 = VBytes bs /\ wf_bytes bs
    end)) as Hs; cycle 1.
  { destruct (decodePropertyValue d) as [[v err]| | |] eqn:E; [by exists v, err| |done..].
    by destruct (no_err_decodePropertyValue _ _ E). }
  unfold decodePropertyValue. destruct (Z.ltb_spec (len d) 1); [by left|].
  pose proof (DecodeTagNumber_safe d Hwf) as Hh.
  destruct (DecodeTagNumber d) as [h|e| |] eqn:E; cbn [try obind]; [|by left|done..].
  cbn in Hh. destruct Hh as (H1 & H2 & H3 & H4 & H5 & H6).
  destruct (Z.eqb_spec (Length h) (-2)) as [E2|E2]; [exists h; by rewrite E2|].
  apply Z.eqb_neq in E2.
  destruct (Class h =? TagClassApplication) eqn:Ec.
  - destruct (Z.eqb_spec (TagNum h) TagNull) as [|N0]; [exists h; by rewrite E2, Ec|].
    destruct (Z.eqb_spec (TagNum h) TagBoolean) as [|N1]; [exists h; by rewrite E2, Ec|].
    destruct (Z.ltb_spec (len d) (HeaderLen h + Length h)); [by left|].
    assert (0 <= Length h) by (destruct (Z.ltb_spec (Length h) 0) as [Hn|]; [by rewrite (H6 Hn) in Ec|done]).
    eapply safely_bind; [apply safely_slice; lia|]. intros bs [_ Hbs]. unfold TagNull, TagBoolean, is_byte in *.
    eapply safely_weaken; [apply decodeApplicationValue_typed; [auto|lia]|].
    intros [w [e|]]; [done|]. exists h. by rewrite E2, Ec.
  - destruct (Z.ltb_spec (Length h) 0); [by left|].
    destruct (Z.ltb_spec (len d) (HeaderLen h + Length h)); [by left|]. cbn [orb].
    eapply safely_bind; [apply safely_slice; lia|]. intros bs [_ Hbs]. cbn. exists h. rewrite E2, Ec. eauto.
Qed.

Lemma decoded_values_typed_witness :
  exists v err, decodePropertyValue [0x75; 3; 0; 0xC3; 0x28] = Ret (v, err) /\
    match err with
    | Some _ => no_value v
    | None => exists h, DecodeTagNumber [0x75; 3; 0; 0xC3; 0x28] = Ret h /\
        if Length h =? -2 then v = VNil
        else if Class h =? TagClassApplication then typed (TagNum h) v
        else exists bs, v = VBytes bs /\ wf_bytes bs
    end.
Proof.
  apply (decoded_values_typed [0x75; 3; 0; 0xC3; 0x28]). unfold wf_bytes, is_byte.
  repeat apply Forall_cons_2; try apply Forall_nil_2; lia.
Defined.
