(* ===== verification/Options.v ===== *)
(** * Options ([options.go]) and version ([version.go])

    A functional option is a function on its record, as in the code; applying
    a list of options is a left fold.  A [time.Duration] is a number of
    nanoseconds, a pointer to a value an [option].  [logger] is the handle of a
    [*slog.Logger]; 0 stands for [slog.Default()]. *)

From S2P Require Import Prelude Enums.
#[local] Open Scope string_scope.
#[local] Open Scope list_scope.
#[local] Open Scope Z_scope.

Definition Millisecond : Z := 1000000.
Definition Second : Z := 1000 * Millisecond.

(** [for _, opt := range opts { opt(options) }] *)
Definition apply_options {O : Type} (opts : list (O -> O)) (options : O) : O :=
  fold_left (fun o opt => opt o) opts options.

(** ** Client options *)

(** [clientOptions] *)
Record clientOptions := {
  localDeviceID : Z;
  localAddress : string;
  networkNumber : Z;
  bbmdAddress : string;
  bbmdPort : Z;
  foreignDeviceTTL : Z;
  timeout : Z;
  retries : Z;
  retryDelay : Z;
  maxAPDULength : Z;
  segmentation : Z;
  proposedWindowSize : Z;
  autoDiscover : bool;
  discoverTimeout : Z;
  logger : Z
}.

Definition defaultOptions : clientOptions := {|
  localDeviceID := 0xFFFFFFFF;
  localAddress := EmptyString;
  networkNumber := 0;
  bbmdAddress := EmptyString;
  bbmdPort := 0;
  foreignDeviceTTL := 0;
  timeout := 3 * Second;
  retries := 3;
  retryDelay := 500 * Millisecond;
  maxAPDULength := MaxAPDULength;
  segmentation := SegmentationNone;
  proposedWindowSize := 1;
  autoDiscover := false;
  discoverTimeout := 5 * Second;
  logger := 0
|}.

(** [Option] *)
Definition Option_ : Type := clientOptions -> clientOptions.

Definition WithDeviceID (id : Z) : Option_ := fun o => {|
  localDeviceID := id; localAddress := localAddress o; networkNumber := networkNumber o;
  bbmdAddress := bbmdAddress o; bbmdPort := bbmdPort o; foreignDeviceTTL := foreignDeviceTTL o;
  timeout := timeout o; retries := retries o; retryDelay := retryDelay o;
  maxAPDULength := maxAPDULength o; segmentation := segmentation o;
  proposedWindowSize := proposedWindowSize o; autoDiscover := autoDiscover o;
  discoverTimeout := discoverTimeout o; logger := logger o |}.

Definition WithLocalAddress (addr : string) : Option_ := fun o => {|
  localDeviceID := localDeviceID o; localAddress := addr; networkNumber := networkNumber o;
  bbmdAddress := bbmdAddress o; bbmdPort := bbmdPort o; foreignDeviceTTL := foreignDeviceTTL o;
  timeout := timeout o; retries := retries o; retryDelay := retryDelay o;
  maxAPDULength := maxAPDULength o; segmentation := segmentation o;
  proposedWindowSize := proposedWindowSize o; autoDiscover := autoDiscover o;
  discoverTimeout := discoverTimeout o; logger := logger o |}.

Definition WithNetworkNumber (net : Z) : Option_ := fun o => {|
  localDeviceID := localDeviceID o; localAddress := localAddress o; networkNumber := net;
  bbmdAddress := bbmdAddress o; bbmdPort := bbmdPort o; foreignDeviceTTL := foreignDeviceTTL o;
  timeout := timeout o; retries := retries o; retryDelay := retryDelay o;
  maxAPDULength := maxAPDULength o; segmentation := segmentation o;
  proposedWindowSize := proposedWindowSize o; autoDiscover := autoDiscover o;
  discoverTimeout := discoverTimeout o; logger := logger o |}.

Definition WithBBMD (addr : string) (port : Z) (ttl : Z) : Option_ := fun o => {|
  localDeviceID := localDeviceID o; localAddress := localAddress o;
  networkNumber := networkNumber o; bbmdAddress := addr; bbmdPort := port;
  foreignDeviceTTL := ttl; timeout := timeout o; retries := retries o;
  retryDelay := retryDelay o; maxAPDULength := maxAPDULength o; segmentation := segmentation o;
  proposedWindowSize := proposedWindowSize o; autoDiscover := autoDiscover o;
  discoverTimeout := discoverTimeout o; logger := logger o |}.

Definition WithTimeout (d : Z) : Option_ := fun o => {|
  localDeviceID := localDeviceID o; localAddress := localAddress o;
  networkNumber := networkNumber o; bbmdAddress := bbmdAddress o; bbmdPort := bbmdPort o;
  foreignDeviceTTL := foreignDeviceTTL o; timeout := d; retries := retries o;
  retryDelay := retryDelay o; maxAPDULength := maxAPDULength o; segmentation := segmentation o;
  proposedWindowSize := proposedWindowSize o; autoDiscover := autoDiscover o;
  discoverTimeout := discoverTimeout o; logger := logger o |}.

Definition WithRetries (n : Z) : Option_ := fun o => {|
  localDeviceID := localDeviceID o; localAddress := localAddress o;
  networkNumber := networkNumber o; bbmdAddress := bbmdAddress o; bbmdPort := bbmdPort o;
  foreignDeviceTTL := foreignDeviceTTL o; timeout := timeout o; retries := n;
  retryDelay := retryDelay o; maxAPDULength := maxAPDULength o; segmentation := segmentation o;
  proposedWindowSize := proposedWindowSize o; autoDiscover := autoDiscover o;
  discoverTimeout := discoverTimeout o; logger := logger o |}.

Definition WithRetryDelay (d : Z) : Option_ := fun o => {|
  localDeviceID := localDeviceID o; localAddress := localAddress o;
  networkNumber := networkNumber o; bbmdAddress := bbmdAddress o; bbmdPort := bbmdPort o;
  foreignDeviceTTL := foreignDeviceTTL o; timeout := timeout o; retries := retries o;
  retryDelay := d; maxAPDULength := maxAPDULength o; segmentation := segmentation o;
  proposedWindowSize := proposedWindowSize o; autoDiscover := autoDiscover o;
  discoverTimeout := discoverTimeout o; logger := logger o |}.

Definition WithMaxAPDULength (length : Z) : Option_ := fun o => {|
  localDeviceID := localDeviceID o; localAddress := localAddress o;
  networkNumber := networkNumber o; bbmdAddress := bbmdAddress o; bbmdPort := bbmdPort o;
  foreignDeviceTTL := foreignDeviceTTL o; timeout := timeout o; retries := retries o;
  retryDelay := retryDelay o; maxAPDULength := length; segmentation := segmentation o;
  proposedWindowSize := proposedWindowSize o; autoDiscover := autoDiscover o;
  discoverTimeout := discoverTimeout o; logger := logger o |}.

Definition WithSegmentation (seg : Z) : Option_ := fun o => {|
  localDeviceID := localDeviceID o; localAddress := localAddress o;
  networkNumber := networkNumber o; bbmdAddress := bbmdAddress o; bbmdPort := bbmdPort o;
  foreignDeviceTTL := foreignDeviceTTL o; timeout := timeout o; retries := retries o;
  retryDelay := retryDelay o; maxAPDULength := maxAPDULength o; segmentation := seg;
  proposedWindowSize := proposedWindowSize o; autoDiscover := autoDiscover o;
  discoverTimeout := discoverTimeout o; logger := logger o |}.

Definition WithProposedWindowSize (size : Z) : Option_ := fun o => {|
  localDeviceID := localDeviceID o; localAddress := localAddress o;
  networkNumber := networkNumber o; bbmdAddress := bbmdAddress o; bbmdPort := bbmdPort o;
  foreignDeviceTTL := foreignDeviceTTL o; timeout := timeout o; retries := retries o;
  retryDelay := retryDelay o; maxAPDULength := maxAPDULength o; segmentation := segmentation o;
  proposedWindowSize := size; autoDiscover := autoDiscover o;
  discoverTimeout := discoverTimeout o; logger := logger o |}.

Definition WithAutoDiscover (enable : bool) : Option_ := fun o => {|
  localDeviceID := localDeviceID o; localAddress := localAddress o;
  networkNumber := networkNumber o; bbmdAddress := bbmdAddress o; bbmdPort := bbmdPort o;
  foreignDeviceTTL := foreignDeviceTTL o; timeout := timeout o; retries := retries o;
  retryDelay := retryDelay o; maxAPDULength := maxAPDULength o; segmentation := segmentation o;
  proposedWindowSize := proposedWindowSize o; autoDiscover := enable;
  discoverTimeout := discoverTimeout o; logger := logger o |}.

Definition WithDiscoverTimeout (d : Z) : Option_ := fun o => {|
  localDeviceID := localDeviceID o; localAddress := localAddress o;
  networkNumber := networkNumber o; bbmdAddress := bbmdAddress o; bbmdPort := bbmdPort o;
  foreignDeviceTTL := foreignDeviceTTL o; timeout := timeout o; retries := retries o;
  retryDelay := retryDelay o; maxAPDULength := maxAPDULength o; segmentation := segmentation o;
  proposedWindowSize := proposedWindowSize o; autoDiscover := autoDiscover o;
  discoverTimeout := d; logger := logger o |}.

Definition WithLogger (l : Z) : Option_ := fun o => {|
  localDeviceID := localDeviceID o; localAddress := localAddress o;
  networkNumber := networkNumber o; bbmdAddress := bbmdAddress o; bbmdPort := bbmdPort o;
  foreignDeviceTTL := foreignDeviceTTL o; timeout := timeout o; retries := retries o;
  retryDelay := retryDelay o; maxAPDULength := maxAPDULength o; segmentation := segmentation o;
  proposedWindowSize := proposedWindowSize o; autoDiscover := autoDiscover o;
  discoverTimeout := discoverTimeout o; logger := l |}.

(** ** Discovery options *)

(** [DiscoverOptions] *)
Record DiscoverOptions := {
  LowLimit : option Z;
  HighLimit : option Z;
  DO_Timeout : Z;
  DO_Network : Z
}.

Definition DiscoverOption : Type := DiscoverOptions -> DiscoverOptions.

Definition defaultDiscoverOptions : DiscoverOptions :=
  {| LowLimit := None; HighLimit := None; DO_Timeout := 5 * Second; DO_Network := 0 |}.

Definition WithDeviceRange (low high : Z) : DiscoverOption := fun o =>
  {| LowLimit := Some low; HighLimit := Some high;
     DO_Timeout := DO_Timeout o; DO_Network := DO_Network o |}.

Definition WithDiscoveryTimeout (d : Z) : DiscoverOption := fun o =>
  {| LowLimit := LowLimit o; HighLimit := HighLimit o; DO_Timeout := d; DO_Network := DO_Network o |}.

Definition WithTargetNetwork (net : Z) : DiscoverOption := fun o =>
  {| LowLimit := LowLimit o; HighLimit := HighLimit o; DO_Timeout := DO_Timeout o; DO_Network := net |}.

(** ** Read, write and subscription options *)

(** [ReadOptions] *)
Record ReadOptions := { RO_ArrayIndex : option Z }.
Definition ReadOption : Type := ReadOptions -> ReadOptions.
Definition WithArrayIndex (index : Z) : ReadOption := fun _ => {| RO_ArrayIndex := Some index |}.

(** [WriteOptions] *)
Record WriteOptions := { WO_ArrayIndex : option Z; WO_Priority : option Z }.
Definition WriteOption : Type := WriteOptions -> WriteOptions.

Definition WithWriteArrayIndex (index : Z) : WriteOption := fun o =>
  {| WO_ArrayIndex := Some index; WO_Priority := WO_Priority o |}.

Definition WithPriority (priority : Z) : WriteOption := fun o =>
  if (1 <=? priority) && (priority <=? 16)
  then {| WO_ArrayIndex := WO_ArrayIndex o; WO_Priority := Some priority |}
  else o.

(** [SubscribeOptions] *)
Record SubscribeOptions := { Lifetime : option Z; COVIncrement : option Z; Confirmed : bool }.
Definition SubscribeOption : Type := SubscribeOptions -> SubscribeOptions.

Definition WithSubscriptionLifetime (seconds : Z) : SubscribeOption := fun o =>
  {| Lifetime := Some seconds; COVIncrement := COVIncrement o; Confirmed := Confirmed o |}.

Definition WithCOVIncrement (increment : Z) : SubscribeOption := fun o =>
  {| Lifetime := Lifetime o; COVIncrement := Some increment; Confirmed := Confirmed o |}.

Definition WithConfirmedNotifications (confirmed : bool) : SubscribeOption := fun o =>
  {| Lifetime := Lifetime o; COVIncrement := COVIncrement o; Confirmed := confirmed |}.

(** The literals [&ReadOptions{}], [&WriteOptions{}] and [&SubscribeOptions{Confirmed: false}]. *)
Definition noReadOptions : ReadOptions := {| RO_ArrayIndex := None |}.
Definition noWriteOptions : WriteOptions := {| WO_ArrayIndex := None; WO_Priority := None |}.
Definition noSubscribeOptions : SubscribeOptions :=
  {| Lifetime := None; COVIncrement := None; Confirmed := false |}.

(** ** Version *)

Definition Version_ : string := "0.1.0".
Definition VersionMajor : Z := 0.
Definition VersionMinor : Z := 1.
Definition VersionPatch : Z := 0.

(** [VersionInfo] *)
Record VersionInfo := { VI_Version : string; VI_Major : Z; VI_Minor : Z; VI_Patch : Z }.

Definition GetVersion : VersionInfo :=
  {| VI_Version := Version_; VI_Major := VersionMajor; VI_Minor := VersionMinor;
     VI_Patch := VersionPatch |}.

(** The version text is the three numbers. *)
Example GetVersion_consistent :
  VI_Version GetVersion =
    dec (VI_Major GetVersion) +:+ "." +:+ dec (VI_Minor GetVersion) +:+ "." +:+ dec (VI_Patch GetVersion).
Proof. reflexivity. Qed.

(** ** The write priority *)

(** The exported write options. *)
Inductive write_option : WriteOption -> Prop :=
  | WO_index i : write_option (WithWriteArrayIndex i)
  | WO_priority p : write_option (WithPriority p).

Lemma apply_options_app {O} (opts opts' : list (O -> O)) o :
  apply_options (opts ++ opts') o = apply_options opts' (apply_options opts o).
Proof. apply fold_left_app. Qed.

(** The priority of a write is absent or one of the 16 BACnet priorities,
    whatever options the caller passes and in whatever order: an out-of-range
    [WithPriority] leaves an earlier valid one in force, and the last valid one
    wins. *)
Theorem write_priority_valid opts p :
  Forall write_option opts ->
  (match WO_Priority (apply_options opts noWriteOptions) with
   | Some q => 1 <= q <= 16
   | None => True
   end) /\
  WO_Priority (apply_options (opts ++ [WithPriority p]) noWriteOptions) =
    if bool_decide (1 <= p <= 16) then Some p
    else WO_Priority (apply_options opts noWriteOptions).
Proof.
  intros Hopts. split.
  - induction opts as [|opt opts IH] using rev_ind; [done|].
    apply Forall_app in Hopts as [Hopts Hopt].
    rewrite (apply_options_app opts [opt]).
    apply Forall_singleton in Hopt as [i|q]; cbn; [by apply IH|].
    unfold WithPriority. destruct ((1 <=? q) && (q <=? 16)) eqn:E; cbn; [lia|by apply IH].
  - rewrite (apply_options_app opts [WithPriority p]). cbn. unfold WithPriority. case_bool_decide.
    + by replace ((1 <=? p) && (p <=? 16)) with true by lia.
    + by replace ((1 <=? p) && (p <=? 16)) with false by lia.
Qed.

Lemma write_priority_valid_witness :
  Forall write_option [WithPriority 8; WithWriteArrayIndex 2; WithPriority 0] /\
  WO_Priority (apply_options ([WithPriority 8; WithWriteArrayIndex 2; WithPriority 0] ++ [WithPriority 17])
    noWriteOptions) = Some 8.
Proof.
  assert (Forall write_option [WithPriority 8; WithWriteArrayIndex 2; WithPriority 0]) as H
    by repeat constructor.
  split; [exact H|]. exact (proj2 (write_priority_valid _ 17 H)).
Defined.
