(* ===== verification/Services.v ===== *)
(** * Service payloads ([client.go])

    The request payloads of the confirmed services and the decoders of their
    acknowledgements and errors.  A loop over the response bytes has fuel, and
    the function starts it with more fuel than the response has octets; the
    [_safe] lemmas show that this is enough. *)

From S2P Require Import Prelude Enums Errors Tags Text DataTypes Values Options.
#[local] Open Scope string_scope.
#[local] Open Scope list_scope.
#[local] Open Scope Z_scope.

(** ** Data *)

(** [PropertyValue] *)
Record PropertyValue := {
  PV_ObjectID : ObjectIdentifier;
  PV_PropertyID : Z;
  PV_ArrayIndex : option Z;
  PV_Value : Value;
  PV_Priority : option Z
}.

(** [ReadPropertyRequest] *)
Record ReadPropertyRequest := {
  RP_ObjectID : ObjectIdentifier;
  RP_PropertyID : Z;
  RP_ArrayIndex : option Z
}.

(** ** Decoding *)

Definition readUnsignedTag (data : bytes) (offset : Z) : go (Z * Z) :=
  if (offset <? 0) || (len data <? offset) then Err ErrInvalidResponse
  else
    let! s := slice_from data offset in
    let! h := DecodeTagNumber s in
    if (Length h <? 0) || (len data <? offset + HeaderLen h + Length h)
    then Err ErrInvalidResponse
    else
      let! p := slice data (offset + HeaderLen h) (offset + HeaderLen h + Length h) in
      let! value := DecodeUnsigned p in
      Ret (value, offset + HeaderLen h + Length h).

(** The error value is the result.  [ErrorClass] and [ErrorCode] are octets. *)
Definition decodeError (data : bytes) : go error :=
  let! r := try (readUnsignedTag data 0) in
  match r with
  | inr _ => Ret ErrInvalidResponse
  | inl (classVal, off) =>
      let! r := try (readUnsignedTag data off) in
      match r with
      | inr _ => Ret ErrInvalidResponse
      | inl (codeVal, _) => Ret (NewBACnetError (u8 classVal) (u8 codeVal))
      end
  end.

(** [DecodeTagNumber(data[offset:])], its error only tested against nil. *)
Definition tag_at (data : bytes) (offset : Z) : go (option TagHeader) :=
  let! s := slice_from data offset in
  let! r := try (DecodeTagNumber s) in
  Ret (match r with inl h => Some h | inr _ => None end).

(** A context tag [n] with a length: the tests of the [0] and [1] slots. *)
Definition context_data (n : Z) (h : TagHeader) : bool :=
  negb (negb (TagNum h =? n) || negb (Class h =? TagClassContext) || (Length h <? 0)).

(** Optional array index [2] of a ReadProperty response: the next offset. *)
Definition skip_array_index (data : bytes) (offset : Z) : go Z :=
  if offset <? len data then
    let! r := tag_at data offset in
    match r with
    | Some h =>
        if context_data 2 h && (offset + HeaderLen h + Length h <=? len data)
        then Ret (offset + HeaderLen h + Length h) else Ret offset
    | None => Ret offset
    end
  else Ret offset.

Definition decodeReadPropertyResponse (data : bytes) : go value_result :=
  if len data <? 8 then Ret (VNil, Some ErrInvalidResponse)
  else
    let offset := 0 in
    (* object identifier [0] *)
    let! r := tag_at data offset in
    match r with
    | None => Ret (VNil, Some ErrInvalidResponse)
    | Some h =>
    if negb (context_data 0 h) then Ret (VNil, Some ErrInvalidResponse)
    else if len data <? offset + HeaderLen h + Length h then Ret (VNil, Some ErrInvalidResponse)
    else
    let offset := offset + HeaderLen h + Length h in
    (* property identifier [1] *)
    let! r := tag_at data offset in
    match r with
    | None => Ret (VNil, Some ErrInvalidResponse)
    | Some h =>
    if negb (context_data 1 h) then Ret (VNil, Some ErrInvalidResponse)
    else if len data <? offset + HeaderLen h + Length h then Ret (VNil, Some ErrInvalidResponse)
    else
    let offset := offset + HeaderLen h + Length h in
    (* optional array index [2] *)
    let! offset := skip_array_index data offset in
    (* opening tag [3] *)
    if len data <=? offset then Ret (VNil, Some ErrInvalidResponse)
    else
    let! r := tag_at data offset in
    match r with
    | None => Ret (VNil, Some ErrInvalidResponse)
    | Some h =>
    if negb (TagNum h =? 3) || negb (Class h =? TagClassContext) || negb (Length h =? -1)
    then Ret (VNil, Some ErrInvalidResponse)
    else
    let offset := offset + 1 in
    let! s := slice_from data offset in
    decodePropertyValue s
    end end end.

Fixpoint skip_loop (fuel : nat) (data : bytes) (offset wantTag : Z) : go Z :=
  match fuel with
  | O => NoFuel
  | S fuel =>
      if offset <? len data then
        let! r := tag_at data offset in
        match r with
        | None => Ret (len data)
        | Some h =>
            let offset := offset + HeaderLen h in
            if (Length h =? -2) && (Class h =? TagClassContext) && (TagNum h =? wantTag)
            then Ret offset
            else if 0 <? Length h then
              if len data <? offset + Length h then Ret (len data)
              else skip_loop fuel data (offset + Length h) wantTag
            else skip_loop fuel data offset wantTag
        end
      else Ret offset
  end.

Definition skipToContextClosingTag (data : bytes) (offset wantTag : Z) : go Z :=
  skip_loop (S (length data)) data offset wantTag.

(** Optional array index [3] of a property of the response: the index and the
    next offset. *)
Definition peek_array_index (data : bytes) (offset : Z) : go (option Z * Z) :=
  if offset <? len data then
    let! r := tag_at data offset in
    match r with
    | Some h =>
        if context_data 3 h && (offset + HeaderLen h + Length h <=? len data) then
          let! p := slice data (offset + HeaderLen h) (offset + HeaderLen h + Length h) in
          let! i := DecodeUnsigned p in
          Ret (Some i, offset + HeaderLen h + Length h)
        else Ret (None, offset)
    | None => Ret (None, offset)
    end
  else Ret (None, offset).

(** [propertyLoop]: the results of one object.  The loop ends at a closing
    tag, at the end of the data, or by a [break] where an element is
    malformed; each returns the offset reached and the results so far. *)
Fixpoint propertyLoop (fuel : nat) (data : bytes) (oid : ObjectIdentifier) (offset : Z)
    (results : list PropertyValue) : go (Z * list PropertyValue) :=
  match fuel with
  | O => NoFuel
  | S fuel =>
    if offset <? len data then
      let! r := tag_at data offset in
      match r with
      | None => Ret (offset, results)
      | Some h =>
      if (Length h =? -2) && (TagNum h =? 1) then Ret (offset + 1, results)
      else if negb (TagNum h =? 2) || negb (Class h =? TagClassContext) then Ret (offset, results)
      else if (Length h <? 0) || (len data <? offset + HeaderLen h + Length h)
      then Ret (offset, results)
      else
      let! p := slice data (offset + HeaderLen h) (offset + HeaderLen h + Length h) in
      let! propID := DecodeUnsigned p in
      let offset := offset + HeaderLen h + Length h in
      let! '(arrayIndex, offset) := peek_array_index data offset in
      if len data <=? offset then Ret (offset, results)
      else
      let! r := tag_at data offset in
      match r with
      | None => Ret (offset, results)
      | Some h =>
      if negb (Class h =? TagClassContext) || negb (Length h =? -1) then Ret (offset, results)
      else if TagNum h =? 4 then
        let offset := offset + 1 in
        let! s := slice_from data offset in
        let! '(value, _) := decodePropertyValue s in
        let! offset := skipToContextClosingTag data offset 4 in
        propertyLoop fuel data oid offset
          (results ++ [{| PV_ObjectID := oid; PV_PropertyID := propID;
                          PV_ArrayIndex := arrayIndex; PV_Value := value; PV_Priority := None |}])
      else if TagNum h =? 5 then
        let offset := offset + 1 in
        let! offset := skipToContextClosingTag data offset 5 in
        propertyLoop fuel data oid offset results
      else Ret (offset, results)
      end
      end
    else Ret (offset, results)
  end.

(** The outer loop: one object per turn. *)
Fixpoint objectLoop (fuel : nat) (data : bytes) (offset : Z)
    (results : list PropertyValue) : go (list PropertyValue) :=
  match fuel with
  | O => NoFuel
  | S fuel =>
    if offset <? len data then
      let! r := tag_at data offset in
      match r with
      | None => Ret results
      | Some h =>
      if negb (TagNum h =? 0) || negb (Class h =? TagClassContext) || negb (Length h =? 4)
      then Ret results
      else if len data <? offset + HeaderLen h + 4 then Ret results
      else
      let! p := slice data (offset + HeaderLen h) (offset + HeaderLen h + 4) in
      let! oidValue := be32 p in
      let oid := DecodeObjectIdentifier oidValue in
      let offset := offset + HeaderLen h + 4 in
      let! r := tag_at data offset in
      match r with
      | None => Ret results
      | Some h =>
      if negb (TagNum h =? 1) || negb (Class h =? TagClassContext) || negb (Length h =? -1)
      then Ret results
      else
      let offset := offset + 1 in
      let! '(offset, results) := propertyLoop (S (length data)) data oid offset results in
      objectLoop fuel data offset results
      end
      end
    else Ret results
  end.

(** It always returns a nil error. *)
Definition decodeReadPropertyMultipleResponse (data : bytes) : go (list PropertyValue) :=
  objectLoop (S (length data)) data 0 [].

(** ** Request payloads *)

(** [if p != nil { data = append(data, EncodeContextUnsigned(n, *p)...) }] *)
Definition optional_unsigned (n : Z) (p : option Z) : bytes :=
  match p with
  | Some v => EncodeContextUnsigned n v
  | None => []
  end.

Definition ReadProperty_request (objectID : ObjectIdentifier) (propertyID : Z) (options : ReadOptions) : bytes :=
  EncodeContextObjectIdentifier 0 objectID ++
  EncodeContextEnumerated 1 (u32 propertyID) ++
  optional_unsigned 2 (RO_ArrayIndex options).

Definition WriteProperty_request (objectID : ObjectIdentifier) (propertyID : Z) (value : Value)
    (options : WriteOptions) : go bytes :=
  let data :=
    EncodeContextObjectIdentifier 0 objectID ++
    EncodeContextEnumerated 1 (u32 propertyID) ++
    optional_unsigned 2 (WO_ArrayIndex options) ++
    EncodeOpeningTag 3 in
  let! r := try (encodePropertyValue value) in
  match r with
  | inr err => Err (EWrap "encode value: " err EmptyString)
  | inl encodedValue =>
      let data := data ++ encodedValue ++ EncodeClosingTag 3 in
      Ret (data ++ optional_unsigned 4 (option_map u32 (WO_Priority options)))
  end.

(** [objectRequests[req.ObjectID] = append(objectRequests[req.ObjectID], req)] *)
Definition add_request (m : gmap ObjectIdentifier (list ReadPropertyRequest))
    (req : ReadPropertyRequest) : gmap ObjectIdentifier (list ReadPropertyRequest) :=
  <[RP_ObjectID req := default [] (m !! RP_ObjectID req) ++ [req]]> m.

Definition group_requests (requests : list ReadPropertyRequest)
    : gmap ObjectIdentifier (list ReadPropertyRequest) :=
  fold_left add_request requests ∅.

(** The body of the loop over the map, for one object. *)
Definition object_request (oid : ObjectIdentifier) (reqs : list ReadPropertyRequest) : bytes :=
  EncodeContextObjectIdentifier 0 oid ++
  EncodeOpeningTag 1 ++
  concat (map (fun req =>
    EncodeContextEnumerated 0 (u32 (RP_PropertyID req)) ++
    optional_unsigned 1 (RP_ArrayIndex req)) reqs) ++
  EncodeClosingTag 1.

(** Go ranges over a map in any order: [order] is the order of this run. *)
Definition ReadPropertyMultiple_request (order : list (ObjectIdentifier * list ReadPropertyRequest)) : bytes :=
  concat (map (fun '(oid, reqs) => object_request oid reqs) order).

Definition range_order (requests : list ReadPropertyRequest)
    (order : list (ObjectIdentifier * list ReadPropertyRequest)) : Prop :=
  order ≡ₚ map_to_list (group_requests requests).

Definition SubscribeCOV_request (subID : Z) (objectID : ObjectIdentifier) (options : SubscribeOptions) : bytes :=
  EncodeContextUnsigned 0 subID ++
  EncodeContextObjectIdentifier 1 objectID ++
  (if Confirmed options then EncodeContextBoolean 2 true else []) ++
  optional_unsigned 3 (Lifetime options).

Definition UnsubscribeCOV_request (subID : Z) (objectID : ObjectIdentifier) : bytes :=
  EncodeContextUnsigned 0 subID ++
  EncodeContextObjectIdentifier 1 objectID.

Definition WhoIs_request (options : DiscoverOptions) : bytes :=
  match LowLimit options, HighLimit options with
  | Some low, Some high => EncodeContextUnsigned 0 low ++ EncodeContextUnsigned 1 high
  | _, _ => []
  end.

(** ** Safety *)

Lemma readUnsignedTag_safe d o :
  wf_bytes d ->
  safely (readUnsignedTag d o) (fun r => 0 <= r.1 < 2 ^ 32 /\ o < r.2 <= len d /\ 0 <= o).
Proof.
  intros Hwf. unfold readUnsignedTag. go_step; [done|].
  go_step. go_step. unfold header_ok in *. go_facts.
  go_safe. cbn [fst snd]. lia.
Qed.

#[export] Hint Extern 1 (safely (readUnsignedTag _ _) _) =>
  apply readUnsignedTag_safe; auto with wf : go_safe.

Lemma decodeError_safe d :
  wf_bytes d ->
  safely (decodeError d) (fun e => e = ErrInvalidResponse \/
    exists b, e = EBACnet b /\ is_byte (BE_Class b) /\ is_byte (BE_Code b)).
Proof.
  intros Hwf. unfold decodeError. go_safe; auto.
  right. eexists. split; [reflexivity|]. cbn. split; apply u8_byte.
Qed.

(** What the decoders know of a tag read at an offset. *)
Abbreviation header_at d o := (fun r : option TagHeader =>
  match r with
  | Some h => 1 <= HeaderLen h /\ o + HeaderLen h <= len d /\ -2 <= Length h /\
              (Length h < 0 -> Class h = TagClassContext)
  | None => True
  end).

Lemma tag_at_safe d o : wf_bytes d -> 0 <= o <= len d -> safely (tag_at d o) (header_at d o).
Proof.
  intros Hwf Ho. unfold tag_at. go_safe.
  match goal with r : TagHeader + error |- _ => destruct r as [h|err] end; [|done].
  unfold header_ok in *. lia.
Qed.

#[export] Hint Extern 1 (safely (tag_at _ _) _) => apply tag_at_safe; [auto with wf|len_lia] : go_safe.

Lemma context_data_spec n h :
  context_data n h = true <-> TagNum h = n /\ Class h = TagClassContext /\ 0 <= Length h.
Proof. unfold context_data. lia. Qed.

Lemma skip_array_index_safe d o :
  wf_bytes d -> 0 <= o <= len d -> safely (skip_array_index d o) (fun o' => o <= o' <= len d).
Proof. intros Hwf Ho. unfold skip_array_index, context_data. go_safe; lia. Qed.

#[local] Hint Extern 1 (safely (skip_array_index _ _) _) =>
  apply skip_array_index_safe; [auto with wf|lia] : go_safe.

Lemma decodeReadPropertyResponse_safe d :
  wf_bytes d -> safely (decodeReadPropertyResponse d) (fun _ => True).
Proof.
  intros Hwf. unfold decodeReadPropertyResponse, context_data. go_safe; try done.
  eapply safely_weaken; [eauto with go_safe|done].
Qed.

Lemma skip_loop_safe fuel d o w :
  wf_bytes d -> 0 <= o <= len d -> len d - o < Z.of_nat fuel ->
  safely (skip_loop fuel d o w) (fun o' => o <= o' <= len d).
Proof.
  intros Hwf. revert o. induction fuel as [|fuel IH]; intros o Ho Hf; [lia|].
  cbn [skip_loop]. go_safe; try lia;
    (eapply safely_weaken; [apply IH; lia|cbn; lia]).
Qed.

Lemma skipToContextClosingTag_safe d o w :
  wf_bytes d -> 0 <= o <= len d ->
  safely (skipToContextClosingTag d o w) (fun o' => o <= o' <= len d).
Proof. intros. apply skip_loop_safe; [done..|]. unfold len in *. lia. Qed.

Lemma peek_array_index_safe d o :
  wf_bytes d -> 0 <= o <= len d -> safely (peek_array_index d o) (fun r => o <= r.2 <= len d).
Proof. intros Hwf Ho. unfold peek_array_index, context_data. go_safe; cbn [snd]; lia. Qed.

#[local] Hint Extern 1 (safely (skipToContextClosingTag _ _ _) _) =>
  apply skipToContextClosingTag_safe; [auto with wf|lia] : go_safe.
#[local] Hint Extern 1 (safely (peek_array_index _ _) _) =>
  apply peek_array_index_safe; [auto with wf|lia] : go_safe.

(** Every turn of a loop consumes at least one octet, so the fuel suffices. *)
Lemma propertyLoop_safe fuel d oid o rs :
  wf_bytes d -> 0 <= o <= len d -> len d - o < Z.of_nat fuel ->
  safely (propertyLoop fuel d oid o rs)
    (fun r => o <= r.1 <= len d /\ 2 * len r.2 <= 2 * len rs + (r.1 - o)).
Proof.
  intros Hwf. revert o rs. induction fuel as [|fuel IH]; intros o rs Ho Hf; [lia|].
  cbn [propertyLoop]. go_safe; cbn [fst snd] in *; try lia;
    (eapply safely_weaken; [apply IH; lia|cbn; intros; len_lia]).
Qed.

#[local] Hint Extern 1 (safely (propertyLoop _ _ _ _ _) _) =>
  apply propertyLoop_safe; [auto with wf|lia|unfold len in *; lia] : go_safe.

Lemma objectLoop_safe fuel d o rs :
  wf_bytes d -> 0 <= o <= len d -> len d - o < Z.of_nat fuel ->
  safely (objectLoop fuel d o rs) (fun rs' => 2 * len rs' <= 2 * len rs + (len d - o)).
Proof.
  intros Hwf. revert o rs. induction fuel as [|fuel IH]; intros o rs Ho Hf; [lia|].
  cbn [objectLoop]. go_safe; cbn [fst snd] in *; try lia.
  eapply safely_weaken; [apply IH; lia|cbn; lia].
Qed.

Lemma decodeReadPropertyMultipleResponse_safe d :
  wf_bytes d -> safely (decodeReadPropertyMultipleResponse d) (fun rs => 2 * len rs <= len d).
Proof.
  intros. unfold decodeReadPropertyMultipleResponse.
  eapply safely_weaken; [apply objectLoop_safe; [done|len_lia|unfold len; lia]|].
  intros rs. cbn beta. change (len (@nil PropertyValue)) with 0. lia.
Qed.

(** ** Reading at a cursor *)

Lemma tag_at_rest d o x :
  rest_is d o x -> tag_at d o = let! r := try (DecodeTagNumber x) in
    Ret (match r with inl h => Some h | inr _ => None end).
Proof. intros H. unfold tag_at. rewrite (rest_slice_from d o x H). reflexivity. Qed.

Lemma tag_at_tag d o t c n x :
  rest_is d o (EncodeTag t c n ++ x) -> 0 <= t < 15 -> is_class c -> 0 <= n < 2 ^ 32 ->
  tag_at d o = Ret (Some {| TagNum := t; Class := c; Length := n; HeaderLen := len (EncodeTag t c n) |}).
Proof. intros Hr Ht Hc Hn. rewrite (tag_at_rest _ _ _ Hr). by rewrite DecodeTagNumber_EncodeTag. Qed.

Lemma tag_at_context d o n p x :
  rest_is d o (EncodeContextTag n p ++ x) -> 0 <= n < 15 -> len p < 2 ^ 32 ->
  tag_at d o = Ret (Some {| TagNum := n; Class := TagClassContext; Length := len p;
                            HeaderLen := len (EncodeTag n TagClassContext (len p)) |}).
Proof.
  unfold EncodeContextTag. rewrite <- app_assoc. intros Hr Hn Hp.
  eapply tag_at_tag; [done|done|by right|split; [apply len_nonneg|done]].
Qed.

(** Moving over a context tag and its data. *)
Lemma rest_context d o n p x :
  rest_is d o (EncodeContextTag n p ++ x) ->
  let hl := len (EncodeTag n TagClassContext (len p)) in
  o + hl + len p <= len d /\
  slice (E:=error) d (o + hl) (o + hl + len p) = Ret p /\
  rest_is d (o + hl + len p) x.
Proof.
  intros Hr hl. pose proof (rest_len _ _ _ Hr) as Hl. unfold EncodeContextTag in *.
  rewrite <- app_assoc in Hr. rewrite !len_app in Hl. fold hl in Hl. split; [len_lia|]. split.
  - eapply rest_slice; [exact Hr|reflexivity|reflexivity].
  - rewrite app_assoc in Hr. eapply rest_app; [exact Hr|]. rewrite len_app. fold hl. lia.
Qed.

Lemma tag_at_opening d o t x :
  rest_is d o (EncodeOpeningTag t ++ x) -> 0 <= t < 15 ->
  tag_at d o = Ret (Some {| TagNum := t; Class := TagClassContext; Length := -1; HeaderLen := 1 |}) /\
  o < len d /\ rest_is d (o + 1) x.
Proof.
  intros Hr Ht. rewrite (tag_at_rest _ _ _ Hr).
  rewrite DecodeTagNumber_EncodeOpeningTag by (unfold is_byte; lia).
  assert (len (EncodeOpeningTag t) = 1) as El
    by (unfold EncodeOpeningTag; by replace (t <? 15) with true by lia).
  rewrite El. split; [done|]. split; [|eapply rest_app; [exact Hr|by rewrite El]].
  apply rest_len in Hr. rewrite len_app in Hr. len_lia.
Qed.

Lemma tag_at_closing d o t x :
  rest_is d o (EncodeClosingTag t ++ x) -> 0 <= t < 15 ->
  tag_at d o = Ret (Some {| TagNum := t; Class := TagClassContext; Length := -2; HeaderLen := 1 |}) /\
  o < len d /\ rest_is d (o + 1) x.
Proof.
  intros Hr Ht. rewrite (tag_at_rest _ _ _ Hr).
  rewrite DecodeTagNumber_EncodeClosingTag by (unfold is_byte; lia).
  assert (len (EncodeClosingTag t) = 1) as El
    by (unfold EncodeClosingTag; by replace (t <? 15) with true by lia).
  rewrite El. split; [done|]. split; [|eapply rest_app; [exact Hr|by rewrite El]].
  apply rest_len in Hr. rewrite len_app in Hr. len_lia.
Qed.

Lemma len_EncodeUnsigned_bound v : 0 <= v < 2 ^ 32 -> 1 <= len (EncodeUnsigned v) < 2 ^ 32.
Proof. intros Hv. pose proof (len_EncodeUnsigned v Hv). lia. Qed.

Lemma len_EncodeObjectIdentifier o : len (EncodeObjectIdentifier o) = 4.
Proof. reflexivity. Qed.

#[export] Hint Rewrite len_EncodeObjectIdentifier : len.

(** An optional 32-bit index. *)
Definition index_ok (i : option Z) : Prop := match i with Some v => 0 <= v < 2 ^ 32 | None => True end.

(** ** ReadProperty and WriteProperty *)

Lemma skip_array_index_some d o i x :
  rest_is d o (EncodeContextUnsigned 2 i ++ x) -> 0 <= i < 2 ^ 32 ->
  exists o', skip_array_index d o = Ret o' /\ rest_is d o' x.
Proof.
  intros Hr Hi. unfold skip_array_index, EncodeContextUnsigned in *.
  pose proof (len_EncodeUnsigned_bound i Hi) as Hl.
  pose proof (tag_at_context _ _ _ _ _ Hr) as Ht. destruct (rest_context _ _ _ _ _ Hr) as (Hb & _ & Hn).
  rewrite Ht by lia. replace (o <? len d) with true by len_lia. cbn [obind].
  assert (context_data 2 {| TagNum := 2; Class := TagClassContext; Length := len (EncodeUnsigned i);
    HeaderLen := len (EncodeTag 2 TagClassContext (len (EncodeUnsigned i))) |} = true) as ->
    by (apply context_data_spec; cbn; lia).
  cbn [HeaderLen Length]. rewrite andb_true_l. replace (_ <=? len d) with true by lia. eauto.
Qed.

Lemma skip_array_index_none d o t x :
  rest_is d o (EncodeOpeningTag t ++ x) -> 0 <= t < 15 -> skip_array_index d o = Ret o.
Proof.
  intros Hr Ht. unfold skip_array_index. destruct (tag_at_opening _ _ _ _ Hr Ht) as (-> & Hl & _).
  replace (o <? len d) with true by lia. cbn [obind]. unfold context_data. cbn [TagNum Class Length].
  by rewrite !orb_true_r.
Qed.

(** A device's ReadProperty acknowledgement repeats the request and adds the
    value between the tags [3]. *)
Definition ReadProperty_ack (objectID : ObjectIdentifier) (propertyID : Z) (index : option Z) (content : bytes) : bytes :=
  ReadProperty_request objectID propertyID {| RO_ArrayIndex := index |} ++
  EncodeOpeningTag 3 ++ content ++ EncodeClosingTag 3.

Lemma decode_ReadProperty_ack oid pid i content :
  0 <= pid < 2 ^ 32 -> index_ok i ->
  decodeReadPropertyResponse (ReadProperty_ack oid pid i content) =
  decodePropertyValue (content ++ EncodeClosingTag 3).
Proof.
  intros Hp Hi. unfold ReadProperty_ack, ReadProperty_request. cbn [RO_ArrayIndex].
  rewrite (uint_small 32 pid) by done.
  set (d := (_ ++ _) ++ _). unfold decodeReadPropertyResponse.
  pose proof (len_EncodeUnsigned_bound pid Hp) as Hl.
  assert (rest_is d 0 d) as H0 by apply rest_start. unfold d at 2 in H0.
  rewrite <- !app_assoc in H0. unfold EncodeContextObjectIdentifier in H0.
  pose proof (tag_at_context _ _ _ _ _ H0) as T0. destruct (rest_context _ _ _ _ _ H0) as (B0 & _ & H1).
  unfold EncodeContextEnumerated, EncodeEnumerated in H1.
  pose proof (tag_at_context _ _ _ _ _ H1) as T1. destruct (rest_context _ _ _ _ _ H1) as (B1 & _ & H2).
  assert (len (EncodeTag 1 TagClassContext (len (EncodeUnsigned pid))) = 1) as E1.
  { rewrite EncodeTag_short by lia. unfold length_octets. replace (5 <=? _) with false; [done|].
    pose proof (len_EncodeUnsigned pid Hp). lia. }
  assert (8 <= len d) as Hd.
  { apply rest_len in H2. rewrite !len_app in H2. change (len (EncodeOpeningTag 3)) with 1 in H2.
    change (len (EncodeTag 0 _ _)) with 1 in H2. rewrite len_EncodeObjectIdentifier in H2. len_lia. }
  replace (len d <? 8) with false by lia.
  rewrite T0 by (rewrite ?len_EncodeObjectIdentifier; lia). cbn [obind].
  rewrite (proj2 (context_data_spec 0 _)) by (cbn; len_lia). cbn [negb HeaderLen Length].
  replace (len d <? _) with false by lia.
  rewrite T1 by lia. cbn [obind].
  rewrite (proj2 (context_data_spec 1 _)) by (cbn; len_lia). cbn [negb HeaderLen Length].
  replace (len d <? _) with false by lia.
  assert (exists o, skip_array_index d (0 + len (EncodeTag 0 TagClassContext (len (EncodeObjectIdentifier oid))) +
      len (EncodeObjectIdentifier oid) + len (EncodeTag 1 TagClassContext (len (EncodeUnsigned pid))) +
      len (EncodeUnsigned pid)) = Ret o /\
    rest_is d o (EncodeOpeningTag 3 ++ content ++ EncodeClosingTag 3)) as (o & -> & Ho).
  { destruct i as [i|]; cbn [optional_unsigned] in H2.
    - by eapply skip_array_index_some.
    - eexists. split; [eapply skip_array_index_none; [exact H2|lia]|exact H2]. }
  cbn [obind]. destruct (tag_at_opening _ _ _ _ Ho) as (-> & Hlt & H3); [lia|].
  replace (len d <=? o) with false by lia. cbn -[slice_from decodePropertyValue].
  by rewrite (rest_slice_from _ _ _ H3).
Qed.

(** Reading back what was written: a ReadProperty acknowledgement decodes
    to what [decodePropertyValue] makes of its value octets, whatever the
    object, the property, the optional array index and the value octets; and a
    device that answers a read with the octets it was sent in a WriteProperty
    (the payload of a write without priority has the form of an
    acknowledgement) gives the written value back, as [read_back] describes. *)
Theorem ReadProperty_reads_written oid pid i v content :
  0 <= pid < 2 ^ 32 -> index_ok i -> value_in_width v -> writable v = true ->
  decodeReadPropertyResponse (ReadProperty_ack oid pid i content) =
    decodePropertyValue (content ++ EncodeClosingTag 3) /\
  exists payload,
    WriteProperty_request oid pid v {| WO_ArrayIndex := i; WO_Priority := None |} = Ret payload /\
    decodeReadPropertyResponse payload = Ret (read_back v, None).
Proof.
  intros Hp Hi Hv Hw. split; [by apply decode_ReadProperty_ack|].
  destruct (encode_decode_writable v (EncodeClosingTag 3) Hv Hw) as (bs & He & Hd).
  exists (ReadProperty_ack oid pid i bs). split.
  - unfold WriteProperty_request. rewrite He. cbn [try obind WO_ArrayIndex WO_Priority option_map].
    unfold ReadProperty_ack, ReadProperty_request. cbn [RO_ArrayIndex optional_unsigned].
    by rewrite app_nil_r, <- !app_assoc.
  - by rewrite decode_ReadProperty_ack.
Qed.

Lemma ReadProperty_reads_written_witness :
  exists payload,
    WriteProperty_request {| OID_Type := 1; OID_Instance := 7 |} PropertyPresentValue (VFloat32 0x42C80000)
      {| WO_ArrayIndex := Some 3; WO_Priority := None |} = Ret payload /\
    decodeReadPropertyResponse payload = Ret (VFloat32 0x42C80000, None).
Proof.
  apply (ReadProperty_reads_written {| OID_Type := 1; OID_Instance := 7 |} PropertyPresentValue (Some 3)
    (VFloat32 0x42C80000) []); cbn; unfold PropertyPresentValue; try lia; done.
Defined.

(** ** ReadPropertyMultiple *)

(** Octets that [skipToContextClosingTag] walks over: tagged data, opening
    tags, and closing tags of another number.  The data of a boolean TRUE is
    missing here: its tag announces a length of 1 and has no data. *)
Inductive skippable (want : Z) : bytes -> Prop :=
  | skip_nil : skippable want []
  | skip_data t c p rest : 0 <= t < 15 -> is_class c -> len p < 2 ^ 32 ->
      skippable want rest -> skippable want (EncodeTag t c (len p) ++ p ++ rest)
  | skip_open t rest : 0 <= t < 15 ->
      skippable want rest -> skippable want (EncodeOpeningTag t ++ rest)
  | skip_close t rest : 0 <= t < 15 -> t <> want ->
      skippable want rest -> skippable want (EncodeClosingTag t ++ rest).

Lemma skippable_app w a b : skippable w a -> skippable w b -> skippable w (a ++ b).
Proof.
  intros Ha Hb. induction Ha; [done|rewrite <- !app_assoc; by constructor..].
Qed.

Lemma skippable_context w n p rest :
  0 <= n < 15 -> len p < 2 ^ 32 -> skippable w rest -> skippable w (EncodeContextTag n p ++ rest).
Proof. intros. unfold EncodeContextTag. rewrite <- app_assoc. constructor; try done. by right. Qed.

Lemma skippable_app_tagged w t p :
  0 <= t < 15 -> len p < 2 ^ 32 -> skippable w (app_tagged t p).
Proof.
  intros. unfold app_tagged. rewrite <- (app_nil_r p) at 2. constructor; try done; [by left|constructor].
Qed.

(** With enough fuel the walk over skippable octets arrives behind them. *)
Lemma skip_loop_content fuel d o w content x :
  skippable w content -> rest_is d o (content ++ x) -> len d - o < Z.of_nat fuel ->
  exists fuel' o', skip_loop fuel d o w = skip_loop fuel' d o' w /\
    rest_is d o' x /\ len d - o' < Z.of_nat fuel'.
Proof.
  intros Hs. revert fuel o. induction Hs as [|t c p r Ht Hc Hp _ IH|t r Ht _ IH|t r Ht Hne _ IH];
    intros fuel o Hr Hf; [by exists fuel, o|..]; (destruct fuel as [|fuel];
    [apply rest_len in Hr; lens; lia|]); rewrite <- ?app_assoc in Hr; cbn [skip_loop].
  - pose proof (rest_len _ _ _ Hr) as Hl.
    assert (1 <= len (EncodeTag t c (len p))) as H1
      by (rewrite EncodeTag_short by len_lia; len_lia).
    rewrite !len_app in Hl. replace (o <? len d) with true by len_lia.
    rewrite (tag_at_tag _ _ _ _ _ _ Hr) by (try done; len_lia). cbn [obind HeaderLen Length Class TagNum].
    replace (len p =? -2) with false by len_lia. cbn [andb].
    assert (rest_is d (o + len (EncodeTag t c (len p)) + len p) (r ++ x)) as Hr'.
    { rewrite app_assoc in Hr. eapply rest_app; [exact Hr|]. rewrite len_app. lia. }
    destruct (Z.ltb_spec 0 (len p)).
    + replace (len d <? _) with false by len_lia. apply IH; [done|len_lia].
    + assert (len p = 0) as Ep by len_lia. rewrite Ep, Z.add_0_r in *. apply IH; [done|len_lia].
  - destruct (tag_at_opening _ _ _ _ Hr Ht) as (-> & Hlt & Hr').
    replace (o <? len d) with true by lia. cbn. apply IH; [done|lia].
  - destruct (tag_at_closing _ _ _ _ Hr Ht) as (-> & Hlt & Hr').
    replace (o <? len d) with true by lia. cbn. replace (t =? w) with false by lia.
    apply IH; [done|lia].
Qed.

Lemma skip_loop_closing fuel d o w content x :
  skippable w content -> 0 <= w < 15 -> rest_is d o (content ++ EncodeClosingTag w ++ x) ->
  len d - o < Z.of_nat fuel ->
  exists o', skip_loop fuel d o w = Ret o' /\ rest_is d o' x.
Proof.
  intros Hs Hw Hr Hf.
  destruct (skip_loop_content _ _ _ _ _ _ Hs Hr Hf) as ([|f] & o' & -> & Hr' & Hf');
    [apply rest_len in Hr'; lens; lia|].
  destruct (tag_at_closing _ _ _ _ Hr' Hw) as (Ht & Hlt & Hr''). exists (o' + 1). split; [|done].
  cbn [skip_loop]. rewrite Ht. replace (o' <? len d) with true by lia. cbn. by rewrite Z.eqb_refl.
Qed.

Lemma skip_content d o w content x :
  skippable w content -> 0 <= w < 15 -> rest_is d o (content ++ EncodeClosingTag w ++ x) ->
  exists o', skipToContextClosingTag d o w = Ret o' /\ rest_is d o' x.
Proof.
  intros Hs Hw Hr. eapply skip_loop_closing; [done..|]. apply rest_len in Hr. unfold len at 1. lia.
Qed.

(** An acknowledgement: per object a list of properties, each with a value
    or an access error. *)
Record result_item := {
  ri_property : Z;
  ri_index : option Z;
  ri_outcome : (bytes * Value) + (Z * Z)
}.

(** The number of the tags around an outcome, and what is between them. *)
Definition outcome_tag (r : (bytes * Value) + (Z * Z)) : Z :=
  match r with inl _ => 4 | inr _ => 5 end.

Definition outcome_body (r : (bytes * Value) + (Z * Z)) : bytes :=
  match r with
  | inl (content, _) => content
  | inr (class, code) => EncodeEnumeratedTag class ++ EncodeEnumeratedTag code
  end.

Definition outcome_wire (r : (bytes * Value) + (Z * Z)) : bytes :=
  EncodeOpeningTag (outcome_tag r) ++ outcome_body r ++ EncodeClosingTag (outcome_tag r).

Definition item_wire (it : result_item) : bytes :=
  EncodeContextEnumerated 2 (ri_property it) ++ optional_unsigned 3 (ri_index it) ++
  outcome_wire (ri_outcome it).

Definition object_wire (obj : ObjectIdentifier * list result_item) : bytes :=
  EncodeContextObjectIdentifier 0 obj.1 ++ EncodeOpeningTag 1 ++
  concat (map item_wire obj.2) ++ EncodeClosingTag 1.

Definition ReadPropertyMultiple_ack (objs : list (ObjectIdentifier * list result_item)) : bytes :=
  concat (map object_wire objs).

(** The value octets decode to the value (an error of the decoder is ignored
    by the caller) and can be skipped. *)
Definition carries (content : bytes) (v : Value) : Prop :=
  skippable 4 content /\
  forall rest, exists err, decodePropertyValue (content ++ rest) = Ret (v, err).

Definition item_ok (it : result_item) : Prop :=
  0 <= ri_property it < 2 ^ 32 /\ index_ok (ri_index it) /\
  match ri_outcome it with
  | inl (content, v) => carries content v
  | inr (class, code) => 0 <= class < 2 ^ 32 /\ 0 <= code < 2 ^ 32
  end.

Definition item_results (oid : ObjectIdentifier) (it : result_item) : list PropertyValue :=
  match ri_outcome it with
  | inl (_, v) => [{| PV_ObjectID := oid; PV_PropertyID := ri_property it;
                      PV_ArrayIndex := ri_index it; PV_Value := v; PV_Priority := None |}]
  | inr _ => []
  end.

Definition ack_results (objs : list (ObjectIdentifier * list result_item)) : list PropertyValue :=
  concat (map (fun obj => concat (map (item_results obj.1) obj.2)) objs).

Lemma peek_array_index_some d o i x :
  rest_is d o (EncodeContextUnsigned 3 i ++ x) -> 0 <= i < 2 ^ 32 ->
  exists o', peek_array_index d o = Ret (Some i, o') /\ rest_is d o' x.
Proof.
  intros Hr Hi. unfold peek_array_index, EncodeContextUnsigned in *.
  pose proof (len_EncodeUnsigned_bound i Hi) as Hl.
  pose proof (tag_at_context _ _ _ _ _ Hr) as Ht. destruct (rest_context _ _ _ _ _ Hr) as (Hb & Hs & Hn).
  rewrite Ht by lia. replace (o <? len d) with true by len_lia. cbn [obind].
  rewrite (proj2 (context_data_spec 3 _)) by (cbn; lia). cbn [HeaderLen Length andb].
  replace (_ <=? len d) with true by lia. rewrite Hs. cbn [obind].
  rewrite DecodeUnsigned_EncodeUnsigned by done. eauto.
Qed.

Lemma peek_array_index_none d o t x :
  rest_is d o (EncodeOpeningTag t ++ x) -> 0 <= t < 15 -> peek_array_index d o = Ret (None, o).
Proof.
  intros Hr Ht. unfold peek_array_index. destruct (tag_at_opening _ _ _ _ Hr Ht) as (-> & Hl & _).
  replace (o <? len d) with true by lia. cbn [obind]. unfold context_data. cbn [TagNum Class Length].
  by rewrite !orb_true_r.
Qed.

Lemma peek_array_index_optional d o i t x :
  rest_is d o (optional_unsigned 3 i ++ EncodeOpeningTag t ++ x) -> index_ok i -> 0 <= t < 15 ->
  exists o', peek_array_index d o = Ret (i, o') /\ rest_is d o' (EncodeOpeningTag t ++ x).
Proof.
  intros Hr Hi Ht. destruct i as [i|]; cbn [optional_unsigned] in Hr.
  - by apply peek_array_index_some.
  - exists o. split; [by eapply peek_array_index_none|done].
Qed.

Lemma carries_decode content v rest :
  carries content v -> exists err, decodePropertyValue (content ++ rest) = Ret (v, err).
Proof. intros [_ H]. apply H. Qed.

Lemma skippable_error_pair w class code :
  0 <= class < 2 ^ 32 -> 0 <= code < 2 ^ 32 ->
  skippable w (EncodeEnumeratedTag class ++ EncodeEnumeratedTag code).
Proof.
  intros Hc Hd. pose proof (len_EncodeUnsigned_bound _ Hc). pose proof (len_EncodeUnsigned_bound _ Hd).
  apply skippable_app; (apply (skippable_app_tagged w TagEnumerated); [unfold TagEnumerated; lia|]);
    unfold EncodeEnumerated; lia.
Qed.

(** The head of an item: the loop reads the property and the index, passes the
    opening tag of the outcome, and is left with the outcome's body. *)
Lemma propertyLoop_head fuel d oid o rs it x :
  0 <= ri_property it < 2 ^ 32 -> index_ok (ri_index it) -> rest_is d o (item_wire it ++ x) ->
  exists o',
    propertyLoop (S fuel) d oid o rs =
      match ri_outcome it with
      | inl _ =>
          let! s := slice_from d o' in
          let! '(value, _) := decodePropertyValue s in
          let! o'' := skipToContextClosingTag d o' 4 in
          propertyLoop fuel d oid o''
            (rs ++ [{| PV_ObjectID := oid; PV_PropertyID := ri_property it;
                       PV_ArrayIndex := ri_index it; PV_Value := value; PV_Priority := None |}])
      | inr _ =>
          let! o'' := skipToContextClosingTag d o' 5 in propertyLoop fuel d oid o'' rs
      end /\
    rest_is d o' (outcome_body (ri_outcome it) ++ EncodeClosingTag (outcome_tag (ri_outcome it)) ++ x).
Proof.
  intros Hp Hi Hr. unfold item_wire, outcome_wire in Hr. rewrite <- !app_assoc in Hr.
  unfold EncodeContextEnumerated, EncodeEnumerated in Hr.
  pose proof (len_EncodeUnsigned_bound _ Hp) as Hl.
  pose proof (tag_at_context _ _ _ _ _ Hr) as Ht. destruct (rest_context _ _ _ _ _ Hr) as (Hb & Hs & Hn).
  cbn [propertyLoop]. rewrite Ht by lia.
  replace (o <? len d) with true by len_lia. cbn [obind TagNum Class Length HeaderLen].
  replace (len _ =? -2) with false by lia. cbn [andb orb negb Z.eqb Pos.eqb].
  change (negb (TagClassContext =? TagClassContext)) with false. cbn match.
  replace (len (EncodeUnsigned (ri_property it)) <? 0) with false by lia.
  replace (len d <? _) with false by lia. cbn [orb].
  rewrite Hs. cbn [obind]. rewrite DecodeUnsigned_EncodeUnsigned by done. cbn [obind].
  clear Ht Hs Hr Hb Hl Hp. set (o1 := o + _ + _) in *. clearbody o1.
  assert (0 <= outcome_tag (ri_outcome it) < 15) as Htag by (destruct (ri_outcome it); cbn; lia).
  destruct (peek_array_index_optional _ _ _ _ _ Hn Hi Htag) as (o2 & -> & Hr2).
  destruct (tag_at_opening _ _ _ _ Hr2 Htag) as (Ht2 & Hlt2 & Hr3). cbn [obind].
  replace (len d <=? o2) with false by lia. rewrite Ht2. cbn [obind TagNum Class Length].
  change (negb (TagClassContext =? TagClassContext)) with false. cbn [orb negb Z.eqb Pos.eqb].
  exists (o2 + 1). split; [|done]. by destruct (ri_outcome it).
Qed.

Lemma propertyLoop_item fuel d oid o rs it x :
  item_ok it -> rest_is d o (item_wire it ++ x) ->
  exists o', propertyLoop (S fuel) d oid o rs = propertyLoop fuel d oid o' (rs ++ item_results oid it) /\
    rest_is d o' x.
Proof.
  intros (Hp & Hi & Ho) Hr. destruct (propertyLoop_head fuel d oid o rs it x Hp Hi Hr) as (o1 & -> & Hr1).
  destruct it as [pid i [[content v]|[class code]]]; cbn [ri_outcome outcome_body outcome_tag ri_property ri_index] in *.
  - rewrite (rest_slice_from _ _ _ Hr1). cbn [obind].
    destruct (carries_decode _ _ (EncodeClosingTag 4 ++ x) Ho) as [err ->]. cbn [obind].
    destruct (skip_content _ _ _ _ _ (proj1 Ho) ltac:(lia) Hr1) as (o' & -> & Hr').
    exists o'. by split.
  - destruct (skip_content d o1 5 (EncodeEnumeratedTag class ++ EncodeEnumeratedTag code) x)
      as (o' & -> & Hr'); [by apply skippable_error_pair; apply Ho|lia|done|].
    exists o'. split; [|done]. unfold item_results. cbn. by rewrite app_nil_r.
Qed.

Lemma len_item_wire it : 1 <= len (item_wire it).
Proof.
  unfold item_wire, EncodeContextEnumerated, EncodeContextTag. rewrite EncodeTag_short by len_lia. len_lia.
Qed.

Lemma propertyLoop_items fuel d oid o rs its x :
  Forall item_ok its -> rest_is d o (concat (map item_wire its) ++ EncodeClosingTag 1 ++ x) ->
  len d - o < Z.of_nat fuel ->
  exists o', propertyLoop fuel d oid o rs = Ret (o', rs ++ concat (map (item_results oid) its)) /\
    rest_is d o' x.
Proof.
  intros Hok. revert fuel o rs. induction Hok as [|it its Hit _ IH]; intros fuel o rs Hr Hf;
    (destruct fuel as [|fuel]; [apply rest_len in Hr; lens; lia|]); cbn [map concat app] in *.
  - destruct (tag_at_closing _ _ _ _ Hr) as (Ht & Hlt & Hr'); [lia|]. exists (o + 1). split; [|done].
    cbn [propertyLoop]. rewrite Ht. replace (o <? len d) with true by lia. cbn. by rewrite app_nil_r.
  - rewrite <- app_assoc in Hr. pose proof (rest_len _ _ _ Hr) as Hl. rewrite len_app in Hl.
    pose proof (len_item_wire it) as Hw.
    destruct (propertyLoop_item fuel d oid o rs it _ Hit Hr) as (o1 & -> & Hr1).
    pose proof (rest_len _ _ _ Hr1) as Hl1.
    destruct (IH fuel o1 (rs ++ item_results oid it) Hr1) as (o' & -> & Hr'); [lia|].
    exists o'. by rewrite <- app_assoc.
Qed.

(** The head of an object: its identifier and the opening tag of its list. *)
Lemma objectLoop_head fuel d o rs oid x :
  oid_ok oid -> rest_is d o (EncodeContextObjectIdentifier 0 oid ++ EncodeOpeningTag 1 ++ x) ->
  exists o', objectLoop (S fuel) d o rs =
      (let! '(o'', rs') := propertyLoop (S (length d)) d oid o' rs in objectLoop fuel d o'' rs') /\
    rest_is d o' x.
Proof.
  intros Hoid Hr.
  unfold EncodeContextObjectIdentifier in Hr.
  pose proof (tag_at_context _ _ _ _ _ Hr) as Ht. destruct (rest_context _ _ _ _ _ Hr) as (Hb & Hs & Hn).
  rewrite len_EncodeObjectIdentifier in *. change (len (EncodeTag 0 TagClassContext 4)) with 1 in *.
  cbn [objectLoop]. rewrite Ht by lia. replace (o <? len d) with true by lia.
  cbn [obind TagNum Class Length HeaderLen].
  change (negb (TagClassContext =? TagClassContext)) with false. cbn [orb negb Z.eqb Pos.eqb].
  replace (len d <? o + 1 + 4) with false by lia. rewrite Hs. cbn [obind].
  assert (0 <= OID_Encode oid < 2 ^ 32) as Hw by (apply OID_Encode_range; destruct Hoid; lia).
  pose proof (be32_octets (E:=error) (OID_Encode oid) [] Hw) as Hbe. cbn [app] in Hbe.
  unfold EncodeObjectIdentifier. rewrite Hbe. cbn [obind]. rewrite OID_Decode_Encode by done.
  destruct (tag_at_opening _ _ _ _ Hn) as (Ht2 & Hlt2 & Hr2); [lia|]. rewrite Ht2.
  cbn [obind TagNum Class Length].
  change (negb (TagClassContext =? TagClassContext)) with false. cbn [orb negb Z.eqb Pos.eqb].
  eexists. by split.
Qed.

Lemma objectLoop_object fuel d o rs oid its x :
  oid_ok oid -> Forall item_ok its -> rest_is d o (object_wire (oid, its) ++ x) ->
  exists o', objectLoop (S fuel) d o rs = objectLoop fuel d o' (rs ++ concat (map (item_results oid) its)) /\
    rest_is d o' x.
Proof.
  intros Hoid Hok Hr. unfold object_wire in Hr. cbn [fst snd] in Hr. rewrite <- !app_assoc in Hr.
  destruct (objectLoop_head fuel d o rs oid _ Hoid Hr) as (o1 & -> & Hr1).
  destruct (propertyLoop_items (S (length d)) d oid o1 rs its x Hok Hr1) as (o' & -> & Hr').
  { apply rest_len in Hr1. unfold len at 1. lia. }
  exists o'. by split.
Qed.

Lemma len_object_wire obj : 1 <= len (object_wire obj).
Proof.
  unfold object_wire, EncodeContextObjectIdentifier, EncodeContextTag.
  rewrite EncodeTag_short by len_lia. len_lia.
Qed.

Lemma objectLoop_objects fuel d o rs objs :
  Forall (fun obj => oid_ok obj.1 /\ Forall item_ok obj.2) objs ->
  rest_is d o (ReadPropertyMultiple_ack objs) -> len d - o < Z.of_nat fuel ->
  objectLoop fuel d o rs = Ret (rs ++ ack_results objs).
Proof.
  intros Hok. revert fuel o rs. induction Hok as [|[oid its] objs [Hoid Hits] _ IH]; intros fuel o rs Hr Hf;
    pose proof (rest_len _ _ _ Hr) as Hl; (destruct fuel as [|fuel]; [lens; lia|]);
    unfold ReadPropertyMultiple_ack, ack_results in *; cbn [map concat fst snd] in *.
  - change (len []) with 0 in Hl. cbn [objectLoop]. replace (o <? len d) with false by lia. by rewrite app_nil_r.
  - pose proof (len_object_wire (oid, its)) as Hw. rewrite len_app in Hl.
    destruct (objectLoop_object fuel d o rs oid its _ Hoid Hits Hr) as (o' & -> & Hr').
    pose proof (rest_len _ _ _ Hr') as Hl'. rewrite IH; [|done|lia]. by rewrite <- app_assoc.
Qed.

(** Every value with a payload can be carried, and so can lists of values
    (of which the decoder keeps the first). *)
Lemma carries_tagged tag {A} `{TagCodec tag A} a rest :
  codec_ok tag a -> skippable 4 rest ->
  carries (app_tagged tag (codec_encode tag a) ++ rest) (codec_value tag a).
Proof.
  intros Ha Hs. pose proof codec_tag_range as Ht. split.
  - apply skippable_app; [|done]. apply skippable_app_tagged; [lia|by apply codec_len].
  - intros x. exists None. rewrite <- app_assoc. by apply decode_app_tagged.
Qed.

Lemma carries_false : carries (EncodeBooleanTag false) (VBool false).
Proof.
  split; [|intros; exists None; apply (decode_boolean false)].
  apply (skip_data 4 TagBoolean TagClassApplication [] []); [unfold TagBoolean; lia|by left|done|constructor].
Qed.

(** ** The decoder never fails *)

Lemma no_err_tag_at d o : no_err (tag_at d o).
Proof. unfold tag_at. no_err. Qed.
#[local] Hint Resolve no_err_tag_at : no_err.

Lemma no_err_skip_loop fuel d o w : no_err (skip_loop fuel d o w).
Proof. revert o. induction fuel as [|fuel IH]; intros o; cbn; [done|]. no_err; auto. Qed.
Lemma no_err_skip d o w : no_err (skipToContextClosingTag d o w).
Proof. apply no_err_skip_loop. Qed.
Lemma no_err_peek d o : no_err (peek_array_index d o).
Proof. unfold peek_array_index. no_err. Qed.
#[local] Hint Resolve no_err_skip no_err_peek : no_err.

Lemma no_err_propertyLoop fuel d oid o rs : no_err (propertyLoop fuel d oid o rs).
Proof. revert o rs. induction fuel as [|fuel IH]; intros o rs; cbn [propertyLoop]; [done|]. no_err; auto. Qed.
#[local] Hint Resolve no_err_propertyLoop : no_err.

Lemma no_err_objectLoop fuel d o rs : no_err (objectLoop fuel d o rs).
Proof. revert o rs. induction fuel as [|fuel IH]; intros o rs; cbn [objectLoop]; [done|]. no_err; auto. Qed.

Lemma no_err_decodeReadPropertyResponse d : no_err (decodeReadPropertyResponse d).
Proof. unfold decodeReadPropertyResponse, skip_array_index. no_err. Qed.

Lemma no_err_decodeError d : no_err (decodeError d).
Proof. unfold decodeError. no_err. Qed.

(** C16. The response decoders are total: on every byte string they return,
    without a panic and without looping, a value (possibly with an error), an
    error value that is [ErrInvalidResponse] or a BACnet error with octets for
    class and code, and a list of property values; the last one never reports
    an error and holds at most one result per two octets of input. *)
Theorem response_decoders_total d :
  wf_bytes d ->
  (exists v err, decodeReadPropertyResponse d = Ret (v, err)) /\
  (exists e, decodeError d = Ret e /\
     (e = ErrInvalidResponse \/
      exists b, e = EBACnet b /\ is_byte (BE_Class b) /\ is_byte (BE_Code b))) /\
  (exists rs, decodeReadPropertyMultipleResponse d = Ret rs /\ 2 * len rs <= len d).
Proof.
  intros Hwf. split_and!.
  - destruct (safely_no_err _ _ (decodeReadPropertyResponse_safe d Hwf)
      (no_err_decodeReadPropertyResponse d)) as ([v err] & -> & _). eauto.
  - exact (safely_no_err _ _ (decodeError_safe d Hwf) (no_err_decodeError d)).
  - exact (safely_no_err _ _ (decodeReadPropertyMultipleResponse_safe d Hwf) (no_err_objectLoop _ d 0 [])).
Qed.

Lemma response_decoders_total_witness :
  wf_bytes [0x0C; 0xFF] /\
  exists rs, decodeReadPropertyMultipleResponse [0x0C; 0xFF] = Ret rs /\ 2 * len rs <= 2.
Proof.
  assert (wf_bytes [0x0C; 0xFF]) as H by (unfold wf_bytes, is_byte; repeat constructor; lia).
  split; [exact H|]. exact (proj2 (proj2 (response_decoders_total _ H))).
Defined.

(** ** Boolean values in a ReadPropertyMultiple acknowledgement *)

(** The tag of TRUE announces one octet of data that is not there: the octet
    that is skipped in its place is the closing tag. *)
Lemma skip_boolean_true fuel d o w x :
  rest_is d o (EncodeBooleanTag true ++ EncodeClosingTag w ++ x) -> 0 <= w < 15 ->
  skip_loop (S fuel) d o w = skip_loop fuel d (o + 2) w /\ rest_is d (o + 2) x.
Proof.
  intros Hr Hw. assert (len (EncodeClosingTag w) = 1) as El
    by (unfold EncodeClosingTag; by replace (w <? 15) with true by lia).
  assert (rest_is d (o + 2) x) as Hx.
  { rewrite app_assoc in Hr. eapply rest_app; [exact Hr|]. rewrite len_app, El. reflexivity. }
  split; [|done]. pose proof (rest_len _ _ _ Hx) as Hl. lens.
  change (EncodeBooleanTag true) with (EncodeTag TagBoolean TagClassApplication 1) in Hr.
  cbn [skip_loop]. rewrite (tag_at_tag _ _ _ _ _ _ Hr);
    [|unfold TagBoolean; lia|by left|lia].
  replace (o <? len d) with true by lia. cbn [obind TagNum Class Length HeaderLen].
  change (len (EncodeTag TagBoolean TagClassApplication 1)) with 1.
  change (1 =? -2) with false. change (0 <? 1) with true. cbn [andb].
  replace (len d <? o + 1 + 1) with false by lia. f_equal. lia.
Qed.

Definition boolean_item (pid : Z) (b : bool) : result_item :=
  {| ri_property := pid; ri_index := None; ri_outcome := inl (EncodeBooleanTag b, VBool b) |}.

Lemma boolean_item_false_ok pid : 0 <= pid < 2 ^ 32 -> item_ok (boolean_item pid false).
Proof. intros. split; [done|split; [done|apply carries_false]]. Qed.

(** The head of an item is skippable. *)
Lemma skippable_head pid i t :
  0 <= pid < 2 ^ 32 -> index_ok i -> 0 <= t < 15 ->
  skippable 4 (EncodeContextEnumerated 2 pid ++ optional_unsigned 3 i ++ EncodeOpeningTag t).
Proof.
  intros Hp Hi Ht. pose proof (len_EncodeUnsigned_bound _ Hp).
  unfold EncodeContextEnumerated, EncodeEnumerated. apply skippable_context; [lia|lia|].
  assert (skippable 4 (EncodeOpeningTag t)) as Ho.
  { rewrite <- (app_nil_r (EncodeOpeningTag t)). constructor; [lia|constructor]. }
  destruct i as [i|]; cbn [optional_unsigned]; [|exact Ho].
  pose proof (len_EncodeUnsigned_bound _ Hi). apply skippable_context; [lia|lia|exact Ho].
Qed.

(** An item with a value is skippable up to its last closing tag. *)
Lemma skippable_item pid i content :
  0 <= pid < 2 ^ 32 -> index_ok i -> skippable 4 content ->
  skippable 4 (EncodeContextEnumerated 2 pid ++ optional_unsigned 3 i ++ EncodeOpeningTag 4 ++ content).
Proof.
  intros Hp Hi Hc. pose proof (skippable_app _ _ _ (skippable_head pid i 4 Hp Hi ltac:(lia)) Hc) as H.
  by rewrite <- !app_assoc in H.
Qed.

(** Constructed data inside a value: the walk ends at the first closing tag
    with the number, which closes the inner data, and leaves the rest of the
    value before it. *)
Lemma skip_ignores_nesting inner rest :
  skippable 4 inner ->
  let data := EncodeOpeningTag 4 ++ inner ++ EncodeClosingTag 4 ++ EncodeClosingTag 4 ++ rest in
  exists o, skipToContextClosingTag data 0 4 = Ret o /\ rest_is data o (EncodeClosingTag 4 ++ rest).
Proof.
  intros Hi data. apply (skip_content data 0 4 (EncodeOpeningTag 4 ++ inner)); [constructor; [lia|done]|lia|].
  rewrite <- app_assoc. apply rest_start.
Qed.

(** *** What is decoded of an acknowledgement

    The octets between the tags of a value, and whether the walk to the closing
    tag goes past it: it does if the walk ends in the tag of a TRUE.  Among
    these are the application-tagged values, the lists of them in which only the
    last may be TRUE, and constructed data without a TRUE and without a closing
    tag [4] of its own. *)
Inductive walked : bytes -> bool -> Prop :=
  | walked_to content : skippable 4 content -> walked content false
  | walked_past content : skippable 4 content -> walked (content ++ EncodeBooleanTag true) true.

(** An item of the acknowledgement, marked if the walk goes past its end. *)
Definition marked_ok (m : result_item * bool) : Prop :=
  0 <= ri_property m.1 < 2 ^ 32 /\ index_ok (ri_index m.1) /\
  match ri_outcome m.1 with
  | inl (content, v) =>
      walked content m.2 /\ forall rest, exists err, decodePropertyValue (content ++ rest) = Ret (v, err)
  | inr (class, code) => 0 <= class < 2 ^ 32 /\ 0 <= code < 2 ^ 32
  end.

Definition Marked : Type := list (ObjectIdentifier * list (result_item * bool)).

Definition unmarked (objs : Marked) : list (ObjectIdentifier * list result_item) :=
  map (fun obj => (obj.1, map fst obj.2)) objs.

(** The results of the items of an object, from a state: [past] if a walk is
    under way.  It passes errors and marked values, and ends with the next
    unmarked value, which is lost. *)
Fixpoint observed_items (oid : ObjectIdentifier) (past : bool) (its : list (result_item * bool))
    : list PropertyValue * bool :=
  match its with
  | [] => ([], past)
  | m :: its =>
      let past' := match ri_outcome m.1 with inl _ => m.2 | inr _ => past end in
      let '(rs, final) := observed_items oid past' its in
      ((if past then [] else item_results oid m.1) ++ rs, final)
  end.

(** A walk that goes past the end of an object takes its identifier along. *)
Fixpoint observed (carried : option ObjectIdentifier) (objs : Marked) : list PropertyValue :=
  match objs with
  | [] => []
  | (oid, its) :: objs =>
      let current := default oid carried in
      let '(rs, past) := observed_items current (bool_decide (is_Some carried)) its in
      rs ++ observed (if past then Some current else None) objs
  end.

Definition observed_tail (oid : ObjectIdentifier) (past : bool) (its : list (result_item * bool)) (objs : Marked)
    : list PropertyValue :=
  let '(rs, final) := observed_items oid past its in rs ++ observed (if final then Some oid else None) objs.

(** Octets from within an object on. *)
Definition tail_wire (its : list (result_item * bool)) (objs : Marked) : bytes :=
  concat (map item_wire (map fst its)) ++ EncodeClosingTag 1 ++ ReadPropertyMultiple_ack (unmarked objs).

Lemma observed_tail_cons oid past m its objs :
  observed_tail oid past (m :: its) objs =
  (if past then [] else item_results oid m.1) ++
  observed_tail oid (match ri_outcome m.1 with inl _ => m.2 | inr _ => past end) its objs.
Proof. unfold observed_tail. cbn [observed_items]. destruct (observed_items _ _ its). by rewrite <- app_assoc. Qed.

Lemma observed_tail_nil oid past objs :
  observed_tail oid past [] objs = observed (if past then Some oid else None) objs.
Proof. done. Qed.

Lemma observed_cons carried oid its objs :
  observed carried ((oid, its) :: objs) =
  observed_tail (default oid carried) (bool_decide (is_Some carried)) its objs.
Proof. done. Qed.

Lemma tail_wire_cons m its objs : tail_wire (m :: its) objs = item_wire m.1 ++ tail_wire its objs.
Proof. unfold tail_wire. cbn [map concat]. by rewrite <- app_assoc. Qed.

(** Nothing is lost if no value is marked. *)
Lemma observed_unmarked objs :
  Forall (fun obj => Forall (fun m => m.2 = false) obj.2) objs -> observed None objs = ack_results (unmarked objs).
Proof.
  unfold ack_results, unmarked. induction 1 as [|[oid its] objs Hits _ IH]; [done|].
  rewrite observed_cons. cbn [map concat fst snd default]. rewrite bool_decide_false by (by intros [? ?]).
  rewrite <- IH. clear IH. cbn [snd] in Hits. induction Hits as [|[it past] its Hm _ IH]; [done|].
  cbn in Hm. subst past. rewrite observed_tail_cons. cbn [fst snd map concat].
  assert (match ri_outcome it with inl _ => false | inr _ => false end = false) as -> by (by destruct (ri_outcome it)).
  by rewrite IH, <- app_assoc.
Qed.

Lemma marked_item_ok m :
  marked_ok m -> (match ri_outcome m.1 with inl _ => m.2 | inr _ => false end) = false -> item_ok m.1.
Proof.
  destruct m as [[pid i [[content v]|[class code]]] past]; intros (Hp & Hi & Ho) Hm; (split; [done|split; [done|]]); cbn in *; [|done].
  destruct Ho as [Hw Hd]. subst past. split; [|done]. by inversion Hw.
Qed.

(** A walk over the rest of a marked value and the octet after it. *)
Lemma skip_past fs d o p x :
  skippable 4 p -> rest_is d o ((p ++ EncodeBooleanTag true) ++ EncodeClosingTag 4 ++ x) -> len d - o < Z.of_nat fs ->
  exists fs' o', skip_loop fs d o 4 = skip_loop fs' d o' 4 /\ rest_is d o' x /\ len d - o' < Z.of_nat fs'.
Proof.
  intros Hp Hr Hf. rewrite <- app_assoc in Hr.
  destruct (skip_loop_content _ _ _ _ _ _ Hp Hr Hf) as ([|f] & o1 & -> & Hr1 & Hf1); [apply rest_len in Hr1; lens; lia|].
  destruct (skip_boolean_true f d o1 4 x Hr1) as [-> Hx]; [lia|]. exists f, (o1 + 2). split; [done|]. split; [done|].
  lia.
Qed.

(** A walk that is under way meets an item. *)
Lemma skip_item fs d o m x :
  marked_ok m -> rest_is d o (item_wire m.1 ++ x) -> len d - o < Z.of_nat fs ->
  if match ri_outcome m.1 with inl _ => m.2 | inr _ => true end
  then exists fs' o', skip_loop fs d o 4 = skip_loop fs' d o' 4 /\ rest_is d o' x /\ len d - o' < Z.of_nat fs'
  else exists o', skip_loop fs d o 4 = Ret o' /\ rest_is d o' x.
Proof.
  destruct m as [[pid i out] past]. intros (Hp & Hi & Ho) Hr Hf. cbn [fst snd ri_property ri_index ri_outcome] in *.
  unfold item_wire, outcome_wire in Hr. cbn [ri_property ri_index ri_outcome] in Hr.
  destruct out as [[content v]|[class code]]; cbn [outcome_tag outcome_body] in Hr.
  - destruct Ho as [Hw _]. destruct Hw as [content Hs|content Hs].
    + apply (skip_loop_closing _ _ _ _ (EncodeContextEnumerated 2 pid ++ optional_unsigned 3 i ++ EncodeOpeningTag 4 ++ content));
        [by apply skippable_item|lia|by rewrite <- !app_assoc in *|done].
    + apply (skip_past _ _ _ (EncodeContextEnumerated 2 pid ++ optional_unsigned 3 i ++ EncodeOpeningTag 4 ++ content));
        [by apply skippable_item|by rewrite <- !app_assoc in *|done].
  - apply (skip_loop_content _ _ _ _ ((EncodeContextEnumerated 2 pid ++ optional_unsigned 3 i ++ EncodeOpeningTag 5) ++
      (EncodeEnumeratedTag class ++ EncodeEnumeratedTag code) ++ EncodeClosingTag 5 ++ []));
      [|by rewrite ?app_nil_r, <- !app_assoc in *|done].
    apply skippable_app; [apply skippable_head; [done|done|lia]|].
    apply skippable_app; [by apply skippable_error_pair; apply Ho|]. constructor; [lia|lia|constructor].
Qed.

(** A turn of the loop with a marked item starts a walk past it. *)
Lemma propertyLoop_marked fuel d oid o rs m x :
  marked_ok m -> match ri_outcome m.1 with inl _ => m.2 | inr _ => false end = true ->
  rest_is d o (item_wire m.1 ++ x) ->
  exists fs o', propertyLoop (S fuel) d oid o rs =
      (let! o'' := skip_loop fs d o' 4 in propertyLoop fuel d oid o'' (rs ++ item_results oid m.1)) /\
    rest_is d o' x /\ len d - o' < Z.of_nat fs.
Proof.
  destruct m as [[pid i [[content v]|e]] past]; intros (Hp & Hi & Ho) Hm Hr; [|done]. cbn [fst snd ri_outcome] in *. subst past.
  destruct (propertyLoop_head fuel d oid o rs _ x Hp Hi Hr) as (o1 & -> & Hr1).
  cbn [ri_outcome ri_property ri_index outcome_body outcome_tag] in *. destruct Ho as [Hw Hd].
  rewrite (rest_slice_from _ _ _ Hr1). cbn [obind].
  destruct (Hd (EncodeClosingTag 4 ++ x)) as [err ->]. cbn [obind]. inversion Hw as [|p Hs E]. subst content.
  destruct (skip_past (S (length d)) d o1 p x Hs Hr1) as (fs & o' & E1 & Hx & Hf).
  { apply rest_len in Hr1. unfold len at 1. lia. }
  exists fs, o'. unfold skipToContextClosingTag. by rewrite E1.
Qed.

(** The two loops from within an object on, in both states. *)
Definition resume (past : bool) (fs fp fo : nat) (d : bytes) (oid : ObjectIdentifier) (o : Z)
    (rs : list PropertyValue) : go (list PropertyValue) :=
  let! o := (if past then skip_loop fs d o 4 else Ret o) in
  let! '(o, rs) := propertyLoop fp d oid o rs in
  objectLoop fo d o rs.

Definition fuelled (d : bytes) (o : Z) (fuel : nat) : Prop := len d - o < Z.of_nat fuel.

(** At the end of the data, nothing more is read. *)
Lemma resume_end past fs fp fo d oid o rs :
  rest_is d o [] -> fuelled d o fs -> fuelled d o fp -> fuelled d o fo -> resume past fs fp fo d oid o rs = Ret rs.
Proof.
  intros Hr Hs Hp Ho. destruct (rest_len _ _ _ Hr) as [_ Hl]. change (len []) with 0 in Hl. unfold fuelled in *.
  destruct fs as [|fs]; [lia|]. destruct fp as [|fp]; [lia|]. destruct fo as [|fo]; [lia|].
  assert ((o <? len d) = false) as Hlt by lia. unfold resume.
  destruct past; repeat (cbn [skip_loop propertyLoop objectLoop obind]; rewrite ?Hlt); done.
Qed.

(** A walk that is under way goes on past octets of no interest. *)
Lemma resume_skip fs fp fo d oid o rs content x :
  skippable 4 content -> rest_is d o (content ++ x) -> fuelled d o fs ->
  exists fs' o', resume true fs fp fo d oid o rs = resume true fs' fp fo d oid o' rs /\
    rest_is d o' x /\ fuelled d o' fs' /\ o <= o'.
Proof.
  intros Hs Hr Hf. destruct (skip_loop_content _ _ _ _ _ _ Hs Hr Hf) as (fs' & o' & E & Hr' & Hf').
  exists fs', o'. unfold resume. rewrite E. split; [done|]. split; [done|]. split; [done|].
  apply rest_len in Hr as [_ Hr], Hr' as [_ Hr']. rewrite len_app in Hr. pose proof (len_nonneg content). lia.
Qed.

(** One item in either state. *)
Lemma resume_item past fs fp fo d oid o rs m x :
  marked_ok m -> rest_is d o (item_wire m.1 ++ x) -> fuelled d o fs -> fuelled d o fp ->
  let past' := match ri_outcome m.1 with inl _ => m.2 | inr _ => past end in
  exists fs' fp' o', resume past fs fp fo d oid o rs =
      resume past' fs' fp' fo d oid o' (rs ++ (if past then [] else item_results oid m.1)) /\
    rest_is d o' x /\ fuelled d o' fs' /\ fuelled d o' fp' /\ o <= o'.
Proof.
  intros Hm Hr Hs Hp past'. pose proof (len_item_wire m.1) as Hw.
  assert (forall o', rest_is d o' x -> o + 1 <= o') as Hle.
  { intros o' Hr'. apply rest_len in Hr as [_ Hr], Hr' as [_ Hr']. rewrite len_app in Hr. lia. }
  destruct past.
  - pose proof (skip_item fs d o m x Hm Hr Hs) as H. fold past' in H. rewrite app_nil_r. unfold resume.
    destruct past' eqn:E.
    + destruct H as (fs' & o' & -> & Hr' & Hf'). pose proof (Hle _ Hr'). exists fs', fp, o'.
      unfold fuelled in *. split; [done|]. split; [done|]. lia.
    + destruct H as (o' & -> & Hr'). pose proof (Hle _ Hr'). exists fs, fp, o'.
      unfold fuelled in *. split; [done|]. split; [done|]. lia.
  - destruct fp as [|fp]; [apply rest_len in Hr; unfold fuelled in *; lens; lia|]. unfold resume at 1. cbn [obind].
    destruct past' eqn:E.
    + destruct (propertyLoop_marked fp d oid o rs m x Hm E Hr) as (fs' & o' & -> & Hr' & Hf'). pose proof (Hle _ Hr').
      exists fs', fp, o'. unfold resume, fuelled in *. split; [by destruct (skip_loop fs' d o' 4)|]. split; [done|]. lia.
    + destruct (propertyLoop_item fp d oid o rs m.1 x (marked_item_ok m Hm E) Hr) as (o' & -> & Hr'). pose proof (Hle _ Hr').
      exists fs, fp, o'. unfold resume, fuelled in *. split; [done|]. split; [done|]. lia.
Qed.

Definition object_ok (obj : ObjectIdentifier * list (result_item * bool)) : Prop :=
  oid_ok obj.1 /\ Forall marked_ok obj.2.

(** From the end of an object to the next one, in either state. *)
Lemma resume_next past fs fp fo d oid o rs objs :
  Forall object_ok objs -> rest_is d o (tail_wire [] objs) -> fuelled d o fs -> fuelled d o fp -> fuelled d o fo ->
  match objs with
  | [] => resume past fs fp fo d oid o rs = Ret rs
  | (oid', its) :: objs =>
      exists fs' fp' fo' o', resume past fs fp fo d oid o rs =
          resume past fs' fp' fo' d (if past then oid else oid') o' rs /\
        rest_is d o' (tail_wire its objs) /\ fuelled d o' fs' /\ fuelled d o' fp' /\ fuelled d o' fo'
  end.
Proof.
  intros Hok Hr Hs Hp Ho. unfold tail_wire in Hr. cbn [map concat app] in Hr.
  destruct past.
  - assert (skippable 4 (EncodeClosingTag 1)) as Hc.
    { rewrite <- (app_nil_r (EncodeClosingTag 1)). constructor; [lia|lia|constructor]. }
    destruct objs as [|[oid' its] objs].
    + destruct (resume_skip fs fp fo d oid o rs _ [] Hc Hr Hs) as (fs' & o' & -> & Hr' & Hf' & Hle).
      apply resume_end; try done; unfold fuelled in *; lia.
    + unfold ReadPropertyMultiple_ack, unmarked, object_wire in Hr. cbn [map concat fst snd] in Hr.
      apply Forall_cons in Hok as [[Hoid _] _]. cbn [fst] in Hoid.
      pose proof (skippable_context 4 0 (EncodeObjectIdentifier oid') (EncodeOpeningTag 1) ltac:(lia)) as Hh.
      destruct (resume_skip fs fp fo d oid o rs (EncodeClosingTag 1 ++ EncodeContextObjectIdentifier 0 oid' ++ EncodeOpeningTag 1)
        (tail_wire its objs)) as (fs' & o' & -> & Hr' & Hf' & Hle); [| |done|].
      * apply skippable_app; [done|]. apply Hh; [by rewrite len_EncodeObjectIdentifier|].
        rewrite <- (app_nil_r (EncodeOpeningTag 1)). constructor; [lia|constructor].
      * unfold tail_wire. rewrite <- !app_assoc in *. exact Hr.
      * exists fs', fp, fo, o'. unfold fuelled in *. split; [done|]. split; [done|]. lia.
  - destruct (tag_at_closing _ _ _ _ Hr) as (Ht & Hlt & Hr'); [lia|]. destruct fp as [|fp]; [unfold fuelled in *; lia|].
    assert (resume false fs (S fp) fo d oid o rs = objectLoop fo d (o + 1) rs) as ->.
    { unfold resume. cbn [obind propertyLoop]. rewrite Ht. by replace (o <? len d) with true by lia. }
    destruct fo as [|fo]; [unfold fuelled in *; lia|]. destruct objs as [|[oid' its] objs].
    + apply rest_len in Hr' as [_ Hl]. change (len _) with 0 in Hl at 2. cbn [objectLoop].
      by replace (o + 1 <? len d) with false by lia.
    + unfold ReadPropertyMultiple_ack, unmarked, object_wire in Hr'. cbn [map concat fst snd] in Hr'.
      apply Forall_cons in Hok as [[Hoid _] _]. cbn [fst] in Hoid. rewrite <- !app_assoc in Hr'.
      destruct (objectLoop_head fo d (o + 1) rs oid' _ Hoid Hr') as (o1 & -> & Hr1).
      pose proof (rest_len _ _ _ Hr1) as Hl1. pose proof (rest_len _ _ _ Hr') as Hl'.
      exists fs, (S (length d)), fo, o1. unfold resume, fuelled, tail_wire in *. cbn [obind].
      split; [done|]. split; [done|]. rewrite !len_app in *.
      pose proof (len_nonneg (EncodeOpeningTag 1)). pose proof (len_nonneg (EncodeContextObjectIdentifier 0 oid')).
      assert (Z.of_nat (length d) = len d) as E by done. lia.
Qed.

(** C10 for the loops. *)
Lemma resume_observed objs :
  Forall object_ok objs -> forall past its fs fp fo d oid o rs,
  Forall marked_ok its -> rest_is d o (tail_wire its objs) -> fuelled d o fs -> fuelled d o fp -> fuelled d o fo ->
  resume past fs fp fo d oid o rs = Ret (rs ++ observed_tail oid past its objs).
Proof.
  induction objs as [|[oid' its'] objs IHo]; intros Hobjs past its fs fp fo d oid o rs Hits; revert past fs fp fo o rs;
    (induction Hits as [|m its Hm _ IH]; intros past fs fp fo o rs Hr Hs Hp Ho; [|
      rewrite tail_wire_cons in Hr; destruct (resume_item past fs fp fo d oid o rs m _ Hm Hr Hs Hp)
        as (fs' & fp' & o' & -> & Hr' & Hs' & Hp' & Hle); rewrite observed_tail_cons, app_assoc;
      apply IH; try done; unfold fuelled in *; lia]).
  - pose proof (resume_next past fs fp fo d oid o rs [] Hobjs Hr Hs Hp Ho) as ->.
    rewrite observed_tail_nil. cbn [observed]. by rewrite app_nil_r.
  - destruct (resume_next past fs fp fo d oid o rs _ Hobjs Hr Hs Hp Ho)
      as (fs' & fp' & fo' & o' & -> & Hr' & Hs' & Hp' & Ho').
    apply Forall_cons in Hobjs as [[_ Hits'] Hobjs]. cbn [snd] in Hits'.
    rewrite (IHo Hobjs past its' fs' fp' fo' d _ o' rs Hits' Hr' Hs' Hp' Ho').
    rewrite observed_tail_nil, observed_cons. by destruct past.
Qed.

Lemma decode_observed objs :
  Forall object_ok objs ->
  decodeReadPropertyMultipleResponse (ReadPropertyMultiple_ack (unmarked objs)) = Ret (observed None objs).
Proof.
  intros Hok. unfold decodeReadPropertyMultipleResponse.
  set (d := ReadPropertyMultiple_ack _). assert (rest_is d 0 (ReadPropertyMultiple_ack (unmarked objs))) as Hr by apply rest_start.
  clearbody d. destruct objs as [|[oid its] objs].
  - apply rest_len in Hr as [_ Hl]. change (len _) with 0 in Hl at 2. cbn [objectLoop].
    by replace (0 <? len d) with false by lia.
  - apply Forall_cons in Hok as [[Hoid Hits] Hok].
    unfold unmarked, ReadPropertyMultiple_ack, object_wire in Hr. cbn [map concat fst snd] in *. rewrite <- !app_assoc in Hr.
    destruct (objectLoop_head (length d) d 0 [] oid _ Hoid Hr) as (o & -> & Hr').
    pose proof (rest_len _ _ _ Hr) as Hl. pose proof (rest_len _ _ _ Hr') as Hl'. rewrite !len_app in *.
    apply (resume_observed objs Hok false its (S (length d)) (S (length d)) (length d) d oid o [] Hits Hr'); unfold fuelled;
      pose proof (len_nonneg (EncodeContextObjectIdentifier 0 oid)); assert (len (EncodeOpeningTag 1) = 1) as E1 by done;
      assert (Z.of_nat (length d) = len d) as E by done; lia.
Qed.

(** C10. What is decoded of a ReadPropertyMultiple acknowledgement, for any
    number of objects, each with any number of properties, with or without array
    index, with a value or an access error.  Covered are values that the walk to
    the closing tag passes tag by tag ([walked]): application-tagged values and
    lists of them in which only the last may be a boolean TRUE, and constructed
    data without a TRUE and without a closing tag [4] inside.  If no value ends
    in a TRUE, the result lists exactly the properties with a value, in order,
    each with its object, property, index and value; access errors are left out
    without a trace.  A value that ends in a TRUE is listed, but the walk then
    goes on past it, and the result is exactly [observed]: everything up to and
    including the next value that does not end in a TRUE is lost, even if it
    belongs to another object, and what follows there is reported under the
    object of the TRUE. *)
Theorem ReadPropertyMultiple_decodes objs :
  Forall object_ok objs ->
  decodeReadPropertyMultipleResponse (ReadPropertyMultiple_ack (unmarked objs)) = Ret (observed None objs) /\
  (Forall (fun obj => Forall (fun m => m.2 = false) obj.2) objs -> observed None objs = ack_results (unmarked objs)).
Proof.
  intros Hok. split; [by apply decode_observed|apply observed_unmarked].
Qed.

(** Object 1 has an out-of-service value of TRUE; of object 2 the present value
    is lost and the rest reported under object 1. *)
Lemma ReadPropertyMultiple_decodes_witness :
  let oid n := {| OID_Type := 0; OID_Instance := n |} in
  let result p v := {| PV_ObjectID := oid 1; PV_PropertyID := p; PV_ArrayIndex := None; PV_Value := v; PV_Priority := None |} in
  exists objs, map fst objs = [oid 1; oid 2] /\
  decodeReadPropertyMultipleResponse (ReadPropertyMultiple_ack objs) =
    Ret [result PropertyOutOfService (VBool true); result PropertyOutOfService (VBool false)].
Proof.
  intros oid result.
  set (real := {| ri_property := PropertyPresentValue; ri_index := None;
                  ri_outcome := inl (EncodeRealTag 0x42C80000 ++ [], VFloat32 0x42C80000) |}).
  exists (unmarked [(oid 1, [(boolean_item PropertyOutOfService true, true)]);
               (oid 2, [(real, false); (boolean_item PropertyOutOfService false, false)])]).
  split; [reflexivity|]. refine (proj1 (ReadPropertyMultiple_decodes _ _)).
  assert (codec_ok TagReal 0x42C80000) as Hok by (cbn; lia).
  pose proof (carries_tagged TagReal 0x42C80000 [] Hok (skip_nil 4)) as [Hs Hd].
  assert (0 <= PropertyOutOfService < 2 ^ 32 /\ 0 <= PropertyPresentValue < 2 ^ 32) as [H1 H2]
    by (unfold PropertyOutOfService, PropertyPresentValue; lia).
  assert (marked_ok (boolean_item PropertyOutOfService true, true)) as Ht.
  { split; [exact H1|split; [exact I|]]. cbn [fst snd boolean_item ri_outcome].
    split; [exact (walked_past [] (skip_nil 4))|]. intros rest. exists None. apply (decode_boolean true). }
  assert (marked_ok (boolean_item PropertyOutOfService false, false)) as Hf.
  { split; [exact H1|split; [exact I|]]. cbn [fst snd boolean_item ri_outcome].
    split; [exact (walked_to _ (proj1 carries_false))|exact (proj2 carries_false)]. }
  assert (marked_ok (real, false)) as Hr.
  { split; [exact H2|split; [exact I|]]. split; [exact (walked_to _ Hs)|exact Hd]. }
  assert (forall n, 0 <= n < 10 -> oid_ok (oid n)) as Hoid by (unfold oid_ok; cbn; lia).
  apply Forall_cons; split; [split; [apply Hoid; lia|]|apply Forall_cons; split; [split; [apply Hoid; lia|]|apply List.Forall_nil]].
  - apply Forall_cons. split; [exact Ht|apply List.Forall_nil].
  - apply Forall_cons. split; [exact Hr|]. apply Forall_cons. split; [exact Hf|apply List.Forall_nil].
Defined.


(** C33. A boolean TRUE in a ReadPropertyMultiple acknowledgement swallows the
    property after it: the result list of an object with a boolean property
    and then any other property holds both when the boolean is FALSE, but only
    the boolean when it is TRUE, because [skipToContextClosingTag] takes the
    length field of the boolean's tag, which is its value, for an octet of
    data and jumps over the closing tag. *)
Theorem ReadPropertyMultiple_true_swallows oid pid pid' i content v :
  oid_ok oid -> 0 <= pid < 2 ^ 32 -> 0 <= pid' < 2 ^ 32 -> index_ok i -> carries content v ->
  let it := {| ri_property := pid'; ri_index := i; ri_outcome := inl (content, v) |} in
  let decoded b := decodeReadPropertyMultipleResponse (ReadPropertyMultiple_ack [(oid, [boolean_item pid b; it])]) in
  decoded false = Ret (item_results oid (boolean_item pid false) ++ item_results oid it) /\
  decoded true = Ret (item_results oid (boolean_item pid true)).
Proof.
  intros Hoid Hp Hp' Hi Hc it decoded. unfold decoded, decodeReadPropertyMultipleResponse. split.
  - rewrite (objectLoop_objects _ _ 0 [] [(oid, [boolean_item pid false; it])]);
      [done| |apply rest_start|unfold len; lia].
    constructor; [|constructor]. split; [done|].
    constructor; [by apply boolean_item_false_ok|]. constructor; [split; [done|by split]|constructor].
  - set (d := ReadPropertyMultiple_ack _). assert (rest_is d 0 d) as Hr by apply rest_start.
    unfold d at 2 in Hr. unfold ReadPropertyMultiple_ack, object_wire in Hr. cbn [map concat fst snd] in Hr.
    rewrite <- !app_assoc in Hr.
    destruct (objectLoop_head (length d) d 0 [] oid _ Hoid Hr) as (o1 & -> & Hr1).
    destruct (propertyLoop_head (length d) d oid o1 [] (boolean_item pid true) _ Hp I Hr1) as (o2 & -> & Hr2).
    cbn [boolean_item ri_outcome outcome_body outcome_tag ri_property ri_index] in *.
    rewrite (rest_slice_from _ _ _ Hr2). cbn [obind]. rewrite (decode_boolean true). cbn [obind].
    unfold skipToContextClosingTag. destruct (skip_boolean_true (length d) d o2 4 _ Hr2) as [-> Hr3]; [lia|].
    unfold item_wire, outcome_wire in Hr3. cbn [it ri_outcome outcome_body outcome_tag ri_property ri_index] in Hr3.
    pose proof (skippable_item pid' i content Hp' Hi (proj1 Hc)) as Hs.
    assert (2 <= len d /\ 0 <= o2) as [Hd Ho2].
    { apply rest_len in Hr2 as [? Hl2]. rewrite Hl2, !len_app.
      change (len (EncodeBooleanTag true)) with 1. change (len (EncodeClosingTag _)) with 1. lens. lia. }
    assert (Z.of_nat (length d) = len d) as Hlen by done.
    destruct (skip_loop_closing (length d) d (o2 + 2) 4 _ (EncodeClosingTag 1 ++ []) Hs) as (o3 & -> & Hr4);
      [lia|by rewrite <- !app_assoc in *|lia|]. cbn [obind].
    pose proof (rest_len _ _ _ Hr4) as Hl4. change (len (EncodeClosingTag 1 ++ [])) with 1 in Hl4.
    destruct (propertyLoop_items (length d) d oid o3
      [{| PV_ObjectID := oid; PV_PropertyID := pid; PV_ArrayIndex := None; PV_Value := VBool true;
          PV_Priority := None |}] [] [] (List.Forall_nil _) Hr4) as (o4 & Ho4 & Hr5); [lia|].
    cbn [app] in *. rewrite Ho4. cbn [obind].
    pose proof (rest_len _ _ _ Hr5) as Hl5. change (len []) with 0 in Hl5.
    rewrite (objectLoop_objects (length d) d o4 _ [] (List.Forall_nil _) Hr5) by lia. done.
Qed.

Lemma ReadPropertyMultiple_true_swallows_witness :
  decodeReadPropertyMultipleResponse (ReadPropertyMultiple_ack
    [({| OID_Type := 0; OID_Instance := 1 |},
      [boolean_item PropertyOutOfService true;
       {| ri_property := PropertyPresentValue; ri_index := None;
          ri_outcome := inl (EncodeRealTag 0x42C80000 ++ [], VFloat32 0x42C80000) |}])]) =
  Ret [{| PV_ObjectID := {| OID_Type := 0; OID_Instance := 1 |}; PV_PropertyID := PropertyOutOfService;
          PV_ArrayIndex := None; PV_Value := VBool true; PV_Priority := None |}].
Proof.
  assert (codec_ok TagReal 0x42C80000) as Hok by (cbn; lia).
  refine (proj2 (ReadPropertyMultiple_true_swallows {| OID_Type := 0; OID_Instance := 1 |}
    PropertyOutOfService PropertyPresentValue None _ _ _ _ _ _ (carries_tagged TagReal 0x42C80000 [] Hok (skip_nil 4))));
    unfold oid_ok, PropertyOutOfService, PropertyPresentValue; cbn; lia || exact I.
Defined.

(** ** Requests *)

Lemma group_requests_app requests r :
  group_requests (requests ++ [r]) = add_request (group_requests requests) r.
Proof. unfold group_requests. by rewrite fold_left_app. Qed.

Lemma group_requests_lookup requests oid :
  group_requests requests !! oid =
  match filter (fun r => RP_ObjectID r = oid) requests with
  | [] => None
  | l => Some l
  end.
Proof.
  induction requests as [|r requests IH] using rev_ind; [apply lookup_empty|].
  rewrite group_requests_app, filter_app, filter_cons, filter_nil. unfold add_request.
  destruct (decide (RP_ObjectID r = oid)) as [<-|Hne].
  - rewrite lookup_insert_eq, IH. destruct (filter _ requests); done.
  - rewrite lookup_insert_ne, IH, app_nil_r by done. done.
Qed.

Lemma group_requests_concat requests :
  concat (map_to_list (group_requests requests)).*2 ≡ₚ requests.
Proof.
  induction requests as [|r requests IH] using rev_ind; [unfold group_requests; cbn; by rewrite map_to_list_empty|].
  rewrite group_requests_app. unfold add_request. set (m := group_requests requests) in *.
  set (k := RP_ObjectID r).
  rewrite <- insert_delete_eq, map_to_list_insert by apply lookup_delete_eq. cbn.
  rewrite <- IH. destruct (m !! k) as [l|] eqn:E; cbn.
  - rewrite <- (map_to_list_delete m k l E). cbn. rewrite <- !app_assoc. f_equiv. apply Permutation_app_comm.
  - rewrite delete_id by done. apply Permutation_cons_append.
Qed.

(** ReadPropertyMultiple asks for exactly what was requested, in whatever
    order Go iterates over the map: every object occurs once, with exactly the
    requests for it in the order the caller gave them, and all requests
    together are the caller's, none lost and none repeated. *)
Theorem ReadPropertyMultiple_groups requests order :
  range_order requests order ->
  NoDup order.*1 /\
  (forall oid reqs, (oid, reqs) ∈ order -> reqs = filter (fun r => RP_ObjectID r = oid) requests) /\
  (forall r, r ∈ requests -> RP_ObjectID r ∈ order.*1) /\
  concat order.*2 ≡ₚ requests.
Proof.
  unfold range_order. intros Ho. split_and!.
  - rewrite Ho. apply NoDup_fst_map_to_list.
  - intros oid reqs. rewrite Ho, elem_of_map_to_list, group_requests_lookup.
    destruct (filter _ requests); [done|]. by intros [= <-].
  - intros r Hr. rewrite Ho. apply list_elem_of_fmap.
    destruct (group_requests requests !! RP_ObjectID r) as [l|] eqn:E.
    + exists (RP_ObjectID r, l). by rewrite elem_of_map_to_list.
    + rewrite group_requests_lookup in E.
      destruct (filter _ requests) eqn:F; [|done].
      assert (r ∈ filter (fun r' => RP_ObjectID r' = RP_ObjectID r) requests) as Hin
        by by apply list_elem_of_filter. rewrite F in Hin. by apply not_elem_of_nil in Hin.
  - rewrite Ho. apply group_requests_concat.
Qed.

Lemma ReadPropertyMultiple_groups_witness :
  let a := {| OID_Type := 0; OID_Instance := 1 |} in
  let b := {| OID_Type := 2; OID_Instance := 5 |} in
  let r oid p := {| RP_ObjectID := oid; RP_PropertyID := p; RP_ArrayIndex := None |} in
  concat [[r b 85]; [r a 85; r a 77]] ≡ₚ [r a 85; r b 85; r a 77].
Proof.
  intros a b r.
  apply (ReadPropertyMultiple_groups [r a 85; r b 85; r a 77] [(b, [r b 85]); (a, [r a 85; r a 77])]).
  unfold range_order. vm_compute. repeat constructor.
Defined.

(** Subscribing without options cancels: the request that [SubscribeCOV]
    sends equals the one [UnsubscribeCOV] sends for the same process id and
    object exactly when neither confirmed notifications nor a lifetime is
    asked for, as in the default options; a COV increment never reaches the
    wire. *)
Theorem SubscribeCOV_default_is_cancellation subID oid options :
  (SubscribeCOV_request subID oid options = UnsubscribeCOV_request subID oid <->
   Confirmed options = false /\ Lifetime options = None) /\
  SubscribeCOV_request subID oid (apply_options [] noSubscribeOptions) = UnsubscribeCOV_request subID oid /\
  forall increment,
    SubscribeCOV_request subID oid (WithCOVIncrement increment options) = SubscribeCOV_request subID oid options.
Proof.
  unfold SubscribeCOV_request, UnsubscribeCOV_request.
  assert (forall n p, 1 <= len (EncodeContextTag n p)) as Hc.
  { intros n p. unfold EncodeContextTag, EncodeTag. repeat case_match; len_lia. }
  split_and!; [|cbn; by rewrite app_nil_r|done]. split.
  - intros E. apply (f_equal len) in E. rewrite !len_app in E.
    pose proof (Hc 2 [1]) as H2. unfold EncodeContextBoolean in E.
    destruct (Confirmed options), (Lifetime options) as [l|]; cbn [optional_unsigned] in *;
      try (pose proof (Hc 3 (EncodeUnsigned l))); unfold EncodeContextUnsigned in *; try done; len_lia.
  - intros [-> ->]. cbn. by rewrite app_nil_r.
Qed.

(** ** Reading the fields of a service request *)

Lemma readUnsignedTag_rest d o t c v x :
  rest_is d o ((EncodeTag t c (len (EncodeUnsigned v)) ++ EncodeUnsigned v) ++ x) ->
  0 <= t < 15 -> is_class c -> 0 <= v < 2 ^ 32 ->
  exists o', readUnsignedTag d o = Ret (v, o') /\ rest_is d o' x.
Proof.
  intros Hr Ht Hc Hv. rewrite <- app_assoc in Hr. pose proof (rest_len _ _ _ Hr) as Hl.
  pose proof (len_EncodeUnsigned_bound v Hv) as Hb. rewrite !len_app in Hl.
  pose proof (len_nonneg (EncodeTag t c (len (EncodeUnsigned v)))) as Hh.
  set (hl := len (EncodeTag t c (len (EncodeUnsigned v)))) in *.
  exists (o + hl + len (EncodeUnsigned v)). split.
  - unfold readUnsignedTag. replace ((o <? 0) || (len d <? o)) with false by len_lia.
    rewrite (rest_slice_from _ _ _ Hr). cbn [obind].
    rewrite DecodeTagNumber_EncodeTag by (done || lia). cbn [obind Length HeaderLen]. fold hl.
    replace ((len (EncodeUnsigned v) <? 0) || (len d <? o + hl + len (EncodeUnsigned v))) with false by len_lia.
    rewrite (rest_slice _ _ _ _ _ (o + hl) (o + hl + len (EncodeUnsigned v)) Hr) by done. cbn [obind].
    by rewrite DecodeUnsigned_EncodeUnsigned.
  - rewrite app_assoc in Hr. eapply rest_app; [exact Hr|]. rewrite len_app. fold hl. lia.
Qed.

(** ** Error responses *)

Lemma decodeError_pair class code rest :
  0 <= class < 2 ^ 32 -> 0 <= code < 2 ^ 32 ->
  decodeError (EncodeEnumeratedTag class ++ EncodeEnumeratedTag code ++ rest) =
    Ret (NewBACnetError (class mod 256) (code mod 256)).
Proof.
  intros Hc Hd. set (d := EncodeEnumeratedTag class ++ _).
  assert (rest_is d 0 d) as H0 by apply rest_start. unfold d at 2 in H0.
  unfold EncodeEnumeratedTag, EncodeEnumerated in H0. unfold decodeError.
  assert (is_class TagClassApplication) as Hcl by by left.
  destruct (readUnsignedTag_rest d 0 TagEnumerated _ class _ H0) as (o1 & -> & H1); [unfold TagEnumerated; lia|done..|].
  cbn [try obind].
  destruct (readUnsignedTag_rest d o1 TagEnumerated _ code _ H1) as (o2 & -> & H2); [unfold TagEnumerated; lia|done..|].
  done.
Qed.

(** C34. Error responses reach the caller as [BACnetError] values, up to the
    width of the Go types: the class and code of an error PDU, each reduced to
    an octet, whatever follows in the packet, so that a standard code below
    256 is reported exactly and is classified by the [IsXxx] helpers, while a
    larger (for example vendor-specific) code is reported, and classified, as
    the standard code it is congruent to. *)
Theorem decodeError_spec class code rest :
  0 <= class < 2 ^ 32 -> 0 <= code < 2 ^ 32 ->
  exists e, decodeError (EncodeEnumeratedTag class ++ EncodeEnumeratedTag code ++ rest) = Ret e /\
    e = NewBACnetError (class mod 256) (code mod 256) /\
    (class < 256 -> code < 256 -> e = NewBACnetError class code) /\
    (IsDeviceNotFound e = true <-> code mod 256 = ErrorCodeUnknownDevice \/ code mod 256 = ErrorCodeUnknownObject) /\
    (IsPropertyNotFound e = true <-> code mod 256 = ErrorCodeUnknownProperty) /\
    IsTimeout e = false.
Proof.
  intros Hc Hd. eexists. split; [by apply decodeError_pair|]. split; [done|]. split.
  { intros. by rewrite !Z.mod_small by lia. }
  unfold IsDeviceNotFound, IsPropertyNotFound, IsTimeout. cbn [errors_Is NewBACnetError Is_here orb].
  cbn [BACnetError_Is errors_As_BACnetError NewBACnetError BE_Code orb]. split_and!; [lia|lia|done].
Qed.

Lemma decodeError_spec_witness :
  exists e, decodeError (EncodeEnumeratedTag 2 ++ EncodeEnumeratedTag 32 ++ []) = Ret e /\
    e = NewBACnetError ErrorClassProperty ErrorCodeUnknownProperty.
Proof.
  destruct (decodeError_spec 2 32 []) as (e & H1 & H2 & _); [lia|lia|]. exists e. by split.
Defined.
