(* ===== verification/Metrics.v ===== *)
(** * Metrics ([metrics.go])

    Counters and gauges are [int64] cells updated by atomic instructions, which
    wrap; the latency histogram is updated under its mutex, so every operation
    is one step.  The time a call reads from the clock is an argument, in
    nanoseconds since the epoch. *)

From S2P Require Import Prelude Options.

(** ** Counters and gauges *)

Definition Counter : Type := Z.
Definition Counter_Add (c delta : Counter) : Counter := s64 (c + delta).
Definition Counter_Inc (c : Counter) : Counter := Counter_Add c 1.
Definition Counter_Value (c : Counter) : Z := c.
Definition Counter_Reset (c : Counter) : Counter := 0.

Definition Gauge : Type := Z.
Definition Gauge_Set (g : Gauge) (value : Z) : Gauge := value.
Definition Gauge_Add (g : Gauge) (delta : Z) : Gauge := s64 (g + delta).
Definition Gauge_Inc (g : Gauge) : Gauge := Gauge_Add g 1.
Definition Gauge_Dec (g : Gauge) : Gauge := Gauge_Add g (-1).
Definition Gauge_Value (g : Gauge) : Z := g.

(** ** Latency *)

(** [LatencyHistogram] *)
Record LatencyHistogram := {
  count : Z;
  sum : Z;
  min : Z;
  max : Z;
  buckets : list Z
}.

(** [LatencyStats] *)
Record LatencyStats := { LS_Count : Z; LS_Min : Z; LS_Max : Z; LS_Avg : Z; LS_Buckets : list Z }.

Definition NewLatencyHistogram : LatencyHistogram :=
  {| count := 0; sum := 0; min := -1; max := 0; buckets := replicate 10 0 |}.

(** The [switch] of [Record]: the bucket of a latency in milliseconds. *)
Definition bucket_index (ms : Z) : nat :=
  if ms <? 1 then 0%nat
  else if ms <? 5 then 1%nat
  else if ms <? 10 then 2%nat
  else if ms <? 25 then 3%nat
  else if ms <? 50 then 4%nat
  else if ms <? 100 then 5%nat
  else if ms <? 250 then 6%nat
  else if ms <? 500 then 7%nat
  else if ms <? 1000 then 8%nat
  else 9%nat.

(** [LatencyHistogram.Record]; [d] is a duration in nanoseconds. *)
Definition LatencyHistogram_Record (h : LatencyHistogram) (d : Z) : LatencyHistogram :=
  let ns := d in
  {| count := s64 (count h + 1);
     sum := s64 (sum h + ns);
     min := if (min h <? 0) || (ns <? min h) then ns else min h;
     max := if max h <? ns then ns else max h;
     buckets :=
       let ms := Z.quot d Millisecond in
       alter (fun n => s64 (n + 1)) (bucket_index ms) (buckets h) |}.

(** [LatencyHistogram.Stats] *)
Definition LatencyHistogram_Stats (h : LatencyHistogram) : LatencyStats :=
  if 0 <? count h
  then {| LS_Count := count h; LS_Min := min h; LS_Max := max h;
          LS_Avg := Z.quot (sum h) (count h); LS_Buckets := buckets h |}
  else {| LS_Count := count h; LS_Min := 0; LS_Max := 0; LS_Avg := 0; LS_Buckets := buckets h |}.

(** [LatencyHistogram.Reset] *)
Definition LatencyHistogram_Reset (h : LatencyHistogram) : LatencyHistogram :=
  {| count := 0; sum := 0; min := -1; max := 0; buckets := map (fun _ => 0) (buckets h) |}.

(** ** Metrics *)

(** [Metrics] *)
Record Metrics := {
  ConnectAttempts : Counter;
  ConnectSuccesses : Counter;
  ConnectFailures : Counter;
  Disconnects : Counter;
  RequestsSent : Counter;
  RequestsSucceeded : Counter;
  RequestsFailed : Counter;
  RequestsTimedOut : Counter;
  ResponsesReceived : Counter;
  ErrorsReceived : Counter;
  RejectsReceived : Counter;
  AbortsReceived : Counter;
  WhoIsSent : Counter;
  IAmReceived : Counter;
  DevicesDiscovered : Counter;
  COVSubscriptions : Counter;
  COVNotifications : Counter;
  PanicsRecovered : Counter;
  BytesSent : Counter;
  BytesReceived : Counter;
  RequestLatency : LatencyHistogram;
  ActiveRequests : Gauge;
  ActiveSubscriptions : Gauge;
  startTime : Z;
  lastActivity : Z
}.

(** The counter fields by name, so that one definition updates any of them. *)
Inductive counter : Type :=
  | ConnectAttempts_ | ConnectSuccesses_ | ConnectFailures_ | Disconnects_ | RequestsSent_
  | RequestsSucceeded_ | RequestsFailed_ | RequestsTimedOut_ | ResponsesReceived_
  | ErrorsReceived_ | RejectsReceived_ | AbortsReceived_ | WhoIsSent_ | IAmReceived_
  | DevicesDiscovered_ | COVSubscriptions_ | COVNotifications_ | PanicsRecovered_ | BytesSent_
  | BytesReceived_.

#[export] Instance counter_eq_dec : EqDecision counter.
Proof. solve_decision. Defined.

Definition get (c : counter) (m : Metrics) : Counter :=
  match c with
  | ConnectAttempts_ => ConnectAttempts m
  | ConnectSuccesses_ => ConnectSuccesses m
  | ConnectFailures_ => ConnectFailures m
  | Disconnects_ => Disconnects m
  | RequestsSent_ => RequestsSent m
  | RequestsSucceeded_ => RequestsSucceeded m
  | RequestsFailed_ => RequestsFailed m
  | RequestsTimedOut_ => RequestsTimedOut m
  | ResponsesReceived_ => ResponsesReceived m
  | ErrorsReceived_ => ErrorsReceived m
  | RejectsReceived_ => RejectsReceived m
  | AbortsReceived_ => AbortsReceived m
  | WhoIsSent_ => WhoIsSent m
  | IAmReceived_ => IAmReceived m
  | DevicesDiscovered_ => DevicesDiscovered m
  | COVSubscriptions_ => COVSubscriptions m
  | COVNotifications_ => COVNotifications m
  | PanicsRecovered_ => PanicsRecovered m
  | BytesSent_ => BytesSent m
  | BytesReceived_ => BytesReceived m
  end.

Definition update (c : counter) (f : Counter -> Counter) (m : Metrics) : Metrics :=
  let g c' v := if decide (c = c') then f v else v in
  {|
     ConnectAttempts := g ConnectAttempts_ (ConnectAttempts m);
     ConnectSuccesses := g ConnectSuccesses_ (ConnectSuccesses m);
     ConnectFailures := g ConnectFailures_ (ConnectFailures m);
     Disconnects := g Disconnects_ (Disconnects m);
     RequestsSent := g RequestsSent_ (RequestsSent m);
     RequestsSucceeded := g RequestsSucceeded_ (RequestsSucceeded m);
     RequestsFailed := g RequestsFailed_ (RequestsFailed m);
     RequestsTimedOut := g RequestsTimedOut_ (RequestsTimedOut m);
     ResponsesReceived := g ResponsesReceived_ (ResponsesReceived m);
     ErrorsReceived := g ErrorsReceived_ (ErrorsReceived m);
     RejectsReceived := g RejectsReceived_ (RejectsReceived m);
     AbortsReceived := g AbortsReceived_ (AbortsReceived m);
     WhoIsSent := g WhoIsSent_ (WhoIsSent m); IAmReceived := g IAmReceived_ (IAmReceived m);
     DevicesDiscovered := g DevicesDiscovered_ (DevicesDiscovered m);
     COVSubscriptions := g COVSubscriptions_ (COVSubscriptions m);
     COVNotifications := g COVNotifications_ (COVNotifications m);
     PanicsRecovered := g PanicsRecovered_ (PanicsRecovered m);
     BytesSent := g BytesSent_ (BytesSent m);
     BytesReceived := g BytesReceived_ (BytesReceived m); RequestLatency := RequestLatency m;
     ActiveRequests := ActiveRequests m; ActiveSubscriptions := ActiveSubscriptions m;
     startTime := startTime m; lastActivity := lastActivity m |}.

(** [m.c.Inc()] and [m.c.Add(delta)] *)
Definition Inc (c : counter) (m : Metrics) : Metrics := update c Counter_Inc m.
Definition Add (c : counter) (delta : Z) (m : Metrics) : Metrics :=
  update c (fun v => Counter_Add v delta) m.

(** [m.RequestLatency.Record(d)] *)
Definition RecordLatency (d : Z) (m : Metrics) : Metrics :=
  {|
     ConnectAttempts := ConnectAttempts m; ConnectSuccesses := ConnectSuccesses m;
     ConnectFailures := ConnectFailures m; Disconnects := Disconnects m;
     RequestsSent := RequestsSent m; RequestsSucceeded := RequestsSucceeded m;
     RequestsFailed := RequestsFailed m; RequestsTimedOut := RequestsTimedOut m;
     ResponsesReceived := ResponsesReceived m; ErrorsReceived := ErrorsReceived m;
     RejectsReceived := RejectsReceived m; AbortsReceived := AbortsReceived m;
     WhoIsSent := WhoIsSent m; IAmReceived := IAmReceived m;
     DevicesDiscovered := DevicesDiscovered m; COVSubscriptions := COVSubscriptions m;
     COVNotifications := COVNotifications m; PanicsRecovered := PanicsRecovered m;
     BytesSent := BytesSent m; BytesReceived := BytesReceived m;
     RequestLatency := LatencyHistogram_Record (RequestLatency m) d;
     ActiveRequests := ActiveRequests m; ActiveSubscriptions := ActiveSubscriptions m;
     startTime := startTime m; lastActivity := lastActivity m |}.

(** [m.ActiveRequests.Inc()] and [Dec()] *)
Definition updateActiveRequests (f : Gauge -> Gauge) (m : Metrics) : Metrics :=
  {|
     ConnectAttempts := ConnectAttempts m; ConnectSuccesses := ConnectSuccesses m;
     ConnectFailures := ConnectFailures m; Disconnects := Disconnects m;
     RequestsSent := RequestsSent m; RequestsSucceeded := RequestsSucceeded m;
     RequestsFailed := RequestsFailed m; RequestsTimedOut := RequestsTimedOut m;
     ResponsesReceived := ResponsesReceived m; ErrorsReceived := ErrorsReceived m;
     RejectsReceived := RejectsReceived m; AbortsReceived := AbortsReceived m;
     WhoIsSent := WhoIsSent m; IAmReceived := IAmReceived m;
     DevicesDiscovered := DevicesDiscovered m; COVSubscriptions := COVSubscriptions m;
     COVNotifications := COVNotifications m; PanicsRecovered := PanicsRecovered m;
     BytesSent := BytesSent m; BytesReceived := BytesReceived m;
     RequestLatency := RequestLatency m; ActiveRequests := f (ActiveRequests m);
     ActiveSubscriptions := ActiveSubscriptions m; startTime := startTime m;
     lastActivity := lastActivity m |}.

(** [Metrics.RecordActivity] *)
Definition RecordActivity (now : Z) (m : Metrics) : Metrics :=
  {|
     ConnectAttempts := ConnectAttempts m; ConnectSuccesses := ConnectSuccesses m;
     ConnectFailures := ConnectFailures m; Disconnects := Disconnects m;
     RequestsSent := RequestsSent m; RequestsSucceeded := RequestsSucceeded m;
     RequestsFailed := RequestsFailed m; RequestsTimedOut := RequestsTimedOut m;
     ResponsesReceived := ResponsesReceived m; ErrorsReceived := ErrorsReceived m;
     RejectsReceived := RejectsReceived m; AbortsReceived := AbortsReceived m;
     WhoIsSent := WhoIsSent m; IAmReceived := IAmReceived m;
     DevicesDiscovered := DevicesDiscovered m; COVSubscriptions := COVSubscriptions m;
     COVNotifications := COVNotifications m; PanicsRecovered := PanicsRecovered m;
     BytesSent := BytesSent m; BytesReceived := BytesReceived m;
     RequestLatency := RequestLatency m; ActiveRequests := ActiveRequests m;
     ActiveSubscriptions := ActiveSubscriptions m; startTime := startTime m;
     lastActivity := s64 now |}.

Definition NewMetrics (now : Z) : Metrics := {|
     ConnectAttempts := 0; ConnectSuccesses := 0; ConnectFailures := 0; Disconnects := 0;
     RequestsSent := 0; RequestsSucceeded := 0; RequestsFailed := 0; RequestsTimedOut := 0;
     ResponsesReceived := 0; ErrorsReceived := 0; RejectsReceived := 0; AbortsReceived := 0;
     WhoIsSent := 0; IAmReceived := 0; DevicesDiscovered := 0; COVSubscriptions := 0;
     COVNotifications := 0; PanicsRecovered := 0; BytesSent := 0; BytesReceived := 0;
     RequestLatency := NewLatencyHistogram; ActiveRequests := 0; ActiveSubscriptions := 0;
     startTime := now; lastActivity := 0 |}.

(** [Metrics.LastActivity] *)
Definition LastActivity (m : Metrics) : Z :=
  let ns := lastActivity m in
  if ns =? 0 then startTime m else ns.

(** [Metrics.Uptime]; [time.Since] saturates only after 292 years *)
Definition Uptime (now : Z) (m : Metrics) : Z := now - startTime m.

(** [Metrics.Reset], one line per statement *)
Definition Metrics_Reset (now : Z) (m : Metrics) : Metrics := {|
     ConnectAttempts := Counter_Reset (ConnectAttempts m);
     ConnectSuccesses := Counter_Reset (ConnectSuccesses m);
     ConnectFailures := Counter_Reset (ConnectFailures m);
     Disconnects := Counter_Reset (Disconnects m);
     RequestsSent := Counter_Reset (RequestsSent m);
     RequestsSucceeded := Counter_Reset (RequestsSucceeded m);
     RequestsFailed := Counter_Reset (RequestsFailed m);
     RequestsTimedOut := Counter_Reset (RequestsTimedOut m);
     ResponsesReceived := Counter_Reset (ResponsesReceived m);
     ErrorsReceived := Counter_Reset (ErrorsReceived m);
     RejectsReceived := Counter_Reset (RejectsReceived m);
     AbortsReceived := Counter_Reset (AbortsReceived m);
     WhoIsSent := Counter_Reset (WhoIsSent m); IAmReceived := Counter_Reset (IAmReceived m);
     DevicesDiscovered := Counter_Reset (DevicesDiscovered m);
     COVSubscriptions := Counter_Reset (COVSubscriptions m);
     COVNotifications := Counter_Reset (COVNotifications m);
     PanicsRecovered := Counter_Reset (PanicsRecovered m);
     BytesSent := Counter_Reset (BytesSent m); BytesReceived := Counter_Reset (BytesReceived m);
     RequestLatency := LatencyHistogram_Reset (RequestLatency m);
     ActiveRequests := Gauge_Set (ActiveRequests m) 0;
     ActiveSubscriptions := Gauge_Set (ActiveSubscriptions m) 0; startTime := now;
     lastActivity := 0 |}.

(** [MetricsSnapshot] *)
Record MetricsSnapshot := {
  MS_Uptime : Z;
  MS_ConnectAttempts : Z;
  MS_ConnectSuccesses : Z;
  MS_ConnectFailures : Z;
  MS_Disconnects : Z;
  MS_RequestsSent : Z;
  MS_RequestsSucceeded : Z;
  MS_RequestsFailed : Z;
  MS_RequestsTimedOut : Z;
  MS_ResponsesReceived : Z;
  MS_ErrorsReceived : Z;
  MS_RejectsReceived : Z;
  MS_AbortsReceived : Z;
  MS_WhoIsSent : Z;
  MS_IAmReceived : Z;
  MS_DevicesDiscovered : Z;
  MS_COVSubscriptions : Z;
  MS_COVNotifications : Z;
  MS_BytesSent : Z;
  MS_BytesReceived : Z;
  MS_LatencyStats : LatencyStats;
  MS_ActiveRequests : Z;
  MS_ActiveSubscriptions : Z;
  MS_LastActivity : Z
}.

(** [Metrics.Snapshot] *)
Definition Snapshot (now : Z) (m : Metrics) : MetricsSnapshot := {|
     MS_Uptime := Uptime now m; MS_ConnectAttempts := Counter_Value (ConnectAttempts m);
     MS_ConnectSuccesses := Counter_Value (ConnectSuccesses m);
     MS_ConnectFailures := Counter_Value (ConnectFailures m);
     MS_Disconnects := Counter_Value (Disconnects m);
     MS_RequestsSent := Counter_Value (RequestsSent m);
     MS_RequestsSucceeded := Counter_Value (RequestsSucceeded m);
     MS_RequestsFailed := Counter_Value (RequestsFailed m);
     MS_RequestsTimedOut := Counter_Value (RequestsTimedOut m);
     MS_ResponsesReceived := Counter_Value (ResponsesReceived m);
     MS_ErrorsReceived := Counter_Value (ErrorsReceived m);
     MS_RejectsReceived := Counter_Value (RejectsReceived m);
     MS_AbortsReceived := Counter_Value (AbortsReceived m);
     MS_WhoIsSent := Counter_Value (WhoIsSent m);
     MS_IAmReceived := Counter_Value (IAmReceived m);
     MS_DevicesDiscovered := Counter_Value (DevicesDiscovered m);
     MS_COVSubscriptions := Counter_Value (COVSubscriptions m);
     MS_COVNotifications := Counter_Value (COVNotifications m);
     MS_BytesSent := Counter_Value (BytesSent m);
     MS_BytesReceived := Counter_Value (BytesReceived m);
     MS_LatencyStats := LatencyHistogram_Stats (RequestLatency m);
     MS_ActiveRequests := Gauge_Value (ActiveRequests m);
     MS_ActiveSubscriptions := Gauge_Value (ActiveSubscriptions m);
     MS_LastActivity := LastActivity m |}.

(** ** The view of a counter *)

Lemma get_update c c' f m : get c' (update c f m) = if decide (c = c') then f (get c' m) else get c' m.
Proof. by destruct c'. Qed.

Lemma get_RecordLatency c d m : get c (RecordLatency d m) = get c m.
Proof. by destruct c. Qed.

Lemma get_updateActiveRequests c f m : get c (updateActiveRequests f m) = get c m.
Proof. by destruct c. Qed.

Lemma ActiveRequests_update c f m : ActiveRequests (update c f m) = ActiveRequests m.
Proof. done. Qed.

(** ** The balance of the requests

    What the counters leave open: the requests that were sent and have not
    succeeded, failed or timed out, modulo 2^64 as the counters. *)

Definition outstanding (m : Metrics) : Z :=
  s64 (get RequestsSent_ m - get RequestsSucceeded_ m - get RequestsFailed_ m - get RequestsTimedOut_ m).

(** The counters of outcomes, and all that count requests. *)
Definition is_outcome (c : counter) : bool :=
  match c with RequestsSucceeded_ | RequestsFailed_ | RequestsTimedOut_ => true | _ => false end.
Definition is_balanced (c : counter) : bool :=
  match c with RequestsSent_ => true | _ => is_outcome c end.

(** The counters that the handling of a packet leaves alone. *)
Definition is_guarded (c : counter) : bool :=
  match c with PanicsRecovered_ => true | _ => is_balanced c end.

Lemma s64_succ x : Gauge_Inc (s64 x) = s64 (x + 1).
Proof. unfold Gauge_Inc, Gauge_Add, sint. change (2 ^ (64 - 1)) with (2 ^ 63). div_lia. Qed.
Lemma s64_pred x : Gauge_Dec (s64 x) = s64 (x - 1).
Proof. unfold Gauge_Dec, Gauge_Add, sint. change (2 ^ (64 - 1)) with (2 ^ 63). div_lia. Qed.

Lemma outstanding_sent m : outstanding (Inc RequestsSent_ m) = Gauge_Inc (outstanding m).
Proof.
  unfold outstanding, Inc. rewrite s64_succ, !get_update. repeat (case_decide; [|try done]); try done.
  unfold Counter_Inc, Counter_Add, sint. change (2 ^ (64 - 1)) with (2 ^ 63). div_lia.
Qed.

Lemma outstanding_outcome c m : is_outcome c = true -> outstanding (Inc c m) = Gauge_Dec (outstanding m).
Proof.
  intros Hc. unfold outstanding, Inc. rewrite s64_pred, !get_update.
  destruct c; try done; repeat (case_decide; try done);
    unfold Counter_Inc, Counter_Add, sint; change (2 ^ (64 - 1)) with (2 ^ 63); div_lia.
Qed.

Lemma outstanding_update c f m : is_balanced c = false -> outstanding (update c f m) = outstanding m.
Proof. intros Hc. unfold outstanding. rewrite !get_update. by destruct c. Qed.

Lemma outstanding_updateActiveRequests f m : outstanding (updateActiveRequests f m) = outstanding m.
Proof. done. Qed.
Lemma outstanding_RecordLatency d m : outstanding (RecordLatency d m) = outstanding m.
Proof. done. Qed.

(** What a step does that counts something else. *)
Lemma update_unguarded c f m :
  is_guarded c = false ->
  get PanicsRecovered_ (update c f m) = get PanicsRecovered_ m /\ outstanding (update c f m) = outstanding m.
Proof. intros Hc. rewrite get_update, outstanding_update by (by destruct c). by destruct c. Qed.

(** A request that is sent and comes to an outcome leaves nothing open. *)
Lemma outstanding_inc_dec m : Gauge_Dec (Gauge_Inc (outstanding m)) = outstanding m.
Proof. unfold outstanding. rewrite s64_succ, s64_pred. f_equal. lia. Qed.

(** ** Properties *)

(** The histogram after a list of latencies, on a fresh histogram. *)
Definition record_all (ds : list Z) : LatencyHistogram :=
  fold_left LatencyHistogram_Record ds NewLatencyHistogram.

Definition list_sum_Z (ds : list Z) : Z := fold_right Z.add 0 ds.

(** How many of the latencies fall into bucket [i]. *)
Definition in_bucket (i : nat) (ds : list Z) : Z :=
  len (filter (fun d => bucket_index (Z.quot d Millisecond) = i) ds).

(** What the histogram records of a list of latencies. *)
Record summarizes (ds : list Z) (h : LatencyHistogram) : Prop := {
  sum_count : count h = len ds;
  sum_sum : sum h = list_sum_Z ds;
  sum_min : match ds with [] => min h = -1 | _ => min h ∈ ds /\ (forall d, d ∈ ds -> min h <= d) end;
  sum_max : match ds with [] => max h = 0 | _ => max h ∈ ds /\ (forall d, d ∈ ds -> d <= max h) end;
  sum_buckets : length (buckets h) = 10%nat /\
    forall i, (i < 10)%nat -> buckets h !! i = Some (in_bucket i ds)
}.

Lemma list_sum_Z_app ds es : list_sum_Z (ds ++ es) = list_sum_Z ds + list_sum_Z es.
Proof. unfold list_sum_Z. induction ds as [|d ds IH]; cbn; [done|]. rewrite IH. lia. Qed.

Lemma list_sum_Z_nonneg ds : Forall (fun d => 0 <= d) ds -> 0 <= list_sum_Z ds.
Proof. unfold list_sum_Z. induction 1; cbn [fold_right]; lia. Qed.

Lemma in_bucket_app i ds es : in_bucket i (ds ++ es) = in_bucket i ds + in_bucket i es.
Proof. unfold in_bucket. by rewrite filter_app, len_app. Qed.

Lemma in_bucket_le i ds : 0 <= in_bucket i ds <= len ds.
Proof. unfold in_bucket, len. pose proof (length_filter (fun d => bucket_index (Z.quot d Millisecond) = i) ds). lia. Qed.

Lemma bucket_index_lt ms : (bucket_index ms < 10)%nat.
Proof. unfold bucket_index. repeat case_match; lia. Qed.

Lemma s64_small z : 0 <= z < 2 ^ 63 -> s64 z = z.
Proof. intros. apply (sint_small 64); [lia|]. change (64 - 1) with 63. lia. Qed.

Lemma summarizes_new : summarizes [] NewLatencyHistogram.
Proof.
  split; try done. split; [done|]. intros i Hi. cbn [NewLatencyHistogram buckets].
  by apply lookup_replicate_2.
Qed.

Lemma record_buckets ds h d :
  len ds + 1 < 2 ^ 63 ->
  length (buckets h) = 10%nat /\ (forall i, (i < 10)%nat -> buckets h !! i = Some (in_bucket i ds)) ->
  let bs := buckets (LatencyHistogram_Record h d) in
  length bs = 10%nat /\ forall i, (i < 10)%nat -> bs !! i = Some (in_bucket i (ds ++ [d])).
Proof.
  intros Hl [Hlen Hb]. cbn [LatencyHistogram_Record buckets]. split; [by rewrite length_alter|].
  intros i Hi. rewrite in_bucket_app. unfold in_bucket at 2. rewrite filter_cons, filter_nil.
  case_decide as Heq.
  - rewrite Heq, list_lookup_alter_eq, Hb by done. cbn. f_equal.
    pose proof (in_bucket_le i ds). change (len [d]) with 1. apply s64_small. lia.
  - rewrite list_lookup_alter_ne, Hb by done. f_equal. change (len []) with 0. lia.
Qed.

Lemma record_min ds h d :
  Forall (fun d => 0 <= d) ds -> 0 <= d ->
  match ds with [] => min h = -1 | _ => min h ∈ ds /\ (forall d, d ∈ ds -> min h <= d) end ->
  let m := min (LatencyHistogram_Record h d) in
  m ∈ ds ++ [d] /\ forall d', d' ∈ ds ++ [d] -> m <= d'.
Proof.
  intros Hds Hd Hm. cbn [LatencyHistogram_Record min].
  destruct ds as [|d0 ds0]; [rewrite Hm; cbn; set_solver by lia|].
  set (ds := d0 :: ds0) in *. destruct Hm as [Hin Hle].
  rewrite Forall_forall in Hds. pose proof (Hds _ Hin).
  destruct ((min h <? 0) || (d <? min h)) eqn:E; split; try set_solver;
    intros d' [Hd'|Hd']%elem_of_app; try (specialize (Hle _ Hd'); lia);
    apply list_elem_of_singleton in Hd'; lia.
Qed.

Lemma record_max ds h d :
  Forall (fun d => 0 <= d) ds -> 0 <= d ->
  match ds with [] => max h = 0 | _ => max h ∈ ds /\ (forall d, d ∈ ds -> d <= max h) end ->
  let m := max (LatencyHistogram_Record h d) in
  m ∈ ds ++ [d] /\ forall d', d' ∈ ds ++ [d] -> d' <= m.
Proof.
  intros Hds Hd Hm. cbn [LatencyHistogram_Record max].
  destruct ds as [|d0 ds0].
  { rewrite Hm. assert (d = 0 \/ 0 < d) as [-> | Hp] by lia; [set_solver by lia|].
    replace (0 <? d) with true by lia. set_solver by lia. }
  set (ds := d0 :: ds0) in *. destruct Hm as [Hin Hle].
  destruct (max h <? d) eqn:E; split; try set_solver;
    intros d' [Hd'|Hd']%elem_of_app; try (specialize (Hle _ Hd'); lia);
    apply list_elem_of_singleton in Hd'; lia.
Qed.

Lemma summarizes_record ds h d :
  summarizes ds h -> Forall (fun d => 0 <= d) ds -> 0 <= d ->
  list_sum_Z ds + d < 2 ^ 63 -> len ds + 1 < 2 ^ 63 ->
  summarizes (ds ++ [d]) (LatencyHistogram_Record h d).
Proof.
  intros [Hc Hs Hm HM Hb] Hds Hd Hsum Hlen. pose proof (list_sum_Z_nonneg ds Hds).
  split.
  - cbn. rewrite Hc, s64_small by len_lia. len_lia.
  - cbn. rewrite Hs, list_sum_Z_app, s64_small by lia. cbn. lia.
  - pose proof (record_min ds h d Hds Hd Hm) as HR. by destruct ds.
  - pose proof (record_max ds h d Hds Hd HM) as HR. by destruct ds.
  - by apply record_buckets.
Qed.

Lemma record_all_summarizes ds :
  Forall (fun d => 0 <= d) ds -> list_sum_Z ds < 2 ^ 63 -> len ds < 2 ^ 63 ->
  summarizes ds (record_all ds).
Proof.
  induction ds as [|d ds IH] using rev_ind; intros Hds Hs Hl; [apply summarizes_new|].
  apply Forall_app in Hds as [Hds [Hd _]%Forall_cons]. rewrite list_sum_Z_app in Hs. cbn in Hs.
  rewrite len_app in Hl. change (len [d]) with 1 in Hl.
  unfold record_all. rewrite fold_left_app. apply summarizes_record; [|done|done|lia|lia].
  apply IH; [done|lia|lia].
Qed.

(** C39. The latency statistics are those of the recorded latencies: after any
    non-empty sequence of non-negative latencies (whose sum fits [int64]) the
    count is their number, minimum and maximum are attained bounds, the average
    is the truncated mean, and each of the ten buckets counts the latencies of
    its range, so that the buckets partition the recordings. *)
Theorem LatencyHistogram_exact ds :
  ds <> [] -> Forall (fun d => 0 <= d) ds -> list_sum_Z ds < 2 ^ 63 -> len ds < 2 ^ 63 ->
  let st := LatencyHistogram_Stats (record_all ds) in
  LS_Count st = len ds /\
  (LS_Min st ∈ ds /\ forall d, d ∈ ds -> LS_Min st <= d) /\
  (LS_Max st ∈ ds /\ forall d, d ∈ ds -> d <= LS_Max st) /\
  LS_Avg st = list_sum_Z ds / len ds /\
  length (LS_Buckets st) = 10%nat /\
  (forall i, (i < 10)%nat -> LS_Buckets st !! i = Some (in_bucket i ds)).
Proof.
  intros Hne Hds Hs Hl. destruct (record_all_summarizes ds Hds Hs Hl) as [Hc Hsum Hmin Hmax [Hb Hbi]].
  assert (0 < len ds) as Hpos by (destruct ds; [done|len_lia]).
  unfold LatencyHistogram_Stats. rewrite Hc. replace (0 <? len ds) with true by lia.
  cbn [LS_Count LS_Min LS_Max LS_Avg LS_Buckets]. rewrite Hsum.
  split_and!; try done; try (by destruct ds); try (by destruct ds, Hmin); try (by destruct ds, Hmax).
  apply Z.quot_div_nonneg; [by apply list_sum_Z_nonneg|lia].
Qed.

Lemma LatencyHistogram_exact_witness :
  LS_Avg (LatencyHistogram_Stats (record_all [3000000; 12000000])) = 7500000.
Proof.
  refine (proj1 (proj2 (proj2 (proj2 (LatencyHistogram_exact [3000000; 12000000] _ _ _ _)))));
    [done|repeat constructor; lia|cbn; lia|done].
Defined.

Lemma map_const_zero (l : list Z) : map (fun _ => 0) l = replicate (length l) 0.
Proof. induction l; cbn; congruence. Qed.

(** [Reset] forgets everything: whatever was recorded before, counters,
    gauges, latencies and activity, the metrics after a reset are those of a
    new instance, so that no field is left out. *)
Theorem Metrics_Reset_fresh now m :
  length (buckets (RequestLatency m)) = 10%nat -> Metrics_Reset now m = NewMetrics now.
Proof.
  intros Hb. unfold Metrics_Reset, NewMetrics, NewLatencyHistogram, LatencyHistogram_Reset.
  by rewrite map_const_zero, Hb.
Qed.

Lemma Metrics_Reset_fresh_witness :
  Metrics_Reset 7 (RecordLatency 5 (Inc RequestsSent_ (NewMetrics 1))) = NewMetrics 7.
Proof. apply Metrics_Reset_fresh. reflexivity. Defined.
