(* ===== verification/Transport.v ===== *)
(** * The UDP transport ([internal/transport/udp.go])

    The methods hold the mutex while they touch the fields, so each access is
    one step.  What package [net] does is an argument: the outcome of an address
    resolution, of a listen, and of a read or write on an open socket.  On a
    closed socket every operation fails with [net.ErrClosed].  The datagrams a
    call hands to the socket are part of its result. *)

From S2P Require Import Prelude Enums Errors Options.
#[local] Open Scope string_scope.
#[local] Open Scope list_scope.
#[local] Open Scope Z_scope.

(** [net.UDPAddr] *)
Record UDPAddr := { IP : bytes; Port : Z }.

#[export] Instance UDPAddr_eq_dec : EqDecision UDPAddr.
Proof. solve_decision. Defined.

(** [net.UDPConn]: a socket and whether it is still open. *)
Record UDPConn := { socket : Z; is_open : bool }.

(** [UDPTransport] *)
Record UDPTransport := {
  localAddr : string;
  conn : option UDPConn;
  readTimeout : Z;
  writeTimeout : Z;
  closed : bool
}.

(** [net.ErrClosed] as a socket operation reports it *)
Definition errClosed : error := EOS false "use of closed network connection".

(** A datagram handed to the socket: its write deadline, address and data. *)
Record Datagram := { D_deadline : Z; D_addr : UDPAddr; D_data : bytes }.

Definition NewUDPTransport (localAddr : string) : UDPTransport :=
  {| localAddr := localAddr; conn := None; readTimeout := 3 * Second; writeTimeout := 3 * Second;
     closed := false |}.

Definition SetReadTimeout (d : Z) (t : UDPTransport) : UDPTransport :=
  {| localAddr := localAddr t; conn := conn t; readTimeout := d; writeTimeout := writeTimeout t;
     closed := closed t |}.

Definition SetWriteTimeout (d : Z) (t : UDPTransport) : UDPTransport :=
  {| localAddr := localAddr t; conn := conn t; readTimeout := readTimeout t; writeTimeout := d;
     closed := closed t |}.

(** [resolve] is [net.ResolveUDPAddr("udp4", _)], [listen] is
    [net.ListenUDP("udp4", _)]. *)
Definition Open (resolve : string -> go UDPAddr) (listen : option UDPAddr -> go Z)
    (t : UDPTransport) : go unit * UDPTransport :=
  match conn t with
  | Some _ => (Ret tt, t)
  | None =>
      let addr :=
        if String.eqb (localAddr t) EmptyString then Ret None
        else match resolve (localAddr t) with
             | Ret a => Ret (Some a)
             | Err err => Err (EWrap "resolve local address: " err EmptyString)
             | Panic => Panic
             | NoFuel => NoFuel
             end in
      match addr with
      | Ret addr =>
          match listen addr with
          | Ret s =>
              (Ret tt, {| localAddr := localAddr t; conn := Some {| socket := s; is_open := true |};
                          readTimeout := readTimeout t; writeTimeout := writeTimeout t; closed := false |})
          | Err err => (Err (EWrap "listen UDP: " err EmptyString), t)
          | Panic => (Panic, t)
          | NoFuel => (NoFuel, t)
          end
      | Err err => (Err err, t)
      | Panic => (Panic, t)
      | NoFuel => (NoFuel, t)
      end
  end.

(** [close_result] is what closing the open socket returns; the socket is
    closed in any case. *)
Definition Close (close_result : go unit) (t : UDPTransport) : go unit * UDPTransport :=
  match conn t with
  | None => (Ret tt, t)
  | Some c =>
      if closed t then (Ret tt, t)
      else
        (if is_open c then close_result else Err errClosed,
         {| localAddr := localAddr t; conn := Some {| socket := socket c; is_open := false |};
            readTimeout := readTimeout t; writeTimeout := writeTimeout t; closed := true |})
  end.

(** [ctx.Deadline()] of the caller's context, else the default timeout. *)
Definition deadline (ctx : option Z) (now timeout : Z) : Z :=
  match ctx with
  | Some d => d
  | None => now + timeout
  end.

(** [write] is [conn.WriteToUDP(data, addr)] on the open socket: the number of
    octets written. *)
Definition Send (ctx : option Z) (now : Z) (addr : UDPAddr) (data : bytes) (write : go Z)
    (t : UDPTransport) : go unit * list Datagram :=
  match conn t with
  | None => (Err (EText "transport not open"), [])
  | Some c =>
      let deadline := deadline ctx now (writeTimeout t) in
      if negb (is_open c) then (Err (EWrap "set write deadline: " errClosed EmptyString), [])
      else
        let sent := [{| D_deadline := deadline; D_addr := addr; D_data := data |}] in
        match write with
        | Ret n =>
            if negb (n =? len data)
            then (Err (EText ("partial write: " +:+ dec n +:+ " of " +:+ dec (len data) +:+ " bytes")), sent)
            else (Ret tt, sent)
        | Err err => (Err (EWrap "write UDP: " err EmptyString), sent)
        | Panic => (Panic, sent)
        | NoFuel => (NoFuel, sent)
        end
  end.

(** [net.IPv4bcast] *)
Definition IPv4bcast : bytes := [0; 0; 0; 0; 0; 0; 0; 0; 0; 0; 255; 255; 255; 255; 255; 255].

Definition Broadcast (ctx : option Z) (now : Z) (port : Z) (data : bytes) (write : go Z)
    (t : UDPTransport) : go unit * list Datagram :=
  let addr := {| IP := IPv4bcast; Port := port |} in
  Send ctx now addr data write t.

(** [read deadline] is the next datagram the open socket delivers before the
    deadline, with its sender; [ReadFromUDP] copies what fits the buffer. *)
Definition Receive (ctx : option Z) (now : Z) (read : Z -> go (bytes * UDPAddr))
    (t : UDPTransport) : go (bytes * UDPAddr) :=
  match conn t with
  | None => Err (EText "transport not open")
  | Some c =>
      let deadline := deadline ctx now (readTimeout t) in
      if negb (is_open c) then Err (EWrap "set read deadline: " errClosed EmptyString)
      else
        let! '(datagram, addr) := read deadline in
        Ret (take 1500 datagram, addr)
  end.

Definition ReceiveWithTimeout (timeout now : Z) (read : Z -> go (bytes * UDPAddr))
    (t : UDPTransport) : go (bytes * UDPAddr) :=
  Receive (Some (now + timeout)) now read t.

Definition IsClosed (t : UDPTransport) : bool := closed t.

(** The socket whose address [LocalAddr] returns, nil when there is none. *)
Definition LocalAddr (t : UDPTransport) : option Z := option_map socket (conn t).

(** ** Life cycle *)

(** The states a transport can be in. *)
Inductive lifecycle : UDPTransport -> Prop :=
  | Unopened l r w : lifecycle {| localAddr := l; conn := None; readTimeout := r; writeTimeout := w; closed := false |}
  | Opened l s r w : lifecycle {| localAddr := l; conn := Some {| socket := s; is_open := true |};
                                  readTimeout := r; writeTimeout := w; closed := false |}
  | Closed l s r w : lifecycle {| localAddr := l; conn := Some {| socket := s; is_open := false |};
                                  readTimeout := r; writeTimeout := w; closed := true |}.

Lemma Open_lifecycle res lis t : lifecycle t -> lifecycle (Open res lis t).2.
Proof.
  destruct 1; unfold Open; cbn [conn localAddr]; try constructor.
  repeat case_match; simplify_eq; cbn; constructor.
Qed.

Lemma Close_lifecycle r t : lifecycle t -> lifecycle (Close r t).2.
Proof. destruct 1; cbn; constructor. Qed.

(** The transport can carry packets. *)
Definition usable (t : UDPTransport) : Prop := exists c, conn t = Some c /\ is_open c = true.

(** A transport whose socket has been closed. *)
Definition dead (t : UDPTransport) : Prop :=
  closed t = true /\ exists s, conn t = Some {| socket := s; is_open := false |}.

Lemma Close_dead r t : lifecycle t -> usable t -> dead (Close r t).2.
Proof.
  intros Ht (c & Hc & Ho). destruct Ht; cbn in Hc; simplify_eq; cbn in Ho; try done.
  split; [done|by eexists].
Qed.

Lemma Open_dead res lis t : dead t -> Open res lis t = (Ret tt, t).
Proof. intros (_ & s & Hs). unfold Open. by rewrite Hs. Qed.

Lemma Send_dead ctx now addr data write t :
  dead t -> Send ctx now addr data write t = (Err (EWrap "set write deadline: " errClosed EmptyString), []).
Proof. intros (_ & s & Hs). unfold Send. by rewrite Hs. Qed.

Lemma Receive_dead ctx now read t :
  dead t -> Receive ctx now read t = Err (EWrap "set read deadline: " errClosed EmptyString).
Proof. intros (_ & s & Hs). unfold Receive. by rewrite Hs. Qed.

(** A transport cannot be reopened.  In every reachable state: an [Open]
    that returns nil leaves the transport usable exactly when it had not been
    closed; [Close] always leaves a transport that is not usable, and from then
    on [Open] returns nil without listening again and changes nothing, while
    every [Send] and [Receive] fails without reaching the network. *)
Theorem transport_reopen_is_dead t res lis cr :
  lifecycle t ->
  ((Open res lis t).1 = Ret tt -> usable (Open res lis t).2 <-> closed t = false) /\
  ~ usable (Close cr t).2 /\
  (usable t ->
   let t' := (Close cr t).2 in
   Open res lis t' = (Ret tt, t') /\
   forall ctx now addr data write read,
     Send ctx now addr data write t' = (Err (EWrap "set write deadline: " errClosed EmptyString), []) /\
     Receive ctx now read t' = Err (EWrap "set read deadline: " errClosed EmptyString)).
Proof.
  intros Ht. split_and!.
  - destruct Ht as [l r w|l s r w|l s r w]; unfold Open; cbn [conn localAddr closed].
    + repeat case_match; simplify_eq; cbn; try done; intros _; (split; [done|intros _; by eexists]).
    + intros _. split; [done|]. intros _. by eexists.
    + intros _. split; [|done]. by intros (c & [= <-] & ?).
  - intros (c & Hc & Ho). destruct Ht; cbn in Hc; simplify_eq.
  - intros Hu. pose proof (Close_dead cr t Ht Hu) as Hd. split; [by apply Open_dead|].
    intros. split; [by apply Send_dead|by apply Receive_dead].
Qed.

Lemma transport_reopen_is_dead_witness :
  let t := {| localAddr := "0.0.0.0:47808"; conn := Some {| socket := 3; is_open := true |};
              readTimeout := 1; writeTimeout := 1; closed := false |} in
  Open (fun _ => Panic) (fun _ => Panic) (Close (Ret tt) t).2 = (Ret tt, (Close (Ret tt) t).2).
Proof.
  intros t. refine (proj1 (proj2 (proj2 (transport_reopen_is_dead t _ _ _ _)) _)); [constructor|].
  exists {| socket := 3; is_open := true |}. by split.
Defined.

(** What the transport guarantees of its data: a [Send] that returns nil
    handed exactly the given data to the socket, once, for the given address,
    with the context's deadline or else the write timeout from now; a
    [Receive] that returns delivers a prefix, at most 1500 octets long, of a
    datagram that arrived before its deadline, and octets stay octets. *)
Theorem transport_data ctx now addr data write read t :
  ((Send ctx now addr data write t).1 = Ret tt ->
   write = Ret (len data) /\
   (Send ctx now addr data write t).2 =
     [{| D_deadline := deadline ctx now (writeTimeout t); D_addr := addr; D_data := data |}]) /\
  (forall packet from, Receive ctx now read t = Ret (packet, from) ->
   exists datagram, read (deadline ctx now (readTimeout t)) = Ret (datagram, from) /\
     packet = take 1500 datagram /\ len packet <= 1500 /\ (wf_bytes datagram -> wf_bytes packet)).
Proof.
  split.
  - unfold Send. repeat case_match; cbn; try done. intros _. split; [|done]. f_equal. lia.
  - unfold Receive. intros packet from. repeat case_match; try done.
    destruct (read _) as [[d a]|e| |]; cbn; try done. intros [= <- <-]. exists d.
    split_and!; auto with wf. unfold len. rewrite length_take. lia.
Qed.

Lemma transport_data_witness :
  let t := {| localAddr := EmptyString; conn := Some {| socket := 3; is_open := true |};
              readTimeout := 1; writeTimeout := 5; closed := false |} in
  (Send None 100 {| IP := [10; 0; 0; 1]; Port := 47808 |} [1; 2] (Ret 2) t).2 =
    [{| D_deadline := 105; D_addr := {| IP := [10; 0; 0; 1]; Port := 47808 |}; D_data := [1; 2] |}].
Proof.
  intros t. refine (proj2 (proj1 (transport_data None 100 _ [1; 2] (Ret 2) (fun _ => Panic) t) _)). reflexivity.
Defined.
