(* ===== verification/Device.v ===== *)
(** * Devices and their addresses ([device.go], [types.go], [resolveDevice] of [client.go]) *)

From S2P Require Import Prelude Enums Errors Tags Transport.
#[local] Open Scope string_scope.
#[local] Open Scope list_scope.
#[local] Open Scope Z_scope.

(** [Address]; a nil [Addr] is [[]] *)
Record Address := { Net : Z; Addr : bytes }.

(** [DeviceInfo] *)
Record DeviceInfo := {
  ObjectID : ObjectIdentifier;
  DeviceAddress : Address;
  DI_MaxAPDULength : Z;
  DI_Segmentation : Z;
  DI_VendorID : Z;
  VendorName : string;
  ModelName : string;
  FirmwareRevision : string;
  ApplicationSoftware : string;
  Description : string;
  Location : string;
  ObjectList : list ObjectIdentifier
}.

(** A literal with the first five fields. *)
Definition device_info (oid : ObjectIdentifier) (address : Address)
    (maxAPDU segmentation vendorID : Z) : DeviceInfo := {|
  ObjectID := oid; DeviceAddress := address; DI_MaxAPDULength := maxAPDU;
  DI_Segmentation := segmentation; DI_VendorID := vendorID;
  VendorName := EmptyString; ModelName := EmptyString; FirmwareRevision := EmptyString;
  ApplicationSoftware := EmptyString; Description := EmptyString; Location := EmptyString;
  ObjectList := [] |}.

(** [net.IP.To4]: the 4-byte form of an IPv4 address, nil for anything else. *)
Definition To4 (ip : bytes) : option bytes :=
  if len ip =? 4 then Some ip
  else if (len ip =? 16) && bool_decide (take 12 ip = [0; 0; 0; 0; 0; 0; 0; 0; 0; 0; 0xFF; 0xFF])
  then Some (drop 12 ip) else None.

Definition NewRemoteDevice (deviceID : Z) (ip : bytes) (port : Z) : DeviceInfo :=
  let addr :=
    match To4 ip with
    | Some ip4 =>
        if port =? DefaultPort then {| Net := 0; Addr := ip4 |}
        else {| Net := 0; Addr := ip4 ++ [u8 (Z.shiftr port 8); u8 port] |}
    | None => {| Net := 0; Addr := [] |}
    end in
  device_info {| OID_Type := ObjectTypeDevice; OID_Instance := deviceID |} addr MaxAPDULength 0 0.

(** The end of [resolveDevice]: the UDP address of a known device. *)
Definition udp_address (dev : DeviceInfo) : go UDPAddr :=
  let a := Addr (DeviceAddress dev) in
  if len a =? 4 then Ret {| IP := a; Port := DefaultPort |}
  else if len a =? 6 then
    let! ip := slice a 0 4 in
    let! s := slice_from a 4 in
    let! port := be16 s in
    Ret {| IP := ip; Port := port |}
  else Err (EText "invalid device address format").

Lemma To4_len ip ip4 : To4 ip = Some ip4 -> len ip4 = 4.
Proof.
  unfold To4. destruct (Z.eqb_spec (len ip) 4); [by intros [= <-]|].
  destruct (Z.eqb_spec (len ip) 16) as [E|]; [|done]. case_bool_decide; [|done].
  intros [= <-]. unfold len in *. rewrite length_drop. lia.
Qed.

Lemma udp_address_6 oid net ip4 hi lo m s v :
  len ip4 = 4 -> is_byte hi -> is_byte lo ->
  udp_address (device_info oid {| Net := net; Addr := ip4 ++ [hi; lo] |} m s v) =
    Ret {| IP := ip4; Port := hi * 256 + lo |}.
Proof.
  intros Hl Hh Hlo. unfold udp_address. cbn [DeviceAddress device_info Addr].
  replace (len (ip4 ++ [hi; lo]) =? 4) with false by len_lia.
  replace (len (ip4 ++ [hi; lo]) =? 6) with true by len_lia.
  rewrite (slice_mid' _ [] ip4 [hi; lo]) by (rewrite ?len_nil, ?Hl; done). cbn [obind].
  rewrite <- Hl, slice_from_app. cbn [obind]. by rewrite be16_eq.
Qed.

Lemma udp_address_4 oid net ip4 m s v :
  len ip4 = 4 ->
  udp_address (device_info oid {| Net := net; Addr := ip4 |} m s v) =
    Ret {| IP := ip4; Port := DefaultPort |}.
Proof. intros Hl. unfold udp_address. cbn [DeviceAddress device_info Addr]. by rewrite Hl. Qed.

Lemma udp_address_safe dev : safely (udp_address dev) (fun _ => True).
Proof. unfold udp_address. go_safe; done. Qed.

(** A device registered by hand is reached where it was said to be: for
    every IPv4 address, in 4-byte or IPv4-in-IPv6 form, the address derived
    from [NewRemoteDevice] is that address, with the given port (its low 16
    bits, should it be larger); any other IP gives the documented error. *)
Theorem NewRemoteDevice_resolves deviceID ip port :
  udp_address (NewRemoteDevice deviceID ip port) =
  match To4 ip with
  | Some ip4 => Ret {| IP := ip4; Port := port mod 65536 |}
  | None => Err (EText "invalid device address format")
  end.
Proof.
  unfold NewRemoteDevice. destruct (To4 ip) as [ip4|] eqn:E; [|done]. apply To4_len in E.
  destruct (Z.eqb_spec port DefaultPort) as [->|].
  - rewrite udp_address_4 by done. done.
  - rewrite udp_address_6 by (done || apply u8_byte). do 2 f_equal.
    rewrite u8_shiftr by lia. unfold uint. div_lia.
Qed.
