(* ===== verification/Client.v ===== *)
(** * The client ([client.go])

    The state of [Client] and the handlers that run on it when a packet
    arrives: BVLC, NPDU and APDU decoding, the I-Am, COV and response branches.
    A handler is a function in a state monad whose result may be an error or a
    panic; a panic keeps the state reached, as [recover] sees it.  The calls of
    the user are in [Calls.v].

    A channel is a cell of the heap [chans], of capacity 1, and [pending] maps
    an invoke id to a cell, so that a goroutine that holds a channel and the
    map share it.  A [DeviceInfo] is never changed after it has been stored,
    so [devices] holds values instead of pointers.  Logging is left out. *)

From S2P Require Import Prelude Enums Errors Link Apdu Tags Values Options Services Metrics Transport Device.
#[local] Open Scope string_scope.
#[local] Open Scope list_scope.
#[local] Open Scope Z_scope.

(** ** State *)

Definition StateDisconnected : Z := 0.
Definition StateConnecting : Z := 1.
Definition StateConnected : Z := 2.

(** [ConnectionState.String] *)
Definition ConnectionState_String (s : Z) : string :=
  if s =? StateDisconnected then "disconnected"
  else if s =? StateConnecting then "connecting"
  else if s =? StateConnected then "connected"
  else "unknown".

(** A [chan *APDU] of capacity 1. *)
Record Chan := { buffer : option APDU; chan_closed : bool }.

(** A registered handler; the client never calls one. *)
Definition COVHandler : Type := Z.

(** [Client] *)
Record Client := {
  opts : clientOptions;
  transport : UDPTransport;
  state : Z;
  invokeID : Z;
  pending : gmap Z Z;
  chans : gmap Z Chan;
  devices : gmap Z DeviceInfo;
  covSubs : gmap Z COVHandler;
  metrics : Metrics;
  receiving : bool
}.

Definition set_transport (v : UDPTransport) (c : Client) : Client :=
  {| opts := opts c; transport := v; state := state c; invokeID := invokeID c;
     pending := pending c; chans := chans c; devices := devices c; covSubs := covSubs c;
     metrics := metrics c; receiving := receiving c |}.
Definition set_state (v : Z) (c : Client) : Client :=
  {| opts := opts c; transport := transport c; state := v; invokeID := invokeID c;
     pending := pending c; chans := chans c; devices := devices c; covSubs := covSubs c;
     metrics := metrics c; receiving := receiving c |}.
Definition set_invokeID (v : Z) (c : Client) : Client :=
  {| opts := opts c; transport := transport c; state := state c; invokeID := v;
     pending := pending c; chans := chans c; devices := devices c; covSubs := covSubs c;
     metrics := metrics c; receiving := receiving c |}.
Definition set_pending (v : gmap Z Z) (c : Client) : Client :=
  {| opts := opts c; transport := transport c; state := state c; invokeID := invokeID c;
     pending := v; chans := chans c; devices := devices c; covSubs := covSubs c;
     metrics := metrics c; receiving := receiving c |}.
Definition set_chans (v : gmap Z Chan) (c : Client) : Client :=
  {| opts := opts c; transport := transport c; state := state c; invokeID := invokeID c;
     pending := pending c; chans := v; devices := devices c; covSubs := covSubs c;
     metrics := metrics c; receiving := receiving c |}.
Definition set_devices (v : gmap Z DeviceInfo) (c : Client) : Client :=
  {| opts := opts c; transport := transport c; state := state c; invokeID := invokeID c;
     pending := pending c; chans := chans c; devices := v; covSubs := covSubs c;
     metrics := metrics c; receiving := receiving c |}.
Definition set_covSubs (v : gmap Z COVHandler) (c : Client) : Client :=
  {| opts := opts c; transport := transport c; state := state c; invokeID := invokeID c;
     pending := pending c; chans := chans c; devices := devices c; covSubs := v;
     metrics := metrics c; receiving := receiving c |}.
Definition set_metrics (v : Metrics) (c : Client) : Client :=
  {| opts := opts c; transport := transport c; state := state c; invokeID := invokeID c;
     pending := pending c; chans := chans c; devices := devices c; covSubs := covSubs c;
     metrics := v; receiving := receiving c |}.
Definition set_receiving (v : bool) (c : Client) : Client :=
  {| opts := opts c; transport := transport c; state := state c; invokeID := invokeID c;
     pending := pending c; chans := chans c; devices := devices c; covSubs := covSubs c;
     metrics := metrics c; receiving := v |}.

Definition NewClient (now : Z) (options : list Option_) : Client :=
  let options := apply_options options defaultOptions in
  {| opts := options;
     transport := SetWriteTimeout (timeout options)
                    (SetReadTimeout (timeout options) (NewUDPTransport (localAddress options)));
     state := StateDisconnected; invokeID := 0; pending := ∅; chans := ∅; devices := ∅; covSubs := ∅;
     metrics := NewMetrics now; receiving := false |}.

(** ** The monad of the handlers *)

Definition M (A : Type) : Type := Client -> go A * Client.

Definition mret {A} (a : A) : M A := fun c => (Ret a, c).

Definition mbind {A B} (m : M A) (k : A -> M B) : M B := fun c =>
  match m c with
  | (Ret a, c') => k a c'
  | (Err e, c') => (Err e, c')
  | (Panic, c') => (Panic, c')
  | (NoFuel, c') => (NoFuel, c')
  end.

(** A call that does not touch the client, its error handled by the caller. *)
Definition call {A} (m : go A) : M (A + error) := fun c => (try m, c).
(** The same for a call whose only failure is a panic. *)
Definition pure {A} (m : go A) : M A := fun c => (m, c).
Definition modify (f : Client -> Client) : M unit := fun c => (Ret tt, f c).
Definition gets {A} (f : Client -> A) : M A := fun c => (Ret (f c), c).

Declare Scope client_scope.
Delimit Scope client_scope with client.
#[global] Open Scope client_scope.
Notation "'do!' x := m 'in' k" := (mbind m (fun x => k))
  (at level 10, x name, m at level 100, k at level 200,
   format "'[v' 'do!'  x  :=  m  'in' '/' k ']'") : client_scope.
Notation "'do!' ' x := m 'in' k" := (mbind m (fun x => k))
  (at level 10, x strict pattern, m at level 100, k at level 200,
   format "'[v' 'do!'  ' x  :=  m  'in' '/' k ']'") : client_scope.
Notation "'run!' m 'in' k" := (mbind m (fun _ : unit => k))
  (at level 10, m at level 100, k at level 200,
   format "'[v' 'run!'  m  'in' '/' k ']'") : client_scope.

Definition inc (k : counter) : M unit := modify (fun c => set_metrics (Inc k (metrics c)) c).
Definition add (k : counter) (delta : Z) : M unit :=
  modify (fun c => set_metrics (Add k delta (metrics c)) c).

(** ** The packet handler *)

(** [select { case ch <- apdu: default: }] *)
Definition try_send (ch : Z) (apdu : APDU) : M unit := fun c =>
  match chans c !! ch with
  | None => (Ret tt, c)
  | Some cell =>
      if chan_closed cell then (Panic, c)
      else match buffer cell with
           | Some _ => (Ret tt, c)
           | None =>
               (Ret tt, set_chans (<[ch := {| buffer := Some apdu; chan_closed := false |}]> (chans c)) c)
           end
  end.

Definition handleResponse (apdu : APDU) : M unit :=
  do! ch := gets (fun c => pending c !! InvokeID apdu) in
  match ch with
  | Some ch => try_send ch apdu
  | None => mret tt
  end.

Definition handleCOVNotification (data : bytes) : M unit := inc COVNotifications_.

Definition handleIAm (data : bytes) (addr : UDPAddr) (npdu : NPDU) : M unit :=
  run! inc IAmReceived_ in
  do! r := call (DecodeTagNumber data) in
  match r with
  | inr _ => mret tt
  | inl h =>
  if negb (TagNum h =? u8 TagObjectID) || negb (Length h =? 4) then mret tt
  else if len data <? HeaderLen h + 4 then mret tt
  else
  do! p := pure (slice data (HeaderLen h) (HeaderLen h + 4)) in
  do! oidValue := pure (be32 p) in
  let oid := DecodeObjectIdentifier oidValue in
  if negb (OID_Type oid =? ObjectTypeDevice) then mret tt
  else
  let offset := HeaderLen h + 4 in
  do! r := call (readUnsignedTag data offset) in
  match r with
  | inr _ => mret tt
  | inl (maxAPDU32, offset) =>
  let maxAPDU := u16 maxAPDU32 in
  do! r := call (readUnsignedTag data offset) in
  match r with
  | inr _ => mret tt
  | inl (segVal, offset) =>
  let segmentation := u8 segVal in
  do! r := call (readUnsignedTag data offset) in
  match r with
  | inr _ => mret tt
  | inl (vendorID32, _) =>
  let vendorID := u16 vendorID32 in
  let deviceAddr :=
    if flag (Control npdu) NPDUControlSourceSpecifier
    then {| Net := SrcNet npdu; Addr := SrcAddr npdu |}
    else {| Net := 0; Addr := default [] (To4 (IP addr)) |} in
  let device := device_info oid deviceAddr maxAPDU segmentation vendorID in
  do! exists_ := gets (fun c => devices c !! OID_Instance oid) in
  run! modify (fun c => set_devices (<[OID_Instance oid := device]> (devices c)) c) in
  match exists_ with
  | Some _ => mret tt
  | None => inc DevicesDiscovered_
  end
  end end end end.

Definition handleUnconfirmedRequest (apdu : APDU) (addr : UDPAddr) (npdu : NPDU) : M unit :=
  if Service apdu =? ServiceIAm then handleIAm (APDU_Data apdu) addr npdu
  else if Service apdu =? ServiceUnconfirmedCOVNotification then handleCOVNotification (APDU_Data apdu)
  else mret tt.

(** The [switch] on the PDU type. *)
Definition dispatch (apdu : APDU) (addr : UDPAddr) (npdu : NPDU) : M unit :=
  let type := APDU_Type apdu in
  if type =? PDUTypeUnconfirmedRequest then handleUnconfirmedRequest apdu addr npdu
  else if (type =? PDUTypeSimpleAck) || (type =? PDUTypeComplexAck) then handleResponse apdu
  else if type =? PDUTypeError then run! inc ErrorsReceived_ in handleResponse apdu
  else if type =? PDUTypeReject then run! inc RejectsReceived_ in handleResponse apdu
  else if type =? PDUTypeAbort then run! inc AbortsReceived_ in handleResponse apdu
  else mret tt.

Definition handlePacket (data : bytes) (addr : UDPAddr) : M unit :=
  do! r := call (DecodeBVLC data) in
  match r with
  | inr _ => mret tt
  | inl bvlc =>
  do! npduData := pure (slice_from data 4) in
  let forwarded := BVLC_Function bvlc =? BVLCForwardedNPDU in
  if forwarded && (len npduData <? 6) then mret tt
  else
  do! npduData := pure (if forwarded then slice_from npduData 6 else Ret npduData) in
  do! r := call (DecodeNPDU npduData) in
  match r with
  | inr _ => mret tt
  | inl (npdu, offset) =>
  if flag (Control npdu) NPDUControlNetworkLayerMessage then mret tt
  else
  do! apduData := pure (slice_from npduData offset) in
  do! r := call (DecodeAPDU apduData) in
  match r with
  | inr _ => mret tt
  | inl apdu =>
  run! inc ResponsesReceived_ in
  dispatch apdu addr npdu
  end end end.

(** One turn of [receiver] with a packet: the counters, then the goroutine that
    handles it under [recover]. *)
Definition receive_packet (now : Z) (data : bytes) (addr : UDPAddr) (c : Client) : Client :=
  let c := set_metrics (RecordActivity now (Add BytesReceived_ (len data) (metrics c))) c in
  match handlePacket data addr c with
  | (Panic, c) => set_metrics (Inc PanicsRecovered_ (metrics c)) c
  | (_, c) => c
  end.

(** ** What a packet means

    The decoding half of [handlePacket] and [handleIAm], without the client:
    the handlers act on its result ([handlePacket_eq], [handleIAm_eq]). *)

Definition parse_packet (data : bytes) : go (NPDU * APDU) :=
  let! bvlc := DecodeBVLC data in
  let! npduData := slice_from data 4 in
  let! npduData :=
    (if BVLC_Function bvlc =? BVLCForwardedNPDU
     then if len npduData <? 6 then Err ErrInvalidBVLC else slice_from npduData 6
     else Ret npduData) in
  let! '(npdu, offset) := DecodeNPDU npduData in
  if flag (Control npdu) NPDUControlNetworkLayerMessage then Err ErrInvalidNPDU
  else
    let! apduData := slice_from npduData offset in
    let! apdu := DecodeAPDU apduData in
    Ret (npdu, apdu).

(** Object, maximum APDU length, segmentation, vendor. *)
Definition parse_iam (data : bytes) : go (ObjectIdentifier * Z * Z * Z) :=
  let! h := DecodeTagNumber data in
  if negb (TagNum h =? u8 TagObjectID) || negb (Length h =? 4) then Err ErrInvalidResponse
  else if len data <? HeaderLen h + 4 then Err ErrInvalidResponse
  else
    let! p := slice data (HeaderLen h) (HeaderLen h + 4) in
    let! oidValue := be32 p in
    let oid := DecodeObjectIdentifier oidValue in
    if negb (OID_Type oid =? ObjectTypeDevice) then Err ErrInvalidResponse
    else
      let! '(maxAPDU, offset) := readUnsignedTag data (HeaderLen h + 4) in
      let! '(segmentation, offset) := readUnsignedTag data offset in
      let! '(vendorID, _) := readUnsignedTag data offset in
      Ret (oid, u16 maxAPDU, u8 segmentation, u16 vendorID).

(** Go on with the result of a parser; a parse error ends the handler. *)
Definition on_result {A} (m : go A) (k : A -> M unit) : M unit := fun c =>
  match m with
  | Ret a => k a c
  | Err _ => (Ret tt, c)
  | Panic => (Panic, c)
  | NoFuel => (NoFuel, c)
  end.

(** The bounds-checked slices of the handlers cannot return an error. *)
Ltac no_error H := exfalso; first
  [exact (no_err_slice_from _ _ _ H) | exact (no_err_slice _ _ _ _ H) | exact (no_err_be32 _ _ H)].

(** Walk through both sides of an [on_result] equation, call by call. *)
Ltac same_call m :=
  let E := fresh "E" in
  destruct m eqn:E; cbn [try obind]; try done; try (no_error E).

Lemma handlePacket_eq data addr c :
  handlePacket data addr c =
  on_result (parse_packet data) (fun '(npdu, apdu) => run! inc ResponsesReceived_ in dispatch apdu addr npdu) c.
Proof.
  unfold handlePacket, parse_packet, on_result, mbind, call, pure, mret.
  same_call (DecodeBVLC data). same_call (@slice_from error data 4).
  destruct (BVLC_Function a =? BVLCForwardedNPDU); cbn [andb obind].
  - destruct (len a0 <? 6); cbn [obind]; [done|]. same_call (@slice_from error a0 6).
    same_call (DecodeNPDU a1). destruct a2 as [npdu off]. destruct (flag _ _); [done|].
    same_call (@slice_from error a1 off). by destruct (DecodeAPDU a2).
  - same_call (DecodeNPDU a0). destruct a1 as [npdu off]. destruct (flag _ _); [done|].
    same_call (@slice_from error a0 off). by destruct (DecodeAPDU a1).
Qed.

(** What a valid I-Am does to the client. *)
Definition register_iam (oid : ObjectIdentifier) (maxAPDU segmentation vendorID : Z)
    (addr : UDPAddr) (npdu : NPDU) (c : Client) : Client :=
  let deviceAddr :=
    if flag (Control npdu) NPDUControlSourceSpecifier
    then {| Net := SrcNet npdu; Addr := SrcAddr npdu |}
    else {| Net := 0; Addr := default [] (To4 (IP addr)) |} in
  let c' := set_devices (<[OID_Instance oid :=
      device_info oid deviceAddr maxAPDU segmentation vendorID]> (devices c)) c in
  match devices c !! OID_Instance oid with
  | Some _ => c'
  | None => set_metrics (Inc DevicesDiscovered_ (metrics c')) c'
  end.

Lemma handleIAm_eq data addr npdu c :
  handleIAm data addr npdu c =
  (run! inc IAmReceived_ in
   on_result (parse_iam data) (fun '(oid, m, s, v) => modify (register_iam oid m s v addr npdu))) c.
Proof.
  unfold handleIAm, parse_iam, on_result, mbind, call, pure, mret, inc, modify, gets.
  set (c1 := set_metrics _ c). same_call (DecodeTagNumber data).
  destruct (negb (TagNum a =? u8 TagObjectID) || negb (Length a =? 4)); [done|].
  destruct (len data <? HeaderLen a + 4); [done|].
  same_call (@slice error data (HeaderLen a) (HeaderLen a + 4)). same_call (@be32 error a0).
  destruct (negb (OID_Type (DecodeObjectIdentifier a1) =? ObjectTypeDevice)); [done|].
  same_call (readUnsignedTag data (HeaderLen a + 4)). destruct a2 as [m o1].
  same_call (readUnsignedTag data o1). destruct a2 as [s o2].
  same_call (readUnsignedTag data o2). destruct a2 as [v o3].
  unfold register_iam. by destruct (devices c1 !! _).
Qed.

(** ** Safety of the packet handler *)

Lemma parse_packet_safe data : wf_bytes data -> safely (parse_packet data) (fun r => wf_apdu r.2).
Proof.
  intros Hwf. unfold parse_packet. go_step. go_step.
  eapply safely_bind with (P := fun d => wf_bytes d); [|intros d Hd; go_safe; done].
  go_safe; auto with wf. eapply safely_weaken; [apply safely_slice_from; lia|]. cbn. naive_solver.
Qed.

Lemma parse_iam_safe data :
  wf_bytes data -> safely (parse_iam data) (fun '(oid, m, s, v) => OID_Type oid = ObjectTypeDevice /\ oid_ok oid).
Proof.
  intros Hwf. unfold parse_iam. go_step. unfold header_ok in *. go_facts.
  go_safe. split; [lia|]. by apply DecodeObjectIdentifier_ok.
Qed.

(** A handler that ends normally, with a fact about the client it leaves. *)
Definition runs {A} (m : M A) (c : Client) (Q : A -> Client -> Prop) : Prop :=
  match m c with
  | (Ret a, c') => Q a c'
  | _ => False
  end.

Lemma runs_bind {A B} (m : M A) (k : A -> M B) c P Q :
  runs m c P -> (forall a c', P a c' -> runs (k a) c' Q) -> runs (mbind m k) c Q.
Proof. unfold runs, mbind. destruct (m c) as [[a| | |] c']; try done. intros HP Hk. by apply Hk. Qed.

Lemma runs_on_result {A} (m : go A) (k : A -> M unit) c P Q :
  safely m P -> Q tt c -> (forall a, P a -> runs (k a) c Q) -> runs (on_result m k) c Q.
Proof. unfold runs, on_result, safely. destruct m; try done. intros HP HQ Hk. by apply Hk. Qed.

(** Every pending request has an open channel. *)
Definition pending_open (c : Client) : Prop :=
  forall id ch, pending c !! id = Some ch ->
    exists b, chans c !! ch = Some {| buffer := b; chan_closed := false |}.

(** What a packet can change: channel contents, devices and metrics. *)
Record only_handled (c c' : Client) : Prop := {
  same_opts : opts c' = opts c;
  same_transport : transport c' = transport c;
  same_state : state c' = state c;
  same_invokeID : invokeID c' = invokeID c;
  same_pending : pending c' = pending c;
  same_covSubs : covSubs c' = covSubs c;
  same_receiving : receiving c' = receiving c;
  same_panics : get PanicsRecovered_ (metrics c') = get PanicsRecovered_ (metrics c);
  same_active : ActiveRequests (metrics c') = ActiveRequests (metrics c);
  same_outstanding : outstanding (metrics c') = outstanding (metrics c)
}.

#[export] Instance only_handled_preorder : PreOrder only_handled.
Proof. split; [by intros c; split|]. intros c1 c2 c3 [] []. split; congruence. Qed.

(** The invariant of the handlers. *)
Definition handled (c c' : Client) : Prop :=
  only_handled c c' /\ (pending_open c -> pending_open c').

#[export] Instance handled_preorder : PreOrder handled.
Proof.
  split; [by intros c; split|]. intros c1 c2 c3 [H1 W1] [H2 W2]. split; [by transitivity c2|auto].
Qed.

Lemma handled_inc k c :
  is_guarded k = false -> handled c (set_metrics (Inc k (metrics c)) c).
Proof. intros Hk. split; [|done]. split; try done; by apply update_unguarded. Qed.

Lemma runs_inc k c : is_guarded k = false -> runs (inc k) c (fun _ c' => handled c c').
Proof. intros Hk. by apply handled_inc. Qed.

Lemma try_send_runs ch apdu c :
  (exists b, chans c !! ch = Some {| buffer := b; chan_closed := false |}) ->
  runs (try_send ch apdu) c (fun _ c' => handled c c').
Proof.
  intros [b Hb]. unfold runs, try_send. rewrite Hb. cbn [chan_closed buffer].
  destruct b as [b|]; [done|]. split; [by split|]. intros Hw id ch' Hp.
  cbn [pending chans set_chans] in *. destruct (decide (ch = ch')) as [<-|Hne].
  - eexists. apply lookup_insert_eq.
  - rewrite lookup_insert_ne by done. by eapply Hw.
Qed.

Lemma handleResponse_runs apdu c :
  pending_open c -> runs (handleResponse apdu) c (fun _ c' => handled c c').
Proof.
  intros Hw. unfold handleResponse. apply (runs_bind _ _ _ (fun r c' => c' = c /\ r = pending c !! InvokeID apdu)).
  { by split. }
  intros r ? [-> ->]. destruct (pending c !! InvokeID apdu) as [ch|] eqn:E; [|done].
  apply try_send_runs. by eapply Hw.
Qed.

Lemma register_iam_handled oid m s v addr npdu c : handled c (register_iam oid m s v addr npdu c).
Proof.
  unfold register_iam. destruct (devices c !! OID_Instance oid); [by split|].
  transitivity (set_devices (<[OID_Instance oid := device_info oid
    (if flag (Control npdu) NPDUControlSourceSpecifier
     then {| Net := SrcNet npdu; Addr := SrcAddr npdu |}
     else {| Net := 0; Addr := default [] (To4 (IP addr)) |}) m s v]> (devices c)) c); [by split|].
  by apply handled_inc.
Qed.

Lemma handleIAm_runs data addr npdu c :
  wf_bytes data -> runs (handleIAm data addr npdu) c (fun _ c' => handled c c').
Proof.
  intros Hwf. unfold runs. rewrite handleIAm_eq.
  eapply (runs_bind _ _ _ _ (fun _ c' => handled c c')); [by apply runs_inc|]. intros [] c1 H1.
  eapply runs_on_result; [by apply parse_iam_safe|done|]. intros [[[oid m] s] v] _.
  unfold runs, modify. transitivity c1; [done|apply register_iam_handled].
Qed.

(** Run a counter first. *)
Lemma runs_inc_then k (m : M unit) c :
  is_guarded k = false -> pending_open c ->
  (forall c', pending_open c' -> runs m c' (fun _ c'' => handled c' c'')) ->
  runs (mbind (inc k) (fun _ => m)) c (fun _ c' => handled c c').
Proof.
  intros Hk Hw Hm. eapply runs_bind; [by apply runs_inc|]. intros [] c1 H1. cbn beta in *.
  specialize (Hm c1 (proj2 H1 Hw)). unfold runs in *. destruct (m c1) as [[[]| | |] c2]; try done.
  by transitivity c1.
Qed.

Lemma dispatch_runs apdu addr npdu c :
  wf_apdu apdu -> pending_open c -> runs (dispatch apdu addr npdu) c (fun _ c' => handled c c').
Proof.
  intros Ha Hw. unfold dispatch, handleUnconfirmedRequest, handleCOVNotification.
  repeat case_match; try done; try (by apply runs_inc); try (by apply handleResponse_runs);
    try (by apply handleIAm_runs); (apply runs_inc_then; [done|done|by intros; apply handleResponse_runs]).
Qed.

Lemma handlePacket_runs data addr c :
  wf_bytes data -> pending_open c -> runs (handlePacket data addr) c (fun _ c' => handled c c').
Proof.
  intros Hwf Hw. unfold runs. rewrite handlePacket_eq.
  eapply runs_on_result; [by apply parse_packet_safe|done|].
  intros [npdu apdu] Ha. apply runs_inc_then; [done|done|]. intros c1 H1. by apply dispatch_runs.
Qed.

(** C1. No packet can harm the client: for every byte string from any sender,
    [handlePacket] returns (it neither panics nor fails), keeps the channels of
    the pending requests open, and changes nothing but channel contents, the
    device table and the counters; the panic counter of the receiver does not
    move. *)
Theorem handlePacket_total now data addr c :
  wf_bytes data -> pending_open c ->
  (exists c', handlePacket data addr c = (Ret tt, c') /\ pending_open c' /\ only_handled c c') /\
  get PanicsRecovered_ (metrics (receive_packet now data addr c)) = get PanicsRecovered_ (metrics c).
Proof.
  intros Hwf Hw. split.
  - pose proof (handlePacket_runs data addr c Hwf Hw) as H. unfold runs in H.
    destruct (handlePacket data addr c) as [[[]| | |] c']; try done. exists c'. destruct H. auto.
  - unfold receive_packet. set (c1 := set_metrics _ c).
    pose proof (handlePacket_runs data addr c1 Hwf Hw) as H. unfold runs in H.
    destruct (handlePacket data addr c1) as [[[]| | |] c']; try done.
    destruct H as [[] _]. by rewrite same_panics0.
Qed.

Lemma handlePacket_total_witness :
  exists c', handlePacket [0x81; 0x0A; 0; 8; 1; 0; 0x30; 1] {| IP := [10; 0; 0; 9]; Port := 47808 |}
    (NewClient 0 []) = (Ret tt, c') /\ pending_open c' /\ only_handled (NewClient 0 []) c'.
Proof.
  refine (proj1 (handlePacket_total 0 _ _ _ _ _)).
  - unfold wf_bytes, is_byte. repeat constructor; lia.
  - intros id ch H. discriminate H.
Defined.

(** ** Packets of a peer *)

(** The network header of a direct packet. *)
Definition direct_npdu (reply : bool) (data : bytes) : NPDU := {|
  Version := 1; Control := request_control false reply NPDUControlPriorityNormal;
  DestNet := 0; DestAddr := []; DestHopCount := 0; SrcNet := 0; SrcAddr := [];
  MessageType := 0; VendorID := 0; NPDU_Data := data |}.

(** A packet comes directly, or through a BBMD that puts the 6-octet address of
    the sender in front. *)
Definition origin_ok (function : Z) (origin : bytes) : Prop :=
  (function = BVLCOriginalUnicastNPDU \/ function = BVLCOriginalBroadcastNPDU) /\ origin = [] \/
  function = BVLCForwardedNPDU /\ len origin = 6.

Definition packet_of (function : Z) (origin : bytes) (reply : bool) (apdu : bytes) : bytes :=
  EncodeBVLC function (len origin + 2 + len apdu) ++ origin ++ EncodeNPDU reply NPDUControlPriorityNormal ++ apdu.

Lemma parse_packet_of function origin reply apdu :
  origin_ok function origin -> wf_bytes apdu ->
  parse_packet (packet_of function origin reply apdu) =
  (let! a := DecodeAPDU apdu in Ret (direct_npdu reply apdu, a)).
Proof.
  intros Ho Hwf. unfold parse_packet, packet_of.
  assert (is_byte function) as Hf by (destruct Ho as [[[-> | ->] _]|[-> _]]; by vm_compute).
  rewrite DecodeBVLC_EncodeBVLC by (done || len_lia). cbn [obind BVLC_Function].
  rewrite (slice_from_app (EncodeBVLC function _)). cbn [obind].
  assert (forall d, d = EncodeNPDU reply NPDUControlPriorityNormal ++ apdu ->
    (let! '(npdu, offset) := DecodeNPDU d in
     if flag (Control npdu) NPDUControlNetworkLayerMessage then Err ErrInvalidNPDU
     else let! apduData := slice_from d offset in
          let! a := DecodeAPDU apduData in Ret (npdu, a)) =
    (let! a := DecodeAPDU apdu in Ret (direct_npdu reply apdu, a))) as Hrest.
  { intros d ->. rewrite DecodeNPDU_EncodeNPDU by done. cbn [obind].
    replace (flag _ NPDUControlNetworkLayerMessage) with false by (destruct reply; reflexivity).
    by rewrite (slice_from_app (EncodeNPDU reply NPDUControlPriorityNormal)). }
  destruct Ho as [[[-> | ->] ->]|[-> Hlen]]; cbn [Z.eqb Pos.eqb obind app].
  - by apply Hrest.
  - by apply Hrest.
  - change (BVLCForwardedNPDU =? BVLCForwardedNPDU) with true. cbn match.
    replace (len _ <? 6) with false by len_lia. rewrite <- Hlen, slice_from_app. cbn [obind].
    by apply Hrest.
Qed.

(** ** Discovery *)

Definition iam_wire (oid : ObjectIdentifier) (maxAPDU segmentation vendorID : Z) : bytes :=
  EncodeObjectIdentifierTag oid ++ EncodeUnsignedTag maxAPDU ++
  EncodeEnumeratedTag segmentation ++ EncodeUnsignedTag vendorID.

Lemma parse_iam_wire oid m s v rest :
  oid_ok oid -> OID_Type oid = ObjectTypeDevice -> 0 <= m < 2 ^ 32 -> 0 <= s < 2 ^ 32 -> 0 <= v < 2 ^ 32 ->
  parse_iam (iam_wire oid m s v ++ rest) = Ret (oid, u16 m, u8 s, u16 v).
Proof.
  intros Hoid Ht Hm Hs Hv. set (d := iam_wire oid m s v ++ rest).
  assert (rest_is d 0 d) as Hr by apply rest_start. unfold d at 2 in Hr.
  unfold iam_wire, EncodeObjectIdentifierTag, EncodeUnsignedTag, EncodeEnumeratedTag, EncodeEnumerated in Hr.
  set (fm := EncodeTag _ _ (len (EncodeUnsigned m)) ++ EncodeUnsigned m) in Hr.
  set (fs := EncodeTag _ _ (len (EncodeUnsigned s)) ++ EncodeUnsigned s) in Hr.
  set (fv := EncodeTag _ _ (len (EncodeUnsigned v)) ++ EncodeUnsigned v) in Hr.
  rewrite <- !app_assoc in Hr. pose proof (rest_len _ _ _ Hr) as Hl. rewrite !len_app in Hl.
  rewrite len_EncodeObjectIdentifier in Hl. change (len (EncodeTag TagObjectID TagClassApplication 4)) with 1 in Hl.
  unfold parse_iam. destruct Hr as (pre & Ed & E0). destruct pre; [|rewrite len_cons in E0; len_lia].
  cbn [app] in Ed. rewrite Ed at 1.
  rewrite DecodeTagNumber_EncodeTag by (try (by left); unfold TagObjectID; lia).
  cbn [obind TagNum Length HeaderLen]. change (len (EncodeTag TagObjectID TagClassApplication 4)) with 1.
  cbn [negb orb Z.eqb Pos.eqb]. change (negb (TagObjectID =? u8 TagObjectID)) with false. cbn [orb].
  replace (len d <? 1 + 4) with false by len_lia.
  assert (rest_is d 0 d) as Hr by apply rest_start. rewrite Ed in Hr at 2.
  rewrite (rest_slice _ _ _ _ _ 1 (1 + 4) Hr) by done. cbn [obind].
  assert (0 <= OID_Encode oid < 2 ^ 32) as Hw by (apply OID_Encode_range; destruct Hoid; lia).
  pose proof (be32_octets (E:=error) (OID_Encode oid) [] Hw) as Hbe. rewrite app_nil_r in Hbe.
  unfold EncodeObjectIdentifier at 1. rewrite Hbe. cbn [obind].
  rewrite OID_Decode_Encode by done. rewrite Ht. rewrite Z.eqb_refl. cbn [negb].
  assert (rest_is d (1 + 4) (fm ++ fs ++ fv ++ rest)) as H1.
  { rewrite app_assoc in Hr. by eapply rest_app. }
  assert (is_class TagClassApplication) as Hc by by left.
  destruct (readUnsignedTag_rest d _ _ _ m _ H1) as (o1 & -> & H2); [unfold TagUnsignedInt; lia|done..|].
  cbn [obind].
  destruct (readUnsignedTag_rest d _ _ _ s _ H2) as (o2 & -> & H3); [unfold TagEnumerated; lia|done..|].
  cbn [obind].
  destruct (readUnsignedTag_rest d _ _ _ v _ H3) as (o3 & -> & H4); [unfold TagUnsignedInt; lia|done..|].
  cbn [obind]. done.
Qed.

(** An unconfirmed request with its service. *)
Lemma DecodeAPDU_unconfirmed service data :
  is_byte service -> DecodeAPDU (EncodeUnconfirmedRequest service data) =
    Ret (plain_apdu PDUTypeUnconfirmedRequest 0 service data).
Proof.
  intros Hs. unfold EncodeUnconfirmedRequest. assert (u8 service = service) as -> by by apply uint_small.
  cbn [app]. unfold DecodeAPDU. replace (len _ <? 1) with false by len_lia.
  rewrite idx_cons_0. cbn -[decodeUnconfirmedRequest]. unfold decodeUnconfirmedRequest.
  replace (len _ <? 2) with false by len_lia. rewrite idx_in by len_lia. nat_literals. cbn [nth obind].
  rewrite slice_from_in by len_lia. done.
Qed.

Lemma wf_iam_wire oid m s v : wf_bytes (iam_wire oid m s v).
Proof.
  unfold iam_wire, EncodeObjectIdentifierTag, EncodeUnsignedTag, EncodeEnumeratedTag, EncodeEnumerated.
  rewrite !wf_app. split_and!; try apply wf_EncodeUnsigned;
    try (apply wf_EncodeTag; [unfold TagObjectID, TagUnsignedInt, TagEnumerated; lia|unfold TagClassApplication; lia|lens; lia]).
  unfold EncodeObjectIdentifier, wf_bytes. rewrite !Forall_cons. split_and!; try apply u8_byte. constructor.
Qed.

(** C18. Discovery: an I-Am from an IPv4 peer, sent directly or forwarded by a
    BBMD, enters the device into the table under its instance, replacing an
    earlier entry and touching no other, with the maximum APDU length,
    segmentation and vendor it announced, and counts a discovery exactly when
    the instance is new.  The device is then addressed at the IP address the
    packet came from, on the default port: neither the port it came from nor
    the originating address [origin] in a forwarded packet is used. *)
Theorem handleIAm_registers function origin oid m s v addr ip4 c :
  origin_ok function origin -> oid_ok oid -> OID_Type oid = ObjectTypeDevice ->
  0 <= m < 2 ^ 16 -> 0 <= s < 2 ^ 8 -> 0 <= v < 2 ^ 16 -> To4 (IP addr) = Some ip4 ->
  let packet := packet_of function origin false (EncodeUnconfirmedRequest ServiceIAm (iam_wire oid m s v)) in
  let device := device_info oid {| Net := 0; Addr := ip4 |} m s v in
  exists c', handlePacket packet addr c = (Ret tt, c') /\
    devices c' = <[OID_Instance oid := device]> (devices c) /\
    get DevicesDiscovered_ (metrics c') =
      (match devices c !! OID_Instance oid with
       | Some _ => get DevicesDiscovered_ (metrics c)
       | None => s64 (get DevicesDiscovered_ (metrics c) + 1)
       end) /\
    udp_address device = Ret {| IP := ip4; Port := DefaultPort |}.
Proof.
  intros Ho Hoid Ht Hm Hs Hv H4 packet device. unfold packet. rewrite handlePacket_eq.
  assert (wf_bytes (EncodeUnconfirmedRequest ServiceIAm (iam_wire oid m s v))) as Hwf.
  { unfold EncodeUnconfirmedRequest. rewrite !wf_app. split_and!; [| |apply wf_iam_wire];
      repeat constructor; apply u8_byte. }
  rewrite parse_packet_of, DecodeAPDU_unconfirmed by (done || by vm_compute). cbn [obind on_result].
  unfold on_result, mbind, inc, modify. cbn [plain_apdu]. unfold dispatch. cbn [APDU_Type plain_apdu].
  rewrite Z.eqb_refl. unfold handleUnconfirmedRequest. cbn [Service plain_apdu APDU_Data].
  rewrite Z.eqb_refl, handleIAm_eq. unfold mbind, inc, modify, on_result.
  pose proof (parse_iam_wire oid m s v [] Hoid Ht) as Hp. rewrite app_nil_r in Hp. rewrite Hp by lia.
  rewrite !uint_small by lia. unfold register_iam. cbn [Control direct_npdu].
  replace (flag _ NPDUControlSourceSpecifier) with false by reflexivity. rewrite H4. cbn [default].
  eexists. split; [reflexivity|]. unfold packet, device. cbn [devices set_metrics set_devices metrics id].
  pose proof (udp_address_4 oid 0 ip4 m s v (To4_len _ _ H4)) as Ha.
  by destruct (devices c !! OID_Instance oid).
Qed.

Lemma handleIAm_registers_witness :
  let oid := {| OID_Type := ObjectTypeDevice; OID_Instance := 1234 |} in
  let device := device_info oid {| Net := 0; Addr := [10; 0; 0; 9] |} 1476 3 260 in
  exists c', handlePacket (packet_of BVLCForwardedNPDU [192; 168; 1; 5; 0xBA; 0xC0] false
      (EncodeUnconfirmedRequest ServiceIAm (iam_wire oid 1476 3 260)))
    {| IP := [10; 0; 0; 9]; Port := 47809 |} (NewClient 0 []) = (Ret tt, c') /\
    devices c' = <[1234 := device]> (devices (NewClient 0 [])) /\
    get DevicesDiscovered_ (metrics c') = 1 /\
    udp_address device = Ret {| IP := [10; 0; 0; 9]; Port := DefaultPort |}.
Proof.
  intros oid device.
  apply (handleIAm_registers BVLCForwardedNPDU [192; 168; 1; 5; 0xBA; 0xC0] oid 1476 3 260
    {| IP := [10; 0; 0; 9]; Port := 47809 |} [10; 0; 0; 9] (NewClient 0 []));
    try lia; try reflexivity; [by right|split; cbn; unfold ObjectTypeDevice; lia].
Defined.
