(* ===== verification/Calls.v ===== *)
(** * The calls of the client ([client.go])

    The requests, cut at the point where they block, the services built on
    them, and the life cycle.  What happens while a call waits is an argument:
    see [Env]. *)

From S2P Require Import Prelude Enums Errors Link Apdu Tags Values Options Services Metrics Transport Device Client.
#[local] Open Scope string_scope.
#[local] Open Scope list_scope.
#[local] Open Scope Z_scope.

(** ** Requests *)

(** [uint8(c.invokeID.Add(1) & 0xFF)] *)
Definition nextInvokeID : M Z := fun c =>
  let v := u32 (invokeID c + 1) in (Ret (u8 (Z.land v 0xFF)), set_invokeID v c).

(** [make(chan *APDU, 1)]: a fresh cell. *)
Definition make_chan : M Z := fun c =>
  let ch := fresh (dom (chans c)) in
  (Ret ch, set_chans (<[ch := {| buffer := None; chan_closed := false |}]> (chans c)) c).

Definition request_packet (function : Z) (expectingReply : bool) (apdu : bytes) : bytes :=
  let npdu := EncodeNPDU expectingReply NPDUControlPriorityNormal in
  let bvlc := EncodeBVLC function (len npdu + len apdu) in
  bvlc ++ npdu ++ apdu.

(** A deferred call runs whatever the body's result; no body here panics
    between registering it and returning. *)
Definition remove_pending (id : Z) : M unit := modify (fun c => set_pending (delete id (pending c)) c).

Definition active (f : Gauge -> Gauge) : M unit :=
  modify (fun c => set_metrics (updateActiveRequests f (metrics c)) c).

(** A request that is waiting: its invoke id and its channel. *)
Record Waiting := { W_id : Z; W_chan : Z }.

(** The channel of a request, entered into [pending]. *)
Definition register (invokeID : Z) : M Z :=
  do! respCh := make_chan in
  run! modify (fun c => set_pending (<[invokeID := respCh]> (pending c)) c) in
  mret respCh.

(** The packet of a request is sent; the datagrams handed to the socket are
    part of the result. *)
Definition transmit (ctx : option Z) (now : Z) (addr : UDPAddr) (invokeID service : Z) (data : bytes)
    (write : UDPAddr -> bytes -> go Z) : M ((unit + error) * list Datagram) :=
  let apdu := EncodeConfirmedRequest invokeID service data 0 5 in
  let packet := request_packet BVLCOriginalUnicastNPDU true apdu in
  run! inc RequestsSent_ in
  run! active Gauge_Inc in
  do! t := gets transport in
  let '(sent, out) := Send ctx now addr packet (write addr packet) t in
  do! r := call sent in
  match r with
  | inr err =>
      run! inc RequestsFailed_ in
      mret (inr (EWrap "send request: " err EmptyString), out)
  | inl _ =>
      run! add BytesSent_ (len packet) in
      mret (inl tt, out)
  end.

(** [sendRequest] up to the [select]: registers the request and sends it.  A
    failure to send is returned, with the deferred calls done. *)
Definition sendRequest_begin (ctx : option Z) (now : Z) (addr : UDPAddr) (service : Z) (data : bytes)
    (write : UDPAddr -> bytes -> go Z) : M ((Waiting + error) * list Datagram) :=
  do! st := gets state in
  if negb (st =? StateConnected) then mret (inr ErrNotConnected, [])
  else
  do! invokeID := nextInvokeID in
  do! respCh := register invokeID in
  do! '(r, out) := transmit ctx now addr invokeID service data write in
  match r with
  | inr err =>
      run! active Gauge_Dec in
      run! remove_pending invokeID in
      mret (inr err, out)
  | inl _ => mret (inl {| W_id := invokeID; W_chan := respCh |}, out)
  end.

(** What wakes the [select]: the context, or the channel, which delivers a
    response or is closed. *)
Inductive Wake : Type :=
  | CtxDone
  | Response (resp : APDU)
  | ChanClosed.

(** The branches of the [select]. *)
Definition settle (elapsed : Z) (wake : Wake) : M (APDU + error) :=
  match wake with
  | CtxDone => run! inc RequestsTimedOut_ in mret (inr ErrTimeout)
  | ChanClosed =>
      run! modify (fun c => set_metrics (RecordLatency elapsed (metrics c)) c) in
      mret (inr ErrConnectionClosed)
  | Response resp =>
      run! modify (fun c => set_metrics (RecordLatency elapsed (metrics c)) c) in
      let type := APDU_Type resp in
      if (type =? PDUTypeSimpleAck) || (type =? PDUTypeComplexAck) then
        run! inc RequestsSucceeded_ in mret (inl resp)
      else if type =? PDUTypeError then
        run! inc RequestsFailed_ in
        do! err := pure (decodeError (APDU_Data resp)) in mret (inr err)
      else if type =? PDUTypeReject then
        run! inc RequestsFailed_ in
        mret (inr (EReject {| RE_InvokeID := InvokeID resp; RE_Reason := Service resp |}))
      else if type =? PDUTypeAbort then
        run! inc RequestsFailed_ in
        mret (inr (EAbort {| AE_InvokeID := InvokeID resp; AE_Server := false; AE_Reason := Service resp |}))
      else
        mret (inr (EWrap EmptyString ErrInvalidResponse (": unexpected PDU type " +:+ hex2 type)))
  end.

(** [sendRequest] from the [select] on, with the deferred calls at the end. *)
Definition sendRequest_end (w : Waiting) (elapsed : Z) (wake : Wake) : M (APDU + error) :=
  do! r := settle elapsed wake in
  run! active Gauge_Dec in
  run! remove_pending (W_id w) in
  mret r.

(** [case resp, ok := <-respCh]: [None] while the channel is empty and open. *)
Definition receive_from (ch : Z) : M (option Wake) := fun c =>
  match chans c !! ch with
  | Some cell =>
      match buffer cell with
      | Some apdu =>
          (Ret (Some (Response apdu)),
           set_chans (<[ch := {| buffer := None; chan_closed := chan_closed cell |}]> (chans c)) c)
      | None => (Ret (if chan_closed cell then Some ChanClosed else None), c)
      end
  | None => (Ret None, c)
  end.

(** ** The environment of a blocking call

    What a call meets outside its own goroutine: the caller's context, the
    clock, the socket, and what the other goroutines do to the client while the
    call waits for its channel or sleeps, which may depend on the datagrams the
    call has sent; and the order in which this run ranges over the devices. *)
Record Env := {
  ctx_deadline : option Z;
  clock : Z;
  write_result : UDPAddr -> bytes -> go Z;
  wait : list Datagram -> Waiting -> M Wake;
  elapsed : Z;
  sleep : list Datagram -> Z -> M unit;
  range_devices : gmap Z DeviceInfo -> list DeviceInfo
}.

Section Calls.
Context (env : Env).

Definition sendRequest (addr : UDPAddr) (service : Z) (data : bytes) : M (APDU + error) :=
  do! '(r, out) := sendRequest_begin (ctx_deadline env) (clock env) addr service data (write_result env) in
  match r with
  | inr err => mret (inr err)
  | inl w => do! wake := wait env out w in sendRequest_end w (elapsed env) wake
  end.

(** Unicast to [addr], or a broadcast; with the datagrams handed to the socket. *)
Definition sendUnconfirmedRequest (addr : option UDPAddr) (service : Z) (data : bytes)
    : M (option error * list Datagram) :=
  do! st := gets state in
  if negb (st =? StateConnected) then mret (Some ErrNotConnected, [])
  else
  let apdu := EncodeUnconfirmedRequest service data in
  let function :=
    match addr with None => BVLCOriginalBroadcastNPDU | Some _ => BVLCOriginalUnicastNPDU end in
  let packet := request_packet function false apdu in
  run! inc RequestsSent_ in
  do! t := gets transport in
  let to := match addr with
            | None => {| IP := IPv4bcast; Port := DefaultPort |}
            | Some a => a
            end in
  let write := write_result env to packet in
  let '(sent, out) :=
    match addr with
    | None => Broadcast (ctx_deadline env) (clock env) DefaultPort packet write t
    | Some addr => Send (ctx_deadline env) (clock env) addr packet write t
    end in
  do! r := call sent in
  match r with
  | inr err =>
      run! inc RequestsFailed_ in
      mret (Some (EWrap "send unconfirmed request: " err EmptyString), out)
  | inl _ =>
      run! add BytesSent_ (len packet) in
      run! inc RequestsSucceeded_ in
      mret (None, out)
  end.

Definition WhoIs (options : list DiscoverOption) : M (list DeviceInfo + error) :=
  let options := apply_options options defaultDiscoverOptions in
  do! '(err, out) := sendUnconfirmedRequest None ServiceWhoIs (WhoIs_request options) in
  match err with
  | Some err => mret (inr err)
  | None =>
      run! inc WhoIsSent_ in
      run! sleep env out (DO_Timeout options) in
      do! ds := gets devices in
      mret (inl (range_devices env ds))
  end.

Definition resolveDevice (deviceID : Z) : M (UDPAddr + error) :=
  do! dev := gets (fun c => devices c !! deviceID) in
  do! dev :=
    (match dev with
     | Some dev => mret (inl dev)
     | None =>
         do! r := WhoIs [WithDeviceRange deviceID deviceID; WithDiscoveryTimeout (2 * Second)] in
         match r with
         | inr err => mret (inr err)
         | inl _ =>
             do! dev := gets (fun c => devices c !! deviceID) in
             mret (match dev with Some dev => inl dev | None => inr ErrDeviceNotFound end)
         end
     end) in
  match dev with
  | inr err => mret (inr err)
  | inl dev => call (udp_address dev)
  end.

Definition ReadProperty (deviceID : Z) (objectID : ObjectIdentifier) (propertyID : Z)
    (options : list ReadOption) : M value_result :=
  let options := apply_options options noReadOptions in
  do! addr := resolveDevice deviceID in
  match addr with
  | inr err => mret (VNil, Some err)
  | inl addr =>
      do! resp := sendRequest addr ServiceReadProperty (ReadProperty_request objectID propertyID options) in
      match resp with
      | inr err => mret (VNil, Some err)
      | inl resp => pure (decodeReadPropertyResponse (APDU_Data resp))
      end
  end.

Definition WriteProperty (deviceID : Z) (objectID : ObjectIdentifier) (propertyID : Z) (value : Value)
    (options : list WriteOption) : M (option error) :=
  let options := apply_options options noWriteOptions in
  do! addr := resolveDevice deviceID in
  match addr with
  | inr err => mret (Some err)
  | inl addr =>
      do! data := call (WriteProperty_request objectID propertyID value options) in
      match data with
      | inr err => mret (Some err)
      | inl data =>
          do! resp := sendRequest addr ServiceWriteProperty data in
          mret (match resp with inr err => Some err | inl _ => None end)
      end
  end.

(** [iterate] is the order in which this run ranges over the groups. *)
Definition ReadPropertyMultiple
    (iterate : gmap ObjectIdentifier (list ReadPropertyRequest) -> list (ObjectIdentifier * list ReadPropertyRequest))
    (deviceID : Z) (requests : list ReadPropertyRequest) : M (list PropertyValue + error) :=
  do! addr := resolveDevice deviceID in
  match addr with
  | inr err => mret (inr err)
  | inl addr =>
      do! resp := sendRequest addr ServiceReadPropertyMultiple
        (ReadPropertyMultiple_request (iterate (group_requests requests))) in
      match resp with
      | inr err => mret (inr err)
      | inl resp =>
          do! results := pure (decodeReadPropertyMultipleResponse (APDU_Data resp)) in
          mret (inl results)
      end
  end.

Definition SubscribeCOV (deviceID : Z) (objectID : ObjectIdentifier) (handler : COVHandler)
    (options : list SubscribeOption) : M (Z * option error) :=
  let options := apply_options options noSubscribeOptions in
  do! addr := resolveDevice deviceID in
  match addr with
  | inr err => mret (0, Some err)
  | inl addr =>
      do! subID := nextInvokeID in
      do! resp := sendRequest addr ServiceSubscribeCOV (SubscribeCOV_request subID objectID options) in
      match resp with
      | inr err => mret (0, Some err)
      | inl _ =>
          run! modify (fun c => set_covSubs (<[subID := handler]> (covSubs c)) c) in
          run! inc COVSubscriptions_ in
          mret (subID, None)
      end
  end.

Definition UnsubscribeCOV (deviceID : Z) (objectID : ObjectIdentifier) (subID : Z) : M (option error) :=
  do! addr := resolveDevice deviceID in
  match addr with
  | inr err => mret (Some err)
  | inl addr =>
      do! resp := sendRequest addr ServiceSubscribeCOV (UnsubscribeCOV_request subID objectID) in
      match resp with
      | inr err => mret (Some err)
      | inl _ =>
          run! modify (fun c => set_covSubs (delete subID (covSubs c)) c) in
          mret None
      end
  end.

(** [for i <= length; i++], the index a [uint32] *)
Fixpoint object_loop (fuel : nat) (deviceID i length : Z) (objects : list ObjectIdentifier)
    : M (list ObjectIdentifier) :=
  match fuel with
  | O => fun c => (NoFuel, c)
  | S fuel =>
      if i <=? length then
        do! '(val, err) := ReadProperty deviceID (NewObjectIdentifier ObjectTypeDevice deviceID)
          PropertyObjectList [WithArrayIndex i] in
        let objects :=
          match err, val with
          | None, VObjectID oid => objects ++ [oid]
          | _, _ => objects
          end in
        object_loop fuel deviceID (u32 (i + 1)) length objects
      else mret objects
  end.

(** [GetObjectList]; the capacity of [length] elements that the code allocates
    for the list before it reads them is left out, so the model does not run out
    of memory where the process may. *)
Definition GetObjectList (fuel : nat) (deviceID : Z) : M (list ObjectIdentifier + error) :=
  do! '(lengthVal, err) := ReadProperty deviceID (NewObjectIdentifier ObjectTypeDevice deviceID)
    PropertyObjectList [WithArrayIndex 0] in
  match err with
  | Some err => mret (inr err)
  | None =>
      match lengthVal with
      | VUint32 length =>
          do! objects := object_loop fuel deviceID 1 length [] in
          mret (inl objects)
      | v => mret (inr (EText ("unexpected object-list length type: " +:+ type_name v)))
      end
  end.
End Calls.

Definition GetDevice (deviceID : Z) : M (option DeviceInfo) := gets (fun c => devices c !! deviceID).

(** [RegisterDevice] *)
Definition RegisterDevice (device : DeviceInfo) : M unit :=
  modify (fun c => set_devices (<[OID_Instance (ObjectID device) := device]> (devices c)) c).

(** [Client.State] *)
Definition State : M Z := gets state.

(** ** Life cycle *)

(** [close(ch)]; closing a closed channel panics. *)
Definition close_chan (ch : Z) : M unit := fun c =>
  match chans c !! ch with
  | Some cell =>
      if chan_closed cell then (Panic, c)
      else (Ret tt, set_chans (<[ch := {| buffer := buffer cell; chan_closed := true |}]> (chans c)) c)
  | None => (Panic, c)
  end.

Fixpoint close_all (chs : list Z) : M unit :=
  match chs with
  | [] => mret tt
  | ch :: chs => run! close_chan ch in close_all chs
  end.

(** [registerForeignDevice]; the TTL is whole seconds, and within the range of
    [uint16] the conversion from [float64] cuts off the fraction. *)
Definition registerForeignDevice (env : Env) (resolve : string -> go UDPAddr) : M (option error) :=
  do! o := gets opts in
  do! addr := call (resolve (bbmdAddress o +:+ ":" +:+ dec (bbmdPort o))) in
  match addr with
  | inr err => mret (Some (EWrap "resolve BBMD address: " err EmptyString))
  | inl addr =>
      let ttl := u16 (Z.quot (foreignDeviceTTL o) Second) in
      let data := [u8 BVLCTypeBACnetIP; u8 BVLCRegisterForeignDevice] ++ put_be16 6 ++ put_be16 ttl in
      do! t := gets transport in
      let '(sent, _) := Send (ctx_deadline env) (clock env) addr data (write_result env addr data) t in
      do! r := call sent in
      match r with
      | inr err => mret (Some (EWrap "send registration: " err EmptyString))
      | inl _ => mret None
      end
  end.

Definition Connect (env : Env) (resolve : string -> go UDPAddr) (listen : option UDPAddr -> go Z)
    : M (option error) :=
  do! st := gets state in
  if negb (st =? StateDisconnected) then mret (Some ErrAlreadyConnected)
  else
  run! modify (set_state StateConnecting) in
  run! inc ConnectAttempts_ in
  do! t := gets transport in
  let '(opened, t) := Open resolve listen t in
  run! modify (set_transport t) in
  do! r := call opened in
  match r with
  | inr err =>
      run! modify (set_state StateDisconnected) in
      run! inc ConnectFailures_ in
      mret (Some (EWrap "open transport: " err EmptyString))
  | inl _ =>
      run! modify (set_receiving true) in
      run! modify (set_state StateConnected) in
      run! inc ConnectSuccesses_ in
      do! o := gets opts in
      if negb (String.eqb (bbmdAddress o) EmptyString) then
        do! _ := registerForeignDevice env resolve in mret None
      else mret None
  end.

(** [Close], after the receiver and the handlers it started have ended, which
    is what the two waits are for.  [iterate] is the order in which this run
    ranges over the pending channels. *)
Definition Close (close_result : go unit) (iterate : gmap Z Z -> list Z) : M (option error) :=
  do! st := gets state in
  if st =? StateDisconnected then mret None
  else
  run! modify (set_state StateDisconnected) in
  run! inc Disconnects_ in
  run! modify (set_receiving false) in
  do! p := gets pending in
  run! close_all (iterate p) in
  run! modify (set_pending ∅) in
  do! t := gets transport in
  let '(closed, t) := Transport.Close close_result t in
  run! modify (set_transport t) in
  do! r := call closed in
  match r with
  | inr err => mret (Some (EWrap "close transport: " err EmptyString))
  | inl _ => mret None
  end.

(** What [receiver] does with the result of a receive. *)
Inductive Turn : Type :=
  | Stop
  | Continue
  | Handle (data : bytes) (addr : UDPAddr).

(** One turn of the loop of [receiver]; [cancelled] is the state of its
    context, [received] what [ReceiveWithTimeout] returned. *)
Definition receiver_turn (cancelled : bool) (received : go (bytes * UDPAddr)) (t : UDPTransport) : go Turn :=
  if cancelled then Ret Stop
  else
    let! r := try received in
    match r with
    | inr err =>
        if is_net_timeout err then Ret Continue
        else if IsClosed t then Ret Stop
        else Ret Continue
    | inl (data, addr) => Ret (Handle data addr)
    end.

(** ** Delivery of responses *)

(** Packets handled by the receiver one after the other, each with its time of
    arrival and its sender. *)
Definition deliver (packets : list (Z * bytes * UDPAddr)) (c : Client) : Client :=
  fold_left (fun c '(now, data, addr) => receive_packet now data addr c) packets c.

(** The device a packet announces. *)
Definition announced (packet : Z * bytes * UDPAddr) : option DeviceInfo :=
  match parse_packet packet.1.2 with
  | Ret (npdu, apdu) =>
      if (APDU_Type apdu =? PDUTypeUnconfirmedRequest) && (Service apdu =? ServiceIAm) then
        match parse_iam (APDU_Data apdu) with
        | Ret (oid, maxAPDU, segmentation, vendorID) =>
            Some (device_info oid
              (if flag (Control npdu) NPDUControlSourceSpecifier
               then {| Net := SrcNet npdu; Addr := SrcAddr npdu |}
               else {| Net := 0; Addr := default [] (To4 (IP packet.2)) |}) maxAPDU segmentation vendorID)
        | _ => None
        end
      else None
  | _ => None
  end.

(** Devices entered one after the other. *)
Definition enter_all (ds : list DeviceInfo) (table : gmap Z DeviceInfo) : gmap Z DeviceInfo :=
  fold_left (fun t d => <[OID_Instance (ObjectID d) := d]> t) ds table.

(** A waiting call: the packets arrive, then it looks at its channel; if that
    is still empty its context ends. *)
Definition await (packets : list (Z * bytes * UDPAddr)) (w : Waiting) : M Wake :=
  run! modify (deliver packets) in
  do! r := receive_from (W_chan w) in
  mret (default CtxDone r).

(** The PDU types that answer a request. *)
Definition is_response (type : Z) : bool :=
  (type =? PDUTypeSimpleAck) || (type =? PDUTypeComplexAck) || (type =? PDUTypeError) ||
  (type =? PDUTypeReject) || (type =? PDUTypeAbort).

(** The response to request [id] in a packet, if it is one. *)
Definition response_to (id : Z) (packet : Z * bytes * UDPAddr) : option APDU :=
  match parse_packet packet.1.2 with
  | Ret (_, apdu) => if is_response (APDU_Type apdu) && (InvokeID apdu =? id) then Some apdu else None
  | _ => None
  end.

Definition first_response (id : Z) (packets : list (Z * bytes * UDPAddr)) : option APDU :=
  head (omap (response_to id) packets).

Definition wf_packets (packets : list (Z * bytes * UDPAddr)) : Prop :=
  Forall (fun p => wf_bytes p.1.2) packets.

(** The state of a waiting request: its id maps to its channel, and no other
    id does; [b] is what the channel holds. *)
Definition waiting_with (id ch : Z) (b : option APDU) (c : Client) : Prop :=
  pending_open c /\ pending c !! id = Some ch /\
  (forall id', pending c !! id' = Some ch -> id' = id) /\
  chans c !! ch = Some {| buffer := b; chan_closed := false |}.

Lemma receive_packet_eq now data addr c :
  wf_bytes data -> pending_open c ->
  exists c', handlePacket data addr
      (set_metrics (RecordActivity now (Add BytesReceived_ (len data) (metrics c))) c) = (Ret tt, c') /\
    receive_packet now data addr c = c' /\ handled c c'.
Proof.
  intros Hwf Hw. unfold receive_packet. set (c1 := set_metrics _ c).
  pose proof (handlePacket_runs data addr c1 Hwf Hw) as H. unfold runs in H.
  destruct (handlePacket data addr c1) as [[[]| | |] c'] eqn:E; try done. exists c'. split_and!; [done..|].
  transitivity c1; [|done]. by split; [split|].
Qed.

(** The effect of the response handler on the cell of a waiting request. *)
Lemma handleResponse_cell apdu c id ch b :
  waiting_with id ch b c ->
  exists c', handleResponse apdu c = (Ret tt, c') /\
    chans c' !! ch = Some {| buffer := match b with Some _ => b | None =>
      if InvokeID apdu =? id then Some apdu else None end; chan_closed := false |}.
Proof.
  intros (Hw & Hp & Hinj & Hch). unfold handleResponse, mbind, gets, mret.
  destruct (pending c !! InvokeID apdu) as [ch'|] eqn:E.
  - unfold try_send. destruct (Hw _ _ E) as [b' Hb']. rewrite Hb'. cbn [chan_closed buffer].
    destruct (Z.eqb_spec (InvokeID apdu) id) as [Hid|Hid].
    + rewrite Hid, Hp in E. injection E as <-. rewrite Hch in Hb'. injection Hb' as <-.
      destruct b; eexists; (split; [reflexivity|]); [done|]. apply lookup_insert_eq.
    + assert (ch' <> ch) as Hne by (intros ->; by apply Hid, Hinj).
      destruct b' as [b'|]; eexists; (split; [reflexivity|]); [by destruct b|].
      cbn [chans set_chans]. rewrite lookup_insert_ne by done. by destruct b.
  - eexists. split; [reflexivity|]. destruct (Z.eqb_spec (InvokeID apdu) id); [congruence|]. by destruct b.
Qed.

(** The branches that do not answer a request leave all channels alone. *)
Lemma handleIAm_chans data addr npdu c c' :
  handleIAm data addr npdu c = (Ret tt, c') -> chans c' = chans c.
Proof.
  rewrite handleIAm_eq. unfold mbind, inc, modify, on_result.
  destruct (parse_iam data) as [[[[oid m] s] v]| | |]; intros [= <-]; try done.
  unfold register_iam. by case_match.
Qed.

Lemma dispatch_cell apdu addr npdu c c' id ch b :
  waiting_with id ch b c -> dispatch apdu addr npdu c = (Ret tt, c') ->
  chans c' !! ch = Some {| buffer := match b with Some _ => b | None =>
    if is_response (APDU_Type apdu) && (InvokeID apdu =? id) then Some apdu else None end;
    chan_closed := false |}.
Proof.
  intros Hw. pose proof Hw as (_ & _ & _ & Hch). unfold dispatch, is_response.
  destruct (APDU_Type apdu =? PDUTypeUnconfirmedRequest) eqn:Eu.
  { replace (APDU_Type apdu) with PDUTypeUnconfirmedRequest by lia. cbn [orb andb].
    unfold handleUnconfirmedRequest, handleCOVNotification.
    repeat case_match; intros HR; try (injection HR as <-); try (by destruct b);
      apply handleIAm_chans in HR; rewrite HR; by destruct b. }
  unfold mbind, inc, modify.
  repeat match goal with
  | |- context [APDU_Type apdu =? ?t] =>
      lazymatch t with PDUTypeUnconfirmedRequest => fail | _ => destruct (APDU_Type apdu =? t); cbn [orb andb] end
  end; intros H;
    first [by injection H as <-; destruct b
          | match type of H with handleResponse _ ?c0 = _ =>
              assert (waiting_with id ch b c0) as Hw' by exact Hw;
              destruct (handleResponse_cell apdu c0 id ch b Hw') as (c2 & E2 & Hc2);
              rewrite E2 in H; by injection H as <- end].
Qed.

(** Only an announcement changes the device table. *)
Lemma handleResponse_devices apdu c c' : handleResponse apdu c = (Ret tt, c') -> devices c' = devices c.
Proof. unfold handleResponse, mbind, gets, mret, try_send. repeat case_match; by intros [= <-]. Qed.

Lemma dispatch_devices apdu addr npdu c c' :
  dispatch apdu addr npdu c = (Ret tt, c') ->
  devices c' =
    (if (APDU_Type apdu =? PDUTypeUnconfirmedRequest) && (Service apdu =? ServiceIAm) then
       match parse_iam (APDU_Data apdu) with
       | Ret (oid, m, s, v) => devices (register_iam oid m s v addr npdu c)
       | _ => devices c
       end
     else devices c).
Proof.
  unfold dispatch. destruct (APDU_Type apdu =? PDUTypeUnconfirmedRequest) eqn:Eu; cbn [andb].
  - unfold handleUnconfirmedRequest, handleCOVNotification. destruct (Service apdu =? ServiceIAm).
    + rewrite handleIAm_eq. unfold mbind, inc, modify, on_result.
      destruct (parse_iam (APDU_Data apdu)) as [[[[oid m] s] v]| | |]; intros [= <-]; try done.
      unfold register_iam. cbn. by case_match.
    + case_match; by intros [= <-].
  - unfold mbind, inc, modify. repeat case_match; intros HR; try (apply handleResponse_devices in HR; exact HR);
      by injection HR as <-.
Qed.

Lemma receive_packet_devices now data addr c :
  wf_bytes data -> pending_open c ->
  devices (receive_packet now data addr c) =
    enter_all (option_list (announced (now, data, addr))) (devices c).
Proof.
  intros Hwf Hw. destruct (receive_packet_eq now data addr c Hwf Hw) as (c' & Hh & -> & _).
  rewrite handlePacket_eq in Hh. unfold on_result in Hh. unfold announced. cbn [fst snd].
  destruct (parse_packet data) as [[npdu apdu]| | |]; try done; [|by injection Hh as <-].
  unfold mbind, inc, modify in Hh. apply dispatch_devices in Hh. rewrite Hh.
  destruct (_ && _); [|done]. destruct (parse_iam (APDU_Data apdu)) as [[[[oid m] s] v]| | |]; try done.
  unfold register_iam. by case_match.
Qed.

Definition first_of {A} (a b : option A) : option A := match a with Some _ => a | None => b end.

Lemma waiting_handled id ch b b' c c' :
  waiting_with id ch b c -> handled c c' ->
  chans c' !! ch = Some {| buffer := b'; chan_closed := false |} -> waiting_with id ch b' c'.
Proof.
  intros (Hw & Hp & Hinj & _) [Hh Hop] Hch. split; [by apply Hop|].
  rewrite (same_pending _ _ Hh). by split_and!.
Qed.

Lemma receive_packet_cell now data addr c id ch b :
  wf_bytes data -> waiting_with id ch b c ->
  waiting_with id ch (first_of b (response_to id (now, data, addr))) (receive_packet now data addr c) /\
  handled c (receive_packet now data addr c).
Proof.
  intros Hwf Hw. destruct (receive_packet_eq now data addr c Hwf (proj1 Hw)) as (c' & Hh & -> & Hc').
  split; [|done]. eapply waiting_handled; [exact Hw|exact Hc'|].
  rewrite handlePacket_eq in Hh. unfold on_result in Hh. unfold response_to. cbn [fst snd].
  destruct (parse_packet data) as [[npdu apdu]| | |]; try done.
  - unfold mbind, inc, modify in Hh. eapply dispatch_cell in Hh; [|exact Hw]. rewrite Hh. done.
  - injection Hh as <-. destruct Hw as (_ & _ & _ & Hch). cbn [chans set_metrics]. rewrite Hch. by destruct b.
Qed.

Lemma deliver_cell packets c id ch b :
  wf_packets packets -> waiting_with id ch b c ->
  waiting_with id ch (first_of b (first_response id packets)) (deliver packets c) /\
  handled c (deliver packets c).
Proof.
  intros Hwf. revert c b. induction Hwf as [|[[now data] addr] packets Hd _ IH]; intros c b Hw.
  - split; [|done]. by destruct b.
  - destruct (receive_packet_cell now data addr c id ch b Hd Hw) as [Hw1 Hh1].
    destruct (IH _ _ Hw1) as [Hw2 Hh2]. cbn [deliver fold_left] in *. split; [|by etransitivity].
    unfold first_response in *. cbn [omap list_omap].
    destruct b; [done|]. cbn [first_of] in *. by destruct (response_to id (now, data, addr)).
Qed.

Lemma deliver_devices packets c :
  wf_packets packets -> pending_open c ->
  devices (deliver packets c) = enter_all (omap announced packets) (devices c) /\ handled c (deliver packets c).
Proof.
  intros Hwf. revert c. induction Hwf as [|[[now data] addr] packets Hd _ IH]; intros c Hw; [done|].
  destruct (receive_packet_eq now data addr c Hd Hw) as (c' & _ & E & Hh).
  assert (pending_open (receive_packet now data addr c)) as Hw1 by (rewrite E; by apply Hh).
  destruct (IH _ Hw1) as [IHd IHh].
  change (deliver ((now, data, addr) :: packets) c) with (deliver packets (receive_packet now data addr c)). split.
  - rewrite IHd, (receive_packet_devices now data addr c Hd Hw). cbn [omap list_omap].
    by destruct (announced (now, data, addr)).
  - etransitivity; [|exact IHh]. by rewrite E.
Qed.

(** What the caller gets for a response. *)
Definition result_of (id : Z) (response : option APDU) (r : APDU + error) : Prop :=
  match response with
  | None => r = inr ErrTimeout
  | Some apdu =>
      let type := APDU_Type apdu in
      if (type =? PDUTypeSimpleAck) || (type =? PDUTypeComplexAck) then r = inl apdu
      else if type =? PDUTypeError then exists e, decodeError (APDU_Data apdu) = Ret e /\ r = inr e
      else if type =? PDUTypeReject then r = inr (EReject {| RE_InvokeID := id; RE_Reason := Service apdu |})
      else r = inr (EAbort {| AE_InvokeID := id; AE_Server := false; AE_Reason := Service apdu |})
  end.

(** The invoke id of the next request. *)
Definition next_id (c : Client) : Z := (invokeID c + 1) mod 256.

Lemma nextInvokeID_eq c :
  0 <= invokeID c < 2 ^ 32 ->
  nextInvokeID c = (Ret (next_id c), set_invokeID (u32 (invokeID c + 1)) c).
Proof.
  intros H. unfold nextInvokeID, next_id. do 2 f_equal.
  change 0xFF with (Z.ones 8). rewrite Z.land_ones by lia. unfold uint. div_lia.
Qed.

Lemma Send_ok ctx now addr data write t c0 :
  conn t = Some c0 -> is_open c0 = true -> write = Ret (len data) ->
  Send ctx now addr data write t =
    (Ret tt, [{| D_deadline := deadline ctx now (writeTimeout t); D_addr := addr; D_data := data |}]).
Proof. intros Hc Ho ->. unfold Send. rewrite Hc, Ho. cbn. by rewrite Z.eqb_refl. Qed.

(** What the socket is given for a request. *)
Definition sent_request (ctx : option Z) (now : Z) (addr : UDPAddr) (service : Z) (data : bytes) (c : Client)
    : list Datagram :=
  [{| D_deadline := deadline ctx now (writeTimeout (transport c)); D_addr := addr;
      D_data := request_packet BVLCOriginalUnicastNPDU true (EncodeConfirmedRequest (next_id c) service data 0 5) |}].

(** A client that is connected over an open socket, none of whose channels is
    shared or lost. *)
Record ready (c : Client) : Prop := {
  ready_connected : state c = StateConnected;
  ready_socket : exists s, conn (transport c) = Some {| socket := s; is_open := true |};
  ready_invokeID : 0 <= invokeID c < 2 ^ 32;
  ready_pending : pending_open c
}.

(** A request that is sent waits with an empty channel of its own. *)
Lemma sendRequest_begin_waits ctx now addr service data write c :
  ready c -> (forall p, write addr p = Ret (len p)) ->
  exists ch c',
    sendRequest_begin ctx now addr service data write c =
      (Ret (inl {| W_id := next_id c; W_chan := ch |}, sent_request ctx now addr service data c), c') /\
    waiting_with (next_id c) ch None c' /\ chans c !! ch = None /\
    pending c' = <[next_id c := ch]> (pending c) /\ state c' = state c /\ transport c' = transport c /\
    devices c' = devices c /\ covSubs c' = covSubs c /\ invokeID c' = u32 (invokeID c + 1) /\
    ActiveRequests (metrics c') = Gauge_Inc (ActiveRequests (metrics c)).
Proof.
  intros [Hst [s Hs] Hid Hw] Hwr. set (ch := fresh (dom (chans c))).
  assert (chans c !! ch = None) as Hfresh by (apply not_elem_of_dom, is_fresh).
  unfold sendRequest_begin, register, transmit, mbind, gets, mret.
  replace (negb (state c =? StateConnected)) with false by (by rewrite Hst).
  rewrite nextInvokeID_eq by done. unfold make_chan, inc, active, add, modify, call.
  change (chans (set_invokeID _ c)) with (chans c). fold ch.
  match goal with |- context [transport ?x] => change (transport x) with (transport c) end.
  rewrite (Send_ok _ _ _ _ _ _ _ Hs eq_refl (Hwr _)). cbn [try].
  exists ch. eexists. split; [reflexivity|].
  split; [|split_and!; first [exact Hfresh|reflexivity]].
  unfold waiting_with, pending_open.
  cbn [chans pending set_metrics set_pending set_chans set_invokeID].
  split_and!; [|apply lookup_insert_eq| |apply lookup_insert_eq].
  - intros id' ch'. rewrite lookup_insert_Some. intros [[<- <-]|[Hne Hp]].
    + eexists. apply lookup_insert_eq.
    + destruct (Hw _ _ Hp) as [b Hb]. exists b. rewrite lookup_insert_ne; congruence.
  - intros id'. rewrite lookup_insert_Some. intros [[-> _]|[Hne Hp]]; [done|].
    destruct (Hw _ _ Hp) as [b Hb]. congruence.
Qed.

(** What the end of a request leaves behind. *)
Record ended (id : Z) (c c' : Client) : Prop := {
  ended_pending : pending c' = delete id (pending c);
  ended_active : ActiveRequests (metrics c') = Gauge_Dec (ActiveRequests (metrics c));
  ended_chans : chans c' = chans c;
  ended_state : state c' = state c;
  ended_transport : transport c' = transport c;
  ended_invokeID : invokeID c' = invokeID c;
  ended_devices : devices c' = devices c;
  ended_covSubs : covSubs c' = covSubs c
}.

(** A response that can reach a waiting request. *)
Definition response_ok (id : Z) (resp : option APDU) : Prop :=
  forall a, resp = Some a -> wf_apdu a /\ is_response (APDU_Type a) = true /\ InvokeID a = id.

Lemma sendRequest_end_spec w el resp c :
  response_ok (W_id w) resp ->
  exists r c', sendRequest_end w el (default CtxDone (option_map Response resp)) c = (Ret r, c') /\
    result_of (W_id w) resp r /\ ended (W_id w) c c'.
Proof.
  intros Hok. unfold sendRequest_end, settle, mbind, active, remove_pending, inc, modify, mret, pure.
  destruct resp as [a|]; cbn [default option_map result_of id];
    [|do 2 eexists; split; [reflexivity|]; split; [done|by split]].
  destruct (Hok a eq_refl) as (Hwf & Hr & Hid). unfold is_response in Hr.
  destruct ((APDU_Type a =? PDUTypeSimpleAck) || (APDU_Type a =? PDUTypeComplexAck)) eqn:E1;
    [do 2 eexists; split; [reflexivity|]; split; [done|by split]|].
  destruct (APDU_Type a =? PDUTypeError) eqn:E2.
  { destruct (safely_no_err _ _ (decodeError_safe _ Hwf) (no_err_decodeError _)) as (e & He & _).
    rewrite He. do 2 eexists. split; [reflexivity|]. split; [by exists e|by split]. }
  destruct (APDU_Type a =? PDUTypeReject) eqn:E3;
    [do 2 eexists; split; [reflexivity|]; split; [by rewrite Hid|by split]|].
  destruct (APDU_Type a =? PDUTypeAbort) eqn:E4;
    [do 2 eexists; split; [reflexivity|]; split; [by rewrite Hid|by split]|].
  exfalso. cbn [orb] in Hr. done.
Qed.

Lemma first_response_ok id packets : wf_packets packets -> response_ok id (first_response id packets).
Proof.
  unfold first_response, response_ok. induction 1 as [|[[now data] addr] packets Hd _ IH]; [done|].
  cbn [omap list_omap]. destruct (response_to id (now, data, addr)) as [a'|] eqn:E; [|exact IH].
  intros a [= <-]. unfold response_to in E. cbn [fst snd] in *.
  pose proof (parse_packet_safe data Hd) as Hs. destruct (parse_packet data) as [[npdu apdu]| | |]; try done.
  destruct (is_response (APDU_Type apdu)) eqn:Et; [|done].
  destruct (Z.eqb_spec (InvokeID apdu) id) as [Hi|]; [|done]. cbn in E. by injection E as <-.
Qed.

Lemma await_spec packets id ch c :
  wf_packets packets -> waiting_with id ch None c ->
  exists c', await packets {| W_id := id; W_chan := ch |} c =
      (Ret (default CtxDone (option_map Response (first_response id packets))), c') /\
    handled c c' /\ pending_open c' /\ devices c' = enter_all (omap announced packets) (devices c).
Proof.
  intros Hwf Hw. destruct (deliver_cell packets c id ch None Hwf Hw) as [(Hw1 & _ & _ & Hch) Hh].
  destruct (deliver_devices packets c Hwf (proj1 Hw)) as [Hdev _].
  unfold await, mbind, modify, receive_from, mret. cbn [W_chan first_of] in *. rewrite Hch.
  cbn [buffer chan_closed]. destruct (first_response id packets) as [a|]; cbn [default option_map].
  - eexists. split; [reflexivity|]. split.
    + etransitivity; [exact Hh|]. split; [by split|]. intros _ id' ch' Hp'.
      destruct (Hw1 _ _ Hp') as [b Hb]. cbn [chans set_chans pending].
      destruct (decide (ch = ch')) as [<-|Hne]; [eexists; apply lookup_insert_eq|].
      rewrite lookup_insert_ne by done. by exists b.
    + split; [|exact Hdev]. intros id' ch' Hp'. destruct (Hw1 _ _ Hp') as [b Hb]. cbn [chans set_chans pending].
      destruct (decide (ch = ch')) as [<-|Hne]; [eexists; apply lookup_insert_eq|].
      rewrite lookup_insert_ne by done. by exists b.
  - eexists. split; [reflexivity|]. by split_and!.
Qed.

(** What a finished request leaves of the client. *)
Record finished (id : Z) (packets : list (Z * bytes * UDPAddr)) (c c' : Client) : Prop := {
  fin_ready : ready c';
  fin_devices : devices c' = enter_all (omap announced packets) (devices c);
  fin_transport : transport c' = transport c;
  fin_invokeID : invokeID c' = u32 (invokeID c + 1);
  fin_pending : pending c' = delete id (pending c);
  fin_active : ActiveRequests (metrics c') = ActiveRequests (metrics c);
  fin_covSubs : covSubs c' = covSubs c
}.

Definition active_ok (c : Client) : Prop := - 2 ^ 63 <= ActiveRequests (metrics c) < 2 ^ 63 - 1.

Lemma gauge_inc_dec g : - 2 ^ 63 <= g < 2 ^ 63 - 1 -> Gauge_Dec (Gauge_Inc g) = g.
Proof. intros. unfold Gauge_Dec, Gauge_Inc, Gauge_Add, sint. change (2 ^ (64 - 1)) with (2 ^ 63). div_lia. Qed.

(** The socket takes the request, and then these packets arrive. *)
Definition brings (env : Env) (addr : UDPAddr) (service : Z) (data : bytes) (c : Client)
    (packets : list (Z * bytes * UDPAddr)) : Prop :=
  (forall p, write_result env addr p = Ret (len p)) /\ wf_packets packets /\
  forall ch, wait env (sent_request (ctx_deadline env) (clock env) addr service data c)
                 {| W_id := next_id c; W_chan := ch |} =
             await packets {| W_id := next_id c; W_chan := ch |}.

Lemma sendRequest_spec env packets addr service data c :
  ready c -> active_ok c -> brings env addr service data c packets ->
  exists r c', sendRequest env addr service data c = (Ret r, c') /\
    result_of (next_id c) (first_response (next_id c) packets) r /\ finished (next_id c) packets c c'.
Proof.
  intros Hc Ha (Hwr & Hwf & Hwait).
  destruct (sendRequest_begin_waits (ctx_deadline env) (clock env) addr service data (write_result env) c Hc Hwr)
    as (ch & c1 & Hb & Hw & Hfresh & Hp & Hst & Ht & Hd & Hcov & Hid & Hact).
  destruct (await_spec packets (next_id c) ch c1 Hwf Hw) as (c2 & Haw & [Hh Hop] & Hw2 & Hdev).
  destruct (sendRequest_end_spec {| W_id := next_id c; W_chan := ch |} (elapsed env) _ c2
    (first_response_ok (next_id c) packets Hwf)) as (r & c3 & He & Hr & Hend).
  exists r, c3. split; [|split; [exact Hr|]].
  - unfold sendRequest, mbind, mret. rewrite Hb, Hwait, Haw. exact He.
  - cbn [W_id] in Hend. destruct Hc as [Hcs [s Hs] Hci Hcp].
    assert (transport c3 = transport c) as Ht3.
    { by rewrite (ended_transport _ _ _ Hend), (same_transport _ _ Hh), Ht. }
    assert (invokeID c3 = u32 (invokeID c + 1)) as Hi3.
    { by rewrite (ended_invokeID _ _ _ Hend), (same_invokeID _ _ Hh), Hid. }
    split; try done.
    + split.
      * by rewrite (ended_state _ _ _ Hend), (same_state _ _ Hh), Hst.
      * exists s. by rewrite Ht3.
      * rewrite Hi3. apply (uint_range 32). lia.
      * intros id' ch'. rewrite (ended_pending _ _ _ Hend), (ended_chans _ _ _ Hend).
        rewrite lookup_delete_Some. intros [_ Hp']. by eapply Hw2.
    + by rewrite (ended_devices _ _ _ Hend), Hdev, Hd.
    + rewrite (ended_pending _ _ _ Hend), (same_pending _ _ Hh), Hp. apply delete_insert_eq.
    + rewrite (ended_active _ _ _ Hend), (same_active _ _ Hh), Hact. by apply gauge_inc_dec.
    + by rewrite (ended_covSubs _ _ _ Hend), (same_covSubs _ _ Hh), Hcov.
Qed.

(** C8. Responses are matched to requests by invoke id.  On a connected client,
    a request that is sent waits on a channel of its own; whatever packets then
    arrive (of any kind, from anyone, well-formed or not), the caller gets the
    result of the first simple or complex acknowledgement, error, reject or
    abort with the request's invoke id, and [ErrTimeout] when there is none.
    Afterwards the id is free again, the gauge of active requests is what it
    was, and the client is ready for the next request. *)
Theorem sendRequest_first_response env packets addr service data c :
  ready c -> active_ok c -> brings env addr service data c packets ->
  exists r c', sendRequest env addr service data c = (Ret r, c') /\
    result_of (next_id c) (first_response (next_id c) packets) r /\
    ready c' /\ pending c' = delete (next_id c) (pending c) /\
    ActiveRequests (metrics c') = ActiveRequests (metrics c).
Proof.
  intros Hc Ha Hb. destruct (sendRequest_spec env packets addr service data c Hc Ha Hb) as (r & c' & E & Hr & Hf).
  exists r, c'. destruct Hf. by split_and!.
Qed.

(** A connected client with one known device. *)
Definition example_device : DeviceInfo :=
  device_info {| OID_Type := ObjectTypeDevice; OID_Instance := 7 |} {| Net := 0; Addr := [10; 0; 0; 7] |} 1476 3 0.

Definition example_client : Client := {|
  opts := defaultOptions;
  transport := {| localAddr := EmptyString; conn := Some {| socket := 3; is_open := true |};
                  readTimeout := 1; writeTimeout := 1; Transport.closed := false |};
  state := StateConnected; invokeID := 41; pending := ∅; chans := ∅;
  devices := {[ 7 := example_device ]}; covSubs := ∅; metrics := NewMetrics 0; receiving := true |}.

Lemma example_ready : ready example_client /\ active_ok example_client.
Proof.
  split; [|unfold active_ok; cbn; lia]. split; cbn; [done|by exists 3|lia|]. intros id ch H. discriminate H.
Qed.

(** An environment whose socket accepts everything and in which the given
    packets arrive. *)
Definition example_env (packets : list (Z * bytes * UDPAddr)) : Env := {|
  ctx_deadline := None; clock := 0; write_result := fun _ p => Ret (len p);
  wait := fun _ => await packets; elapsed := 1; sleep := fun _ _ => mret tt;
  range_devices := fun m => (map_to_list m).*2 |}.

Lemma sendRequest_first_response_witness :
  let peer := {| IP := [10; 0; 0; 7]; Port := 47808 |} in
  let packets := [(0, [0x81; 0x0A; 0; 9; 1; 0; 0x20; 41; 15], peer);
                  (1, [0x81; 0x0A; 0; 9; 1; 0; 0x60; 42; 9], peer)] in
  exists r c', sendRequest (example_env packets) peer ServiceWriteProperty [] example_client = (Ret r, c') /\
    r = inr (EReject {| RE_InvokeID := 42; RE_Reason := 9 |}).
Proof.
  intros peer packets.
  destruct (sendRequest_first_response (example_env packets) packets peer ServiceWriteProperty [] example_client)
    as (r & c' & E & Hr & _); try apply example_ready.
  - split; [done|split; [|done]]. unfold wf_packets, wf_bytes, is_byte. repeat constructor; cbn; lia.
  - exists r, c'. split; [exact E|exact Hr].
Defined.

(** ** Closing *)

Lemma close_all_spec chs c :
  NoDup chs ->
  (forall ch, ch ∈ chs -> exists b, chans c !! ch = Some {| buffer := b; chan_closed := false |}) ->
  exists m, close_all chs c = (Ret tt, set_chans m c) /\
    (forall ch, ch ∉ chs -> m !! ch = chans c !! ch) /\
    (forall ch, ch ∈ chs -> exists b, chans c !! ch = Some {| buffer := b; chan_closed := false |} /\
       m !! ch = Some {| buffer := b; chan_closed := true |}).
Proof.
  intros Hnd. revert c. induction Hnd as [|ch chs Hni _ IH]; intros c Hop.
  - exists (chans c). split_and!; [by destruct c|done|]. intros ch Hin. by apply not_elem_of_nil in Hin.
  - destruct (Hop ch) as [b Hb]; [set_solver|]. cbn [close_all]. unfold mbind, close_chan. rewrite Hb.
    cbn [chan_closed buffer].
    destruct (IH (set_chans (<[ch := {| buffer := b; chan_closed := true |}]> (chans c)) c)) as (m & Hm & Hout & Hin).
    { intros ch' Hch'. cbn [chans set_chans]. rewrite lookup_insert_ne by (intros ->; done). apply Hop. set_solver. }
    exists m. split; [by rewrite Hm|]. cbn [chans set_chans] in *. split.
    + intros ch' Hch'. rewrite Hout by set_solver. apply lookup_insert_ne. set_solver.
    + intros ch' [->|Hch']%elem_of_cons.
      * exists b. rewrite Hout by done. split; [done|apply lookup_insert_eq].
      * destruct (Hin ch' Hch') as (b' & Hb' & Hm'). exists b'. split; [|done].
        rewrite lookup_insert_ne in Hb' by (intros ->; done). done.
Qed.

(** No channel belongs to two requests. *)
Definition unshared (c : Client) : Prop :=
  forall id id' ch, pending c !! id = Some ch -> pending c !! id' = Some ch -> id = id'.

Lemma pending_chans_NoDup c order :
  unshared c -> order ≡ₚ (map_to_list (pending c)).*2 -> NoDup order.
Proof.
  intros Hu ->. apply NoDup_fmap_2_strong; [|apply NoDup_map_to_list].
  intros [id ch] [id' ch'] H H' E. cbn in E. subst ch'. apply elem_of_map_to_list in H, H'.
  f_equal. by eapply Hu.
Qed.

Lemma pending_chans_elem c order ch :
  order ≡ₚ (map_to_list (pending c)).*2 -> ch ∈ order <-> exists id, pending c !! id = Some ch.
Proof.
  intros ->. rewrite list_elem_of_fmap. split.
  - intros ([id ch'] & -> & H). exists id. by apply elem_of_map_to_list.
  - intros [id H]. exists (id, ch). split; [done|by apply elem_of_map_to_list].
Qed.

(** An order in which Go may range over the pending channels. *)
Definition iterates (iterate : gmap Z Z -> list Z) (c : Client) : Prop :=
  iterate (pending c) ≡ₚ (map_to_list (pending c)).*2.

Lemma Close_spec c cr iterate :
  state c <> StateDisconnected -> pending_open c -> unshared c -> iterates iterate c -> no_panic cr ->
  exists r c', Close cr iterate c = (Ret r, c') /\ state c' = StateDisconnected /\ pending c' = ∅ /\
    receiving c' = false /\ transport c' = (Transport.Close cr (transport c)).2 /\ opts c' = opts c /\
    invokeID c' = invokeID c /\
    (forall id ch, pending c !! id = Some ch ->
       exists b, chans c' !! ch = Some {| buffer := b; chan_closed := true |}).
Proof.
  intros Hst Hop Hu Hord Hcr. unfold Close, mbind, gets, mret, inc, modify, call.
  replace (state c =? StateDisconnected) with false by lia.
  match goal with |- context [pending ?x] => change (pending x) with (pending c) end.
  set (order := iterate (pending c)) in *.
  match goal with |- context [close_all order ?x] => set (c1 := x) end.
  destruct (close_all_spec order c1) as (m & Hm & _ & Hin).
  { by eapply pending_chans_NoDup. }
  { intros ch [id Hid]%(pending_chans_elem c order ch Hord). by eapply Hop. }
  rewrite Hm. change (transport (set_pending ∅ (set_chans m c1))) with (transport c).
  assert (exists r, try (Transport.Close cr (transport c)).1 = Ret r) as [r Hr].
  { destruct Hcr. unfold Transport.Close. repeat case_match; cbn; eauto; by destruct cr; eauto. }
  destruct (Transport.Close cr (transport c)) as [cl t]. cbn [fst snd] in *. rewrite Hr.
  destruct r as [[]|err]; do 2 eexists; (split; [reflexivity|]); split_and!; try reflexivity;
    intros id ch Hid; destruct (Hin ch) as (b & _ & Hb);
      try (apply (pending_chans_elem c order ch Hord); by exists id); by exists b.
Qed.

(** C25. Closing wakes everybody.  On a client that is not disconnected,
    [Close] returns without a panic (no channel is closed twice) in whatever
    order it ranges over the pending requests; every request that was waiting
    finds its channel closed, so that its [select] proceeds, with
    [ErrConnectionClosed] unless a response was already buffered; no request is
    pending any more, the receiver has stopped, and a second [Close] does
    nothing. *)
Theorem Close_wakes_all c cr iterate w :
  state c <> StateDisconnected -> pending_open c -> unshared c -> iterates iterate c -> no_panic cr ->
  exists r c', Close cr iterate c = (Ret r, c') /\
    state c' = StateDisconnected /\ pending c' = ∅ /\ receiving c' = false /\
    (pending c !! W_id w = Some (W_chan w) ->
     exists wake c'', receive_from (W_chan w) c' = (Ret (Some wake), c'') /\
       (wake = ChanClosed /\ (forall el c3, (sendRequest_end w el wake c3).1 = Ret (inr ErrConnectionClosed)) \/
        exists a, wake = Response a)) /\
    forall cr' iterate', Close cr' iterate' c' = (Ret None, c').
Proof.
  intros Hst Hop Hu Hord Hcr.
  destruct (Close_spec c cr iterate Hst Hop Hu Hord Hcr) as (r & c' & E & Hs & Hp & Hrec & _ & _ & _ & Hch).
  exists r, c'. split_and!; [done..| |].
  - intros Hw. destruct (Hch _ _ Hw) as [b Hb]. unfold receive_from. rewrite Hb. cbn [buffer chan_closed].
    destruct b as [a|]; do 2 eexists; (split; [reflexivity|]); [right; by eexists|left; by split].
  - intros cr' iterate'. unfold Close, mbind, gets. by rewrite Hs.
Qed.

Lemma Close_wakes_all_witness :
  let c := set_pending {[ 5 := 0 ]} (set_chans {[ 0 := {| buffer := None; chan_closed := false |} ]} example_client) in
  exists r c', Close (Ret tt) (fun p => (map_to_list p).*2) c = (Ret r, c') /\ state c' = StateDisconnected /\ pending c' = ∅.
Proof.
  intros c. destruct (Close_wakes_all c (Ret tt) (fun p => (map_to_list p).*2) {| W_id := 5; W_chan := 0 |}) as (r & c' & E & Hs & Hp & _).
  - done.
  - intros id ch. cbn. rewrite lookup_singleton_Some. intros [<- <-]. eexists. apply lookup_singleton_eq.
  - intros id id' ch. cbn. rewrite !lookup_singleton_Some. intros [<- _] [<- _]. done.
  - unfold iterates. reflexivity.
  - done.
  - exists r, c'. by split_and!.
Defined.

(** ** Reconnecting *)

Lemma sendRequest_dead env addr service data c :
  state c = StateConnected -> dead (transport c) ->
  exists c', sendRequest env addr service data c =
    (Ret (inr (EWrap "send request: " (EWrap "set write deadline: " errClosed EmptyString) EmptyString)), c') /\
    dead (transport c') /\ state c' = StateConnected.
Proof.
  intros Hs Hd. unfold sendRequest, sendRequest_begin, register, transmit, mbind, gets, mret.
  replace (negb (state c =? StateConnected)) with false by (by rewrite Hs).
  unfold nextInvokeID, make_chan, inc, active, remove_pending, modify, call.
  match goal with |- context [transport ?x] => change (transport x) with (transport c) end.
  rewrite Send_dead by done. cbn [try]. eexists. split; [reflexivity|]. by split.
Qed.

(** C26. A client cannot reconnect.  After [Close] of a connected client that has
    no BBMD, [Connect] returns nil and reports the client as connected, but its
    socket stays closed: every confirmed request from then on fails with the
    error of the closed socket, without being sent, and the receiver that was
    started stops at its first turn. *)
Theorem reconnect_is_dead c cr iterate env resolve listen :
  state c = StateConnected -> lifecycle (transport c) -> usable (transport c) ->
  pending_open c -> unshared c -> iterates iterate c -> no_panic cr ->
  bbmdAddress (opts c) = EmptyString ->
  exists r c1 c2, Close cr iterate c = (Ret r, c1) /\ Connect env resolve listen c1 = (Ret None, c2) /\
    state c2 = StateConnected /\ receiving c2 = true /\
    (forall now read, receiver_turn false (ReceiveWithTimeout (100 * Millisecond) now read (transport c2))
       (transport c2) = Ret Stop) /\
    forall env' addr service data, exists c3,
      sendRequest env' addr service data c2 =
        (Ret (inr (EWrap "send request: " (EWrap "set write deadline: " errClosed EmptyString) EmptyString)), c3).
Proof.
  intros Hst Hlife Hu Hop Hun Hord Hcr Hb.
  destruct (Close_spec c cr iterate) as (r & c1 & E & Hs1 & _ & _ & Ht1 & Ho1 & _ & _); try done.
  { by rewrite Hst. }
  pose proof (Close_dead cr (transport c) Hlife Hu) as Hd. rewrite <- Ht1 in Hd.
  exists r, c1. unfold Connect, mbind, gets, mret, inc, modify, call.
  replace (negb (state c1 =? StateDisconnected)) with false by (by rewrite Hs1).
  match goal with |- context [Open resolve listen (transport ?x)] =>
    change (transport x) with (transport c1) end.
  rewrite Open_dead by done. cbn [try].
  match goal with |- context [opts ?x] => change (opts x) with (opts c1) end.
  rewrite Ho1, Hb. cbn [String.eqb negb].
  eexists. split; [exact E|]. split; [reflexivity|]. split; [done|]. split; [done|]. split.
  - intros now read. unfold receiver_turn, ReceiveWithTimeout. cbn [transport set_transport set_metrics set_state set_receiving].
    rewrite Receive_dead by done. cbn. unfold IsClosed. by rewrite (proj1 Hd).
  - intros env' addr service data.
    match goal with |- exists c3, sendRequest _ _ _ _ ?x = _ =>
      destruct (sendRequest_dead env' addr service data x eq_refl Hd) as (c3 & E3 & _) end.
    by exists c3.
Qed.

Lemma reconnect_is_dead_witness :
  exists r c1 c2, Close (Ret tt) (fun p => (map_to_list p).*2) example_client = (Ret r, c1) /\
    Connect (example_env []) (fun _ => Panic) (fun _ => Panic) c1 = (Ret None, c2) /\ state c2 = StateConnected.
Proof.
  destruct (reconnect_is_dead example_client (Ret tt) (fun p => (map_to_list p).*2) (example_env []) (fun _ => Panic) (fun _ => Panic))
    as (r & c1 & c2 & H1 & H2 & H3 & _); try done.
  - constructor.
  - exists {| socket := 3; is_open := true |}. by split.
  - unfold iterates. reflexivity.
  - by exists r, c1, c2.
Defined.
