(* ===== verification/EndToEnd.v ===== *)
(** * Services end to end ([client.go])

    Calls composed with everything below and beside them: the request on the
    wire, the packets that arrive while the call waits, the handlers, the
    decoders.  Reading a property of a known device; discovering an unknown one
    first; reading the object list of a device element by element. *)

From S2P Require Import Prelude Enums Errors Link Apdu Tags Values Options Services Metrics Transport Device Client Calls.
#[local] Open Scope string_scope.
#[local] Open Scope list_scope.
#[local] Open Scope Z_scope.

(** ** Reading a property end to end *)

(** A complex acknowledgement of a device. *)
Definition complex_ack (id service : Z) (data : bytes) : bytes := [u8 PDUTypeComplexAck; id; service] ++ data.

Lemma DecodeAPDU_complex_ack id service data :
  exists a, DecodeAPDU (complex_ack id service data) = Ret a /\
    APDU_Type a = PDUTypeComplexAck /\ InvokeID a = id /\ APDU_Data a = data.
Proof.
  unfold complex_ack, DecodeAPDU. cbn [app]. replace (len _ <? 1) with false by len_lia.
  rewrite idx_cons_0. cbn -[decodeComplexAck]. unfold decodeComplexAck.
  replace (len _ <? 3) with false by len_lia. rewrite !idx_in by len_lia. nat_literals. cbn [nth obind].
  rewrite slice_from_in by len_lia. cbn -[len].
  eexists. split; [reflexivity|]. by cbn.
Qed.

Lemma first_response_app id ps qs :
  first_response id (ps ++ qs) = first_of (first_response id ps) (first_response id qs).
Proof.
  unfold first_response. induction ps as [|p ps IH]; [done|]. cbn [app omap list_omap].
  by destruct (response_to id p).
Qed.

Lemma response_to_complex_ack id t function origin reply service data from :
  origin_ok function origin -> wf_bytes (packet_of function origin reply (complex_ack id service data)) ->
  exists a, response_to id (t, packet_of function origin reply (complex_ack id service data), from) = Some a /\
    APDU_Type a = PDUTypeComplexAck /\ APDU_Data a = data.
Proof.
  intros Ho Hwf. unfold packet_of in Hwf. rewrite !wf_app in Hwf. destruct Hwf as (_ & _ & _ & Hwf).
  unfold response_to. cbn [fst snd]. rewrite parse_packet_of by done.
  destruct (DecodeAPDU_complex_ack id service data) as (a & -> & Ht & Hi & Hd). cbn [obind].
  rewrite Ht, Hi, Z.eqb_refl. by exists a.
Qed.

(** A device that is in the table is not looked for. *)
Lemma resolveDevice_known env deviceID dev addr c :
  devices c !! deviceID = Some dev -> udp_address dev = Ret addr ->
  resolveDevice env deviceID c = (Ret (inl addr), c).
Proof. intros Hd Ha. unfold resolveDevice, mbind, gets, mret, call. by rewrite Hd, Ha. Qed.

(** The packets hold, as the first response to request [id], an
    acknowledgement with the value [v]; who sends it, and the service, object
    and property it names, do not matter. *)
Definition answered (id : Z) (v : Value) (packets : list (Z * bytes * UDPAddr)) : Prop :=
  exists before after t function origin reply service from oid pid index payload,
    packets = before ++
      (t, packet_of function origin reply (complex_ack id service (ReadProperty_ack oid pid index payload)), from) :: after /\
    first_response id before = None /\ origin_ok function origin /\ 0 <= pid < 2 ^ 32 /\ index_ok index /\
    encodePropertyValue v = Ret payload.

Lemma answered_decodes id v packets :
  answered id v packets -> wf_packets packets -> value_in_width v -> writable v = true ->
  exists a, first_response id packets = Some a /\ APDU_Type a = PDUTypeComplexAck /\
    decodeReadPropertyResponse (APDU_Data a) = Ret (read_back v, None).
Proof.
  intros (before & after & t & f & origin & reply & service & from & oid & pid & index & payload & -> & Hb & Ho & Hp & Hi & Henc)
    Hwf Hv Hw.
  unfold wf_packets in Hwf. rewrite Forall_app, Forall_cons in Hwf. destruct Hwf as (_ & Hack & _).
  destruct (response_to_complex_ack id t f origin reply service _ from Ho Hack) as (a & Hresp & Ht & Hd).
  exists a. rewrite first_response_app, Hb. unfold first_response. cbn [first_of omap list_omap]. rewrite Hresp.
  split; [done|]. split; [done|]. rewrite Hd, decode_ReadProperty_ack by done.
  destruct (encode_decode_writable v (EncodeClosingTag 3) Hv Hw) as (bs & Hbs & Hdec).
  rewrite Henc in Hbs. injection Hbs as <-. exact Hdec.
Qed.

(** A read once the address of the device is known. *)
Lemma ReadProperty_at env packets deviceID addr oid pid v (options : list ReadOption) c c1 :
  resolveDevice env deviceID c = (Ret (inl addr), c1) -> ready c1 -> active_ok c1 ->
  brings env addr ServiceReadProperty (ReadProperty_request oid pid (apply_options options noReadOptions)) c1 packets ->
  answered (next_id c1) v packets -> value_in_width v -> writable v = true ->
  exists c', ReadProperty env deviceID oid pid options c = (Ret (read_back v, None), c') /\
    finished (next_id c1) packets c1 c'.
Proof.
  intros Hres Hc Ha Hb Hans Hv Hw.
  destruct (answered_decodes _ _ _ Hans (proj1 (proj2 Hb)) Hv Hw) as (a & Hf & Ht & Hdec).
  destruct (sendRequest_spec env packets addr ServiceReadProperty _ c1 Hc Ha Hb) as (r & c' & E & Hr & Hfin).
  rewrite Hf in Hr. cbn [result_of] in Hr. rewrite Ht in Hr. cbn in Hr. subst r.
  exists c'. split; [|exact Hfin]. unfold ReadProperty, mbind. rewrite Hres, E. unfold pure. by rewrite Hdec.
Qed.

(** ReadProperty end to end.  For a known device and a writable value: if,
    after anything else that is not a response to this request, there arrives a
    complex acknowledgement with its invoke id whose value is the encoding of
    [v], then [ReadProperty] returns [v] (as [read_back] describes) without an
    error, and the client is ready for the next call.  Neither the sender of
    that packet nor the service, object and property it names are compared with
    the request. *)
Theorem ReadProperty_end_to_end env packets deviceID dev addr oid pid v options c :
  ready c -> active_ok c -> devices c !! deviceID = Some dev -> udp_address dev = Ret addr ->
  brings env addr ServiceReadProperty (ReadProperty_request oid pid (apply_options options noReadOptions)) c packets ->
  answered (next_id c) v packets -> value_in_width v -> writable v = true ->
  exists c', ReadProperty env deviceID oid pid options c = (Ret (read_back v, None), c') /\ ready c' /\
    pending c' = delete (next_id c) (pending c).
Proof.
  intros Hc Ha Hdev Haddr Hb Hans Hv Hw.
  destruct (ReadProperty_at env packets deviceID addr oid pid v options c c) as (c' & E & Hf); try done.
  { by eapply resolveDevice_known. }
  exists c'. by destruct Hf.
Qed.

Lemma ReadProperty_end_to_end_witness :
  let oid := {| OID_Type := 0; OID_Instance := 1 |} in
  let peer := {| IP := [10; 0; 0; 7]; Port := 47808 |} in
  let ack := packet_of BVLCOriginalUnicastNPDU [] false
    (complex_ack 42 ServiceReadProperty (ReadProperty_ack oid PropertyPresentValue None (EncodeRealTag 0x42C80000))) in
  let noise := [(0, [0x81; 0x0A; 0; 9; 1; 0; 0x20; 41; 15], peer); (1, [], peer)] in
  exists c', ReadProperty (example_env (noise ++ [(2, ack, peer)])) 7 oid PropertyPresentValue [] example_client =
    (Ret (VFloat32 0x42C80000, None), c') /\ ready c' /\ pending c' = delete 42 ∅.
Proof.
  intros oid peer ack noise.
  apply (ReadProperty_end_to_end (example_env (noise ++ [(2, ack, peer)])) (noise ++ [(2, ack, peer)]) 7 example_device peer oid
    PropertyPresentValue (VFloat32 0x42C80000) [] example_client);
    try apply example_ready; try reflexivity; try done.
  - split; [done|split; [|done]]. unfold wf_packets, wf_bytes, is_byte. vm_compute. repeat constructor; discriminate.
  - exists noise, [], 2, BVLCOriginalUnicastNPDU, [], false, ServiceReadProperty, peer, oid, PropertyPresentValue, None,
      (EncodeRealTag 0x42C80000).
    split; [reflexivity|]. split; [reflexivity|]. split; [by left; split; [left|]|].
    split; [unfold PropertyPresentValue; lia|]. split; [done|reflexivity].
Defined.

(** ** Discovery *)

(** The datagram of a Who-Is. *)
Definition who_is (env : Env) (options : list DiscoverOption) (c : Client) : list Datagram :=
  [{| D_deadline := deadline (ctx_deadline env) (clock env) (writeTimeout (transport c));
      D_addr := {| IP := IPv4bcast; Port := DefaultPort |};
      D_data := request_packet BVLCOriginalBroadcastNPDU false
        (EncodeUnconfirmedRequest ServiceWhoIs (WhoIs_request (apply_options options defaultDiscoverOptions))) |}].

(** The socket takes the Who-Is, and these packets arrive during the sleep. *)
Definition hears (env : Env) (options : list DiscoverOption) (c : Client) (arrivals : list (Z * bytes * UDPAddr)) : Prop :=
  (forall p, write_result env {| IP := IPv4bcast; Port := DefaultPort |} p = Ret (len p)) /\ wf_packets arrivals /\
  sleep env (who_is env options c) (DO_Timeout (apply_options options defaultDiscoverOptions)) =
    modify (deliver arrivals).

(** The Who-Is for one device, for two seconds. *)
Definition just (id : Z) : list DiscoverOption := [WithDeviceRange id id; WithDiscoveryTimeout (2 * Second)].

(** What the discovery leaves of the client. *)
Record discovered (arrivals : list (Z * bytes * UDPAddr)) (c c' : Client) : Prop := {
  di_ready : ready c';
  di_devices : devices c' = enter_all (omap announced arrivals) (devices c);
  di_transport : transport c' = transport c;
  di_invokeID : invokeID c' = invokeID c;
  di_pending : pending c' = pending c;
  di_active : ActiveRequests (metrics c') = ActiveRequests (metrics c)
}.

Lemma WhoIs_spec env arrivals options c :
  ready c -> hears env options c arrivals ->
  exists c1, discovered arrivals c c1 /\
    WhoIs env options c = (Ret (inl (range_devices env (enter_all (omap announced arrivals) (devices c)))), c1).
Proof.
  intros [Hst [s Hs] Hid Hp] (Hwr & Hwf & Hsleep).
  set (request := WhoIs_request (apply_options options defaultDiscoverOptions)).
  set (c0 := set_metrics (Inc WhoIsSent_ (Inc RequestsSucceeded_ (Add BytesSent_
    (len (request_packet BVLCOriginalBroadcastNPDU false (EncodeUnconfirmedRequest ServiceWhoIs request)))
    (Inc RequestsSent_ (metrics c))))) c).
  destruct (deliver_devices arrivals c0 Hwf) as [Hdev [Hh Hop]]; [exact Hp|].
  exists (deliver arrivals c0). split.
  - split; try (by destruct Hh). split.
    + by rewrite (same_state _ _ Hh).
    + exists s. by rewrite (same_transport _ _ Hh).
    + by rewrite (same_invokeID _ _ Hh).
    + by apply Hop.
  - unfold WhoIs, sendUnconfirmedRequest, mbind, gets, mret, inc, add, modify, call. fold request.
    replace (negb (state c =? StateConnected)) with false by (by rewrite Hst).
    unfold Broadcast. change (transport (set_metrics _ c)) with (transport c).
    rewrite (Send_ok _ _ _ _ _ _ _ Hs eq_refl (Hwr _)). cbn [try].
    match goal with |- context [sleep env ?o ?d ?x] =>
      change (sleep env o d x) with (sleep env (who_is env options c) d c0) end.
    rewrite Hsleep. unfold modify. by rewrite Hdev.
Qed.

Lemma resolveDevice_unknown env arrivals id c :
  ready c -> devices c !! id = None -> hears env (just id) c arrivals ->
  exists c1, discovered arrivals c c1 /\
    resolveDevice env id c =
      (match enter_all (omap announced arrivals) (devices c) !! id with
       | Some dev => try (udp_address dev)
       | None => Ret (inr ErrDeviceNotFound)
       end, c1).
Proof.
  intros Hc Hnone Hh. destruct (WhoIs_spec env arrivals (just id) c Hc Hh) as (c1 & Hd & E).
  exists c1. split; [done|]. unfold resolveDevice, mbind at 1, gets at 1. rewrite Hnone.
  unfold mbind, gets, mret, call. fold (just id). rewrite E, (di_devices _ _ _ Hd).
  by destruct (enter_all (omap announced arrivals) (devices c) !! id).
Qed.

(** What a Who-Is leaves of the accounts. *)
Lemma discovered_active arrivals c c' : discovered arrivals c c' -> active_ok c -> active_ok c'.
Proof. intros [] H. unfold active_ok. by rewrite di_active0. Qed.

(** The table after announcements of a device: the last one counts. *)
Lemma enter_all_app ds ds' t : enter_all (ds ++ ds') t = enter_all ds' (enter_all ds t).
Proof. unfold enter_all. apply fold_left_app. Qed.

Lemma enter_all_other ds t id :
  Forall (fun d => OID_Instance (ObjectID d) <> id) ds -> enter_all ds t !! id = t !! id.
Proof.
  intros H. revert t. induction H as [|d ds Hd _ IH]; intros t; [done|].
  unfold enter_all in *. cbn [fold_left]. rewrite IH. by apply lookup_insert_ne.
Qed.

Lemma enter_all_last ds d ds' t :
  Forall (fun d' => OID_Instance (ObjectID d') <> OID_Instance (ObjectID d)) ds' ->
  enter_all (ds ++ d :: ds') t !! OID_Instance (ObjectID d) = Some d.
Proof.
  intros H. rewrite enter_all_app. change (enter_all (d :: ds') ?x) with (enter_all ds' (<[OID_Instance (ObjectID d) := d]> x)).
  rewrite enter_all_other by done. apply lookup_insert_eq.
Qed.

(** C5. Discovery end to end.  A read of a device that is not in the table
    broadcasts one Who-Is whose range is just that device, on the default port,
    and listens for two seconds.  If no packet announces the device, the read
    fails with [ErrDeviceNotFound] and no request is sent: no invoke id is taken
    and nothing becomes pending.  If packets do, the read goes to the address of
    the last announcement, and when that answers, it returns the value. *)
Theorem ReadProperty_discovers env arrivals deviceID oid pid options c :
  ready c -> active_ok c -> devices c !! deviceID = None -> hears env (just deviceID) c arrivals ->
  exists c1, discovered arrivals c c1 /\
    match enter_all (omap announced arrivals) (devices c) !! deviceID with
    | None => ReadProperty env deviceID oid pid options c = (Ret (VNil, Some ErrDeviceNotFound), c1)
    | Some dev =>
        forall addr packets v, udp_address dev = Ret addr ->
        brings env addr ServiceReadProperty (ReadProperty_request oid pid (apply_options options noReadOptions)) c1 packets ->
        answered (next_id c) v packets -> value_in_width v -> writable v = true ->
        exists c', ReadProperty env deviceID oid pid options c = (Ret (read_back v, None), c') /\ ready c'
    end.
Proof.
  intros Hc Ha Hnone Hh. destruct (resolveDevice_unknown env arrivals deviceID c Hc Hnone Hh) as (c1 & Hd & Hr).
  exists c1. split; [done|]. destruct (enter_all _ _ !! deviceID) as [dev|].
  - intros addr packets v Haddr Hb Hans Hv Hw. rewrite Haddr in Hr.
    destruct (ReadProperty_at env packets deviceID addr oid pid v options c c1) as (c' & E & Hf); try done.
    + by destruct Hd.
    + by eapply discovered_active.
    + unfold next_id. by rewrite (di_invokeID _ _ _ Hd).
    + exists c'. split; [done|]. apply Hf.
  - unfold ReadProperty, mbind. by rewrite Hr.
Qed.

(** The packet of an I-Am announces its device. *)
Lemma announced_iam t function origin oid m s v from ip4 :
  origin_ok function origin -> oid_ok oid -> OID_Type oid = ObjectTypeDevice ->
  0 <= m < 2 ^ 16 -> 0 <= s < 2 ^ 8 -> 0 <= v < 2 ^ 16 -> To4 (IP from) = Some ip4 ->
  announced (t, packet_of function origin false (EncodeUnconfirmedRequest ServiceIAm (iam_wire oid m s v)), from) =
    Some (device_info oid {| Net := 0; Addr := ip4 |} m s v).
Proof.
  intros Ho Hoid Ht Hm Hs Hv H4. unfold announced. cbn [fst snd].
  assert (wf_bytes (EncodeUnconfirmedRequest ServiceIAm (iam_wire oid m s v))) as Hwf.
  { unfold EncodeUnconfirmedRequest. rewrite !wf_app. split_and!; [| |apply wf_iam_wire];
      repeat constructor; apply u8_byte. }
  rewrite parse_packet_of, DecodeAPDU_unconfirmed by (done || by vm_compute). cbn [obind plain_apdu APDU_Type Service APDU_Data].
  rewrite !Z.eqb_refl. cbn [andb].
  pose proof (parse_iam_wire oid m s v [] Hoid Ht) as Hp. rewrite app_nil_r in Hp. rewrite Hp by lia.
  rewrite !uint_small by lia. cbn [Control direct_npdu].
  replace (flag _ NPDUControlSourceSpecifier) with false by reflexivity. by rewrite H4.
Qed.

(** Device 1234 answers the Who-Is, and then the request. *)
Lemma ReadProperty_discovers_witness :
  let oid := {| OID_Type := 0; OID_Instance := 1 |} in
  let device := {| OID_Type := ObjectTypeDevice; OID_Instance := 1234 |} in
  let peer := {| IP := [10; 0; 0; 9]; Port := 47808 |} in
  let iam := (0, packet_of BVLCOriginalUnicastNPDU [] false
                   (EncodeUnconfirmedRequest ServiceIAm (iam_wire device 1476 3 260)), peer) in
  let ack := (2, packet_of BVLCOriginalUnicastNPDU [] false
                   (complex_ack 42 ServiceReadProperty (ReadProperty_ack oid PropertyPresentValue None (EncodeRealTag 0x42C80000))), peer) in
  let env := {| ctx_deadline := None; clock := 0; write_result := fun _ p => Ret (len p);
                wait := fun _ => await [ack]; elapsed := 1; sleep := fun _ _ => modify (deliver [iam]);
                range_devices := fun m => (map_to_list m).*2 |} in
  exists c', ReadProperty env 1234 oid PropertyPresentValue [] example_client = (Ret (VFloat32 0x42C80000, None), c') /\ ready c'.
Proof.
  intros oid device peer iam ack env.
  destruct (ReadProperty_discovers env [iam] 1234 oid PropertyPresentValue [] example_client) as (c1 & Hd & H);
    [apply example_ready|apply example_ready|reflexivity| |].
  - split; [done|split; [|reflexivity]]. unfold wf_packets, wf_bytes, is_byte. vm_compute. repeat constructor; discriminate.
  - assert (omap announced [iam] = [device_info device {| Net := 0; Addr := [10; 0; 0; 9] |} 1476 3 260]) as E by reflexivity.
    rewrite E in H.
    apply (H peer [ack] (VFloat32 0x42C80000)).
    + reflexivity.
    + split; [done|split; [|done]]. unfold wf_packets, wf_bytes, is_byte. vm_compute. repeat constructor; discriminate.
    + exists [], [], 2, BVLCOriginalUnicastNPDU, [], false, ServiceReadProperty, peer, oid, PropertyPresentValue, None,
        (EncodeRealTag 0x42C80000).
      split; [reflexivity|]. split; [reflexivity|]. split; [by left; split; [left|]|].
      split; [unfold PropertyPresentValue; lia|]. split; [done|reflexivity].
    + cbn. lia.
    + reflexivity.
Defined.

(** ** Writing *)

(** The first response to request [id] is an acknowledgement. *)
Definition acked (id : Z) (packets : list (Z * bytes * UDPAddr)) : bool :=
  match first_response id packets with
  | Some a => (APDU_Type a =? PDUTypeSimpleAck) || (APDU_Type a =? PDUTypeComplexAck)
  | None => false
  end.

Lemma acked_result id packets r :
  result_of id (first_response id packets) r ->
  if acked id packets then exists a, r = inl a else exists e, r = inr e.
Proof.
  unfold acked. destruct (first_response id packets) as [a|]; cbn [result_of]; [|intros ->; by eexists].
  destruct (_ || _); [intros ->; by eexists|].
  destruct (APDU_Type a =? PDUTypeError); [intros (e & _ & ->); by eexists|].
  destruct (APDU_Type a =? PDUTypeReject); intros ->; by eexists.
Qed.

Lemma WriteProperty_at env packets deviceID dev addr oid pid v options data c :
  ready c -> active_ok c -> devices c !! deviceID = Some dev -> udp_address dev = Ret addr ->
  WriteProperty_request oid pid v (apply_options options noWriteOptions) = Ret data ->
  brings env addr ServiceWriteProperty data c packets ->
  exists r c', WriteProperty env deviceID oid pid v options c = (Ret r, c') /\
    (r = None <-> acked (next_id c) packets = true) /\ finished (next_id c) packets c c'.
Proof.
  intros Hc Ha Hdev Haddr Hreq Hb.
  destruct (sendRequest_spec env packets addr ServiceWriteProperty data c Hc Ha Hb) as (r & c' & E & Hr & Hf).
  eexists _, c'. split; [|split; [|exact Hf]].
  - unfold WriteProperty, mbind. rewrite (resolveDevice_known _ _ _ _ _ Hdev Haddr). unfold call. rewrite Hreq.
    cbn [try]. rewrite E. reflexivity.
  - apply acked_result in Hr. destruct (acked (next_id c) packets); destruct Hr as [x ->]; by split.
Qed.

(** A request to write carries the octets of the value. *)
Lemma WriteProperty_request_value oid pid v payload options :
  encodePropertyValue v = Ret payload ->
  WriteProperty_request oid pid v options =
    Ret (ReadProperty_ack oid pid (WO_ArrayIndex options) payload ++
         optional_unsigned 4 (option_map u32 (WO_Priority options))).
Proof.
  intros He. unfold WriteProperty_request. rewrite He. cbn [try obind].
  unfold ReadProperty_ack, ReadProperty_request. cbn [RO_ArrayIndex]. by rewrite <- !app_assoc.
Qed.

(** C7. Writing, then reading.  For a device in the table that the packets that
    arrive meanwhile do not announce anew: [WriteProperty] sends the octets of the value
    between the tags [3], as an acknowledgement to a read would; it returns nil
    exactly when the first response to it is an acknowledgement, and a
    [ReadProperty] that then gets these octets back returns the written value
    (as [read_back] describes).  A value of a type that cannot be encoded is an
    error.  If the device is in the table, it is refused before anything is sent:
    the client is unchanged.  If not, it is refused only after the device
    has been looked for: the Who-Is has been broadcast, and devices that
    answered it have been entered. *)
Theorem write_then_read env packets deviceID dev addr oid pid v options c :
  ready c -> active_ok c -> devices c !! deviceID = Some dev -> udp_address dev = Ret addr ->
  Forall (fun d => OID_Instance (ObjectID d) <> deviceID) (omap announced packets) -> value_in_width v ->
  if writable v
  then exists payload,
    encodePropertyValue v = Ret payload /\
    let data := ReadProperty_ack oid pid (WO_ArrayIndex (apply_options options noWriteOptions)) payload ++
      optional_unsigned 4 (option_map u32 (WO_Priority (apply_options options noWriteOptions))) in
    (brings env addr ServiceWriteProperty data c packets ->
     exists r c1, WriteProperty env deviceID oid pid v options c = (Ret r, c1) /\
       (r = None <-> acked (next_id c) packets = true) /\
       forall env' packets' roptions,
         brings env' addr ServiceReadProperty (ReadProperty_request oid pid (apply_options roptions noReadOptions)) c1 packets' ->
         answered (next_id c1) v packets' ->
         exists c2, ReadProperty env' deviceID oid pid roptions c1 = (Ret (read_back v, None), c2) /\ ready c2)
  else (exists e, WriteProperty env deviceID oid pid v options c = (Ret (Some e), c)) /\
    forall env' arrivals c',
      ready c' -> devices c' !! deviceID = None -> hears env' (just deviceID) c' arrivals ->
      exists e c1, WriteProperty env' deviceID oid pid v options c' = (Ret (Some e), c1) /\ discovered arrivals c' c1.
Proof.
  intros Hc Ha Hdev Haddr Hq Hv. destruct (writable v) eqn:Hw.
  - destruct (encode_decode_writable v [] Hv Hw) as (payload & He & _). exists payload. split; [done|].
    intros data Hb.
    destruct (WriteProperty_at env packets deviceID dev addr oid pid v options data c) as (r & c1 & E & Hr & []); try done.
    { by apply WriteProperty_request_value. }
    exists r, c1. split; [done|]. split; [done|]. intros env' packets' roptions Hb' Hans.
    destruct (ReadProperty_at env' packets' deviceID addr oid pid v roptions c1 c1) as (c2 & E2 & []); try done.
    + apply (resolveDevice_known _ _ dev); [|done]. by rewrite fin_devices, enter_all_other.
    + unfold active_ok. by rewrite fin_active.
    + by exists c2.
  - assert (exists e, WriteProperty_request oid pid v (apply_options options noWriteOptions) = Err e) as [e He].
    { unfold WriteProperty_request. destruct v; try done; by eexists. }
    split.
    + unfold WriteProperty, mbind. rewrite (resolveDevice_known _ _ _ _ _ Hdev Haddr). unfold call. rewrite He. by exists e.
    + intros env' arrivals c' Hc' Hnone Hh.
      destruct (resolveDevice_unknown env' arrivals deviceID c' Hc' Hnone Hh) as (c1 & Hd & Hr).
      unfold WriteProperty, mbind. rewrite Hr. unfold call. rewrite He.
      destruct (enter_all _ _ !! deviceID) as [dev'|]; [|by do 2 eexists].
      pose proof (udp_address_safe dev') as Hs. destruct (udp_address dev'); try done; by do 2 eexists.
Qed.

Lemma write_then_read_witness :
  let oid := {| OID_Type := 1; OID_Instance := 4 |} in
  let peer := {| IP := [10; 0; 0; 7]; Port := 47808 |} in
  let written := [(0, packet_of BVLCOriginalUnicastNPDU [] false [u8 PDUTypeSimpleAck; 42; 15], peer)] in
  let ack := complex_ack 43 ServiceReadProperty (ReadProperty_ack oid PropertyPresentValue None (EncodeRealTag 0x42C80000)) in
  let read := [(1, packet_of BVLCOriginalUnicastNPDU [] false ack, peer)] in
  let nobody := set_devices ∅ example_client in
  let env := {| ctx_deadline := None; clock := 0; write_result := fun _ p => Ret (len p);
                wait := fun _ => await []; elapsed := 1; sleep := fun _ _ => modify (deliver []);
                range_devices := fun m => (map_to_list m).*2 |} in
  (exists e, WriteProperty (example_env []) 7 oid PropertyPresentValue (VBytes [1]) [] example_client = (Ret (Some e), example_client)) /\
  (exists e c1, WriteProperty env 7 oid PropertyPresentValue (VBytes [1]) [] nobody = (Ret (Some e), c1) /\ ready c1) /\
  exists c1 c2,
    WriteProperty (example_env written) 7 oid PropertyPresentValue (VFloat32 0x42C80000) [] example_client = (Ret None, c1) /\
    ReadProperty (example_env read) 7 oid PropertyPresentValue [] c1 = (Ret (VFloat32 0x42C80000, None), c2) /\ ready c2.
Proof.
  intros oid peer written ack read nobody env.
  destruct (write_then_read (example_env []) [] 7 example_device peer oid PropertyPresentValue (VBytes [1]) [] example_client)
    as [Hknown Hunknown]; try apply example_ready; try reflexivity; [exact (List.Forall_nil _)|].
  split; [exact Hknown|]. clear Hknown. split.
  { destruct (Hunknown env [] nobody) as (e & c1 & E & Hd); [|reflexivity| |exists e, c1; split; [exact E|apply Hd]].
    - destruct example_ready as [[] _]. by split.
    - split; [done|split; [exact (List.Forall_nil _)|reflexivity]]. }
  clear Hunknown.
  destruct (write_then_read (example_env written) written 7 example_device peer oid PropertyPresentValue
    (VFloat32 0x42C80000) [] example_client) as (payload & He & H);
    try apply example_ready; try reflexivity; [exact (List.Forall_nil _)|].
  destruct H as (r & c1 & E & Hr & H).
  { injection He as <-. split; [done|split; [|done]]. unfold wf_packets, wf_bytes, is_byte. vm_compute. repeat constructor; discriminate. }
  assert (r = None) as -> by (apply Hr; reflexivity).
  destruct (H (example_env read) read []) as (c2 & E2 & Hc2).
  - split; [done|split; [|done]]. unfold wf_packets, wf_bytes, is_byte. vm_compute. repeat constructor; discriminate.
  - assert (next_id c1 = 43) as ->.
    { change c1 with (snd (Ret (E:=error) (@None error), c1)). rewrite <- E. vm_compute. reflexivity. }
    exists [], [], 1, BVLCOriginalUnicastNPDU, [], false, ServiceReadProperty, peer, oid, PropertyPresentValue, None,
      (EncodeRealTag 0x42C80000).
    split; [reflexivity|]. split; [reflexivity|]. split; [by left; split; [left|]|].
    split; [unfold PropertyPresentValue; lia|]. split; [done|reflexivity].
  - exists c1, c2. split; [exact E|]. split; [exact E2|exact Hc2].
Defined.

(** ** Subscriptions *)

(** C17. Subscriptions to a known device follow their acknowledgements.
    [SubscribeCOV] takes one invoke id as the id of the subscription and the next
    one for the request; if the first response is an acknowledgement, it returns that id and enters
    the handler under it, replacing whatever handler an older subscription with
    the same id had; otherwise it returns an error and no handler is entered.
    [UnsubscribeCOV] removes the handler on an acknowledgement and only then. *)
Theorem subscriptions_follow_acks env packets deviceID dev addr oid c :
  ready c -> active_ok c -> devices c !! deviceID = Some dev -> udp_address dev = Ret addr ->
  (forall handler options,
     let c0 := set_invokeID (u32 (invokeID c + 1)) c in
     brings env addr ServiceSubscribeCOV
       (SubscribeCOV_request (next_id c) oid (apply_options options noSubscribeOptions)) c0 packets ->
     exists c', ready c' /\
       if acked (next_id c0) packets
       then SubscribeCOV env deviceID oid handler options c = (Ret (next_id c, None), c') /\
         covSubs c' = <[next_id c := handler]> (covSubs c)
       else exists e, SubscribeCOV env deviceID oid handler options c = (Ret (0, Some e), c') /\
         covSubs c' = covSubs c) /\
  (forall subID,
     brings env addr ServiceSubscribeCOV (UnsubscribeCOV_request subID oid) c packets ->
     exists r c', UnsubscribeCOV env deviceID oid subID c = (Ret r, c') /\ ready c' /\
       (r = None <-> acked (next_id c) packets = true) /\
       covSubs c' = if acked (next_id c) packets then delete subID (covSubs c) else covSubs c).
Proof.
  intros Hc Ha Hdev Haddr. pose proof Hc as [Hst Hs Hid Hp]. split.
  - intros handler options c0 Hb.
    assert (ready c0) as Hc0 by (split; try done; apply (uint_range 32); lia).
    destruct (sendRequest_spec env packets addr _ _ c0 Hc0 Ha Hb) as (r & c1 & E & Hr & [Hc1 _ _ _ _ _ Hcov]).
    apply acked_result in Hr. unfold SubscribeCOV, mbind. rewrite (resolveDevice_known _ _ _ _ _ Hdev Haddr).
    rewrite nextInvokeID_eq by done. fold c0. rewrite E.
    destruct (acked (next_id c0) packets); destruct Hr as [x ->].
    + eexists. unfold modify, inc, mret. split; [|split; [reflexivity|]]; [by destruct Hc1|].
      change (covSubs c0) with (covSubs c) in Hcov. cbn. by rewrite Hcov.
    + exists c1. split; [done|]. exists x. by split.
  - intros subID Hb.
    destruct (sendRequest_spec env packets addr _ _ c Hc Ha Hb) as (r & c1 & E & Hr & [Hc1 _ _ _ _ _ Hcov]).
    apply acked_result in Hr. unfold UnsubscribeCOV, mbind. rewrite (resolveDevice_known _ _ _ _ _ Hdev Haddr), E.
    destruct (acked (next_id c) packets); destruct Hr as [x ->].
    + do 2 eexists. unfold modify, mret. split; [reflexivity|]. split; [by destruct Hc1|]. split; [done|]. cbn. by rewrite Hcov.
    + do 2 eexists. unfold mret. split; [reflexivity|]. split; [done|]. by split.
Qed.

(** A subscription is acknowledged, then its cancellation. *)
Lemma subscriptions_follow_acks_witness :
  let oid := {| OID_Type := 0; OID_Instance := 1 |} in
  let peer := {| IP := [10; 0; 0; 7]; Port := 47808 |} in
  let ack id := [(0, packet_of BVLCOriginalUnicastNPDU [] false [u8 PDUTypeSimpleAck; id; 5], peer)] in
  (exists c', ready c' /\ SubscribeCOV (example_env (ack 43)) 7 oid 1 [] example_client = (Ret (42, None), c') /\
     covSubs c' = {[ 42 := 1 ]}) /\
  (exists c', UnsubscribeCOV (example_env (ack 42)) 7 oid 9 example_client = (Ret None, c') /\ covSubs c' = ∅).
Proof.
  intros oid peer ack.
  assert (forall id, is_byte id -> wf_packets (ack id)) as Hwf.
  { intros id Hid. unfold wf_packets, wf_bytes, ack. apply Forall_cons; split; [|by apply Forall_nil]. cbn [fst snd].
    vm_compute. repeat first [apply Forall_nil; exact I | apply Forall_cons; split; [first [exact Hid | split; [discriminate|reflexivity]]|]]. }
  split.
  - destruct (subscriptions_follow_acks (example_env (ack 43)) (ack 43) 7 example_device peer oid example_client) as [H _];
      try apply example_ready; try reflexivity.
    destruct (H 1 []) as (c' & Hc' & E & Hcov); [split; [done|split; [apply Hwf; by split|done]]|].
    exists c'. split; [exact Hc'|]. split; [exact E|exact Hcov].
  - destruct (subscriptions_follow_acks (example_env (ack 42)) (ack 42) 7 example_device peer oid example_client) as [_ H];
      try apply example_ready; try reflexivity.
    destruct (H 9) as (r & c' & E & _ & Hr & Hcov); [split; [done|split; [apply Hwf; by split|done]]|].
    exists c'. assert (r = None) as -> by (apply Hr; reflexivity). split; [exact E|exact Hcov].
Defined.

(** ** Reading many properties *)

Section Many.
(** What the device says of each requested property: octets of a value, or an
    access error. *)
Context (device : ReadPropertyRequest -> (bytes * Value) + (Z * Z)).

Definition answer_item (r : ReadPropertyRequest) : result_item :=
  {| ri_property := RP_PropertyID r; ri_index := RP_ArrayIndex r; ri_outcome := device r |}.

(** The acknowledgement to a request for these groups. *)
Definition answer_all (order : list (ObjectIdentifier * list ReadPropertyRequest)) : bytes :=
  ReadPropertyMultiple_ack (map (fun group => (group.1, map answer_item group.2)) order).

(** The result for one request: its value, or nothing. *)
Definition answer_of (r : ReadPropertyRequest) : list PropertyValue :=
  item_results (RP_ObjectID r) (answer_item r).

Lemma answers_of_groups order :
  (forall group r, group ∈ order -> r ∈ group.2 -> RP_ObjectID r = group.1) ->
  ack_results (map (fun group => (group.1, map answer_item group.2)) order) =
  concat (map answer_of (concat order.*2)).
Proof.
  unfold ack_results. induction order as [|[oid reqs] order IH]; intros Hg; [done|].
  cbn [map concat fst snd fmap list_fmap]. rewrite map_app, concat_app. f_equal.
  - rewrite !map_map. f_equal. apply map_ext_in. intros r Hr%list_elem_of_In. unfold answer_of.
    by rewrite (Hg (oid, reqs) r) by (done || set_solver).
  - apply IH. intros group r Hgr. apply Hg. set_solver.
Qed.

(** The groups of a request hold its requests, each under its own object. *)
Lemma range_order_groups requests order oid reqs :
  range_order requests order -> (oid, reqs) ∈ order ->
  reqs <> [] /\ forall r, r ∈ reqs -> RP_ObjectID r = oid /\ r ∈ requests.
Proof.
  unfold range_order. intros -> Hin. rewrite elem_of_map_to_list, group_requests_lookup in Hin.
  assert (filter (fun r => RP_ObjectID r = oid) requests = reqs /\ reqs <> []) as [<- Hne].
  { destruct (filter _ requests); [done|]. by injection Hin as <-. }
  split; [done|]. intros r Hr. by apply list_elem_of_filter in Hr.
Qed.

(** Whether the value it says ends in a boolean TRUE, past which the decoder
    walks. *)
Context (past : ReadPropertyRequest -> bool).

Definition marked_answer (r : ReadPropertyRequest) : result_item * bool := (answer_item r, past r).

Definition marked_groups (order : list (ObjectIdentifier * list ReadPropertyRequest)) : Marked :=
  map (fun group => (group.1, map marked_answer group.2)) order.

Lemma unmarked_groups order :
  unmarked (marked_groups order) = map (fun group => (group.1, map answer_item group.2)) order.
Proof. unfold unmarked, marked_groups. rewrite map_map. apply map_ext. intros [oid reqs]. cbn. by rewrite map_map. Qed.

Lemma marked_groups_ok requests order :
  range_order requests order ->
  (forall r, r ∈ requests -> oid_ok (RP_ObjectID r) /\ marked_ok (marked_answer r)) ->
  Forall object_ok (marked_groups order).
Proof.
  intros Ho Hok. unfold marked_groups. rewrite Forall_map, Forall_forall. intros [oid reqs] Hgr.
  destruct (range_order_groups _ _ _ _ Ho Hgr) as [Hne Hg]. split; cbn [fst snd].
  - destruct reqs as [|r reqs]; [done|]. destruct (Hg r ltac:(by left)) as [<- Hr]. by apply Hok.
  - rewrite Forall_map, Forall_forall. intros r Hr. by apply Hok, (Hg r Hr).
Qed.

(** C9. Reading many properties of a known device end to end, whatever order Go
    ranges over the groups of the requests in.  The first response is a
    complex acknowledgement with what the device has to say of each requested
    property, group by group: an access error, or a value that the walk to its
    closing tag passes tag by tag ([walked]), that is application-tagged values
    of which only the last may be a boolean TRUE, or constructed data without a
    TRUE and without a closing tag [4] inside.  Then the result is exactly
    [observed].  If no value ends in a boolean TRUE, that is, up to order,
    exactly the values of the requested properties, one for
    each request that has a value, none lost, none repeated, each under its own
    object, property and index; properties with an access error are left out.
    With a TRUE, values are lost or reported under another object, as [observed]
    says. *)
Theorem ReadPropertyMultiple_end_to_end env packets deviceID dev addr requests iterate a c :
  ready c -> active_ok c -> devices c !! deviceID = Some dev -> udp_address dev = Ret addr ->
  let order := iterate (group_requests requests) in
  range_order requests order ->
  (forall r, r ∈ requests -> oid_ok (RP_ObjectID r) /\ marked_ok (marked_answer r)) ->
  brings env addr ServiceReadPropertyMultiple (ReadPropertyMultiple_request order) c packets ->
  first_response (next_id c) packets = Some a -> APDU_Type a = PDUTypeComplexAck -> APDU_Data a = answer_all order ->
  exists results c', ReadPropertyMultiple env iterate deviceID requests c = (Ret (inl results), c') /\ ready c' /\
    results = observed None (marked_groups order) /\
    ((forall r, r ∈ requests -> past r = false) -> results ≡ₚ concat (map answer_of requests)).
Proof.
  intros Hc Ha Hdev Haddr order Ho Hok Hb Hf Ht Hd.
  destruct (sendRequest_spec env packets addr _ _ c Hc Ha Hb) as (r & c' & E & Hr & Hfin).
  rewrite Hf in Hr. cbn [result_of] in Hr. rewrite Ht in Hr. cbn in Hr. subst r.
  exists (observed None (marked_groups order)), c'. split; [|split; [apply Hfin|split; [done|]]].
  - unfold ReadPropertyMultiple, mbind. rewrite (resolveDevice_known _ _ _ _ _ Hdev Haddr). fold order. rewrite E.
    unfold pure. rewrite Hd. unfold answer_all. rewrite <- unmarked_groups.
    by rewrite decode_observed by (by eapply marked_groups_ok).
  - intros Hpast. rewrite observed_unmarked, unmarked_groups, answers_of_groups.
    + unfold range_order in Ho. assert (concat order.*2 ≡ₚ requests) as -> by (rewrite Ho; apply group_requests_concat). done.
    + intros [oid reqs] r Hgr. by apply (range_order_groups _ _ _ _ Ho Hgr).
    + unfold marked_groups. rewrite Forall_map, Forall_forall. intros [oid reqs] Hgr. cbn [fst snd].
      rewrite Forall_map, Forall_forall. intros r Hr. by apply Hpast, (range_order_groups _ _ _ _ Ho Hgr).
Qed.
End Many.

(** A device that knows the present value of everything and nothing else. *)
Definition present_values (r : ReadPropertyRequest) : (bytes * Value) + (Z * Z) :=
  if RP_PropertyID r =? PropertyPresentValue
  then inl (EncodeRealTag 0x42C80000 ++ [], VFloat32 0x42C80000)
  else inr (2, 32).

Lemma present_values_ok r : 0 <= RP_PropertyID r < 2 ^ 32 -> index_ok (RP_ArrayIndex r) -> marked_ok (marked_answer present_values (fun _ => false) r).
Proof.
  intros Hp Hi. split; [done|]. split; [done|]. unfold marked_answer, answer_item, present_values. cbn [fst snd ri_outcome].
  destruct (RP_PropertyID r =? PropertyPresentValue); [|cbn; lia]. assert (codec_ok TagReal 0x42C80000) as Hok by (cbn; lia).
  destruct (carries_tagged TagReal 0x42C80000 [] Hok (skip_nil 4)) as [Hs Hd]. split; [by constructor|exact Hd].
Qed.

Lemma ReadPropertyMultiple_end_to_end_witness :
  let oid n := {| OID_Type := 0; OID_Instance := n |} in
  let r n p := {| RP_ObjectID := oid n; RP_PropertyID := p; RP_ArrayIndex := None |} in
  let requests := [r 1 85; r 2 85; r 1 77] in
  let value n := {| PV_ObjectID := oid n; PV_PropertyID := 85; PV_ArrayIndex := None;
                    PV_Value := VFloat32 0x42C80000; PV_Priority := None |} in
  let ack := complex_ack 42 ServiceReadPropertyMultiple (answer_all present_values (map_to_list (group_requests requests))) in
  let packets := [(0, packet_of BVLCOriginalUnicastNPDU [] false ack, {| IP := [10; 0; 0; 7]; Port := 47808 |})] in
  exists results c', ReadPropertyMultiple (example_env packets) map_to_list 7 requests example_client = (Ret (inl results), c') /\
    results ≡ₚ [value 1; value 2] /\ ready c'.
Proof.
  intros oid r requests value ack packets.
  destruct (ReadPropertyMultiple_end_to_end present_values (fun _ => false) (example_env packets) packets 7 example_device
    {| IP := [10; 0; 0; 7]; Port := 47808 |} requests map_to_list
    {| APDU_Type := PDUTypeComplexAck; Segmented := false; MoreFollows := false; MaxSegments := 0; MaxAPDU := 0;
       InvokeID := 42; SequenceNum := 0; WindowSize := 0; Service := ServiceReadPropertyMultiple;
       APDU_Data := answer_all present_values (map_to_list (group_requests requests)) |}
    example_client) as (results & c' & E & Hc' & _ & Hall);
    try apply example_ready; try reflexivity; try (unfold range_order; reflexivity).
  - unfold requests. intros r0. rewrite !elem_of_cons. intros [->|[->|[->|[]%not_elem_of_nil]]];
      (split; [split; cbn; lia|apply present_values_ok; cbn; [lia|done]]).
  - split; [done|split; [|done]]. unfold wf_packets, wf_bytes, is_byte. vm_compute. repeat constructor; discriminate.
  - exists results, c'. split; [exact E|]. split; [|exact Hc']. by apply Hall.
Defined.

(** ** The object list *)

Section ObjectList.
Context (env : Env) (deviceID : Z) (I : Client -> Prop).

(** Every read of the device returns, with a value or an error, and keeps
    the invariant [I] of the client. *)
Hypothesis reads_return : forall options c, I c ->
  exists val err c', ReadProperty env deviceID (NewObjectIdentifier ObjectTypeDevice deviceID)
    PropertyObjectList options c = (Ret (val, err), c') /\ I c'.

Lemma object_loop_spec fuel i n objects c :
  I c -> 0 <= i -> 0 <= n < 2 ^ 32 - 1 -> n + 1 - i < Z.of_nat fuel -> i <= n + 1 ->
  exists objects' c', object_loop env fuel deviceID i n objects c = (Ret objects', c') /\
    len objects <= len objects' <= len objects + (n + 1 - i) /\ I c'.
Proof using reads_return.
  revert i objects c. induction fuel as [|fuel IH]; intros i objects c Hc Hi Hn Hf Hle; [lia|].
  cbn [object_loop]. destruct (Z.leb_spec i n); [|exists objects, c; split_and!; done || lia].
  unfold mbind. destruct (reads_return [WithArrayIndex i] c Hc) as (val & err & c1 & E & Hc1).
  rewrite E. rewrite (uint_small 32) by lia.
  match goal with |- context [object_loop env fuel deviceID (i + 1) n ?objs c1] =>
    destruct (IH (i + 1) objs c1) as (os & c' & E' & Hl & Hc'); [done|lia|lia|lia|lia|];
    assert (len objects <= len objs <= len objects + 1) as Hlen
      by (destruct err, val; len_lia) end.
  exists os, c'. split_and!; try done; lia.
Qed.

Lemma object_loop_stuck fuel i objects c :
  I c -> 0 <= i < 2 ^ 32 -> (object_loop env fuel deviceID i (2 ^ 32 - 1) objects c).1 = NoFuel.
Proof using reads_return.
  revert i objects c. induction fuel as [|fuel IH]; intros i objects c Hc Hi; [done|].
  cbn [object_loop]. replace (i <=? 2 ^ 32 - 1) with true by lia.
  unfold mbind. destruct (reads_return [WithArrayIndex i] c Hc) as (val & err & c1 & E & Hc1).
  rewrite E. apply IH; [done|]. apply (uint_range 32). lia.
Qed.
End ObjectList.

(** C27. Reading the object list ends, unless the device claims 2^32 - 1
    objects: as long as the single reads return, the loop over [n] elements
    makes at most [n] reads, skips the failed ones, and returns at most [n]
    objects; for the length 0xFFFFFFFF the 32-bit index wraps around below it
    and the loop never ends. *)
Theorem GetObjectList_terminates env deviceID (I : Client -> Prop) n fuel c :
  (forall options c, I c ->
    exists val err c', ReadProperty env deviceID (NewObjectIdentifier ObjectTypeDevice deviceID)
      PropertyObjectList options c = (Ret (val, err), c') /\ I c') ->
  I c ->
  (0 <= n < 2 ^ 32 - 1 -> n < Z.of_nat fuel ->
   exists objects c', object_loop env fuel deviceID 1 n [] c = (Ret objects, c') /\ len objects <= n /\ I c') /\
  (object_loop env fuel deviceID 1 (2 ^ 32 - 1) [] c).1 = NoFuel.
Proof.
  intros Hr Hc. split; [|by apply (object_loop_stuck env deviceID I Hr)].
  intros Hn Hf. destruct (object_loop_spec env deviceID I Hr fuel 1 n [] c) as (os & c' & E & Hl & Hc');
    [done|lia..|]. exists os, c'. change (len (@nil ObjectIdentifier)) with 0 in Hl. split_and!; [done|lia|done].
Qed.

(** A network that swallows every request. *)
Definition silent_env : Env := {|
  ctx_deadline := None; clock := 0; write_result := fun _ p => Ret (len p);
  wait := fun _ _ => mret CtxDone; elapsed := 1; sleep := fun _ _ => mret tt;
  range_devices := fun m => (map_to_list m).*2 |}.

Lemma silent_reads_return options c :
  ready c /\ devices c !! 7 = Some example_device ->
  exists val err c', ReadProperty silent_env 7 (NewObjectIdentifier ObjectTypeDevice 7)
    PropertyObjectList options c = (Ret (val, err), c') /\ (ready c' /\ devices c' !! 7 = Some example_device).
Proof.
  intros [Hc Hdev]. set (addr := {| IP := [10; 0; 0; 7]; Port := DefaultPort |}).
  set (data := ReadProperty_request (NewObjectIdentifier ObjectTypeDevice 7) PropertyObjectList
    (apply_options options noReadOptions)).
  destruct (sendRequest_begin_waits None 0 addr ServiceReadProperty data (fun _ p => Ret (len p)) c Hc)
    as (ch & c1 & Hb & Hw & Hfresh & Hp & Hst & Ht & Hd & Hcov & Hid & Hact); [done|].
  destruct (sendRequest_end_spec {| W_id := next_id c; W_chan := ch |} 1 None c1) as (r & c2 & He & Hr & Hend); [done|].
  exists VNil, (Some ErrTimeout), c2. cbn [result_of W_id] in *. subst r. split.
  - unfold ReadProperty, mbind. rewrite (resolveDevice_known _ _ _ addr _ Hdev eq_refl).
    unfold sendRequest, mbind, mret. cbn [ctx_deadline clock write_result wait elapsed silent_env].
    fold data. rewrite Hb. unfold mret. cbn [default option_map] in He. by rewrite He.
  - destruct Hc as [Hcs [s Hs] Hci Hcp]. split; [split|].
    + by rewrite (ended_state _ _ _ Hend), Hst.
    + exists s. by rewrite (ended_transport _ _ _ Hend), Ht.
    + rewrite (ended_invokeID _ _ _ Hend), Hid. apply (uint_range 32). lia.
    + intros id' ch'. rewrite (ended_pending _ _ _ Hend), (ended_chans _ _ _ Hend), lookup_delete_Some.
      intros [_ Hp']. by eapply Hw.
    + by rewrite (ended_devices _ _ _ Hend), Hd.
Qed.

Lemma GetObjectList_terminates_witness :
  (exists objects c', object_loop silent_env 4 7 1 3 [] example_client = (Ret objects, c') /\ len objects <= 3 /\
     (ready c' /\ devices c' !! 7 = Some example_device)) /\
  (object_loop silent_env 1000 7 1 (2 ^ 32 - 1) [] example_client).1 = NoFuel.
Proof.
  assert (ready example_client /\ devices example_client !! 7 = Some example_device) as H
    by (split; [apply example_ready|apply lookup_singleton_eq]).
  split.
  - refine (proj1 (GetObjectList_terminates silent_env 7 _ 3 4 example_client silent_reads_return H) _ _); lia.
  - exact (proj2 (GetObjectList_terminates silent_env 7 _ 3 1000 example_client silent_reads_return H)).
Defined.

(** *** A device that answers *)

(** Element [i] of the object list as the device has it: its length, then the
    objects. *)
Definition element (objs : list ObjectIdentifier) (i : Z) : Value :=
  if i =? 0 then VUint32 (len objs)
  else match objs !! Z.to_nat (i - 1) with Some oid => VObjectID oid | None => VNil end.

(** A device at [addr] that answers every read of an element of its object
    list; meanwhile any other packets may arrive, as long as they do not move the
    device. *)
Definition lists_objects (env : Env) (addr : UDPAddr) (deviceID : Z) (objs : list ObjectIdentifier) : Prop :=
  forall c i, ready c -> 0 <= i <= len objs ->
    exists packets,
      brings env addr ServiceReadProperty
        (ReadProperty_request (NewObjectIdentifier ObjectTypeDevice deviceID) PropertyObjectList
           {| RO_ArrayIndex := Some i |}) c packets /\
      answered (next_id c) (element objs i) packets /\
      Forall (fun d => OID_Instance (ObjectID d) <> deviceID) (omap announced packets).

Section Listing.
Context (env : Env) (addr : UDPAddr) (deviceID : Z) (dev : DeviceInfo) (objs : list ObjectIdentifier).
Hypothesis device_lists : lists_objects env addr deviceID objs.
Hypothesis device_addr : udp_address dev = Ret addr.
Hypothesis objs_ok : Forall oid_ok objs.
Hypothesis objs_short : len objs < 2 ^ 32 - 1.

(** A client that knows the device. *)
Definition knows (c : Client) : Prop := ready c /\ active_ok c /\ devices c !! deviceID = Some dev.

Lemma element_writable i : 0 <= i <= len objs -> value_in_width (element objs i) /\ writable (element objs i) = true.
Proof using objs_ok objs_short.
  intros Hi. pose proof (len_nonneg objs). unfold element. destruct (i =? 0); [cbn; lia|].
  destruct (objs !! _) as [oid|] eqn:E; [|done]. rewrite Forall_lookup in objs_ok. destruct (objs_ok _ _ E). cbn. lia.
Qed.

Lemma read_element i c :
  knows c -> 0 <= i <= len objs ->
  exists c', ReadProperty env deviceID (NewObjectIdentifier ObjectTypeDevice deviceID) PropertyObjectList
      [WithArrayIndex i] c = (Ret (read_back (element objs i), None), c') /\ knows c'.
Proof using device_lists device_addr objs_ok objs_short.
  intros (Hc & Ha & Hdev) Hi. destruct (device_lists c i Hc Hi) as (packets & Hb & Hans & Hq).
  destruct (element_writable i Hi) as [Hv Hw].
  destruct (ReadProperty_at env packets deviceID addr (NewObjectIdentifier ObjectTypeDevice deviceID) PropertyObjectList (element objs i) [WithArrayIndex i] c c)
    as (c' & E & []); try done; [by eapply resolveDevice_known|].
  exists c'. split; [done|]. split; [done|]. split; [unfold active_ok; by rewrite fin_active|].
  by rewrite fin_devices, enter_all_other.
Qed.

Lemma object_loop_lists fuel i c :
  knows c -> 1 <= i <= len objs + 1 -> len objs + 1 - i < Z.of_nat fuel ->
  exists c', object_loop env fuel deviceID i (len objs) (take (Z.to_nat (i - 1)) objs) c = (Ret objs, c') /\ knows c'.
Proof using device_lists device_addr objs_ok objs_short.
  revert i c. induction fuel as [|fuel IH]; intros i c Hc Hi Hf; [lia|].
  cbn [object_loop]. destruct (Z.leb_spec i (len objs)).
  - unfold mbind. destruct (read_element i c Hc) as (c1 & E & Hc1); [lia|]. rewrite E. rewrite (uint_small 32) by lia.
    unfold element. replace (i =? 0) with false by lia. destruct (objs !! Z.to_nat (i - 1)) as [oid|] eqn:Eo.
    2: { apply lookup_ge_None in Eo. unfold len in *. lia. }
    cbn [read_back].
    destruct (proj1 (Forall_lookup _ _) objs_ok _ _ Eo) as [Ht Hn]. rewrite !Z.mod_small by lia.
    replace {| OID_Type := OID_Type oid; OID_Instance := OID_Instance oid |} with oid by (by destruct oid).
    rewrite <- (take_S_r _ _ _ Eo). replace (S (Z.to_nat (i - 1))) with (Z.to_nat (i + 1 - 1)) by lia.
    apply IH; [done|lia|lia].
  - exists c. replace (take (Z.to_nat (i - 1)) objs) with objs; [done|].
    symmetry. apply take_ge. unfold len in *. lia.
Qed.
End Listing.


(** An acknowledgement announces nothing. *)
Lemma announced_complex_ack t function origin reply id service data from :
  origin_ok function origin -> wf_bytes (complex_ack id service data) ->
  announced (t, packet_of function origin reply (complex_ack id service data), from) = None.
Proof.
  intros Ho Hwf. unfold announced. cbn [fst snd]. rewrite parse_packet_of by done.
  destruct (DecodeAPDU_complex_ack id service data) as (a & -> & Ht & _). cbn [obind]. by rewrite Ht.
Qed.

(** A device with two objects, whose answer depends on the last octet of the
    request. *)
Definition two_objects : list ObjectIdentifier :=
  [{| OID_Type := ObjectTypeDevice; OID_Instance := 7 |}; {| OID_Type := 0; OID_Instance := 1 |}].

Definition element_octets (i : Z) : bytes :=
  match encodePropertyValue (element two_objects i) with Ret p => p | _ => [] end.

Definition element_ack (id i : Z) : bytes :=
  complex_ack id ServiceReadProperty
    (ReadProperty_ack (NewObjectIdentifier ObjectTypeDevice 7) PropertyObjectList (Some i) (element_octets i)).

Definition listing_env : Env := {|
  ctx_deadline := None; clock := 0; write_result := fun _ p => Ret (len p);
  wait := fun out w =>
    let i := List.last (concat (map D_data out)) 0 in
    await [(0, packet_of BVLCOriginalUnicastNPDU [] false (element_ack (W_id w) i),
            {| IP := [10; 0; 0; 7]; Port := 47808 |})] w;
  elapsed := 1; sleep := fun _ _ => mret tt;
  range_devices := fun m => (map_to_list m).*2 |}.

Lemma listing_env_lists : lists_objects listing_env {| IP := [10; 0; 0; 7]; Port := DefaultPort |} 7 two_objects.
Proof.
  intros c i _ Hi. change (len two_objects) with 2 in Hi.
  assert (origin_ok BVLCOriginalUnicastNPDU []) as Ho by (left; split; [by left|done]).
  assert (is_byte (next_id c)) as Hid by (unfold next_id, is_byte; div_lia).
  assert (wf_bytes (element_ack (next_id c) i) /\
    wf_bytes (packet_of BVLCOriginalUnicastNPDU [] false (element_ack (next_id c) i))) as [Hack Hwf].
  { revert Hid. generalize (next_id c). intros id Hid. unfold wf_bytes.
    assert (i = 0 \/ i = 1 \/ i = 2) as [-> | [-> | ->]] by lia; split; vm_compute;
      repeat first [apply Forall_nil; exact I | apply Forall_cons; split; [first [exact Hid | split; [discriminate|reflexivity]]|]]. }
  exists [(0, packet_of BVLCOriginalUnicastNPDU [] false (element_ack (next_id c) i),
           {| IP := [10; 0; 0; 7]; Port := 47808 |})].
  split; [split; [done|split; [by apply Forall_cons; split; [exact Hwf|apply Forall_nil]|]]|split].
  - intros ch. assert (i = 0 \/ i = 1 \/ i = 2) as [-> | [-> | ->]] by lia; reflexivity.
  - eexists [], [], 0, BVLCOriginalUnicastNPDU, [], false, ServiceReadProperty, _, _, _, _, (element_octets i).
    split; [reflexivity|]. split; [reflexivity|]. split; [done|]. split; [unfold PropertyObjectList; lia|].
    split; [cbn; lia|]. by assert (i = 0 \/ i = 1 \/ i = 2) as [-> | [-> | ->]] by lia.
  - cbn [omap list_omap]. unfold element_ack in *. by rewrite announced_complex_ack.
Qed.

