(* ===== verification/ReadExample.v ===== *)
(** * The example program ([examples/read/main.go])

    A whole session: a new client connects, looks for devices, reads the name of
    the first one and closes.  The program is its printed lines, each with the
    arguments it gives to package [fmt], and what it does to the client. *)

From S2P Require Import Prelude Enums Errors Link Apdu Tags Values Options Services Metrics Transport Device Client Calls EndToEnd.
#[local] Open Scope string_scope.
#[local] Open Scope list_scope.
#[local] Open Scope Z_scope.

(** ** The program *)

(** What it prints; the last three end the process with status 1. *)
Inductive Line : Type :=
  | NoDevices
  | DeviceLine (instance : Z) (address : Address) (vendor : Z)
  | NameLine (target : Z) (name : Value)
  | FatalConnect (err : error)
  | FatalWhoIs (err : error)
  | FatalRead (target : Z) (err : error).

Definition device_line (dev : DeviceInfo) : Line :=
  DeviceLine (OID_Instance (ObjectID dev)) (DeviceAddress dev) (DI_VendorID dev).

(** The options of its client; [NewClient] returns no error. *)
Definition new_client (now : Z) : Client := NewClient now [WithTimeout (3 * Second); WithRetries 3].

(** [main] from the discovered devices on.  [log.Fatalf] exits without the
    deferred [Close]. *)
Definition visit (env : Env) (close_result : go unit) (iterate : gmap Z Z -> list Z) (devices : list DeviceInfo)
    : M (list Line) :=
  match devices with
  | [] => do! _ := Calls.Close close_result iterate in mret [NoDevices]
  | first :: _ =>
      let lines := map device_line devices in
      let target := OID_Instance (ObjectID first) in
      do! '(name, err) := ReadProperty env target (NewObjectIdentifier ObjectTypeDevice target)
        PropertyObjectName [] in
      match err with
      | Some err => mret (lines ++ [FatalRead target err])
      | None => do! _ := Calls.Close close_result iterate in mret (lines ++ [NameLine target name])
      end
  end.

Definition main (env : Env) (resolve : string -> go UDPAddr) (listen : option UDPAddr -> go Z)
    (close_result : go unit) (iterate : gmap Z Z -> list Z) : M (list Line) :=
  do! err := Connect env resolve listen in
  match err with
  | Some err => mret [FatalConnect err]
  | None =>
      do! devices := WhoIs env [WithDiscoveryTimeout (5 * Second)] in
      match devices with
      | inr err => mret [FatalWhoIs err]
      | inl devices => visit env close_result iterate devices
      end
  end.

(** ** Its steps *)

(** The client once it is connected over the socket [s]. *)
Definition session_client (now s : Z) : Client :=
  let c := new_client now in
  set_metrics (Inc ConnectSuccesses_ (Inc ConnectAttempts_ (metrics c)))
    (set_state StateConnected (set_receiving true
      (set_transport {| localAddr := localAddr (transport c); conn := Some {| socket := s; is_open := true |};
                        readTimeout := readTimeout (transport c); writeTimeout := writeTimeout (transport c);
                        Transport.closed := false |} c))).

Lemma Connect_new env resolve listen now s :
  listen None = Ret s -> Connect env resolve listen (new_client now) = (Ret None, session_client now s).
Proof.
  intros Hs. unfold Connect, mbind, gets, modify, inc, call, mret. cbn -[Inc Open new_client].
  unfold Open. cbn. by rewrite Hs.
Qed.

Lemma session_ready now s : ready (session_client now s) /\ active_ok (session_client now s).
Proof.
  split; [|unfold active_ok; cbn; lia]. split; cbn; [done|by exists s|lia|]. intros id ch H. discriminate H.
Qed.

(** Every device is in the table under its own instance number. *)
Lemma enter_all_key ds t i d :
  (forall j e, t !! j = Some e -> OID_Instance (ObjectID e) = j) ->
  enter_all ds t !! i = Some d -> OID_Instance (ObjectID d) = i.
Proof.
  unfold enter_all. revert t. induction ds as [|e ds IH]; intros t Ht; [by apply Ht|].
  cbn [fold_left]. apply IH. intros j e'. rewrite lookup_insert_Some. intros [[<- <-]|[_ Hj]]; [done|by apply Ht].
Qed.

(** What a discovery leaves of the answers to a later request. *)
Lemma brings_discovered env arrivals addr service data c c1 packets :
  discovered arrivals c c1 -> brings env addr service data c packets -> brings env addr service data c1 packets.
Proof.
  intros Hd (Hwr & Hwf & Hw). split; [done|]. split; [done|]. unfold sent_request, next_id in *.
  by rewrite (di_transport _ _ _ Hd), (di_invokeID _ _ _ Hd).
Qed.

(** Closing a client on which nothing is pending. *)
Lemma Close_idle c cr iterate :
  ready c -> pending c = ∅ -> no_panic cr -> iterate ∅ = [] ->
  exists r c', Calls.Close cr iterate c = (Ret r, c') /\ state c' = StateDisconnected.
Proof.
  intros Hc Hp Hcr Hit. destruct (Close_spec c cr iterate) as (r & c' & E & Hs & _); [| | | |done|by exists r, c'].
  - by rewrite (ready_connected c Hc).
  - apply Hc.
  - intros id id' ch. by rewrite Hp.
  - unfold iterates. by rewrite Hp, Hit.
Qed.

(** ** The session *)

(** The read of the example. *)
Definition name_request (target : Z) : bytes :=
  ReadProperty_request (NewObjectIdentifier ObjectTypeDevice target) PropertyObjectName noReadOptions.

(** A read that no response answers. *)
Lemma ReadProperty_unanswered env packets deviceID addr oid pid c :
  resolveDevice env deviceID c = (Ret (inl addr), c) -> ready c -> active_ok c ->
  brings env addr ServiceReadProperty (ReadProperty_request oid pid noReadOptions) c packets ->
  first_response (next_id c) packets = None ->
  exists c', ReadProperty env deviceID oid pid [] c = (Ret (VNil, Some ErrTimeout), c') /\
    finished (next_id c) packets c c'.
Proof.
  intros Hres Hc Ha Hb Hnone.
  destruct (sendRequest_spec env packets addr ServiceReadProperty _ c Hc Ha Hb) as (r & c' & E & Hr & Hfin).
  rewrite Hnone in Hr. cbn [result_of] in Hr. subst r.
  exists c'. split; [|exact Hfin]. unfold ReadProperty, mbind. rewrite Hres. unfold apply_options. cbn [fold_left].
  by rewrite E.
Qed.

(** The visit of the first device, on a client that knows it. *)
Lemma visit_first env close_result iterate packets first rest addr c :
  ready c -> active_ok c -> pending c = ∅ -> no_panic close_result -> iterate ∅ = [] ->
  let target := OID_Instance (ObjectID first) in
  devices c !! target = Some first -> udp_address first = Ret addr ->
  brings env addr ServiceReadProperty (name_request target) c packets ->
  let program := visit env close_result iterate (first :: rest) c in
  (forall v, answered (next_id c) v packets -> value_in_width v -> writable v = true ->
    exists c', program = (Ret (map device_line (first :: rest) ++ [NameLine target (read_back v)]), c') /\
      state c' = StateDisconnected) /\
  (first_response (next_id c) packets = None ->
    exists c', program = (Ret (map device_line (first :: rest) ++ [FatalRead target ErrTimeout]), c') /\
      state c' = StateConnected).
Proof.
  intros Hc Ha Hp Hcr Hit target Hdev Haddr Hb program.
  pose proof (resolveDevice_known env target first addr c Hdev Haddr) as Hres. split.
  - intros v Hans Hv Hw.
    destruct (ReadProperty_at env packets target addr _ PropertyObjectName v [] c c Hres Hc Ha Hb Hans Hv Hw)
      as (c1 & E & Hf).
    destruct (Close_idle c1 close_result iterate) as (r & c2 & Hcl & Hs);
      [apply Hf|by rewrite (fin_pending _ _ _ _ Hf), Hp, delete_empty|done..|].
    exists c2. split; [|done]. unfold program, visit. cbv zeta. fold target. unfold mbind.
    by rewrite E, Hcl.
  - intros Hnone.
    destruct (ReadProperty_unanswered env packets target addr _ PropertyObjectName c Hres Hc Ha Hb Hnone) as (c1 & E & Hf).
    exists c1. split; [|apply (ready_connected c1), Hf]. unfold program, visit. cbv zeta. fold target. unfold mbind. by rewrite E.
Qed.

(** C4. A session from its beginning to its end.  On a socket that opens and
    takes datagrams, the example connects, broadcasts one Who-Is without a range
    and listens for five seconds.  If nobody announces a device, it says so,
    closes and ends.  Otherwise it lists the devices, one for each instance that
    was announced, with the last announcement of each, in the order Go ranges
    over the table, and asks the first one for its name with invoke id 1: if the
    first response brings the encoding of a value, it prints that value and ends
    with the client closed; if no response comes before its context ends, it
    fails with [ErrTimeout], and [Close] is not called. *)
Theorem main_session now s env resolve listen close_result iterate arrivals :
  listen None = Ret s -> no_panic close_result -> iterate ∅ = [] ->
  (forall m, range_devices env m ≡ₚ (map_to_list m).*2) ->
  let c := session_client now s in
  hears env [WithDiscoveryTimeout (5 * Second)] c arrivals ->
  let found := range_devices env (enter_all (omap announced arrivals) ∅) in
  let program := main env resolve listen close_result iterate (new_client now) in
  (found = [] -> exists c', program = (Ret [NoDevices], c') /\ state c' = StateDisconnected) /\
  (forall first rest addr packets,
    found = first :: rest -> udp_address first = Ret addr ->
    let target := OID_Instance (ObjectID first) in
    brings env addr ServiceReadProperty (name_request target) c packets ->
    (forall v, answered 1 v packets -> value_in_width v -> writable v = true ->
      exists c', program = (Ret (map device_line found ++ [NameLine target (read_back v)]), c') /\
        state c' = StateDisconnected) /\
    (first_response 1 packets = None ->
      exists c', program = (Ret (map device_line found ++ [FatalRead target ErrTimeout]), c') /\
        state c' = StateConnected)).
Proof.
  intros Hlis Hcr Hit Hrange c Hh found program. destruct (session_ready now s) as [Hc Ha].
  destruct (WhoIs_spec env arrivals _ c Hc Hh) as (c1 & Hd & Hwho). pose proof (discovered_active _ _ _ Hd Ha) as Ha1.
  change (devices c) with (∅ : gmap Z DeviceInfo) in Hwho. fold found in Hwho.
  assert (pending c1 = ∅) as Hp by (by rewrite (di_pending _ _ _ Hd)).
  assert (program = visit env close_result iterate found c1) as ->.
  { unfold program, main, mbind. rewrite (Connect_new _ _ _ _ s) by done. fold c. by rewrite Hwho. }
  split.
  - intros ->. destruct (Close_idle c1 close_result iterate) as (r & c' & E & Hs); [apply Hd|done..|].
    exists c'. split; [|done]. unfold visit, mbind. by rewrite E.
  - intros first rest addr packets Hfound Haddr target Hb. rewrite Hfound.
    assert (devices c1 !! target = Some first) as Hdev.
    { rewrite (di_devices _ _ _ Hd). change (devices c) with (∅ : gmap Z DeviceInfo).
      assert (first ∈ (map_to_list (enter_all (omap announced arrivals) ∅)).*2) as Hin.
      { rewrite <- Hrange. fold found. rewrite Hfound. by left. }
      apply list_elem_of_fmap in Hin as ([i d] & -> & Hid%elem_of_map_to_list). cbn [snd] in target.
      unfold target. by rewrite (enter_all_key (omap announced arrivals) ∅ i d). }
    assert (next_id c1 = 1) as <- by (unfold next_id; by rewrite (di_invokeID _ _ _ Hd)).
    apply (visit_first env close_result iterate packets first rest addr c1); try done; [apply Hd|].
    by eapply brings_discovered.
Qed.

(** Device 1234 announces itself, and says that it is the AHU. *)
Definition ahu_name : Value := VString [0x41; 0x48; 0x55].
Definition ahu_peer : UDPAddr := {| IP := [10; 0; 0; 9]; Port := 47808 |}.
Definition ahu_iam : Z * bytes * UDPAddr :=
  (0, packet_of BVLCOriginalUnicastNPDU [] false
        (EncodeUnconfirmedRequest ServiceIAm (iam_wire {| OID_Type := ObjectTypeDevice; OID_Instance := 1234 |} 1476 3 260)),
   ahu_peer).
Definition ahu_payload : bytes := match encodePropertyValue ahu_name with Ret p => p | _ => [] end.
Definition ahu_ack : Z * bytes * UDPAddr :=
  (2, packet_of BVLCOriginalUnicastNPDU [] false
        (complex_ack 1 ServiceReadProperty
          (ReadProperty_ack {| OID_Type := ObjectTypeDevice; OID_Instance := 1234 |} PropertyObjectName None ahu_payload)),
   ahu_peer).
Definition ahu_env : Env := {|
  ctx_deadline := Some (30 * Second); clock := 0; write_result := fun _ p => Ret (len p);
  wait := fun _ => await [ahu_ack]; elapsed := 1; sleep := fun _ _ => modify (deliver [ahu_iam]);
  range_devices := fun m => (map_to_list m).*2 |}.

Lemma ahu_packets_wf : wf_packets [ahu_iam; ahu_ack].
Proof. unfold wf_packets, wf_bytes, is_byte. vm_compute. repeat constructor; discriminate. Qed.

Lemma main_session_witness :
  exists c', main ahu_env (fun _ => Panic) (fun _ => Ret 3) (Ret tt) (fun m => (map_to_list m).*2) (new_client 0) =
      (Ret [DeviceLine 1234 {| Net := 0; Addr := [10; 0; 0; 9] |} 260; NameLine 1234 ahu_name], c') /\
    state c' = StateDisconnected.
Proof.
  pose proof ahu_packets_wf as Hwf. apply Forall_cons in Hwf as [Hiam Hack].
  destruct (main_session 0 3 ahu_env (fun _ => Panic) (fun _ => Ret 3) (Ret tt) (fun m => (map_to_list m).*2) [ahu_iam])
    as [_ Hsession].
  - reflexivity.
  - done.
  - reflexivity.
  - intros m. reflexivity.
  - split; [done|split; [|reflexivity]]. by constructor.
  - destruct (Hsession (device_info {| OID_Type := ObjectTypeDevice; OID_Instance := 1234 |}
        {| Net := 0; Addr := [10; 0; 0; 9] |} 1476 3 260) [] ahu_peer [ahu_ack]) as [Hread _].
    + vm_compute. reflexivity.
    + reflexivity.
    + split; [done|split; [exact Hack|done]].
    + apply (Hread ahu_name); [|split; [|vm_compute; reflexivity]|reflexivity].
      * exists [], [], 2, BVLCOriginalUnicastNPDU, [], false, ServiceReadProperty, ahu_peer,
          {| OID_Type := ObjectTypeDevice; OID_Instance := 1234 |}, PropertyObjectName, None, ahu_payload.
        split; [reflexivity|]. split; [reflexivity|]. split; [by left; split; [left|]|].
        split; [unfold PropertyObjectName; lia|]. split; [done|reflexivity].
      * unfold wf_bytes, is_byte. repeat constructor; lia.
Defined.
