(* ===== verification/Concurrency.v ===== *)
(** * The goroutines of the client ([client.go])

    The calls, the handlers of packets, the receivers, [Close] and [Connect] as
    goroutines that share one client.  Each is a program counter with a step
    function; a step is what the goroutine does between two points where
    another one may come in between: an access to the state, to the invoke id,
    to [pending] under its mutex, to a channel or to the socket.  Counters
    belong to the step next to them.  [perform] runs one step of a world, and a
    goroutine that has to wait stays where it is.

    The steps of one goroutine alone are the sequential definitions of [Client]
    and [Calls] ([sequential_runs]); the invariants of all interleavings are in
    [Interleaving]. *)

From S2P Require Import Prelude Enums Errors Link Apdu Tags Values Options Services Metrics Transport Device Client Calls.
#[local] Open Scope string_scope.
#[local] Open Scope list_scope.
#[local] Open Scope Z_scope.

(** ** A confirmed request *)

(** The arguments of [sendRequest]. *)
Record Request := { R_addr : UDPAddr; R_service : Z; R_data : bytes; R_ctx : option Z }.

(** What a call meets at a step: the clock, the socket, whether its context
    has ended. *)
Record CallEvent := {
  E_now : Z;
  E_write : UDPAddr -> bytes -> go Z;
  E_elapsed : Z;
  E_done : bool
}.

(** Where a call is; from [Leaving] on, it runs its deferred calls. *)
Inductive CallPc : Type :=
  | Checking
  | Numbering
  | Registering (id : Z)
  | Sending (id ch : Z)
  | Selecting (id ch : Z)
  | Leaving (id ch : Z) (r : APDU + error)
  | Removing (id ch : Z) (r : APDU + error)
  | Returned (id : option Z) (r : APDU + error).

Definition call_step (rq : Request) (ev : CallEvent) (pc : CallPc) : M CallPc :=
  match pc with
  | Checking =>
      do! st := gets state in
      mret (if negb (st =? StateConnected) then Returned None (inr ErrNotConnected) else Numbering)
  | Numbering => do! invokeID := nextInvokeID in mret (Registering invokeID)
  | Registering id => do! respCh := register id in mret (Sending id respCh)
  | Sending id ch =>
      do! '(r, _) :=
        transmit (R_ctx rq) (E_now ev) (R_addr rq) id (R_service rq) (R_data rq) (E_write ev) in
      mret (match r with inr err => Leaving id ch (inr err) | inl _ => Selecting id ch end)
  | Selecting id ch =>
      do! wake := (if E_done ev then mret (Some CtxDone) else receive_from ch) in
      match wake with
      | None => mret (Selecting id ch)
      | Some wake => do! r := settle (E_elapsed ev) wake in mret (Leaving id ch r)
      end
  | Leaving id ch r => run! active Gauge_Dec in mret (Removing id ch r)
  | Removing id ch r => run! remove_pending id in mret (Returned (Some id) r)
  | Returned _ _ => mret pc
  end.

(** ** A packet *)

(** Where the handler of a packet is: it holds the channel it has looked up
    before it sends on it. *)
Inductive HandlerPc : Type :=
  | Arrived
  | Delivering (ch : Z) (apdu : APDU)
  | Finished.

Record Handler := { H_data : bytes; H_addr : UDPAddr; H_pc : HandlerPc }.

(** [handleResponse] up to the unlocking of [pending]. *)
Definition lookup_response (apdu : APDU) : M (option (Z * APDU)) :=
  do! ch := gets (fun c => pending c !! InvokeID apdu) in
  mret (option_map (fun ch => (ch, apdu)) ch).

(** [handlePacket] up to the sending of a response. *)
Definition begin_packet (data : bytes) (addr : UDPAddr) : M (option (Z * APDU)) := fun c =>
  match parse_packet data with
  | Ret (npdu, apdu) =>
      (run! inc ResponsesReceived_ in
       let type := APDU_Type apdu in
       if type =? PDUTypeUnconfirmedRequest then
         run! handleUnconfirmedRequest apdu addr npdu in mret None
       else if (type =? PDUTypeSimpleAck) || (type =? PDUTypeComplexAck) then lookup_response apdu
       else if type =? PDUTypeError then run! inc ErrorsReceived_ in lookup_response apdu
       else if type =? PDUTypeReject then run! inc RejectsReceived_ in lookup_response apdu
       else if type =? PDUTypeAbort then run! inc AbortsReceived_ in lookup_response apdu
       else mret None) c
  | Err _ => (Ret None, c)
  | Panic => (Panic, c)
  | NoFuel => (NoFuel, c)
  end.

Definition handler_step (h : Handler) : M HandlerPc :=
  match H_pc h with
  | Arrived =>
      do! r := begin_packet (H_data h) (H_addr h) in
      mret (match r with Some (ch, apdu) => Delivering ch apdu | None => Finished end)
  | Delivering ch apdu => run! try_send ch apdu in mret Finished
  | Finished => mret Finished
  end.

(** The step under the deferred [recover]. *)
Definition recovered (h : Handler) (c : Client) : HandlerPc * Client :=
  match handler_step h c with
  | (Ret pc, c) => (pc, c)
  | (Panic, c) => (Finished, set_metrics (Inc PanicsRecovered_ (metrics c)) c)
  | (_, c) => (Finished, c)
  end.

Definition is_finished (h : Handler) : bool :=
  match H_pc h with Finished => true | _ => false end.

(** ** Receivers, [Close] and [Connect] *)

(** The receiver goroutine; its deferred [close] holds the value [receiverDone]
    had when the goroutine began to run. *)
Inductive ReceiverPc : Type :=
  | Spawned
  | Polling (done : option nat)
  | Receiving (done : option nat)
  | Stopped.

Definition is_stopped (r : ReceiverPc) : bool := match r with Stopped => true | _ => false end.

(** The contexts and the [receiverDone] channels that were made (whether
    cancelled, whether closed), and those the fields of the client refer to. *)
Record Life := {
  contexts : list bool;
  dones : list bool;
  receiverCtx : option nat;
  receiverDone : option nat
}.

Inductive ClosePc : Type :=
  | Loading
  | Storing
  | Cancelling
  | Joining
  | AwaitReceiver (done : option nat)
  | AwaitHandlers
  | Draining
  | Closing
  | Closed (r : option error).

Inductive ConnectPc : Type :=
  | Swapping
  | Opening
  | MakingCtx
  | MakingDone
  | Spawning
  | Entering
  | Announcing
  | Connected (r : option error).

Definition has_closed (pc : ClosePc) : bool := match pc with Closed _ => true | _ => false end.
Definition has_connected (pc : ConnectPc) : bool := match pc with Connected _ => true | _ => false end.

(** ** The world

    All goroutines, started and ended ones, and the client they share.
    [receivers] are the goroutines that run [receiver], the handlers that have
    not finished are the count of [handlePacketWG], and [crashed] is a panic
    outside a handler, which ends the process.  [reused] is a record of the run
    for the theorems: the invoke ids that were given to a call while an earlier
    call still used them. *)

Record World := {
  client : Client;
  calls : list (Request * CallPc);
  handlers : list Handler;
  receivers : list ReceiverPc;
  life : Life;
  closers : list ClosePc;
  connectors : list ConnectPc;
  reused : gset Z;
  crashed : bool
}.

Definition set_client (v : Client) (w : World) : World :=
  {| client := v; calls := calls w; handlers := handlers w; receivers := receivers w; life := life w;
     closers := closers w; connectors := connectors w; reused := reused w; crashed := crashed w |}.
Definition set_calls (v : list (Request * CallPc)) (w : World) : World :=
  {| client := client w; calls := v; handlers := handlers w; receivers := receivers w; life := life w;
     closers := closers w; connectors := connectors w; reused := reused w; crashed := crashed w |}.
Definition set_handlers (v : list Handler) (w : World) : World :=
  {| client := client w; calls := calls w; handlers := v; receivers := receivers w; life := life w;
     closers := closers w; connectors := connectors w; reused := reused w; crashed := crashed w |}.
Definition set_receivers (v : list ReceiverPc) (w : World) : World :=
  {| client := client w; calls := calls w; handlers := handlers w; receivers := v; life := life w;
     closers := closers w; connectors := connectors w; reused := reused w; crashed := crashed w |}.
Definition set_life (v : Life) (w : World) : World :=
  {| client := client w; calls := calls w; handlers := handlers w; receivers := receivers w; life := v;
     closers := closers w; connectors := connectors w; reused := reused w; crashed := crashed w |}.
Definition set_closers (v : list ClosePc) (w : World) : World :=
  {| client := client w; calls := calls w; handlers := handlers w; receivers := receivers w; life := life w;
     closers := v; connectors := connectors w; reused := reused w; crashed := crashed w |}.
Definition set_connectors (v : list ConnectPc) (w : World) : World :=
  {| client := client w; calls := calls w; handlers := handlers w; receivers := receivers w; life := life w;
     closers := closers w; connectors := v; reused := reused w; crashed := crashed w |}.
Definition set_reused (v : gset Z) (w : World) : World :=
  {| client := client w; calls := calls w; handlers := handlers w; receivers := receivers w; life := life w;
     closers := closers w; connectors := connectors w; reused := v; crashed := crashed w |}.
Definition set_crashed (v : bool) (w : World) : World :=
  {| client := client w; calls := calls w; handlers := handlers w; receivers := receivers w; life := life w;
     closers := closers w; connectors := connectors w; reused := reused w; crashed := v |}.

Definition lift {A} (m : M A) (w : World) : go A * World :=
  let '(r, c) := m (client w) in (r, set_client c w).

(** *** One turn of each goroutine *)

(** The invoke id and the channel of a call between registering and removing. *)
Definition owns (pc : CallPc) : option (Z * Z) :=
  match pc with
  | Sending id ch | Selecting id ch | Leaving id ch _ | Removing id ch _ => Some (id, ch)
  | _ => None
  end.

Definition uses (id : Z) (call : Request * CallPc) : bool :=
  match owns call.2 with Some (id', _) => id' =? id | None => false end.

(** A call that registers an id some other call is using. *)
Definition note_reuse (pc : CallPc) (w : World) : World :=
  match pc with
  | Registering id => if existsb (uses id) (calls w) then set_reused ({[id]} ∪ reused w) w else w
  | _ => w
  end.

Definition call_turn (k : nat) (ev : CallEvent) (w : World) : World :=
  match calls w !! k with
  | None => w
  | Some (rq, pc) =>
      match lift (call_step rq ev pc) w with
      | (Ret pc', w') => set_calls (<[k := (rq, pc')]> (calls w)) (note_reuse pc w')
      | (_, w') => set_crashed true w'
      end
  end.

Definition handler_turn (k : nat) (w : World) : World :=
  match handlers w !! k with
  | None => w
  | Some h =>
      let '(pc, c) := recovered h (client w) in
      set_handlers (<[k := {| H_data := H_data h; H_addr := H_addr h; H_pc := pc |}]> (handlers w))
        (set_client c w)
  end.

Definition set_receiver (k : nat) (r : ReceiverPc) (w : World) : World :=
  set_receivers (<[k := r]> (receivers w)) w.

(** [c.receiverCtx.Done()] is ready; a nil context has no [Done]. *)
Definition ctx_done (lf : Life) : option bool := receiverCtx lf ≫= fun c => contexts lf !! c.

Definition cancel (c : nat) (lf : Life) : Life :=
  {| contexts := <[c := true]> (contexts lf); dones := dones lf;
     receiverCtx := receiverCtx lf; receiverDone := receiverDone lf |}.

(** [close(c.receiverDone)]: closing a nil or a closed channel panics, and in
    a receiver nothing recovers. *)
Definition close_done (done : option nat) (w : World) : World :=
  match done with
  | None => set_crashed true w
  | Some d =>
      match dones (life w) !! d with
      | Some false =>
          set_life {| contexts := contexts (life w); dones := <[d := true]> (dones (life w));
                      receiverCtx := receiverCtx (life w); receiverDone := receiverDone (life w) |} w
      | _ => set_crashed true w
      end
  end.

(** [receiver]: the deferral, then in each turn of the loop the look at the
    context and the receive. *)
Definition receiver_step (k : nat) (now : Z) (read : Z -> go (bytes * UDPAddr)) (w : World) : World :=
  match receivers w !! k with
  | None | Some Stopped => w
  | Some Spawned => set_receiver k (Polling (receiverDone (life w))) w
  | Some (Polling done) =>
      match ctx_done (life w) with
      | None => set_crashed true w
      | Some true => close_done done (set_receiver k Stopped w)
      | Some false => set_receiver k (Receiving done) w
      end
  | Some (Receiving done) =>
      let t := transport (client w) in
      match receiver_turn false (ReceiveWithTimeout (100 * Millisecond) now read t) t with
      | Ret Stop => close_done done (set_receiver k Stopped w)
      | Ret Continue => set_receiver k (Polling done) w
      | Ret (Handle data addr) =>
          let c := client w in
          let c := set_metrics (RecordActivity now (Add BytesReceived_ (len data) (metrics c))) c in
          set_receiver k (Polling done)
            (set_handlers (handlers w ++ [{| H_data := data; H_addr := addr; H_pc := Arrived |}])
              (set_client c w))
      | _ => set_crashed true w
      end
  end.

Definition close_step (close_result : go unit) (iterate : gmap Z Z -> list Z) (pc : ClosePc) (w : World)
    : go ClosePc * World :=
  match pc with
  | Loading =>
      lift (do! st := gets state in
            mret (if st =? StateDisconnected then Closed None else Storing)) w
  | Storing =>
      lift (run! modify (set_state StateDisconnected) in
            run! inc Disconnects_ in
            mret Cancelling) w
  | Cancelling =>
      match receiverCtx (life w) with
      | None => (Ret AwaitHandlers, w)
      | Some c => (Ret Joining, set_life (cancel c (life w)) w)
      end
  | Joining => (Ret (AwaitReceiver (receiverDone (life w))), w)
  | AwaitReceiver done =>
      match done ≫= (fun d => dones (life w) !! d) with
      | Some true =>
          lift (run! modify (set_receiving (negb (forallb is_stopped (receivers w)))) in mret AwaitHandlers) w
      | _ => (Ret pc, w)
      end
  | AwaitHandlers => (Ret (if forallb is_finished (handlers w) then Draining else pc), w)
  | Draining =>
      lift (do! p := gets pending in
            run! close_all (iterate p) in
            run! modify (set_pending ∅) in
            mret Closing) w
  | Closing =>
      lift (do! t := gets transport in
            let '(closed, t) := Transport.Close close_result t in
            run! modify (set_transport t) in
            do! r := call closed in
            mret (Closed (match r with
                          | inr err => Some (EWrap "close transport: " err EmptyString)
                          | inl _ => None
                          end))) w
  | Closed _ => (Ret pc, w)
  end.

Definition close_turn (k : nat) (close_result : go unit) (iterate : gmap Z Z -> list Z) (w : World) : World :=
  match closers w !! k with
  | None => w
  | Some pc =>
      match close_step close_result iterate pc w with
      | (Ret pc', w') => set_closers (<[k := pc']> (closers w)) w'
      | (_, w') => set_crashed true w'
      end
  end.

Definition connect_step (env : Env) (resolve : string -> go UDPAddr) (listen : option UDPAddr -> go Z)
    (pc : ConnectPc) (w : World) : go ConnectPc * World :=
  match pc with
  | Swapping =>
      lift (do! st := gets state in
            if negb (st =? StateDisconnected) then mret (Connected (Some ErrAlreadyConnected))
            else
            run! modify (set_state StateConnecting) in
            run! inc ConnectAttempts_ in
            mret Opening) w
  | Opening =>
      lift (do! t := gets transport in
            let '(opened, t) := Open resolve listen t in
            run! modify (set_transport t) in
            do! r := call opened in
            match r with
            | inr err =>
                run! modify (set_state StateDisconnected) in
                run! inc ConnectFailures_ in
                mret (Connected (Some (EWrap "open transport: " err EmptyString)))
            | inl _ => mret MakingCtx
            end) w
  | MakingCtx =>
      (Ret MakingDone,
       set_life {| contexts := contexts (life w) ++ [false]; dones := dones (life w);
                   receiverCtx := Some (length (contexts (life w))); receiverDone := receiverDone (life w) |} w)
  | MakingDone =>
      (Ret Spawning,
       set_life {| contexts := contexts (life w); dones := dones (life w) ++ [false];
                   receiverCtx := receiverCtx (life w); receiverDone := Some (length (dones (life w))) |} w)
  | Spawning =>
      lift (run! modify (set_receiving true) in mret Entering) (set_receivers (receivers w ++ [Spawned]) w)
  | Entering =>
      lift (run! modify (set_state StateConnected) in
            run! inc ConnectSuccesses_ in
            mret Announcing) w
  | Announcing =>
      lift (do! o := gets opts in
            if negb (String.eqb (bbmdAddress o) EmptyString) then
              do! _ := registerForeignDevice env resolve in mret (Connected None)
            else mret (Connected None)) w
  | Connected _ => (Ret pc, w)
  end.

Definition connect_turn (k : nat) (env : Env) (resolve : string -> go UDPAddr)
    (listen : option UDPAddr -> go Z) (w : World) : World :=
  match connectors w !! k with
  | None => w
  | Some pc =>
      match connect_step env resolve listen pc w with
      | (Ret pc', w') => set_connectors (<[k := pc']> (connectors w)) w'
      | (_, w') => set_crashed true w'
      end
  end.

(** *** Steps of the world *)

(** [Elsewhere] is a step of any other part: the device and subscription
    tables, unconfirmed requests, counters. *)
Inductive Action : Type :=
  | StartCall (rq : Request)
  | CallTurn (k : nat) (ev : CallEvent)
  | HandlerTurn (k : nat)
  | ReceiverTurn (k : nat) (now : Z) (read : Z -> go (bytes * UDPAddr))
  | StartClose
  | CloseTurn (k : nat) (close_result : go unit) (iterate : gmap Z Z -> list Z)
  | StartConnect
  | ConnectTurn (k : nat) (env : Env) (resolve : string -> go UDPAddr) (listen : option UDPAddr -> go Z)
  | Elsewhere (f : Client -> Client).

Definition perform (a : Action) (w : World) : World :=
  if crashed w then w
  else match a with
  | StartCall rq => set_calls (calls w ++ [(rq, Checking)]) w
  | CallTurn k ev => call_turn k ev w
  | HandlerTurn k => handler_turn k w
  | ReceiverTurn k now read => receiver_step k now read w
  | StartClose => set_closers (closers w ++ [Loading]) w
  | CloseTurn k cr iterate => close_turn k cr iterate w
  | StartConnect => set_connectors (connectors w ++ [Swapping]) w
  | ConnectTurn k env resolve listen => connect_turn k env resolve listen w
  | Elsewhere f => set_client (f (client w)) w
  end.

Definition run (actions : list Action) (w : World) : World := fold_left (fun w a => perform a w) actions w.

(** A client nobody has used. *)
Definition new_world (now : Z) (options : list Option_) : World := {|
  client := NewClient now options; calls := []; handlers := []; receivers := [];
  life := {| contexts := []; dones := []; receiverCtx := None; receiverDone := None |};
  closers := []; connectors := []; reused := ∅; crashed := false |}.

(** What the other parts of the client leave alone. *)
Record elsewhere (c c' : Client) : Prop := {
  else_opts : opts c' = opts c;
  else_transport : transport c' = transport c;
  else_state : state c' = state c;
  else_pending : pending c' = pending c;
  else_chans : chans c' = chans c;
  else_receiving : receiving c' = receiving c;
  else_panics : get PanicsRecovered_ (metrics c') = get PanicsRecovered_ (metrics c);
  else_active : ActiveRequests (metrics c') = ActiveRequests (metrics c);
  else_outstanding : outstanding (metrics c') = outstanding (metrics c)
}.

#[export] Instance elsewhere_preorder : PreOrder elsewhere.
Proof. split; [by intros c; split|]. intros c1 c2 c3 [] []. split; congruence. Qed.

(** Operations that are steps of this kind, whatever they return. *)
Definition keeps {A} (m : M A) : Prop := forall c, elsewhere c (m c).2.

Lemma keeps_bind {A B} (m : M A) (k : A -> M B) : keeps m -> (forall a, keeps (k a)) -> keeps (mbind m k).
Proof.
  intros Hm Hk c. unfold mbind. specialize (Hm c). destruct (m c) as [[a| | |] c1]; cbn in *; try done.
  transitivity c1; [done|]. specialize (Hk a c1). by destruct (k a c1).
Qed.

Lemma keeps_mret {A} (a : A) : keeps (mret a).
Proof. by intros c. Qed.
Lemma keeps_gets {A} (f : Client -> A) : keeps (gets f).
Proof. by intros c. Qed.
Lemma keeps_call {A} (m : go A) : keeps (call m).
Proof. by intros c. Qed.

Lemma keeps_add k d : is_guarded k = false -> keeps (add k d).
Proof. intros Hk c. split; try done; by apply update_unguarded. Qed.
Lemma keeps_inc k : is_guarded k = false -> keeps (inc k).
Proof. intros Hk c. split; try done; by apply update_unguarded. Qed.

Create HintDb keeps.
#[export] Hint Resolve keeps_mret keeps_gets keeps_call keeps_add keeps_inc : keeps.

Ltac keeps :=
  repeat match goal with
  | |- keeps (mbind _ _) => apply keeps_bind; [|intros]
  | |- keeps (if ?c then _ else _) => destruct c
  | |- keeps (match ?x with _ => _ end) => destruct x
  | |- keeps _ => solve [auto with keeps]
  end.

(** What the socket makes of a datagram. *)
Lemma Send_try ctx now addr data write t :
  no_panic write ->
  exists (r : unit + error) out, Send ctx now addr data write t = (match r with inl _ => Ret tt | inr e => Err e end, out).
Proof.
  intros [Hp Hn]. unfold Send. destruct (conn t); [|by exists (inr (EText "transport not open")), []].
  destruct (negb _); [by eexists (inr _), _|]. destruct write; try done; [|by eexists (inr _), _].
  destruct (negb _); [by eexists (inr _), _|by eexists (inl tt), _].
Qed.

(** An unconfirmed request counts as sent and comes to its outcome. *)
Lemma keeps_sendUnconfirmedRequest env addr service data :
  (forall to p, no_panic (write_result env to p)) -> keeps (sendUnconfirmedRequest env addr service data).
Proof.
  intros Hwr c. unfold sendUnconfirmedRequest, mbind, gets, mret, inc, add, modify, call.
  destruct (negb _); [done|]. unfold Broadcast.
  destruct addr; match goal with |- context [Send ?ctx ?now ?to ?p ?wr ?t] =>
    destruct (Send_try ctx now to p wr t (Hwr _ _)) as ([[]|e] & out & ->) end; cbn [try];
    (split; try done; cbn [metrics set_metrics snd]; unfold Add);
    rewrite ?outstanding_outcome, ?outstanding_update, ?outstanding_sent by done; apply outstanding_inc_dec.
Qed.

#[export] Hint Resolve keeps_sendUnconfirmedRequest : keeps.

(** [Elsewhere] covers what it stands for: registering, looking up and
    discovering devices (if what happens during the sleep does), and taking an
    id for a subscription and entering or removing it. *)
Lemma elsewhere_covers env :
  (forall to p, no_panic (write_result env to p)) -> (forall out d, keeps (sleep env out d)) ->
  (forall device, keeps (RegisterDevice device)) /\ (forall id, keeps (GetDevice id)) /\
  (forall options, keeps (WhoIs env options)) /\ (forall id, keeps (resolveDevice env id)) /\
  keeps nextInvokeID /\ (forall f, keeps (modify (fun c => set_covSubs (f (covSubs c)) c))) /\ keeps (inc COVSubscriptions_).
Proof.
  intros Hwr Hs. assert (forall options, keeps (WhoIs env options)) as Hw.
  { intros options. unfold WhoIs. keeps; first [by apply keeps_inc|apply Hs]. }
  split; [|split; [|split; [|split; [|split; [|split]]]]].
  - intros device c. by split.
  - intros id. unfold GetDevice. keeps.
  - exact Hw.
  - intros id. unfold resolveDevice. keeps; apply Hw.
  - intros c. by split.
  - intros f c. by split.
  - by apply keeps_inc.
Qed.

(** A read of the socket delivers octets or an error. *)
Definition wf_read (read : Z -> go (bytes * UDPAddr)) : Prop :=
  forall d, match read d with
            | Ret (data, _) => wf_bytes data
            | Err _ => True
            | _ => False
            end.

(** What package [net] and the Go runtime can do at a step.  Unless [overlap],
    the user calls neither [Connect] nor [Close] while one of the other kind
    has not returned. *)
Definition possible (overlap : bool) (w : World) (a : Action) : Prop :=
  match a with
  | StartCall _ | HandlerTurn _ => True
  | CallTurn _ ev => forall addr packet, no_panic (E_write ev addr packet)
  | ReceiverTurn _ _ read => wf_read read
  | StartClose => overlap = false -> forallb has_connected (connectors w) = true
  | CloseTurn _ cr iterate => no_panic cr /\ forall p, iterate p ≡ₚ (map_to_list p).*2
  | StartConnect => overlap = false -> forallb has_closed (closers w) = true
  | ConnectTurn _ env resolve listen =>
      (forall addr packet, no_panic (write_result env addr packet)) /\
      (forall s, no_panic (resolve s)) /\ (forall a, no_panic (listen a))
  | Elsewhere f => elsewhere (client w) (f (client w))
  end.

(** The worlds a client can get into. *)
Inductive reachable (overlap : bool) : World -> Prop :=
  | reachable_new now options : reachable overlap (new_world now options)
  | reachable_step w a : reachable overlap w -> possible overlap w a -> reachable overlap (perform a w).

(** A schedule all of whose steps are possible. *)
Fixpoint possible_run (overlap : bool) (actions : list Action) (w : World) : Prop :=
  match actions with
  | [] => True
  | a :: actions => possible overlap w a /\ possible_run overlap actions (perform a w)
  end.

Lemma reachable_run overlap actions w :
  reachable overlap w -> possible_run overlap actions w -> reachable overlap (run actions w).
Proof.
  revert w. induction actions as [|a actions IH]; intros w Hw Hp; [done|].
  apply IH; [|apply Hp]. apply reachable_step; [done|apply Hp].
Qed.

(** ** One goroutine alone *)

Fixpoint call_steps (n : nat) (rq : Request) (ev : CallEvent) (pc : CallPc) : M CallPc :=
  match n with
  | O => mret pc
  | S n => do! pc := call_step rq ev pc in call_steps n rq ev pc
  end.

(** What a call that waits or has returned shows to the outside. *)
Definition view (pc : CallPc) : option (Waiting + (APDU + error)) :=
  match pc with
  | Selecting id ch => Some (inl {| W_id := id; W_chan := ch |})
  | Returned _ r => Some (inr r)
  | _ => None
  end.

Definition begin_view (r : Waiting + error) : option (Waiting + (APDU + error)) :=
  Some (match r with inl w => inl w | inr err => inr (inr err) end).

(** What the part of a call on the wire leaves alone. *)
Lemma transmit_keeps ctx now addr id service data write c :
  (forall p, no_panic (write addr p)) ->
  exists r out c', transmit ctx now addr id service data write c = (Ret (r, out), c') /\
    opts c' = opts c /\ transport c' = transport c /\ state c' = state c /\ receiving c' = receiving c /\
    pending c' = pending c /\ chans c' = chans c /\ devices c' = devices c /\
    get PanicsRecovered_ (metrics c') = get PanicsRecovered_ (metrics c) /\
    ActiveRequests (metrics c') = Gauge_Inc (ActiveRequests (metrics c)) /\
    outstanding (metrics c') =
      match r with inl _ => Gauge_Inc (outstanding (metrics c)) | inr _ => outstanding (metrics c) end /\
    (forall e, r = inr e -> exists e', e = EWrap "send request: " e' EmptyString).
Proof.
  intros Hwr. unfold transmit, mbind, inc, active, add, modify, gets, call, mret.
  match goal with |- context [Send ctx now addr ?p ?wr ?t] =>
    destruct (Send_try ctx now addr p wr t (Hwr p)) as ([[]|e] & out & ->) end; cbn [try];
    do 3 eexists; (split; [reflexivity|]); split_and!; try reflexivity; try done.
  - exact (outstanding_sent (metrics c)).
  - cbn [metrics set_metrics]. rewrite outstanding_outcome, outstanding_updateActiveRequests, outstanding_sent by done.
    apply outstanding_inc_dec.
  - intros e' [= <-]. by eexists.
Qed.

Lemma call_begin rq ev c :
  E_done ev = false -> (forall p, no_panic (E_write ev (R_addr rq) p)) ->
  (do! pc := call_steps 6 rq ev Checking in mret (view pc)) c =
  (do! '(r, _) := sendRequest_begin (R_ctx rq) (E_now ev) (R_addr rq) (R_service rq) (R_data rq) (E_write ev) in
   mret (begin_view r)) c.
Proof.
  intros Hd Hwr. unfold mbind, call_steps, sendRequest_begin. cbn [call_step].
  unfold mbind, gets, mret. destruct (state c =? StateConnected); cbn [negb call_step]; [|reflexivity].
  unfold mbind, mret, nextInvokeID. cbn [call_step]. unfold register, make_chan, mbind, modify, mret. cbn [call_step].
  match goal with |- context [transmit _ _ _ ?id _ _ _ ?c0] =>
    destruct (transmit_keeps (R_ctx rq) (E_now ev) (R_addr rq) id (R_service rq) (R_data rq) (E_write ev) c0 Hwr)
      as ([[]|e] & out & c' & E & _ & _ & _ & _ & _ & Hc & _) end; unfold mbind, mret; rewrite E; cbn [call_step].
  - rewrite Hd. unfold mbind, receive_from. rewrite Hc. cbn [chans set_pending set_chans]. rewrite lookup_insert_eq.
    cbn [buffer chan_closed]. unfold mret. cbn [call_step]. rewrite Hd. unfold mbind, receive_from. rewrite Hc.
    cbn [chans set_pending set_chans]. rewrite lookup_insert_eq. done.
  - done.
Qed.

Lemma call_end rq ev id ch c :
  call_steps 3 rq ev (Selecting id ch) c =
  (do! wake := (if E_done ev then mret (Some CtxDone) else receive_from ch) in
   match wake with
   | Some wake =>
       do! r := sendRequest_end {| W_id := id; W_chan := ch |} (E_elapsed ev) wake in
       mret (Returned (Some id) r)
   | None => mret (Selecting id ch)
   end) c.
Proof.
  cbn [call_steps call_step]. unfold mbind.
  destruct (E_done ev) eqn:Hd; [done|].
  destruct (receive_from ch c) as [[[wake|]| | |] c'] eqn:E; try done.
  - unfold sendRequest_end, mbind. by destruct (settle (E_elapsed ev) wake c') as [[r| | |] c''].
  - assert (c' = c) as ->.
    { unfold receive_from in E. repeat case_match; simplify_eq; done. }
    unfold mret. cbn [call_step]. rewrite Hd. unfold mbind. rewrite E. unfold mret. cbn [call_step].
    rewrite Hd. unfold mbind. by rewrite E.
Qed.

Lemma handler_alone data addr c :
  handlePacket data addr c =
  (do! pc := handler_step {| H_data := data; H_addr := addr; H_pc := Arrived |} in
   do! _ := handler_step {| H_data := data; H_addr := addr; H_pc := pc |} in
   mret tt) c.
Proof.
  rewrite handlePacket_eq. unfold handler_step, on_result, begin_packet, mbind. cbn [H_pc H_data H_addr].
  destruct (parse_packet data) as [[npdu apdu]| | |]; try done.
  unfold dispatch, handleResponse, lookup_response, mbind, gets, mret.
  set (c1 := inc _ c). destruct c1 as [[[]| | |] c1]; try done.
  destruct (APDU_Type apdu =? PDUTypeUnconfirmedRequest).
  { by destruct (handleUnconfirmedRequest apdu addr npdu c1) as [[[]| | |] c2]. }
  assert (forall c0 : Client, (match pending c0 !! InvokeID apdu with
    | Some ch => try_send ch apdu c0 | None => (Ret tt, c0) end) =
    match (match pending c0 !! InvokeID apdu with
      | Some ch => match try_send ch apdu c0 with
         | (Ret _, c') => (Ret Finished, c') | (Err e, c') => (Err e, c')
         | (Panic, c') => (Panic, c') | (NoFuel, c') => (NoFuel, c') end
      | None => (Ret Finished, c0) end) with
    | (Ret _, c') => (Ret tt, c') | (Err e, c') => (Err e, c')
         | (Panic, c') => (Panic, c') | (NoFuel, c') => (NoFuel, c') end) as Hs.
  { intros c0. destruct (pending c0 !! _) as [ch|]; [|done]. by destruct (try_send ch apdu c0) as [[[]| | |] ?]. }
  unfold inc, modify.
  repeat match goal with |- context [APDU_Type apdu =? ?t] => destruct (APDU_Type apdu =? t); cbn [orb] end;
    try (match goal with |- context [pending ?c0 !! _] => specialize (Hs c0);
      destruct (pending c0 !! InvokeID apdu) as [ch|] eqn:E end); cbn [option_map]; try done.
Qed.

(** [Close] alone, in a world whose receivers have stopped and whose handlers
    have finished. *)
Definition quiet (w : World) : Prop :=
  crashed w = false /\ forallb is_finished (handlers w) = true /\ forallb is_stopped (receivers w) = true /\
  exists c d, receiverCtx (life w) = Some c /\ receiverDone (life w) = Some d /\ dones (life w) !! d = Some true.

Lemma run_repeat a n w : run (repeat a (S n)) w = run (repeat a n) (perform a w).
Proof. done. Qed.

Lemma perform_crashed a w : crashed w = true -> perform a w = w.
Proof. intros H. unfold perform. by rewrite H. Qed.

Lemma run_crashed actions w : crashed w = true -> run actions w = w.
Proof.
  intros H. induction actions as [|a actions IH]; [done|]. unfold run in *. cbn [fold_left].
  by rewrite perform_crashed.
Qed.

Lemma close_turn_alone cr iterate pc pc' w w' :
  crashed w = false -> closers w = [pc] -> close_step cr iterate pc w = (Ret pc', w') ->
  perform (CloseTurn 0 cr iterate) w = set_closers [pc'] w'.
Proof. intros Hc Hp Hs. unfold perform, close_turn. rewrite Hc, Hp. cbn. by rewrite Hs. Qed.

Lemma connect_turn_alone env resolve listen pc pc' w w' :
  crashed w = false -> connectors w = [pc] -> connect_step env resolve listen pc w = (Ret pc', w') ->
  perform (ConnectTurn 0 env resolve listen) w = set_connectors [pc'] w'.
Proof. intros Hc Hp Hs. unfold perform, connect_turn. rewrite Hc, Hp. cbn. by rewrite Hs. Qed.

Lemma close_turn_dies cr iterate pc m w w' :
  crashed w = false -> closers w = [pc] -> close_step cr iterate pc w = (m, w') ->
  (forall pc', m <> Ret pc') -> crashed (perform (CloseTurn 0 cr iterate) w) = true.
Proof.
  intros Hc Hp Hs Hm. unfold perform, close_turn. rewrite Hc, Hp. cbn. rewrite Hs.
  destruct m as [pc'| | |]; [by destruct (Hm pc')|done..].
Qed.

(** The next turn of a goroutine that runs alone. *)
Ltac next_turn lem tac :=
  rewrite run_repeat; erewrite lem;
  [|reflexivity|reflexivity|cbn -[forallb lookup Transport.Close Open close_all]; tac; reflexivity];
  cbn -[run repeat forallb lookup Transport.Close Open close_all].

Lemma forallb_insert {A} (f : A -> bool) k x l :
  forallb f l = true -> f x = true -> forallb f (<[k := x]> l) = true.
Proof.
  intros Hl Hx. revert k. induction l as [|y l IH]; intros k; [done|].
  cbn in Hl. apply andb_true_iff in Hl as [Hy Hl]. destruct k; cbn; [by rewrite Hx|]. rewrite Hy. by apply IH.
Qed.

(** The end of [Close], from the draining on. *)
Lemma close_drains cr iterate w :
  crashed w = false -> closers w = [Draining] ->
  let w' := run (repeat (CloseTurn 0 cr iterate) 2) w in
  match (do! p := gets pending in
         run! close_all (iterate p) in
         run! modify (set_pending ∅) in
         do! t := gets transport in
         let '(closed, t) := Transport.Close cr t in
         run! modify (set_transport t) in
         do! r := call closed in
         match r with
         | inr err => mret (Some (EWrap "close transport: " err EmptyString))
         | inl _ => mret None
         end) (client w) with
  | (Ret r, c') => client w' = c' /\ closers w' = [Closed r]
  | _ => crashed w' = true
  end.
Proof.
  intros Hc Hcl. destruct w as [c calls hs rs lf cls cns ru cra]. cbn in Hc, Hcl. subst cra cls.
  intros w'. unfold w'. clear w'. unfold mbind, gets, mret, modify, call. cbn [client].
  destruct (close_all (iterate (pending c)) c) as [m c1] eqn:Ec.
  destruct m as [[]|e| |].
  2-4: rewrite run_repeat, run_crashed;
    (eapply close_turn_dies; [reflexivity|reflexivity| |];
     [cbn [close_step]; unfold lift, mbind, gets; cbn [client]; rewrite Ec; reflexivity|done]).
  next_turn close_turn_alone ltac:(unfold lift, mbind, gets; cbn [client]; rewrite Ec).
  destruct (Transport.Close cr (transport c1)) as [cl t] eqn:Et.
  destruct (try cl) as [r|e| |] eqn:Er.
  2-4: rewrite run_repeat, run_crashed;
    (eapply close_turn_dies; [reflexivity|reflexivity| |];
     [cbn [close_step]; unfold lift, mbind, gets, modify, call; cbn -[Transport.Close]; rewrite Et, Er; reflexivity|done]).
  next_turn close_turn_alone ltac:(unfold lift, mbind, gets, modify, call; cbn -[Transport.Close]; rewrite Et, Er).
  by destruct r.
Qed.

Lemma close_alone cr iterate w :
  quiet w -> closers w = [Loading] ->
  let w' := run (repeat (CloseTurn 0 cr iterate) 8) w in
  match Calls.Close cr iterate (client w) with
  | (Ret r, c') => client w' = c' /\ closers w' = [Closed r]
  | _ => crashed w' = true
  end.
Proof.
  intros (Hc & Hf & Hs & cc & d & Hk & Hr & Hst) Hcl. destruct w as [c calls hs rs lf cls cns ru cra].
  cbn in Hc, Hf, Hs, Hk, Hr, Hcl. subst cra cls. destruct lf as [cx dn rc rd]. cbn in Hk, Hr, Hst. subst rc rd.
  intros w'. unfold w'. clear w'. unfold Calls.Close, mbind, gets, mret, inc, modify, call.
  cbn [client]. destruct (state c =? StateDisconnected) eqn:Ed.
  { next_turn close_turn_alone ltac:(unfold lift, mbind, gets, mret; cbn [client]; rewrite Ed). by split. }
  do 4 next_turn close_turn_alone ltac:(unfold lift, mbind, gets, mret; cbn [client]; rewrite ?Ed).
  next_turn close_turn_alone ltac:(cbn [mbind option_bind]; rewrite Hst, Hs).
  next_turn close_turn_alone ltac:(rewrite Hf).
  cbn [negb].
  match goal with |- context [set_closers [Draining] ?w0] =>
    exact (close_drains cr iterate (set_closers [Draining] w0) eq_refl eq_refl) end.
Qed.

Lemma connect_turn_dies env resolve listen pc m w w' :
  crashed w = false -> connectors w = [pc] -> connect_step env resolve listen pc w = (m, w') ->
  (forall pc', m <> Ret pc') -> crashed (perform (ConnectTurn 0 env resolve listen) w) = true.
Proof.
  intros Hc Hp Hs Hm. unfold perform, connect_turn. rewrite Hc, Hp. cbn. rewrite Hs.
  destruct m as [pc'| | |]; [by destruct (Hm pc')|done..].
Qed.

Ltac last_turn lem tac :=
  rewrite run_repeat, run_crashed; (eapply lem; [reflexivity|reflexivity| |];
    [cbn -[Open registerForeignDevice]; tac; reflexivity|done]).

(** The end of [Connect], the registration with the BBMD. *)
Lemma connect_announces env resolve listen w :
  crashed w = false -> connectors w = [Announcing] ->
  let w' := run (repeat (ConnectTurn 0 env resolve listen) 1) w in
  match (do! o := gets opts in
         if negb (String.eqb (bbmdAddress o) EmptyString) then
           do! _ := registerForeignDevice env resolve in mret None
         else mret None) (client w) with
  | (Ret r, c') => client w' = c' /\ connectors w' = [Connected r]
  | _ => crashed w' = true
  end.
Proof.
  intros Hc Hcl. destruct w as [c calls hs rs lf cls cns ru cra]. cbn in Hc, Hcl. subst cra cns.
  intros w'. unfold w'. clear w'. unfold mbind, gets, mret. cbn [client].
  destruct (bbmdAddress (opts c) =? EmptyString)%string eqn:Eb; cbn [negb].
  - next_turn connect_turn_alone ltac:(unfold lift, mbind, gets; cbn; rewrite Eb). by split.
  - destruct (registerForeignDevice env resolve c) as [[r|e| |] c'] eqn:Ef.
    2-4: last_turn connect_turn_dies
      ltac:(unfold lift, mbind, gets; cbn -[registerForeignDevice]; rewrite Eb; cbn -[registerForeignDevice]; rewrite Ef).
    next_turn connect_turn_alone
      ltac:(unfold lift, mbind, gets; cbn -[registerForeignDevice]; rewrite Eb; cbn -[registerForeignDevice]; rewrite Ef).
    by split.
Qed.

Lemma connect_alone env resolve listen w :
  crashed w = false -> connectors w = [Swapping] ->
  let w' := run (repeat (ConnectTurn 0 env resolve listen) 7) w in
  match Calls.Connect env resolve listen (client w) with
  | (Ret r, c') => client w' = c' /\ connectors w' = [Connected r]
  | _ => crashed w' = true
  end.
Proof.
  intros Hc Hcl. destruct w as [c calls hs rs lf cls cns ru cra]. cbn in Hc, Hcl. subst cra cns.
  intros w'. unfold w'. clear w'. unfold Calls.Connect, mbind, gets, mret, inc, modify, call. cbn [client].
  destruct (state c =? StateDisconnected) eqn:Ed; cbn [negb].
  2: { next_turn connect_turn_alone ltac:(unfold lift, mbind, gets, mret; cbn [client]; rewrite Ed). by split. }
  next_turn connect_turn_alone ltac:(unfold lift, mbind, gets, mret; cbn [client]; rewrite Ed).
  destruct (Open resolve listen (transport c)) as [o t] eqn:Et.
  destruct (try o) as [[[]|err]|e| |] eqn:Er.
  3-5: last_turn connect_turn_dies ltac:(unfold lift, mbind, gets, modify, call; cbn -[Open]; rewrite Et, Er).
  2: { next_turn connect_turn_alone ltac:(unfold lift, mbind, gets, modify, call; cbn -[Open]; rewrite Et, Er).
    by split. }
  next_turn connect_turn_alone ltac:(unfold lift, mbind, gets, modify, call; cbn -[Open]; rewrite Et, Er).
  do 4 next_turn connect_turn_alone idtac.
  match goal with |- context [set_connectors [Announcing] ?w0] =>
    exact (connect_announces env resolve listen (set_connectors [Announcing] w0) eq_refl eq_refl) end.
Qed.

(** The goroutines are the program.  Without interference, the steps of
    each goroutine compute what the sequential definition does: a call up to its
    [select] is [sendRequest_begin] and from there [sendRequest_end], the two
    steps of a handler are [handlePacket], and the turns of [Close] (once the
    receivers have stopped and the handlers have finished) and of [Connect]
    leave the client as the functions do, with the same result, and crash
    exactly where they panic. *)
Theorem sequential_runs :
  (forall rq ev c, E_done ev = false -> (forall p, no_panic (E_write ev (R_addr rq) p)) ->
     (do! pc := call_steps 6 rq ev Checking in mret (view pc)) c =
     (do! '(r, _) := sendRequest_begin (R_ctx rq) (E_now ev) (R_addr rq) (R_service rq) (R_data rq) (E_write ev) in
      mret (begin_view r)) c) /\
  (forall rq ev id ch c,
     call_steps 3 rq ev (Selecting id ch) c =
     (do! wake := (if E_done ev then mret (Some CtxDone) else receive_from ch) in
      match wake with
      | Some wake =>
          do! r := sendRequest_end {| W_id := id; W_chan := ch |} (E_elapsed ev) wake in
          mret (Returned (Some id) r)
      | None => mret (Selecting id ch)
      end) c) /\
  (forall data addr c,
     handlePacket data addr c =
     (do! pc := handler_step {| H_data := data; H_addr := addr; H_pc := Arrived |} in
      do! _ := handler_step {| H_data := data; H_addr := addr; H_pc := pc |} in
      mret tt) c) /\
  (forall cr iterate w, quiet w -> closers w = [Loading] ->
     let w' := run (repeat (CloseTurn 0 cr iterate) 8) w in
     match Calls.Close cr iterate (client w) with
     | (Ret r, c') => client w' = c' /\ closers w' = [Closed r]
     | _ => crashed w' = true
     end) /\
  (forall env resolve listen w, crashed w = false -> connectors w = [Swapping] ->
     let w' := run (repeat (ConnectTurn 0 env resolve listen) 7) w in
     match Calls.Connect env resolve listen (client w) with
     | (Ret r, c') => client w' = c' /\ connectors w' = [Connected r]
     | _ => crashed w' = true
     end).
Proof.
  split; [apply call_begin|]. split; [apply call_end|]. split; [apply handler_alone|].
  split; [apply close_alone|apply connect_alone].
Qed.

Lemma sequential_runs_witness :
  let rq := {| R_addr := {| IP := [10; 0; 0; 7]; Port := 47808 |}; R_service := ServiceReadProperty;
               R_data := [12]; R_ctx := None |} in
  let ev := {| E_now := 0; E_write := fun _ p => Ret (len p); E_elapsed := 1; E_done := false |} in
  exists ch, ((do! pc := call_steps 6 rq ev Checking in mret (view pc)) example_client).1 =
    Ret (Some (inl {| W_id := 42; W_chan := ch |})).
Proof.
  intros rq ev. rewrite (proj1 sequential_runs rq ev example_client); [|done|done].
  eexists. reflexivity.
Defined.
