(* ===== verification/Interleaving.v ===== *)
(** * Invariants of all interleavings ([client.go])

    What holds in every world the goroutines of [Concurrency] can reach: how
    channels, [pending] and the calls belong together, the accounting of
    requests and the results of calls; and what a turn of each goroutine does,
    as an inductive relation per goroutine. *)

From S2P Require Import Prelude Enums Errors Link Apdu Tags Values Options Services Metrics Transport Device Client Calls Concurrency.
#[local] Open Scope string_scope.
#[local] Open Scope list_scope.
#[local] Open Scope Z_scope.

(** ** Owners, packets, channels *)

(** Call [k] uses invoke id [id] and channel [ch]. *)
Definition owner (w : World) (k : nat) (id ch : Z) : Prop :=
  exists rq pc, calls w !! k = Some (rq, pc) /\ owns pc = Some (id, ch).

(** Some packet that arrived is the response [a] to request [id]. *)
Definition carried (w : World) (id : Z) (a : APDU) : Prop :=
  exists h hd npdu, handlers w !! h = Some hd /\ parse_packet (H_data hd) = Ret (npdu, a) /\
    is_response (APDU_Type a) = true /\ InvokeID a = id.

(** The handlers so far, with the same packets, and maybe more. *)
Definition grows (hs hs' : list Handler) : Prop :=
  forall h hd, hs !! h = Some hd -> exists hd', hs' !! h = Some hd' /\ H_data hd' = H_data hd.

(** The same channels; some may have been emptied. *)
Definition drained (m m' : gmap Z Chan) : Prop :=
  forall ch, match m !! ch, m' !! ch with
             | Some cell, Some cell' =>
                 chan_closed cell' = chan_closed cell /\ (buffer cell' = buffer cell \/ buffer cell' = None)
             | None, None => True
             | _, _ => False
             end.

#[export] Instance grows_preorder : PreOrder grows.
Proof.
  split; [intros hs h hd H; by exists hd|]. intros hs1 hs2 hs3 H12 H23 h hd H.
  destruct (H12 _ _ H) as (hd2 & H2 & E2). destruct (H23 _ _ H2) as (hd3 & H3 & E3). exists hd3. by rewrite E3, E2.
Qed.

Lemma drained_refl m : drained m m.
Proof. intros ch. destruct (m !! ch); auto. Qed.

Lemma grows_insert k hd hd' hs :
  hs !! k = Some hd -> H_data hd' = H_data hd -> grows hs (<[k := hd']> hs).
Proof.
  intros Hk Hd h x Hx. destruct (decide (h = k)) as [->|Hne].
  - exists hd'. rewrite list_lookup_insert_eq by (by eapply lookup_lt_Some). rewrite Hk in Hx. by injection Hx as <-.
  - exists x. by rewrite list_lookup_insert_ne.
Qed.

Lemma grows_app hs hs' : grows hs (hs ++ hs').
Proof. intros h hd H. exists hd. split; [|done]. by apply lookup_app_l_Some. Qed.

Lemma carried_grows w w' id a : grows (handlers w) (handlers w') -> carried w id a -> carried w' id a.
Proof.
  intros Hg (h & hd & npdu & Hh & Hp & Hr & Hi). destruct (Hg _ _ Hh) as (hd' & Hh' & E).
  exists h, hd', npdu. by rewrite E.
Qed.

(** How channels, [pending] and the calls belong together. *)
Record channels (w : World) : Prop := {
  ch_open : pending_open (client w);
  ch_pending : forall id ch, pending (client w) !! id = Some ch -> exists k, owner w k id ch;
  ch_distinct : forall i j id id' ch, owner w i id ch -> owner w j id' ch -> i = j;
  ch_alloc : forall k id ch, owner w k id ch -> is_Some (chans (client w) !! ch);
  ch_buffer : forall k id ch cell a, owner w k id ch -> chans (client w) !! ch = Some cell ->
    buffer cell = Some a -> carried w id a;
  ch_held : forall h hd ch a, handlers w !! h = Some hd -> H_pc hd = Delivering ch a ->
    is_Some (chans (client w) !! ch) /\
    (exists npdu, parse_packet (H_data hd) = Ret (npdu, a)) /\ is_response (APDU_Type a) = true /\
    forall k id, owner w k id ch -> InvokeID a = id;
  ch_closed : forall ch cell, chans (client w) !! ch = Some cell -> chan_closed cell = true -> closers w <> [];
  ch_wf : forall h hd, handlers w !! h = Some hd -> wf_bytes (H_data hd)
}.

Lemma owner_unique w k id ch id' ch' : owner w k id ch -> owner w k id' ch' -> id = id' /\ ch = ch'.
Proof.
  intros (rq & pc & H & E) (rq' & pc' & H' & E'). rewrite H in H'. injection H' as <- <-.
  rewrite E in E'. by injection E' as <- <-.
Qed.

Lemma channels_unshared w : channels w -> unshared (client w).
Proof.
  intros Hw id id' ch H H'. destruct (ch_pending w Hw _ _ H) as [i Hi]. destruct (ch_pending w Hw _ _ H') as [j Hj].
  pose proof (ch_distinct w Hw _ _ _ _ _ Hi Hj) as ->. by destruct (owner_unique _ _ _ _ _ _ Hi Hj).
Qed.

(** Steps that do not register, remove, deliver or close. *)
Record channels_same (w w' : World) : Prop := {
  cs_pending : pending (client w') = pending (client w);
  cs_chans : drained (chans (client w)) (chans (client w'));
  cs_owner : forall k id ch, owner w' k id ch <-> owner w k id ch;
  cs_grows : grows (handlers w) (handlers w');
  cs_held : forall h hd ch a, handlers w' !! h = Some hd -> H_pc hd = Delivering ch a -> handlers w !! h = Some hd;
  cs_wf : (forall h hd, handlers w !! h = Some hd -> wf_bytes (H_data hd)) ->
          forall h hd, handlers w' !! h = Some hd -> wf_bytes (H_data hd);
  cs_closers : closers w <> [] -> closers w' <> []
}.

Lemma drained_Some m m' ch cell' :
  drained m m' -> m' !! ch = Some cell' ->
  exists cell, m !! ch = Some cell /\ chan_closed cell' = chan_closed cell /\
    (buffer cell' = buffer cell \/ buffer cell' = None).
Proof. intros Hd H. specialize (Hd ch). rewrite H in Hd. destruct (m !! ch) as [cell|]; [|done]. by exists cell. Qed.

Lemma drained_exists m m' ch : drained m m' -> is_Some (m !! ch) -> is_Some (m' !! ch).
Proof. intros Hd [cell H]. specialize (Hd ch). rewrite H in Hd. destruct (m' !! ch); [by eexists|done]. Qed.

Lemma channels_keep w w' : channels_same w w' -> channels w -> channels w'.
Proof.
  intros [Hp Hd Ho Hg Hh Hwf Hc] [H1 H2 H3 H4 H5 H6 H7 H8]. split.
  - intros id ch. rewrite Hp. intros H. destruct (H1 _ _ H) as [b Hb].
    destruct (drained_exists _ _ ch Hd) as [cell' Hcell']; [by eexists|].
    destruct (drained_Some _ _ _ _ Hd Hcell') as (cell & Hcell & Hcl & _). rewrite Hb in Hcell. simplify_eq.
    destruct cell' as [b' cl']. cbn in Hcl. subst cl'. by exists b'.
  - intros id ch. rewrite Hp. intros [k Hk]%H2. exists k. by apply Ho.
  - intros i j id id' ch ?%Ho ?%Ho. by eapply H3.
  - intros k id ch ?%Ho. eapply drained_exists; [done|by eapply H4].
  - intros k id ch cell' a Hk%Ho Hcell' Ha. destruct (drained_Some _ _ _ _ Hd Hcell') as (cell & Hcell & _ & Hb).
    eapply carried_grows; [done|]. eapply H5; [done..|]. destruct Hb; congruence.
  - intros h hd ch a Hhd Hpc. pose proof (Hh _ _ _ _ Hhd Hpc) as Hhd'.
    destruct (H6 _ _ _ _ Hhd' Hpc) as (Hex & Hpar & Hr & Hi). split_and!; [by eapply drained_exists|done|done|].
    intros k id Hk%Ho. by eapply Hi.
  - intros ch cell' Hcell' Hcl. destruct (drained_Some _ _ _ _ Hd Hcell') as (cell & Hcell & E & _).
    apply Hc. eapply H7; [done|congruence].
  - by apply Hwf.
Qed.

(** *** One call moves *)

Lemma owner_moves w w' k rq pc pc' j id ch :
  calls w !! k = Some (rq, pc) -> calls w' = <[k := (rq, pc')]> (calls w) ->
  owner w' j id ch <-> (if decide (j = k) then owns pc' = Some (id, ch) else owner w j id ch).
Proof.
  intros Hk Hc. unfold owner. rewrite Hc. case_decide as Hjk.
  - subst j. rewrite list_lookup_insert_eq by (by eapply lookup_lt_Some). split.
    + intros (? & ? & [= <- <-] & E). done.
    + intros E. by exists rq, pc'.
  - by rewrite list_lookup_insert_ne.
Qed.

Lemma owner_kept w w' k rq pc pc' j id ch :
  calls w !! k = Some (rq, pc) -> calls w' = <[k := (rq, pc')]> (calls w) -> owns pc' = owns pc ->
  owner w' j id ch <-> owner w j id ch.
Proof.
  intros Hk Hc E. rewrite owner_moves by done. case_decide as Hjk; [|done]. subst j. rewrite E. split.
  - intros Ho. by exists rq, pc.
  - intros (? & ? & H & Ho). rewrite Hk in H. by injection H as <- <-.
Qed.

(** A call that starts to use an id and a fresh channel. *)
Record registers (k : nat) (id ch : Z) (w w' : World) : Prop := {
  rg_new : forall id' ch', ~ owner w k id' ch';
  rg_fresh : chans (client w) !! ch = None;
  rg_pending : pending (client w') = <[id := ch]> (pending (client w));
  rg_chans : chans (client w') = <[ch := {| buffer := None; chan_closed := false |}]> (chans (client w));
  rg_owner : forall j id' ch', owner w' j id' ch' <->
    (if decide (j = k) then Some (id, ch) = Some (id', ch') else owner w j id' ch');
  rg_handlers : handlers w' = handlers w;
  rg_closers : closers w' = closers w
}.

Lemma channels_register k id ch w w' : registers k id ch w w' -> channels w -> channels w'.
Proof.
  intros [Hn Hf Hp Hm Ho Hh Hcl] [H1 H2 H3 H4 H5 H6 H7 H8].
  assert (forall j id', ~ owner w j id' ch) as Hno.
  { intros j id' Hj. destruct (H4 _ _ _ Hj) as [cell Hcell]. congruence. }
  assert (forall ch', is_Some (chans (client w) !! ch') -> chans (client w') !! ch' = chans (client w) !! ch') as Hsame.
  { intros ch' [cell Hcell]. rewrite Hm. apply lookup_insert_ne. congruence. }
  assert (forall ch', is_Some (chans (client w) !! ch') -> is_Some (chans (client w') !! ch')) as Hex.
  { intros ch' H. by rewrite Hsame. }
  split.
  - intros id' ch'. rewrite Hp, Hm, lookup_insert_Some. intros [[<- <-]|[_ [b Hb]%H1]].
    + eexists. apply lookup_insert_eq.
    + exists b. rewrite lookup_insert_ne; congruence.
  - intros id' ch'. rewrite Hp, lookup_insert_Some. intros [[<- <-]|[_ [j Hj]%H2]].
    + exists k. apply Ho. by rewrite decide_True.
    + exists j. apply Ho. rewrite decide_False; [done|]. intros ->. by eapply Hn.
  - intros i j id1 id2 ch'. rewrite !Ho. repeat case_decide; subst; intros Hi Hj; simplify_eq; try done.
    + by apply Hno in Hj.
    + by apply Hno in Hi.
    + by eapply H3.
  - intros j id' ch'. rewrite Ho. case_decide; [|by intros ?%H4%Hex].
    intros [= <- <-]. rewrite Hm, lookup_insert_eq. by eexists.
  - intros j id' ch' cell a. rewrite Ho. case_decide.
    + intros [= <- <-]. rewrite Hm, lookup_insert_eq. intros [= <-]. done.
    + intros Hj. rewrite Hsame by (by eapply H4). intros Hc Hb. apply (carried_grows w); [by rewrite Hh|by eapply H5].
  - intros h hd ch' a. rewrite Hh. intros Hhd Hpc. destruct (H6 _ _ _ _ Hhd Hpc) as (Hx & Hpar & Hr & Hi).
    split_and!; [by apply Hex|done|done|]. intros j id'. rewrite Ho. case_decide; [|by apply Hi].
    intros [= <- <-]. destruct Hx as [cell Hx]. congruence.
  - intros ch' cell. rewrite Hm, Hcl, lookup_insert_Some. intros [[<- <-]|[_ H]]; [done|by eapply H7].
  - intros h hd. rewrite Hh. by apply H8.
Qed.

(** A call that stops using its id. *)
Record removes (k : nat) (id : Z) (w w' : World) : Prop := {
  rm_pending : pending (client w') = delete id (pending (client w));
  rm_chans : chans (client w') = chans (client w);
  rm_mine : forall id' ch, owner w k id' ch -> id' = id;
  rm_owner : forall j id' ch, owner w' j id' ch <-> j <> k /\ owner w j id' ch;
  rm_handlers : handlers w' = handlers w;
  rm_closers : closers w' = closers w
}.

Lemma channels_remove k id w w' : removes k id w w' -> channels w -> channels w'.
Proof.
  intros [Hp Hm Hk Ho Hh Hcl] [H1 H2 H3 H4 H5 H6 H7 H8]. split; rewrite ?Hp, ?Hm, ?Hh, ?Hcl; try done.
  - intros id' ch. rewrite Hp, Hm, lookup_delete_Some. intros [_ H]. by eapply H1.
  - intros id' ch. rewrite lookup_delete_Some. intros [Hne [j Hj]%H2]. exists j. apply Ho.
    split; [|done]. intros ->. by apply Hne, eq_sym, (Hk _ _ Hj).
  - intros i j id1 id2 ch [_ Hi]%Ho [_ Hj]%Ho. by eapply H3.
  - intros j id' ch [_ Hj]%Ho. by eapply H4.
  - intros j id' ch cell a [_ Hj]%Ho Hc Hb. apply (carried_grows w); [by rewrite Hh|by eapply H5].
  - intros h hd ch a Hhd Hpc. destruct (H6 _ _ _ _ Hhd Hpc) as (Hx & Hpar & Hr & Hi).
    split_and!; [done..|]. intros j id' [_ Hj]%Ho. by eapply Hi.
Qed.

(** *** One handler moves *)

(** A handler that looks up the channel of a response. *)
Lemma channels_lookup k hd ch a npdu w w' :
  handlers w !! k = Some hd -> parse_packet (H_data hd) = Ret (npdu, a) -> is_response (APDU_Type a) = true ->
  pending (client w) !! InvokeID a = Some ch ->
  handlers w' = <[k := {| H_data := H_data hd; H_addr := H_addr hd; H_pc := Delivering ch a |}]> (handlers w) ->
  calls w' = calls w -> closers w' = closers w ->
  pending (client w') = pending (client w) -> chans (client w') = chans (client w) ->
  channels w -> channels w'.
Proof.
  intros Hk Hpar Hr Hpend Hh Hca Hcl Hp Hm [H1 H2 H3 H4 H5 H6 H7 H8].
  assert (forall j id ch', owner w' j id ch' <-> owner w j id ch') as Ho.
  { intros. unfold owner. by rewrite Hca. }
  assert (grows (handlers w) (handlers w')) as Hg by (rewrite Hh; by eapply grows_insert).
  split; rewrite ?Hp, ?Hm, ?Hcl; try done.
  - intros id ch'. rewrite Hp, Hm. by apply H1.
  - intros id ch' [j Hj]%H2. exists j. by apply Ho.
  - intros i j id id' ch' Hi%Ho Hj%Ho. by eapply H3.
  - intros j id ch' Hj%Ho. by eapply H4.
  - intros j id ch' cell b Hj%Ho Hc Hb. apply (carried_grows w); [done|by eapply H5].
  - intros h hd' ch' b. rewrite Hh, list_lookup_insert_Some.
    intros [(-> & <- & _)|[Hne Hhd]] Hpc.
    + cbn in Hpc. injection Hpc as <- <-. destruct (H1 _ _ Hpend) as [c Hc].
      split; [by eexists|]. split; [by exists npdu|]. split; [done|].
      intros j id Hj%Ho. destruct (H2 _ _ Hpend) as [i Hi].
      pose proof (H3 _ _ _ _ _ Hi Hj) as ->. by destruct (owner_unique _ _ _ _ _ _ Hi Hj).
    + destruct (H6 _ _ _ _ Hhd Hpc) as (Hx & Hpar' & Hr' & Hi). do 3 (split; [done|]).
      intros j id Hj%Ho. by eapply Hi.
  - intros h hd'. rewrite Hh, list_lookup_insert_Some. intros [(-> & <- & _)|[_ Hhd]]; [by apply (H8 h hd)|by eapply H8].
Qed.

(** A handler that puts its response into its channel. *)
Lemma channels_deliver k hd ch a w w' :
  handlers w !! k = Some hd -> H_pc hd = Delivering ch a ->
  chans (client w) !! ch = Some {| buffer := None; chan_closed := false |} ->
  handlers w' = <[k := {| H_data := H_data hd; H_addr := H_addr hd; H_pc := Finished |}]> (handlers w) ->
  calls w' = calls w -> closers w' = closers w -> pending (client w') = pending (client w) ->
  chans (client w') = <[ch := {| buffer := Some a; chan_closed := false |}]> (chans (client w)) ->
  channels w -> channels w'.
Proof.
  intros Hk Hpc Hch Hh Hca Hcl Hp Hm [H1 H2 H3 H4 H5 H6 H7 H8].
  assert (forall j id ch', owner w' j id ch' <-> owner w j id ch') as Ho.
  { intros. unfold owner. by rewrite Hca. }
  assert (grows (handlers w) (handlers w')) as Hg by (rewrite Hh; by eapply grows_insert).
  assert (forall ch', is_Some (chans (client w) !! ch') -> is_Some (chans (client w') !! ch')) as Hex.
  { intros ch' Hx. rewrite Hm. apply lookup_insert_is_Some. destruct (decide (ch = ch')); auto. }
  split; rewrite ?Hp, ?Hcl; try done.
  - intros id ch'. rewrite Hp, Hm. intros [b Hb]%H1. destruct (decide (ch = ch')) as [<-|Hne].
    + eexists. apply lookup_insert_eq.
    + exists b. by rewrite lookup_insert_ne.
  - intros id ch' [j Hj]%H2. exists j. by apply Ho.
  - intros i j id id' ch' Hi%Ho Hj%Ho. by eapply H3.
  - intros j id ch' Hj%Ho. by eapply Hex, H4.
  - intros j id ch' cell b Hj%Ho. rewrite Hm, lookup_insert_Some. intros [[<- <-]|[_ Hc]] Hb.
    + cbn in Hb. injection Hb as <-. destruct (H6 _ _ _ _ Hk Hpc) as (_ & [npdu Hpar] & Hr & Hi).
      destruct (Hg _ _ Hk) as (hd' & Hhd' & E). exists k, hd', npdu. rewrite E. split_and!; [done..|by eapply Hi].
    + apply (carried_grows w); [done|by eapply H5].
  - intros h hd' ch' b. rewrite Hh, list_lookup_insert_Some. intros [(-> & <- & _)|[Hne Hhd]] Hpc'; [done|].
    destruct (H6 _ _ _ _ Hhd Hpc') as (Hx & Hpar' & Hr' & Hi). split; [by apply Hex|]. do 2 (split; [done|]).
    intros j id Hj%Ho. by eapply Hi.
  - intros ch' cell. rewrite Hm, lookup_insert_Some. intros [[<- <-]|[_ Hc]]; [done|by eapply H7].
  - intros h hd'. rewrite Hh, list_lookup_insert_Some. intros [(-> & <- & _)|[_ Hhd]]; [by apply (H8 h hd)|by eapply H8].
Qed.

(** *** A [Close] drains *)

(** The channels in [chs] are closed, with what they hold. *)
Definition closes (chs : list Z) (m m' : gmap Z Chan) : Prop :=
  (forall ch, ch ∉ chs -> m' !! ch = m !! ch) /\
  (forall ch, ch ∈ chs -> exists b, m !! ch = Some {| buffer := b; chan_closed := false |} /\
     m' !! ch = Some {| buffer := b; chan_closed := true |}).

Lemma closes_Some chs m m' ch cell' :
  closes chs m m' -> m' !! ch = Some cell' ->
  exists cell, m !! ch = Some cell /\ buffer cell' = buffer cell /\ (chan_closed cell = true -> chan_closed cell' = true).
Proof.
  intros [Hout Hin] H. destruct (decide (ch ∈ chs)) as [Hch|Hch].
  - destruct (Hin _ Hch) as (b & Hb & Hb'). rewrite H in Hb'. injection Hb' as ->. by eexists.
  - rewrite Hout in H by done. by exists cell'.
Qed.

Lemma closes_exists chs m m' ch : closes chs m m' -> is_Some (m !! ch) -> is_Some (m' !! ch).
Proof.
  intros [Hout Hin] H. destruct (decide (ch ∈ chs)) as [Hch|Hch]; [|by rewrite Hout].
  destruct (Hin _ Hch) as (b & _ & Hb'). by eexists.
Qed.

Lemma channels_drain chs w w' :
  closes chs (chans (client w)) (chans (client w')) -> pending (client w') = ∅ -> calls w' = calls w ->
  handlers w' = handlers w -> closers w' <> [] -> channels w -> channels w'.
Proof.
  intros Hm Hp Hca Hh Hcl [H1 H2 H3 H4 H5 H6 H7 H8].
  assert (forall j id ch', owner w' j id ch' <-> owner w j id ch') as Ho.
  { intros. unfold owner. by rewrite Hca. }
  split; rewrite ?Hp; try done.
  - intros id ch. by rewrite Hp.
  - intros i j id id' ch Hi%Ho Hj%Ho. by eapply H3.
  - intros j id ch Hj%Ho. by eapply closes_exists, H4.
  - intros j id ch cell' a Hj%Ho Hc Hb. destruct (closes_Some _ _ _ _ _ Hm Hc) as (cell & Hcell & E & _).
    apply (carried_grows w); [by rewrite Hh|]. eapply H5; [done..|congruence].
  - intros h hd ch a. rewrite Hh. intros Hhd Hpc. destruct (H6 _ _ _ _ Hhd Hpc) as (Hx & Hpar & Hr & Hi).
    split; [by eapply closes_exists|]. do 2 (split; [done|]). intros j id Hj%Ho. by eapply Hi.
  - intros h hd. rewrite Hh. by apply H8.
Qed.

(** ** What the turn of a call does *)

(** The effect of a step of a call on the client. *)
Record becomes (c c' : Client) (p : gmap Z Z) (m : gmap Z Chan) (g : Gauge) (o : Z) : Prop := {
  b_pending : pending c' = p;
  b_chans : chans c' = m;
  b_active : ActiveRequests (metrics c') = g;
  b_outstanding : outstanding (metrics c') = o;
  b_state : state c' = state c;
  b_transport : transport c' = transport c;
  b_panics : get PanicsRecovered_ (metrics c') = get PanicsRecovered_ (metrics c)
}.

(** A step without an effect on the requests. *)
Abbreviation quiet c c' :=
  (becomes c c' (pending c) (chans c) (ActiveRequests (metrics c)) (outstanding (metrics c))).

(** Where the result of a call with invoke id [id] can come from. *)
Definition explained (w : World) (id : Z) (r : APDU + error) : Prop :=
  (exists e, r = inr (EWrap "send request: " e EmptyString)) \/
  r = inr ErrTimeout \/
  (r = inr ErrConnectionClosed /\ closers w <> []) \/
  (exists a, carried w id a /\ result_of id (Some a) r).

(** What a call that leaves its [select] has seen. *)
Definition woken (w : World) (id ch : Z) (r : APDU + error) : Prop :=
  r = inr ErrTimeout \/ r = inr ErrConnectionClosed \/
  exists cell a, chans (client w) !! ch = Some cell /\ buffer cell = Some a /\ result_of id (Some a) r.

(** A call that ends because a [Close] closed its channel: nothing counts it. *)
Definition dropped (r : APDU + error) : bool :=
  match r with inr ErrConnectionClosed => true | _ => false end.

(** A turn of a call: the place it leaves, the place it gets to, the effect. *)
Inductive moved (w : World) (c' : Client) : CallPc -> CallPc -> Prop :=
  | mv_refused : quiet (client w) c' -> moved w c' Checking (Returned None (inr ErrNotConnected))
  | mv_checked : quiet (client w) c' -> state (client w) = StateConnected -> moved w c' Checking Numbering
  | mv_numbered id : quiet (client w) c' -> moved w c' Numbering (Registering id)
  | mv_registered id ch :
      chans (client w) !! ch = None ->
      becomes (client w) c' (<[id := ch]> (pending (client w)))
        (<[ch := {| buffer := None; chan_closed := false |}]> (chans (client w)))
        (ActiveRequests (metrics (client w))) (outstanding (metrics (client w))) ->
      moved w c' (Registering id) (Sending id ch)
  | mv_sent id ch :
      becomes (client w) c' (pending (client w)) (chans (client w))
        (Gauge_Inc (ActiveRequests (metrics (client w)))) (Gauge_Inc (outstanding (metrics (client w)))) ->
      moved w c' (Sending id ch) (Selecting id ch)
  | mv_unsent id ch e :
      becomes (client w) c' (pending (client w)) (chans (client w))
        (Gauge_Inc (ActiveRequests (metrics (client w)))) (outstanding (metrics (client w))) ->
      moved w c' (Sending id ch) (Leaving id ch (inr (EWrap "send request: " e EmptyString)))
  | mv_waits id ch : quiet (client w) c' -> moved w c' (Selecting id ch) (Selecting id ch)
  | mv_selected id ch m r :
      becomes (client w) c' (pending (client w)) m (ActiveRequests (metrics (client w)))
        (if dropped r then outstanding (metrics (client w)) else Gauge_Dec (outstanding (metrics (client w)))) ->
      drained (chans (client w)) m -> (forall ch', ch' <> ch -> m !! ch' = chans (client w) !! ch') ->
      woken w id ch r -> explained w id r ->
      moved w c' (Selecting id ch) (Leaving id ch r)
  | mv_left id ch r :
      becomes (client w) c' (pending (client w)) (chans (client w))
        (Gauge_Dec (ActiveRequests (metrics (client w)))) (outstanding (metrics (client w))) ->
      moved w c' (Leaving id ch r) (Removing id ch r)
  | mv_removed id ch r :
      becomes (client w) c' (delete id (pending (client w))) (chans (client w))
        (ActiveRequests (metrics (client w))) (outstanding (metrics (client w))) ->
      moved w c' (Removing id ch r) (Returned (Some id) r)
  | mv_returned id r : quiet (client w) c' -> moved w c' (Returned id r) (Returned id r).

(** An outcome is counted after the latency. *)
Ltac settled :=
  do 2 eexists; split; [reflexivity|]; split; [split; try done; cbn [metrics set_metrics]; by rewrite outstanding_outcome|done].

(** What a response makes of a call. *)
Lemma settle_effect el wake c :
  (forall a, wake = Response a -> wf_apdu a /\ is_response (APDU_Type a) = true) ->
  exists r c', settle el wake c = (Ret r, c') /\
    becomes c c' (pending c) (chans c) (ActiveRequests (metrics c))
      (if dropped r then outstanding (metrics c) else Gauge_Dec (outstanding (metrics c))) /\
    match wake with
    | CtxDone => r = inr ErrTimeout
    | ChanClosed => r = inr ErrConnectionClosed
    | Response a => result_of (InvokeID a) (Some a) r
    end.
Proof.
  intros Hok. destruct wake as [|a|]; unfold settle, mbind, inc, modify, mret, pure; [|
   |do 2 eexists; split; [reflexivity|]; split; [by split|done]].
  { settled. }
  destruct (Hok a eq_refl) as [Hwf Hr]. unfold is_response in Hr. cbn [result_of].
  destruct ((APDU_Type a =? PDUTypeSimpleAck) || (APDU_Type a =? PDUTypeComplexAck)) eqn:E1; [settled|].
  destruct (APDU_Type a =? PDUTypeError) eqn:E2.
  { destruct (safely_no_err _ _ (decodeError_safe _ Hwf) (no_err_decodeError _)) as (e & He & Hsafe).
    rewrite He. assert (dropped (inr e) = false) as Hd by (destruct Hsafe as [->|(b & -> & _)]; done).
    do 2 eexists. split; [reflexivity|]. rewrite Hd. split; [|by exists e].
    split; try done. exact (outstanding_outcome RequestsFailed_ (metrics c) eq_refl). }
  destruct (APDU_Type a =? PDUTypeReject) eqn:E3; [settled|].
  destruct (APDU_Type a =? PDUTypeAbort) eqn:E4; [settled|].
  exfalso. cbn [orb] in Hr. done.
Qed.

Lemma carried_wf w id a : channels w -> carried w id a -> wf_apdu a.
Proof.
  intros Hw (h & hd & npdu & Hh & Hp & _). pose proof (parse_packet_safe _ (ch_wf w Hw _ _ Hh)) as Hs.
  rewrite Hp in Hs. exact Hs.
Qed.

Lemma drained_take m ch cell :
  m !! ch = Some cell -> drained m (<[ch := {| buffer := None; chan_closed := chan_closed cell |}]> m).
Proof.
  intros Hc ch'. destruct (decide (ch = ch')) as [<-|Hne].
  - rewrite Hc, lookup_insert_eq. auto.
  - rewrite lookup_insert_ne by done. destruct (m !! ch'); auto.
Qed.

Lemma select_moves w k id ch rq ev :
  channels w -> owner w k id ch ->
  exists pc' c', call_step rq ev (Selecting id ch) (client w) = (Ret pc', c') /\ moved w c' (Selecting id ch) pc'.
Proof.
  intros Hw Ho. cbn [call_step]. unfold mbind at 1. destruct (E_done ev).
  { destruct (settle_effect (E_elapsed ev) CtxDone (client w)) as (r & c' & E & B & ->); [done|].
    unfold mbind, mret. rewrite E. do 2 eexists. split; [reflexivity|].
    eapply mv_selected; [exact B|apply drained_refl|done|by left|]. by right; left. }
  destruct (ch_alloc w Hw _ _ _ Ho) as [cell Hc]. unfold receive_from. rewrite Hc.
  destruct (buffer cell) as [a|] eqn:Hb.
  - pose proof (ch_buffer w Hw _ _ _ _ _ Ho Hc Hb) as Ha. pose proof Ha as (h & hd & npdu & _ & _ & Hr & Hi).
    match goal with |- context [set_chans ?m ?c] => destruct (settle_effect (E_elapsed ev) (Response a) (set_chans m c))
      as (r & c' & E & B & Hres) end.
    { intros a' [= <-]. split; [by eapply carried_wf|done]. }
    unfold mbind, mret. rewrite E. do 2 eexists. split; [reflexivity|].
    rewrite Hi in Hres. eapply mv_selected; [destruct B; by split|by apply drained_take| | |].
    + intros ch' Hne. cbn. by rewrite lookup_insert_ne.
    + right; right. by exists cell, a.
    + right; right; right. by exists a.
  - destruct (chan_closed cell) eqn:Hcl.
    + do 2 eexists. split; [reflexivity|]. eapply mv_selected; [by split|apply drained_refl|done|by right; left|].
      right; right; left. split; [done|]. by eapply (ch_closed w Hw).
    + do 2 eexists. split; [reflexivity|]. by apply mv_waits.
Qed.

Lemma call_step_moves w k rq ev pc :
  channels w -> calls w !! k = Some (rq, pc) -> (forall addr p, no_panic (E_write ev addr p)) ->
  exists pc' c', call_step rq ev pc (client w) = (Ret pc', c') /\ moved w c' pc pc'.
Proof.
  intros Hw Hk Hwr. destruct pc as [| |id|id ch|id ch|id ch r|id ch r|id r]; try (eapply select_moves; [done|by do 2 eexists]).
  - cbn [call_step]. unfold mbind, gets, mret. do 2 eexists. split; [reflexivity|].
    destruct (Z.eqb_spec (state (client w)) StateConnected); cbn [negb]; by constructor.
  - do 2 eexists. split; [reflexivity|]. by constructor.
  - do 2 eexists. split; [reflexivity|]. constructor; [|by split]. apply not_elem_of_dom, is_fresh.
  - cbn [call_step]. unfold mbind.
    destruct (transmit_keeps (R_ctx rq) (E_now ev) (R_addr rq) id (R_service rq) (R_data rq) (E_write ev) (client w))
      as (res & out & c' & E & Ho & Ht & Hs & Hrec & Hp & Hm & Hd & Hpan & Ha & Hout & He); [by intros|].
    rewrite E. do 2 eexists. split; [reflexivity|]. destruct res as [[]|e].
    + by constructor.
    + destruct (He e eq_refl) as [e' ->]. by constructor.
  - do 2 eexists. split; [reflexivity|]. by constructor.
  - do 2 eexists. split; [reflexivity|]. by constructor.
  - do 2 eexists. split; [reflexivity|]. by constructor.
Qed.

(** The world after a turn of call [k]. *)
Record turned (k : nat) (rq : Request) (pc pc' : CallPc) (c' : Client) (w w' : World) : Prop := {
  t_client : client w' = c';
  t_calls : calls w' = <[k := (rq, pc')]> (calls w);
  t_handlers : handlers w' = handlers w;
  t_receivers : receivers w' = receivers w;
  t_life : life w' = life w;
  t_closers : closers w' = closers w;
  t_connectors : connectors w' = connectors w;
  t_crashed : crashed w' = crashed w;
  t_reused : reused w' = reused (note_reuse pc w)
}.

Lemma call_turn_steps w k ev rq pc :
  channels w -> calls w !! k = Some (rq, pc) -> (forall addr p, no_panic (E_write ev addr p)) ->
  exists pc' c', call_step rq ev pc (client w) = (Ret pc', c') /\ moved w c' pc pc' /\
    turned k rq pc pc' c' w (call_turn k ev w).
Proof.
  intros Hw Hk Hwr. destruct (call_step_moves w k rq ev pc Hw Hk Hwr) as (pc' & c' & E & Hm).
  exists pc', c'. do 2 (split; [done|]). unfold call_turn. rewrite Hk. unfold lift. rewrite E.
  unfold note_reuse. destruct pc; try by split.
  split; unfold note_reuse; cbn; by destruct (existsb (uses id) (calls w)).
Qed.

Lemma call_turn_turned w k ev rq pc :
  channels w -> calls w !! k = Some (rq, pc) -> (forall addr p, no_panic (E_write ev addr p)) ->
  exists pc' c', moved w c' pc pc' /\ turned k rq pc pc' c' w (call_turn k ev w).
Proof. intros Hw Hk Hwr. destruct (call_turn_steps w k ev rq pc Hw Hk Hwr) as (pc' & c' & _ & H). by exists pc', c'. Qed.

Lemma turned_channels k rq pc pc' c' w w' :
  calls w !! k = Some (rq, pc) -> moved w c' pc pc' -> turned k rq pc pc' c' w w' -> channels w -> channels w'.
Proof.
  intros Hk Hm [Hc Hca Hh _ _ Hcl _ _ _] Hw.
  assert (forall j id ch, owner w' j id ch <->
    (if decide (j = k) then owns pc' = Some (id, ch) else owner w j id ch)) as Ho.
  { intros. by eapply owner_moves. }
  assert (owns pc' = owns pc -> pending (client w') = pending (client w) ->
    drained (chans (client w)) (chans (client w')) -> channels w') as Hsame.
  { intros Hown Hp Hd. apply (channels_keep w); [|done]. split; rewrite ?Hh, ?Hcl; try done.
    intros. by eapply owner_kept. }
  destruct Hm as [B|B _|id B|id ch Hf B|id ch B|id ch e B|id ch B|id ch m r B Hd _ _ _|id ch r B|id ch r B|id r B];
    try (destruct B; apply Hsame; [done|by rewrite Hc|rewrite Hc, b_chans0; apply drained_refl]).
  - apply (channels_register k id ch w); [|done]. destruct B. split; rewrite ?Hc; try done.
    intros id' ch' (rq' & pc & H & E). rewrite Hk in H. by injection H as <- <-.
  - destruct B. apply Hsame; [done|by rewrite Hc|by rewrite Hc, b_chans0].
  - apply (channels_remove k id w); [|done]. destruct B. split; rewrite ?Hc; try done.
    + intros id' ch' (rq' & pc & H & E). rewrite Hk in H. injection H as <- <-. by injection E as -> ->.
    + intros j id' ch'. rewrite Ho. case_decide; naive_solver.
Qed.

(** ** The accounts of the calls *)

(** A call between the two changes of the gauge. *)
Definition counted (pc : CallPc) : Z :=
  match pc with Selecting _ _ | Leaving _ _ _ => 1 | _ => 0 end.

(** A call that was sent and has no outcome that counts. *)
Definition unsettled (pc : CallPc) : Z :=
  match pc with
  | Selecting _ _ => 1
  | Leaving _ _ r | Removing _ _ r | Returned _ r => if dropped r then 1 else 0
  | _ => 0
  end.

Definition tally (f : CallPc -> Z) (l : list (Request * CallPc)) : Z := foldr (fun call n => f call.2 + n) 0 l.

(** The request [id] can still be answered over [ch]: its entry is there, or a
    [Close] has closed the channel, or the id has been given away. *)
Definition kept (w : World) (id ch : Z) : Prop :=
  pending (client w) !! id = Some ch \/
  (exists cell, chans (client w) !! ch = Some cell /\ chan_closed cell = true) \/
  id ∈ reused w.

(** The result a call holds. *)
Definition accounted (w : World) (pc : CallPc) : Prop :=
  match pc with
  | Leaving id _ r | Removing id _ r | Returned (Some id) r => explained w id r
  | Returned None r => r = inr ErrNotConnected
  | _ => True
  end.

Definition has_returned (call : Request * CallPc) : bool :=
  match call.2 with Returned _ _ => true | _ => false end.

Record accounts (w : World) : Prop := {
  ac_gauge : ActiveRequests (metrics (client w)) = s64 (tally counted (calls w));
  ac_outstanding : outstanding (metrics (client w)) = s64 (tally unsettled (calls w));
  ac_result : forall k rq pc, calls w !! k = Some (rq, pc) -> accounted w pc;
  ac_kept : forall k id ch, owner w k id ch -> kept w id ch;
  ac_alone : forall i j id ch ch', owner w i id ch -> owner w j id ch' -> i <> j -> id ∈ reused w
}.

Lemma explained_mono w w' id r :
  grows (handlers w) (handlers w') -> (closers w <> [] -> closers w' <> []) -> explained w id r -> explained w' id r.
Proof.
  intros Hg Hc [H|[H|[[H H']|(a & Ha & H)]]]; [by left|by right; left|by right; right; left; auto|].
  right; right; right. exists a. split; [by eapply carried_grows|done].
Qed.

Lemma accounted_mono w w' pc :
  grows (handlers w) (handlers w') -> (closers w <> [] -> closers w' <> []) -> accounted w pc -> accounted w' pc.
Proof. intros Hg Hc. destruct pc as [| | | | | | |[]]; cbn; try done; by apply explained_mono. Qed.

(** Steps of the other goroutines. *)
Record accounts_same (w w' : World) : Prop := {
  as_active : ActiveRequests (metrics (client w')) = ActiveRequests (metrics (client w));
  as_outstanding : outstanding (metrics (client w')) = outstanding (metrics (client w));
  as_calls : calls w' = calls w \/ exists rq, calls w' = calls w ++ [(rq, Checking)];
  as_grows : grows (handlers w) (handlers w');
  as_closers : closers w <> [] -> closers w' <> [];
  as_kept : forall k id ch, owner w k id ch -> kept w id ch -> kept w' id ch;
  as_reused : reused w' = reused w
}.

Lemma tally_app f l l' : tally f (l ++ l') = tally f l + tally f l'.
Proof. unfold tally. induction l as [|x l IH]; cbn; [done|]. rewrite IH. lia. Qed.

Lemma tally_insert f k x y l : l !! k = Some x -> tally f (<[k := y]> l) = tally f l - f x.2 + f y.2.
Proof.
  unfold tally. revert k. induction l as [|z l IH]; intros [|k] H; cbn in *; try done.
  - injection H as ->. lia.
  - rewrite IH by done. lia.
Qed.

Lemma as_lookup w w' k rq pc :
  accounts_same w w' -> calls w' !! k = Some (rq, pc) -> calls w !! k = Some (rq, pc) \/ pc = Checking.
Proof.
  intros [_ _ [->|[rq' ->]] _ _ _ _]; [by left|]. rewrite lookup_app_Some. intros [H|[_ H]]; [by left|].
  right. apply list_elem_of_lookup_2 in H. apply list_elem_of_singleton in H. by injection H.
Qed.

Lemma as_owner w w' k id ch : accounts_same w w' -> owner w' k id ch <-> owner w k id ch.
Proof.
  intros Hs. split; intros (rq & pc & H & E).
  - destruct (as_lookup _ _ _ _ _ Hs H) as [H'| ->]; [|done]. by exists rq, pc.
  - exists rq, pc. split; [|done]. destruct (as_calls _ _ Hs) as [->|[rq' ->]]; [done|]. by apply lookup_app_l_Some.
Qed.

Lemma accounts_keep w w' : accounts_same w w' -> accounts w -> accounts w'.
Proof.
  intros Hs [H1 H1' H2 H3 H4]. pose proof Hs as [Ha Ha' Hc Hg Hcl Hk Hr].
  assert (forall f, f Checking = 0 -> tally f (calls w') = tally f (calls w)) as Ht.
  { intros f Hf. destruct Hc as [->|[rq ->]]; [done|]. rewrite tally_app. cbn. rewrite Hf. lia. }
  split.
  - by rewrite Ha, H1, Ht.
  - by rewrite Ha', H1', Ht.
  - intros k rq pc Hpc. destruct (as_lookup _ _ _ _ _ Hs Hpc) as [H| ->]; [|done].
    eapply accounted_mono; [done..|by eapply H2].
  - intros k id ch Hk'%(as_owner _ _ _ _ _ Hs). by eapply Hk, H3.
  - intros i j id ch ch' Hi%(as_owner _ _ _ _ _ Hs) Hj%(as_owner _ _ _ _ _ Hs) Hne. rewrite Hr. exact (H4 _ _ _ _ _ Hi Hj Hne).
Qed.

Lemma note_reuse_mono pc w : reused w ⊆ reused (note_reuse pc w).
Proof. unfold note_reuse. destruct pc; try done. destruct (existsb (uses _) _); cbn; [apply union_subseteq_r|done]. Qed.

Lemma note_reuse_used w k id ch : owner w k id ch -> id ∈ reused (note_reuse (Registering id) w).
Proof.
  intros (rq & pc & H & E). unfold note_reuse.
  replace (existsb (uses id) (calls w)) with true; [cbn; apply elem_of_union_l, elem_of_singleton; done|].
  symmetry. apply existsb_exists. exists (rq, pc). split.
  - apply list_elem_of_In. by eapply list_elem_of_lookup_2.
  - unfold uses. cbn. rewrite E. apply Z.eqb_refl.
Qed.

Lemma kept_mono w w' id ch :
  pending (client w') !! id = pending (client w) !! id ->
  (forall cell, chans (client w) !! ch = Some cell -> chan_closed cell = true ->
     exists cell', chans (client w') !! ch = Some cell' /\ chan_closed cell' = true) ->
  reused w ⊆ reused w' -> kept w id ch -> kept w' id ch.
Proof.
  intros Hp Hc Hr [H|[(cell & H & Hx)|H]]; [left; by rewrite Hp|right; left; by eapply Hc|right; right; by apply Hr].
Qed.

(** A turn of a call closes no channel and opens none again. *)
Lemma moved_closed w c' pc pc' ch cell :
  moved w c' pc pc' -> chans (client w) !! ch = Some cell -> chan_closed cell = true ->
  exists cell', chans c' !! ch = Some cell' /\ chan_closed cell' = true.
Proof.
  intros Hm Hc Hx. destruct Hm; match goal with B : becomes _ _ _ _ _ _ |- _ => rewrite (b_chans _ _ _ _ _ _ B) end;
    try (by exists cell).
  - exists cell. rewrite lookup_insert_ne; [done|congruence].
  - match goal with D : drained _ _ |- _ => pose proof (D ch) as Hd end. rewrite Hc in Hd.
    destruct (m !! ch) as [cell'|]; [|done]. exists cell'. split; [done|]. by rewrite (proj1 Hd).
Qed.

(** What a turn of a call does to the ids in use. *)
Inductive id_change (w : World) (c' : Client) : CallPc -> CallPc -> Prop :=
  | ids_kept pc pc' : owns pc' = owns pc -> pending c' = pending (client w) -> id_change w c' pc pc'
  | ids_taken id ch : pending c' = <[id := ch]> (pending (client w)) ->
      id_change w c' (Registering id) (Sending id ch)
  | ids_freed id ch r : pending c' = delete id (pending (client w)) ->
      id_change w c' (Removing id ch r) (Returned (Some id) r).

Lemma moved_ids w c' pc pc' : moved w c' pc pc' -> id_change w c' pc pc'.
Proof.
  destruct 1; match goal with B : becomes _ _ _ _ _ _ |- _ => pose proof (b_pending _ _ _ _ _ _ B) end;
    by constructor.
Qed.

(** The tallies after a turn. *)
Lemma moved_tallies w c' k rq pc pc' :
  calls w !! k = Some (rq, pc) -> moved w c' pc pc' -> accounts w ->
  ActiveRequests (metrics c') = s64 (tally counted (<[k := (rq, pc')]> (calls w))) /\
  outstanding (metrics c') = s64 (tally unsettled (<[k := (rq, pc')]> (calls w))).
Proof.
  intros Hk Hm [H1 H1' _ _ _]. rewrite !(tally_insert _ _ _ _ _ Hk). cbn [snd].
  destruct Hm; match goal with B : becomes _ _ _ _ _ _ |- _ =>
      rewrite (b_active _ _ _ _ _ _ B), (b_outstanding _ _ _ _ _ _ B), H1, H1' end;
    cbn [counted unsettled dropped]; try destruct (dropped r);
    rewrite ?s64_succ, ?s64_pred; split; f_equal; lia.
Qed.

(** A turn keeps the entry of every request that can be answered. *)
Lemma turned_kept k rq pc pc' c' w w' j id ch :
  calls w !! k = Some (rq, pc) -> moved w c' pc pc' -> turned k rq pc pc' c' w w' -> channels w -> accounts w ->
  owner w' j id ch -> kept w' id ch.
Proof.
  intros Hk Hm Ht Hw [_ _ _ H3 H4]. pose proof Ht as [Hc _ _ _ _ _ _ _ Hre].
  assert (reused w ⊆ reused w') as Hsub by (rewrite Hre; apply note_reuse_mono).
  assert (forall id0 ch0, kept w id0 ch0 -> pending c' !! id0 = pending (client w) !! id0 -> kept w' id0 ch0) as Hkeep.
  { intros id0 ch0 Hk0 Hp. apply (kept_mono w); [by rewrite Hc| |done|done].
    intros cell Hcell Hx. rewrite Hc. by eapply moved_closed. }
  rewrite (owner_moves _ _ _ _ _ _ _ _ _ Hk (t_calls _ _ _ _ _ _ _ Ht)).
  destruct (moved_ids _ _ _ _ Hm) as [pc pc' Hown Hp|id' ch' Hp|id' ch' r Hp]; case_decide as Hjk; intros Hj.
  - subst j. rewrite Hown in Hj. apply Hkeep; [|by rewrite Hp]. eapply H3. by do 2 eexists.
  - apply Hkeep; [by eapply H3|by rewrite Hp].
  - injection Hj as <- <-. left. rewrite Hc, Hp. apply lookup_insert_eq.
  - destruct (decide (id' = id)) as [->|Hne].
    + right; right. rewrite Hre. by eapply note_reuse_used.
    + apply Hkeep; [by eapply H3|by rewrite Hp, lookup_insert_ne].
  - done.
  - destruct (decide (id' = id)) as [->|Hne].
    + right; right. apply Hsub. apply (H4 j k id ch ch'); [done|by do 2 eexists|done].
    + apply Hkeep; [by eapply H3|by rewrite Hp, lookup_delete_ne].
Qed.

(** After a turn two calls share an id only if it was reused. *)
Lemma turned_alone k rq pc pc' c' w w' i j id ch ch' :
  calls w !! k = Some (rq, pc) -> moved w c' pc pc' -> turned k rq pc pc' c' w w' -> accounts w ->
  owner w' i id ch -> owner w' j id ch' -> i <> j -> id ∈ reused w'.
Proof.
  intros Hk Hm Ht [_ _ _ _ H4]. pose proof (t_reused _ _ _ _ _ _ _ Ht) as Hre.
  assert (forall i' j' ch0 ch0', owner w i' id ch0 -> owner w j' id ch0' -> i' <> j' -> id ∈ reused w') as Hold.
  { intros i' j' ch0 ch0' Hi Hj Hne. rewrite Hre. apply note_reuse_mono. exact (H4 _ _ _ _ _ Hi Hj Hne). }
  rewrite !(owner_moves _ _ _ _ _ _ _ _ _ Hk (t_calls _ _ _ _ _ _ _ Ht)).
  destruct (moved_ids _ _ _ _ Hm) as [pc pc' Hown _|id' ch'' _|id' ch'' r _]; repeat case_decide; subst;
    intros Hi Hj Hne; try done; try exact (Hold _ _ _ _ Hi Hj Hne).
  - eapply (Hold k j); [|done..]. do 2 eexists. split; [done|]. by rewrite <- Hown.
  - eapply (Hold i k); [done| |done]. do 2 eexists. split; [done|]. by rewrite <- Hown.
  - injection Hi as -> ->. rewrite Hre. by eapply note_reuse_used.
  - injection Hj as -> ->. rewrite Hre. by eapply note_reuse_used.
Qed.

Lemma turned_accounts k rq pc pc' c' w w' :
  calls w !! k = Some (rq, pc) -> moved w c' pc pc' -> turned k rq pc pc' c' w w' ->
  channels w -> accounts w -> accounts w'.
Proof.
  intros Hk Hm Ht Hw Ha. pose proof Ht as [Hc Hca Hh _ _ Hcl _ _ _].
  destruct (moved_tallies _ _ _ _ _ _ Hk Hm Ha) as [Hact Hout].
  split; [by rewrite Hc, Hca|by rewrite Hc, Hca| | |].
  - intros j rq' pcj. rewrite Hca, list_lookup_insert_Some. intros [(-> & E & _)|[_ Hj]];
      (apply (accounted_mono w); [by rewrite Hh|by rewrite Hcl|]); [|by eapply (ac_result w Ha)].
    injection E as <- <-. pose proof (ac_result w Ha _ _ _ Hk) as Hold.
    destruct Hm; cbn in *; try done. left. by eexists.
  - intros j id ch. by eapply turned_kept.
  - intros i j id ch ch'. by eapply turned_alone.
Qed.

(** ** What the turn of a handler does *)

Definition panics (w : World) : Z := get PanicsRecovered_ (metrics (client w)).

Lemma unconfirmed_effect apdu addr npdu c :
  wf_apdu apdu -> pending_open c -> APDU_Type apdu = PDUTypeUnconfirmedRequest ->
  exists c', handleUnconfirmedRequest apdu addr npdu c = (Ret tt, c') /\ only_handled c c' /\ chans c' = chans c.
Proof.
  intros Hwf Hw Ht. pose proof (dispatch_runs apdu addr npdu c Hwf Hw) as H. unfold dispatch in H. rewrite Ht in H.
  cbn in H. unfold runs in H. destruct (handleUnconfirmedRequest apdu addr npdu c) as [[[]| | |] c'] eqn:E; try done.
  exists c'. destruct H as [H _]. split_and!; [done..|].
  unfold handleUnconfirmedRequest, handleCOVNotification in E.
  repeat case_match; [by eapply handleIAm_chans|..]; by injection E as <-.
Qed.

Lemma begin_packet_effect data addr c :
  wf_bytes data -> pending_open c ->
  exists r c', begin_packet data addr c = (Ret r, c') /\ only_handled c c' /\ chans c' = chans c /\
    match r with
    | Some (ch, a) => (exists npdu, parse_packet data = Ret (npdu, a)) /\ is_response (APDU_Type a) = true /\
                      pending c !! InvokeID a = Some ch
    | None => True
    end.
Proof.
  intros Hwf Hw. unfold begin_packet. pose proof (parse_packet_safe data Hwf) as Hs.
  destruct (parse_packet data) as [[npdu a]|e| |]; try done; [|by exists None, c].
  unfold mbind, inc, modify, lookup_response, gets, mret.
  destruct (Z.eqb_spec (APDU_Type a) PDUTypeUnconfirmedRequest) as [Ht|_].
  - match goal with |- context [handleUnconfirmedRequest a addr npdu ?c1] =>
      destruct (unconfirmed_effect a addr npdu c1) as (c' & -> & Ho & Hc); [exact Hs|exact Hw|done|] end.
    exists None, c'. split_and!; [done| |done|done]. etransitivity; [|exact Ho]. by split.
  - assert (forall t, APDU_Type a = t -> is_response t = true -> is_response (APDU_Type a) = true) as Hresp by naive_solver.
    destruct (Z.eqb_spec (APDU_Type a) PDUTypeSimpleAck) as [Ht|_];
    [|destruct (Z.eqb_spec (APDU_Type a) PDUTypeComplexAck) as [Ht|_];
    [|destruct (Z.eqb_spec (APDU_Type a) PDUTypeError) as [Ht|_];
    [|destruct (Z.eqb_spec (APDU_Type a) PDUTypeReject) as [Ht|_];
    [|destruct (Z.eqb_spec (APDU_Type a) PDUTypeAbort) as [Ht|_];
    [|exists None; eexists; split; [reflexivity|]; by split_and!; [split| |]]]]]];
    cbn [orb]; do 2 eexists; (split; [reflexivity|]); (split; [by split|]); (split; [done|]);
    match goal with |- context [option_map _ ?o] => change o with (pending c !! InvokeID a) end;
    destruct (pending c !! InvokeID a) as [ch|] eqn:Hp; cbn [option_map]; try done;
    (split; [by exists npdu|]); (split; [by apply (Hresp _ Ht)|exact Hp]).
Qed.

(** The world after a turn of a handler. *)
Record handler_turned (k : nat) (hd : Handler) (pc : HandlerPc) (c' : Client) (w w' : World) : Prop := {
  h_client : client w' = c';
  h_calls : calls w' = calls w;
  h_handlers : handlers w' = <[k := {| H_data := H_data hd; H_addr := H_addr hd; H_pc := pc |}]> (handlers w);
  h_receivers : receivers w' = receivers w;
  h_life : life w' = life w;
  h_closers : closers w' = closers w;
  h_connectors : connectors w' = connectors w;
  h_crashed : crashed w' = crashed w;
  h_reused : reused w' = reused w;
  h_state : state c' = state (client w);
  h_transport : transport c' = transport (client w);
  h_pending : pending c' = pending (client w);
  h_active : ActiveRequests (metrics c') = ActiveRequests (metrics (client w));
  h_outstanding : outstanding (metrics c') = outstanding (metrics (client w))
}.

(** The ways a handler moves, and what that does to channels and panics. *)
Inductive handler_moved (w : World) (hd : Handler) (c' : Client) : HandlerPc -> Prop :=
  | hm_lookup ch a npdu :
      H_pc hd = Arrived -> chans c' = chans (client w) -> parse_packet (H_data hd) = Ret (npdu, a) ->
      is_response (APDU_Type a) = true -> pending (client w) !! InvokeID a = Some ch ->
      get PanicsRecovered_ (metrics c') = panics w -> handler_moved w hd c' (Delivering ch a)
  | hm_finish :
      chans c' = chans (client w) -> get PanicsRecovered_ (metrics c') = panics w ->
      handler_moved w hd c' Finished
  | hm_deliver ch a :
      H_pc hd = Delivering ch a ->
      chans (client w) !! ch = Some {| buffer := None; chan_closed := false |} ->
      chans c' = <[ch := {| buffer := Some a; chan_closed := false |}]> (chans (client w)) ->
      get PanicsRecovered_ (metrics c') = panics w ->
      handler_moved w hd c' Finished
  | hm_panic ch a cell :
      H_pc hd = Delivering ch a -> chans (client w) !! ch = Some cell -> chan_closed cell = true ->
      chans c' = chans (client w) -> handler_moved w hd c' Finished.

Lemma handler_turn_turned w k hd :
  channels w -> handlers w !! k = Some hd ->
  exists pc c', handler_moved w hd c' pc /\ handler_turned k hd pc c' w (handler_turn k w).
Proof.
  intros Hw Hk. unfold handler_turn. rewrite Hk. unfold recovered, handler_step.
  destruct (H_pc hd) as [|ch a|] eqn:Hpc.
  - destruct (begin_packet_effect (H_data hd) (H_addr hd) (client w)) as (r & c' & E & Ho & Hc & Hr);
      [by eapply (ch_wf w Hw)|by apply ch_open|].
    unfold mbind. rewrite E. unfold mret. destruct Ho as [O1 O2 O3 O4 O5 O6 O7 O8 O9].
    destruct r as [[ch a]|]; do 2 eexists; (split; [|by split]).
    + destruct Hr as ([npdu Hp] & Hr & Hpe). by eapply hm_lookup.
    + by apply hm_finish.
  - destruct (ch_held w Hw _ _ _ _ Hk Hpc) as ([[b cl] Hc] & _). unfold mbind, try_send. rewrite Hc. cbn [chan_closed buffer].
    destruct cl; [|destruct b as [b|]]; do 2 eexists; (split; [|by split]).
    + by eapply hm_panic.
    + by apply hm_finish.
    + by eapply hm_deliver.
  - do 2 eexists. split; [|by split]. by apply hm_finish.
Qed.

Lemma handler_turned_channels k hd pc c' w w' :
  handlers w !! k = Some hd -> handler_moved w hd c' pc -> handler_turned k hd pc c' w w' ->
  channels w -> channels w'.
Proof.
  intros Hk Hm [Hc Hca Hh _ _ Hcl _ _ _ _ _ Hp _ _] Hw. subst c'.
  assert (pc = Finished -> chans (client w') = chans (client w) -> channels w') as Hsame.
  { intros -> Hch. apply (channels_keep w); [|done]. split; rewrite ?Hp, ?Hch, ?Hcl; try done.
    - apply drained_refl.
    - intros. unfold owner. by rewrite Hca.
    - rewrite Hh. by eapply grows_insert.
    - intros h hd' ch a. rewrite Hh, list_lookup_insert_Some. by intros [(_ & <- & _)|[_ H]].
    - intros Hwf h hd'. rewrite Hh, list_lookup_insert_Some. intros [(-> & <- & _)|[_ H]]; [by apply (Hwf h hd)|by eapply Hwf]. }
  destruct Hm; [by eapply channels_lookup|by apply Hsame|by eapply channels_deliver|by apply Hsame].
Qed.

Lemma handler_turned_accounts k hd pc c' w w' :
  handlers w !! k = Some hd -> handler_moved w hd c' pc -> handler_turned k hd pc c' w w' -> accounts_same w w'.
Proof.
  intros Hk Hm [Hc Hca Hh _ _ Hcl _ _ Hre _ _ Hp Ha Ho]. subst c'. split; rewrite ?Hcl, ?Hre, ?Ha; try done.
  - by left.
  - rewrite Hh. by eapply grows_insert.
  - intros j id ch _. apply kept_mono; [by rewrite Hp| |by rewrite Hre].
    intros cell Hcell Hx. destruct Hm as [? ? ? _ Hm|Hm|ch' ? ? ? Hm|? ? ? ? ? ? Hm]; rewrite Hm; try (by exists cell).
    exists cell. rewrite lookup_insert_ne; [done|]. intros ->. rewrite Hcell in *. simplify_eq.
Qed.

(** ** What the turns of [Close], [Connect] and the receivers do *)

(** The fields only the life cycle changes: [st] is the new state, [p] and [m]
    the new pending requests and channels. *)
Record life_moved (w w' : World) (st : Z) (p : gmap Z Z) (m : gmap Z Chan) (rs : list ReceiverPc) (lf : Life) : Prop := {
  l_state : state (client w') = st;
  l_pending : pending (client w') = p;
  l_chans : chans (client w') = m;
  l_receivers : receivers w' = rs;
  l_life : life w' = lf;
  l_calls : calls w' = calls w;
  l_handlers : handlers w' = handlers w;
  l_closers : closers w' = closers w;
  l_connectors : connectors w' = connectors w;
  l_reused : reused w' = reused w;
  l_crashed : crashed w' = crashed w;
  l_active : ActiveRequests (metrics (client w')) = ActiveRequests (metrics (client w));
  l_outstanding : outstanding (metrics (client w')) = outstanding (metrics (client w));
  l_panics : panics w' = panics w
}.

(** Nothing but counters, the transport or options. *)
Definition idles (w w' : World) : Prop :=
  life_moved w w' (state (client w)) (pending (client w)) (chans (client w)) (receivers w) (life w).

(** A [Close] that has to wait, or has returned. *)
Definition blocked (w : World) (pc : ClosePc) : Prop :=
  match pc with
  | AwaitReceiver done => done ≫= (fun d => dones (life w) !! d) <> Some true
  | AwaitHandlers => forallb is_finished (handlers w) = false
  | Closed _ => True
  | _ => False
  end.

Inductive close_moved (w w' : World) : ClosePc -> ClosePc -> Prop :=
  | cm_nothing : state (client w) = StateDisconnected -> idles w w' -> close_moved w w' Loading (Closed None)
  | cm_loaded : idles w w' -> close_moved w w' Loading Storing
  | cm_stored :
      life_moved w w' StateDisconnected (pending (client w)) (chans (client w)) (receivers w) (life w) ->
      close_moved w w' Storing Cancelling
  | cm_never_received : receiverCtx (life w) = None -> idles w w' -> close_moved w w' Cancelling AwaitHandlers
  | cm_cancelled c :
      receiverCtx (life w) = Some c ->
      life_moved w w' (state (client w)) (pending (client w)) (chans (client w)) (receivers w) (cancel c (life w)) ->
      close_moved w w' Cancelling Joining
  | cm_joined : idles w w' -> close_moved w w' Joining (AwaitReceiver (receiverDone (life w)))
  | cm_waits pc : blocked w pc -> idles w w' -> close_moved w w' pc pc
  | cm_receiver_done d :
      dones (life w) !! d = Some true -> idles w w' -> close_moved w w' (AwaitReceiver (Some d)) AwaitHandlers
  | cm_handlers_done :
      forallb is_finished (handlers w) = true -> idles w w' -> close_moved w w' AwaitHandlers Draining
  | cm_drained chs m :
      closes chs (chans (client w)) m -> (forall ch, ch ∈ chs <-> exists id, pending (client w) !! id = Some ch) ->
      life_moved w w' (state (client w)) ∅ m (receivers w) (life w) ->
      close_moved w w' Draining Closing
  | cm_closed r : idles w w' -> close_moved w w' Closing (Closed r).

Lemma close_step_moves w cr iterate pc :
  channels w -> no_panic cr -> (forall p, iterate p ≡ₚ (map_to_list p).*2) ->
  exists pc' w', close_step cr iterate pc w = (Ret pc', w') /\ close_moved w w' pc pc'.
Proof.
  intros Hw Hcr Hit. assert (idles w w) as Hid by (by split).
  destruct pc; cbn [close_step]; unfold lift, mbind, gets, inc, modify, call, mret.
  - do 2 eexists. split; [reflexivity|].
    destruct (Z.eqb_spec (state (client w)) StateDisconnected) as [E|_]; [apply cm_nothing; [done|]|apply cm_loaded]; by split.
  - do 2 eexists. split; [reflexivity|]. apply cm_stored. by split.
  - destruct (receiverCtx (life w)) as [c|] eqn:Ec; do 2 eexists; (split; [reflexivity|]);
      [by apply (cm_cancelled _ _ c)|by apply cm_never_received].
  - do 2 eexists. split; [reflexivity|]. by apply cm_joined.
  - destruct (done ≫= _) as [[|]|] eqn:Ed; [|do 2 eexists; (split; [reflexivity|]); by apply cm_waits; [cbn; rewrite Ed|]..].
    destruct done as [d|]; [|done]. do 2 eexists. split; [reflexivity|]. by apply cm_receiver_done.
  - do 2 eexists. split; [reflexivity|]. destruct (forallb _ _) eqn:Ef; [by apply cm_handlers_done|by apply cm_waits].
  - destruct (close_all_spec (iterate (pending (client w))) (client w)) as (m & -> & Hout & Hin).
    { eapply pending_chans_NoDup; [by apply channels_unshared|done]. }
    { intros ch [id Hid']%(pending_chans_elem (client w)); [|done]. by eapply (ch_open w Hw). }
    do 2 eexists. split; [reflexivity|]. eapply cm_drained; [by split| |by split].
    intros ch. by apply pending_chans_elem.
  - assert (exists r, try (Transport.Close cr (transport (client w))).1 = Ret r) as [r Hr].
    { destruct Hcr. unfold Transport.Close. repeat case_match; cbn; eauto; by destruct cr; eauto. }
    destruct (Transport.Close cr (transport (client w))) as [cl t]. cbn [fst] in Hr. rewrite Hr.
    do 2 eexists. split; [reflexivity|]. apply cm_closed. by split.
  - do 2 eexists. split; [reflexivity|]. by apply cm_waits.
Qed.

Inductive connect_moved (w w' : World) : ConnectPc -> ConnectPc -> Prop :=
  | nm_refused r : state (client w) <> StateDisconnected -> idles w w' -> connect_moved w w' Swapping (Connected r)
  | nm_swapped :
      state (client w) = StateDisconnected ->
      life_moved w w' StateConnecting (pending (client w)) (chans (client w)) (receivers w) (life w) ->
      connect_moved w w' Swapping Opening
  | nm_failed r :
      life_moved w w' StateDisconnected (pending (client w)) (chans (client w)) (receivers w) (life w) ->
      connect_moved w w' Opening (Connected r)
  | nm_opened : idles w w' -> connect_moved w w' Opening MakingCtx
  | nm_context :
      life_moved w w' (state (client w)) (pending (client w)) (chans (client w)) (receivers w)
        {| contexts := contexts (life w) ++ [false]; dones := dones (life w);
           receiverCtx := Some (length (contexts (life w))); receiverDone := receiverDone (life w) |} ->
      connect_moved w w' MakingCtx MakingDone
  | nm_channel :
      life_moved w w' (state (client w)) (pending (client w)) (chans (client w)) (receivers w)
        {| contexts := contexts (life w); dones := dones (life w) ++ [false];
           receiverCtx := receiverCtx (life w); receiverDone := Some (length (dones (life w))) |} ->
      connect_moved w w' MakingDone Spawning
  | nm_started :
      life_moved w w' (state (client w)) (pending (client w)) (chans (client w)) (receivers w ++ [Spawned]) (life w) ->
      connect_moved w w' Spawning Entering
  | nm_entered :
      life_moved w w' StateConnected (pending (client w)) (chans (client w)) (receivers w) (life w) ->
      connect_moved w w' Entering Announcing
  | nm_announced r : idles w w' -> connect_moved w w' Announcing (Connected r)
  | nm_done r : idles w w' -> connect_moved w w' (Connected r) (Connected r).

Lemma Open_try resolve listen t :
  (forall s, no_panic (resolve s)) -> (forall a, no_panic (listen a)) ->
  exists (r : unit + error) t', Open resolve listen t = (match r with inl _ => Ret tt | inr e => Err e end, t').
Proof.
  intros Hres Hlis. unfold Open. destruct (conn t); [by exists (inl tt), t|].
  destruct (localAddr t =? EmptyString)%string.
  - destruct (Hlis None) as [H1 H2]. destruct (listen None); try done; [by eexists (inl tt), _|by eexists (inr _), _].
  - destruct (Hres (localAddr t)) as [H1 H2]. destruct (resolve (localAddr t)) as [a|e| |]; try done;
      [|by eexists (inr _), _].
    destruct (Hlis (Some a)) as [H3 H4]. destruct (listen (Some a)); try done; [by eexists (inl tt), _|by eexists (inr _), _].
Qed.

Lemma registerForeignDevice_returns env resolve c :
  (forall addr packet, no_panic (write_result env addr packet)) -> (forall s, no_panic (resolve s)) ->
  exists r, registerForeignDevice env resolve c = (Ret r, c).
Proof.
  intros Hwr Hres. unfold registerForeignDevice, mbind, gets, call, mret.
  match goal with |- context [resolve ?s] => destruct (Hres s) as [H1 H2]; destruct (resolve s) as [addr|e| |] end;
    cbn [try]; try done; [|by eexists].
  match goal with |- context [Send ?cx ?now ?a ?d ?wr ?t] =>
    destruct (Send_try cx now a d wr t (Hwr _ _)) as ([[]|e] & out & ->) end; by eexists.
Qed.

Lemma connect_step_moves w env resolve listen pc :
  (forall addr packet, no_panic (write_result env addr packet)) -> (forall s, no_panic (resolve s)) ->
  (forall a, no_panic (listen a)) ->
  exists pc' w', connect_step env resolve listen pc w = (Ret pc', w') /\ connect_moved w w' pc pc'.
Proof.
  intros Hwr Hres Hlis. destruct pc; cbn [connect_step]; unfold lift, mbind, gets, inc, modify, call, mret.
  - destruct (Z.eqb_spec (state (client w)) StateDisconnected) as [E|E]; cbn [negb];
      do 2 eexists; (split; [reflexivity|]); [by apply nm_swapped|by apply nm_refused].
  - destruct (Open_try resolve listen (transport (client w)) Hres Hlis) as ([[]|e] & t & ->); cbn [try];
      do 2 eexists; (split; [reflexivity|]); [by apply nm_opened|by apply nm_failed].
  - do 2 eexists. split; [reflexivity|]. by apply nm_context.
  - do 2 eexists. split; [reflexivity|]. by apply nm_channel.
  - do 2 eexists. split; [reflexivity|]. by apply nm_started.
  - do 2 eexists. split; [reflexivity|]. by apply nm_entered.
  - destruct (_ =? EmptyString)%string; cbn [negb]; [do 2 eexists; split; [reflexivity|by apply nm_announced]|].
    destruct (registerForeignDevice_returns env resolve (client w) Hwr Hres) as [r ->].
    do 2 eexists; split; [reflexivity|by apply nm_announced].
  - do 2 eexists. split; [reflexivity|]. by apply nm_done.
Qed.

(** The channel a receiver will close. *)
Definition bound (r : ReceiverPc) : option (option nat) :=
  match r with Polling done | Receiving done => Some done | _ => None end.

(** A turn of a receiver: it stays, moves on, starts a handler, returns, or
    panics, because its context is nil or its channel closed or nil. *)
Inductive receiver_moved (w w' : World) (k : nat) : Prop :=
  | rv_stays : w' = w -> receiver_moved w w' k
  | rv_goes r r' :
      receivers w !! k = Some r -> is_stopped r = false -> is_stopped r' = false ->
      bound r' = Some (default (receiverDone (life w)) (bound r)) ->
      life_moved w w' (state (client w)) (pending (client w)) (chans (client w)) (<[k := r']> (receivers w)) (life w) ->
      receiver_moved w w' k
  | rv_handles done hd w1 :
      receivers w !! k = Some (Receiving done) -> wf_bytes (H_data hd) -> H_pc hd = Arrived ->
      life_moved w w1 (state (client w)) (pending (client w)) (chans (client w))
        (<[k := Polling done]> (receivers w)) (life w) ->
      w' = set_handlers (handlers w ++ [hd]) w1 -> receiver_moved w w' k
  | rv_stops r d :
      receivers w !! k = Some r -> bound r = Some (Some d) -> dones (life w) !! d = Some false ->
      life_moved w w' (state (client w)) (pending (client w)) (chans (client w)) (<[k := Stopped]> (receivers w))
        {| contexts := contexts (life w); dones := <[d := true]> (dones (life w));
           receiverCtx := receiverCtx (life w); receiverDone := receiverDone (life w) |} ->
      receiver_moved w w' k
  | rv_panics r w1 :
      receivers w !! k = Some r -> is_stopped r = false ->
      ctx_done (life w) = None \/
      (exists done, bound r = Some done /\ done ≫= (fun d => dones (life w) !! d) <> Some false) ->
      client w1 = client w -> calls w1 = calls w -> handlers w1 = handlers w -> closers w1 = closers w ->
      reused w1 = reused w ->
      w' = set_crashed true w1 -> receiver_moved w w' k.

Lemma close_done_moves w k r done :
  receivers w !! k = Some r -> bound r = Some done ->
  receiver_moved w (close_done done (set_receiver k Stopped w)) k.
Proof.
  intros Hk Hb. assert (is_stopped r = false) as Hs by (by destruct r).
  unfold close_done. cbn [life set_receiver set_receivers].
  destruct done as [d|]; [destruct (dones (life w) !! d) as [[|]|] eqn:Ed|];
    try (eapply (rv_panics _ _ _ r (set_receiver k Stopped w)); [done|done| |done..]; right; eexists;
         split; [done|]; cbn; by rewrite ?Ed).
  by eapply rv_stops.
Qed.

Lemma set_receiver_moves w k r r' :
  receivers w !! k = Some r -> is_stopped r = false -> is_stopped r' = false ->
  bound r' = Some (default (receiverDone (life w)) (bound r)) -> receiver_moved w (set_receiver k r' w) k.
Proof. intros. by eapply rv_goes. Qed.

Lemma receiver_step_moves w k now read : wf_read read -> receiver_moved w (receiver_step k now read w) k.
Proof.
  intros Hr. unfold receiver_step. destruct (receivers w !! k) as [[|done|done|]|] eqn:Er; try by apply rv_stays.
  - by eapply set_receiver_moves.
  - destruct (ctx_done (life w)) as [[|]|] eqn:Ec.
    + by eapply close_done_moves.
    + by eapply set_receiver_moves.
    + eapply (rv_panics _ _ _ _ w); [done|done|by left|done..].
  - unfold receiver_turn, ReceiveWithTimeout, Receive. set (t := transport (client w)).
    destruct (conn t) as [cn|]; [destruct (is_open cn); cbn [negb]|];
      [match goal with |- context [read ?d] => specialize (Hr d); destruct (read d) as [[data addr]|e| |] end; try done|..];
      cbn [obind try];
      [|(destruct (is_net_timeout _); [by eapply set_receiver_moves|]; destruct (IsClosed t); [by eapply close_done_moves|by eapply set_receiver_moves])..].
    eapply (rv_handles w _ k done {| H_data := take 1500 data; H_addr := addr; H_pc := Arrived |}
          (set_receiver k (Polling done)
             (set_client (set_metrics (RecordActivity now
                (Add BytesReceived_ (len (take 1500 data)) (metrics (client w)))) (client w)) w)));
          [done|by apply wf_take|done|by split|reflexivity].
Qed.

(** ** The invariant of every interleaving *)

Record consistent (w : World) : Prop := {
  con_channels : channels w;
  con_accounts : accounts w
}.

(** Steps that leave requests alone, apart from new handlers. *)
Record unrelated (w w' : World) : Prop := {
  un_pending : pending (client w') = pending (client w);
  un_chans : chans (client w') = chans (client w);
  un_active : ActiveRequests (metrics (client w')) = ActiveRequests (metrics (client w));
  un_outstanding : outstanding (metrics (client w')) = outstanding (metrics (client w));
  un_calls : calls w' = calls w \/ exists rq, calls w' = calls w ++ [(rq, Checking)];
  un_handlers : handlers w' = handlers w \/
    exists hd, handlers w' = handlers w ++ [hd] /\ H_pc hd = Arrived /\ wf_bytes (H_data hd);
  un_closers : closers w <> [] -> closers w' <> [];
  un_reused : reused w' = reused w
}.

Lemma unrelated_consistent w w' : unrelated w w' -> consistent w -> consistent w'.
Proof.
  intros [Hp Hm Ha Ha' Hca Hh Hcl Hre] [H1 H2].
  assert (grows (handlers w) (handlers w')) as Hg.
  { destruct Hh as [->|(hd & -> & _)]; [done|apply grows_app]. }
  assert (accounts_same w w') as Has.
  { split; try done. intros k id ch _. apply kept_mono; [by rewrite Hp| |by rewrite Hre].
    intros cell. rewrite Hm. by exists cell. }
  split; [|by eapply accounts_keep].
  apply (channels_keep w); [|done]. split; try done.
  - rewrite Hm. apply drained_refl.
  - intros. by apply as_owner.
  - intros h hd ch a. destruct Hh as [->|(hd' & -> & Harr & _)]; [done|].
    rewrite lookup_app_Some. intros [H|[_ H]] Hpc; [done|].
    apply list_elem_of_lookup_2, list_elem_of_singleton in H. congruence.
  - intros Hwf h hd. destruct Hh as [->|(hd' & -> & _ & Hwf')]; [by apply Hwf|].
    rewrite lookup_app_Some. intros [H|[_ H]]; [by eapply Hwf|].
    apply list_elem_of_lookup_2, list_elem_of_singleton in H. by subst.
Qed.

Lemma life_unrelated w w1 w' st rs lf :
  life_moved w w1 st (pending (client w)) (chans (client w)) rs lf ->
  client w' = client w1 -> calls w' = calls w1 -> handlers w' = handlers w1 -> reused w' = reused w1 ->
  (closers w <> [] -> closers w' <> []) -> unrelated w w'.
Proof.
  intros [] Hc Hca Hh Hr Hcl. split; rewrite ?Hc, ?Hca, ?Hh, ?Hr; try done; by left; congruence.
Qed.

Lemma insert_not_nil {A} k (x : A) l : l <> [] -> <[k := x]> l <> [].
Proof. destruct l, k; done. Qed.

Lemma call_turn_consistent w k ev :
  (forall addr p, no_panic (E_write ev addr p)) -> consistent w -> consistent (call_turn k ev w).
Proof.
  intros Hwr [H1 H2]. destruct (calls w !! k) as [[rq pc]|] eqn:Hk.
  - destruct (call_turn_turned w k ev rq pc H1 Hk Hwr) as (pc' & c' & Hm & Ht).
    split; [by eapply turned_channels|by eapply turned_accounts].
  - unfold call_turn. by rewrite Hk.
Qed.

Lemma handler_turn_consistent w k : consistent w -> consistent (handler_turn k w).
Proof.
  intros [H1 H2]. destruct (handlers w !! k) as [hd|] eqn:Hk.
  - destruct (handler_turn_turned w k hd H1 Hk) as (pc & c' & Hm & Ht).
    split; [by eapply handler_turned_channels|].
    eapply accounts_keep; [by eapply handler_turned_accounts|done].
  - unfold handler_turn. by rewrite Hk.
Qed.

Lemma receiver_step_consistent w k now read :
  wf_read read -> consistent w -> consistent (receiver_step k now read w).
Proof.
  intros Hr Hw. eapply unrelated_consistent; [|done].
  destruct (receiver_step_moves w k now read Hr)
    as [->|r r' _ _ _ _ Hl|done hd w1 _ Hwf Harr Hl ->|r d _ _ _ Hl|r w1 _ _ _ Hc Hca Hh Hcl Hre ->].
  - split; try done; by left.
  - eapply life_unrelated; [exact Hl|done..|]. by rewrite (l_closers _ _ _ _ _ _ _ Hl).
  - destruct Hl. split; cbn; try done; [by left|right; by exists hd|congruence].
  - eapply life_unrelated; [exact Hl|done..|]. by rewrite (l_closers _ _ _ _ _ _ _ Hl).
  - split; cbn; rewrite ?Hc, ?Hca, ?Hh, ?Hcl; try done; by left.
Qed.

Lemma drained_consistent w w' chs :
  closes chs (chans (client w)) (chans (client w')) ->
  (forall ch, ch ∈ chs <-> exists id, pending (client w) !! id = Some ch) ->
  pending (client w') = ∅ -> calls w' = calls w -> handlers w' = handlers w -> closers w' <> [] ->
  reused w' = reused w ->
  ActiveRequests (metrics (client w')) = ActiveRequests (metrics (client w)) ->
  outstanding (metrics (client w')) = outstanding (metrics (client w)) ->
  consistent w -> consistent w'.
Proof.
  intros Hm Hchs Hp Hca Hh Hcl Hre Ha Ho [H1 H2]. split; [by eapply channels_drain|].
  apply (accounts_keep w); [|done]. split; rewrite ?Hh; try done; [by left|].
  intros k id ch _ [H|[(cell & Hc & Hx)|H]]; [| |by right; right; rewrite Hre]; right; left.
  - destruct (proj2 Hm ch) as (b & _ & Hb); [by apply Hchs; exists id|]. by eexists.
  - destruct (closes_exists _ _ _ ch Hm) as [cell' Hc']; [by eexists|]. exists cell'. split; [done|].
    destruct (closes_Some _ _ _ _ _ Hm Hc') as (cell0 & Hc0 & _ & Hcl'). apply Hcl'. congruence.
Qed.

Lemma close_turn_consistent w k cr iterate :
  no_panic cr -> (forall p, iterate p ≡ₚ (map_to_list p).*2) -> consistent w ->
  consistent (close_turn k cr iterate w).
Proof.
  intros Hcr Hit Hw. unfold close_turn. destruct (closers w !! k) as [pc|] eqn:Hk; [|done].
  assert (forall pc', <[k := pc']> (closers w) <> []) as Hne.
  { intros pc'. apply insert_not_nil. intros E. by rewrite E in Hk. }
  destruct (close_step_moves w cr iterate pc (con_channels w Hw) Hcr Hit) as (pc' & w1 & -> & Hm).
  destruct Hm as [_ Hl|Hl|Hl|_ Hl|c _ Hl|Hl|pc _ Hl|d _ Hl|_ Hl|chs m Hcs Hchs Hl|r Hl];
    try (eapply unrelated_consistent; [|done]; eapply life_unrelated; [exact Hl|done..|intros _; apply Hne]).
  destruct Hl. apply (drained_consistent w _ chs); cbn; rewrite ?l_chans0; done || apply Hne.
Qed.

Lemma connect_turn_consistent w k env resolve listen :
  (forall addr packet, no_panic (write_result env addr packet)) -> (forall s, no_panic (resolve s)) ->
  (forall a, no_panic (listen a)) -> consistent w -> consistent (connect_turn k env resolve listen w).
Proof.
  intros Hwr Hres Hlis Hw. unfold connect_turn. destruct (connectors w !! k) as [pc|] eqn:Hk; [|done].
  destruct (connect_step_moves w env resolve listen pc Hwr Hres Hlis) as (pc' & w1 & -> & Hm).
  destruct Hm as [r _ Hl|_ Hl|r Hl|Hl|Hl|Hl|Hl|Hl|r Hl|r Hl];
    (eapply unrelated_consistent; [|done]; eapply life_unrelated; [exact Hl|done..|];
     cbn; by rewrite (l_closers _ _ _ _ _ _ _ Hl)).
Qed.

Lemma perform_consistent overlap w a : possible overlap w a -> consistent w -> consistent (perform a w).
Proof.
  intros Hp Hw. unfold perform. destruct (crashed w); [done|]. destruct a; cbn [possible] in Hp.
  - eapply unrelated_consistent; [|done]. split; cbn; try done; first [by left|right; by eexists].
  - by apply call_turn_consistent.
  - by apply handler_turn_consistent.
  - by apply receiver_step_consistent.
  - eapply unrelated_consistent; [|done]. split; cbn; try done; try (by left). by destruct (closers w).
  - destruct Hp. by apply close_turn_consistent.
  - eapply unrelated_consistent; [|done]. split; cbn; try done; by left.
  - destruct Hp as (? & ? & ?). by apply connect_turn_consistent.
  - eapply unrelated_consistent; [|done]. destruct Hp. split; cbn; try done; by left.
Qed.

Lemma new_world_consistent now options : consistent (new_world now options).
Proof.
  assert (forall k id ch, ~ owner (new_world now options) k id ch) as Hno by (by intros k id ch (rq & pc & H & _)).
  split; [split|split]; try done; by intros; exfalso; eapply Hno.
Qed.

Lemma reachable_consistent overlap w : reachable overlap w -> consistent w.
Proof. induction 1; [apply new_world_consistent|by eapply perform_consistent]. Qed.
