(* ===== verification/Lifecycle.v ===== *)
(** * [Close] and [Connect] ([client.go])

    The invariant that holds when the user lets [Connect] and [Close] not
    overlap: at most one receiver runs, on the context and the channel the
    client's fields name; a [Close] that has waited finds it stopped; nothing
    panics.  Then the properties of all interleavings of calls, packets,
    [Close]s and [Connect]s, and the schedules their witnesses run. *)

From S2P Require Import Prelude Enums Errors Link Apdu Tags Values Options Services Metrics Transport Device Client Calls Concurrency Interleaving.
#[local] Open Scope string_scope.
#[local] Open Scope list_scope.
#[local] Open Scope Z_scope.

(** ** [Close] and [Connect] apart *)

Definition all_stopped (w : World) : Prop := forallb is_stopped (receivers w) = true.
Definition all_finished (w : World) : Prop := forallb is_finished (handlers w) = true.

(** A [Close] that has marked the client, and one that has waited for the
    receiver. *)
Definition is_closing (pc : ClosePc) : bool :=
  match pc with Loading | Storing | Closed _ => false | _ => true end.
Definition past_receiver (pc : ClosePc) : bool :=
  match pc with AwaitHandlers | Draining | Closing => true | _ => false end.

(** A [Connect] that holds the state, before and after it starts the receiver. *)
Definition is_early (pc : ConnectPc) : bool :=
  match pc with Opening | MakingCtx | MakingDone | Spawning => true | _ => false end.
Definition is_mid (pc : ConnectPc) : bool :=
  match pc with Opening | MakingCtx | MakingDone | Spawning | Entering => true | _ => false end.

(** The fields name a context and a channel that is open, and a receiver holds
    that channel or none yet. *)
Definition runnable (lf : Life) : Prop :=
  is_Some (ctx_done lf) /\ exists d, receiverDone lf = Some d /\ dones lf !! d = Some false.
Definition holds (lf : Life) (r : ReceiverPc) : Prop := default (receiverDone lf) (bound r) = receiverDone lf.

Record ordered (w : World) : Prop := {
  or_running : forall k r, receivers w !! k = Some r -> is_stopped r = false -> runnable (life w) /\ holds (life w) r;
  or_single : forall j k rj rk, receivers w !! j = Some rj -> receivers w !! k = Some rk ->
    is_stopped rj = false -> is_stopped rk = false -> j = k;
  or_wait : forall k done, closers w !! k = Some (AwaitReceiver done) -> receiverDone (life w) = done;
  or_past : forall k pc, closers w !! k = Some pc -> past_receiver pc = true -> all_stopped w;
  or_draining : forall k, closers w !! k = Some Draining -> all_finished w;
  or_early : forall k pc, connectors w !! k = Some pc -> is_early pc = true -> all_stopped w;
  or_making : forall k, connectors w !! k = Some MakingDone -> is_Some (ctx_done (life w));
  or_spawning : forall k, connectors w !! k = Some Spawning -> runnable (life w);
  or_disconnected : state (client w) = StateDisconnected ->
    (forall k pc, closers w !! k = Some pc -> is_closing pc = false) -> all_stopped w;
  or_mid : forall k pc, connectors w !! k = Some pc -> is_mid pc = true -> state (client w) = StateConnecting;
  or_one : forall i j pc pc', connectors w !! i = Some pc -> connectors w !! j = Some pc' ->
    is_mid pc = true -> is_mid pc' = true -> i = j;
  or_apart : forallb has_connected (connectors w) = true \/ forallb has_closed (closers w) = true
}.

(** No response is on its way to a closed channel, and nothing panicked. *)
Record clean (w : World) : Prop := {
  cl_held : forall h hd ch a, handlers w !! h = Some hd -> H_pc hd = Delivering ch a ->
    exists b, chans (client w) !! ch = Some {| buffer := b; chan_closed := false |};
  cl_panics : panics w = 0;
  cl_running : crashed w = false
}.

Lemma forallb_lookup {A} (f : A -> bool) l k x : forallb f l = true -> l !! k = Some x -> f x = true.
Proof.
  intros H Hk. rewrite forallb_forall in H. apply H, list_elem_of_In. by eapply list_elem_of_lookup_2.
Qed.

Lemma ordered_keep w w' :
  state (client w') = state (client w) -> receivers w' = receivers w -> life w' = life w ->
  closers w' = closers w -> connectors w' = connectors w -> (all_finished w -> all_finished w') ->
  ordered w -> ordered w'.
Proof.
  intros Hs Hr Hl Hcl Hcn Hf []. split; unfold all_stopped in *; rewrite ?Hs, ?Hr, ?Hl, ?Hcl, ?Hcn; try done.
  intros k Hk. by eapply Hf, or_draining0.
Qed.

Lemma stopped_contradiction w k r :
  receivers w !! k = Some r -> is_stopped r = false -> ~ all_stopped w.
Proof. intros Hk Hr Ha. pose proof (forallb_lookup _ _ _ _ Ha Hk). congruence. Qed.

(** Turns of the one receiver that runs. *)
Lemma ordered_receiver w w' k r r' :
  receivers w !! k = Some r -> is_stopped r = false -> receivers w' = <[k := r']> (receivers w) ->
  (is_stopped r' = false -> life w' = life w /\ holds (life w) r') ->
  receiverDone (life w') = receiverDone (life w) -> ctx_done (life w') = ctx_done (life w) ->
  state (client w') = state (client w) -> closers w' = closers w ->
  connectors w' = connectors w -> ordered w -> ordered w'.
Proof.
  intros Hk Hr Hrs Hl Hd Hx Hs Hcl Hcn Hw. pose proof (stopped_contradiction _ _ _ Hk Hr) as Hno.
  pose proof Hw as []. split; rewrite ?Hs, ?Hd, ?Hx, ?Hcl, ?Hcn; try done.
  - intros j rj. rewrite Hrs, list_lookup_insert_Some. intros [(<- & <- & _)|[Hne Hj]] Hj'.
    + destruct (Hl Hj') as [-> ?]. split; [by eapply or_running0|done].
    + destruct Hne. by eapply or_single0.
  - intros i j ri rj. rewrite Hrs, !list_lookup_insert_Some.
    intros [(<- & <- & _)|[Hni Hi]] [(<- & <- & _)|[Hnj Hj]] Hi' Hj'; try done.
    + destruct Hnj. by eapply or_single0.
    + destruct Hni. by eapply or_single0.
    + by eapply or_single0.
  - intros j pcj Hj Hp. by destruct Hno; eapply or_past0.
  - intros j Hj. by destruct Hno; eapply or_past0.
  - intros j pcj Hj Hp. by destruct Hno; eapply or_early0.
  - intros j Hj. by destruct Hno; eapply or_early0.
  - intros Hd' Hc. by destruct Hno; apply or_disconnected0.
Qed.

(** A [Close] starts and stops no receiver itself, and of the life cycle it
    only cancels the context. *)
Lemma close_moved_keeps w w1 pc pc' :
  close_moved w w1 pc pc' ->
  receivers w1 = receivers w /\ connectors w1 = connectors w /\ handlers w1 = handlers w /\
  (life w1 = life w \/ exists c, receiverCtx (life w) = Some c /\ life w1 = cancel c (life w)) /\
  (state (client w1) = state (client w) \/ pc = Storing).
Proof.
  intros Hm. destruct Hm as [_ []|[]|[]|_ []|c Hc []|[]|pc _ []|d _ []|_ []|chs m _ _ []|r []]; split_and!; eauto.
Qed.

Lemma ctx_done_cancel c lf : receiverCtx lf = Some c -> is_Some (ctx_done lf) -> ctx_done (cancel c lf) = Some true.
Proof.
  unfold ctx_done. cbn. intros ->. cbn. intros [b Hb]. apply list_lookup_insert_eq. by eapply lookup_lt_Some.
Qed.

Lemma runnable_cancel c lf : receiverCtx lf = Some c -> runnable lf -> runnable (cancel c lf).
Proof. intros Hc [Hx Hd]. split; [|done]. rewrite (ctx_done_cancel c lf) by done. by eexists. Qed.

(** What cannot be runnable has no receiver running. *)
Lemma all_stopped_unready w : ordered w -> ~ runnable (life w) -> all_stopped w.
Proof.
  intros Hw Hc. unfold all_stopped. rewrite forallb_forall. intros r Hr%list_elem_of_In%list_elem_of_lookup_1.
  destruct Hr as [k Hk]. destruct (is_stopped r) eqn:E; [done|]. by destruct Hc; eapply (or_running w Hw).
Qed.

Lemma close_moved_past w w1 k pc pc' :
  closers w !! k = Some pc -> close_moved w w1 pc pc' -> ordered w -> past_receiver pc' = true -> all_stopped w.
Proof.
  intros Hk Hm Hw Hp. destruct Hm as [_ Hl|Hl|Hl|Hc Hl|c Hc Hl|Hl|pc _ Hl|d Hd Hl|_ Hl|chs m _ _ Hl|r Hl];
    try done; try (by eapply (or_past w Hw)).
  - apply all_stopped_unready; [done|]. intros [[b Hb] _]. unfold ctx_done in Hb. by rewrite Hc in Hb.
  - apply all_stopped_unready; [done|]. pose proof (or_wait w Hw _ _ Hk) as Hd'. intros [_ (d' & E & Hf)]. congruence.
Qed.

Lemma close_moved_disconnected w w1 k pc pc' :
  closers w !! k = Some pc -> close_moved w w1 pc pc' -> ordered w ->
  state (client w1) = StateDisconnected ->
  (forall j pcj, <[k := pc']> (closers w) !! j = Some pcj -> is_closing pcj = false) -> all_stopped w.
Proof.
  intros Hk Hm Hw Hst Hno. assert (is_closing pc' = false) as Hpc'.
  { apply (Hno k). rewrite list_lookup_insert_eq; [done|by eapply lookup_lt_Some]. }
  destruct (close_moved_keeps _ _ _ _ Hm) as (_ & _ & _ & _ & Hs).
  destruct (is_closing pc) eqn:Hpc.
  - destruct Hm as [| | | | | |pc| | | |]; try done; [congruence|]. by eapply (or_past w Hw).
  - apply (or_disconnected w Hw).
    + destruct Hs as [<-| ->]; [done|]. inversion Hm as [| | | | | |? _ Hl| | | |]; subst; [done|].
      by rewrite <- (l_state _ _ _ _ _ _ _ Hl).
    + intros j pcj Hj. destruct (decide (j = k)) as [->|Hne]; [congruence|].
      apply (Hno j). by rewrite list_lookup_insert_ne.
Qed.

Lemma close_moved_ordered w w1 k pc pc' :
  closers w !! k = Some pc -> close_moved w w1 pc pc' -> ordered w ->
  ordered (set_closers (<[k := pc']> (closers w)) w1).
Proof.
  intros Hk Hm Hw. pose proof (close_moved_keeps _ _ _ _ Hm) as (Hrs & Hcn & Hh & Hlf & Hs).
  pose proof Hw as [].
  assert (forall j pcj, <[k := pc']> (closers w) !! j = Some pcj -> j = k /\ pcj = pc' \/ closers w !! j = Some pcj) as Hj.
  { intros j pcj. rewrite list_lookup_insert_Some. intros [(-> & -> & _)|[_ H]]; auto. }
  assert (receiverDone (life w1) = receiverDone (life w) /\ (runnable (life w) -> runnable (life w1)) /\
    (is_Some (ctx_done (life w)) -> is_Some (ctx_done (life w1)))) as (Hd & Hrd & Hx).
  { destruct Hlf as [->|(c & Hc & ->)]; [done|]. split; [done|]. split; [by apply runnable_cancel|].
    intros H. rewrite (ctx_done_cancel c (life w)) by done. by eexists. }
  split; unfold all_stopped, holds in *; cbn; rewrite ?Hrs, ?Hd, ?Hcn; try done.
  - intros j r Hr Hf. destruct (or_running0 _ _ Hr Hf). auto.
  - intros j d Hc. destruct (Hj _ _ Hc) as [[-> <-]|Hc']; [|by eapply or_wait0].
    inversion Hm; subst; [done|by eapply or_wait0].
  - intros j pcj Hc Hp. destruct (Hj _ _ Hc) as [[-> ->]|Hc']; [by eapply close_moved_past|by eapply or_past0].
  - intros j Hc. unfold all_finished. cbn. rewrite Hh. destruct (Hj _ _ Hc) as [[-> <-]|Hc']; [|by eapply or_draining0].
    inversion Hm; subst; [by eapply or_draining0|done].
  - intros j Hc. by eapply Hx, or_making0.
  - intros j Hc. by eapply Hrd, or_spawning0.
  - intros Hdis Hno. by eapply close_moved_disconnected.
  - intros j pcj Hc He. pose proof (or_mid0 _ _ Hc He) as Hst. destruct Hs as [->| ->]; [done|].
    exfalso. destruct or_apart0 as [H9|H9].
    + pose proof (forallb_lookup _ _ _ _ H9 Hc). by destruct pcj.
    + by pose proof (forallb_lookup _ _ _ _ H9 Hk).
  - destruct or_apart0 as [H9|H9]; [by left|]. pose proof (forallb_lookup _ _ _ _ H9 Hk) as Hc.
    right. apply forallb_insert; [done|]. by destruct Hm.
Qed.

(** What a turn of [Connect] does to the state and the receivers. *)
Lemma connect_moved_keeps w w1 pc pc' :
  connect_moved w w1 pc pc' ->
  closers w1 = closers w /\ handlers w1 = handlers w /\
  (receivers w1 = receivers w \/ pc = Spawning /\ receivers w1 = receivers w ++ [Spawned]) /\
  (life w1 = life w \/ pc = MakingCtx \/ pc = MakingDone) /\
  (is_mid pc = true \/ state (client w1) = state (client w) \/
   state (client w) = StateDisconnected /\ state (client w1) = StateConnecting /\ pc = Swapping).
Proof. intros Hm. by destruct Hm as [r _ []|? []|r []|[]|[]|[]|[]|[]|r []|r []]; split_and!; auto 6. Qed.

(** The stage of a [Connect] after its turn. *)
Lemma connect_moved_stage w w1 pc pc' :
  connect_moved w w1 pc pc' -> is_mid pc' = true ->
  state (client w) = StateDisconnected /\ pc = Swapping /\ pc' = Opening /\ state (client w1) = StateConnecting \/
  is_mid pc = true /\ (is_early pc' = true -> is_early pc = true /\ pc <> Spawning) /\
  state (client w1) = state (client w).
Proof. intros Hm. by destruct Hm as [r _ []|? []|r []|[]|[]|[]|[]|[]|r []|r []]; intros; cbn in *; auto 7. Qed.

(** What a [Connect] makes before it starts a receiver. *)
Lemma connect_moved_makes w w1 k pc pc' :
  connectors w !! k = Some pc -> connect_moved w w1 pc pc' -> ordered w ->
  (pc' = MakingDone -> is_Some (ctx_done (life w1))) /\ (pc' = Spawning -> runnable (life w1)).
Proof.
  intros Hk Hm Hw.
  destruct Hm as [r _ _|_ _|r _|_|[]|[]|_|_|r _|r _]; (split; [intros E|intros E]); try done.
  - rewrite l_life. exists false. unfold ctx_done. cbn. by apply list_lookup_middle.
  - rewrite l_life. split; [by apply (or_making w Hw k)|]. eexists. split; [reflexivity|]. by apply list_lookup_middle.
Qed.

Lemma connect_moved_disconnected w w1 k pc pc' :
  connectors w !! k = Some pc -> connect_moved w w1 pc pc' -> ordered w ->
  state (client w1) = StateDisconnected ->
  (forall j pcj, closers w !! j = Some pcj -> is_closing pcj = false) -> all_stopped w /\ pc <> Spawning.
Proof.
  intros Hk Hm Hw Hst Hno.
  assert (StateConnecting <> StateDisconnected /\ StateConnected <> StateDisconnected) as [Hne1 Hne2] by done.
  destruct Hm as [r Hd []|Hd []|r []|[]|[]|[]|[]|[]|r []|r []]; try (exfalso; congruence);
    try (split; [|done]; first [by eapply (or_early w Hw)|apply (or_disconnected w Hw); [congruence|done]]).
  pose proof (or_mid w Hw _ _ Hk eq_refl). exfalso. congruence.
Qed.

(** An early [Connect] is alone: no [Close] is under way. *)
Lemma early_alone w k pc :
  connectors w !! k = Some pc -> is_early pc = true -> ordered w ->
  all_stopped w /\ forall j pcj, closers w !! j = Some pcj -> exists r, pcj = Closed r.
Proof.
  intros Hk He Hw. split; [by eapply (or_early w Hw)|]. intros j pcj Hj.
  destruct (or_apart w Hw) as [H|H].
  - pose proof (forallb_lookup _ _ _ _ H Hk). by destruct pc.
  - pose proof (forallb_lookup _ _ _ _ H Hj). destruct pcj; try done. by eexists.
Qed.

(** The receivers after a turn of [Connect]. *)
Lemma connect_moved_receivers w w1 k pc pc' :
  connectors w !! k = Some pc -> connect_moved w w1 pc pc' -> ordered w ->
  (pc <> Spawning -> all_stopped w -> all_stopped w1) /\
  (forall j r, receivers w1 !! j = Some r -> is_stopped r = false -> runnable (life w1) /\ holds (life w1) r) /\
  (forall i j ri rj, receivers w1 !! i = Some ri -> receivers w1 !! j = Some rj ->
     is_stopped ri = false -> is_stopped rj = false -> i = j).
Proof.
  intros Hk Hm Hw. destruct (connect_moved_keeps _ _ _ _ Hm) as (_ & _ & Hr & Hl & _).
  assert (is_early pc = true -> forall j r, receivers w !! j = Some r -> is_stopped r = true) as Hst.
  { intros He j r Hj. by apply (forallb_lookup _ _ _ _ (or_early w Hw _ _ Hk He) Hj). }
  destruct Hr as [Hr|[-> Hr]]; unfold all_stopped; rewrite Hr.
  - split; [done|]. split; [|by apply or_single]. intros j r Hj Hf.
    destruct Hl as [->|Hl]; [by eapply (or_running w Hw)|].
    pose proof (Hst ltac:(by destruct Hl as [->| ->]) _ _ Hj). congruence.
  - split; [done|]. destruct Hl as [Hl|[?|?]]; [|done..]. rewrite Hl.
    assert (forall j r, (receivers w ++ [Spawned]) !! j = Some r -> is_stopped r = false ->
      j = length (receivers w) /\ r = Spawned) as Hlast.
    { intros j r. rewrite lookup_app_Some. intros [Hj|[Hle Hj]] Hf; [pose proof (Hst eq_refl _ _ Hj); congruence|].
      apply list_lookup_singleton_Some in Hj as [? <-]. split; [lia|done]. }
    split.
    + intros j r Hj Hf. destruct (Hlast _ _ Hj Hf) as [_ ->]. split; [by eapply (or_spawning w Hw)|done].
    + intros i j ri rj Hi Hj Hfi Hfj. destruct (Hlast _ _ Hi Hfi), (Hlast _ _ Hj Hfj). congruence.
Qed.

Lemma insert_inv {A} (k j : nat) (x y : A) (l : list A) : <[k := x]> l !! j = Some y -> j = k /\ y = x \/ j <> k /\ l !! j = Some y.
Proof. rewrite list_lookup_insert_Some. intros [(-> & -> & _)|[? H]]; auto. Qed.

(** A turn of [Connect] keeps the other ones from holding the state with it. *)
Lemma connect_moved_alone w w1 k pc pc' i j pci pcj :
  connectors w !! k = Some pc -> connect_moved w w1 pc pc' -> ordered w ->
  <[k := pc']> (connectors w) !! i = Some pci -> <[k := pc']> (connectors w) !! j = Some pcj ->
  is_mid pci = true -> is_mid pcj = true -> i = j.
Proof.
  intros Hk Hm Hw Hi Hj Hmi Hmj. destruct Hw. assert (StateConnecting <> StateDisconnected) as Hne by done.
  destruct (insert_inv _ _ _ _ _ Hi) as [[-> ->]|[Hni Hi']], (insert_inv _ _ _ _ _ Hj) as [[-> ->]|[Hnj Hj']]; try done.
  - destruct (connect_moved_stage _ _ _ _ Hm Hmi) as [(Hx & _)|(Hp & _)]; [|by eapply or_one0].
    pose proof (or_mid0 _ _ Hj' Hmj). congruence.
  - destruct (connect_moved_stage _ _ _ _ Hm Hmj) as [(Hx & _)|(Hp & _)]; [|by eapply or_one0].
    pose proof (or_mid0 _ _ Hi' Hmi). congruence.
  - by eapply or_one0.
Qed.

Lemma connect_moved_ordered w w1 k pc pc' :
  connectors w !! k = Some pc -> connect_moved w w1 pc pc' -> ordered w ->
  ordered (set_connectors (<[k := pc']> (connectors w)) w1).
Proof.
  intros Hk Hm Hw. pose proof (connect_moved_keeps _ _ _ _ Hm) as (Hcl & Hh & _ & Hl & Hs).
  destruct (connect_moved_receivers _ _ _ _ _ Hk Hm Hw) as (Hst & Hrun & Hsingle).
  destruct (connect_moved_makes _ _ _ _ _ Hk Hm Hw) as (Hctx & Hready).
  pose proof Hw as [].
  assert (forall j pcj, <[k := pc']> (connectors w) !! j = Some pcj ->
    j = k /\ pcj = pc' \/ j <> k /\ connectors w !! j = Some pcj) as Hj.
  { intros j pcj. apply insert_inv. }
  assert (forall j pcj, is_early pc = true -> closers w !! j = Some pcj -> exists r, pcj = Closed r) as Hcs.
  { intros j pcj He. by apply (early_alone w k pc Hk He Hw). }
  assert (forall j pcj, j <> k -> connectors w !! j = Some pcj -> is_mid pcj = true -> is_mid pc = false) as Hother.
  { intros j pcj Hne Hjc Hp. destruct (is_mid pc) eqn:E; [|done]. destruct Hne. by eapply or_one0. }
  assert (is_mid pc = false -> life w1 = life w) as Hsame by (by destruct Hl as [?|[->| ->]]).
  assert (StateConnecting <> StateDisconnected) as Hne1 by done.
  split; cbn; rewrite ?Hcl; try done; try change (all_stopped (set_connectors _ w1)) with (all_stopped w1).
  - intros j d Hc. destruct (decide (is_early pc = true)) as [He|He]; [by destruct (Hcs _ _ He Hc)|].
    destruct Hl as [->|[->| ->]]; [by eapply or_wait0|done..].
  - intros j pcj Hc Hp. destruct (decide (is_early pc = true)) as [He|He]; [by destruct (Hcs _ _ He Hc) as [? ->]|].
    apply Hst; [by intros ->|]. by eapply or_past0.
  - intros j Hc. unfold all_finished. cbn. rewrite Hh. by eapply or_draining0.
  - intros j pcj Hc He. destruct (Hj _ _ Hc) as [[-> ->]|[Hne Hc']].
    + destruct (connect_moved_stage _ _ _ _ Hm) as [(Hd & -> & _)|(_ & Hx & _)]; [by destruct pc'| |].
      * apply Hst; [done|]. apply or_disconnected0; [done|]. intros i pci Hi. destruct or_apart0 as [H9|H9];
          [by pose proof (forallb_lookup _ _ _ _ H9 Hk)|]. pose proof (forallb_lookup _ _ _ _ H9 Hi). by destruct pci.
      * destruct (Hx He) as [Hx' Hne]. by eapply Hst, or_early0.
    + apply Hst; [|by eapply or_early0]. intros ->. by pose proof (Hother _ _ Hne Hc' ltac:(by destruct pcj)).
  - intros j Hc. destruct (Hj _ _ Hc) as [[-> E]|[Hne Hc']]; [by apply Hctx|].
    rewrite Hsame by (by eapply Hother). by eapply or_making0.
  - intros j Hc. destruct (Hj _ _ Hc) as [[-> E]|[Hne Hc']]; [by apply Hready|].
    rewrite Hsame by (by eapply Hother). by eapply or_spawning0.
  - intros Hd Hno. destruct (connect_moved_disconnected _ _ _ _ _ Hk Hm Hw Hd Hno). by apply Hst.
  - intros j pcj Hc He. destruct (Hj _ _ Hc) as [[-> ->]|[Hne Hc']].
    + destruct (connect_moved_stage _ _ _ _ Hm He) as [(_ & _ & _ & Hx)|(Hp & _ & ->)]; [done|by eapply or_mid0].
    + pose proof (or_mid0 _ _ Hc' He) as Hx. destruct Hs as [Hp|[->|(Hp & _)]]; [|done|congruence].
      pose proof (Hother _ _ Hne Hc' He). congruence.
  - intros i j pci pcj. by apply (connect_moved_alone w w1 k pc pc' i j pci pcj).
  - destruct or_apart0 as [H9|H9]; [|by right]. pose proof (forallb_lookup _ _ _ _ H9 Hk) as Hc.
    left. apply forallb_insert; [done|]. by destruct Hm.
Qed.

(** *** The invariant when [Connect] and [Close] do not overlap *)

Lemma clean_keep w w' :
  (forall h hd ch a, handlers w' !! h = Some hd -> H_pc hd = Delivering ch a -> handlers w !! h = Some hd) ->
  (forall ch b, chans (client w) !! ch = Some {| buffer := b; chan_closed := false |} ->
     exists b', chans (client w') !! ch = Some {| buffer := b'; chan_closed := false |}) ->
  panics w' = panics w -> crashed w' = crashed w -> clean w -> clean w'.
Proof.
  intros Hh Hc Hp Hcr [H1 H2 H3]. split; [|by rewrite Hp|by rewrite Hcr]. intros h hd ch a Hhd Hpc.
  destruct (H1 h hd ch a) as [b Hb]; [by eapply Hh|done|]. by eapply Hc.
Qed.

Lemma moved_open w c' pc pc' ch b :
  moved w c' pc pc' -> chans (client w) !! ch = Some {| buffer := b; chan_closed := false |} ->
  exists b', chans c' !! ch = Some {| buffer := b'; chan_closed := false |}.
Proof.
  intros Hm Hc. destruct Hm; match goal with B : becomes _ _ _ _ _ _ |- _ => rewrite (b_chans _ _ _ _ _ _ B) end;
    try (by exists b).
  - exists b. rewrite lookup_insert_ne; [done|congruence].
  - match goal with D : drained _ _ |- _ => pose proof (D ch) as Hd end. rewrite Hc in Hd.
    destruct (m !! ch) as [[b' cl]|]; [|done]. exists b'. cbn in Hd. by destruct Hd as [-> _].
Qed.

Lemma moved_panics w c' pc pc' : moved w c' pc pc' -> get PanicsRecovered_ (metrics c') = panics w.
Proof. by destruct 1; match goal with B : becomes _ _ _ _ _ _ |- _ => destruct B end. Qed.

Lemma moved_state w c' pc pc' : moved w c' pc pc' -> state c' = state (client w).
Proof. by destruct 1; match goal with B : becomes _ _ _ _ _ _ |- _ => destruct B end. Qed.

Lemma call_turn_ordered w k ev :
  (forall addr p, no_panic (E_write ev addr p)) -> channels w -> ordered w -> clean w ->
  ordered (call_turn k ev w) /\ clean (call_turn k ev w).
Proof.
  intros Hwr Hch Ho Hc. destruct (calls w !! k) as [[rq pc]|] eqn:Hk; [|unfold call_turn; by rewrite Hk].
  destruct (call_turn_turned w k ev rq pc Hch Hk Hwr) as (pc' & c' & Hm & []). split.
  - apply (ordered_keep w); try done; [|unfold all_finished; congruence]. rewrite t_client. by eapply moved_state.
  - apply (clean_keep w); [by rewrite t_handlers|rewrite t_client| | |done].
    + intros ch b. by eapply moved_open.
    + unfold panics at 1. rewrite t_client. by eapply moved_panics.
    + by rewrite t_crashed.
Qed.

Lemma handler_turn_ordered w k :
  channels w -> ordered w -> clean w -> ordered (handler_turn k w) /\ clean (handler_turn k w).
Proof.
  intros Hch Ho Hc. destruct (handlers w !! k) as [hd|] eqn:Hk; [|unfold handler_turn; by rewrite Hk].
  destruct (handler_turn_turned w k hd Hch Hk) as (pc & c' & Hm & []). split.
  - apply (ordered_keep w); try done; [by rewrite h_client|]. unfold all_finished. rewrite h_handlers. intros Hf.
    apply forallb_insert; [done|]. pose proof (forallb_lookup _ _ _ _ Hf Hk) as Hx.
    destruct Hm as [ch a npdu Harr| | |]; try done. unfold is_finished in Hx. by rewrite Harr in Hx.
  - destruct Hc as [H1 H2 H3]. split; [| |by rewrite h_crashed].
    + intros h hd' ch a. rewrite h_handlers, h_client, list_lookup_insert_Some.
      intros [(-> & <- & _)|[_ Hh]] Hpc.
      * cbn in Hpc. subst pc. inversion Hm as [? ? ? _ Hcc _ _ Hp _| | |]; subst. rewrite Hcc.
        by eapply (ch_open w Hch).
      * destruct (H1 _ _ _ _ Hh Hpc) as [b Hb].
        destruct Hm as [? ? ? _ -> _ _ _ _| -> _|ch' a' _ Hc' -> _|? ? ? _ _ _ ->]; try (by exists b).
        destruct (decide (ch' = ch)) as [->|Hne]; [eexists; apply lookup_insert_eq|].
        exists b. by rewrite lookup_insert_ne.
    + unfold panics. rewrite h_client. destruct Hm as [| | |ch a cell Hpc Hcell Hx _]; try congruence.
      destruct (H1 _ _ _ _ Hk Hpc) as [b Hb]. rewrite Hb in Hcell. by injection Hcell as <-.
Qed.

Lemma life_clean w w1 w' st rs lf :
  life_moved w w1 st (pending (client w)) (chans (client w)) rs lf ->
  client w' = client w1 -> handlers w' = handlers w1 -> crashed w' = crashed w1 -> clean w -> clean w'.
Proof.
  intros [] Hc Hh Hcr. apply clean_keep; rewrite ?Hc, ?Hh, ?Hcr, ?l_handlers, ?l_chans; try done.
  - intros ch b Hb. by exists b.
  - unfold panics at 1. rewrite Hc. done.
Qed.

(** A receiver that runs can return without a panic. *)
Lemma receiver_returns w k r :
  ordered w -> receivers w !! k = Some r -> is_stopped r = false ->
  ctx_done (life w) <> None /\
  forall done, bound r = Some done -> done ≫= (fun d => dones (life w) !! d) = Some false.
Proof.
  intros Ho Hk Hs. destruct (or_running w Ho _ _ Hk Hs) as [[[b Hx] (d & Hd & Hf)] Hh].
  split; [congruence|]. unfold holds in Hh. intros dn Hb. rewrite Hb in Hh. cbn in Hh. by rewrite Hh, Hd.
Qed.

Lemma receiver_step_ordered w k now read :
  wf_read read -> ordered w -> clean w -> ordered (receiver_step k now read w) /\ clean (receiver_step k now read w).
Proof.
  intros Hr Ho Hc. destruct (receiver_step_moves w k now read Hr)
    as [->|r r' Hk Hs Hs' Hb Hl|dn hd w1 Hk Hwf Harr Hl ->|r d Hk Hb Hd Hl|r w1 Hk Hs Hp _ _ _ _ _ _]; [done|..].
  - split; [|by eapply life_clean]. destruct (or_running w Ho _ _ Hk Hs) as [_ Hh]. destruct Hl.
    apply (ordered_receiver w _ k r r'); rewrite ?l_life; try done. intros _. split; [done|]. unfold holds. by rewrite Hb.
  - split.
    + destruct (or_running w Ho _ _ Hk eq_refl) as [_ Hh]. destruct Hl.
      apply (ordered_receiver w _ k (Receiving dn) (Polling dn)); cbn; rewrite ?l_life; done.
    + assert (clean w1) as Hc1 by (by eapply life_clean). destruct Hl, Hc1 as [H1 H2 H3]. split; [|done..].
      intros h hd' ch a. cbn. rewrite lookup_app_Some. intros [Hh|[_ Hh]] Hpc.
      * eapply H1; [|done]. by rewrite l_handlers.
      * apply list_lookup_singleton_Some in Hh as [_ <-]. congruence.
  - split; [|by eapply life_clean]. destruct Hl. apply (ordered_receiver w _ k r Stopped); rewrite ?l_life; try done. by destruct r.
  - destruct (receiver_returns w k r Ho Hk Hs) as [H1 H2]. destruct Hp as [?|(dn & Hb & Hp)]; [done|].
    by rewrite (H2 _ Hb) in Hp.
Qed.

Lemma close_turn_ordered w k cr iterate :
  no_panic cr -> (forall p, iterate p ≡ₚ (map_to_list p).*2) -> channels w -> ordered w -> clean w ->
  ordered (close_turn k cr iterate w) /\ clean (close_turn k cr iterate w).
Proof.
  intros Hcr Hit Hch Ho Hc. unfold close_turn. destruct (closers w !! k) as [pc|] eqn:Hk; [|done].
  destruct (close_step_moves w cr iterate pc Hch Hcr Hit) as (pc' & w1 & -> & Hm).
  split; [by eapply close_moved_ordered|].
  pose proof (or_draining w Ho k) as Hfin.
  destruct Hm as [_ Hl|Hl|Hl|_ Hl|c _ Hl|Hl|pc _ Hl|d _ Hl|_ Hl|chs m Hcs Hchs Hl|r Hl];
    try (by eapply life_clean).
  destruct Hl. destruct Hc as [H1 H2 H3]. split; [|exact (eq_trans l_panics H2)|exact (eq_trans l_crashed H3)].
  intros h hd ch a. cbn. rewrite l_handlers. intros Hh Hpc.
  pose proof (forallb_lookup _ _ _ _ (Hfin Hk) Hh) as Hx. unfold is_finished in Hx. by rewrite Hpc in Hx.
Qed.

Lemma connect_turn_ordered w k env resolve listen :
  (forall addr packet, no_panic (write_result env addr packet)) -> (forall s, no_panic (resolve s)) ->
  (forall a, no_panic (listen a)) -> ordered w -> clean w ->
  ordered (connect_turn k env resolve listen w) /\ clean (connect_turn k env resolve listen w).
Proof.
  intros Hwr Hres Hlis Ho Hc. unfold connect_turn. destruct (connectors w !! k) as [pc|] eqn:Hk; [|done].
  destruct (connect_step_moves w env resolve listen pc Hwr Hres Hlis) as (pc' & w1 & -> & Hm).
  split; [by eapply connect_moved_ordered|].
  by destruct Hm as [r _ Hl|_ Hl|r Hl|Hl|Hl|Hl|Hl|Hl|r Hl|r Hl]; eapply life_clean.
Qed.

Lemma lookup_snoc_inv {A} (l : list A) x k y : (l ++ [x]) !! k = Some y -> l !! k = Some y \/ y = x.
Proof.
  rewrite lookup_app_Some. intros [H|[_ H]]; [by left|]. apply list_lookup_singleton_Some in H as [_ <-]. by right.
Qed.

Lemma start_close_ordered w :
  forallb has_connected (connectors w) = true -> ordered w -> ordered (set_closers (closers w ++ [Loading]) w).
Proof.
  intros Hn []. split; cbn; try done; try by left.
  - intros k r [H|?]%lookup_snoc_inv; [by eapply or_wait0|done].
  - intros k pc [H| ->]%lookup_snoc_inv Hp; [by eapply or_past0|done].
  - intros k [H|?]%lookup_snoc_inv; [by eapply or_draining0|done].
  - intros Hd Hno. apply or_disconnected0; [done|]. intros k pc Hk. apply (Hno k). by apply lookup_app_l_Some.
Qed.

Lemma start_connect_ordered w :
  forallb has_closed (closers w) = true -> ordered w -> ordered (set_connectors (connectors w ++ [Swapping]) w).
Proof.
  intros Hn []. split; cbn; try done; try by right.
  - intros k pc [H| ->]%lookup_snoc_inv Hp; [by eapply or_early0|done].
  - intros k [H|?]%lookup_snoc_inv; [by eapply or_making0|done].
  - intros k [H|?]%lookup_snoc_inv; [by eapply or_spawning0|done].
  - intros k pc [H| ->]%lookup_snoc_inv Hp; [by eapply or_mid0|done].
  - intros i j pc pc' [Hi| ->]%lookup_snoc_inv [Hj| ->]%lookup_snoc_inv Hp Hp'; try done. by eapply or_one0.
Qed.

Lemma perform_ordered w a :
  possible false w a -> consistent w -> ordered w -> clean w -> ordered (perform a w) /\ clean (perform a w).
Proof.
  intros Hp [Hch Hac] Ho Hc. unfold perform. rewrite (cl_running w Hc). destruct a; cbn [possible] in Hp.
  - split; [by apply (ordered_keep w)|by destruct Hc].
  - by apply call_turn_ordered.
  - by apply handler_turn_ordered.
  - by apply receiver_step_ordered.
  - split; [apply start_close_ordered; auto|by destruct Hc].
  - destruct Hp. by apply close_turn_ordered.
  - split; [apply start_connect_ordered; auto|by destruct Hc].
  - destruct Hp as (? & ? & ?). by apply connect_turn_ordered.
  - split; [apply (ordered_keep w); try done; apply Hp|]. apply (clean_keep w); [done| |apply Hp|done|done].
    intros ch b. cbn. rewrite (else_chans _ _ Hp). by exists b.
Qed.

Lemma reachable_ordered w : reachable false w -> ordered w /\ clean w.
Proof.
  induction 1 as [now options|w a Hw [IH1 IH2] Hp].
  - split; split; try done. by left.
  - apply perform_ordered; [done|by eapply reachable_consistent|done..].
Qed.

(** ** Schedules

    The pieces of concrete runs: one host, one socket, requests that are
    acknowledged or run out of time. *)

Definition peer : UDPAddr := {| IP := [10; 0; 0; 7]; Port := 47808 |}.
Definition request : Request :=
  {| R_addr := peer; R_service := ServiceReadProperty; R_data := [12]; R_ctx := None |}.
Definition event (done : bool) : CallEvent :=
  {| E_now := 0; E_write := fun _ p => Ret (len p); E_elapsed := 1; E_done := done |}.
(** A simple acknowledgement of the request with invoke id [id], read by a
    receiver that has just been started. *)
Definition ack_read (id : Z) : Z -> go (bytes * UDPAddr) :=
  fun _ => Ret ([0x81; 0x0A; 0; 9; 1; 0; 0x20; u8 id; 15], peer).

Definition connecting (k n : nat) : list Action :=
  repeat (ConnectTurn k (example_env []) (fun _ => Err (EText "no such host")) (fun _ => Ret 3)) n.
Definition calling (k n : nat) : list Action := repeat (CallTurn k (event false)) n.
Definition timing_out (k : nat) : list Action := repeat (CallTurn k (event true)) 3.
Definition closing (k n : nat) : list Action :=
  repeat (CloseTurn k (Ret tt) (fun p => (map_to_list p).*2)) n.
Definition acknowledging (r : nat) (id : Z) : list Action :=
  repeat (ReceiverTurn r 0 (ack_read id)) 3.

(** A step that is possible in every world. *)
Definition harmless (overlap : bool) (a : Action) : Prop := forall w, possible overlap w a.

Lemma possible_run_app overlap l l' w :
  possible_run overlap l w -> possible_run overlap l' (run l w) -> possible_run overlap (l ++ l') w.
Proof. revert w. induction l as [|a l IH]; intros w; [done|]. intros [Ha Hl] Hl'. split; [done|]. by apply IH. Qed.

Lemma harmless_run overlap l w : Forall (harmless overlap) l -> possible_run overlap l w.
Proof. intros Hl. revert w. induction Hl as [|a l Ha _ IH]; intros w; [done|]. split; [apply Ha|apply IH]. Qed.

Lemma harmless_repeat overlap a n : harmless overlap a -> Forall (harmless overlap) (repeat a n).
Proof. intros Ha. induction n; constructor; done. Qed.

Lemma harmless_connecting overlap k n : Forall (harmless overlap) (connecting k n).
Proof. by apply harmless_repeat; intros w; cbn; split_and!. Qed.

Lemma harmless_calling overlap k n : Forall (harmless overlap) (calling k n).
Proof. by apply harmless_repeat; intros w; cbn. Qed.

Lemma harmless_timing_out overlap k : Forall (harmless overlap) (timing_out k).
Proof. by apply harmless_repeat; intros w; cbn. Qed.

Lemma harmless_closing overlap k n : Forall (harmless overlap) (closing k n).
Proof. by apply harmless_repeat; intros w; cbn; split_and!. Qed.

Lemma harmless_start_call overlap rq : harmless overlap (StartCall rq).
Proof. done. Qed.

Lemma harmless_handler overlap k : harmless overlap (HandlerTurn k).
Proof. done. Qed.

Lemma harmless_acknowledging overlap r id : Forall (harmless overlap) (acknowledging r id).
Proof.
  assert (is_byte (u8 id)) as Hid by apply u8_byte.
  assert (wf_read (ack_read id)) as Hr.
  { intros d. cbn. unfold wf_bytes. repeat (apply Forall_cons; split; [first [exact Hid|unfold is_byte; lia]|]). by apply Forall_nil. }
  by apply harmless_repeat; intros w.
Qed.

Create HintDb schedule.
#[export] Hint Resolve harmless_connecting harmless_calling harmless_timing_out harmless_closing
  harmless_start_call harmless_handler harmless_acknowledging : schedule.

(** A client connects; a call is acknowledged. *)
Definition session : list Action :=
  [StartConnect] ++ connecting 0 7 ++ [StartCall request] ++ calling 0 4 ++ acknowledging 0 1 ++
  [HandlerTurn 0; HandlerTurn 0] ++ calling 0 3.

Definition after_session : World := run session (new_world 0 []).

Ltac schedule :=
  repeat first
    [ solve [auto with schedule]
    | apply Forall_app; split
    | apply Forall_cons; split
    | apply Forall_nil; exact I ].

Lemma session_reachable overlap : reachable overlap after_session.
Proof.
  apply reachable_run; [constructor|]. split; [done|]. apply harmless_run. schedule.
Qed.

(** ** Properties of all interleavings *)

(** C2. No interleaving harms the process.  Whatever calls and packets come in
    whatever order, and whatever [Close]s and [Connect]s, every pending request
    has an open channel and no two requests share one, so [Close] never closes
    one twice.  If the user lets [Connect] and [Close] not overlap, no goroutine
    panics: a receiver finds its context, and the channel it closes when it
    returns open; and a handler that holds the channel of a response finds it
    open, since [Close] waits for receiver and handlers before it closes the
    channels, so the [recover] of the handlers is never needed either. *)
Theorem interleavings_safe overlap w :
  reachable overlap w ->
  pending_open (client w) /\ unshared (client w) /\
  (overlap = false ->
   crashed w = false /\ get PanicsRecovered_ (metrics (client w)) = 0 /\
   forall h hd ch a, handlers w !! h = Some hd -> H_pc hd = Delivering ch a ->
     exists b, chans (client w) !! ch = Some {| buffer := b; chan_closed := false |}).
Proof.
  intros Hw. destruct (reachable_consistent _ _ Hw) as [Hch _].
  split; [by apply ch_open|]. split; [by apply channels_unshared|].
  intros ->. destruct (reachable_ordered _ Hw) as [_ [Hheld Hp Hcr]]. by split.
Qed.

Lemma interleavings_safe_witness :
  crashed after_session = false /\ get PanicsRecovered_ (metrics (client after_session)) = 0.
Proof.
  destruct (interleavings_safe false after_session (session_reachable false)) as (_ & _ & H).
  destruct (H eq_refl) as (H1 & H2 & _). split; [exact H1|exact H2].
Defined.

(** C13. Every result has a cause.  In every interleaving, a call that returned
    was not connected, could not send, ran out of its context, was woken by a
    [Close] that had been called, or returned what a response says (an
    acknowledgement, or the error it stands for) that a packet with the call's
    own invoke id brought: no call ever gets a response to another invoke id. *)
Theorem results_explained overlap w k rq id r :
  reachable overlap w -> calls w !! k = Some (rq, Returned id r) ->
  match id with
  | None => r = inr ErrNotConnected
  | Some id => explained w id r
  end.
Proof. intros Hw Hk. exact (ac_result w (con_accounts w (reachable_consistent _ _ Hw)) _ _ _ Hk). Qed.

Lemma results_explained_witness :
  let ack := {| APDU_Type := PDUTypeSimpleAck; Segmented := false; MoreFollows := false; MaxSegments := 0;
                MaxAPDU := 0; InvokeID := 1; SequenceNum := 0; WindowSize := 0; Service := 15; APDU_Data := [] |} in
  explained after_session 1 (inl ack).
Proof.
  intros ack. apply (results_explained false after_session 0 request (Some 1) (inl ack) (session_reachable false)).
  vm_compute. reflexivity.
Defined.

(** The counters when every call has returned. *)
Lemma all_returned l : forallb has_returned l = true -> tally counted l = 0.
Proof.
  intros Hall. induction l as [|[rq pc] l IH]; [done|]. cbn in Hall. apply andb_true_iff in Hall as [Hpc Hl].
  specialize (IH Hl). unfold tally in *. cbn. rewrite IH. by destruct pc.
Qed.

Lemma none_dropped l :
  forallb has_returned l = true -> (forall k rq id r, l !! k = Some (rq, Returned id r) -> r <> inr ErrConnectionClosed) ->
  tally unsettled l = 0.
Proof.
  intros Hall Hnone. induction l as [|[rq pc] l IH]; [done|]. cbn in Hall. apply andb_true_iff in Hall as [Hpc Hl].
  unfold tally in *. cbn. rewrite IH; [|done|intros k; exact (Hnone (S k))].
  destruct pc as [| | | | | | |id r]; try done. specialize (Hnone 0%nat rq id r eq_refl). cbn.
  destruct r as [|[]]; done.
Qed.

(** C12. Requests are accounted for.  In every interleaving the gauge of active
    requests is the number of calls between sending and returning, every entry
    of [pending] belongs to a call that has not returned and is the channel of
    that call, and the requests sent less those that succeeded, failed or timed
    out (modulo 2^64, as the counters) are the calls that wait for their
    response and those a [Close] ended with [ErrConnectionClosed], which no
    counter of outcomes counts.  So when all calls have returned, nothing is
    pending and the gauge is zero, and if no [Close] ended one of them the
    counters of outcomes add up to the requests sent. *)
Theorem requests_accounted overlap w :
  reachable overlap w ->
  ActiveRequests (metrics (client w)) = s64 (tally counted (calls w)) /\
  outstanding (metrics (client w)) = s64 (tally unsettled (calls w)) /\
  (forall id ch, pending (client w) !! id = Some ch -> exists k, owner w k id ch) /\
  (forallb has_returned (calls w) = true ->
   pending (client w) = ∅ /\ ActiveRequests (metrics (client w)) = 0 /\
   ((forall k rq id r, calls w !! k = Some (rq, Returned id r) -> r <> inr ErrConnectionClosed) ->
    outstanding (metrics (client w)) = 0)).
Proof.
  intros Hw. destruct (reachable_consistent _ _ Hw) as [Hch [Hg Ho _ _ _]].
  split; [done|]. split; [done|]. split; [by apply ch_pending|]. intros Hall. split; [|split].
  - apply map_empty. intros id. destruct (pending (client w) !! id) as [ch|] eqn:E; [|done].
    destruct (ch_pending w Hch _ _ E) as (k & rq & pc & Hk & Howns).
    pose proof (forallb_lookup _ _ _ _ Hall Hk) as Hpc. by destruct pc.
  - by rewrite Hg, all_returned.
  - intros Hnone. by rewrite Ho, none_dropped.
Qed.

Lemma requests_accounted_witness :
  pending (client after_session) = ∅ /\ ActiveRequests (metrics (client after_session)) = 0 /\
  outstanding (metrics (client after_session)) = 0.
Proof.
  destruct (proj2 (proj2 (proj2 (requests_accounted false after_session (session_reachable false)))))
    as (H1 & H2 & H3); [vm_compute; reflexivity|].
  split; [exact H1|]. split; [exact H2|]. apply H3. intros [|k] rq id r H.
  - vm_compute in H. injection H as _ _ <-. discriminate.
  - vm_compute in H. discriminate H.
Defined.

(** The response a packet holds and the channel it goes to. *)
Lemma begin_packet_response data addr c npdu a ch :
  parse_packet data = Ret (npdu, a) -> is_response (APDU_Type a) = true -> pending c !! InvokeID a = Some ch ->
  (begin_packet data addr c).1 = Ret (Some (ch, a)).
Proof.
  intros Hp Hr Hpe. unfold begin_packet, lookup_response, mbind, gets, inc, modify, mret. rewrite Hp.
  assert ((APDU_Type a =? PDUTypeUnconfirmedRequest) = false) as ->.
  { apply Z.eqb_neq. intros E. by rewrite E in Hr. }
  unfold is_response in Hr.
  repeat match goal with |- context [APDU_Type a =? ?t] => destruct (APDU_Type a =? t); cbn [orb] in * end;
    try done; cbn; by rewrite Hpe.
Qed.

(** The two turns of a handler with the response to a request whose entry is
    there. *)
Lemma handler_looks_up w k hd npdu a ch :
  consistent w -> crashed w = false -> handlers w !! k = Some hd -> H_pc hd = Arrived ->
  parse_packet (H_data hd) = Ret (npdu, a) -> is_response (APDU_Type a) = true ->
  pending (client w) !! InvokeID a = Some ch ->
  let w' := perform (HandlerTurn k) w in
  calls w' = calls w /\ pending (client w') = pending (client w) /\ crashed w' = false /\
  exists hd', handlers w' !! k = Some hd' /\ H_pc hd' = Delivering ch a.
Proof.
  intros Hw Hrun Hk Harr Hp Hr Hpe w'. unfold w', perform. rewrite Hrun. unfold handler_turn. rewrite Hk.
  unfold recovered, handler_step. rewrite Harr. unfold mbind.
  pose proof (begin_packet_response (H_data hd) (H_addr hd) (client w) npdu a ch Hp Hr Hpe) as Hb.
  destruct (begin_packet_effect (H_data hd) (H_addr hd) (client w)) as (r & c' & E & Ho & _);
    [by eapply (ch_wf w (con_channels w Hw))|by apply ch_open, con_channels|].
  rewrite E in *. cbn in Hb. injection Hb as ->. cbn. split; [done|]. split; [by destruct Ho|]. split; [done|].
  exists {| H_data := H_data hd; H_addr := H_addr hd; H_pc := Delivering ch a |}. split; [|done].
  apply list_lookup_insert_eq. by eapply lookup_lt_Some.
Qed.

Lemma handler_puts w k hd ch a id :
  consistent w -> crashed w = false -> handlers w !! k = Some hd -> H_pc hd = Delivering ch a -> pending (client w) !! id = Some ch ->
  let w' := perform (HandlerTurn k) w in
  calls w' = calls w /\ crashed w' = false /\
  exists b, chans (client w') !! ch = Some {| buffer := Some b; chan_closed := false |}.
Proof.
  intros Hw Hrun Hk Hpc Hpe w'. unfold w', perform. rewrite Hrun. unfold handler_turn. rewrite Hk.
  destruct (ch_open w (con_channels w Hw) _ _ Hpe) as [b Hb].
  unfold recovered, handler_step. rewrite Hpc. unfold mbind, try_send. rewrite Hb. cbn [chan_closed buffer].
  destruct b as [b|]; (do 2 (split; [done|])); [by exists b|]. exists a. cbn. apply lookup_insert_eq.
Qed.

(** A call whose channel holds a response. *)
Lemma call_receives w k rq id ch b ev :
  consistent w -> crashed w = false -> calls w !! k = Some (rq, Selecting id ch) ->
  chans (client w) !! ch = Some {| buffer := Some b; chan_closed := false |} -> E_done ev = false ->
  exists r, calls (perform (CallTurn k ev) w) !! k = Some (rq, Leaving id ch r) /\ result_of id (Some b) r /\
    crashed (perform (CallTurn k ev) w) = false.
Proof.
  intros Hw Hrun Hk Hb Hd. assert (owner w k id ch) as Ho by (by do 2 eexists).
  pose proof (ch_buffer w (con_channels w Hw) _ _ _ _ _ Ho Hb eq_refl) as Hca.
  pose proof Hca as (h & hd & npdu & _ & _ & Hr & Hi).
  unfold perform. rewrite Hrun. unfold call_turn. rewrite Hk. unfold lift. cbn [call_step].
  rewrite Hd. unfold mbind, receive_from. rewrite Hb. cbn [buffer chan_closed].
  match goal with |- context [settle ?el ?wk ?c] => destruct (settle_effect el wk c) as (r & c' & E & _ & Hres) end.
  { intros a' [= <-]. split; [by eapply carried_wf; [apply con_channels|]|done]. }
  rewrite E. exists r. cbn -[result_of]. rewrite Hi in Hres. split; [|done]. apply list_lookup_insert_eq.
  by eapply lookup_lt_Some.
Qed.

(** A datagram that the receiver gets starts a handler. *)
Lemma receiver_starts w g d s now read data addr :
  crashed w = false -> receivers w !! g = Some (Receiving d) ->
  conn (transport (client w)) = Some {| socket := s; is_open := true |} ->
  (forall deadline, read deadline = Ret (data, addr)) ->
  let w' := perform (ReceiverTurn g now read) w in
  handlers w' = handlers w ++ [{| H_data := take 1500 data; H_addr := addr; H_pc := Arrived |}] /\
  calls w' = calls w /\ pending (client w') = pending (client w) /\ chans (client w') = chans (client w) /\
  receivers w' = <[g := Polling d]> (receivers w) /\ crashed w' = false.
Proof.
  intros Hrun Hg Hs Hread w'. unfold w', perform. rewrite Hrun. unfold receiver_step. rewrite Hg.
  unfold ReceiveWithTimeout, Receive, receiver_turn. rewrite Hs. cbn [is_open negb]. rewrite Hread. done.
Qed.

(** A turn of a call that registers nothing. *)
Lemma call_turn_eq w k rq pc ev pc' c' :
  crashed w = false -> calls w !! k = Some (rq, pc) -> call_step rq ev pc (client w) = (Ret pc', c') ->
  note_reuse pc (set_client c' w) = set_client c' w ->
  perform (CallTurn k ev) w = set_calls (<[k := (rq, pc')]> (calls w)) (set_client c' w).
Proof. intros Hrun Hk E Hn. unfold perform. rewrite Hrun. unfold call_turn. rewrite Hk. unfold lift. by rewrite E, Hn. Qed.

(** A call with a result runs its deferred calls and returns. *)
Lemma call_leaves w k rq id ch r ev :
  crashed w = false -> calls w !! k = Some (rq, Leaving id ch r) ->
  let w' := run (repeat (CallTurn k ev) 2) w in
  calls w' !! k = Some (rq, Returned (Some id) r) /\ pending (client w') !! id = None.
Proof.
  intros Hrun Hk w'. unfold w'. cbn [repeat run fold_left].
  rewrite (call_turn_eq w k rq (Leaving id ch r) ev _ _ Hrun Hk eq_refl eq_refl).
  set (w1 := set_calls _ _). assert (calls w1 !! k = Some (rq, Removing id ch r)) as Hk1.
  { apply list_lookup_insert_eq. by eapply lookup_lt_Some. }
  rewrite (call_turn_eq w1 k rq (Removing id ch r) ev _ _ Hrun Hk1 eq_refl eq_refl). split.
  - apply list_lookup_insert_eq. by eapply lookup_lt_Some.
  - apply lookup_delete_eq.
Qed.

(** C11. A response wakes the call it answers.  In every interleaving: a datagram
    the receiver gets starts a handler that holds it.  While a call waits in its
    [select], and as long as its invoke id has not been given to another call
    meanwhile, either a [Close] has closed its channel, or a handler that comes
    with a response to that id puts it into the call's channel (unless an earlier
    response is still in there), and three turns later the call has returned the
    result of the response in the channel, with no entry left in [pending]. *)
Theorem response_wakes_call overlap w k rq id ch :
  reachable overlap w -> crashed w = false -> calls w !! k = Some (rq, Selecting id ch) -> id ∉ reused w ->
  (forall g d s now read data addr,
    receivers w !! g = Some (Receiving d) -> conn (transport (client w)) = Some {| socket := s; is_open := true |} ->
    (forall deadline, read deadline = Ret (data, addr)) ->
    let w' := perform (ReceiverTurn g now read) w in
    handlers w' = handlers w ++ [{| H_data := take 1500 data; H_addr := addr; H_pc := Arrived |}] /\
    calls w' = calls w /\ receivers w' = <[g := Polling d]> (receivers w)) /\
  (forall h hd npdu a,
    handlers w !! h = Some hd -> H_pc hd = Arrived ->
    parse_packet (H_data hd) = Ret (npdu, a) -> is_response (APDU_Type a) = true -> InvokeID a = id ->
    (exists cell, chans (client w) !! ch = Some cell /\ chan_closed cell = true) \/
    let w' := run (repeat (HandlerTurn h) 2) w in
    exists b, chans (client w') !! ch = Some {| buffer := Some b; chan_closed := false |} /\
      forall ev, E_done ev = false ->
        let w'' := run (repeat (CallTurn k ev) 3) w' in
        exists r, calls w'' !! k = Some (rq, Returned (Some id) r) /\ result_of id (Some b) r /\
          pending (client w'') !! id = None).
Proof.
  intros Hre Hrun Hk Hid. pose proof (reachable_consistent _ _ Hre) as Hw. split.
  { intros g d s now read data addr Hg Hs Hread. by destruct (receiver_starts w g d s now read data addr) as (? & ? & _ & _ & ? & _). }
  intros h hd npdu a Hh Harr Hp Hr Hi.
  destruct (ac_kept w (con_accounts w Hw) k id ch) as [Hpe|[Hcl|?]]; [by do 2 eexists| |by left|done].
  right. intros w'. rewrite <- Hi in Hpe.
  destruct (handler_looks_up w h hd npdu a ch Hw Hrun Hh Harr Hp Hr Hpe) as (Hc1 & Hp1 & Hr1 & hd1 & Hh1 & Hpc1).
  set (w1 := perform (HandlerTurn h) w) in *.
  assert (consistent w1) as Hw1 by (by apply (perform_consistent overlap)).
  destruct (handler_puts w1 h hd1 ch a (InvokeID a) Hw1 Hr1 Hh1 Hpc1) as (Hc2 & Hr2 & b & Hb); [by rewrite Hp1|].
  change w' with (perform (HandlerTurn h) w1). clear w'. set (w2 := perform (HandlerTurn h) w1) in *.
  assert (consistent w2) as Hw2 by (by apply (perform_consistent overlap)).
  exists b. split; [exact Hb|]. intros ev Hd w''.
  destruct (call_receives w2 k rq id ch b ev Hw2 Hr2) as (r & Hleft & Hres & Hr3); [by rewrite Hc2, Hc1|done..|].
  destruct (call_leaves _ k rq id ch r ev Hr3 Hleft) as [Hret Hgone]. by exists r.
Qed.

(** The session up to the arrival of the acknowledgement. *)
Definition before_response : World :=
  run ([StartConnect] ++ connecting 0 7 ++ [StartCall request] ++ calling 0 4 ++ acknowledging 0 1) (new_world 0 []).

Lemma before_response_reachable overlap : reachable overlap before_response.
Proof. apply reachable_run; [constructor|]. split; [done|]. apply harmless_run. schedule. Qed.

Lemma response_wakes_call_witness :
  (exists cell, chans (client before_response) !! 0 = Some cell /\ chan_closed cell = true) \/
  exists b r, calls (run (repeat (CallTurn 0 (event false)) 3) (run (repeat (HandlerTurn 0) 2) before_response)) !! 0%nat =
      Some (request, Returned (Some 1) r) /\ result_of 1 (Some b) r.
Proof.
  destruct (response_wakes_call false before_response 0 request 1 0 (before_response_reachable false)) as [_ Hwakes].
  - vm_compute. reflexivity.
  - vm_compute. reflexivity.
  - vm_compute. discriminate.
  - destruct (Hwakes 0%nat {| H_data := [0x81; 0x0A; 0; 9; 1; 0; 0x20; 1; 15]; H_addr := peer; H_pc := Arrived |}
      (direct_npdu false [0x20; 1; 15])
      {| APDU_Type := PDUTypeSimpleAck; Segmented := false; MoreFollows := false; MaxSegments := 0; MaxAPDU := 0;
         InvokeID := 1; SequenceNum := 0; WindowSize := 0; Service := 15; APDU_Data := [] |}) as [H|(b & _ & H)].
    + vm_compute. reflexivity.
    + reflexivity.
    + vm_compute. reflexivity.
    + reflexivity.
    + reflexivity.
    + left. exact H.
    + right. destruct (H (event false) eq_refl) as (r & Hr & Hres & _). exists b, r. split; [exact Hr|exact Hres].
Defined.
