(* ===== verification/Schedules.v ===== *)
(** * Progress and races ([client.go])

    That a [Close] can always come to its end and that a call returns once its
    context has ended, whatever the other goroutines are doing; and the
    schedules in which the client fails: a [Connect] during a [Close], which can
    send on a closed channel, end the process or hang the [Close]; an invoke id
    that comes round again; a call that registers after a [Close] has drained. *)

From S2P Require Import Prelude Enums Errors Link Apdu Tags Values Options Services Metrics Transport Device Client Calls Concurrency Interleaving Lifecycle.
#[local] Open Scope string_scope.
#[local] Open Scope list_scope.
#[local] Open Scope Z_scope.

(** ** [Close] can always return *)

(** A [Close] that has cancelled and waits for the receiver. *)
Definition is_joining (pc : ClosePc) : bool :=
  match pc with Joining | AwaitReceiver _ => true | _ => false end.

(** The channel a [Close] waits for will be closed: what the fields name
    exists, the context is cancelled while a [Close] waits, and an open channel
    has a receiver that runs. *)
Record awaited (w : World) : Prop := {
  aw_made : forall c, receiverCtx (life w) = Some c -> is_Some (contexts (life w) !! c);
  aw_channel : receiverCtx (life w) <> None ->
    (exists k, connectors w !! k = Some MakingDone) \/
    exists d, receiverDone (life w) = Some d /\ is_Some (dones (life w) !! d);
  aw_cancelled : forall k pc, closers w !! k = Some pc -> is_joining pc = true -> ctx_done (life w) = Some true;
  aw_runner : forall d, receiverDone (life w) = Some d -> dones (life w) !! d = Some false ->
    (exists k, connectors w !! k = Some Spawning) \/
    exists k r, receivers w !! k = Some r /\ is_stopped r = false
}.

(** Steps that leave the life cycle alone. *)
Lemma awaited_same w w' :
  life w' = life w -> closers w' = closers w -> (forall k pc, connectors w !! k = Some pc -> connectors w' !! k = Some pc) ->
  (forall k r, receivers w !! k = Some r -> is_stopped r = false ->
     exists r', receivers w' !! k = Some r' /\ is_stopped r' = false) ->
  awaited w -> awaited w'.
Proof.
  intros Hl Hcl Hcn Hr []. split; rewrite ?Hl, ?Hcl; try done.
  - intros H. destruct (aw_channel0 H) as [[k ?]|?]; [left; exists k; auto|by right].
  - intros d Hd Hf. destruct (aw_runner0 d Hd Hf) as [[k ?]|(k & r & Hk & Hs)]; [left; exists k; auto|].
    right. exists k. by eapply Hr.
Qed.

Lemma receiver_inserted w k r r' :
  receivers w !! k = Some r -> (is_stopped r = false -> is_stopped r' = false) ->
  forall j rj, receivers w !! j = Some rj -> is_stopped rj = false ->
    exists r0, <[k := r']> (receivers w) !! j = Some r0 /\ is_stopped r0 = false.
Proof.
  intros Hk Hs j rj Hj Hsj. destruct (decide (j = k)) as [->|Hne].
  - exists r'. rewrite list_lookup_insert_eq by (by eapply lookup_lt_Some). split; [done|]. apply Hs. congruence.
  - exists rj. by rewrite list_lookup_insert_ne.
Qed.

Lemma receiver_step_awaited w k now read :
  wf_read read -> ordered w -> awaited w -> awaited (receiver_step k now read w).
Proof.
  intros Hr Ho Ha. destruct (receiver_step_moves w k now read Hr)
    as [->|r r' Hk Hs Hs' Hb []|dn hd w1 Hk _ _ [] ->|r d Hk Hb Hd []|r w1 Hk Hs Hp _ _ _ _ _ _]; [done|..].
  - apply (awaited_same w); try done; [by rewrite l_connectors|]. rewrite l_receivers. by apply (receiver_inserted w k r).
  - apply (awaited_same w); cbn; try done; [by rewrite l_connectors|]. rewrite l_receivers.
    by apply (receiver_inserted w k (Receiving dn)).
  - destruct (or_running w Ho _ _ Hk) as [_ Hh]; [by destruct r|]. unfold holds in Hh. rewrite Hb in Hh. cbn in Hh.
    destruct Ha. split; rewrite ?l_life, ?l_closers, ?l_connectors; cbn; try done.
    + intros H. destruct (aw_channel0 H) as [?|(d' & Hd' & Hx)]; [by left|right]. exists d'. split; [done|].
      by apply list_lookup_insert_is_Some.
    + intros d' Hd'. assert (d' = d) as -> by congruence.
      rewrite list_lookup_insert_eq by (by eapply lookup_lt_Some). done.
  - destruct (receiver_returns w k r Ho Hk Hs) as [H1 H2]. destruct Hp as [?|(dn & Hb & Hp)]; [done|].
    by rewrite (H2 _ Hb) in Hp.
Qed.

Lemma close_turn_awaited w k cr iterate :
  no_panic cr -> (forall p, iterate p ≡ₚ (map_to_list p).*2) -> channels w -> awaited w ->
  awaited (close_turn k cr iterate w).
Proof.
  intros Hcr Hit Hw Ha. unfold close_turn. destruct (closers w !! k) as [pc|] eqn:Hk; [|done].
  destruct (close_step_moves w cr iterate pc Hw Hcr Hit) as (pc' & w1 & -> & Hm).
  destruct (close_moved_keeps _ _ _ _ Hm) as (Hr & Hcn & _ & Hl & _).
  pose proof Ha as []. split; cbn; rewrite ?Hr, ?Hcn.
  - intros c. destruct Hl as [->|(c' & Hc' & ->)]; [by apply aw_made0|]. cbn. intros Hc.
    by apply list_lookup_insert_is_Some, aw_made0.
  - by destruct Hl as [->|(c' & Hc' & ->)].
  - intros j pcj Hj Hp. destruct Hl as [Hl|(c & Hc & ->)].
    2: { apply ctx_done_cancel; [done|]. unfold ctx_done. rewrite Hc. by apply aw_made0. }
    apply list_lookup_insert_Some in Hj as [(<- & <- & _)|[_ Hj]]; [|rewrite Hl; by eapply aw_cancelled0].
    destruct Hm as [_ _|_|_|_ _|c Hc []|_|pc _ _|d _ _|_ _|chs m _ _ _|r _]; try done; rewrite ?Hl; try (by eapply aw_cancelled0).
    rewrite <- Hl, l_life. apply ctx_done_cancel; [done|]. unfold ctx_done. rewrite Hc. by apply aw_made0.
  - by destruct Hl as [->|(c' & Hc' & ->)].
Qed.

(** A turn of [Connect] keeps the others where they are. *)
Lemma connect_turn_others w k pc pc' j pcj :
  connectors w !! k = Some pc -> pc <> pcj -> connectors w !! j = Some pcj ->
  <[k := pc']> (connectors w) !! j = Some pcj.
Proof. intros Hk Hne Hj. rewrite list_lookup_insert_ne; [done|]. intros ->. congruence. Qed.

Lemma connect_turn_awaited w k env resolve listen :
  (forall addr packet, no_panic (write_result env addr packet)) -> (forall s, no_panic (resolve s)) ->
  (forall a, no_panic (listen a)) -> ordered w -> awaited w -> awaited (connect_turn k env resolve listen w).
Proof.
  intros Hwr Hres Hlis Ho Ha. unfold connect_turn. destruct (connectors w !! k) as [pc|] eqn:Hk; [|done].
  destruct (connect_step_moves w env resolve listen pc Hwr Hres Hlis) as (pc' & w1 & -> & Hm).
  assert (forall pc', <[k := pc']> (connectors w) !! k = Some pc') as Hnew.
  { intros. apply list_lookup_insert_eq. by eapply lookup_lt_Some. }
  assert (pc <> MakingDone -> pc <> Spawning -> closers w1 = closers w -> receivers w1 = receivers w ->
    life w1 = life w -> awaited (set_connectors (<[k := pc']> (connectors w)) w1)) as Hsame.
  { intros H1 H2 Hcl Hr Hl. pose proof Ha as []. split; cbn; rewrite ?Hl, ?Hcl, ?Hr; try done.
    - intros H. destruct (aw_channel0 H) as [[j ?]|?]; [left|by right]. exists j. by eapply connect_turn_others.
    - intros d Hd Hf. destruct (aw_runner0 d Hd Hf) as [[j ?]|?]; [left|by right]. exists j. by eapply connect_turn_others. }
  destruct Hm as [r _ []|? []|r []|[]|Hl|Hl|Hl|[]|r []|r []]; try (by apply Hsame); clear Hsame;
    (assert (forall j pcj, closers w !! j = Some pcj -> is_joining pcj = false) as Hcs;
      [intros j pcj Hj; destruct (early_alone w k _ Hk eq_refl Ho) as [_ Hcs]; by destruct (Hcs _ _ Hj) as [? ->]|]);
    destruct Hl; pose proof Ha as [];
    (split; cbn; rewrite ?l_life, ?l_closers, ?l_receivers; cbn; try done;
     try (intros j pcj Hj Hp; by rewrite (Hcs _ _ Hj) in Hp)).
  - intros c [= <-]. eexists. by apply list_lookup_middle.
  - intros _. left. by exists k.
  - intros d Hd Hf. destruct (aw_runner0 d Hd Hf) as [[j Hj]|?]; [left|by right]. exists j. by eapply connect_turn_others.
  - intros _. right. eexists. split; [reflexivity|]. eexists. by apply list_lookup_middle.
  - intros d _ _. left. by exists k.
  - intros H. destruct (aw_channel0 H) as [[j Hj]|?]; [left|by right]. exists j. by eapply connect_turn_others.
  - intros d _ _. right. exists (length (receivers w)), Spawned. split; [by apply list_lookup_middle|done].
Qed.

Lemma perform_awaited w a :
  possible false w a -> consistent w -> ordered w -> clean w -> awaited w -> awaited (perform a w).
Proof.
  intros Hp [Hw _] Ho Hc Ha. unfold perform. rewrite (cl_running w Hc). destruct a; cbn [possible] in Hp;
    try (by apply (awaited_same w); eauto).
  - destruct (calls w !! k) as [[rq pc]|] eqn:Hk; [|unfold call_turn; by rewrite Hk].
    destruct (call_turn_turned w k ev rq pc Hw Hk Hp) as (pc' & c' & _ & []).
    apply (awaited_same w); rewrite ?t_connectors, ?t_receivers; eauto.
  - destruct (handlers w !! k) as [hd|] eqn:Hk; [|unfold handler_turn; by rewrite Hk].
    destruct (handler_turn_turned w k hd Hw Hk) as (pc & c' & _ & []).
    apply (awaited_same w); rewrite ?h_connectors, ?h_receivers; eauto.
  - by apply receiver_step_awaited.
  - destruct Ha. split; cbn; try done. intros k pc [H| ->]%lookup_snoc_inv Hj; [by eapply aw_cancelled0|done].
  - destruct Hp. by apply close_turn_awaited.
  - apply (awaited_same w); cbn; eauto. intros k pc Hk. by apply lookup_app_l_Some.
  - destruct Hp as (? & ? & ?). by apply connect_turn_awaited.
Qed.

Lemma reachable_awaited w : reachable false w -> awaited w.
Proof.
  induction 1 as [|w a Hw IH Hp]; [by split|]. destruct (reachable_ordered _ Hw).
  apply perform_awaited; [done|by eapply reachable_consistent|done..].
Qed.

(** *** The turns that help a [Close] *)

(** A read that runs into its deadline. *)
Definition idle_read : Z -> go (bytes * UDPAddr) := fun _ => Err (EOS true "i/o timeout").

(** Turns of receivers, handlers and [Close]s. *)
Definition serves (a : Action) : bool :=
  match a with HandlerTurn _ | ReceiverTurn _ _ _ | CloseTurn _ _ _ => true | _ => false end.

Definition helpful (overlap : bool) (a : Action) : Prop := harmless overlap a /\ serves a = true.

Lemma helpful_receiver overlap k : helpful overlap (ReceiverTurn k 0 idle_read).
Proof. by split; [intros w d|]. Qed.

Lemma helpful_close overlap k : helpful overlap (CloseTurn k (Ret tt) (fun p => (map_to_list p).*2)).
Proof. by split; [intros w; cbn; split_and!|]. Qed.

Lemma helpful_handler overlap k : helpful overlap (HandlerTurn k).
Proof. done. Qed.

#[local] Hint Resolve helpful_receiver helpful_close helpful_handler : core.

(** A helpful schedule after which [P] holds. *)
Definition leads (overlap : bool) (w : World) (P : World -> Prop) : Prop :=
  exists actions, Forall (helpful overlap) actions /\ P (run actions w).

Lemma run_app l l' w : run (l ++ l') w = run l' (run l w).
Proof. unfold run. apply fold_left_app. Qed.

Lemma leads_now overlap w (P : World -> Prop) : P w -> leads overlap w P.
Proof. intros H. by exists []. Qed.

Lemma leads_step overlap w (P : World -> Prop) a :
  helpful overlap a -> leads overlap (perform a w) P -> leads overlap w P.
Proof. intros Ha (l & Hl & H). exists (a :: l). split; [by constructor|done]. Qed.

Lemma leads_bind overlap w (P Q : World -> Prop) :
  leads overlap w P -> (forall w', P w' -> leads overlap w' Q) -> leads overlap w Q.
Proof.
  intros (l & Hl & HP) H. destruct (H _ HP) as (l' & Hl' & HQ). exists (l ++ l'). rewrite run_app.
  split; [by apply Forall_app|done].
Qed.

(** A world a schedule passes through. *)
Record running (w : World) : Prop := {
  ru_consistent : consistent w;
  ru_ordered : ordered w;
  ru_clean : clean w;
  ru_awaited : awaited w
}.

Lemma running_step w a : helpful false a -> running w -> running (perform a w).
Proof.
  intros Ha []. pose proof (proj1 Ha w) as Hp.
  destruct (perform_ordered w a Hp ru_consistent0 ru_ordered0 ru_clean0).
  split; [by eapply perform_consistent|done..|by apply perform_awaited].
Qed.

Lemma reachable_running w : reachable false w -> running w.
Proof.
  intros Hw. destruct (reachable_ordered _ Hw). split; [by eapply reachable_consistent|done..|by apply reachable_awaited].
Qed.

Lemma running_crashed w : running w -> crashed w = false.
Proof. intros []. apply ru_clean0. Qed.

(** One turn of a receiver whose context is cancelled and whose read times
    out: it gets to the look at the context, or returns. *)
Lemma receiver_turn_idle w k r d :
  running w -> receivers w !! k = Some r -> is_stopped r = false -> ctx_done (life w) = Some true ->
  receiverDone (life w) = Some d ->
  let w' := perform (ReceiverTurn k 0 idle_read) w in
  closers w' = closers w /\
  (dones (life w') !! d = Some true \/
   (forall dn, r <> Polling dn) /\ life w' = life w /\ exists dn, receivers w' !! k = Some (Polling dn)).
Proof.
  intros Hw Hk Hs Hc Hd w'. unfold w', perform. rewrite (running_crashed w Hw). unfold receiver_step. rewrite Hk.
  destruct (receiver_returns w k r (ru_ordered w Hw) Hk Hs) as [_ Hret].
  destruct (or_running w (ru_ordered w Hw) _ _ Hk Hs) as [_ Hh]. unfold holds in Hh. rewrite Hd in Hh.
  assert (forall r', <[k := r']> (receivers w) !! k = Some r') as Hins.
  { intros r'. apply list_lookup_insert_eq. by eapply lookup_lt_Some. }
  assert (bound r = Some (Some d) ->
    closers (close_done (Some d) (set_receiver k Stopped w)) = closers w /\
    dones (life (close_done (Some d) (set_receiver k Stopped w))) !! d = Some true) as Hclose.
  { intros Hb. pose proof (Hret _ Hb) as Hf. cbn in Hf. unfold close_done. cbn. rewrite Hf. cbn. split; [done|].
    apply list_lookup_insert_eq. by eapply lookup_lt_Some. }
  destruct r as [|dn|dn|]; cbn in Hh; try done.
  - split; [done|]. right. split_and!; [done..|]. eexists. apply Hins.
  - rewrite Hc. subst dn. destruct (Hclose eq_refl). split; [done|by left].
  - subst dn. destruct (Hclose eq_refl). unfold receiver_turn, ReceiveWithTimeout, Receive, idle_read.
    repeat (case_match; cbn [try obind is_net_timeout] in *); simplify_eq; (split; [done|]); auto;
      right; (split_and!; [done..|]); eexists; apply Hins.
Qed.

Lemma receiver_stops w k r d :
  running w -> receivers w !! k = Some r -> is_stopped r = false -> ctx_done (life w) = Some true ->
  receiverDone (life w) = Some d ->
  leads false w (fun w' => running w' /\ closers w' = closers w /\ dones (life w') !! d = Some true).
Proof.
  intros Hw Hk Hs Hc Hd. set (w1 := perform (ReceiverTurn k 0 idle_read) w).
  assert (running w1) as Hw1 by (by apply running_step; [apply helpful_receiver|]).
  destruct (receiver_turn_idle w k r d Hw Hk Hs Hc Hd) as (Hcl & Hr1).
  apply (leads_step _ _ _ (ReceiverTurn k 0 idle_read)); [apply helpful_receiver|]. fold w1.
  destruct Hr1 as [?|(_ & Hl & dn & Hk1)]; [by apply leads_now|].
  apply (leads_step _ _ _ (ReceiverTurn k 0 idle_read)); [apply helpful_receiver|]. apply leads_now.
  fold w1 in Hl. rewrite <- Hl in Hc, Hd.
  destruct (receiver_turn_idle w1 k (Polling dn) d Hw1 Hk1 eq_refl Hc Hd) as (Hcl2 & Hr2).
  split; [by apply running_step; [apply helpful_receiver|]|]. split; [rewrite Hcl2; exact Hcl|].
  destruct Hr2 as [?|[Hno _]]; [done|by destruct (Hno dn)].
Qed.

(** The channel a [Close] waits for gets closed. *)
Lemma receiver_joined w k done :
  running w -> closers w !! k = Some (AwaitReceiver done) ->
  leads false w (fun w' => running w' /\ closers w' = closers w /\
    done ≫= (fun d => dones (life w') !! d) = Some true).
Proof.
  intros Hw Hk. pose proof (aw_cancelled w (ru_awaited w Hw) _ _ Hk eq_refl) as Hc.
  pose proof (or_wait w (ru_ordered w Hw) _ _ Hk) as Hd.
  assert (forall j pc, connectors w !! j = Some pc -> has_connected pc = true) as Hcn.
  { intros j pc Hj. destruct (or_apart w (ru_ordered w Hw)) as [H|H]; [by eapply forallb_lookup|].
    by pose proof (forallb_lookup _ _ _ _ H Hk). }
  destruct (aw_channel w (ru_awaited w Hw)) as [[j Hj]|(d & Hd' & [b Hb])].
  { intros E. unfold ctx_done in Hc. by rewrite E in Hc. }
  { by pose proof (Hcn _ _ Hj). }
  rewrite <- Hd, Hd'. destruct b; [by apply leads_now|].
  destruct (aw_runner w (ru_awaited w Hw) d Hd' Hb) as [[j Hj]|(j & r & Hj & Hs)]; [by pose proof (Hcn _ _ Hj)|].
  by apply (receiver_stops w j r d).
Qed.

(** A handler ends in at most two turns. *)
Lemma handler_ends w k hd :
  running w -> handlers w !! k = Some hd ->
  leads false w (fun w' => running w' /\ closers w' = closers w /\
    exists hd', handlers w' = <[k := hd']> (handlers w) /\ is_finished hd' = true).
Proof.
  intros Hw Hk. pose proof (helpful_handler false k) as Hh.
  pose proof (running_step w (HandlerTurn k) Hh Hw) as Hw1.
  destruct (handler_turn_turned w k hd (con_channels w (ru_consistent w Hw)) Hk) as (pc & c & Hm & Ht).
  apply (leads_step _ _ _ (HandlerTurn k)); [done|]. unfold perform in *.
  rewrite (running_crashed w Hw) in *. set (w1 := handler_turn k w) in *.
  set (hd1 := {| H_data := H_data hd; H_addr := H_addr hd; H_pc := pc |}).
  assert (handlers w1 = <[k := hd1]> (handlers w)) as Hh1 by apply Ht.
  assert (handlers w1 !! k = Some hd1) as Hk1.
  { rewrite Hh1. apply list_lookup_insert_eq. by eapply lookup_lt_Some. }
  destruct (handler_turn_turned w1 k hd1 (con_channels w1 (ru_consistent w1 Hw1)) Hk1) as (pc2 & c2 & Hm2 & Ht2).
  assert (pc2 = Finished) as ->.
  { destruct Hm2 as [? ? ? Harr| | |]; try done. by destruct Hm. }
  apply (leads_step _ _ _ (HandlerTurn k)); [done|]. unfold perform.
  rewrite (running_crashed w1 Hw1). apply leads_now. split.
  - pose proof (running_step w1 (HandlerTurn k) Hh Hw1) as Hw2. unfold perform in Hw2.
    by rewrite (running_crashed w1 Hw1) in Hw2.
  - split; [by rewrite (h_closers _ _ _ _ _ _ Ht2), (h_closers _ _ _ _ _ _ Ht)|].
    eexists. split; [rewrite (h_handlers _ _ _ _ _ _ Ht2), Hh1; apply list_insert_insert_eq|done].
Qed.

Lemma handlers_end w n :
  running w -> (n <= length (handlers w))%nat ->
  leads false w (fun w' => running w' /\ closers w' = closers w /\ length (handlers w') = length (handlers w) /\
    forall j hd, (j < n)%nat -> handlers w' !! j = Some hd -> is_finished hd = true).
Proof.
  intros Hw. induction n as [|n IH]; intros Hn.
  - apply leads_now. split_and!; [done..|]. intros. lia.
  - eapply leads_bind; [apply IH; lia|]. intros w1 (Hw1 & Hcl & Hlen & Hfin).
    destruct (lookup_lt_is_Some_2 (handlers w1) n) as [hd Hhd]; [lia|].
    destruct (handler_ends w1 n hd Hw1 Hhd) as (l & Hl & Hw2 & Hcl2 & hd' & Hh2 & Hf2).
    exists l. split; [done|]. split; [done|]. split; [by rewrite Hcl2|]. rewrite Hh2.
    split; [by rewrite length_insert|]. intros j hdj Hj. rewrite list_lookup_insert_Some.
    intros [(-> & <- & _)|[Hne H]]; [done|]. apply (Hfin j); [lia|done].
Qed.

(** How far a [Close] has come. *)
Definition rank (pc : ClosePc) : nat :=
  match pc with
  | Loading => 0 | Storing => 1 | Cancelling => 2 | Joining => 3 | AwaitReceiver _ => 4 | AwaitHandlers => 5
  | Draining => 6 | Closing => 7 | Closed _ => 8
  end.

(** A [Close] that is not blocked moves on at its next turn. *)
Lemma close_moves_on w k pc :
  running w -> closers w !! k = Some pc -> ~ blocked w pc ->
  leads false w (fun w' => running w' /\ exists pc', closers w' !! k = Some pc' /\ (rank pc < rank pc')%nat).
Proof.
  intros Hw Hk Hb. pose proof (helpful_close false k) as Hh.
  apply (leads_step _ _ _ _ Hh), leads_now. split; [by apply running_step|].
  unfold perform. rewrite (running_crashed w Hw). unfold close_turn. rewrite Hk.
  destruct (close_step_moves w (Ret tt) (fun p => (map_to_list p).*2) pc (con_channels w (ru_consistent w Hw)))
    as (pc' & w' & -> & Hm); [done|done|].
  exists pc'. cbn. split; [apply list_lookup_insert_eq; by eapply lookup_lt_Some|].
  destruct Hm; cbn; try lia. done.
Qed.

Lemma close_advances w k pc :
  running w -> closers w !! k = Some pc -> (rank pc < 8)%nat ->
  leads false w (fun w' => running w' /\ exists pc', closers w' !! k = Some pc' /\ (rank pc < rank pc')%nat).
Proof.
  intros Hw Hk Hr.
  destruct pc as [| | | |dn| | | |]; cbn in Hr; try lia; try (apply close_moves_on; [done|done|by intros []]).
  - eapply leads_bind; [by eapply receiver_joined|]. cbn beta. intros w' (Hw' & Hcl & Hd).
    apply close_moves_on; [done|by rewrite Hcl|]. by intros Hb.
  - eapply leads_bind; [by apply (handlers_end w (length (handlers w)))|].
    intros w' (Hw' & Hcl & Hlen & Hfin). apply close_moves_on; [done|by rewrite Hcl|].
    intros Hb. cbn in Hb. apply not_true_iff_false in Hb. apply Hb. apply forallb_forall.
    intros hd Hhd%list_elem_of_In%list_elem_of_lookup_1. destruct Hhd as [j Hj].
    apply (Hfin j); [|done]. rewrite <- Hlen. by eapply lookup_lt_Some.
Qed.

Lemma close_finishes w k pc :
  running w -> closers w !! k = Some pc ->
  leads false w (fun w' => exists r, closers w' !! k = Some (Closed r)).
Proof.
  remember (8 - rank pc)%nat as n eqn:Hn. revert w pc Hn.
  induction n as [n IH] using lt_wf_ind. intros w pc Hn Hw Hk.
  destruct (decide (rank pc < 8)%nat) as [Hr|Hr].
  - eapply leads_bind; [by eapply close_advances|]. intros w' (Hw' & pc' & Hk' & Hlt).
    eapply (IH (8 - rank pc')%nat); [lia|reflexivity|done..].
  - apply leads_now. destruct pc; cbn in Hr; try lia. by eexists.
Qed.

(** C15. [Close] cannot deadlock.  As long as [Connect] and [Close] do not
    overlap, and whatever else the client is doing, every [Close] under way can
    be brought to its end by turns of the receiver it waits for, of the handlers
    and of its own: the context of the receiver is cancelled, the receiver
    closes the very channel [Close] waits for, and handlers end by themselves.
    It needs no turn of a waiting call and no context to end. *)
Theorem Close_can_return w k pc :
  reachable false w -> closers w !! k = Some pc ->
  exists actions, possible_run false actions w /\ forallb serves actions = true /\
    exists r, closers (run actions w) !! k = Some (Closed r).
Proof.
  intros Hw Hk. destruct (close_finishes w k pc) as (actions & Hh & Hr); [by apply reachable_running|done|].
  exists actions. split; [|split; [|done]].
  - apply harmless_run. eapply Forall_impl; [done|]. by intros a [].
  - apply forallb_forall. intros a Ha%list_elem_of_In. rewrite Forall_forall in Hh. by apply Hh.
Qed.

Lemma possible_run_one overlap a l w :
  possible overlap w a -> possible_run overlap l (perform a w) -> possible_run overlap ([a] ++ l) w.
Proof. by split. Qed.

Lemma harmless_idle_read overlap k : harmless overlap (ReceiverTurn k 0 idle_read).
Proof. by intros w d. Qed.
Lemma harmless_idle_reads overlap k n : Forall (harmless overlap) (repeat (ReceiverTurn k 0 idle_read) n).
Proof. apply harmless_repeat, harmless_idle_read. Qed.
#[export] Hint Resolve harmless_idle_read harmless_idle_reads : schedule.

(** Play a schedule: the harmless pieces by hints, the calls of [Connect] and
    [Close] by evaluation. *)
Ltac play := first
  [ done
  | apply harmless_run; solve [schedule]
  | apply possible_run_app; [apply harmless_run; solve [schedule]|play]
  | apply possible_run_one; [first [done | intros _; vm_compute; reflexivity]|play] ].

(** A [Close] called while a call waits and a receiver reads. *)
Definition closing_world : World :=
  run ([StartConnect] ++ connecting 0 7 ++ [StartCall request] ++ calling 0 4 ++
       [ReceiverTurn 0 0 idle_read] ++ [StartClose] ++ []) (new_world 0 []).

Lemma closing_world_reachable : reachable false closing_world.
Proof.
  apply reachable_run; [constructor|]. play.
Qed.

Lemma Close_can_return_witness :
  exists actions, possible_run false actions closing_world /\ forallb serves actions = true /\
    exists r, closers (run actions closing_world) !! 0%nat = Some (Closed r).
Proof.
  apply (Close_can_return closing_world 0 Loading closing_world_reachable).
  vm_compute. reflexivity.
Defined.

(** ** Calls return *)

(** How far a call has come. *)
Definition stage (pc : CallPc) : nat :=
  match pc with
  | Checking => 0 | Numbering => 1 | Registering _ => 2 | Sending _ _ => 3 | Selecting _ _ => 4
  | Leaving _ _ _ => 5 | Removing _ _ _ => 6 | Returned _ _ => 7
  end.

(** A turn of a call whose context has ended. *)
Lemma call_turn_advances w k rq pc ev :
  consistent w -> crashed w = false -> calls w !! k = Some (rq, pc) ->
  (forall addr p, no_panic (E_write ev addr p)) -> E_done ev = true ->
  let w' := perform (CallTurn k ev) w in
  consistent w' /\ crashed w' = false /\ handlers w' = handlers w /\ closers w' = closers w /\
  (forall j, j <> k -> calls w' !! j = calls w !! j) /\
  exists pc', calls w' !! k = Some (rq, pc') /\ (stage pc = 7 /\ pc' = pc \/ stage pc < stage pc')%nat.
Proof.
  intros Hw Hrun Hk Hwr Hd w'.
  assert (consistent w') as Hw' by (by apply (perform_consistent false)). split; [done|].
  unfold w', perform in *. rewrite Hrun in *.
  destruct (call_turn_turned w k ev rq pc (con_channels w Hw) Hk Hwr) as (pc' & c' & Hm & Ht).
  split; [by rewrite (t_crashed _ _ _ _ _ _ _ Ht)|]. split; [apply Ht|]. split; [apply Ht|].
  split; [intros j Hj; rewrite (t_calls _ _ _ _ _ _ _ Ht); by apply list_lookup_insert_ne|]. exists pc'.
  assert (calls (call_turn k ev w) !! k = Some (rq, pc')) as Hk'.
  { rewrite (t_calls _ _ _ _ _ _ _ Ht). apply list_lookup_insert_eq. by eapply lookup_lt_Some. }
  split; [done|]. destruct Hm; cbn; try (right; lia); [|by left].
  exfalso. revert Hk'. unfold call_turn. rewrite Hk. unfold lift. cbn [call_step]. rewrite Hd.
  unfold settle, mbind, inc, modify, mret. cbv beta iota. cbn [note_reuse calls set_calls].
  rewrite list_lookup_insert_eq by (by eapply lookup_lt_Some). done.
Qed.

(** C14. A call returns once its context has ended.  In every interleaving,
    wherever a call is, seven turns of its own are enough for it to return from
    the moment its context is done, whatever state the client is in and whatever
    the other goroutines are doing: it waits for no lock, no channel and no
    goroutine, and makes no other call, handler or [Close] wait or move. *)
Theorem calls_return overlap w k rq pc ev :
  reachable overlap w -> crashed w = false -> calls w !! k = Some (rq, pc) ->
  (forall addr p, no_panic (E_write ev addr p)) -> E_done ev = true ->
  let w' := run (repeat (CallTurn k ev) 7) w in
  crashed w' = false /\ handlers w' = handlers w /\ closers w' = closers w /\
  (forall j, j <> k -> calls w' !! j = calls w !! j) /\
  exists id r, calls w' !! k = Some (rq, Returned id r).
Proof.
  intros Hre Hrun Hk Hwr Hd.
  assert (forall n w pc, consistent w -> crashed w = false -> calls w !! k = Some (rq, pc) -> (7 <= n + stage pc)%nat ->
    let w' := run (repeat (CallTurn k ev) n) w in
    crashed w' = false /\ handlers w' = handlers w /\ closers w' = closers w /\
    (forall j, j <> k -> calls w' !! j = calls w !! j) /\
    exists id r, calls w' !! k = Some (rq, Returned id r)) as Hn.
  { clear w pc Hre Hrun Hk. induction n as [|n IH]; intros w pc Hw Hrun Hk Hs w'.
    - split_and!; [done..|]. destruct pc; cbn in Hs; try lia. by do 2 eexists.
    - destruct (call_turn_advances w k rq pc ev Hw Hrun Hk Hwr Hd) as (Hw1 & Hrun1 & Hh & Hcl & Ho & pc' & Hk' & Hst).
      unfold w'. rewrite run_repeat.
      destruct (IH _ pc' Hw1 Hrun1 Hk') as (H1 & H2 & H3 & H4 & H5); [destruct Hst as [[? ->]|?]; lia|].
      split_and!; [done|congruence..| |done]. intros j Hj. rewrite H4 by done. by apply Ho. }
  apply (Hn 7%nat w pc); [by eapply reachable_consistent|done..|lia].
Qed.

(** A call that waits while nothing answers. *)
Lemma calls_return_witness :
  let w := run (repeat (CallTurn 0 (event true)) 7) closing_world in
  exists id r, calls w !! 0%nat = Some (request, Returned id r).
Proof.
  apply (calls_return false closing_world 0 request (Selecting 1 0) (event true) closing_world_reachable);
    [vm_compute; reflexivity|vm_compute; reflexivity|done|reflexivity].
Defined.

(** ** Races *)

(** A [Connect] while a [Close] is about to close the channels: the first
    receiver has stopped and its handlers have finished, the second one takes a
    response. *)
Definition connect_race : list Action :=
  [StartConnect] ++ connecting 0 7 ++ [StartCall request] ++ calling 0 4 ++
  [StartClose] ++ closing 0 4 ++ repeat (ReceiverTurn 0 0 idle_read) 2 ++ closing 0 2 ++
  [StartConnect] ++ connecting 1 5 ++ acknowledging 1 1 ++ [HandlerTurn 0] ++
  closing 0 1 ++ [HandlerTurn 0].

(** [Connect] during [Close] sends on a closed channel.  The order of waits
    in [Close] does not protect the handlers when [Connect] is called before
    [Close] has returned: [Close] has set the state to disconnected first, so
    [Connect] succeeds on the socket that is still open and starts a receiver
    [Close] does not wait for.  There is a schedule in which its handler finds
    the channel of a waiting call, [Close] closes it, and the send panics; only
    the [recover] of the handler keeps the process alive, and the call gets
    [ErrConnectionClosed] although its response had arrived. *)
Theorem overlap_sends_on_closed :
  exists actions, possible_run true actions (new_world 0 []) /\
    let w := run actions (new_world 0 []) in
    get PanicsRecovered_ (metrics (client w)) = 1 /\
    chans (client w) !! 0 = Some {| buffer := None; chan_closed := true |} /\
    exists npdu a, handlers w !! 0%nat = Some {| H_data := [0x81; 0x0A; 0; 9; 1; 0; 0x20; 1; 15]; H_addr := peer; H_pc := Finished |} /\
      parse_packet [0x81; 0x0A; 0; 9; 1; 0; 0x20; 1; 15] = Ret (npdu, a) /\ InvokeID a = 1 /\
      calls w !! 0%nat = Some (request, Selecting 1 0) /\
      calls (run (calling 0 3) w) !! 0%nat = Some (request, Returned (Some 1) (inr ErrConnectionClosed)).
Proof.
  exists connect_race. split.
  - unfold connect_race. play.
  - split; [vm_compute; reflexivity|]. split; [vm_compute; reflexivity|].
    do 2 eexists. repeat (split; [vm_compute; reflexivity|]). vm_compute. reflexivity.
Qed.

(** A [Connect] after a [Close] has marked the client and before the receiver
    of the first connection has run: both receivers defer closing the channel of
    the second connection. *)
Definition double_close : list Action :=
  [StartConnect] ++ connecting 0 7 ++ [StartClose] ++ closing 0 2 ++ [StartConnect] ++ connecting 1 7 ++
  [ReceiverTurn 0 0 idle_read; ReceiverTurn 1 0 idle_read] ++ closing 0 1 ++
  [ReceiverTurn 0 0 idle_read; ReceiverTurn 1 0 idle_read].

(** C29. [Connect] during [Close] can end the process.  [receiver] evaluates
    [c.receiverDone] when it begins to run, and looks at [c.receiverCtx] in
    every turn, not at what its own [Connect] made.  There is a schedule in
    which a [Connect] during a [Close] replaces both fields before the first
    receiver runs: both receivers then stop on the one context, the second one
    closes a closed channel, and no [recover] is above it. *)
Theorem overlap_crashes :
  exists actions, possible_run true actions (new_world 0 []) /\
    let w := run actions (new_world 0 []) in
    crashed w = true /\ receivers w = [Stopped; Stopped] /\
    connectors w = [Connected None; Connected None] /\ dones (life w) = [false; true].
Proof.
  exists double_close. split; [unfold double_close; play|].
  repeat (split; [vm_compute; reflexivity|]). vm_compute. reflexivity.
Qed.

(** A [Connect] between the cancelling and the waiting of a [Close]. *)
Definition lost_cancel : list Action :=
  [StartConnect] ++ connecting 0 7 ++ [ReceiverTurn 0 0 idle_read] ++ [StartClose] ++ closing 0 3 ++
  [StartConnect] ++ connecting 1 7 ++ [ReceiverTurn 1 0 idle_read] ++ closing 0 1.

(** A [Close] that waits for a receiver nobody has told to stop. *)
Record stuck (w : World) : Prop := {
  st_closers : closers w = [AwaitReceiver (Some 1%nat)];
  st_open : dones (life w) !! 1%nat = Some false;
  st_context : ctx_done (life w) = Some false;
  st_state : state (client w) = StateConnected;
  st_transport : closed (transport (client w)) = false;
  st_connectors : Forall (fun pc => pc = Swapping \/ has_connected pc = true) (connectors w)
}.

Lemma stuck_keep w w' :
  closers w' = closers w -> life w' = life w -> connectors w' = connectors w ->
  state (client w') = state (client w) -> transport (client w') = transport (client w) -> stuck w -> stuck w'.
Proof. intros Hcl Hl Hcn Hs Ht []. split; congruence. Qed.

Lemma moved_transport w c' pc pc' : moved w c' pc pc' -> transport c' = transport (client w).
Proof. by destruct 1; match goal with B : becomes _ _ _ _ _ _ |- _ => destruct B end. Qed.

(** A receiver whose context is not cancelled runs on as long as the socket is
    open. *)
Lemma receiver_step_stuck w k now read : wf_read read -> stuck w -> stuck (receiver_step k now read w).
Proof.
  intros Hr Hw. unfold receiver_step. destruct (receivers w !! k) as [[|dn|dn|]|]; try done.
  - by apply (stuck_keep w).
  - rewrite (st_context w Hw). by apply (stuck_keep w).
  - unfold receiver_turn, IsClosed, ReceiveWithTimeout, Receive. rewrite (st_transport w Hw).
    destruct (conn (transport (client w))) as [cn|]; [destruct (is_open cn); cbn [negb]|];
      [match goal with |- context [read ?d] => specialize (Hr d); destruct (read d) as [[data addr]|e| |] end; try done|..];
      cbn [try obind]; [|destruct (is_net_timeout _)..]; by apply (stuck_keep w).
Qed.

Definition is_start_close (a : Action) : bool := match a with StartClose => true | _ => false end.

Lemma connect_step_stuck w env resolve listen pc :
  stuck w -> pc = Swapping \/ has_connected pc = true ->
  exists pc', connect_step env resolve listen pc w = (Ret pc', w) /\ has_connected pc' = true.
Proof.
  intros Hw [->|Hp]; [|by destruct pc; try done; eexists]. exists (Connected (Some ErrAlreadyConnected)).
  cbn [connect_step]. unfold lift, mbind, gets, mret. rewrite (st_state w Hw). cbn. split; [|done].
  by destruct w.
Qed.

Lemma perform_stuck w a :
  consistent w -> possible true w a -> is_start_close a = false -> stuck w -> stuck (perform a w).
Proof.
  intros [Hch _] Hp Ha Hw. unfold perform. destruct (crashed w); [done|].
  destruct a; cbn [possible] in Hp; try done; try (by apply (stuck_keep w)).
  - destruct (calls w !! k) as [[rq pc]|] eqn:Hk; [|unfold call_turn; by rewrite Hk].
    destruct (call_turn_turned w k ev rq pc Hch Hk Hp) as (pc' & c' & Hm & []).
    apply (stuck_keep w); try done; rewrite t_client; [by eapply moved_state|by eapply moved_transport].
  - destruct (handlers w !! k) as [hd|] eqn:Hk; [|unfold handler_turn; by rewrite Hk].
    destruct (handler_turn_turned w k hd Hch Hk) as (pc & c' & _ & []). apply (stuck_keep w); try done; congruence.
  - by apply receiver_step_stuck.
  - unfold close_turn. rewrite (st_closers w Hw). destruct k as [|k]; [|done].
    change ([AwaitReceiver (Some 1%nat)] !! 0%nat) with (Some (AwaitReceiver (Some 1%nat))).
    cbn [close_step]. change (Some 1%nat ≫= (fun d => dones (life w) !! d)) with (dones (life w) !! 1%nat).
    rewrite (st_open w Hw). destruct Hw. by split.
  - destruct Hw. split; cbn; try done. apply Forall_app. split; [done|]. constructor; [by left|constructor].
  - unfold connect_turn. destruct (connectors w !! k) as [pc|] eqn:Hk; [|done].
    pose proof (st_connectors w Hw) as Hcn. rewrite Forall_lookup in Hcn.
    destruct (connect_step_stuck w env resolve listen pc Hw (Hcn _ _ Hk)) as (pc' & -> & Hpc').
    pose proof Hw as []. split; cbn; try done. apply Forall_insert; [done|by right].
  - apply (stuck_keep w); try done; apply Hp.
Qed.

Lemma run_stuck actions w :
  reachable true w -> possible_run true actions w ->
  existsb is_start_close actions = false -> stuck w -> stuck (run actions w).
Proof.
  revert w. induction actions as [|a l IH]; intros w Hre Hp He Hw; [done|]. destruct Hp as [Ha Hl].
  cbn in He. apply orb_false_iff in He as [Hea Hel]. apply IH; [by apply reachable_step|done|done|].
  apply perform_stuck; try done. by eapply reachable_consistent.
Qed.

Lemma lost_cancel_possible : possible_run true lost_cancel (new_world 0 []).
Proof. unfold lost_cancel. play. Qed.

(** C30. [Connect] during [Close] can hang the [Close].  [Close] reads
    [receiverCancel] and [receiverDone] one after the other.  There is a schedule
    in which a [Connect] replaces them in between: the context of the old
    connection is cancelled, the new client is connected, and [Close] waits for
    the receiver of the new connection, which nobody has told to stop.  Whatever
    happens then short of another [Close], it never returns. *)
Theorem overlap_hangs_Close :
  exists actions, possible_run true actions (new_world 0 []) /\
    let w := run actions (new_world 0 []) in
    state (client w) = StateConnected /\ connectors w = [Connected None; Connected None] /\
    forall more, possible_run true more w -> existsb is_start_close more = false ->
      closers (run more w) = [AwaitReceiver (Some 1%nat)].
Proof.
  exists lost_cancel. split; [apply lost_cancel_possible|].
  split; [vm_compute; reflexivity|]. split; [vm_compute; reflexivity|].
  intros more Hp He. apply (st_closers (run more _)). apply run_stuck; [|done..|].
  - apply reachable_run; [constructor|apply lost_cancel_possible].
  - split; [vm_compute; reflexivity..|]. vm_compute. repeat constructor; by right.
Qed.

(** The 256th request after one that still waits takes its invoke id. *)
Definition id_wrap : list Action :=
  [StartConnect] ++ connecting 0 7 ++ [StartCall request] ++ calling 0 4 ++
  concat (map (fun k => [StartCall request] ++ calling k 4 ++ timing_out k) (seq 1 256)) ++
  acknowledging 0 1 ++ [HandlerTurn 0; HandlerTurn 0].

Lemma harmless_quick_calls overlap l :
  Forall (harmless overlap) (concat (map (fun k => [StartCall request] ++ calling k 4 ++ timing_out k) l)).
Proof. induction l as [|k l IH]; [constructor|]. cbn [map concat]. schedule. Qed.
#[local] Hint Resolve harmless_quick_calls : schedule.

(** C31. Invoke ids are reused while in use.  [nextInvokeID] hands out the next
    of 256 ids without looking at [pending]: when a call waits while 256 more
    are made, the last of them gets the same id, replaces the entry of the
    waiting call and removes it when it returns.  The response to the waiting
    call is then dropped: it has arrived, nothing is pending, and the call waits
    on an empty open channel that nothing refers to any more. *)
Theorem reused_id_loses_response :
  exists actions, possible_run false actions (new_world 0 []) /\
    let w := run actions (new_world 0 []) in
    calls w !! 0%nat = Some (request, Selecting 1 0) /\ calls w !! 256%nat = Some (request, Returned (Some 1) (inr ErrTimeout)) /\
    pending (client w) = ∅ /\ chans (client w) !! 0 = Some {| buffer := None; chan_closed := false |} /\
    state (client w) = StateConnected /\ reused w = {[1]} /\
    exists npdu a h, handlers w !! 0%nat = Some h /\ is_finished h = true /\
      parse_packet (H_data h) = Ret (npdu, a) /\ APDU_Type a = PDUTypeSimpleAck /\ InvokeID a = 1.
Proof.
  exists id_wrap. split.
  - unfold id_wrap. apply possible_run_one; [done|]. apply harmless_run. schedule.
  - split; [vm_compute; reflexivity|]. split; [vm_compute; reflexivity|]. split; [vm_compute; reflexivity|].
    split; [vm_compute; reflexivity|]. split; [vm_compute; reflexivity|]. split; [vm_compute; reflexivity|].
    do 3 eexists. repeat (split; [vm_compute; reflexivity|]). vm_compute. reflexivity.
Qed.

(** A call that has looked at the state before a [Close] registers after it has
    drained. *)
Definition late_call : list Action :=
  [StartConnect] ++ connecting 0 7 ++ [StartCall request] ++ calling 0 1 ++
  [StartClose] ++ closing 0 4 ++ repeat (ReceiverTurn 0 0 idle_read) 2 ++ closing 0 3 ++ calling 0 3 ++ closing 0 1.

(** C32. [Close] can leave a call behind.  A call checks the state before it
    registers, and [Close] drains [pending] once: a call between the two when
    [Close] drains registers and sends afterwards, while the socket is still
    open.  [Close] returns nil, the receiver has stopped, and the call waits
    with an open channel: no packet and no later [Close], which returns at once,
    will wake it, only its own context. *)
Theorem Close_misses_late_call :
  exists actions, possible_run false actions (new_world 0 []) /\
    let w := run actions (new_world 0 []) in
    closers w = [Closed None] /\ all_stopped w /\ state (client w) = StateDisconnected /\
    calls w = [(request, Selecting 1 0)] /\ pending (client w) = {[ 1 := 0 ]} /\
    chans (client w) = {[ 0 := {| buffer := None; chan_closed := false |} ]} /\
    forall cr iterate, Calls.Close cr iterate (client w) = (Ret None, client w).
Proof.
  exists late_call. split.
  - unfold late_call. play.
  - do 5 (split; [vm_compute; reflexivity|]). split; [vm_compute; reflexivity|]. intros cr iterate.
    unfold Calls.Close, mbind, gets, mret.
    match goal with |- context [state ?c =? _] => replace (state c) with StateDisconnected by (vm_compute; reflexivity) end.
    reflexivity.
Qed.
