(* ===== verification/Refinement.v ===== *)
(** * What the client promises of a request ([client.go])

    An abstract specification of [sendRequest] as the user sees it, without
    channels, [pending], locks, program counters of handlers or sockets: the
    calls, each idle, with an invoke id and maybe an answer, or done; and the
    events of a run that concern them, each with the one effect it must have.
    [event] says which event a step of the goroutines is, and
    [goroutines_refine_requests] that the step has the effect of that event. *)

From S2P Require Import Prelude Enums Errors Link Apdu Tags Values Options Services Metrics Transport Device Client Calls Concurrency Interleaving Lifecycle.
#[local] Open Scope string_scope.
#[local] Open Scope list_scope.
#[local] Open Scope Z_scope.

(** ** The specification *)

Module Spec.

(** A call before it is registered; with its invoke id, its answer and whether
    the connection was closed, before and after it was sent; and with its
    result. *)
Inductive Status : Type :=
  | Idle
  | Started (id : option Z)
  | Registered (id : Z) (answer : option APDU) (closed : bool)
  | Awaiting (id : Z) (answer : option APDU) (closed : bool)
  | Done (r : APDU + error).

(** What happens: a call starts; it takes a turn, and finds the client
    connected or not, the datagram sent or not, its context ended or not; a
    response is handed to it; the connection of some calls is closed; or nothing
    that concerns a call. *)
Inductive Event : Type :=
  | Call
  | Turn (k : nat) (connected sent ended : bool)
  | Offer (k : nat) (response : APDU)
  | Drain (ks : list nat)
  | Quiet.

(** The first response is the answer; later ones, and those after the closing,
    are dropped. *)
Definition offered (response : APDU) (s : Status) : Status :=
  match s with
  | Registered id None false => Registered id (Some response) false
  | Awaiting id None false => Awaiting id (Some response) false
  | _ => s
  end.

(** A response to the request of the call. *)
Definition concerns (response : APDU) (s : Status) : Prop :=
  is_response (APDU_Type response) = true /\
  match s with Registered id _ _ | Awaiting id _ _ => InvokeID response = id | Done _ => True | _ => False end.

Definition shut (s : Status) : Status :=
  match s with
  | Registered id answer _ => Registered id answer true
  | Awaiting id answer _ => Awaiting id answer true
  | _ => s
  end.

(** A turn of a call: it completes with the result of its answer whether or not
    the connection was closed meanwhile, and waits while it has no answer. *)
Inductive turn (connected sent ended : bool) : Status -> Status -> Prop :=
  | refuse : connected = false -> turn connected sent ended Idle (Done (inr ErrNotConnected))
  | start : connected = true -> turn connected sent ended Idle (Started None)
  | number id : turn connected sent ended (Started None) (Started (Some id))
  | register id : turn connected sent ended (Started (Some id)) (Registered id None false)
  | send id answer closed :
      sent = true -> turn connected sent ended (Registered id answer closed) (Awaiting id answer closed)
  | lose id answer closed e :
      sent = false ->
      turn connected sent ended (Registered id answer closed) (Done (inr (EWrap "send request: " e EmptyString)))
  | expire id answer closed :
      ended = true -> turn connected sent ended (Awaiting id answer closed) (Done (inr ErrTimeout))
  | complete id answer closed r :
      ended = false -> result_of id (Some answer) r ->
      turn connected sent ended (Awaiting id (Some answer) closed) (Done r)
  | disconnect id :
      ended = false -> turn connected sent ended (Awaiting id None true) (Done (inr ErrConnectionClosed))
  | wait id : ended = false -> turn connected sent ended (Awaiting id None false) (Awaiting id None false)
  | rest r : turn connected sent ended (Done r) (Done r).

(** The effect of each event on the calls. *)
Definition step (e : Event) (s s' : list Status) : Prop :=
  match e with
  | Call => s' = s ++ [Idle]
  | Turn k connected sent ended =>
      exists st st', s !! k = Some st /\ turn connected sent ended st st' /\ s' = <[k := st']> s
  | Offer k response => exists st, s !! k = Some st /\ concerns response st /\ s' = <[k := offered response st]> s
  | Drain ks => s' = imap (fun k st => if bool_decide (k ∈ ks) then shut st else st) s
  | Quiet => s' = s
  end.

End Spec.

(** ** The abstraction *)

Definition answer_in (cell : option Chan) : option APDU := cell ≫= buffer.
Definition closed_in (cell : option Chan) : bool := default false (chan_closed <$> cell).

Definition abs_call (m : gmap Z Chan) (pc : CallPc) : Spec.Status :=
  match pc with
  | Checking => Spec.Idle
  | Numbering => Spec.Started None
  | Registering id => Spec.Started (Some id)
  | Sending id ch => Spec.Registered id (answer_in (m !! ch)) (closed_in (m !! ch))
  | Selecting id ch => Spec.Awaiting id (answer_in (m !! ch)) (closed_in (m !! ch))
  | Leaving _ _ r | Removing _ _ r | Returned _ r => Spec.Done r
  end.

Definition abs (w : World) : list Spec.Status := (fun call => abs_call (chans (client w)) call.2) <$> calls w.

(** The call that made the channel. *)
Definition made (ch : Z) (call : Request * CallPc) : Prop := snd <$> owns call.2 = Some ch.

#[export] Instance made_dec ch call : Decision (made ch call).
Proof. unfold made. apply _. Defined.

Definition maker (w : World) (ch : Z) : option nat := fst <$> list_find (made ch) (calls w).

(** The socket takes the datagram of a call that sends. *)
Definition sends (ev : CallEvent) (c : Client) (rq : Request) (pc : CallPc) : bool :=
  match pc with
  | Sending id _ =>
      match (transmit (R_ctx rq) (E_now ev) (R_addr rq) id (R_service rq) (R_data rq) (E_write ev) c).1 with
      | Ret (inl _, _) => true
      | _ => false
      end
  | _ => false
  end.

(** The calls whose channel is in [pending]. *)
Definition drains (w : World) (k : nat) : bool :=
  match (calls w !! k) ≫= (fun call => owns call.2) with
  | Some (id, ch) => bool_decide (pending (client w) !! id = Some ch)
  | None => false
  end.

(** The event a step of the goroutines is. *)
Definition event (w : World) (a : Action) : Spec.Event :=
  if crashed w then Spec.Quiet
  else match a with
  | StartCall _ => Spec.Call
  | CallTurn k ev =>
      match calls w !! k with
      | Some (rq, pc) => Spec.Turn k (state (client w) =? StateConnected) (sends ev (client w) rq pc) (E_done ev)
      | None => Spec.Quiet
      end
  | HandlerTurn k =>
      match H_pc <$> handlers w !! k with
      | Some (Delivering ch response) =>
          match maker w ch with Some j => Spec.Offer j response | None => Spec.Quiet end
      | _ => Spec.Quiet
      end
  | CloseTurn k _ _ =>
      match closers w !! k with
      | Some Draining => Spec.Drain (List.filter (drains w) (seq 0 (length (calls w))))
      | _ => Spec.Quiet
      end
  | _ => Spec.Quiet
  end.

(** A call reads the channel it owns, no other. *)
Lemma abs_call_same w m k rq pc :
  calls w !! k = Some (rq, pc) ->
  (forall id ch, owner w k id ch -> m !! ch = chans (client w) !! ch) ->
  abs_call m pc = abs_call (chans (client w)) pc.
Proof.
  intros Hk Hm. destruct pc as [| | |id ch|id ch| | |]; try done; cbn; by rewrite (Hm id) by (by do 2 eexists).
Qed.

(** Steps after which every call finds what it found before. *)
Lemma abs_same w w' :
  calls w' = calls w ->
  (forall k id ch, owner w k id ch -> chans (client w') !! ch = chans (client w) !! ch) ->
  abs w' = abs w.
Proof.
  intros Hc Hm. unfold abs. rewrite Hc. apply list_eq. intros k. rewrite !list_lookup_fmap.
  destruct (calls w !! k) as [[rq pc]|] eqn:Hk; [|done]. cbn. f_equal. eapply abs_call_same; [done|]. by apply Hm.
Qed.

(** Steps that change what one call sees. *)
Lemma abs_one w w' k rq pc pc' :
  calls w !! k = Some (rq, pc) -> calls w' = <[k := (rq, pc')]> (calls w) ->
  (forall j id ch, j <> k -> owner w j id ch -> chans (client w') !! ch = chans (client w) !! ch) ->
  abs w' = <[k := abs_call (chans (client w')) pc']> (abs w).
Proof.
  intros Hk Hc Hm. unfold abs. rewrite Hc. apply list_eq. intros j. rewrite list_lookup_fmap.
  destruct (decide (j = k)) as [->|Hne].
  - pose proof (lookup_lt_Some _ _ _ Hk) as Hlt.
    rewrite list_lookup_insert_eq by done. by rewrite list_lookup_insert_eq by (by rewrite length_fmap).
  - rewrite !list_lookup_insert_ne, list_lookup_fmap by done.
    destruct (calls w !! j) as [[rqj pcj]|] eqn:Hj; [|done]. cbn. f_equal. eapply abs_call_same; [done|].
    intros id ch. by apply Hm.
Qed.

Lemma abs_lookup w k rq pc : calls w !! k = Some (rq, pc) -> abs w !! k = Some (abs_call (chans (client w)) pc).
Proof. intros Hk. unfold abs. by rewrite list_lookup_fmap, Hk. Qed.

(** A status with an open request is that of an owner. *)
Lemma abs_waits w k id ans closed :
  abs w !! k = Some (Spec.Registered id ans closed) \/ abs w !! k = Some (Spec.Awaiting id ans closed) ->
  exists ch, owner w k id ch /\ ans = answer_in (chans (client w) !! ch) /\ closed = closed_in (chans (client w) !! ch).
Proof.
  unfold abs. rewrite list_lookup_fmap. destruct (calls w !! k) as [[rq pc]|] eqn:Hk; [|by intros [|]].
  cbn. intros [[= H]|[= H]]; destruct pc; try done; cbn in H; injection H as <- <- <-;
    (exists ch; split; [by do 2 eexists|done]).
Qed.

(** ** Calls *)

(** What a call in its [select] does, exactly. *)
Lemma select_exact w k id ch rq ev pc' c' :
  channels w -> owner w k id ch -> call_step rq ev (Selecting id ch) (client w) = (Ret pc', c') ->
  Spec.turn (state (client w) =? StateConnected) false (E_done ev)
    (abs_call (chans (client w)) (Selecting id ch)) (abs_call (chans c') pc').
Proof.
  intros Hw Ho. cbn [call_step abs_call]. unfold mbind at 1. destruct (E_done ev) eqn:Hd.
  { intros E. injection E as <- <-. by apply Spec.expire. }
  destruct (ch_alloc w Hw _ _ _ Ho) as [[b cl] Hc]. unfold receive_from. rewrite Hc. cbn [buffer chan_closed].
  destruct b as [a|].
  - pose proof (ch_buffer w Hw _ _ _ _ _ Ho Hc eq_refl) as Ha. pose proof Ha as (h & hd & npdu & _ & _ & Hr & Hi).
    match goal with |- context [set_chans ?m ?c] => destruct (settle_effect (E_elapsed ev) (Response a) (set_chans m c))
      as (r & c1 & E & _ & Hres) end.
    { intros a' [= <-]. split; [by eapply carried_wf|done]. }
    unfold mbind, mret. rewrite E. intros [= <- <-]. rewrite Hi in Hres. by apply Spec.complete.
  - destruct cl.
    + intros E. injection E as <- <-. by apply Spec.disconnect.
    + intros [= <- <-]. cbn. rewrite Hc. by apply Spec.wait.
Qed.

(** Every turn of a call is a turn of the specification. *)
Lemma call_step_turn w k rq ev pc pc' c' :
  channels w -> calls w !! k = Some (rq, pc) -> call_step rq ev pc (client w) = (Ret pc', c') ->
  moved w c' pc pc' ->
  Spec.turn (state (client w) =? StateConnected) (sends ev (client w) rq pc) (E_done ev)
    (abs_call (chans (client w)) pc) (abs_call (chans c') pc').
Proof.
  intros Hw Hk E Hm. destruct pc as [| |id|id ch|id ch|id ch r|id ch r|id r].
  - cbn [call_step] in E. unfold mbind, gets, mret in E.
    destruct (state (client w) =? StateConnected); injection E as <- <-; by constructor.
  - inversion Hm; subst. apply Spec.number.
  - inversion Hm as [| | |? ch _ B| | | | | | |]; subst. cbn. rewrite (b_chans _ _ _ _ _ _ B), lookup_insert_eq.
    apply Spec.register.
  - cbn [call_step sends] in *. unfold mbind in E.
    destruct (transmit _ _ _ _ _ _ _ _) as [[[[[]|e] out]| | |] c1]; try done;
      injection E as <- <-; inversion Hm as [| | | |? ? B|? ? ? B| | | | |]; subst; cbn [abs_call].
    + rewrite (b_chans _ _ _ _ _ _ B). by apply Spec.send.
    + by apply Spec.lose.
  - eapply (select_exact w k id ch rq); [done|by do 2 eexists|done].
  - inversion Hm; subst. apply Spec.rest.
  - inversion Hm; subst. apply Spec.rest.
  - inversion Hm; subst. apply Spec.rest.
Qed.

(** What a turn of a call does to the other channels. *)
Lemma moved_others w c' pc pc' ch :
  moved w c' pc pc' -> (forall id, owns pc <> Some (id, ch)) -> is_Some (chans (client w) !! ch) ->
  chans c' !! ch = chans (client w) !! ch.
Proof.
  intros Hm Ho [cell Hc]. destruct Hm; match goal with B : becomes _ _ _ _ _ _ |- _ => rewrite (b_chans _ _ _ _ _ _ B) end; try done.
  - apply lookup_insert_ne. congruence.
  - match goal with H : forall ch', ch' <> _ -> _ |- _ => apply H end. intros ->. by apply (Ho id).
Qed.

Lemma call_turn_refines w k ev :
  channels w -> crashed w = false -> (forall addr p, no_panic (E_write ev addr p)) ->
  Spec.step (event w (CallTurn k ev)) (abs w) (abs (call_turn k ev w)).
Proof.
  intros Hw Hrun Hwr. unfold event. rewrite Hrun.
  destruct (calls w !! k) as [[rq pc]|] eqn:Hk; [|unfold call_turn; by rewrite Hk].
  destruct (call_turn_steps w k ev rq pc Hw Hk Hwr) as (pc' & c' & E & Hm & Ht).
  exists (abs_call (chans (client w)) pc), (abs_call (chans c') pc').
  split; [by eapply abs_lookup|]. split; [by eapply call_step_turn|].
  erewrite (abs_one w); [|exact Hk|apply (t_calls _ _ _ _ _ _ _ Ht)|]; rewrite (t_client _ _ _ _ _ _ _ Ht); [done|].
  intros j id ch Hne Hj. eapply moved_others; [done| |by eapply (ch_alloc w Hw)].
  intros id' Ho. apply Hne. eapply (ch_distinct w Hw); [done|]. by do 2 eexists.
Qed.

(** ** Handlers *)

Lemma maker_Some w ch j : maker w ch = Some j -> exists id, owner w j id ch.
Proof.
  unfold maker. intros H. apply fmap_Some in H as ([j' [rq pc]] & Hf & ->).
  apply list_find_Some in Hf as (Hj & Hm & _). unfold made in Hm. cbn in Hm.
  destruct (owns pc) as [[id ch']|] eqn:Ho; [|done]. injection Hm as ->. exists id, rq, pc. by split.
Qed.

Lemma maker_None w ch j id : maker w ch = None -> ~ owner w j id ch.
Proof.
  unfold maker. intros H (rq & pc & Hj & Ho). apply fmap_None, list_find_None in H.
  eapply (proj1 (Forall_lookup _ _) H); [exact Hj|]. unfold made. cbn. by rewrite Ho.
Qed.

Lemma maker_owner w k id ch : channels w -> owner w k id ch -> maker w ch = Some k.
Proof.
  intros Hw Ho. destruct (maker w ch) as [j|] eqn:E.
  - apply maker_Some in E as [id' Hj]. f_equal. by eapply (ch_distinct w Hw).
  - by apply (maker_None _ _ k id) in E.
Qed.

(** What a handler that holds a response does, exactly. *)
Lemma deliver_exact w k hd ch a cell :
  handlers w !! k = Some hd -> H_pc hd = Delivering ch a -> chans (client w) !! ch = Some cell ->
  calls (handler_turn k w) = calls w /\
  chans (client (handler_turn k w)) =
    match cell with
    | {| buffer := None; chan_closed := false |} => <[ch := {| buffer := Some a; chan_closed := false |}]> (chans (client w))
    | _ => chans (client w)
    end.
Proof.
  intros Hk Hpc Hc. unfold handler_turn, recovered, handler_step, mbind, try_send. rewrite Hk, Hpc, Hc.
  by destruct cell as [[b|] [|]].
Qed.

Lemma handler_turn_refines w k :
  channels w -> crashed w = false -> Spec.step (event w (HandlerTurn k)) (abs w) (abs (handler_turn k w)).
Proof.
  intros Hw Hrun. unfold event. rewrite Hrun.
  destruct (handlers w !! k) as [hd|] eqn:Hk; [|unfold handler_turn; by rewrite Hk]. cbn [fmap option_fmap option_map].
  destruct (handler_turn_turned w k hd Hw Hk) as (pc & c' & Hm & Ht).
  assert (chans c' = chans (client w) -> abs (handler_turn k w) = abs w) as Hsame.
  { intros Hc. apply abs_same; [apply Ht|]. intros. by rewrite (h_client _ _ _ _ _ _ Ht), Hc. }
  destruct (H_pc hd) as [|ch a|] eqn:Hpc; [by apply Hsame; destruct Hm; congruence| |by apply Hsame; destruct Hm; congruence].
  destruct (ch_held w Hw _ _ _ _ Hk Hpc) as ([cell Hcell] & _ & Hresp & Hid).
  destruct (deliver_exact w k hd ch a cell Hk Hpc Hcell) as [Hcalls Hchans].
  assert (forall ch', ch' <> ch -> chans (client (handler_turn k w)) !! ch' = chans (client w) !! ch') as Hothers.
  { intros ch' Hne. rewrite Hchans. destruct cell as [[|] [|]]; try done. by apply lookup_insert_ne. }
  destruct (maker w ch) as [j|] eqn:Ej; cbn [Spec.step].
  - apply maker_Some in Ej as [id Ho]. pose proof Ho as (rq & pcj & Hj & Howns).
    exists (abs_call (chans (client w)) pcj). split; [by eapply abs_lookup|]. split.
    + split; [done|]. pose proof (Hid _ _ Ho). destruct pcj; try done; cbn in Howns |- *; congruence.
    + rewrite (abs_one w _ j rq pcj pcj Hj).
      * f_equal. rewrite Hchans. destruct pcj; try done; cbn in Howns; injection Howns as -> ->; cbn [abs_call];
          destruct cell as [[b|] [|]]; rewrite ?Hcell, ?lookup_insert_eq; try done; cbn; by rewrite Hcell.
      * by rewrite Hcalls, list_insert_id.
      * intros i id' ch' Hne Hi. apply Hothers. intros ->. apply Hne. by eapply (ch_distinct w Hw).
  - apply abs_same; [done|]. intros j id ch' Hj. apply Hothers. intros ->. by eapply maker_None.
Qed.

(** ** [Close] and the rest *)

Lemma drains_spec w k id ch : owner w k id ch -> drains w k = true <-> pending (client w) !! id = Some ch.
Proof. intros (rq & pc & Hk & Ho). unfold drains. rewrite Hk. cbn. rewrite Ho. by rewrite bool_decide_eq_true. Qed.

Lemma drained_calls w k : k ∈ List.filter (drains w) (seq 0 (length (calls w))) <-> drains w k = true.
Proof.
  rewrite list_elem_of_In, filter_In, in_seq. split; [by intros []|]. intros H. split; [|done].
  unfold drains in H. destruct (calls w !! k) eqn:Hk; [|done]. apply lookup_lt_Some in Hk. lia.
Qed.

(** The drain closes the channels of the calls in [pending]. *)
Lemma drain_refines w w' chs :
  channels w -> calls w' = calls w -> closes chs (chans (client w)) (chans (client w')) ->
  (forall ch, ch ∈ chs <-> exists id, pending (client w) !! id = Some ch) ->
  Spec.step (Spec.Drain (List.filter (drains w) (seq 0 (length (calls w))))) (abs w) (abs w').
Proof.
  intros Hw Hca [Hout Hin] Hchs. cbn [Spec.step]. unfold abs. rewrite Hca. apply list_eq. intros k.
  rewrite list_lookup_imap, !list_lookup_fmap. destruct (calls w !! k) as [[rq pc]|] eqn:Hk; [|done]. cbn. f_equal.
  destruct (owns pc) as [[id ch]|] eqn:Ho.
  - assert (owner w k id ch) as Hown by (by exists rq, pc).
    assert (k ∈ List.filter (drains w) (seq 0 (length (calls w))) <-> ch ∈ chs) as Hk'.
    { rewrite drained_calls, (drains_spec _ _ _ _ Hown), Hchs. split; [by eexists|]. intros [id' Hp].
      destruct (ch_pending w Hw _ _ Hp) as [j Hj]. pose proof (ch_distinct w Hw _ _ _ _ _ Hj Hown) as ->.
      by destruct (owner_unique _ _ _ _ _ _ Hj Hown) as [-> _]. }
    case_bool_decide as Hd; rewrite Hk' in Hd.
    + destruct (Hin _ Hd) as (b & Hb & Hb').
      destruct pc; try done; cbn in Ho; injection Ho as -> ->; cbn; by rewrite Hb, Hb'.
    + destruct pc; try done; cbn in Ho; injection Ho as -> ->; cbn; by rewrite Hout.
  - by case_bool_decide; destruct pc.
Qed.

Lemma close_turn_refines w k cr iterate :
  channels w -> crashed w = false -> no_panic cr -> (forall p, iterate p ≡ₚ (map_to_list p).*2) ->
  Spec.step (event w (CloseTurn k cr iterate)) (abs w) (abs (close_turn k cr iterate w)).
Proof.
  intros Hw Hrun Hcr Hit. unfold event, close_turn. rewrite Hrun. destruct (closers w !! k) as [pc|] eqn:Hk; [|done].
  destruct (close_step_moves w cr iterate pc Hw Hcr Hit) as (pc' & w1 & -> & Hm).
  destruct Hm as [_ []|[]|[]|_ []|? _ []|[]|pc Hb []|? _ []|_ []|chs m Hcs Hchs []|? []];
    try (apply abs_same; cbn; [done|congruence]).
  - destruct pc; try done; (apply abs_same; cbn; [done|congruence]).
  - apply (drain_refines w _ chs); [done|done| |done]. cbn. by rewrite l_chans.
Qed.

(** Steps that concern no call. *)
Lemma other_turn_refines overlap w a :
  crashed w = false -> possible overlap w a ->
  match a with StartCall _ | CallTurn _ _ | HandlerTurn _ | CloseTurn _ _ _ => False | _ => True end ->
  abs (perform a w) = abs w.
Proof.
  intros Hrun Hp Ha. unfold perform. rewrite Hrun. destruct a; cbn [possible] in Hp; try done.
  - destruct (receiver_step_moves w k now read Hp)
      as [->|? ? _ _ _ _ []|? ? ? _ _ _ [] ->|? ? _ _ _ []|? w1 _ _ _ Hc Hca _ _ _ ->]; [done|..];
      (apply abs_same; cbn; [done|intros; rewrite ?l_chans, ?Hc; done]).
  - destruct Hp as (Hwr & Hres & Hlis). unfold connect_turn. destruct (connectors w !! k) as [pc|]; [|done].
    destruct (connect_step_moves w env resolve listen pc Hwr Hres Hlis) as (pc' & w1 & -> & Hm).
    destruct Hm as [? _ []|_ []|? []|[]|[]|[]|[]|[]|? []|? []]; (apply abs_same; cbn; [done|by intros; rewrite l_chans]).
  - apply abs_same; cbn; [done|]. intros. by rewrite (else_chans _ _ Hp).
Qed.

Lemma perform_refines overlap w a :
  channels w -> possible overlap w a -> Spec.step (event w a) (abs w) (abs (perform a w)).
Proof.
  intros Hw Hp. destruct (crashed w) eqn:Hrun; [unfold event, perform; by rewrite Hrun|].
  destruct a; try (unfold event; rewrite Hrun; by apply (other_turn_refines overlap));
    unfold perform; rewrite Hrun; cbn [possible] in Hp.
  - unfold event. rewrite Hrun. unfold abs. cbn [calls set_calls client Spec.step]. by rewrite fmap_app.
  - by apply call_turn_refines.
  - by apply handler_turn_refines.
  - destruct Hp. by apply close_turn_refines.
Qed.

(** ** The theorem *)

(** A response that is handed over was in the packet of the handler. *)
Lemma offer_source w a k response :
  channels w -> event w a = Spec.Offer k response ->
  exists h hd npdu, a = HandlerTurn h /\ handlers w !! h = Some hd /\ parse_packet (H_data hd) = Ret (npdu, response).
Proof.
  intros Hw. unfold event. destruct (crashed w); [done|]. destruct a as [|k0 ev|h|k0| |k0| | |]; try done.
  - by destruct (calls w !! k0) as [[? ?]|].
  - destruct (handlers w !! h) as [hd|] eqn:Hh; [|done]. cbn. destruct (H_pc hd) as [|ch r|] eqn:Hpc; try done.
    destruct (maker w ch); [|done]. intros [= -> ->].
    destruct (ch_held w Hw _ _ _ _ Hh Hpc) as (_ & [npdu Hp] & _). by exists h, hd, npdu.
  - by destruct (closers w !! k0) as [[]|].
Qed.

(** A request that can be answered has its entry in [pending]. *)
Lemma open_pending w k id ch :
  consistent w -> owner w k id ch -> closed_in (chans (client w) !! ch) = false -> id ∉ reused w ->
  pending (client w) !! id = Some ch.
Proof.
  intros Hw Ho Hcl Hid. destruct (ac_kept w (con_accounts w Hw) _ _ _ Ho) as [H|[(cell & Hc & Hx)|?]]; [done| |done].
  rewrite Hc in Hcl. cbn in Hcl. congruence.
Qed.

Lemma handler_offers w k h hd npdu response id ch :
  consistent w -> crashed w = false -> owner w k id ch -> pending (client w) !! id = Some ch ->
  handlers w !! h = Some hd -> H_pc hd = Arrived -> parse_packet (H_data hd) = Ret (npdu, response) ->
  is_response (APDU_Type response) = true -> InvokeID response = id ->
  event (perform (HandlerTurn h) w) (HandlerTurn h) = Spec.Offer k response.
Proof.
  intros Hw Hrun Ho Hpe Hh Harr Hp Hr Hi. rewrite <- Hi in Hpe.
  destruct (handler_looks_up w h hd npdu response ch Hw Hrun Hh Harr Hp Hr Hpe) as (Hca & _ & Hrun' & hd' & Hh' & Hpc').
  unfold event. rewrite Hrun', Hh'. cbn [fmap option_fmap option_map]. rewrite Hpc'.
  unfold maker. rewrite Hca. fold (maker w ch).
  by rewrite (maker_owner w k id ch (con_channels w Hw) Ho).
Qed.

(** C3. The goroutines implement the specification of a request.  Under the
    abstraction that shows of a call whether it is idle, open (with its invoke
    id, the content of its channel and whether that is closed) or done, every
    step of every interleaving of calls, packets, [Connect]s and [Close]s has
    exactly the effect of its event.  A turn of a call that waits times out if it
    sees its context ended; if not, it completes with the result of its answer
    if it has one, else fails if the connection was closed, else goes on waiting.
    The answer is the first response a handler hands over while the
    channel is open, and is never replaced; handlers of several responses
    may come in any order.  Such a response is from the
    packet of the handler and carries the id of the request.  And unless its
    invoke id was given to another call, an open request is missed neither by a
    handler, which after looking it up hands its response to just this call, nor
    by the draining of a [Close]. *)
Theorem goroutines_refine_requests overlap w a :
  reachable overlap w -> possible overlap w a ->
  Spec.step (event w a) (abs w) (abs (perform a w)) /\
  (forall k response, event w a = Spec.Offer k response ->
     exists h hd npdu, a = HandlerTurn h /\ handlers w !! h = Some hd /\
       parse_packet (H_data hd) = Ret (npdu, response)) /\
  (forall k id answer,
     abs w !! k = Some (Spec.Registered id answer false) \/ abs w !! k = Some (Spec.Awaiting id answer false) ->
     id ∉ reused w ->
     (forall ks, event w a = Spec.Drain ks -> k ∈ ks) /\
     (forall h hd npdu response,
        crashed w = false -> handlers w !! h = Some hd -> H_pc hd = Arrived ->
        parse_packet (H_data hd) = Ret (npdu, response) -> is_response (APDU_Type response) = true ->
        InvokeID response = id ->
        event (perform (HandlerTurn h) w) (HandlerTurn h) = Spec.Offer k response)).
Proof.
  intros Hre Hp. pose proof (reachable_consistent _ _ Hre) as Hw. split; [|split].
  - by apply (perform_refines overlap); [apply con_channels|].
  - intros k response. by apply offer_source, con_channels.
  - intros k id answer (ch & Ho & _ & Hcl)%abs_waits Hid. pose proof (open_pending w k id ch Hw Ho (eq_sym Hcl) Hid) as Hpe.
    split; [|intros; by eapply handler_offers].
    intros ks. unfold event. destruct (crashed w); [done|]. destruct a as [|k0 ev|h|k0| |k0| | |]; try done.
    + by destruct (calls w !! k0) as [[? ?]|].
    + destruct (handlers w !! h) as [hd|]; [|done]. cbn. destruct (H_pc hd) as [|ch0 r|]; try done. by destruct (maker w ch0).
    + destruct (closers w !! k0) as [[]|]; try done. intros [= <-]. by apply drained_calls, (drains_spec _ _ _ _ Ho).
Qed.

(** The acknowledgement to the waiting call is looked up, then handed over. *)
Lemma goroutines_refine_requests_witness :
  let ack := {| APDU_Type := PDUTypeSimpleAck; Segmented := false; MoreFollows := false; MaxSegments := 0;
                MaxAPDU := 0; InvokeID := 1; SequenceNum := 0; WindowSize := 0; Service := 15; APDU_Data := [] |} in
  let w := perform (HandlerTurn 0) before_response in
  event w (HandlerTurn 0) = Spec.Offer 0 ack /\
  Spec.step (Spec.Offer 0 ack) (abs w) (abs (perform (HandlerTurn 0) w)) /\
  abs (perform (HandlerTurn 0) w) = [Spec.Awaiting 1 (Some ack) false].
Proof.
  intros ack w.
  assert (event w (HandlerTurn 0) = Spec.Offer 0 ack) as E.
  { destruct (goroutines_refine_requests false before_response (HandlerTurn 0) (before_response_reachable false) I) as (_ & _ & H).
    destruct (H 0%nat 1 None) as [_ H']; [right; vm_compute; reflexivity|vm_compute; discriminate|].
    apply (H' 0%nat {| H_data := [0x81; 0x0A; 0; 9; 1; 0; 0x20; 1; 15]; H_addr := peer; H_pc := Arrived |}
      (direct_npdu false [0x20; 1; 15])); vm_compute; reflexivity. }
  split; [exact E|]. split; [|vm_compute; reflexivity].
  destruct (goroutines_refine_requests false w (HandlerTurn 0)) as (Hstep & _).
  - exact (reachable_step false before_response (HandlerTurn 0) (before_response_reachable false) I).
  - exact I.
  - rewrite E in Hstep. exact Hstep.
Defined.
